(* ===== verification/_CoqProject ===== *)
-Q . S2P
Prelude.v
Plugin.v
Registry.v
Scan.v
OpiClient.v
Net.v
VendorPlugin.v
BlueField.v
GrpcPlugin.v
DevicePlugin.v
GoMonad.v
CniTypes.v
SriovUtils.v
Packet.v
Sriov.v
CniServer.v
NetworkFn.v
SideManagers.v
Platform.v
Detect.v
Kube.v
Daemon.v
Encode.v
Controller.v
Pods.v
SfcController.v
Sfc.v
Cluster.v
Render.v
OperatorConfig.v
DpuConfig.v
DpuController.v
VspNet.v
Netsec.v
MrvlUtils.v
DataPlane.v
Marvell.v
Serve.v
DaemonServe.v
Links.v
NetsecPorts.v
EndToEnd.v
KubeletServer.v
Metrics.v
Sockets.v
Injector.v
EntryPoints.v
Helpers.v
NfEndToEnd.v
MarvellEndToEnd.v
