(* ===== verification/Prelude.v ===== *)
(** * DPU operator: a verification development

    The DPU operator runs data processing units (DPUs: Intel IPU and Netsec, Marvell
    Octeon, NVIDIA BlueField, xSight, MangoBoost) in a Kubernetes cluster.  On every
    node a daemon detects DPUs, drives each of them through a vendor plugin, hands
    virtual functions to pods through a CNI, and mirrors what it found as resources of
    the cluster.  The development models the Go code of src/ that decides what happens;
    sockets, processes and generated code are parameters.

    ** Files, components and sources

    - Prelude.v: results and errors, Go's string and integer functions, record update,
      sorting, automation ([HintDb]s, tactics).  GoMonad.v: computations with state that
      may panic, Go's error idioms, [defer], retries, file paths; what a computation
      preserves, total correctness ([wp]) and freedom from panics ([total]).
    - Plugin.v: pkg/plugin/{types,errors,interface}.go, the plugin interfaces as classes.
      Registry.v: registry.go.  Scan.v: scan.go and pci/scanner.go.
    - OpiClient.v: pkg/opi/client.go, connections and calls.  VendorPlugin.v: the Intel,
      Marvell, xSight and MangoBoost plugins, one parametrised model.  BlueField.v:
      nvidia/bluefield.go.  Net.v: hardware addresses.
    - GrpcPlugin.v: internal/daemon/plugin/vendorplugin.go, the plugin the daemon uses: a
      registry plugin first, the vendor-specific process (VSP) otherwise; the class
      [VendorOps] is what it promises to the device handler and the side managers.
    - DevicePlugin.v: the kubelet device plugin and its device handler.  KubeletServer.v:
      how its server is started, announced to the kubelet and stopped.
    - CniTypes.v, SriovUtils.v, Packet.v, Sriov.v: dpu-cni/pkgs/{cnitypes,sriovtypes,
      sriovutils,sriovconfig,sriov}, the SR-IOV CNI of the host side.  NetworkFn.v:
      dpu-cni/pkgs/networkfn, the CNI of the DPU side.  CniServer.v: cniserver, cnihelper,
      the shim, and the way of a request from the shim to the server and back.
    - SideManagers.v: internal/daemon/{hostsidemanager,dpusidemanager}.go, the CNI
      handlers, bridge ports and pings.  Sockets.v: how the sides start, what they and the
      vendor-specific processes listen on, and how the listeners are closed.
    - Platform.v, Detect.v: internal/platform.  Kube.v: the API server as a client sees
      it.  Daemon.v: internal/daemon/daemon.go, a pass of its loop and the loop;
      DaemonServe.v: the goroutines [Serve] starts and how [shutdown] ends them.
    - Encode.v: encoding/json on strings and structs, SHA-256.  Controller.v: what
      reconcilers share (results, owner references, finalizers, reaching a state by
      repeated steps).  Pods.v: pods, chains, and the API server with its kubelets.
      SfcController.v: internal/controller/servicefunctionchain_controller.go.  Sfc.v:
      internal/daemon/sfc-reconciler.
    - Cluster.v: cluster and host flavours, paths, files, images, the webhook
      (internal/utils, internal/images, api/v1).  Render.v: pkgs/render.
      OperatorConfig.v, DpuConfig.v, DpuController.v: the three other reconcilers of
      internal/controller, with the label selectors and conditions of apimachinery.
    - VspNet.v: internal/daemon/vendor-specific-plugins/common, the machine a
      vendor-specific process runs on (class [HostOps]) and a server on it.  Netsec.v:
      intel-netsec/main.go.  MrvlUtils.v, DataPlane.v, Marvell.v: marvell/{mrvl-utils,
      ovs-dp,debug-dp,cp-agent,main.go}; the class [FlowContract] is what a data plane
      promises to the Marvell server.
    - Serve.v: the goroutines of [Serve] and [Stop] in the side managers and the
      vendor-specific processes.
    - Links.v: the calls between the processes, a server and its transport.  NetsecPorts.v:
      what the bridge ports of the Netsec server promise, as an abstract specification.
      EndToEnd.v: the host's daemon, the daemon of the DPU, its vendor plugin and the Netsec
      process composed, from the request for a pod to the bridge of the DPU.  NfEndToEnd.v:
      the same for network functions, from the CNI of the DPU side.  MarvellEndToEnd.v: a
      pod of the host on a Marvell DPU.
    - Metrics.v: pkg/metrics, with the classification of API errors.  Injector.v: cmd/nri,
      the network-resources injector, with the control switches it polls.
    - EntryPoints.v: cmd/daemon and cmd/main.go, what is prepared and set up before the
      daemon and the operator run.  Helpers.v: dpu-cni/pkgs/cnilogging and
      internal/daemon/device-handler/utils.go.

    The state of a component is a record with the fields of the Go struct; what lies
    outside of it (a VSP, an OPI bridge, netlink, the file system, the API server) is a
    type with a class of operations.  An operation of the code is one definition with
    the same name where that is free (otherwise prefixed: [BF_Initialize],
    [HostCreateBridgePort], [NfCmdAdd]); code shared word for word by several vendors
    is modelled once.  A method under a lock is one atomic step; interleavings of
    goroutines are step relations ([Registry.step], [dp_step], [dpu_step], [sys_step],
    [go_step], [host_step], [daemon_step]).  Go's iteration over maps takes an arbitrary order, given as an
    argument.  A nil dereference and an index out of range are panics, machine integers are [Z] with
    their wrap-around.

    ** What the theorems show

    - Plugins: the registry answers lookups as its abstract specification, a set of
      plugins with disjoint device ids; registration is undone by unregistration;
      discovery reports the supported devices, and none on a real bus, whose entries are
      symbolic links; a plugin holds connections exactly while initialized.
    - Hybrid plugin: fallback to the VSP, retry spacing, identifier matching, round
      trips, the start loop, and how closing one of two users breaks the other.
    - Device plugin: under all interleavings granted devices were announced healthy; its
      server is announced to the kubelet only once it serves, and stops when it is told to,
      except that a stop that comes before [Listen] makes it panic.
    - CNI: adding a virtual function records it and never gives it to two pods; what
      deletion releases, and the three situations in which it does not; packets,
      identifiers and the request path; the shim ends with what the handler in the daemon
      answered, an error when it panicked; on the DPU side a device comes back as it
      went; network functions follow the pods' interfaces.
    - Detection: resources of one pass have different names; serial numbers are missed
      and names are invalid in two cases the code means to handle.
    - Daemon: a synchronisation refines "the cluster shows exactly this node's units";
      managed units follow detection; readiness implies synchronisation on a
      healthy API server and does not on a refusing one; VF counts from annotations.
      Its shutdown ends unless two routines fail during it, in which case it may hang; a
      unit that goes away too early stops the whole daemon.
    - Service function chains: repeated reconciliations reach the chain's pods in their
      current specification and stay there; nothing but the chain's pods is touched;
      two chains can be in conflict; the daemon's reconciler adds what is missing.
    - Operator: template expansion is substitution, application and clean-up of a
      directory of manifests cancel; a configuration deploys its five directories and
      reports the truth; it runs only when all its parts are set up; a failed clean-up is
      forgotten; a DPU configuration marks the
      resources it selects, and never gets its VF count to them.
    - Vendor-specific processes: the waits end; Netsec keeps its devices and ports in
      step, a bridge port is removed as it was made, a second initialization strands
      ports; on the Marvell DPU the rules of network functions come and go together but
      are shadowed by the NORMAL flow, bridge ports map to VFs whatever their PF, and
      the host reports its VFs as unhealthy.
    - Composition: a pod of the host that is added gets the port of its VF on the DPU,
      with its MAC address, and deleting it takes the port away again; the Netsec server
      refines a set of plugged VFs; a pod of the DPU with two interfaces gets a network
      function and loses it again; no request of the host takes a process of the DPU down;
      a port that was not deleted makes its VF unusable.  On a Marvell DPU a pod's port goes
      as it came, and a port that was not deleted outlives the next pod of its VF.
    - Sockets: a side that has started is reached at both of its sockets, whatever was there
      before; a second side on the same node cuts the first off, and is cut off itself when
      the first is stopped.
    - Operator metrics: the counters agree with each other, errors have thirteen classes,
      and a failed reconciliation is counted as a success unless the configuration could
      not be read.  Injector: it starts with sensible flags only, a changed certificate
      pair is always loaded, and switches outlive the map that set them.
    - Serving: a side manager whose context is cancelled stops, however its goroutines
      interleave; a failing server alone does not stop it; the vendor-specific processes
      never return from [Serve].

    ** Bounds and fuel

    [serial_loop] has one unit of fuel per byte of the configuration space and is proved
    never to run out; [GrpcPlugin.Start] has a number of turns as fuel and is proved to
    return when the VSP answers within them.  [wait_loop] gets enough fuel for one
    attempt per pause until the timeout, and is proved not to use it up on a clock that
    counts its sleeps ([VspNet.waits_end]).  [wait_gone] makes the number of polls of
    the code's time-out, [host_interface_loop] its nine turns; [pieces] gets the length
    of the list it cuts up.  The other recursions are structural.  Strings are ASCII
    where Go's case mapping is used.  Clocks are arguments.

    ** Hypotheses on the environment

    [KernelLaws] (network interfaces), [HealthyAPI], [HealthyPods], [HealthyObjects],
    [HealthyConfigs], [HealthyDpuConfigs] (the API server, for the calls of each
    component), [hardware_ok] (PCI addresses are unique, files hold bytes), [ClockLaws]
    (time does not run backwards), [OvsLaws], [OvsFlows] (what ovs-vsctl and ovs-ofctl
    do), [PlainNames], [HostNames] (interfaces are named without separators and colons,
    PCI addresses with colons), [WorkingMachine] (the kernel and ovs-vsctl do what they are
    asked to with the interfaces there are), [Declines], [DeclinesNf] (a registry plugin
    leaves bridge ports and network functions to the VSP), [SocketLaws], [SideFrame]
    (net.Listen and os.Remove on socket files; what is not a socket call leaves them alone),
    [json_ok] (a request and a response come back from JSON as they went),
    [CountsReloads] state documented behaviour; each theorem that uses one has a witness at a concrete instance.  The
    errors of the transport ([unavailable], [status]), the status an API error carries
    ([APIStatus]) and JSON ([SwitchJSON]) are parameters without laws.

    ** Not modelled

    pkgs/drain, two calls into a vendored library that nothing calls; generated code
    (api.pb.go, deep copies); gRPC and HTTP transport, TLS; the admission of pods in the
    network-resources injector, which is third-party code; flags, loggers and the version
    strings of the entry points, and the mains of cmd/intelvsp and dpu-cni, which only call
    third-party code; the registration of reconcilers with the controller manager
    (SetupWithManager); test utilities and tools. *)
From Stdlib Require Export ZArith Ascii String.
From Stdlib Require Import DecimalString DecimalZ DecimalPos DecimalFacts.
From stdpp Require Export prelude strings gmap sorting.
From Hammer Require Export Tactics.
Open Scope string_scope.
Open Scope list_scope.
Set Default Goal Selector "!".
#[global] Arguments String.append (s1 s2)%_string_scope : simpl nomatch.

(** * Results and errors *)

(** The gRPC status codes the program distinguishes (google.golang.org/grpc/codes). *)
Inductive code := OK | NotFound | Unimplemented | Unavailable | Unknown.
#[export] Instance code_eq_dec : EqDecision code.
Proof. solve_decision. Defined.

(** The package-level sentinel errors of pkg/plugin/errors.go. *)
Inductive sentinel :=
  | ErrNotImplemented | ErrPluginNotFound | ErrDeviceNotFound | ErrNotInitialized
  | ErrAlreadyInitialized | ErrCapabilityNotSupported | ErrInvalidConfig
  | ErrConnectionFailed | ErrResourceNotFound | ErrResourceExists | ErrOperationFailed.
#[export] Instance sentinel_eq_dec : EqDecision sentinel.
Proof. solve_decision. Defined.

(** Go error values, by how they were built: a sentinel, [errors.New] or
    [fmt.Errorf] without [%w] (only a text), [fmt.Errorf("...%w")] (a text and
    the wrapped error), the two wrapper structs of pkg/plugin/errors.go, and a
    gRPC status error. *)
Inductive error :=
  | Sentinel (s : sentinel)
  | Text (msg : string)
  | Wrap (msg : string) (err : error)
  | PluginErr (plugin op : string) (err : error) (details : string)
  | DeviceErr (device op : string) (err : error)
  | Status (c : code) (desc : string).
#[export] Instance error_eq_dec : EqDecision error.
Proof. solve_decision. Defined.

Inductive result (A : Type) := Ok (a : A) | Err (e : error).
Arguments Ok {_} _.
Arguments Err {_} _.
#[export] Instance result_eq_dec {A} `{!EqDecision A} : EqDecision (result A).
Proof. solve_decision. Defined.

Definition is_ok {A} (r : result A) : bool := match r with Ok _ => true | Err _ => false end.
Definition err_of {A} (r : result A) : option error :=
  match r with Ok _ => None | Err e => Some e end.
Definition rmap {A B} (f : A → B) (r : result A) : result B :=
  match r with Ok a => Ok (f a) | Err e => Err e end.
(** [if err != nil { return nil, f(err) }]. *)
Definition rerr {A} (f : error → error) (r : result A) : result A :=
  match r with Ok a => Ok a | Err e => Err (f e) end.

Declare Scope go_scope.
Delimit Scope go_scope with go.
Notation "'let?' x ':=' r 'in' k" :=
  (match r with Ok x => k | Err e => Err e end)
  (at level 10, x pattern, r at level 200, k at level 200) : go_scope.
Open Scope go_scope.

(** * Record update

    [r <| f := v |>] is [r] with field [f] replaced.  A record type takes part by an
    instance of [Eta], its expansion [λ r, mk (f1 r) (f2 r) ...]; the setter of a
    field is found by abstracting the field out of that expansion. *)
Class Eta (R : Type) := eta : R → R.
Class Setter {R T : Type} (proj : R → T) := update : (T → T) → R → R.
Ltac derive_setter proj :=
  match type of proj with
  | ?R → _ =>
      let inst := constr:(_ : Eta R) in
      let e := eval red in inst in
      match eval pattern proj in e with
      | ?g proj => exact (λ f r, g (λ s, f (proj s)) r)
      end
  end.
#[export] Hint Extern 1 (Setter ?proj) => derive_setter proj : typeclass_instances.
Arguments update {_ _} proj {_} _ _ /.
Notation "r '<|' proj ':=' v '|>'" := (update proj (λ _, v) r)
  (at level 12, left associativity, proj at level 9, v at level 200, format "r  '<|' proj  ':='  v '|>'") : go_scope.

(** * Strings

    Go strings are byte sequences; here they are [String.string]s.  The case
    functions act on ASCII letters only: every string the program lowers is a PCI
    id, an identifier or a protocol name, all ASCII. *)

Definition lower_ascii (c : ascii) : ascii :=
  let n := Ascii.nat_of_ascii c in
  if (65 <=? n)%nat && (n <=? 90)%nat then Ascii.ascii_of_nat (n + 32) else c.
Definition upper_ascii (c : ascii) : ascii :=
  let n := Ascii.nat_of_ascii c in
  if (97 <=? n)%nat && (n <=? 122)%nat then Ascii.ascii_of_nat (n - 32) else c.

Fixpoint string_map (f : ascii → ascii) (s : string) : string :=
  match s with EmptyString => EmptyString | String c s => String (f c) (string_map f s) end.

(** [strings.ToLower], [strings.ToUpper], [strings.EqualFold]. *)
Definition to_lower : string → string := string_map lower_ascii.
Definition to_upper : string → string := string_map upper_ascii.
Definition equal_fold (s t : string) : bool := String.eqb (to_lower s) (to_lower t).

(** [strings.HasPrefix], [strings.Contains], [strings.HasSuffix] (argument order: the pattern first). *)
Fixpoint has_prefix (p s : string) : bool :=
  match p, s with
  | EmptyString, _ => true
  | String c p, String d s => Ascii.eqb c d && has_prefix p s
  | String _ _, EmptyString => false
  end.
Fixpoint contains (p s : string) : bool :=
  has_prefix p s || match s with EmptyString => false | String _ s' => contains p s' end.
Fixpoint has_suffix (p s : string) : bool :=
  String.eqb p s || match s with EmptyString => false | String _ s' => has_suffix p s' end.

Fixpoint drop_string (n : nat) (s : string) : string :=
  match n, s with O, _ => s | S n, String _ s => drop_string n s | _, EmptyString => EmptyString end.
Fixpoint take_string (n : nat) (s : string) : string :=
  match n, s with
  | O, _ | _, EmptyString => EmptyString
  | S n, String c s => String c (take_string n s)
  end.

(** [strings.TrimPrefix], [strings.TrimSuffix]. *)
Definition trim_prefix (p s : string) : string :=
  if has_prefix p s then drop_string (String.length p) s else s.
Definition trim_suffix (p s : string) : string :=
  if has_suffix p s then take_string (String.length s - String.length p) s else s.

(** [strings.ReplaceAll(s, a, b)] for one-byte [a] and [b]. *)
Definition replace_all (a b : ascii) : string → string :=
  string_map (λ c, if Ascii.eqb c a then b else c).

(** [strings.Count(s, a)] for a one-byte [a]. *)
Fixpoint count_char (a : ascii) (s : string) : nat :=
  match s with
  | EmptyString => 0
  | String c s => (if Ascii.eqb c a then 1 else 0) + count_char a s
  end.

(** [strings.Split(s, sep)] for a one-byte [sep]: never empty, [Split("", sep) = [""]]. *)
Fixpoint split_char (sep : ascii) (s : string) : list string :=
  match s with
  | EmptyString => [EmptyString]
  | String c s =>
      if Ascii.eqb c sep then EmptyString :: split_char sep s
      else match split_char sep s with
           | [] => [String c EmptyString]
           | w :: ws => String c w :: ws
           end
  end.

(** [strings.Join]. *)
Fixpoint join (sep : string) (l : list string) : string :=
  match l with
  | [] => EmptyString
  | [s] => s
  | s :: l => s +:+ sep +:+ join sep l
  end.

(** [unicode.IsSpace] on one ASCII byte. *)
Definition is_space (c : ascii) : bool :=
  let n := Ascii.nat_of_ascii c in ((9 <=? n)%nat && (n <=? 13)%nat) || (n =? 32)%nat.

Fixpoint trim_left (f : ascii → bool) (s : string) : string :=
  match s with
  | EmptyString => EmptyString
  | String c s' => if f c then trim_left f s' else s
  end.
Fixpoint trim_right (f : ascii → bool) (s : string) : string :=
  match s with
  | EmptyString => EmptyString
  | String c s' =>
      match trim_right f s' with
      | EmptyString => if f c then EmptyString else String c EmptyString
      | t => String c t
      end
  end.
(** [strings.TrimFunc]; [strings.TrimSpace] and [strings.Trim] are instances. *)
Definition trim_func (f : ascii → bool) (s : string) : string := trim_right f (trim_left f s).
Definition trim_space : string → string := trim_func is_space.

(** [%q] of a string without characters that need an escape. *)
Definition dquote : string := String (Ascii.ascii_of_nat 34) EmptyString.
Definition quote (s : string) : string := dquote +:+ s +:+ dquote.

(** [%d] and [strconv.Itoa]. *)
Definition itoa (z : Z) : string := NilZero.string_of_int (Z.to_int z).

(** [strconv.Atoi]: an optional sign, at least one digit, a value that fits in [int] (64 bits). *)
Definition digit_val (c : ascii) : option Z :=
  let n := Ascii.nat_of_ascii c in
  if (48 <=? n)%nat && (n <=? 57)%nat then Some (Z.of_nat n - 48)%Z else None.
Fixpoint digits_val (acc : Z) (s : string) : option Z :=
  match s with
  | EmptyString => Some acc
  | String c s => match digit_val c with Some d => digits_val (10 * acc + d) s | None => None end
  end.
Definition parse_digits (s : string) : option Z :=
  match s with EmptyString => None | _ => digits_val 0 s end.
Definition fits_int64 (z : Z) : bool := (- 2 ^ 63 <=? z)%Z && (z <=? 2 ^ 63 - 1)%Z.
Definition atoi (s : string) : option Z :=
  let v := match s with
           | String "-" s' => Z.opp <$> parse_digits s'
           | String "+" s' => parse_digits s'
           | _ => parse_digits s
           end in
  match v with Some z => if fits_int64 z then Some z else None | None => None end.

(** * Machine integers: conversion of a Go [int] to [int32] and [uint32] wraps. *)
Definition int32 (z : Z) : Z := ((z + 2 ^ 31) mod 2 ^ 32 - 2 ^ 31)%Z.
Definition uint32 (z : Z) : Z := (z mod 2 ^ 32)%Z.
Definition uint16 (z : Z) : Z := (z mod 2 ^ 16)%Z.

(** * Lemmas on results *)

Lemma is_ok_Ok {A} (r : result A) : is_ok r = true ↔ ∃ a, r = Ok a.
Proof. split; [destruct r; [eauto|done]|by intros [? ->]]. Qed.
Lemma is_ok_Err {A} (r : result A) : is_ok r = false ↔ ∃ e, r = Err e.
Proof. split; [destruct r; [done|eauto]|by intros [? ->]]. Qed.

(** * Lemmas on strings *)

Create HintDb go discriminated.

Lemma string_map_app f s t : string_map f (s +:+ t) = string_map f s +:+ string_map f t.
Proof. induction s as [|c s IH]; simpl; [done|]. by rewrite IH. Qed.
Lemma string_map_length f s : String.length (string_map f s) = String.length s.
Proof. induction s; simpl; congruence. Qed.
Lemma string_map_comp f g s : string_map f (string_map g s) = string_map (λ c, f (g c)) s.
Proof. induction s; simpl; congruence. Qed.
Lemma string_map_ext f g s : (∀ c, f c = g c) → string_map f s = string_map g s.
Proof. intros H. induction s; simpl; congruence. Qed.

(** A property of all 256 characters is decided by evaluation. *)
Ltac all_ascii := let c := fresh "c" in intros c; destruct c as [[] [] [] [] [] [] [] []]; reflexivity.

Lemma lower_ascii_idemp : ∀ c, lower_ascii (lower_ascii c) = lower_ascii c.
Proof. all_ascii. Qed.
Lemma to_lower_idemp s : to_lower (to_lower s) = to_lower s.
Proof. unfold to_lower. rewrite string_map_comp. apply string_map_ext, lower_ascii_idemp. Qed.
Lemma to_lower_app s t : to_lower (s +:+ t) = to_lower s +:+ to_lower t.
Proof. apply string_map_app. Qed.

Lemma string_app_nil_r s : s +:+ "" = s.
Proof. induction s; simpl; congruence. Qed.
Lemma string_app_assoc s t u : (s +:+ t) +:+ u = s +:+ (t +:+ u).
Proof. induction s; simpl; congruence. Qed.
Lemma string_app_inj_l s t u : s +:+ t = s +:+ u → t = u.
Proof. induction s; simpl; [done|]. intros [=]. auto. Qed.
Lemma string_length_app s t : String.length (s +:+ t) = String.length s + String.length t.
Proof. induction s; simpl; congruence. Qed.
Lemma string_app_inj_r s t u : s +:+ u = t +:+ u → s = t.
Proof.
  revert t. induction s as [|c s IH]; intros [|d t]; simpl; try done.
  - intros H%(f_equal String.length). simpl in H. rewrite string_length_app in H. lia.
  - intros H%(f_equal String.length). simpl in H. rewrite string_length_app in H. lia.
  - intros [= -> H]. f_equal. auto.
Qed.

Lemma has_prefix_app p s : has_prefix p (p +:+ s) = true.
Proof. induction p as [|c p IH]; simpl; [done|]. by rewrite Ascii.eqb_refl, IH. Qed.
Lemma drop_string_app p s : drop_string (String.length p) (p +:+ s) = s.
Proof. induction p; simpl; auto. Qed.
Lemma take_string_app s t : take_string (String.length s) (s +:+ t) = s.
Proof. induction s as [|c s IH]; simpl; [by destruct t|]. by rewrite IH. Qed.
Lemma has_prefix_spec p s : has_prefix p s = true ↔ ∃ t, s = p +:+ t.
Proof.
  split; [|intros [t ->]; apply has_prefix_app].
  revert s. induction p as [|c p IH]; intros s; simpl; [eauto|].
  destruct s as [|d s]; [done|]. destruct (Ascii.eqb_spec c d) as [->|Hne]; [|done].
  intros [t ->]%IH. by exists t.
Qed.
Lemma trim_prefix_app p s : trim_prefix p (p +:+ s) = s.
Proof. unfold trim_prefix. by rewrite has_prefix_app, drop_string_app. Qed.

Lemma contains_spec p s : contains p s = true ↔ ∃ a b, s = a +:+ p +:+ b.
Proof.
  split.
  - induction s as [|c s IH]; simpl; rewrite orb_true_iff; intros [H|H]; try done.
    + apply has_prefix_spec in H as [t ->]. by exists "", t.
    + apply has_prefix_spec in H as [t ->]. by exists "", t.
    + destruct (IH H) as (a & b & ->). by exists (String c a), b.
  - intros (a & b & ->). induction a as [|c a IH]; simpl.
    + destruct (p +:+ b) eqn:E; simpl; rewrite <-E, has_prefix_app; done.
    + rewrite IH. apply orb_true_r.
Qed.

Lemma has_suffix_spec p s : has_suffix p s = true ↔ ∃ t, s = t +:+ p.
Proof.
  split.
  - induction s as [|c s IH]; simpl; rewrite orb_true_iff; intros [H|H]; try done.
    + apply String.eqb_eq in H as ->. by exists "".
    + apply String.eqb_eq in H as ->. by exists "".
    + destruct (IH H) as [t ->]. by exists (String c t).
  - intros [t ->]. induction t as [|c t IH]; simpl.
    + destruct p; simpl; [done|]. by rewrite Ascii.eqb_refl, String.eqb_refl.
    + rewrite IH. apply orb_true_r.
Qed.
Lemma trim_suffix_app s p : trim_suffix p (s +:+ p) = s.
Proof.
  unfold trim_suffix. rewrite (proj2 (has_suffix_spec _ _)) by eauto.
  rewrite string_length_app, Nat.add_sub. apply take_string_app.
Qed.

Lemma split_char_cons sep s : ∃ w ws, split_char sep s = w :: ws.
Proof. destruct s as [|c s]; simpl; [eauto|]. destruct (Ascii.eqb c sep), (split_char sep s); eauto. Qed.
Lemma split_char_no_sep sep s : count_char sep s = 0 → split_char sep s = [s].
Proof.
  induction s as [|c s IH]; simpl; [done|].
  destruct (Ascii.eqb c sep); simpl; [done|]. intros H. by rewrite IH.
Qed.
Lemma split_char_app sep s t :
  count_char sep s = 0 → split_char sep (s +:+ String sep t) = s :: split_char sep t.
Proof.
  induction s as [|c s IH]; simpl; [by rewrite Ascii.eqb_refl|].
  destruct (Ascii.eqb c sep); simpl; [done|]. intros H. by rewrite IH.
Qed.
(** [strings.Split] undoes [strings.Join] when no piece holds the separator. *)
Lemma split_join sep l :
  l ≠ [] → Forall (λ s, count_char sep s = 0) l →
  split_char sep (join (String sep "") l) = l.
Proof.
  induction l as [|s [|t l] IH]; intros Hne HF; [done| |]; apply Forall_cons in HF as [H HF].
  - by apply split_char_no_sep.
  - change (join (String sep "") (s :: t :: l))
      with (s +:+ String sep (join (String sep "") (t :: l))).
    rewrite split_char_app by done. by rewrite IH.
Qed.

Lemma count_char_app a s t : count_char a (s +:+ t) = count_char a s + count_char a t.
Proof. induction s; simpl; [done|]. lia. Qed.

(** A string whose first and last characters are kept is left alone by [TrimFunc]. *)
Fixpoint all_char (P : ascii → bool) (s : string) : bool :=
  match s with EmptyString => true | String c s => P c && all_char P s end.
Lemma trim_func_id f s : all_char (λ c, negb (f c)) s = true → trim_func f s = s.
Proof.
  unfold trim_func. intros H.
  assert (trim_left f s = s) as ->.
  { destruct s as [|c s]; [done|]. simpl in *. by destruct (f c). }
  induction s as [|c s IH]; simpl in *; [done|].
  apply andb_prop in H as [H1 H2]. rewrite IH by done. by destruct s, (f c).
Qed.
Lemma all_char_app P s t : all_char P (s +:+ t) = all_char P s && all_char P t.
Proof. induction s; simpl; [done|]. by rewrite <-andb_assoc, IHs. Qed.
Lemma all_char_impl P Q s : (∀ c, P c = true → Q c = true) → all_char P s = true → all_char Q s = true.
Proof. intros H. induction s; simpl; [done|]. rewrite !andb_true_iff. intros [??]; auto. Qed.
Lemma all_char_count P a s : P a = false → all_char P s = true → count_char a s = 0.
Proof.
  intros Ha. induction s as [|c s IH]; simpl; [done|]. rewrite andb_true_iff. intros [Hc Hs].
  rewrite IH by done. destruct (Ascii.eqb_spec c a) as [->|]; [congruence|done].
Qed.

(** * Decimal numbers *)

Fixpoint uint_val (acc : Z) (u : Decimal.uint) : Z :=
  match u with
  | Decimal.Nil => acc
  | Decimal.D0 u => uint_val (10 * acc + 0) u | Decimal.D1 u => uint_val (10 * acc + 1) u
  | Decimal.D2 u => uint_val (10 * acc + 2) u | Decimal.D3 u => uint_val (10 * acc + 3) u
  | Decimal.D4 u => uint_val (10 * acc + 4) u | Decimal.D5 u => uint_val (10 * acc + 5) u
  | Decimal.D6 u => uint_val (10 * acc + 6) u | Decimal.D7 u => uint_val (10 * acc + 7) u
  | Decimal.D8 u => uint_val (10 * acc + 8) u | Decimal.D9 u => uint_val (10 * acc + 9) u
  end%Z.
Lemma digits_val_uint u acc :
  digits_val acc (NilEmpty.string_of_uint u) = Some (uint_val acc u).
Proof. revert acc. induction u; intros acc; simpl; auto. Qed.
Lemma of_uint_acc_val u p : Z.pos (Pos.of_uint_acc u p) = uint_val (Z.pos p) u.
Proof.
  revert p. induction u; intros p; simpl; try done; rewrite IHu; f_equal; lia.
Qed.
Lemma of_uint_val u : Z.of_N (Pos.of_uint u) = uint_val 0 u.
Proof. induction u; simpl; auto; apply of_uint_acc_val. Qed.

Lemma string_of_uint_nonneg u : u ≠ Decimal.Nil →
  ∃ c s, NilZero.string_of_uint u = String c s ∧ c ≠ "-"%char ∧ c ≠ "+"%char.
Proof. destruct u; [done|..]; intros _; eexists _, _; repeat split; discriminate. Qed.

Lemma string_of_uint_parse p :
  parse_digits (NilZero.string_of_uint (Pos.to_uint p)) = Some (Z.pos p).
Proof.
  pose proof (Unsigned.of_to p) as Hp. pose proof (Unsigned.to_uint_nonnil p) as Hn.
  assert (NilZero.string_of_uint (Pos.to_uint p) = NilEmpty.string_of_uint (Pos.to_uint p)) as ->.
  { by destruct (Pos.to_uint p). }
  unfold parse_digits. rewrite digits_val_uint, <-of_uint_val, Hp.
  by destruct (Pos.to_uint p).
Qed.

(** [strconv.Atoi] undoes [strconv.Itoa] on every 64-bit [int], and refuses other numbers. *)
Lemma atoi_itoa_range z : atoi (itoa z) = if fits_int64 z then Some z else None.
Proof.
  destruct z as [|p|p]; [done|..]; unfold atoi, itoa; simpl.
  - pose proof (string_of_uint_parse p) as Hp.
    destruct (string_of_uint_nonneg _ (Unsigned.to_uint_nonnil p)) as (c & s & E & Hm & Hq).
    rewrite E in *.
    transitivity (match parse_digits (String c s) with
                  | Some z => if fits_int64 z then Some z else None | None => None end).
    { destruct c as [[] [] [] [] [] [] [] []]; done. }
    by rewrite Hp.
  - rewrite string_of_uint_parse. change (- Z.pos p)%Z with (Z.neg p). unfold fmap, option_fmap, option_map.
    by change (- Z.pos p)%Z with (Z.neg p).
Qed.
Lemma itoa_nonempty z : itoa z ≠ "".
Proof.
  destruct z as [|p|p]; [done|..]; unfold itoa; simpl.
  - destruct (string_of_uint_nonneg _ (DecimalPos.Unsigned.to_uint_nonnil p)) as (c & s & -> & _). done.
  - done.
Qed.
Lemma atoi_itoa z : fits_int64 z = true → atoi (itoa z) = Some z.
Proof. intros Hz. by rewrite atoi_itoa_range, Hz. Qed.

Lemma int32_range z : (- 2 ^ 31 ≤ int32 z < 2 ^ 31)%Z.
Proof. unfold int32. pose proof (Z.mod_pos_bound (z + 2 ^ 31) (2 ^ 32)). lia. Qed.
Lemma int32_id z : (- 2 ^ 31 ≤ z < 2 ^ 31)%Z → int32 z = z.
Proof. unfold int32. intros H. rewrite Z.mod_small; lia. Qed.

(** * The order of Go strings: bytewise lexicographic *)

Fixpoint str_leb (s t : string) : bool :=
  match s, t with
  | EmptyString, _ => true
  | String _ _, EmptyString => false
  | String c s, String d t =>
      let m := Ascii.nat_of_ascii c in let n := Ascii.nat_of_ascii d in
      (m <? n)%nat || ((m =? n)%nat && str_leb s t)
  end.
Definition str_le (s t : string) : Prop := str_leb s t = true.
#[export] Instance str_le_dec : RelDecision str_le.
Proof. intros s t. unfold Decision, str_le. destruct (str_leb s t); [left|right]; done. Defined.

#[export] Instance str_le_total : Total str_le.
Proof.
  unfold str_le. intros s. induction s as [|c s IH]; intros t; simpl; [by left|].
  destruct t as [|d t]; [by right|]. simpl.
  destruct (lt_eq_lt_dec (Ascii.nat_of_ascii c) (Ascii.nat_of_ascii d)) as [[H|H]|H].
  - left. apply orb_true_iff. left. by apply Nat.ltb_lt.
  - destruct (IH t) as [E|E]; [left|right]; apply orb_true_iff; right;
      rewrite E, H, Nat.eqb_refl; done.
  - right. apply orb_true_iff. left. by apply Nat.ltb_lt.
Qed.
#[export] Instance str_le_trans : Transitive str_le.
Proof.
  unfold str_le. intros s. induction s as [|c s IH]; intros t u; simpl; [done|].
  destruct t as [|d t]; [done|]. destruct u as [|e u]; simpl; [done|].
  rewrite !orb_true_iff, !andb_true_iff, !Nat.ltb_lt, !Nat.eqb_eq.
  intros [?|[? H1]] [?|[? H2]]; [left; lia..|right]. split; [lia|]. by apply IH with t.
Qed.
#[export] Instance str_le_antisymm : AntiSymm (=) str_le.
Proof.
  unfold str_le. intros s. induction s as [|c s IH]; intros [|d t]; simpl; try done.
  rewrite !orb_true_iff, !andb_true_iff, !Nat.ltb_lt, !Nat.eqb_eq.
  intros [?|[Hc H1]] [?|[? H2]]; try lia. f_equal; [|by apply IH].
  rewrite <-(Ascii.ascii_nat_embedding c), Hc. apply Ascii.ascii_nat_embedding.
Qed.

(** [sort.Slice] by a string key: a key-sorted permutation. *)
Definition key_le {A} (f : A → string) (x y : A) : Prop := str_le (f x) (f y).
#[export] Instance key_le_dec {A} (f : A → string) : RelDecision (key_le f).
Proof. intros x y. unfold key_le. apply _. Defined.
#[export] Instance key_le_total {A} (f : A → string) : Total (key_le f).
Proof. intros x y. apply str_le_total. Qed.
#[export] Instance key_le_trans {A} (f : A → string) : Transitive (key_le f).
Proof. intros x y z. apply str_le_trans. Qed.
Definition sort_by {A} (f : A → string) (l : list A) : list A := merge_sort (key_le f) l.

Lemma sort_by_perm {A} (f : A → string) l : sort_by f l ≡ₚ l.
Proof. apply merge_sort_Permutation. Qed.
Lemma sort_by_sorted {A} (f : A → string) l : StronglySorted (key_le f) (sort_by f l).
Proof. apply StronglySorted_merge_sort; apply _. Qed.

(** When the key separates the elements, sorting forgets the order of the input:
    this is what makes the random iteration order of a Go map harmless. *)
Lemma sort_by_unique {A} (f : A → string) l1 l2 :
  l1 ≡ₚ l2 → (∀ x y, x ∈ l1 → y ∈ l1 → f x = f y → x = y) → sort_by f l1 = sort_by f l2.
Proof.
  intros Hp Hf. apply (StronglySorted_unique_strong (key_le f));
    [|apply sort_by_sorted|apply sort_by_sorted|].
  - intros x y. rewrite sort_by_perm. rewrite sort_by_perm, <-Hp.
    intros Hx Hy Hxy Hyx. apply Hf; [done|done|]. by apply (anti_symm str_le).
  - by rewrite !sort_by_perm.
Qed.

(** * Runs of a relation: each is finite when a measure decreases along it *)

Lemma sn_invariant {A} (R : relation A) (P : A → Prop) (m : A → nat) (x : A) :
  (∀ a b, P a → R a b → P b ∧ m b < m a) → P x → sn R x.
Proof.
  intros Hstep. induction x as [x IH] using (well_founded_induction (well_founded_ltof _ m)). intros Hx.
  constructor. intros y Hy. destruct (Hstep _ _ Hx Hy). by apply IH.
Qed.
Lemma sum_list_insert {A} (f : A → nat) (l : list A) i x y : l !! i = Some x → f y < f x →
  sum_list_with f (<[i := y]> l) < sum_list_with f l.
Proof.
  revert i. induction l as [|z l IH]; intros i Hi Hy; [done|]. destruct i as [|i]; simpl in *.
  - injection Hi as ->. lia.
  - specialize (IH _ Hi Hy). lia.
Qed.
