(* ===== verification/Plugin.v ===== *)
(** The vendor-neutral plugin vocabulary: pkg/plugin/types.go (metadata, devices,
    configuration, inventory), pkg/plugin/errors.go (error kinds and how they are
    recognised through wrapping) and the interfaces of pkg/plugin/interface.go
    as type classes. *)
From S2P Require Import Prelude.

(** * Data (types.go) *)

Definition Capability := string.
Definition CapabilityNetworking : Capability := "networking".
Definition CapabilityStorage : Capability := "storage".
Definition CapabilitySecurity : Capability := "security".
Definition CapabilityAIML : Capability := "aiml".
Definition DefaultOPIEndpoint : string := "localhost:50051".

Record PCIDeviceID := { VendorID : string; DeviceID : string; Description : string }.
Definition PCIDeviceID_String (p : PCIDeviceID) : string := VendorID p +:+ ":" +:+ DeviceID p.

Record PluginInfo := {
  Name : string; Vendor : string; Version : string; InfoDescription : string;
  SupportedDevices : list PCIDeviceID; Capabilities : list Capability }.

Record Device := {
  ID : string; PCIAddress : string; PCIID : PCIDeviceID; DevVendor : string;
  Model : string; SerialNumber : string; FirmwareVersion : string;
  Healthy : bool; Metadata : gmap string string }.
Definition zero_PCIID : PCIDeviceID := {| VendorID := ""; DeviceID := ""; Description := "" |}.
(** The zero value [plugin.Device{}]. *)
Definition zero_Device : Device :=
  {| ID := ""; PCIAddress := ""; PCIID := zero_PCIID; DevVendor := ""; Model := "";
     SerialNumber := ""; FirmwareVersion := ""; Healthy := false; Metadata := ∅ |}.

Record PluginConfig := { OPIEndpoint : string; NetworkEndpoint : string; LogLevel : Z }.

Record ChassisInfo := { Manufacturer : string; ChassisModel : string; ChassisSerial : string }.
(** The fields of [InventoryResponse] the plugins fill; the others keep their zero values. *)
Record InventoryResponse := { InvDeviceID : string; Chassis : ChassisInfo }.

Record BridgePortRequest := {
  ReqName : string; ReqMAC : string; ReqVLANID : option Z; ReqType : string;
  ReqMetadata : gmap string string }.
Record BridgePort := {
  PortID : string; PortName : string; PortMAC : string; PortVLANID : option Z;
  PortStatus : string; PortMetadata : gmap string string }.

(** * Errors (errors.go) *)

Definition sentinel_string (s : sentinel) : string :=
  match s with
  | ErrNotImplemented => "operation not implemented"
  | ErrPluginNotFound => "plugin not found"
  | ErrDeviceNotFound => "device not found"
  | ErrNotInitialized => "plugin not initialized"
  | ErrAlreadyInitialized => "plugin already initialized"
  | ErrCapabilityNotSupported => "capability not supported"
  | ErrInvalidConfig => "invalid configuration"
  | ErrConnectionFailed => "connection failed"
  | ErrResourceNotFound => "resource not found"
  | ErrResourceExists => "resource already exists"
  | ErrOperationFailed => "operation failed"
  end.

Definition code_string (c : code) : string :=
  match c with
  | OK => "OK" | NotFound => "NotFound" | Unimplemented => "Unimplemented"
  | Unavailable => "Unavailable" | Unknown => "Unknown"
  end.

(** The [Error()] method of every error value. *)
Fixpoint Error (e : error) : string :=
  match e with
  | Sentinel s => sentinel_string s
  | Text m => m
  | Wrap m e => m +:+ Error e
  | PluginErr p op e d =>
      if String.eqb d "" then "plugin " +:+ p +:+ ": " +:+ op +:+ ": " +:+ Error e
      else "plugin " +:+ p +:+ ": " +:+ op +:+ ": " +:+ Error e +:+ " (" +:+ d +:+ ")"
  | DeviceErr d op e => "device " +:+ d +:+ ": " +:+ op +:+ ": " +:+ Error e
  | Status c d => "rpc error: code = " +:+ code_string c +:+ " desc = " +:+ d
  end.

(** [errors.Unwrap]. *)
Definition Unwrap (e : error) : option error :=
  match e with
  | Wrap _ e | PluginErr _ _ e _ | DeviceErr _ _ e => Some e
  | _ => None
  end.

Definition NewPluginError (plugin op : string) (err : error) : error := PluginErr plugin op err "".
Definition NewPluginErrorWithDetails (plugin op : string) (err : error) (details : string) : error :=
  PluginErr plugin op err details.
Definition NewDeviceError (deviceID op : string) (err : error) : error := DeviceErr deviceID op err.

(** [errors.Is(err, target)] for a sentinel target: some error of the unwrap chain is it. *)
Fixpoint errors_Is (e : error) (target : sentinel) : bool :=
  match e with
  | Sentinel s => bool_decide (s = target)
  | Wrap _ e | PluginErr _ _ e _ | DeviceErr _ _ e => errors_Is e target
  | Text _ | Status _ _ => false
  end.
Definition IsNotImplemented (e : error) : bool := errors_Is e ErrNotImplemented.
Definition IsNotFound (e : error) : bool :=
  errors_Is e ErrPluginNotFound || errors_Is e ErrDeviceNotFound || errors_Is e ErrResourceNotFound.
Definition IsCapabilityNotSupported (e : error) : bool := errors_Is e ErrCapabilityNotSupported.

(** [status.Code(err)] of google.golang.org/grpc/status: the code of the first
    status error of the chain, [Unknown] if there is none. *)
Fixpoint status_Code (e : error) : code :=
  match e with
  | Status c _ => c
  | Wrap _ e | PluginErr _ _ e _ | DeviceErr _ _ e => status_Code e
  | Sentinel _ | Text _ => Unknown
  end.

(** The unwrap chain, as a relation: reaching an error by repeated [Unwrap]. *)
Inductive unwraps_to : error → error → Prop :=
  | unwraps_refl e : unwraps_to e e
  | unwraps_step e e' e'' : Unwrap e = Some e' → unwraps_to e' e'' → unwraps_to e e''.
#[export] Hint Constructors unwraps_to : go.

Lemma errors_Is_unwrap e e' t : Unwrap e = Some e' → errors_Is e t = errors_Is e' t.
Proof. destruct e; simpl; by intros [= <-]. Qed.
Lemma errors_Is_spec e t : errors_Is e t = true ↔ unwraps_to e (Sentinel t).
Proof.
  split.
  - induction e; simpl; try done.
    + rewrite bool_decide_eq_true. intros ->. constructor.
    + eauto with go.
    + eauto with go.
    + eauto with go.
  - intros H. remember (Sentinel t) as s eqn:E. revert E.
    induction H as [e|e e' e'' Hu _ IH]; intros ->.
    + simpl. by apply bool_decide_eq_true.
    + rewrite (errors_Is_unwrap _ _ _ Hu). auto.
Qed.

(** * Interfaces (interface.go)

    A Go interface value is a pointer to some implementation: [P] is the type of
    implementations and the classes give the methods.  [implements] is the
    outcome of the type assertions [p.(NetworkPlugin)], [p.(StoragePlugin)],
    [p.(SecurityPlugin)]. *)
Inductive iface := INetwork | IStorage | ISecurity.
#[export] Instance iface_eq_dec : EqDecision iface.
Proof. solve_decision. Defined.

Class Plugin (P : Type) := { Info : P → PluginInfo; implements : P → iface → bool }.

Section PluginChecker.
Context {P : Type} `{!Plugin P}.
Definition IsNetworkPlugin (p : P) : bool := implements p INetwork.
Definition AsNetworkPlugin (p : P) : option P := if implements p INetwork then Some p else None.
Definition IsStoragePlugin (p : P) : bool := implements p IStorage.
Definition AsStoragePlugin (p : P) : option P := if implements p IStorage then Some p else None.
Definition IsSecurityPlugin (p : P) : bool := implements p ISecurity.
Definition AsSecurityPlugin (p : P) : option P := if implements p ISecurity then Some p else None.
Definition SupportsCapability (p : P) (cap : Capability) : bool :=
    existsb (λ supported, String.eqb supported cap) (Capabilities (Info p)).
End PluginChecker.
