(* ===== verification/Registry.v ===== *)
(** The plugin registry, pkg/plugin/registry.go: two maps kept in step, one from
    plugin names to plugins and one from lower-cased PCI ids to plugin names. *)
From S2P Require Import Prelude Plugin.

Section Registry.
Context {P : Type} `{!Plugin P}.

Record Registry := { plugins : gmap string P; deviceIndex : gmap string string }.
Definition NewRegistry : Registry := {| plugins := ∅; deviceIndex := ∅ |}.

Definition device_key (d : PCIDeviceID) : string := to_lower (PCIDeviceID_String d).
Definition device_keys (p : P) : list string := device_key <$> SupportedDevices (Info p).

(** The validation loop of [Register]: the first claimed device is reported. *)
Fixpoint first_claimed (idx : gmap string string) (ds : list PCIDeviceID) : option (string * string) :=
  match ds with
  | [] => None
  | d :: ds =>
      match idx !! device_key d with
      | Some existing => Some (device_key d, existing)
      | None => first_claimed idx ds
      end
  end.
(** The indexing loop of [Register]. *)
Fixpoint index_devices (name : string) (ds : list PCIDeviceID) (idx : gmap string string) : gmap string string :=
  match ds with
  | [] => idx
  | d :: ds => index_devices name ds (<[device_key d := name]> idx)
  end.

Definition Register (p : option P) (r : Registry) : Registry * option error :=
  match p with
  | None => (r, Some (Text "cannot register nil plugin"))
  | Some p =>
      let info := Info p in
      if String.eqb (Name info) "" then (r, Some (Text "plugin name cannot be empty")) else
      match plugins r !! Name info with
      | Some _ => (r, Some (Text ("plugin " +:+ quote (Name info) +:+ " already registered")))
      | None =>
          match first_claimed (deviceIndex r) (SupportedDevices info) with
          | Some (k, e) => (r, Some (Text ("device " +:+ k +:+ " already claimed by plugin " +:+ e)))
          | None =>
              ({| plugins := <[Name info := p]> (plugins r);
                  deviceIndex := index_devices (Name info) (SupportedDevices info) (deviceIndex r) |}, None)
          end
      end
  end.

(** The removal loop of [Unregister]. *)
Fixpoint unindex_devices (name : string) (ds : list PCIDeviceID) (idx : gmap string string) : gmap string string :=
  match ds with
  | [] => idx
  | d :: ds =>
      let idx := if decide (idx !! device_key d = Some name) then delete (device_key d) idx else idx in
      unindex_devices name ds idx
  end.

Definition Unregister (name : string) (r : Registry) : Registry * option error :=
  match plugins r !! name with
  | None => (r, Some (Text ("plugin " +:+ quote name +:+ " not found")))
  | Some p =>
      ({| plugins := delete name (plugins r);
          deviceIndex := unindex_devices name (SupportedDevices (Info p)) (deviceIndex r) |}, None)
  end.

Definition Get (name : string) (r : Registry) : option P := plugins r !! name.
Definition GetByDeviceID (deviceID : string) (r : Registry) : option P :=
  match deviceIndex r !! to_lower deviceID with
  | Some pluginName => plugins r !! pluginName
  | None => None
  end.
Definition GetByVendorDevice (vendorID deviceID : string) (r : Registry) : option P :=
  GetByDeviceID (vendorID +:+ ":" +:+ deviceID) r.
Definition FindPluginForDevice (vendorID deviceID : string) (r : Registry) : option P * bool :=
  match GetByVendorDevice vendorID deviceID r with Some p => (Some p, true) | None => (None, false) end.

(** The listing operations range over a Go map, in an order the runtime picks:
    [it] is the sequence of entries one such iteration yields. *)
Definition iteration (r : Registry) (it : list (string * P)) : Prop := it ≡ₚ map_to_list (plugins r).
Definition by_name (p : P) : string := Name (Info p).

Definition List (it : list (string * P)) : list P := sort_by by_name it.*2.
Definition ListNames (it : list (string * P)) : list string := sort_by id it.*1.
Definition Count (r : Registry) : nat := size (plugins r).
Definition GetByCapability (cap : Capability) (it : list (string * P)) : list P :=
  sort_by by_name (filter (λ p, SupportsCapability p cap = true) it.*2).
Definition get_implementing (i : iface) (it : list (string * P)) : list P :=
  sort_by by_name (filter (λ p, implements p i = true) it.*2).
Definition GetNetworkPlugins := get_implementing INetwork.
Definition GetStoragePlugins := get_implementing IStorage.
Definition GetSecurityPlugins := get_implementing ISecurity.
Definition Clear (r : Registry) : Registry := {| plugins := ∅; deviceIndex := ∅ |}.

(** [MustRegister] panics when [Register] fails: [None] is the panic. *)
Definition MustRegister (p : P) (r : Registry) : option Registry :=
  match Register (Some p) r with (r', None) => Some r' | (_, Some _) => None end.


(** * Invariant *)

(** Plugins are filed under their own non-empty names, and the index holds
    exactly the device keys of the registered plugins. *)
Record wf (r : Registry) : Prop := {
  wf_name n p : plugins r !! n = Some p → Name (Info p) = n ∧ n ≠ "";
  wf_index k n : deviceIndex r !! k = Some n ↔ ∃ p, plugins r !! n = Some p ∧ k ∈ device_keys p }.

(** The registry's state-changing operations, as a step relation. *)
Inductive step : Registry → Registry → Prop :=
  | step_register p r : step r (Register p r).1
  | step_unregister n r : step r (Unregister n r).1
  | step_clear r : step r (Clear r).
Definition reachable (r : Registry) : Prop := rtc step NewRegistry r.

Lemma device_keys_cons d ds : device_key <$> (d :: ds) = device_key d :: (device_key <$> ds).
Proof. done. Qed.
Lemma elem_of_device_keys k p :
  k ∈ device_keys p ↔ ∃ d, d ∈ SupportedDevices (Info p) ∧ k = device_key d.
Proof. unfold device_keys. rewrite list_elem_of_fmap. naive_solver. Qed.

Lemma index_devices_lookup name ds idx k :
  index_devices name ds idx !! k =
    if decide (k ∈ device_key <$> ds) then Some name else idx !! k.
Proof.
  revert idx. induction ds as [|d ds IH]; intros idx; simpl; [done|].
  rewrite IH. destruct (decide (k ∈ device_key <$> ds)) as [Hin|Hin].
  - rewrite decide_True; [done|]. rewrite elem_of_cons. by right.
  - destruct (decide (k = device_key d)) as [->|Hne].
    + rewrite decide_True by (rewrite elem_of_cons; by left). by rewrite lookup_insert_eq.
    + rewrite decide_False by (rewrite elem_of_cons; naive_solver). by rewrite lookup_insert_ne.
Qed.
Lemma unindex_devices_lookup name ds idx k :
  unindex_devices name ds idx !! k =
    if decide (k ∈ device_key <$> ds ∧ idx !! k = Some name) then None else idx !! k.
Proof.
  revert idx. induction ds as [|d ds IH]; intros idx; cbn [unindex_devices].
  { case_decide; [set_solver|done]. }
  rewrite IH. destruct (decide (idx !! device_key d = Some name)) as [Hd|Hd].
  - destruct (decide (k = device_key d)) as [->|Hne].
    + rewrite lookup_delete_eq. repeat case_decide; set_solver.
    + rewrite lookup_delete_ne by done. repeat case_decide; set_solver.
  - repeat case_decide; set_solver.
Qed.
Lemma first_claimed_None idx ds :
  first_claimed idx ds = None ↔ ∀ k, k ∈ device_key <$> ds → idx !! k = None.
Proof.
  induction ds as [|d ds IH]; simpl; [set_solver|].
  destruct (idx !! device_key d) eqn:E; split.
  - done.
  - intros H. rewrite (H (device_key d)) in E; set_solver.
  - intros Hc k. rewrite elem_of_cons. intros [->|Hk]; [done|]. by apply IH.
  - intros H. apply IH. intros k Hk. apply H. set_solver.
Qed.

(** The four outcomes of [Register], as a case rule. *)
Lemma Register_cases (p : P) r :
  let n := Name (Info p) in
  (Register (Some p) r =
     ({| plugins := <[n := p]> (plugins r);
         deviceIndex := index_devices n (SupportedDevices (Info p)) (deviceIndex r) |}, None)
   ∧ n ≠ "" ∧ plugins r !! n = None ∧ ∀ k, k ∈ device_keys p → deviceIndex r !! k = None)
  ∨ (∃ e, Register (Some p) r = (r, Some e)
     ∧ (n = "" ∨ is_Some (plugins r !! n) ∨ ∃ k, k ∈ device_keys p ∧ is_Some (deviceIndex r !! k))).
Proof.
  simpl. destruct (String.eqb_spec (Name (Info p)) "") as [->|Hn]; [right; eauto|].
  destruct (plugins r !! Name (Info p)) eqn:Hp; [right; eauto|].
  destruct (first_claimed _ _) as [[k e]|] eqn:Hc.
  - right. eexists. split; [done|]. right; right.
    destruct (decide (Forall (λ k, deviceIndex r !! k = None) (device_keys p))) as [HF|HF].
    + rewrite (proj2 (first_claimed_None _ _)) in Hc; [done|]. by apply Forall_forall.
    + apply not_Forall_Exists in HF; [|apply _]. apply Exists_exists in HF as (k' & Hk & Hx).
      exists k'. split; [done|]. by apply not_eq_None_Some.
  - left. repeat split; [done|]. by apply first_claimed_None.
Qed.

Lemma wf_new : wf NewRegistry.
Proof. split; intros *; simpl; rewrite !lookup_empty; naive_solver. Qed.

Lemma wf_register p r : wf r → wf (Register p r).1.
Proof.
  intros Hwf. destruct p as [p|]; [|done].
  destruct (Register_cases p r) as [(-> & Hn & Hp & Hk)|(e & -> & _)]; [|done]. simpl. split; simpl.
  - intros n q. rewrite lookup_insert. case_decide as E; [subst; naive_solver|apply wf_name, Hwf].
  - intros k n. rewrite index_devices_lookup. fold (device_keys p).
    destruct (decide (k ∈ device_keys p)) as [Hin|Hin].
    + split; [intros [= <-]; exists p; by rewrite lookup_insert_eq|].
      intros (q & Hq & Hkq). destruct (decide (n = Name (Info p))) as [->|Hne]; [done|].
      rewrite lookup_insert_ne in Hq by done.
      assert (deviceIndex r !! k = Some n) as Hi by (apply (wf_index r Hwf); eauto).
      by rewrite (Hk k Hin) in Hi.
    + rewrite (wf_index r Hwf). apply exist_proper. intros q.
      rewrite lookup_insert. case_decide as E; [|done]. subst. split; [intros [? _]; congruence|].
      intros [[= <-] ?]. done.
Qed.

Lemma wf_unregister n r : wf r → wf (Unregister n r).1.
Proof.
  intros Hwf. unfold Unregister. destruct (plugins r !! n) as [p|] eqn:Hp; [|done]. split; simpl.
  - intros m q [_ Hq]%lookup_delete_Some. by apply (wf_name r Hwf).
  - intros k m. rewrite unindex_devices_lookup. fold (device_keys p). case_decide as E.
    + destruct E as [Hk Hi]. split; [done|]. intros (q & [Hne Hq]%lookup_delete_Some & Hkq).
      assert (deviceIndex r !! k = Some m) by (apply (wf_index r Hwf); eauto). congruence.
    + rewrite (wf_index r Hwf). apply exist_proper. intros q. rewrite lookup_delete_Some.
      split; [|naive_solver]. intros [Hq Hk]. split; [split; [|done]|done]. intros ->.
      apply E. rewrite (wf_index r Hwf). split; [|eauto]. congruence.
Qed.

Lemma wf_step r r' : step r r' → wf r → wf r'.
Proof. intros [p ?|n ?|?] H; [by apply wf_register|by apply wf_unregister|apply wf_new]. Qed.
Lemma reachable_wf r : reachable r → wf r.
Proof. intros Hr. pose proof wf_new as H0. revert H0. induction Hr; eauto using wf_step. Qed.

Lemma iteration_in r it n p : iteration r it → (n, p) ∈ it ↔ plugins r !! n = Some p.
Proof. intros ->. apply elem_of_map_to_list. Qed.
Lemma iteration_by_name r it p q :
  wf r → iteration r it → p ∈ it.*2 → q ∈ it.*2 → by_name p = by_name q → p = q.
Proof.
  intros Hwf Hit [[n p'] [-> Hp]]%list_elem_of_fmap [[m q'] [-> Hq]]%list_elem_of_fmap. simpl.
  apply (iteration_in r it) in Hp, Hq; [|done|done]. unfold by_name.
  destruct (wf_name r Hwf _ _ Hp) as [-> _], (wf_name r Hwf _ _ Hq) as [-> _]. congruence.
Qed.
Lemma iteration_keys r it : wf r → iteration r it → it.*1 = by_name <$> it.*2.
Proof.
  intros Hwf Hit. rewrite <-list_fmap_compose. apply list_fmap_ext.
  intros i [n p] Hi. simpl. apply list_elem_of_lookup_2, (iteration_in r it) in Hi; [|done].
  by destruct (wf_name r Hwf _ _ Hi).
Qed.

(** A registry is determined by its plugins map: the index is derived data. *)
Lemma wf_ext r1 r2 : wf r1 → wf r2 → plugins r1 = plugins r2 → r1 = r2.
Proof.
  intros H1 H2 E. destruct r1 as [ps1 i1], r2 as [ps2 i2]; simpl in *; subst. f_equal.
  apply map_eq. intros k. apply option_eq. intros n.
  by rewrite (wf_index _ H1), (wf_index _ H2).
Qed.

Lemma List_names r it :
  wf r → iteration r it → by_name <$> List it = ListNames it.
Proof.
  intros Hwf Hit. apply (StronglySorted_unique str_le).
  - unfold List. pose proof (sort_by_sorted by_name it.*2) as Hs.
    induction Hs as [|p l Hs IH HF]; [constructor|]. simpl. constructor; [done|].
    apply Forall_fmap. done.
  - pose proof (sort_by_sorted id it.*1) as Hs. exact Hs.
  - unfold List, ListNames. rewrite !sort_by_perm. by rewrite (iteration_keys r it).
Qed.

(** * Theorems *)

(** C8: in every registry the operations can build, looking a PCI id up (in any
    letter case) finds exactly the registered plugin that claims it: the two-level
    index refines the search through the registered plugins' device lists. *)
Theorem GetByDeviceID_refines r deviceID p :
  reachable r →
  GetByDeviceID deviceID r = Some p ↔
  ∃ n d, Get n r = Some p ∧ d ∈ SupportedDevices (Info p)
         ∧ to_lower deviceID = to_lower (PCIDeviceID_String d).
Proof.
  intros Hr%reachable_wf. unfold GetByDeviceID, Get. split.
  - destruct (deviceIndex r !! to_lower deviceID) as [n|] eqn:E; [|done]. intros Hp.
    apply (wf_index r Hr) in E as (q & Hq & Hk). rewrite Hq in Hp. injection Hp as ->.
    apply elem_of_device_keys in Hk as (d & ? & ?). by exists n, d.
  - intros (n & d & Hp & Hd & Hk).
    assert (deviceIndex r !! to_lower deviceID = Some n) as ->; [|done].
    apply (wf_index r Hr). exists p. split; [done|]. apply elem_of_device_keys. eauto.
Qed.

(** [Register] succeeds exactly on a plugin with a non-empty, unused name
    none of whose device ids a registered plugin already claims; it then adds
    that one plugin, and on every failure it leaves the registry unchanged. *)
Theorem Register_spec r p :
  reachable r →
  let ok := Name (Info p) ≠ "" ∧ Get (Name (Info p)) r = None ∧
            (∀ n q k, Get n r = Some q → k ∈ device_keys q → k ∉ device_keys p) in
  match Register (Some p) r with
  | (r', None) => ok ∧ plugins r' = <[Name (Info p) := p]> (plugins r)
  | (r', Some _) => ¬ ok ∧ r' = r
  end.
Proof.
  intros Hr%reachable_wf ok. unfold ok, Get.
  destruct (Register_cases p r) as [(-> & Hn & Hp & Hk)|(e & -> & Hbad)].
  - split; [|done]. split; [done|]. split; [done|]. intros n q k Hq Hkq Hkp.
    assert (deviceIndex r !! k = Some n) as Hi by (apply (wf_index r Hr); eauto).
    by rewrite (Hk k Hkp) in Hi.
  - split; [|done]. intros (Hn & Hp & Hk). destruct Hbad as [?|[[? ?]|(k & Hkp & n & Hi)]]; [done|congruence|].
    apply (wf_index r Hr) in Hi as (q & Hq & Hkq). by apply (Hk n q k).
Qed.

(** Unregistering the plugin just registered gives back the registry it was
    registered in, index included. *)
Theorem Unregister_Register r r' p :
  reachable r → Register (Some p) r = (r', None) →
  Unregister (Name (Info p)) r' = (r, None).
Proof.
  intros Hr Hreg. apply reachable_wf in Hr. pose proof (wf_register (Some p) r Hr) as Hr'.
  rewrite Hreg in Hr'. pose proof (wf_unregister (Name (Info p)) r' Hr') as Hr''.
  destruct (Register_cases p r) as [(E & Hn & Hp & _)|(e & E & _)]; rewrite E in Hreg; [|done].
  injection Hreg as <-. simpl in *. unfold Unregister in *. simpl in *.
  rewrite lookup_insert_eq in *. f_equal. apply wf_ext; [done|done|]. simpl.
  by rewrite delete_insert_id.
Qed.

(** The listings do not depend on the order in which the runtime walks the
    plugin map; they list every plugin once, in the order of [ListNames]. *)
Theorem List_deterministic r it1 it2 cap i :
  reachable r → iteration r it1 → iteration r it2 →
  List it1 = List it2 ∧ GetByCapability cap it1 = GetByCapability cap it2 ∧
  get_implementing i it1 = get_implementing i it2 ∧
  by_name <$> List it1 = ListNames it1 ∧ length (List it1) = Count r.
Proof.
  intros Hr%reachable_wf H1 H2.
  assert (it1.*2 ≡ₚ it2.*2) as Hp by (unfold iteration in *; by rewrite H1, H2).
  assert (∀ (Q : P → Prop) `{!∀ x, Decision (Q x)},
    sort_by by_name (filter Q it1.*2) = sort_by by_name (filter Q it2.*2)) as Hf.
  { intros Q ?. apply sort_by_unique; [by rewrite Hp|].
    intros x y [_ ?]%list_elem_of_filter [_ ?]%list_elem_of_filter.
    by apply (iteration_by_name r it1). }
  split; [|split; [apply Hf|split; [apply Hf|split; [by apply List_names with r|]]]].
  - apply sort_by_unique; [done|]. intros x y. by apply (iteration_by_name r it1).
  - unfold List, Count. rewrite sort_by_perm, length_fmap. unfold iteration in H1.
    by rewrite H1, length_map_to_list.
Qed.

End Registry.
Arguments Registry : clear implicits.

(** * Witnesses: a registry of plugins given by their metadata *)
Module Demo.
#[export] Instance info_plugin : Plugin PluginInfo :=
    {| Info := id; implements := λ _ i, bool_decide (i = INetwork) |}.
Definition mk (name : string) (ids : list (string * string)) : PluginInfo :=
    {| Name := name; Vendor := name; Version := "1"; InfoDescription := "";
       SupportedDevices := (λ '(v, d), {| VendorID := v; DeviceID := d; Description := "" |}) <$> ids;
       Capabilities := [CapabilityNetworking] |}.
Definition nv := mk "nvidia" [("15b3", "A2D6"); ("15b3", "a2dc")].
Definition xs := mk "xsight" [("1de5", "0001")].
Definition r1 : Registry PluginInfo := (Register (Some nv) NewRegistry).1.
Definition r2 : Registry PluginInfo := (Register (Some xs) r1).1.
Lemma reach1 : reachable r1.
Proof. eapply rtc_l; [apply step_register|constructor]. Qed.
Lemma reach2 : reachable r2.
Proof. eapply rtc_l; [apply step_register|]. eapply rtc_l; [apply step_register|constructor]. Qed.
End Demo.
Import Demo.

Lemma GetByDeviceID_refines_witness :
  GetByDeviceID "15B3:a2d6" r2 = Some nv.
Proof.
  apply (GetByDeviceID_refines r2 "15B3:a2d6" nv reach2).
  exists "nvidia", {| VendorID := "15b3"; DeviceID := "A2D6"; Description := "" |}.
  split; [by vm_compute|split; [constructor|by vm_compute]].
Defined.
Lemma Register_spec_witness : plugins r2 = <["xsight" := xs]> (plugins r1).
Proof. exact (proj2 (Register_spec r1 xs reach1)). Defined.
Lemma Unregister_Register_witness : Unregister "xsight" r2 = (r1, None).
Proof. by apply (Unregister_Register r1 r2 xs reach1). Defined.
Lemma List_deterministic_witness :
  List (reverse (map_to_list (plugins r2))) = List (map_to_list (plugins r2)).
Proof.
  apply (List_deterministic r2 (reverse (map_to_list (plugins r2))) (map_to_list (plugins r2))
           CapabilityNetworking INetwork reach2); [apply reverse_Permutation|unfold iteration; reflexivity].
Defined.
Example List_value : List (map_to_list (plugins r2)) = [nv; xs].
Proof. vm_compute. reflexivity. Qed.
