(* ===== verification/Scan.v ===== *)
(** PCI discovery: pkg/plugin/pci/scanner.go (reading devices out of sysfs) and
    pkg/plugin/scan.go (turning the matching ones into plugin devices).

    The file system is a parameter: the record [sysfs] holds what the Go [os]
    package answers for each path.  Paths are joined with [/]. *)
From S2P Require Import Prelude Plugin.

(** A directory entry as [os.ReadDir] reports it: [IsDir] is about the entry
    itself, so it is false on a symbolic link, wherever the link points. *)
Record DirEntry := { EntryName : string; IsDir : bool }.
Record sysfs := {
  ReadDir : string → result (list DirEntry);
  ReadFile : string → result string;
  Readlink : string → result string }.

Definition path_join (a b : string) : string := a +:+ "/" +:+ b.
(** [filepath.Base]. *)
Definition path_base (p : string) : string :=
  if String.eqb p "" then "."
  else match reverse (filter (λ s, s ≠ "") (split_char "/" p)) with
       | s :: _ => s
       | [] => "/"
       end.

Record PciDevice := {
  Address : string; PVendorID : string; PDeviceID : string;
  SubsystemVendorID : string; SubsystemDeviceID : string;
  Class_ : string; Driver : string; NumaNode : string }.

Definition sysfsPath : string := "/sys/bus/pci/devices".

Section Scanner.
Context (fs : sysfs).

Definition readHexFile (path : string) : result string :=
  let? content := ReadFile fs path in
  Ok (trim_prefix "0x" (trim_space content)).

(** [if err == nil { field = v }] on a field that starts as the empty string. *)
Definition or_empty (r : result string) : string := match r with Ok v => v | Err _ => "" end.

Definition readDevice (address : string) : result PciDevice :=
  let devicePath := path_join sysfsPath address in
  let hex f := or_empty (readHexFile (path_join devicePath f)) in
  Ok {| Address := address;
        PVendorID := hex "vendor"; PDeviceID := hex "device";
        SubsystemVendorID := hex "subsystem_vendor"; SubsystemDeviceID := hex "subsystem_device";
        Class_ := hex "class";
        Driver := or_empty (rmap path_base (Readlink fs (path_join devicePath "driver")));
        NumaNode := or_empty (rmap trim_space (ReadFile fs (path_join devicePath "numa_node"))) |}.

(** The loop of [ScanAll]: entries that are not directories and devices that do
    not read are skipped. *)
Fixpoint scan_entries (entries : list DirEntry) : list PciDevice :=
  match entries with
  | [] => []
  | e :: entries =>
      if IsDir e then
        match readDevice (EntryName e) with
        | Ok d => d :: scan_entries entries
        | Err _ => scan_entries entries
        end
      else scan_entries entries
  end.
Definition ScanAll : result (list PciDevice) :=
  match ReadDir fs sysfsPath with
  | Err e => Err (Wrap "failed to read PCI devices directory: " e)
  | Ok entries => Ok (scan_entries entries)
  end.
Definition matches (vendorID deviceID : string) (d : PciDevice) : bool :=
  String.eqb (PVendorID d) vendorID && String.eqb (PDeviceID d) deviceID.
Definition ScanByVendorDevice (vendorID deviceID : string) : result (list PciDevice) :=
  let? all := ScanAll in Ok (List.filter (matches vendorID deviceID) all).

Definition GetDeviceInfo (address : string) : result PciDevice :=
  rerr (Wrap ("failed to read device " +:+ address +:+ ": ")) (readDevice address).

(** What [bufio.Scanner] yields: the lines, without line ends, no empty last line. *)
Definition lines (s : string) : list string :=
  let ls := split_char (Ascii.ascii_of_nat 10) s in
  let ls := match reverse ls with "" :: rest => reverse rest | _ => ls end in
  trim_suffix (String (Ascii.ascii_of_nat 13) "") <$> ls.
(** [strings.SplitN(line, p, 2)[1]]: what follows the first occurrence of [p]. *)
Fixpoint after_first (p s : string) : option string :=
  if has_prefix p s then Some (drop_string (String.length p) s)
  else match s with EmptyString => None | String _ s => after_first p s end.
Fixpoint find_serial (ls : list string) : option string :=
  match ls with
  | [] => None
  | l :: ls => match after_first "SN" l with Some rest => Some (trim_space rest) | None => find_serial ls end
  end.
Definition GetSerialNumber (address : string) : result string :=
  match ReadFile fs (path_join (path_join sysfsPath address) "vpd") with
  | Err e => Err (Wrap "failed to open VPD: " e)
  | Ok data =>
      match find_serial (lines data) with
      | Some s => Ok s
      | None => Err (Text "serial number not found in VPD")
      end
  end.
Definition GetFirmwareVersion (address : string) : result string :=
  Err (Text "firmware version must be queried via vendor-specific API").

(** * scan.go *)

Definition scanned_device (vendorName idPrefix serialPrefix : string) (sd : PCIDeviceID) (d : PciDevice) : Device :=
  {| ID := idPrefix +:+ "-" +:+ Address d; PCIAddress := Address d; PCIID := zero_PCIID;
     DevVendor := vendorName; Model := Description sd;
     SerialNumber := match GetSerialNumber (Address d) with
                     | Ok s => s
                     | Err _ => serialPrefix +:+ "-" +:+ Address d
                     end;
     FirmwareVersion := ""; Healthy := true;
     Metadata := <["pci_vendor_id" := PVendorID d]> (<["pci_device_id" := PDeviceID d]>
       (<["pci_class" := Class_ d]> (<["device_type" := Description sd]>
       (<["driver" := Driver d]> {["numa_node" := NumaNode d]})))) |}.

(** The loop over the supported ids: an id whose scan fails is skipped. *)
Fixpoint scan_supported (supportedDevices : list PCIDeviceID) (vendorName idPrefix serialPrefix : string)
    : list Device :=
  match supportedDevices with
  | [] => []
  | sd :: sds =>
      match ScanByVendorDevice (VendorID sd) (DeviceID sd) with
      | Err _ => scan_supported sds vendorName idPrefix serialPrefix
      | Ok pds => (scanned_device vendorName idPrefix serialPrefix sd <$> pds)
                  ++ scan_supported sds vendorName idPrefix serialPrefix
      end
  end.
Definition ScanDevices (supportedDevices : list PCIDeviceID) (vendorName idPrefix serialPrefix : string)
    : result (list Device) :=
  Ok (scan_supported supportedDevices vendorName idPrefix serialPrefix).

(** * Lemmas *)

Lemma scan_entries_elem d es :
  d ∈ scan_entries es ↔ ∃ e, e ∈ es ∧ IsDir e = true ∧ readDevice (EntryName e) = Ok d.
Proof.
  induction es as [|e es IH]; [set_solver|].
  cbn [scan_entries]. destruct (IsDir e) eqn:Hd.
  - change (match readDevice (EntryName e) with Ok d => d :: scan_entries es | Err _ => scan_entries es end)
      with (match readDevice (EntryName e) with Ok d => d | Err _ => d end :: scan_entries es).
    rewrite elem_of_cons, IH. split.
    + intros [->|(e' & ? & ? & ?)]; [exists e; split; [left|done]|exists e'; split; [by right|done]].
    + intros (e' & [->|He]%elem_of_cons & Hd' & Hr); [left|right; eauto]. by injection Hr as <-.
  - rewrite IH. split; intros (e' & He & Hd' & Hr); exists e'; split; try done.
    + by right.
    + apply elem_of_cons in He as [->|]; congruence.
Qed.
Lemma scan_entries_addresses es :
  Address <$> scan_entries es = EntryName <$> List.filter IsDir es.
Proof.
  induction es as [|e es IH]; [done|]. cbn [scan_entries List.filter].
  destruct (IsDir e); [|done]. simpl. by f_equal.
Qed.
Lemma ScanAll_ok es : ReadDir fs sysfsPath = Ok es → ScanAll = Ok (scan_entries es).
Proof. unfold ScanAll. by intros ->. Qed.

Lemma scan_supported_elem sds v i s dev :
  dev ∈ scan_supported sds v i s ↔
  ∃ sd all d, sd ∈ sds ∧ ScanAll = Ok all ∧ d ∈ all
    ∧ PVendorID d = VendorID sd ∧ PDeviceID d = DeviceID sd ∧ dev = scanned_device v i s sd d.
Proof.
  induction sds as [|sd sds IH]; simpl; [set_solver|].
  unfold ScanByVendorDevice. destruct ScanAll as [all|e] eqn:Ha.
  2: { rewrite IH. split; by intros (? & ? & ? & ? & ? & ?). }
  rewrite elem_of_app, IH, list_elem_of_fmap. split.
  - intros [(d & -> & Hd)|(sd' & all' & d & ? & ? & ?)].
    + apply list_elem_of_In, filter_In in Hd as [Hd Hm]. unfold matches in Hm.
      apply andb_prop in Hm as [H1%String.eqb_eq H2%String.eqb_eq].
      apply list_elem_of_In in Hd. exists sd, all, d. repeat split; try done. by left.
    + exists sd', all', d. split; [by right|done].
  - intros (sd' & all' & d & Hsd & [= <-] & Hd & Hv & Hi & ->).
    apply elem_of_cons in Hsd as [->|Hsd]; [left|right; naive_solver].
    exists d. split; [done|]. apply list_elem_of_In, filter_In. rewrite <-list_elem_of_In.
    split; [done|]. unfold matches. by rewrite Hv, Hi, !String.eqb_refl.
Qed.

Lemma scan_supported_NoDup sds v i s :
  NoDup ((λ sd, (VendorID sd, DeviceID sd)) <$> sds) →
  (∀ all, ScanAll = Ok all → NoDup (Address <$> all)) →
  NoDup (ID <$> scan_supported sds v i s).
Proof.
  intros Hs Ha. induction sds as [|sd sds IH]; simpl; [constructor|].
  apply NoDup_cons in Hs as [Hsd Hs]. specialize (IH Hs).
  unfold ScanByVendorDevice. destruct ScanAll as [all|e] eqn:E; [|done]. specialize (Ha _ eq_refl).
  assert (∀ d, d ∈ List.filter (matches (VendorID sd) (DeviceID sd)) all →
    d ∈ all ∧ PVendorID d = VendorID sd ∧ PDeviceID d = DeviceID sd) as Hf.
  { intros d. rewrite !list_elem_of_In, filter_In. unfold matches.
    rewrite andb_true_iff, !String.eqb_eq. done. }
  rewrite fmap_app. apply NoDup_app. split; [|split; [|done]].
  - rewrite <-list_fmap_compose.
    assert (NoDup (Address <$> List.filter (matches (VendorID sd) (DeviceID sd)) all)) as Hn.
    { clear -Ha. induction all as [|d all IH]; simpl in *; [constructor|].
      apply NoDup_cons in Ha as [Hd Ha]. destruct (matches _ _ d); simpl; [|auto].
      apply NoDup_cons. split; [|auto]. intros (d' & Hd' & Hin)%list_elem_of_fmap. apply Hd.
      apply list_elem_of_fmap. exists d'. split; [done|].
      by apply list_elem_of_In, filter_In in Hin as [?%list_elem_of_In _]. }
    rewrite (list_fmap_ext _ (λ d, i +:+ "-" +:+ Address d)) by done.
    change (λ d, i +:+ "-" +:+ Address d) with ((λ a, i +:+ "-" +:+ a) ∘ Address).
    rewrite list_fmap_compose. apply NoDup_fmap_2; [|done].
    intros a b Hab. by apply string_app_inj_l, string_app_inj_l in Hab.
  - intros k (dev & -> & (d & -> & [Hd [Hv Hi]]%Hf)%list_elem_of_fmap)%list_elem_of_fmap.
    intros (dev' & Heq & Hin)%list_elem_of_fmap.
    apply scan_supported_elem in Hin as (sd' & all' & d' & Hsd' & Hall & Hd' & Hv' & Hi' & ->).
    rewrite E in Hall. injection Hall as <-. simpl in Heq.
    apply string_app_inj_l in Heq. injection Heq as Heq.
    assert (d = d') as <-.
    { clear -Ha Hd Hd' Heq. induction all as [|x all IH]; [set_solver|]. simpl in Ha.
      apply NoDup_cons in Ha as [Hx Ha].
      assert (∀ y, y ∈ all → Address y ≠ Address x) as Hy.
      { intros y Hy Hyx. apply Hx. rewrite <-Hyx. by apply list_elem_of_fmap_2. }
      apply elem_of_cons in Hd as [->|Hd]; apply elem_of_cons in Hd' as [->|Hd']; auto.
      - by destruct (Hy d').
      - by destruct (Hy d). }
    apply Hsd. apply list_elem_of_fmap. exists sd'. split; [congruence|done].
Qed.

(** * Theorems *)

(** C18: discovery reports exactly the directory entries of the bus whose vendor
    and device ids are supported, each as a healthy device under the prefixed
    address, and it reports no device twice. *)
Theorem ScanDevices_spec sds v i s es :
  ReadDir fs sysfsPath = Ok es →
  NoDup (EntryName <$> es) → NoDup ((λ sd, (VendorID sd, DeviceID sd)) <$> sds) →
  ∃ l, ScanDevices sds v i s = Ok l ∧ NoDup (ID <$> l) ∧
  ∀ dev, dev ∈ l ↔ ∃ sd e d, sd ∈ sds ∧ e ∈ es ∧ IsDir e = true ∧ readDevice (EntryName e) = Ok d
    ∧ PVendorID d = VendorID sd ∧ PDeviceID d = DeviceID sd ∧ dev = scanned_device v i s sd d.
Proof.
  intros He Hn Hs. eexists. split; [done|]. split.
  - apply scan_supported_NoDup; [done|]. intros all Hall. rewrite (ScanAll_ok es He) in Hall.
    injection Hall as <-. rewrite scan_entries_addresses. clear -Hn.
    induction es as [|e es IH]; simpl in *; [constructor|]. apply NoDup_cons in Hn as [H1 H2].
    destruct (IsDir e); simpl; [|auto]. apply NoDup_cons. split; [|auto].
    intros (e' & Heq & Hin)%list_elem_of_fmap. apply H1, list_elem_of_fmap. exists e'. split; [done|].
    by apply list_elem_of_In, filter_In in Hin as [?%list_elem_of_In _].
  - intros dev. rewrite scan_supported_elem. split.
    + intros (sd & all & d & Hsd & Hall & Hd & Hv & Hi & ->). rewrite (ScanAll_ok es He) in Hall.
      injection Hall as <-. apply scan_entries_elem in Hd as (e & ? & ? & ?). by exists sd, e, d.
    + intros (sd & e & d & Hsd & Hein & Hdir & Hr & Hv & Hi & ->).
      exists sd, (scan_entries es), d. split; [done|]. split; [by apply ScanAll_ok|].
      split; [|done]. apply scan_entries_elem. eauto.
Qed.

(** Symbolic links are not directories for [os.ReadDir], so on a bus whose
    entries are links (the layout of /sys/bus/pci/devices on Linux) discovery
    reports no device, whatever hardware is present. *)
Theorem ScanDevices_symlinks sds v i s es :
  ReadDir fs sysfsPath = Ok es → Forall (λ e, IsDir e = false) es →
  ScanDevices sds v i s = Ok [].
Proof.
  intros He HF. unfold ScanDevices. f_equal. destruct (scan_supported _ _ _ _) as [|dev l] eqn:E; [done|].
  assert (dev ∈ scan_supported sds v i s) as Hin by (rewrite E; left).
  apply scan_supported_elem in Hin as (sd & all & d & _ & Hall & Hd & _).
  rewrite (ScanAll_ok es He) in Hall. injection Hall as <-.
  apply scan_entries_elem in Hd as (e & He' & Hdir & _). rewrite Forall_forall in HF.
  by rewrite (HF e He') in Hdir.
Qed.
End Scanner.

(** * Witnesses *)
Module ScanDemo.
Definition file (n v : string) : string := path_join (path_join sysfsPath n) v.
Definition LF : string := String (Ascii.ascii_of_nat 10) "".
Definition fs (dir : bool) : sysfs :=
    {| ReadDir := λ p, Ok [{| EntryName := "0000:03:00.0"; IsDir := dir |}];
       ReadFile := λ p,
         if String.eqb p (file "0000:03:00.0" "vendor") then Ok ("0x15b3" +:+ LF)
         else if String.eqb p (file "0000:03:00.0" "device") then Ok ("0xa2d6" +:+ LF)
         else if String.eqb p (file "0000:03:00.0" "vpd") then Ok ("PN900" +:+ LF +:+ "SN MT1234 " +:+ LF)
         else Err (Text "no such file");
       Readlink := λ p, Ok "../../../bus/pci/drivers/mlx5_core" |}.
Definition sds := [{| VendorID := "15b3"; DeviceID := "a2d6"; Description := "NVIDIA BlueField-2 DPU" |}].
Example scan_one :
    rmap (fmap (λ d, (ID d, SerialNumber d, Metadata d !! "driver"))) (ScanDevices (fs true) sds "NVIDIA" "nvidia" "NV")
    = Ok [("nvidia-0000:03:00.0", "MT1234", Some "mlx5_core")].
Proof. vm_compute. reflexivity. Qed.
End ScanDemo.

Lemma ScanDevices_spec_witness :
  ∃ l, ScanDevices (ScanDemo.fs true) ScanDemo.sds "NVIDIA" "nvidia" "NV" = Ok l ∧ NoDup (ID <$> l).
Proof.
  destruct (ScanDevices_spec (ScanDemo.fs true) ScanDemo.sds "NVIDIA" "nvidia" "NV"
    [{| EntryName := "0000:03:00.0"; IsDir := true |}] eq_refl) as (l & H1 & H2 & _).
  - apply NoDup_singleton.
  - apply NoDup_singleton.
  - by exists l.
Defined.
Lemma ScanDevices_symlinks_witness :
  ScanDevices (ScanDemo.fs false) ScanDemo.sds "NVIDIA" "nvidia" "NV" = Ok [].
Proof.
  apply (ScanDevices_symlinks (ScanDemo.fs false) ScanDemo.sds "NVIDIA" "nvidia" "NV" _ eq_refl).
  repeat constructor.
Defined.
