(* ===== verification/OpiClient.v ===== *)
(** The OPI client wrapper, pkg/opi/client.go: options, connections, call
    timeouts and the calls the plugins make.

    gRPC is not modelled but given as parameters: [dial] is what [grpc.NewClient]
    answers for a target, [conn_state] is [ClientConn.GetState], and the class
    [OPIServer] gives the generated service clients, over the state [B] of the
    remote bridge. *)
From S2P Require Import Prelude Plugin.

(** google.golang.org/grpc/connectivity.State. *)
Inductive connectivity := Idle | Connecting | Ready | TransientFailure | ShutdownState.
#[export] Instance connectivity_eq_dec : EqDecision connectivity.
Proof. solve_decision. Defined.

(** The connections of the process: a supply of fresh ones and those still open. *)
Record conns := { next_conn : nat; open_conns : gset nat }.
Definition no_conns : conns := {| next_conn := 0; open_conns := ∅ |}.

(** Durations in nanoseconds. *)
Definition Second : Z := 1000000000.
Record clientOptions := { dialTimeout : Z; callTimeout : Z; maxRetries : Z; retryInterval : Z }.
Definition defaultOptions : clientOptions :=
  {| dialTimeout := 10 * Second; callTimeout := 30 * Second; maxRetries := 3; retryInterval := 1 * Second |}.
Definition ClientOption := clientOptions → clientOptions.
Definition WithDialTimeout (d : Z) : ClientOption := λ o,
  {| dialTimeout := d; callTimeout := callTimeout o; maxRetries := maxRetries o; retryInterval := retryInterval o |}.
Definition WithCallTimeout (d : Z) : ClientOption := λ o,
  {| dialTimeout := dialTimeout o; callTimeout := d; maxRetries := maxRetries o; retryInterval := retryInterval o |}.
Definition WithRetry (n interval : Z) : ClientOption := λ o,
  {| dialTimeout := dialTimeout o; callTimeout := callTimeout o; maxRetries := n; retryInterval := interval |}.

Record Client := { conn : option nat; endpoint : string; options : clientOptions }.
#[export] Instance clientOptions_eq_dec : EqDecision clientOptions.
Proof. solve_decision. Defined.
#[export] Instance Client_eq_dec : EqDecision Client.
Proof. solve_decision. Defined.

Section Conn.
Context (dial : string → option error) (conn_state : nat → connectivity).

Definition NewClient (ep : string) (opts : list ClientOption) (w : conns) : conns * result Client :=
  let o := foldl (λ o opt, opt o) defaultOptions opts in
  match dial ep with
  | Some e => (w, Err (Wrap ("failed to create OPI client for endpoint " +:+ ep +:+ ": ") e))
  | None =>
      ({| next_conn := S (next_conn w); open_conns := {[next_conn w]} ∪ open_conns w |},
       Ok {| conn := Some (next_conn w); endpoint := ep; options := o |})
  end.

(** [conn.Close()]: closing twice answers [ErrClientConnClosing]. *)
Definition Close (c : Client) (w : conns) : conns * option error :=
  match conn c with
  | None => (w, None)
  | Some n =>
      if decide (n ∈ open_conns w)
      then ({| next_conn := next_conn w; open_conns := open_conns w ∖ {[n]} |}, None)
      else (w, Some (Status Unknown "grpc: the client connection is closing"))
  end.

Definition IsConnected (c : Client) : bool :=
  match conn c with
  | None => false
  | Some n => bool_decide (conn_state n = Ready) || bool_decide (conn_state n = Idle)
  end.
End Conn.

(** * Contexts and timeouts

    A context is its deadline, if any; [context.WithTimeout(ctx, d)] at time
    [now] never extends the parent's deadline. *)
Definition ctx := option Z.
Definition context_WithTimeout (now : Z) (c : ctx) (d : Z) : ctx :=
  match c with Some t => Some (Z.min t (now + d)) | None => Some (now + d)%Z end.
Definition withTimeout (now : Z) (o : clientOptions) (c : ctx) : ctx :=
  if (0 <? callTimeout o)%Z then context_WithTimeout now c (callTimeout o) else c.

(** * Protobuf messages the plugins read or write *)
Record BridgePortSpec := { MacAddress : list Z; Ptype : Z; LogicalBridges : list string }.
Record OpiBridgePort := { BpName : string; BpSpec : option BridgePortSpec }.
Record CreateBridgePortRequest := { BridgePortId : string; CreateBp : option OpiBridgePort }.
Record LogicalBridge := { LbName : string; VlanId : Z }.
Record CreateLogicalBridgeRequest := { LogicalBridgeId : string; CreateVlanId : Z }.
(** [BridgePortType]: UNSPECIFIED, ACCESS, TRUNK (opi-api l2_xpu_infra_mgr.proto). *)
Definition BRIDGE_PORT_TYPE_UNSPECIFIED : Z := 0.
Definition BRIDGE_PORT_TYPE_ACCESS : Z := 1.
Definition BRIDGE_PORT_TYPE_TRUNK : Z := 2.

(** The generated service clients.  A device list is given in the order one
    [range] over the response's map visits it; [None] is a nil response. *)
Class OPIServer (B : Type) := {
  rpc_Ping : nat → ctx → B → B * option error;
  rpc_GetDevices : nat → ctx → B → B * result (option (list (string * string)));
  rpc_SetNumVfs : nat → ctx → Z → B → B * result Z;
  rpc_CreateBridgePort : nat → ctx → CreateBridgePortRequest → B → B * result OpiBridgePort;
  rpc_GetBridgePort : nat → ctx → string → B → B * result OpiBridgePort;
  rpc_ListBridgePorts : nat → ctx → B → B * result (list OpiBridgePort);
  rpc_DeleteBridgePort : nat → ctx → string → B → B * option error;
  rpc_CreateLogicalBridge : nat → ctx → CreateLogicalBridgeRequest → B → B * result LogicalBridge;
  rpc_GetLogicalBridge : nat → ctx → string → B → B * result LogicalBridge }.

Section Calls.
Context {B : Type} `{!OPIServer B} (now : Z).
Definition the_conn (c : Client) : nat := default 0 (conn c).

Definition Lifecycle_Ping (c : Client) (x : ctx) : B → B * option error :=
  rpc_Ping (the_conn c) (withTimeout now (options c) x).
Definition Lifecycle_GetDevices (c : Client) (x : ctx) : B → B * result (option (list (string * string))) :=
  rpc_GetDevices (the_conn c) (withTimeout now (options c) x).
Definition Lifecycle_SetNumVfs (c : Client) (x : ctx) (count : Z) : B → B * result Z :=
  rpc_SetNumVfs (the_conn c) (withTimeout now (options c) x) count.
Definition Network_CreateBridgePort (c : Client) (x : ctx) (req : CreateBridgePortRequest) : B → B * result OpiBridgePort :=
  rpc_CreateBridgePort (the_conn c) (withTimeout now (options c) x) req.
Definition Network_GetBridgePort (c : Client) (x : ctx) (name : string) : B → B * result OpiBridgePort :=
  rpc_GetBridgePort (the_conn c) (withTimeout now (options c) x) name.
Definition Network_ListBridgePorts (c : Client) (x : ctx) : B → B * result (list OpiBridgePort) :=
  rpc_ListBridgePorts (the_conn c) (withTimeout now (options c) x).
Definition Network_DeleteBridgePort (c : Client) (x : ctx) (name : string) : B → B * option error :=
  rpc_DeleteBridgePort (the_conn c) (withTimeout now (options c) x) name.
Definition Network_CreateLogicalBridge (c : Client) (x : ctx) (req : CreateLogicalBridgeRequest) : B → B * result LogicalBridge :=
  rpc_CreateLogicalBridge (the_conn c) (withTimeout now (options c) x) req.
Definition Network_GetLogicalBridge (c : Client) (x : ctx) (name : string) : B → B * result LogicalBridge :=
  rpc_GetLogicalBridge (the_conn c) (withTimeout now (options c) x) name.
End Calls.

(** A client on a connection that exists already, for tests. *)
Definition NewClientWithConn (n : nat) : Client := {| conn := Some n; endpoint := "mock"; options := defaultOptions |}.

(** The calls the plugins do not make; their messages are passed on as they are. *)
Class OPIMore (B : Type) := {
  OpiInitRequest : Type; OpiIpPort : Type; UpdateBridgePortRequest : Type;
  Vrf : Type; CreateVrfRequest : Type; Svi : Type; CreateSviRequest : Type;
  rpc_Init : nat → ctx → OpiInitRequest → B → B * result OpiIpPort;
  rpc_UpdateBridgePort : nat → ctx → UpdateBridgePortRequest → B → B * result OpiBridgePort;
  rpc_DeleteLogicalBridge : nat → ctx → string → B → B * option error;
  rpc_CreateVrf : nat → ctx → CreateVrfRequest → B → B * result Vrf;
  rpc_GetVrf : nat → ctx → string → B → B * result Vrf;
  rpc_DeleteVrf : nat → ctx → string → B → B * option error;
  rpc_CreateSvi : nat → ctx → CreateSviRequest → B → B * result Svi;
  rpc_GetSvi : nat → ctx → string → B → B * result Svi;
  rpc_DeleteSvi : nat → ctx → string → B → B * option error }.
Section MoreCalls.
Context {B : Type} `{!OPIMore B} (now : Z).
Definition Lifecycle_Init (c : Client) (x : ctx) (req : OpiInitRequest) : B → B * result OpiIpPort :=
  rpc_Init (the_conn c) (withTimeout now (options c) x) req.
Definition Network_UpdateBridgePort (c : Client) (x : ctx) (req : UpdateBridgePortRequest) : B → B * result OpiBridgePort :=
  rpc_UpdateBridgePort (the_conn c) (withTimeout now (options c) x) req.
Definition Network_DeleteLogicalBridge (c : Client) (x : ctx) (name : string) : B → B * option error :=
  rpc_DeleteLogicalBridge (the_conn c) (withTimeout now (options c) x) name.
Definition Network_CreateVrf (c : Client) (x : ctx) (req : CreateVrfRequest) : B → B * result Vrf :=
  rpc_CreateVrf (the_conn c) (withTimeout now (options c) x) req.
Definition Network_GetVrf (c : Client) (x : ctx) (name : string) : B → B * result Vrf :=
  rpc_GetVrf (the_conn c) (withTimeout now (options c) x) name.
Definition Network_DeleteVrf (c : Client) (x : ctx) (name : string) : B → B * option error :=
  rpc_DeleteVrf (the_conn c) (withTimeout now (options c) x) name.
Definition Network_CreateSvi (c : Client) (x : ctx) (req : CreateSviRequest) : B → B * result Svi :=
  rpc_CreateSvi (the_conn c) (withTimeout now (options c) x) req.
Definition Network_GetSvi (c : Client) (x : ctx) (name : string) : B → B * result Svi :=
  rpc_GetSvi (the_conn c) (withTimeout now (options c) x) name.
Definition Network_DeleteSvi (c : Client) (x : ctx) (name : string) : B → B * option error :=
  rpc_DeleteSvi (the_conn c) (withTimeout now (options c) x) name.
End MoreCalls.

(** The connection a client holds. *)
Definition client_conns (c : Client) : gset nat :=
  match conn c with Some n => {[n]} | None => ∅ end.

(** Every connection handed out is below the supply. *)
Definition conns_wf (w : conns) : Prop := ∀ n, n ∈ open_conns w → n < next_conn w.

Lemma withTimeout_bound now o x t :
  (0 < callTimeout o)%Z → withTimeout now o x = Some t →
  (t ≤ now + callTimeout o)%Z ∧ (∀ t', x = Some t' → t ≤ t')%Z.
Proof.
  unfold withTimeout. intros H. rewrite (proj2 (Z.ltb_lt _ _) H).
  destruct x as [t'|]; simpl; intros [= <-]; split; try lia; intros ? [= <-]; lia.
Qed.
Lemma NewClient_ok dial ep opts w w' c :
  NewClient dial ep opts w = (w', Ok c) →
  dial ep = None ∧ conn c = Some (next_conn w) ∧ endpoint c = ep
  ∧ w' = {| next_conn := S (next_conn w); open_conns := {[next_conn w]} ∪ open_conns w |}.
Proof. unfold NewClient. destruct (dial ep); intros [= <- <-]; done. Qed.
Lemma NewClient_err dial ep opts w w' e :
  NewClient dial ep opts w = (w', Err e) → w' = w.
Proof. unfold NewClient. destruct (dial ep); by intros [= <- _]. Qed.
Lemma NewClient_wf dial ep opts w : conns_wf w → conns_wf (NewClient dial ep opts w).1.
Proof. unfold conns_wf, NewClient. destruct (dial ep); simpl; [done|]. set_solver by lia. Qed.
Lemma Close_open c n w :
  conn c = Some n → open_conns (Close c w).1 = open_conns w ∖ {[n]}.
Proof. unfold Close. intros ->. case_decide; simpl; set_solver. Qed.
Lemma Close_next c w : next_conn (Close c w).1 = next_conn w.
Proof. unfold Close. destruct (conn c); [|done]. by case_decide. Qed.
Lemma Close_wf c w : conns_wf w → conns_wf (Close c w).1.
Proof. unfold conns_wf, Close. destruct (conn c); [|done]. case_decide; simpl; set_solver. Qed.
