(* ===== verification/Net.v ===== *)
(** The part of Go's package [net] the program uses on hardware addresses:
    [net.ParseMAC] and [HardwareAddr.String], with their round trip. *)
From S2P Require Import Prelude.

(** A hardware address is a list of bytes. *)
Definition HardwareAddr := list Z.

Definition hex_val (c : ascii) : option Z :=
  let n := Z.of_nat (Ascii.nat_of_ascii c) in
  (if (48 <=? n) && (n <=? 57) then Some (n - 48)
   else if (97 <=? n) && (n <=? 102) then Some (n - 97 + 10)
   else if (65 <=? n) && (n <=? 70) then Some (n - 65 + 10)
   else None)%Z.
Definition hex_digit (d : Z) : ascii :=
  Ascii.ascii_of_nat (Z.to_nat (if (d <? 10)%Z then 48 + d else 87 + d)).
(** [xtoi2]: a piece of exactly two hex digits. *)
Definition hex2 (s : string) : option Z :=
  match s with
  | String a (String b EmptyString) =>
      match hex_val a, hex_val b with Some x, Some y => Some (16 * x + y)%Z | _, _ => None end
  | _ => None
  end.
Definition hex4 (s : string) : option (list Z) :=
  match s with
  | String a (String b (String c (String d EmptyString))) =>
      match hex2 (String a (String b "")), hex2 (String c (String d "")) with
      | Some x, Some y => Some [x; y]
      | _, _ => None
      end
  | _ => None
  end.
Definition valid_mac_len (n : nat) : bool := ((n =? 6) || (n =? 8) || (n =? 20))%nat.
Definition char_at (n : nat) (s : string) : option ascii := String.get n s.

(** [net.ParseMAC]: [xx:xx:...] or [xx-xx-...] or [xxxx.xxxx....] of 6, 8 or 20 bytes. *)
Definition ParseMAC (s : string) : result HardwareAddr :=
  let bad := Err (Text ("address " +:+ s +:+ ": invalid MAC address")) in
  let ret (o : option (list Z)) :=
    match o with Some m => if valid_mac_len (length m) then Ok m else bad | None => bad end in
  match char_at 2 s with
  | Some ":"%char => ret (mapM hex2 (split_char ":" s))
  | Some "-"%char => ret (mapM hex2 (split_char "-" s))
  | _ => match char_at 4 s with
         | Some "."%char => ret (mjoin <$> mapM hex4 (split_char "." s))
         | _ => bad
         end
  end.

Definition byte_string (b : Z) : string :=
  String (hex_digit (b / 16)) (String (hex_digit (b mod 16)) EmptyString).
(** [HardwareAddr.String]. *)
Definition mac_string (m : HardwareAddr) : string := join ":" (byte_string <$> m).

Definition is_byte (b : Z) : Prop := (0 ≤ b < 256)%Z.

Lemma hex_val_digit d : (0 ≤ d < 16)%Z → hex_val (hex_digit d) = Some d.
Proof.
  intros H. assert (d ∈ [0;1;2;3;4;5;6;7;8;9;10;11;12;13;14;15]%Z) as Hin by set_solver by lia.
  repeat (apply elem_of_cons in Hin as [->|Hin]; [reflexivity|]). by apply elem_of_nil in Hin.
Qed.
Lemma hex_digit_no_colon d : (0 ≤ d < 16)%Z → count_char ":" (String (hex_digit d) "") = 0.
Proof.
  intros H. assert (d ∈ [0;1;2;3;4;5;6;7;8;9;10;11;12;13;14;15]%Z) as Hin by set_solver by lia.
  repeat (apply elem_of_cons in Hin as [->|Hin]; [reflexivity|]). by apply elem_of_nil in Hin.
Qed.
Lemma hex2_byte b : is_byte b → hex2 (byte_string b) = Some b.
Proof.
  intros [H1 H2]. unfold byte_string, hex2.
  rewrite !hex_val_digit; [f_equal; pose proof (Z.div_mod b 16); lia|..].
  - apply Z.mod_pos_bound. lia.
  - split; [apply Z.div_pos; lia|apply Z.div_lt_upper_bound; lia].
Qed.
Lemma byte_string_no_colon b : is_byte b → count_char ":" (byte_string b) = 0.
Proof.
  intros [H1 H2]. unfold byte_string.
  change (String (hex_digit (b / 16)) (String (hex_digit (b mod 16)) ""))
    with (String (hex_digit (b / 16)) "" +:+ String (hex_digit (b mod 16)) "").
  rewrite count_char_app, !hex_digit_no_colon; [done|..].
  - apply Z.mod_pos_bound. lia.
  - split; [apply Z.div_pos; lia|apply Z.div_lt_upper_bound; lia].
Qed.
Lemma mapM_hex2 m : Forall is_byte m → mapM hex2 (byte_string <$> m) = Some m.
Proof. 
  induction 1 as [|b m Hb _ IH]; [done|]. rewrite fmap_cons. cbn [mapM].
  by rewrite (hex2_byte b Hb), IH.
Qed.

(** Parsing undoes printing on every address of a legal length. *)
Lemma ParseMAC_mac_string m :
  Forall is_byte m → valid_mac_len (length m) = true → ParseMAC (mac_string m) = Ok m.
Proof.
  intros HF Hlen. unfold ParseMAC, mac_string.
  assert (char_at 2 (join ":" (byte_string <$> m)) = Some ":"%char) as ->.
  { destruct m as [|a [|b m]]; [done|done|]. done. }
  rewrite split_join.
  - by rewrite mapM_hex2, Hlen.
  - by destruct m.
  - apply Forall_fmap. eapply Forall_impl; [exact HF|]. apply byte_string_no_colon.
Qed.
Lemma ParseMAC_empty : ∃ e, ParseMAC "" = Err e.
Proof. eexists. reflexivity. Qed.

(** What [ParseMAC] accepts are bytes. *)
Lemma hex_val_range c x : hex_val c = Some x → (0 ≤ x < 16)%Z.
Proof.
  unfold hex_val. generalize (Z.of_nat (Ascii.nat_of_ascii c)). intros n H.
  repeat (case_match; [simplify_eq/=; lia|]). done.
Qed.
Lemma hex2_range s b : hex2 s = Some b → is_byte b.
Proof.
  unfold hex2, is_byte. destruct s as [|a [|c [|]]]; try done. destruct (hex_val a) eqn:Ha, (hex_val c) eqn:Hc; try done.
  intros [= <-]. apply hex_val_range in Ha, Hc. lia.
Qed.
Lemma hex4_range s l : hex4 s = Some l → Forall is_byte l.
Proof.
  unfold hex4. destruct s as [|a [|b [|c [|d [|]]]]]; try done.
  destruct (hex2 (String a (String b ""))) eqn:H1, (hex2 (String c (String d ""))) eqn:H2; try done.
  intros [= <-]. by repeat constructor; eapply hex2_range.
Qed.
Lemma ParseMAC_bytes s m : ParseMAC s = Ok m → Forall is_byte m.
Proof.
  assert (∀ l, mapM hex2 (split_char l s) = Some m → Forall is_byte m) as H2.
  { intros l H%mapM_Some. revert H. generalize (split_char l s). intros k. induction 1; constructor; [by eapply hex2_range|done]. }
  assert (∀ k, mapM hex4 (split_char "." s) = Some k → Forall is_byte (mjoin k)) as H4.
  { intros k H%mapM_Some. induction H; [constructor|]. apply Forall_app. split; [by eapply hex4_range|done]. }
  unfold ParseMAC. destruct (char_at 2 s) as [c|]; [|destruct (char_at 4 s) as [c|]; [|done]].
  all: repeat case_match; intros; simplify_eq/=; eauto.
  all: try (by eapply H2).
  all: match goal with H : mjoin <$> _ = Some _ |- _ => apply fmap_Some in H as (k & H & ->) end; by apply H4.
Qed.
Lemma ParseMAC_length s m : ParseMAC s = Ok m → valid_mac_len (length m) = true.
Proof. unfold ParseMAC. by repeat case_match; intros; simplify_eq/=. Qed.
(** The text of an address that was parsed is not empty. *)
Lemma ParseMAC_text s m : ParseMAC s = Ok m → mac_string m ≠ "".
Proof. intros H%ParseMAC_length. by destruct m as [|a [|b m]]. Qed.
