(* ===== verification/VendorPlugin.v ===== *)
(** The vendor plugins.

    [PluginOps] / [PluginLaws] is the contract pkg/plugin/interface.go states for
    every plugin, as a type class: the operations over the plugin's state, and the
    laws their callers rely on.  Section [Simple] is the implementation shared, up
    to names, by intel/ipu.go, marvell/octeon.go, xsight/xsight.go and
    mangoboost/mangoboost.go; the modules [Intel], [Marvell], [XSight] and
    [MangoBoost] instantiate it with each file's constants.  BlueField.v holds the
    NVIDIA plugin. *)
From S2P Require Import Prelude Plugin Scan OpiClient.

(** * The contract (interface.go) *)
Class PluginOps (S : Type) := {
  op_initialized : S → bool;
  op_Initialize : PluginConfig → S → S * option error;
  op_Shutdown : S → S * option error;
  op_HealthCheck : S → S * option error;
  op_DiscoverDevices : S → S * result (list Device);
  op_GetInventory : string → S → S * result InventoryResponse;
  op_CreateBridgePort : BridgePortRequest → S → S * result BridgePort;
  op_DeleteBridgePort : string → S → S * option error;
  op_GetBridgePort : string → S → S * result BridgePort;
  op_ListBridgePorts : S → S * result (list BridgePort);
  op_SetVFCount : string → Z → S → S * option error;
  op_GetVFCount : string → S → S * result Z;
  op_CreateNetworkFunction : string → string → S → S * option error;
  op_DeleteNetworkFunction : string → string → S → S * option error }.

Class PluginLaws (S : Type) `{!PluginOps S} := {
  law_Initialize_twice cfg s : op_initialized s = true →
    op_Initialize cfg s = (s, Some (Sentinel ErrAlreadyInitialized));
  law_Initialize_ok cfg s s' : op_Initialize cfg s = (s', None) → op_initialized s' = true;
  law_Initialize_err cfg s s' e : op_initialized s = false →
    op_Initialize cfg s = (s', Some e) → op_initialized s' = false;
  law_Shutdown s : (op_Shutdown s).2 = None ∧ op_initialized (op_Shutdown s).1 = false;
  law_HealthCheck s : op_initialized s = false →
    op_HealthCheck s = (s, Some (Sentinel ErrNotInitialized));
  law_Discover s : op_initialized s = false →
    op_DiscoverDevices s = (s, Err (Sentinel ErrNotInitialized));
  law_CreateBridgePort q s : op_initialized s = false →
    op_CreateBridgePort q s = (s, Err (Sentinel ErrNotInitialized));
  law_DeleteBridgePort i s : op_initialized s = false →
    op_DeleteBridgePort i s = (s, Some (Sentinel ErrNotInitialized));
  law_SetVFCount i n s : op_initialized s = false →
    op_SetVFCount i n s = (s, Some (Sentinel ErrNotInitialized));
  law_CreateNF a b s : op_initialized s = false →
    op_CreateNetworkFunction a b s = (s, Some (Sentinel ErrNotInitialized));
  law_DeleteNF a b s : op_initialized s = false →
    op_DeleteNetworkFunction a b s = (s, Some (Sentinel ErrNotInitialized)) }.

(** What a plugin acts on besides its own fields: the process's connections and
    the remote bridge. *)
Record world (B : Type) := { w_conns : conns; w_srv : B }.
Arguments w_conns {_} _.
Arguments w_srv {_} _.
Arguments Build_world {_} _ _.

(** * The four plugins without a network implementation *)

(** The constants of a plugin file; [pd_opi] says whether it opens an OPI client. *)
Record plugin_desc := {
  pd_name : string; pd_vendor : string; pd_version : string; pd_description : string;
  pd_devices : list PCIDeviceID; pd_serial : string; pd_opi : bool }.

Record plugin_state := {
  config : PluginConfig; initialized : bool; opiEndpoint : string;
  devices : list Device; opiClient : option Client }.
Definition zero_config : PluginConfig := {| OPIEndpoint := ""; NetworkEndpoint := ""; LogLevel := 0 |}.

Definition lookup_device (deviceID : string) (ds : list Device) : option Device :=
  List.find (λ d, String.eqb (ID d) deviceID) ds.

Section Simple.
Context (pd : plugin_desc) (dial : string → option error) (conn_state : nat → connectivity)
        (fs : sysfs) (now : Z) {B : Type} `{!OPIServer B}.
Abbreviation st := (plugin_state * world B)%type.

Definition New : plugin_state :=
  {| config := zero_config; initialized := false; opiEndpoint := ""; devices := []; opiClient := None |}.

Definition PInfo : PluginInfo :=
  {| Name := pd_name pd; Vendor := pd_vendor pd; Version := pd_version pd;
     InfoDescription := pd_description pd; SupportedDevices := pd_devices pd;
     Capabilities := [CapabilityNetworking] |}.

Definition Initialize (cfg : PluginConfig) (s : st) : st * option error :=
  let '(p, w) := s in
  if initialized p then (s, Some (Sentinel ErrAlreadyInitialized)) else
  let ep := if String.eqb (OPIEndpoint cfg) "" then DefaultOPIEndpoint else OPIEndpoint cfg in
  if pd_opi pd then
    match NewClient dial ep [] (w_conns w) with
    | (cs, Err e) =>
        (({| config := cfg; initialized := false; opiEndpoint := ep; devices := devices p;
             opiClient := None |}, Build_world cs (w_srv w)),
         Some (Wrap "failed to create OPI client: " e))
    | (cs, Ok c) =>
        (({| config := cfg; initialized := true; opiEndpoint := ep; devices := devices p;
             opiClient := Some c |}, Build_world cs (w_srv w)), None)
    end
  else (({| config := cfg; initialized := true; opiEndpoint := ep; devices := devices p;
            opiClient := opiClient p |}, w), None).

Definition Shutdown (s : st) : st * option error :=
  let '(p, w) := s in
  if initialized p then
    let cs := match opiClient p with Some c => (Close c (w_conns w)).1 | None => w_conns w end in
    (({| config := config p; initialized := false; opiEndpoint := opiEndpoint p; devices := [];
         opiClient := opiClient p |}, Build_world cs (w_srv w)), None)
  else (s, None).

Definition HealthCheck (s : st) : st * option error :=
  let '(p, w) := s in
  if initialized p then
    match opiClient p with
    | None => (s, None)
    | Some c =>
        if IsConnected conn_state c
        then ((p, Build_world (w_conns w) (Lifecycle_Ping now c None (w_srv w)).1), None)
        else (s, Some (Text "OPI client not connected"))
    end
  else (s, Some (Sentinel ErrNotInitialized)).

Definition DiscoverDevices (s : st) : st * result (list Device) :=
  let '(p, w) := s in
  if initialized p then
    match ScanDevices fs (pd_devices pd) (pd_vendor pd) (pd_name pd) (pd_serial pd) with
    | Err e => (s, Err (Wrap "PCI scan failed: " e))
    | Ok ds => (({| config := config p; initialized := true; opiEndpoint := opiEndpoint p;
                    devices := ds; opiClient := opiClient p |}, w), Ok ds)
    end
  else (s, Err (Sentinel ErrNotInitialized)).

Definition inventory_of (manufacturer : string) (deviceID : string) (d : Device) : InventoryResponse :=
  {| InvDeviceID := deviceID;
     Chassis := {| Manufacturer := manufacturer; ChassisModel := Model d; ChassisSerial := SerialNumber d |} |}.

Definition GetInventory (deviceID : string) (s : st) : st * result InventoryResponse :=
  let '(p, w) := s in
  if initialized p then
    match lookup_device deviceID (devices p) with
    | None => (s, Err (NewDeviceError deviceID "GetInventory" (Sentinel ErrDeviceNotFound)))
    | Some d => (s, Ok (inventory_of (pd_vendor pd) deviceID d))
    end
  else (s, Err (Sentinel ErrNotInitialized)).

(** The network operations all have one of these two bodies. *)
Definition unimplemented {A} (s : st) : st * result A :=
  if initialized s.1 then (s, Err (Sentinel ErrNotImplemented)) else (s, Err (Sentinel ErrNotInitialized)).
Definition unimplemented_err (s : st) : st * option error :=
  if initialized s.1 then (s, Some (Sentinel ErrNotImplemented)) else (s, Some (Sentinel ErrNotInitialized)).

Definition CreateBridgePort (req : BridgePortRequest) (s : st) : st * result BridgePort := unimplemented s.
Definition DeleteBridgePort (portID : string) (s : st) : st * option error := unimplemented_err s.
Definition GetBridgePort (portID : string) (s : st) : st * result BridgePort := unimplemented s.
Definition ListBridgePorts (s : st) : st * result (list BridgePort) := unimplemented s.
Definition SetVFCount (deviceID : string) (count : Z) (s : st) : st * option error := unimplemented_err s.
Definition GetVFCount (deviceID : string) (s : st) : st * result Z := unimplemented s.
Definition CreateNetworkFunction (input output : string) (s : st) : st * option error := unimplemented_err s.
Definition DeleteNetworkFunction (input output : string) (s : st) : st * option error := unimplemented_err s.

Definition simple_ops : PluginOps st :=
  {| op_initialized := λ s, initialized s.1; op_Initialize := Initialize; op_Shutdown := Shutdown;
     op_HealthCheck := HealthCheck; op_DiscoverDevices := DiscoverDevices; op_GetInventory := GetInventory;
     op_CreateBridgePort := CreateBridgePort; op_DeleteBridgePort := DeleteBridgePort;
     op_GetBridgePort := GetBridgePort; op_ListBridgePorts := ListBridgePorts;
     op_SetVFCount := SetVFCount; op_GetVFCount := GetVFCount;
     op_CreateNetworkFunction := CreateNetworkFunction; op_DeleteNetworkFunction := DeleteNetworkFunction |}.

Ltac plugin_cases := repeat first [case_match | progress simplify_eq/=]; try done; try congruence; auto.

Lemma simple_laws : @PluginLaws st simple_ops.
Proof.
  constructor; simpl; unfold Initialize, Shutdown, HealthCheck, DiscoverDevices, CreateBridgePort,
    DeleteBridgePort, SetVFCount, CreateNetworkFunction, DeleteNetworkFunction,
    unimplemented, unimplemented_err; intros; repeat match goal with s : st |- _ => destruct s as [? ?] end; simpl in *;
    plugin_cases.
Qed.

(** ** Connections *)

(** The connections an instance owns: its client's while it is initialized. *)
Definition owned (p : plugin_state) : gset nat :=
  if initialized p then match opiClient p with Some c => client_conns c | None => ∅ end else ∅.
Definition conn_inv (s : st) : Prop :=
  let '(p, w) := s in
  conns_wf (w_conns w) ∧ open_conns (w_conns w) = owned p ∧ (pd_opi pd = false → opiClient p = None)
  ∧ (pd_opi pd = true → initialized p = true → ∃ c n, opiClient p = Some c ∧ conn c = Some n).

(** Every operation of the plugin, as a step. *)
Inductive plugin_step : st → st → Prop :=
  | ps_initialize cfg s : plugin_step s (Initialize cfg s).1
  | ps_shutdown s : plugin_step s (Shutdown s).1
  | ps_health s : plugin_step s (HealthCheck s).1
  | ps_discover s : plugin_step s (DiscoverDevices s).1
  | ps_inventory i s : plugin_step s (GetInventory i s).1
  | ps_network s : plugin_step s (unimplemented (A := unit) s).1.

Lemma conn_inv_initialize cfg s : conn_inv s → conn_inv (Initialize cfg s).1.
Proof.
  destruct s as [p w]. intros Hinv. pose proof Hinv as (Hwf & Ho & Hn & Hi). unfold Initialize.
  destruct (initialized p) eqn:Ep; [done|]. unfold owned in Ho. rewrite Ep in Ho.
  destruct (pd_opi pd) eqn:Eo; simpl.
  - pose proof (NewClient_wf dial (if String.eqb (OPIEndpoint cfg) "" then DefaultOPIEndpoint else OPIEndpoint cfg)
                  [] (w_conns w) Hwf) as Hw.
    destruct (NewClient _ _ _ _) as [cs [c|e]] eqn:En; simpl in *.
    + apply NewClient_ok in En as (_ & Hc & _ & ->). split; [done|]. split; [|split; [congruence|by eauto]].
      unfold owned, client_conns. simpl. rewrite Ho, Hc. set_solver.
    + apply NewClient_err in En as ->. split; [done|]. unfold owned. simpl. split; [done|]. by split.
  - split; [done|]. split; [|split; [auto|congruence]]. unfold owned. simpl. by rewrite Hn.
Qed.
Lemma conn_inv_shutdown s : conn_inv s → conn_inv (Shutdown s).1.
Proof.
  destruct s as [p w]. intros Hinv. pose proof Hinv as (Hwf & Ho & Hn & Hi). unfold Shutdown.
  destruct (initialized p) eqn:Ep; [|done]. unfold owned in Ho. rewrite Ep in Ho. simpl.
  destruct (opiClient p) as [c|] eqn:Ec; simpl.
  - split; [by apply Close_wf|]. unfold owned. simpl. split; [|split; [|done]].
    + unfold client_conns in Ho. destruct (conn c) as [n|] eqn:En; simpl in Ho.
      * rewrite (Close_open _ n), Ho by done. set_solver.
      * unfold Close. by rewrite En.
    + intros Hf. by specialize (Hn Hf).
  - split; [done|]. split; [|done]. by rewrite Ho.
Qed.
Lemma conn_inv_step s s' : plugin_step s s' → conn_inv s → conn_inv s'.
Proof.
  intros [cfg s0|s0|[p w]|[p w]|i [p w]|s0] Hinv.
  - by apply conn_inv_initialize.
  - by apply conn_inv_shutdown.
  - unfold HealthCheck. plugin_cases.
  - unfold DiscoverDevices. destruct (initialized p) eqn:Ep; [|done].
    destruct Hinv as (Hwf & Ho & Hn & Hi). unfold owned in Ho. rewrite Ep in Ho.
    simpl. unfold conn_inv, owned. simpl. naive_solver.
  - unfold GetInventory. plugin_cases.
  - unfold unimplemented. plugin_cases.
Qed.
End Simple.
Arguments conn_inv _ {_} _.

(** * The instances *)

Definition dev (v d desc : string) : PCIDeviceID := {| VendorID := v; DeviceID := d; Description := desc |}.

Module Intel.
Definition supportedDevices : list PCIDeviceID :=
    [dev "8086" "1453" "Intel IPU E2100"; dev "8086" "1454" "Intel IPU E2100 VF";
     dev "8086" "1458" "Intel NetSec Accelerator"].
Definition desc : plugin_desc :=
    {| pd_name := "intel"; pd_vendor := "Intel"; pd_version := "1.0.0";
       pd_description := "Intel IPU/DPU plugin supporting IPU E2100 and NetSec Accelerator hardware";
       pd_devices := supportedDevices; pd_serial := "INTEL"; pd_opi := true |}.
(** The methods of [IPUPlugin]. *)
Definition ipu_Info : PluginInfo := PInfo desc.
Definition ipu_Initialize dial {B} (cfg : PluginConfig) (s : plugin_state * world B) := Initialize desc dial cfg s.
Definition ipu_Shutdown {B} (s : plugin_state * world B) := Shutdown s.
Definition ipu_HealthCheck conn_state now {B} `{!OPIServer B} (s : plugin_state * world B) :=
    HealthCheck conn_state now s.
Definition ipu_DiscoverDevices fs {B} (s : plugin_state * world B) := DiscoverDevices desc fs s.
Definition ipu_GetInventory {B} (deviceID : string) (s : plugin_state * world B) := GetInventory desc deviceID s.
Definition ipu_ops dial conn_state fs now B `{!OPIServer B} : PluginOps (plugin_state * world B) :=
    simple_ops desc dial conn_state fs now.
End Intel.
Module Marvell.
Definition supportedDevices : list PCIDeviceID :=
    [dev "177d" "b903" "Marvell Octeon 10 DPU"; dev "177d" "b900" "Marvell Octeon 10 CN10K"].
Definition desc : plugin_desc :=
    {| pd_name := "marvell"; pd_vendor := "Marvell"; pd_version := "1.0.0";
       pd_description := "Marvell Octeon DPU plugin supporting Octeon 10 hardware";
       pd_devices := supportedDevices; pd_serial := "MARVELL"; pd_opi := true |}.
(** The methods of [OcteonPlugin]. *)
Definition octeon_Info : PluginInfo := PInfo desc.
Definition octeon_Initialize dial {B} (cfg : PluginConfig) (s : plugin_state * world B) := Initialize desc dial cfg s.
Definition octeon_Shutdown {B} (s : plugin_state * world B) := Shutdown s.
Definition octeon_HealthCheck conn_state now {B} `{!OPIServer B} (s : plugin_state * world B) :=
    HealthCheck conn_state now s.
Definition octeon_DiscoverDevices fs {B} (s : plugin_state * world B) := DiscoverDevices desc fs s.
Definition octeon_GetInventory {B} (deviceID : string) (s : plugin_state * world B) := GetInventory desc deviceID s.
Definition octeon_ops dial conn_state fs now B `{!OPIServer B} : PluginOps (plugin_state * world B) :=
    simple_ops desc dial conn_state fs now.
End Marvell.
Module XSight.
Definition supportedDevices : list PCIDeviceID := [dev "1de5" "0001" "xSight DPU"].
Definition desc : plugin_desc :=
    {| pd_name := "xsight"; pd_vendor := "xSight"; pd_version := "1.0.0";
       pd_description := "xSight DPU plugin for xSight hardware";
       pd_devices := supportedDevices; pd_serial := "XSIGHT"; pd_opi := true |}.
(** The methods of [XSightPlugin]. *)
Definition xsight_Info : PluginInfo := PInfo desc.
Definition xsight_Initialize dial {B} (cfg : PluginConfig) (s : plugin_state * world B) := Initialize desc dial cfg s.
Definition xsight_Shutdown {B} (s : plugin_state * world B) := Shutdown s.
Definition xsight_HealthCheck conn_state now {B} `{!OPIServer B} (s : plugin_state * world B) :=
    HealthCheck conn_state now s.
Definition xsight_DiscoverDevices fs {B} (s : plugin_state * world B) := DiscoverDevices desc fs s.
Definition xsight_GetInventory {B} (deviceID : string) (s : plugin_state * world B) := GetInventory desc deviceID s.
Definition xsight_ops dial conn_state fs now B `{!OPIServer B} : PluginOps (plugin_state * world B) :=
    simple_ops desc dial conn_state fs now.
End XSight.
Module MangoBoost.
Definition supportedDevices : list PCIDeviceID :=
    [dev "1f67" "0001" "MangoBoost DPU"; dev "1f67" "0002" "MangoBoost DPU Gen2"].
Definition desc : plugin_desc :=
    {| pd_name := "mangoboost"; pd_vendor := "MangoBoost"; pd_version := "1.0.0";
       pd_description := "MangoBoost DPU plugin for MangoBoost hardware";
       pd_devices := supportedDevices; pd_serial := "MANGOBOOST"; pd_opi := false |}.
(** The methods of [MangoBoostPlugin]. *)
Definition mango_Info : PluginInfo := PInfo desc.
Definition mango_Initialize dial {B} (cfg : PluginConfig) (s : plugin_state * world B) := Initialize desc dial cfg s.
Definition mango_Shutdown {B} (s : plugin_state * world B) := Shutdown s.
Definition mango_HealthCheck conn_state now {B} `{!OPIServer B} (s : plugin_state * world B) :=
    HealthCheck conn_state now s.
Definition mango_DiscoverDevices fs {B} (s : plugin_state * world B) := DiscoverDevices desc fs s.
Definition mango_GetInventory {B} (deviceID : string) (s : plugin_state * world B) := GetInventory desc deviceID s.
Definition mango_ops dial conn_state fs now B `{!OPIServer B} : PluginOps (plugin_state * world B) :=
    simple_ops desc dial conn_state fs now.
End MangoBoost.

(** * Theorems *)

(** Whatever sequence of operations a plugin instance goes through, it holds
    a gRPC connection exactly while it is initialized (none for the plugin that
    opens no OPI client): failed initializations and shutdowns leak nothing. *)
Theorem plugin_no_connection_leak pd dial conn_state fs now {B} `{!OPIServer B} srv p w :
  rtc (plugin_step pd dial conn_state fs now) (New, Build_world no_conns srv) (p, w) →
  (initialized p = false → open_conns (w_conns w) = ∅) ∧
  (initialized p = true → size (open_conns (w_conns w)) = if pd_opi pd then 1 else 0).
Proof.
  intros Hs. assert (conn_inv pd (p, w)) as (Hwf & Ho & Hn & Hi).
  { assert (conn_inv pd (New, Build_world no_conns srv)) as H0.
    { split; [intros n Hn; set_solver|]. done. }
    revert H0. induction Hs; eauto using conn_inv_step. }
  unfold owned in Ho. rewrite Ho. split; intros Hp; rewrite Hp in *; [done|].
  destruct (pd_opi pd).
  - destruct Hi as (c & n & -> & Hc); [done..|]. unfold client_conns. rewrite Hc.
    apply size_singleton.
  - by rewrite Hn.
Qed.

(** * Witness *)
Module VendorDemo.
#[export] Instance unit_server : OPIServer unit :=
    {| rpc_Ping := λ _ _ b, (b, None); rpc_GetDevices := λ _ _ b, (b, Ok None);
       rpc_SetNumVfs := λ _ _ n b, (b, Ok n);
       rpc_CreateBridgePort := λ _ _ _ b, (b, Err (Status Unimplemented ""));
       rpc_GetBridgePort := λ _ _ _ b, (b, Err (Status Unimplemented ""));
       rpc_ListBridgePorts := λ _ _ b, (b, Ok []); rpc_DeleteBridgePort := λ _ _ _ b, (b, None);
       rpc_CreateLogicalBridge := λ _ _ _ b, (b, Err (Status Unimplemented ""));
       rpc_GetLogicalBridge := λ _ _ _ b, (b, Err (Status Unimplemented "")) |}.
Definition dial (ep : string) : option error := None.
Definition up (n : nat) : connectivity := Ready.
Definition s1 := (Initialize Intel.desc dial zero_config (New, Build_world no_conns tt)).1.
Lemma vendor_reach : rtc (plugin_step Intel.desc dial up (ScanDemo.fs true) 0)
                    (New, Build_world no_conns tt) (s1.1, s1.2).
Proof.
    apply rtc_once. exact (ps_initialize Intel.desc dial up (ScanDemo.fs true) 0%Z zero_config
                             (New, Build_world no_conns tt)).
Qed.
End VendorDemo.
Lemma plugin_no_connection_leak_witness : size (open_conns (w_conns VendorDemo.s1.2)) = 1.
Proof.
  exact (proj2 (plugin_no_connection_leak Intel.desc VendorDemo.dial VendorDemo.up (ScanDemo.fs true) 0 tt
           VendorDemo.s1.1 VendorDemo.s1.2 VendorDemo.vendor_reach) eq_refl).
Defined.
