(* ===== verification/BlueField.v ===== *)
(** The NVIDIA BlueField plugin, pkg/plugin/nvidia/bluefield.go: the one vendor
    plugin that implements the network operations, over an OPI bridge reached by
    one or two gRPC connections. *)
From S2P Require Import Prelude Plugin Scan OpiClient Net VendorPlugin.

Module NVIDIA.
Definition PluginName : string := "nvidia".
Definition supportedDevices : list PCIDeviceID :=
    [dev "15b3" "a2d6" "NVIDIA BlueField-2 DPU";
     dev "15b3" "a2d2" "NVIDIA BlueField-2 Integrated ConnectX-6 Dx";
     dev "15b3" "a2dc" "NVIDIA BlueField-3 DPU";
     dev "15b3" "a2d8" "NVIDIA BlueField-3 Integrated ConnectX-7"].
Definition PInfo : PluginInfo :=
    {| Name := PluginName; Vendor := "NVIDIA"; Version := "1.0.0";
       InfoDescription := "NVIDIA BlueField DPU plugin supporting BlueField-2 and BlueField-3 hardware";
       SupportedDevices := supportedDevices; Capabilities := [CapabilityNetworking] |}.
End NVIDIA.

Record BlueFieldPlugin := {
  bf_config : PluginConfig; bf_initialized : bool; bf_opiEndpoint : string; bf_networkEndpoint : string;
  bf_devices : list Device; bf_opiClient : option Client; bf_opiNetworkClient : option Client }.

(** A nil pointer dereference.  The operations reach it only on an initialized
    plugin without clients, which no sequence of operations produces. *)
Definition nil_deref : error := Text "runtime error: invalid memory address or nil pointer dereference".

Section BlueField.
Context (dial : string → option error) (conn_state : nat → connectivity)
        (fs : sysfs) (now : Z) {B : Type} `{!OPIServer B}.
Abbreviation st := (BlueFieldPlugin * world B)%type.

Definition BF_New : BlueFieldPlugin :=
  {| bf_config := zero_config; bf_initialized := false; bf_opiEndpoint := ""; bf_networkEndpoint := "";
     bf_devices := []; bf_opiClient := None; bf_opiNetworkClient := None |}.

Definition networkClient (p : BlueFieldPlugin) : option Client :=
  match bf_opiNetworkClient p with Some c => Some c | None => bf_opiClient p end.

Definition BF_Initialize (cfg : PluginConfig) (s : st) : st * option error :=
  let '(p, w) := s in
  if bf_initialized p then (s, Some (Sentinel ErrAlreadyInitialized)) else
  let ep := if String.eqb (OPIEndpoint cfg) "" then DefaultOPIEndpoint else OPIEndpoint cfg in
  let nep := NetworkEndpoint cfg in
  let upd init c nc :=
    {| bf_config := cfg; bf_initialized := init; bf_opiEndpoint := ep; bf_networkEndpoint := nep;
       bf_devices := bf_devices p; bf_opiClient := c; bf_opiNetworkClient := nc |} in
  match NewClient dial ep [] (w_conns w) with
  | (cs, Err e) =>
      ((upd false None (bf_opiNetworkClient p), Build_world cs (w_srv w)),
       Some (Wrap "failed to create OPI client: " e))
  | (cs, Ok c) =>
      if String.eqb nep "" || String.eqb nep ep
      then ((upd true (Some c) (Some c), Build_world cs (w_srv w)), None)
      else
        match NewClient dial nep [] cs with
        | (cs', Err e) =>
            ((upd false (Some c) None, Build_world (Close c cs').1 (w_srv w)),
             Some (Wrap "failed to create OPI network client: " e))
        | (cs', Ok nc) => ((upd true (Some c) (Some nc), Build_world cs' (w_srv w)), None)
        end
  end.

Definition close_opt (c : option Client) (cs : conns) : conns :=
  match c with Some c => (Close c cs).1 | None => cs end.
Definition BF_Shutdown (s : st) : st * option error :=
  let '(p, w) := s in
  if bf_initialized p then
    let cs := close_opt (bf_opiClient p) (w_conns w) in
    let cs := if decide (bf_opiNetworkClient p = bf_opiClient p) then cs
              else close_opt (bf_opiNetworkClient p) cs in
    (({| bf_config := bf_config p; bf_initialized := false; bf_opiEndpoint := bf_opiEndpoint p;
         bf_networkEndpoint := bf_networkEndpoint p; bf_devices := [];
         bf_opiClient := bf_opiClient p; bf_opiNetworkClient := bf_opiNetworkClient p |},
      Build_world cs (w_srv w)), None)
  else (s, None).

Definition BF_HealthCheck (s : st) : st * option error :=
  let '(p, w) := s in
  if bf_initialized p then
    match bf_opiClient p with
    | None => (s, None)
    | Some c =>
        if IsConnected conn_state c
        then ((p, Build_world (w_conns w) (Lifecycle_Ping now c None (w_srv w)).1), None)
        else (s, Some (Text "OPI client not connected"))
    end
  else (s, Some (Sentinel ErrNotInitialized)).

(** ** Discovery: the PCI scan merged with what the bridge reports *)

Definition set_health (h : string) (d : Device) : Device :=
  {| ID := ID d; PCIAddress := PCIAddress d; PCIID := PCIID d; DevVendor := DevVendor d; Model := Model d;
     SerialNumber := SerialNumber d; FirmwareVersion := FirmwareVersion d; Healthy := Healthy d;
     Metadata := <["health" := h]> (Metadata d) |}.
Definition opi_device (id h : string) : Device :=
  {| ID := id; PCIAddress := ""; PCIID := zero_PCIID; DevVendor := "NVIDIA"; Model := ""; SerialNumber := "";
     FirmwareVersion := ""; Healthy := String.eqb h "healthy" || String.eqb h "HEALTH_STATUS_OK";
     Metadata := {["health" := h]} |}.
(** One turn of the [range resp.Devices] loop: update the first device of that id, or append. *)
Fixpoint merge_one (id h : string) (ds : list Device) : list Device :=
  match ds with
  | [] => [opi_device id h]
  | d :: ds => if String.eqb (ID d) id then set_health h d :: ds else d :: merge_one id h ds
  end.
Definition merge_devices (resp : list (string * string)) (ds : list Device) : list Device :=
  foldl (λ ds '(id, h), merge_one id h ds) ds resp.

Definition set_devices (p : BlueFieldPlugin) (ds : list Device) : BlueFieldPlugin :=
  {| bf_config := bf_config p; bf_initialized := bf_initialized p; bf_opiEndpoint := bf_opiEndpoint p;
     bf_networkEndpoint := bf_networkEndpoint p; bf_devices := ds;
     bf_opiClient := bf_opiClient p; bf_opiNetworkClient := bf_opiNetworkClient p |}.

Definition BF_DiscoverDevices (s : st) : st * result (list Device) :=
  let '(p, w) := s in
  if bf_initialized p then
    let ds := match ScanDevices fs NVIDIA.supportedDevices "NVIDIA" "nvidia" "NV" with Ok ds => ds | Err _ => [] end in
    match bf_opiClient p with
    | None => (s, Err nil_deref)
    | Some c =>
        let '(b, resp) := Lifecycle_GetDevices now c None (w_srv w) in
        let ds := match resp with Ok (Some m) => merge_devices m ds | _ => ds end in
        ((set_devices p ds, Build_world (w_conns w) b), Ok ds)
    end
  else (s, Err (Sentinel ErrNotInitialized)).

Definition BF_GetInventory (deviceID : string) (s : st) : st * result InventoryResponse :=
  let '(p, w) := s in
  if bf_initialized p then
    match lookup_device deviceID (bf_devices p) with
    | Some d => (s, Ok (inventory_of "NVIDIA" deviceID d))
    | None =>
        let nf := Err (NewDeviceError deviceID "GetInventory" (Sentinel ErrDeviceNotFound)) in
        match bf_opiClient p with
        | None => (s, Err nil_deref)
        | Some c =>
            let '(b, resp) := Lifecycle_GetDevices now c None (w_srv w) in
            let s' := (p, Build_world (w_conns w) b) in
            match resp with
            | Ok (Some m) =>
                if existsb (λ '(id, _), String.eqb id deviceID) m
                then (s', Ok {| InvDeviceID := deviceID;
                                Chassis := {| Manufacturer := "NVIDIA"; ChassisModel := "Unknown (OPI)"; ChassisSerial := "" |} |})
                else (s', nf)
            | _ => (s', nf)
            end
        end
    end
  else (s, Err (Sentinel ErrNotInitialized)).

(** ** Network operations *)

Definition logicalBridgeResourceName (id : string) : string := "//network.opiproject.org/bridges/" +:+ id.

Definition ensureLogicalBridge (c : Client) (vlanID : Z) (b : B) : B * result string :=
  let bridgeID := "bridge-vlan-" +:+ itoa vlanID in
  let bridgeName := logicalBridgeResourceName bridgeID in
  match Network_GetLogicalBridge now c None bridgeName b with
  | (b, Ok _) => (b, Ok bridgeName)
  | (b, Err e) =>
      if decide (status_Code e = Unimplemented) then (b, Err (Sentinel ErrNotImplemented)) else
      if decide (status_Code e = NotFound) then
        match Network_CreateLogicalBridge now c None
                {| LogicalBridgeId := bridgeID; CreateVlanId := uint32 vlanID |} b with
        | (b, Ok lb) => (b, Ok (LbName lb))
        | (b, Err e) =>
            if decide (status_Code e = Unimplemented) then (b, Err (Sentinel ErrNotImplemented))
            else (b, Err (Wrap "OPI create logical bridge failed: " e))
        end
      else (b, Err (Wrap "OPI get logical bridge failed: " e))
  end.

Definition opi_err (pre : string) (e : error) : error :=
  if decide (status_Code e = Unimplemented) then Sentinel ErrNotImplemented else Wrap pre e.
Definition on_srv (p : BlueFieldPlugin) (w : world B) (b : B) : st := (p, Build_world (w_conns w) b).
(** [vlanID := int32(1)], overridden by a positive request value converted to [int32]. *)
Definition request_vlan (v : option Z) : Z :=
  match v with Some v => if (0 <? v)%Z then int32 v else 1%Z | None => 1%Z end.

Definition BF_CreateBridgePort (req : BridgePortRequest) (s : st) : st * result BridgePort :=
  let '(p, w) := s in
  if bf_initialized p then
    match ParseMAC (ReqMAC req), networkClient p with
    | Err e, _ => (s, Err (Wrap "invalid MAC address: " e))
    | Ok _, None => (s, Err nil_deref)
    | Ok mac, Some c =>
        match ensureLogicalBridge c (request_vlan (ReqVLANID req)) (w_srv w) with
        | (b, Err e) => (on_srv p w b, Err e)
        | (b, Ok lb) =>
            let rq := {| BridgePortId := ReqName req;
                         CreateBp := Some {| BpName := ReqName req;
                           BpSpec := Some {| MacAddress := mac; Ptype := BRIDGE_PORT_TYPE_ACCESS;
                                             LogicalBridges := [lb] |} |} |} in
            match Network_CreateBridgePort now c None rq b with
            | (b, Err e) => (on_srv p w b, Err (opi_err "OPI creation failed: " e))
            | (b, Ok resp) =>
                let respMac := match BpSpec resp with
                               | Some sp => match MacAddress sp with [] => ReqMAC req | m => mac_string m end
                               | None => ReqMAC req end in
                (on_srv p w b,
                 Ok {| PortID := BpName resp; PortName := BpName resp; PortMAC := respMac;
                       PortVLANID := ReqVLANID req; PortStatus := "Active"; PortMetadata := ∅ |})
            end
        end
    end
  else (s, Err (Sentinel ErrNotInitialized)).

Definition BF_DeleteBridgePort (portID : string) (s : st) : st * option error :=
  let '(p, w) := s in
  if bf_initialized p then
    match networkClient p with
    | None => (s, Some nil_deref)
    | Some c =>
        match Network_DeleteBridgePort now c None portID (w_srv w) with
        | (b, Some e) => (on_srv p w b, Some (opi_err "OPI delete failed: " e))
        | (b, None) => (on_srv p w b, None)
        end
    end
  else (s, Some (Sentinel ErrNotInitialized)).

(** The bridge's port as the plugin reports it. *)
Definition port_of_opi (bp : OpiBridgePort) : BridgePort :=
  {| PortID := BpName bp; PortName := BpName bp;
     PortMAC := match BpSpec bp with Some sp => mac_string (MacAddress sp) | None => "" end;
     PortVLANID := None; PortStatus := "Active"; PortMetadata := ∅ |}.

Definition BF_GetBridgePort (portID : string) (s : st) : st * result BridgePort :=
  let '(p, w) := s in
  if bf_initialized p then
    match networkClient p with
    | None => (s, Err nil_deref)
    | Some c =>
        match Network_GetBridgePort now c None portID (w_srv w) with
        | (b, Err e) => (on_srv p w b, Err (opi_err "OPI get failed: " e))
        | (b, Ok bp) => (on_srv p w b, Ok (port_of_opi bp))
        end
    end
  else (s, Err (Sentinel ErrNotInitialized)).

Definition BF_ListBridgePorts (s : st) : st * result (list BridgePort) :=
  let '(p, w) := s in
  if bf_initialized p then
    match networkClient p with
    | None => (s, Err nil_deref)
    | Some c =>
        match Network_ListBridgePorts now c None (w_srv w) with
        | (b, Err e) => (on_srv p w b, Err (opi_err "OPI list failed: " e))
        | (b, Ok l) => (on_srv p w b, Ok (port_of_opi <$> l))
        end
    end
  else (s, Err (Sentinel ErrNotInitialized)).

Definition BF_SetVFCount (deviceID : string) (count : Z) (s : st) : st * option error :=
  let '(p, w) := s in
  if bf_initialized p then
    match bf_opiClient p with
    | None => (s, Some nil_deref)
    | Some c =>
        match Lifecycle_SetNumVfs now c None (int32 count) (w_srv w) with
        | (b, Err e) => (on_srv p w b, Some (Wrap "OPI SetNumVfs failed: " e))
        | (b, Ok _) => (on_srv p w b, None)
        end
    end
  else (s, Some (Sentinel ErrNotInitialized)).

Definition BF_unimplemented {A} (s : st) : st * result A :=
  if bf_initialized s.1 then (s, Err (Sentinel ErrNotImplemented)) else (s, Err (Sentinel ErrNotInitialized)).
Definition BF_GetVFCount (deviceID : string) (s : st) : st * result Z := BF_unimplemented s.
Definition BF_CreateNetworkFunction (input output : string) (s : st) : st * option error :=
  let '(s, r) := BF_unimplemented (A := unit) s in (s, err_of r).
Definition BF_DeleteNetworkFunction (input output : string) (s : st) : st * option error :=
  let '(s, r) := BF_unimplemented (A := unit) s in (s, err_of r).

Definition bluefield_ops : PluginOps st :=
  {| op_initialized := λ s, bf_initialized s.1; op_Initialize := BF_Initialize; op_Shutdown := BF_Shutdown;
     op_HealthCheck := BF_HealthCheck; op_DiscoverDevices := BF_DiscoverDevices;
     op_GetInventory := BF_GetInventory; op_CreateBridgePort := BF_CreateBridgePort;
     op_DeleteBridgePort := BF_DeleteBridgePort; op_GetBridgePort := BF_GetBridgePort;
     op_ListBridgePorts := BF_ListBridgePorts; op_SetVFCount := BF_SetVFCount; op_GetVFCount := BF_GetVFCount;
     op_CreateNetworkFunction := BF_CreateNetworkFunction; op_DeleteNetworkFunction := BF_DeleteNetworkFunction |}.

Lemma bluefield_laws : @PluginLaws st bluefield_ops.
Proof.
  constructor; simpl; intros; repeat match goal with s : st |- _ => destruct s as [? ?] end; simpl in *;
    unfold BF_Initialize, BF_Shutdown, BF_HealthCheck, BF_DiscoverDevices, BF_CreateBridgePort,
      BF_DeleteBridgePort, BF_SetVFCount, BF_CreateNetworkFunction, BF_DeleteNetworkFunction,
      BF_unimplemented in *; simpl in *.
  all: destruct (bf_initialized _) eqn:?; try congruence; auto.
  all: repeat first [case_match | progress simplify_eq/=]; auto.
Qed.

(** ** Connections *)

Definition bf_owned (p : BlueFieldPlugin) : gset nat :=
  match bf_opiClient p, bf_opiNetworkClient p with
  | Some c, Some nc => client_conns c ∪ client_conns nc
  | _, _ => ∅
  end.
(** The endpoint network operations go to. *)
Definition network_target (p : BlueFieldPlugin) : string :=
  if String.eqb (bf_networkEndpoint p) "" then bf_opiEndpoint p else bf_networkEndpoint p.
Definition bf_inv (s : st) : Prop :=
  let '(p, w) := s in
  conns_wf (w_conns w) ∧
  if bf_initialized p then
    open_conns (w_conns w) = bf_owned p ∧
    ∃ c nc, bf_opiClient p = Some c ∧ bf_opiNetworkClient p = Some nc
      ∧ is_Some (conn c) ∧ is_Some (conn nc)
      ∧ endpoint c = bf_opiEndpoint p ∧ endpoint nc = network_target p
  else open_conns (w_conns w) = ∅.

Inductive bf_step : st → st → Prop :=
  | bs_initialize cfg s : bf_step s (BF_Initialize cfg s).1
  | bs_shutdown s : bf_step s (BF_Shutdown s).1
  | bs_health s : bf_step s (BF_HealthCheck s).1
  | bs_discover s : bf_step s (BF_DiscoverDevices s).1
  | bs_inventory i s : bf_step s (BF_GetInventory i s).1
  | bs_create q s : bf_step s (BF_CreateBridgePort q s).1
  | bs_delete i s : bf_step s (BF_DeleteBridgePort i s).1
  | bs_get i s : bf_step s (BF_GetBridgePort i s).1
  | bs_list s : bf_step s (BF_ListBridgePorts s).1
  | bs_setvf i n s : bf_step s (BF_SetVFCount i n s).1.

(** The invariant only reads the connections and the fields that every
    operation but [Initialize] and [Shutdown] leaves alone. *)
Lemma bf_inv_frame p p' w w' :
  w_conns w' = w_conns w → bf_initialized p' = bf_initialized p → bf_opiClient p' = bf_opiClient p →
  bf_opiNetworkClient p' = bf_opiNetworkClient p → bf_opiEndpoint p' = bf_opiEndpoint p →
  bf_networkEndpoint p' = bf_networkEndpoint p → bf_inv (p, w) → bf_inv (p', w').
Proof. unfold bf_inv, bf_owned, network_target. by intros -> -> -> -> -> ->. Qed.

Lemma bf_inv_initialize cfg s : bf_inv s → bf_inv (BF_Initialize cfg s).1.
Proof.
  destruct s as [p w]. intros Hinv. unfold BF_Initialize. destruct (bf_initialized p) eqn:Ep; [done|].
  destruct Hinv as [Hwf Ho]. rewrite Ep in Ho. cbv zeta.
  set (ep := if String.eqb (OPIEndpoint cfg) "" then DefaultOPIEndpoint else OPIEndpoint cfg).
  pose proof (NewClient_wf dial ep [] (w_conns w) Hwf) as Hw.
  destruct (NewClient dial ep [] (w_conns w)) as [cs [c|e]] eqn:En; simpl in Hw.
  2: { apply NewClient_err in En as ->. done. }
  apply NewClient_ok in En as (_ & Hc & Hec & ->).
  destruct (String.eqb_spec (NetworkEndpoint cfg) "") as [En|En]; simpl.
  { split; [done|]. unfold bf_owned, client_conns, network_target. simpl. rewrite Hc, Ho, En. simpl.
    split; [set_solver|]. exists c, c. rewrite Hc. by repeat split. }
  destruct (String.eqb_spec (NetworkEndpoint cfg) ep) as [Eq|Eq]; simpl.
  { split; [done|]. unfold bf_owned, client_conns, network_target. simpl. rewrite Hc, Ho.
    split; [set_solver|]. exists c, c. rewrite Hc. repeat split; eauto.
    destruct (String.eqb_spec (NetworkEndpoint cfg) ""); congruence. }
  set (w1 := {| next_conn := S (next_conn (w_conns w)); open_conns := {[next_conn (w_conns w)]} ∪ open_conns (w_conns w) |}) in *.
  pose proof (NewClient_wf dial (NetworkEndpoint cfg) [] w1 Hw) as Hw2.
  destruct (NewClient dial (NetworkEndpoint cfg) [] w1) as [cs2 [nc|e2]] eqn:En2; simpl in Hw2.
  - apply NewClient_ok in En2 as (_ & Hc2 & Hec2 & ->). simpl. split; [done|].
    unfold bf_owned, client_conns, network_target. simpl. rewrite Hc, Hc2. simpl.
    split; [set_solver|]. exists c, nc. rewrite Hc, Hc2. repeat split; eauto.
    destruct (String.eqb_spec (NetworkEndpoint cfg) ""); congruence.
  - apply NewClient_err in En2 as ->. simpl. split; [by apply Close_wf|].
    rewrite (Close_open c _ w1 Hc). simpl. set_solver.
Qed.
Lemma bf_inv_shutdown s : bf_inv s → bf_inv (BF_Shutdown s).1.
Proof.
  destruct s as [p w]. intros Hinv. unfold BF_Shutdown. destruct (bf_initialized p) eqn:Ep; [|done].
  destruct Hinv as [Hwf Ho]. rewrite Ep in Ho. destruct Ho as (Ho & c & nc & Hc & Hnc & [n Hn] & [m Hm] & _).
  unfold bf_owned, client_conns in Ho. rewrite Hc, Hnc, Hn, Hm in Ho. simpl. rewrite Hc, Hnc. simpl.
  case_decide as E.
  - injection E as ->. split; [by apply Close_wf|]. rewrite (Close_open c n) by done.
    rewrite Ho. set_solver.
  - simpl. split; [by do 2 apply Close_wf|].
    rewrite (Close_open nc m), (Close_open c n), Ho by done. set_solver.
Qed.
Lemma bf_inv_step s s' : bf_step s s' → bf_inv s → bf_inv s'.
Proof.
  intros Hstep Hinv.
  destruct Hstep as [cfg s|s|[p w]|[p w]|i [p w]|q [p w]|i [p w]|i [p w]|[p w]|i n [p w]];
    [by apply bf_inv_initialize|by apply bf_inv_shutdown|..];
    unfold BF_HealthCheck, BF_DiscoverDevices, BF_GetInventory, BF_CreateBridgePort, BF_DeleteBridgePort,
      BF_GetBridgePort, BF_ListBridgePorts, BF_SetVFCount, on_srv;
    repeat case_match; cbn [fst]; first [exact Hinv|by apply (bf_inv_frame p _ w)].
Qed.
Lemma bf_reachable_inv srv p w :
  rtc bf_step (BF_New, Build_world no_conns srv) (p, w) → bf_inv (p, w).
Proof.
  intros Hs. assert (bf_inv (BF_New, Build_world no_conns srv)) as H0 by (split; [intros n Hn; set_solver|done]).
  revert H0. induction Hs; eauto using bf_inv_step.
Qed.

End BlueField.

(** ** The merge of the two device sources *)

Lemma merge_one_ids id h ds k : k ∈ ID <$> merge_one id h ds ↔ k = id ∨ k ∈ ID <$> ds.
Proof.
  induction ds as [|d ds IH]; simpl; [set_solver|].
  destruct (String.eqb_spec (ID d) id) as [<-|Hne]; simpl; [set_solver|]. rewrite !elem_of_cons, IH. set_solver.
Qed.
Lemma merge_one_NoDup id h ds : NoDup (ID <$> ds) → NoDup (ID <$> merge_one id h ds).
Proof.
  induction ds as [|d ds IH]; simpl; [intros _; apply NoDup_singleton|].
  intros [Hd Hn]%NoDup_cons. destruct (String.eqb_spec (ID d) id) as [<-|Hne]; simpl; apply NoDup_cons.
  - done.
  - split; [|auto]. rewrite merge_one_ids. set_solver.
Qed.
(** A device before the merge is there after it, under the same id, model, serial
    and health flag; only the [health] metadata entry may have been added. *)
Definition same_device (d d' : Device) : Prop :=
  ID d' = ID d ∧ Model d' = Model d ∧ SerialNumber d' = SerialNumber d ∧ Healthy d' = Healthy d
  ∧ ∀ k, k ≠ "health" → Metadata d' !! k = Metadata d !! k.
Lemma same_device_trans d d' d'' : same_device d d' → same_device d' d'' → same_device d d''.
Proof. unfold same_device. intros (-> & -> & -> & -> & H) (-> & -> & -> & -> & H'). repeat split; eauto using eq_trans. Qed.
Lemma merge_one_keeps id h ds d : d ∈ ds → ∃ d', d' ∈ merge_one id h ds ∧ same_device d d'.
Proof.
  induction ds as [|x ds IH]; [set_solver|]. simpl.
  destruct (String.eqb_spec (ID x) id) as [<-|Hne]; intros [->|Hd]%elem_of_cons.
  - exists (set_health h x). split; [by left|]. repeat split. intros k Hk. simpl. by rewrite lookup_insert_ne.
  - exists d. split; [by right|done].
  - exists x. split; [by left|done].
  - destruct (IH Hd) as (d' & ? & ?). exists d'. split; [by right|done].
Qed.
Lemma merge_one_health id h ds : ∃ d, d ∈ merge_one id h ds ∧ ID d = id ∧ Metadata d !! "health" = Some h.
Proof.
  induction ds as [|x ds (d & ? & ?)]; simpl.
  - exists (opi_device id h). split; [by left|]. done.
  - destruct (String.eqb_spec (ID x) id) as [<-|Hne].
    + exists (set_health h x). split; [by left|]. simpl. by rewrite lookup_insert_eq.
    + exists d. split; [by right|done].
Qed.
Lemma merge_one_other id h ds d : d ∈ ds → ID d ≠ id → d ∈ merge_one id h ds.
Proof.
  induction ds as [|x ds IH]; [set_solver|]. simpl.
  destruct (String.eqb_spec (ID x) id); rewrite !elem_of_cons; naive_solver.
Qed.

(** * Theorems *)

(** C19: through any sequence of operations the BlueField plugin holds no gRPC
    connection while it is not initialized, and while it is it holds exactly the
    connections of its two clients, which point at the configured OPI endpoint and
    at the network endpoint (the OPI endpoint again when none is configured); so
    no operation dereferences a nil client. *)
Theorem bluefield_connections dial conn_state fs now {B} `{!OPIServer B} (srv : B) p w :
  rtc (bf_step dial conn_state fs now) (BF_New, Build_world no_conns srv) (p, w) →
  if bf_initialized p then
    ∃ c nc, bf_opiClient p = Some c ∧ networkClient p = Some nc
      ∧ endpoint c = bf_opiEndpoint p ∧ endpoint nc = network_target p
      ∧ open_conns (w_conns w) = client_conns c ∪ client_conns nc
  else open_conns (w_conns w) = ∅.
Proof.
  intros [_ Hinv]%bf_reachable_inv. destruct (bf_initialized p); [|done].
  destruct Hinv as (Ho & c & nc & Hc & Hnc & _ & _ & He & Hne). unfold bf_owned in Ho.
  rewrite Hc, Hnc in Ho. exists c, nc. unfold networkClient. by rewrite Hnc.
Qed.

(** Merging the bridge's report into the PCI scan keeps every scanned device
    (its health flag too, even when the bridge reports it unhealthy), adds exactly
    the ids the scan did not have, keeps ids unique, and records the reported
    health of every id in its metadata. *)
Theorem merge_devices_spec resp ds :
  NoDup (ID <$> ds) → NoDup resp.*1 →
  let out := merge_devices resp ds in
  NoDup (ID <$> out) ∧ (∀ k, k ∈ ID <$> out ↔ k ∈ ID <$> ds ∨ k ∈ resp.*1)
  ∧ (∀ d, d ∈ ds → ∃ d', d' ∈ out ∧ same_device d d')
  ∧ (∀ id h, (id, h) ∈ resp → ∃ d, d ∈ out ∧ ID d = id ∧ Metadata d !! "health" = Some h).
Proof.
  cbv zeta. revert ds. induction resp as [|[id h] resp IH]; intros ds Hds Hr; unfold merge_devices; simpl.
  { repeat split; try done; try set_solver. intros d Hd. by exists d. }
  apply NoDup_cons in Hr as [Hid Hr]. destruct (IH (merge_one id h ds)) as (H1 & H2 & H3 & H4);
    [by apply merge_one_NoDup|done|]. fold (merge_devices resp (merge_one id h ds)) in *.
  split; [done|]. split; [|split].
  - intros k. rewrite H2, merge_one_ids, elem_of_cons. naive_solver.
  - intros d Hd. destruct (merge_one_keeps id h ds d Hd) as (d1 & Hd1 & ?).
    destruct (H3 d1 Hd1) as (d2 & ? & ?). eauto using same_device_trans.
  - intros k h' [[= -> ->]|Hin]%elem_of_cons; [|by apply H4].
    destruct (merge_one_health id h ds) as (d & Hd & Hk & Hm).
    exists d. split; [|done]. clear -Hd Hk Hid. revert Hd. generalize (merge_one id h ds). intros l Hd. subst.
    revert l Hd. induction resp as [|[k h'] resp IHr]; intros l Hd; [done|].
    apply IHr; [set_solver|]. apply merge_one_other; [done|set_solver].
Qed.

(** A logical bridge is created at most once: when the bridge's service
    answers a lookup without changing state, names what it creates after the
    requested id and finds it afterwards, a second [ensureLogicalBridge] for the
    same VLAN returns the same name and does not change the bridge. *)
Theorem ensureLogicalBridge_idempotent now {B} `{!OPIServer B} c vlan (b b' : B) name :
  (∀ n x k s s' r, rpc_GetLogicalBridge n x k s = (s', r) → s' = s) →
  (∀ n x q s s' lb, rpc_CreateLogicalBridge n x q s = (s', Ok lb) →
     LbName lb = logicalBridgeResourceName (LogicalBridgeId q) ∧
     is_ok (rpc_GetLogicalBridge n x (LbName lb) s').2 = true) →
  ensureLogicalBridge now c vlan b = (b', Ok name) →
  name = logicalBridgeResourceName ("bridge-vlan-" +:+ itoa vlan) ∧
  ensureLogicalBridge now c vlan b' = (b', Ok name).
Proof.
  intros Hget Hcreate. unfold ensureLogicalBridge, Network_GetLogicalBridge, Network_CreateLogicalBridge.
  set (k := logicalBridgeResourceName _). set (n := the_conn c). set (x := withTimeout _ _ _).
  assert (∀ s, is_ok (rpc_GetLogicalBridge n x k s).2 = true →
    ∃ lb, rpc_GetLogicalBridge n x k s = (s, Ok lb)) as Hok.
  { intros s. destruct (rpc_GetLogicalBridge n x k s) as [s' [lb|e]] eqn:E; [|done].
    apply Hget in E as ->. eauto. }
  destruct (rpc_GetLogicalBridge n x k b) as [b1 [lb|e]] eqn:Eg.
  - pose proof (Hget _ _ _ _ _ _ Eg) as ->. intros [= <- <-]. by rewrite Eg.
  - case_decide; [done|]. case_decide; [|done].
    destruct (rpc_CreateLogicalBridge _ _ _ _) as [b2 [lb|e2]] eqn:Ec; [|by case_decide].
    intros [= <- <-]. apply Hcreate in Ec as [Hn Hok2]. simpl in Hn. fold k in Hn. rewrite Hn in *.
    split; [done|]. by destruct (Hok _ Hok2) as [lb' ->].
Qed.

(** * Witnesses *)
Module BlueFieldDemo.
(** A bridge that stores logical bridge names. *)
#[export] Instance set_server : OPIServer (gset string) :=
    {| rpc_Ping := λ _ _ b, (b, None); rpc_GetDevices := λ _ _ b, (b, Ok None);
       rpc_SetNumVfs := λ _ _ n b, (b, Ok n);
       rpc_CreateBridgePort := λ _ _ q b, (b, Ok (default {| BpName := ""; BpSpec := None |} (CreateBp q)));
       rpc_GetBridgePort := λ _ _ _ b, (b, Err (Status NotFound ""));
       rpc_ListBridgePorts := λ _ _ b, (b, Ok []); rpc_DeleteBridgePort := λ _ _ _ b, (b, None);
       rpc_CreateLogicalBridge := λ _ _ q b,
         let name := logicalBridgeResourceName (LogicalBridgeId q) in
         ({[name]} ∪ b, Ok {| LbName := name; VlanId := CreateVlanId q |});
       rpc_GetLogicalBridge := λ _ _ k b,
         (b, if decide (k ∈ b) then Ok {| LbName := k; VlanId := 0 |} else Err (Status NotFound "")) |}.
Definition dial (ep : string) : option error := None.
Definition up (n : nat) : connectivity := Ready.
Definition cfg := {| OPIEndpoint := ""; NetworkEndpoint := "bridge:50052"; LogLevel := 0 |}.
Definition s1 := (BF_Initialize dial cfg (BF_New, Build_world no_conns (∅ : gset string))).1.
Lemma bluefield_reach : rtc (bf_step dial up (ScanDemo.fs true) 0) (BF_New, Build_world no_conns ∅) (s1.1, s1.2).
Proof.
    apply rtc_once. exact (bs_initialize dial up (ScanDemo.fs true) 0%Z cfg
                             (BF_New, Build_world no_conns (∅ : gset string))).
Qed.
Definition client := {| conn := Some 0; endpoint := ""; options := defaultOptions |}.
End BlueFieldDemo.
#[local] Existing Instance BlueFieldDemo.set_server.

Lemma bluefield_connections_witness :
  ∃ c nc, bf_opiClient BlueFieldDemo.s1.1 = Some c ∧ networkClient BlueFieldDemo.s1.1 = Some nc
    ∧ endpoint c = "localhost:50051" ∧ endpoint nc = "bridge:50052"
    ∧ open_conns (w_conns BlueFieldDemo.s1.2) = client_conns c ∪ client_conns nc.
Proof.
  exact (bluefield_connections BlueFieldDemo.dial BlueFieldDemo.up (ScanDemo.fs true) 0 ∅
           BlueFieldDemo.s1.1 BlueFieldDemo.s1.2 BlueFieldDemo.bluefield_reach).
Defined.
Lemma merge_devices_spec_witness :
  NoDup (ID <$> merge_devices [("a", "unhealthy"); ("b", "healthy")] [opi_device "a" "healthy"]).
Proof.
  apply (merge_devices_spec [("a", "unhealthy"); ("b", "healthy")] [opi_device "a" "healthy"]).
  - apply NoDup_singleton.
  - apply (bool_decide_unpack _). vm_compute. exact I.
Defined.
Lemma ensureLogicalBridge_idempotent_witness :
  let name := logicalBridgeResourceName "bridge-vlan-7" in
  let bridge : gset string := {[name]} in
  ensureLogicalBridge 0 BlueFieldDemo.client 7 bridge = (bridge, Ok name).
Proof.
  apply (ensureLogicalBridge_idempotent 0 BlueFieldDemo.client 7 (∅ : gset string)).
  - intros n x k s s' r [= <- _]. done.
  - intros n x q s s' lb [= <- <-]. simpl. split; [done|]. rewrite decide_True; [done|]. set_solver.
  - vm_compute. reflexivity.
Defined.
