(* ===== verification/GrpcPlugin.v ===== *)
(** The hybrid vendor plugin of the daemon, internal/daemon/plugin/vendorplugin.go.

    A [GrpcPlugin] serves every request first through the registry plugin attached
    to it, if there is one and it initializes, and otherwise through the gRPC
    services of the vendor-specific plugin (VSP).  The registry plugin is used
    through its interface, [PluginOps] over a state [S]: it is one shared object,
    so its state is in the world and not in the [GrpcPlugin].  The VSP is a
    parameter, [VSPServer] over a state [V]. *)
From S2P Require Import Prelude Plugin Scan OpiClient Net VendorPlugin.

(** The message of a device list: id, health and PCI address of each device, by map key. *)
Record PbDevice := { PbID : string; PbHealth : string; PbNode : string }.
Definition DeviceListResponse := gmap string PbDevice.

Class VSPServer (V : Type) := {
  vsp_Init : bool → string → V → V * result (string * Z);
  vsp_CreateBridgePort : CreateBridgePortRequest → V → V * result OpiBridgePort;
  vsp_DeleteBridgePort : string → V → V * option error;
  vsp_CreateNetworkFunction : string → string → V → V * option error;
  vsp_DeleteNetworkFunction : string → string → V → V * option error;
  vsp_GetDevices : V → V * result DeviceListResponse;
  vsp_SetNumVfs : Z → V → V * result Z }.

(** The interface [VendorPlugin] the side managers and the device handler work
    against, over the state of the implementation and whatever it acts on. *)
Class VendorOps (W : Type) := {
  vp_CreateBridgePort : option CreateBridgePortRequest → W → W * result OpiBridgePort;
  vp_DeleteBridgePort : option string → W → W * result unit;
  vp_CreateNetworkFunction : string → string → W → W * result unit;
  vp_DeleteNetworkFunction : string → string → W → W * result unit;
  vp_GetDevices : W → W * result DeviceListResponse;
  vp_SetNumVfs : Z → W → W * result Z }.

(** * Choosing a device *)

Definition resolveDeviceID (d : Device) : string :=
  if negb (String.eqb (ID d) "") then ID d
  else if negb (String.eqb (PCIAddress d) "") then PCIAddress d
  else if negb (String.eqb (VendorID (PCIID d)) "") || negb (String.eqb (DeviceID (PCIID d)) "")
       then PCIDeviceID_String (PCIID d)
  else "unknown".

Definition normalizeIdentifier (value : string) : string := replace_all ":" "-" (to_lower value).

Definition identifierPrefixes : list string :=
  ["nvidia-bf-"; "xsight-"; "mangoboost-"; "intel-ipu-"; "intel-netsec-"; "marvell-dpu-"].
Definition identifierCandidates (identifier : string) : list string :=
  let n := normalizeIdentifier identifier in
  [n] ++ (match List.find (λ p, has_prefix p n) identifierPrefixes with
          | Some p => [trim_prefix p n] | None => [] end)
      ++ (if has_suffix "-dpu" n then [trim_suffix "-dpu" n] else []).

(** The three fields a device is recognised by, under one test. *)
Definition device_matches (test : string → bool) (d : Device) : bool :=
  let t s := negb (String.eqb s "") && test (normalizeIdentifier s) in
  t (ID d) || t (SerialNumber d) || t (PCIAddress d).
(** The candidate-major search of [selectDeviceForIdentifier]. *)
Fixpoint search (test : string → string → bool) (candidates : list string) (ds : list Device) : option Device :=
  match candidates with
  | [] => None
  | c :: cs => match List.find (device_matches (test c)) ds with
               | Some d => Some d
               | None => search test cs ds
               end
  end.
Definition selectDeviceForIdentifier (identifier : string) (ds : list Device) : Device :=
  match ds with
  | [] => zero_Device
  | d0 :: _ =>
      if String.eqb identifier "" then d0 else
      let cs := identifierCandidates identifier in
      match search (λ c s, String.eqb c s) cs ds with
      | Some d => d
      | None => match search (λ c s, contains s c) cs ds with Some d => d | None => d0 end
      end
  end.

(** * Translating between the OPI messages and the plugin's types *)

Definition ptype_string (t : Z) : string :=
  if (t =? 0)%Z then "BRIDGE_PORT_TYPE_UNSPECIFIED"
  else if (t =? 1)%Z then "BRIDGE_PORT_TYPE_ACCESS"
  else if (t =? 2)%Z then "BRIDGE_PORT_TYPE_TRUNK" else itoa t.

Definition bridgePortRequestFromOPI (req : CreateBridgePortRequest) : BridgePortRequest :=
  let name := match CreateBp req with
              | Some bp => if String.eqb (BpName bp) "" then BridgePortId req else BpName bp
              | None => BridgePortId req end in
  match CreateBp req ≫= BpSpec with
  | None => {| ReqName := name; ReqMAC := ""; ReqVLANID := None; ReqType := ""; ReqMetadata := ∅ |}
  | Some sp =>
      {| ReqName := name;
         ReqMAC := match MacAddress sp with [] => "" | m => mac_string m end;
         ReqVLANID := match LogicalBridges sp with [lb] => atoi lb | _ => None end;
         ReqType := if (Ptype sp =? BRIDGE_PORT_TYPE_UNSPECIFIED)%Z then "" else to_lower (ptype_string (Ptype sp));
         ReqMetadata := match LogicalBridges sp with [] => ∅ | lbs => {["logical_bridges" := join "," lbs]} end |}
  end.

(** [portType] is the value of [port.Type], a field the source reads and the
    struct [plugin.BridgePort] does not declare. *)
Definition bridgePortToOPI (port : option BridgePort) (portType fallbackName : string) : OpiBridgePort :=
  match port with
  | None => {| BpName := fallbackName; BpSpec := None |}
  | Some port =>
      let name := if String.eqb (PortID port) "" then PortName port else PortID port in
      let name := if String.eqb name "" then fallbackName else name in
      let mac := if String.eqb (PortMAC port) "" then []
                 else match ParseMAC (PortMAC port) with Ok m => m | Err _ => [] end in
      let t := to_lower portType in
      {| BpName := name;
         BpSpec := Some
           {| MacAddress := mac;
              Ptype := if existsb (String.eqb t) ["trunk"; "bridge_port_type_trunk"; "bridge-port-type-trunk"]
                       then BRIDGE_PORT_TYPE_TRUNK else BRIDGE_PORT_TYPE_ACCESS;
              LogicalBridges := match PortVLANID port with Some v => [itoa v] | None => [] end |} |}
  end.

Definition lifecycle_device (d : Device) : PbDevice :=
  {| PbID := resolveDeviceID d; PbHealth := if Healthy d then "healthy" else "unhealthy"; PbNode := PCIAddress d |}.
Definition devicesToLifecycleResponse (ds : list Device) : DeviceListResponse :=
  foldl (λ m d, <[resolveDeviceID d := lifecycle_device d]> m) ∅ ds.

(** * The plugin *)

(** The attached registry plugin is the shared object of the world; what is
    recorded here is whether one is attached and whether it is a [NetworkPlugin]. *)
Record GrpcPlugin := {
  g_dpuMode : bool; g_dpuIdentifier : string;
  g_conn : option nat; g_client : bool; g_initialized : bool;
  g_registryPlugin : option bool; g_registryConfig : PluginConfig;
  g_registryInitialized : bool; g_registryLastAttempt : option Z; g_registryInitErr : option error }.

Record gworld (S V : Type) := { g_plugin : S; g_vsp : V; g_conns : conns }.
Arguments g_plugin {_ _} _.
Arguments g_vsp {_ _} _.
Arguments g_conns {_ _} _.
Arguments Build_gworld {_ _} _ _ _.

Definition set_registry (g : GrpcPlugin) (p : option bool) (cfg : PluginConfig) (init : bool)
    (last : option Z) (e : option error) : GrpcPlugin :=
  {| g_dpuMode := g_dpuMode g; g_dpuIdentifier := g_dpuIdentifier g; g_conn := g_conn g;
     g_client := g_client g; g_initialized := g_initialized g; g_registryPlugin := p;
     g_registryConfig := cfg; g_registryInitialized := init; g_registryLastAttempt := last;
     g_registryInitErr := e |}.
Definition set_conn (g : GrpcPlugin) (c : option nat) (cl : bool) : GrpcPlugin :=
  {| g_dpuMode := g_dpuMode g; g_dpuIdentifier := g_dpuIdentifier g; g_conn := c; g_client := cl;
     g_initialized := g_initialized g; g_registryPlugin := g_registryPlugin g;
     g_registryConfig := g_registryConfig g; g_registryInitialized := g_registryInitialized g;
     g_registryLastAttempt := g_registryLastAttempt g; g_registryInitErr := g_registryInitErr g |}.
Definition SetInitDone (b : bool) (g : GrpcPlugin) : GrpcPlugin :=
  {| g_dpuMode := g_dpuMode g; g_dpuIdentifier := g_dpuIdentifier g; g_conn := g_conn g;
     g_client := g_client g; g_initialized := b; g_registryPlugin := g_registryPlugin g;
     g_registryConfig := g_registryConfig g; g_registryInitialized := g_registryInitialized g;
     g_registryLastAttempt := g_registryLastAttempt g; g_registryInitErr := g_registryInitErr g |}.

Definition NewGrpcPlugin (dpuMode : bool) (dpuIdentifier : string) : GrpcPlugin :=
  {| g_dpuMode := dpuMode; g_dpuIdentifier := dpuIdentifier; g_conn := None; g_client := false;
     g_initialized := false; g_registryPlugin := None; g_registryConfig := zero_config;
     g_registryInitialized := false; g_registryLastAttempt := None; g_registryInitErr := None |}.
Definition AttachRegistryPlugin (network : bool) (cfg : PluginConfig) (g : GrpcPlugin) : GrpcPlugin :=
  set_registry g (Some network) cfg false None None.
Definition IsInitialized (g : GrpcPlugin) : bool := g_initialized g.
Definition registryNetworkPlugin (g : GrpcPlugin) : bool := default false (g_registryPlugin g).

Definition registryInitRetryInterval : Z := 30 * Second.
Definition fallback_error (e : error) : bool := IsNotImplemented e || IsCapabilityNotSupported e.

Section GrpcPlugin.
Context {S V : Type} `{!PluginOps S, !VSPServer V}
        (conn_state : nat → connectivity) (vsp_dial : option error).
Abbreviation world := (gworld S V).
Definition with_plugin (w : world) (p : S) : world := Build_gworld p (g_vsp w) (g_conns w).
Definition with_vsp (w : world) (v : V) : world := Build_gworld (g_plugin w) v (g_conns w).
Definition with_conns (w : world) (c : conns) : world := Build_gworld (g_plugin w) (g_vsp w) c.

Definition ensureRegistryInitialized (now : Z) (g : GrpcPlugin) (w : world) : GrpcPlugin * world * bool :=
  match g_registryPlugin g with
  | None => (g, w, false)
  | Some net =>
      let cfg := g_registryConfig g in
      if g_registryInitialized g then (g, w, true) else
      let recent := match g_registryLastAttempt g with
                    | Some t => (now - t <? registryInitRetryInterval)%Z | None => false end in
      if recent then (g, w, false) else
      match op_Initialize cfg (g_plugin w) with
      | (p, None) => (set_registry g (Some net) cfg true (Some now) None, with_plugin w p, true)
      | (p, Some e) =>
          if errors_Is e ErrAlreadyInitialized
          then (set_registry g (Some net) cfg true (Some now) None, with_plugin w p, true)
          else (set_registry g (Some net) cfg false (Some now) (Some e), with_plugin w p, false)
      end
  end.

Definition close_conn (n : nat) (c : conns) : conns :=
  {| next_conn := next_conn c; open_conns := open_conns c ∖ {[n]} |}.
Definition ensureConnected (g : GrpcPlugin) (w : world) : GrpcPlugin * world * option error :=
  let dial g w :=
    match vsp_dial with
    | Some e => (g, w, Some e)
    | None =>
        let c := g_conns w in
        (set_conn g (Some (next_conn c)) true,
         with_conns w {| next_conn := Datatypes.S (next_conn c); open_conns := {[next_conn c]} ∪ open_conns c |}, None)
    end in
  match g_conn g with
  | None => dial g w
  | Some n =>
      if bool_decide (conn_state n = Ready) || bool_decide (conn_state n = Idle)
      then if g_client g then (g, w, None) else dial g w
      else dial (set_conn g None false) (with_conns w (close_conn n (g_conns w)))
  end.

(** The gRPC leg of every operation. *)
Definition via_vsp {A} (what : string) (call : V → V * result A) (g : GrpcPlugin) (w : world)
    : GrpcPlugin * world * result A :=
  match ensureConnected g w with
  | (g, w, Some e) => (g, w, Err (Text (what +:+ " failed to ensure GRPC connection: " +:+ Error e)))
  | (g, w, None) => let '(v, r) := call (g_vsp w) in (g, with_vsp w v, r)
  end.
(** The shape of the four operations that try the registry plugin first. *)
Definition hybrid {A} (now : Z) (what : string) (try : S → S * result A) (call : V → V * result A)
    (g : GrpcPlugin) (w : world) : GrpcPlugin * world * result A :=
  let '(g, w, ready) := ensureRegistryInitialized now g w in
  if ready && registryNetworkPlugin g then
    match try (g_plugin w) with
    | (p, Ok a) => (g, with_plugin w p, Ok a)
    | (p, Err e) =>
        if fallback_error e then via_vsp what call g (with_plugin w p)
        else (g, with_plugin w p, Err e)
    end
  else via_vsp what call g w.

Definition of_err {X} (r : X * option error) : X * result unit :=
  match r with (x, None) => (x, Ok tt) | (x, Some e) => (x, Err e) end.

Definition CreateBridgePort (now : Z) (req : option CreateBridgePortRequest) (g : GrpcPlugin) (w : world)
    : GrpcPlugin * world * result OpiBridgePort :=
  match req with
  | None => (g, w, Err (Text "CreateBridgePort request is nil"))
  | Some req =>
      let bridgeReq := bridgePortRequestFromOPI req in
      hybrid now "CreateBridgePort"
        (λ p, let '(p, r) := op_CreateBridgePort bridgeReq p in
              (p, rmap (λ port, bridgePortToOPI (Some port) "" (ReqName bridgeReq)) r))
        (vsp_CreateBridgePort req) g w
  end.
Definition DeleteBridgePort (now : Z) (req : option string) (g : GrpcPlugin) (w : world)
    : GrpcPlugin * world * result unit :=
  match req with
  | None => (g, w, Err (Text "DeleteBridgePort request is nil"))
  | Some name =>
      hybrid now "DeleteBridgePort" (λ p, of_err (op_DeleteBridgePort name p))
        (λ v, of_err (vsp_DeleteBridgePort name v)) g w
  end.
Definition CreateNetworkFunction (now : Z) (input output : string) (g : GrpcPlugin) (w : world)
    : GrpcPlugin * world * result unit :=
  hybrid now "CreateNetworkFunction" (λ p, of_err (op_CreateNetworkFunction input output p))
    (λ v, of_err (vsp_CreateNetworkFunction input output v)) g w.
Definition DeleteNetworkFunction (now : Z) (input output : string) (g : GrpcPlugin) (w : world)
    : GrpcPlugin * world * result unit :=
  hybrid now "DeleteNetworkFunction" (λ p, of_err (op_DeleteNetworkFunction input output p))
    (λ v, of_err (vsp_DeleteNetworkFunction input output v)) g w.

(** Discovery falls back on any error and on an empty list. *)
Definition GetDevices (now : Z) (g : GrpcPlugin) (w : world) : GrpcPlugin * world * result DeviceListResponse :=
  let '(g, w, ready) := ensureRegistryInitialized now g w in
  if ready then
    match op_DiscoverDevices (g_plugin w) with
    | (p, Ok (d :: ds)) => (g, with_plugin w p, Ok (devicesToLifecycleResponse (d :: ds)))
    | (p, _) => via_vsp "GetDevices" vsp_GetDevices g (with_plugin w p)
    end
  else via_vsp "GetDevices" vsp_GetDevices g w.

Definition SetNumVfs (now : Z) (count : Z) (g : GrpcPlugin) (w : world) : GrpcPlugin * world * result Z :=
  let fall := via_vsp "SetNumvfs" (vsp_SetNumVfs count) in
  let '(g, w, ready) := ensureRegistryInitialized now g w in
  if ready && registryNetworkPlugin g then
    match op_DiscoverDevices (g_plugin w) with
    | (p, Ok (d :: ds)) =>
        let targetID := resolveDeviceID (selectDeviceForIdentifier (g_dpuIdentifier g) (d :: ds)) in
        match op_SetVFCount targetID count p with
        | (p, None) => (g, with_plugin w p, Ok count)
        | (p, Some e) => if fallback_error e then fall g (with_plugin w p) else (g, with_plugin w p, Err e)
        end
    | (p, _) => fall g (with_plugin w p)
    end
  else fall g w.

(** [Close]: a shared registry plugin is shut down, the connection dropped. *)
Definition GClose (g : GrpcPlugin) (w : world) : GrpcPlugin * world :=
  let '(g, w) :=
    match g_registryPlugin g with
    | Some net =>
        if g_registryInitialized g
        then (set_registry g (Some net) (g_registryConfig g) false None None,
              with_plugin w (op_Shutdown (g_plugin w)).1)
        else (g, w)
    | None => (g, w)
    end in
  match g_conn g with
  | Some n => (set_conn g None false, with_conns w (close_conn n (g_conns w)))
  | None => (g, w)
  end.

(** [Start]: the retry loop.  [fuel] is the number of turns the loop gets before
    the context is cancelled; a turn that fails to connect or to initialize the
    VSP is followed by a wait and the next turn. *)
Definition ctx_cancelled : error := Text "context canceled".
Fixpoint start_loop (fuel : nat) (g : GrpcPlugin) (w : world) : GrpcPlugin * world * result (string * Z) :=
  match fuel with
  | O => (g, w, Err ctx_cancelled)
  | Datatypes.S fuel =>
      match ensureConnected g w with
      | (g, w, Some _) => start_loop fuel g w
      | (g, w, None) =>
          match vsp_Init (g_dpuMode g) (g_dpuIdentifier g) (g_vsp w) with
          | (v, Ok ipPort) => (SetInitDone true g, with_vsp w v, Ok ipPort)
          | (v, Err e) =>
              if contains "already initialized" (Error e)
              then (SetInitDone true g, with_vsp w v, Err e)
              else start_loop fuel g (with_vsp w v)
          end
      end
  end.
Definition Start (now : Z) (fuel : nat) (g : GrpcPlugin) (w : world) : GrpcPlugin * world * result (string * Z) :=
  let '(g, w, _) := ensureRegistryInitialized now g w in start_loop fuel g w.

(** A [GrpcPlugin] used at time [now] is a [VendorPlugin]. *)
Definition grpc_vendor (now : Z) : VendorOps (GrpcPlugin * world) :=
  {| vp_CreateBridgePort req s := CreateBridgePort now req s.1 s.2;
     vp_DeleteBridgePort name s := DeleteBridgePort now name s.1 s.2;
     vp_CreateNetworkFunction i o s := CreateNetworkFunction now i o s.1 s.2;
     vp_DeleteNetworkFunction i o s := DeleteNetworkFunction now i o s.1 s.2;
     vp_GetDevices s := GetDevices now s.1 s.2;
     vp_SetNumVfs n s := SetNumVfs now n s.1 s.2 |}.

(** ** Lemmas *)

Lemma ensureRegistryInitialized_ready now g w :
  g_registryPlugin g ≠ None → g_registryInitialized g = true →
  ensureRegistryInitialized now g w = (g, w, true).
Proof. unfold ensureRegistryInitialized. destruct (g_registryPlugin g); [|done]. by intros _ ->. Qed.
(** Initialization touches neither the VSP nor the connections, nor any field of
    the [GrpcPlugin] outside the registry bookkeeping. *)
Lemma ensureRegistryInitialized_frame now g w g' w' b :
  ensureRegistryInitialized now g w = (g', w', b) →
  g_vsp w' = g_vsp w ∧ g_conns w' = g_conns w ∧ g_conn g' = g_conn g ∧ g_client g' = g_client g ∧
  g_registryPlugin g' = g_registryPlugin g ∧ (b = true → g_registryInitialized g' = true).
Proof.
  unfold ensureRegistryInitialized. destruct (g_registryPlugin g) as [net|] eqn:En; [|by intros [= <- <- <-]].
  destruct (g_registryInitialized g) eqn:Ei; [by intros [= <- <- <-]|].
  destruct (match g_registryLastAttempt g with Some t => _ | None => _ end); [by intros [= <- <- <-]|].
  destruct (op_Initialize _ _) as [p [e|]]; [destruct (errors_Is e _)|]; intros [= <- <- <-]; done.
Qed.

(** Same result, same VSP, same connections. *)
Definition same_leg {A} (x y : GrpcPlugin * world * result A) : Prop :=
  x.2 = y.2 ∧ g_vsp x.1.2 = g_vsp y.1.2 ∧ g_conns x.1.2 = g_conns y.1.2 ∧
  g_conn x.1.1 = g_conn y.1.1 ∧ g_client x.1.1 = g_client y.1.1.
(** The VSP leg reads and writes nothing else. *)
Lemma via_vsp_cong {A} what (call : V → V * result A) g g' w w' :
  g_conn g' = g_conn g → g_client g' = g_client g → g_vsp w' = g_vsp w → g_conns w' = g_conns w →
  same_leg (via_vsp what call g' w') (via_vsp what call g w).
Proof.
  destruct w as [p v c], w' as [p' v' c'], g as [m i cn cl ini rp rc ri rl re], g' as [m' i' cn' cl' ini' rp' rc' ri' rl' re'].
  unfold via_vsp, ensureConnected, same_leg, close_conn. simpl. intros -> -> -> ->.
  destruct cn as [n|]; [destruct (_ || _); [destruct cl|]|]; destruct vsp_dial; simpl;
    try destruct (call v); repeat split.
Qed.
Lemma via_vsp_plugin {A} what (call : V → V * result A) g w :
  g_plugin (via_vsp what call g w).1.2 = g_plugin w.
Proof.
  unfold via_vsp, ensureConnected. destruct vsp_dial, (g_conn g); repeat case_match; simplify_eq/=; done.
Qed.

(** The bookkeeping of [g] agrees with the shared plugin. *)
Definition registry_honest (g : GrpcPlugin) (w : world) : Prop :=
  g_registryPlugin g ≠ None → g_registryInitialized g = true → op_initialized (g_plugin w) = true.
(** Only an initialized plugin answers "already initialized". *)
Definition fresh_errors : Prop := ∀ cfg s s' e,
  op_initialized s = false → op_Initialize cfg s = (s', Some e) → errors_Is e ErrAlreadyInitialized = false.
Lemma ensureRegistryInitialized_sound `{!PluginLaws S} now g w g' w' b :
  fresh_errors → registry_honest g w → ensureRegistryInitialized now g w = (g', w', b) →
  registry_honest g' w' ∧ (b = true → op_initialized (g_plugin w') = true).
Proof.
  unfold fresh_errors, registry_honest, ensureRegistryInitialized. intros Hf Hh.
  destruct (g_registryPlugin g) as [net|] eqn:En; [|by intros [= <- <- <-]].
  destruct (g_registryInitialized g) eqn:Ei; [intros [= <- <- <-]; auto|].
  destruct (match g_registryLastAttempt g with Some t => _ | None => _ end);
    [intros [= <- <- <-]; rewrite Ei; done|].
  destruct (op_Initialize (g_registryConfig g) (g_plugin w)) as [p [e|]] eqn:Eop.
  - destruct (op_initialized (g_plugin w)) eqn:Ep.
    + rewrite law_Initialize_twice in Eop by done. injection Eop as <- <-.
      destruct (errors_Is _ _); intros [= <- <- <-]; done.
    + rewrite (Hf _ _ _ _ Ep Eop). intros [= <- <- <-]. done.
  - intros [= <- <- <-]. simpl. split; [intros _ _|intros _]; by eapply law_Initialize_ok.
Qed.
End GrpcPlugin.

(** Device choice. *)

Lemma find_elem {A} (f : A → bool) l x : List.find f l = Some x → x ∈ l ∧ f x = true.
Proof. intros H%find_some. by rewrite list_elem_of_In. Qed.
Lemma find_exists {A} (f : A → bool) l x : x ∈ l → f x = true → ∃ y, List.find f l = Some y.
Proof.
  intros Hin Hf. destruct (List.find f l) eqn:E; [eauto|].
  apply list_elem_of_In in Hin. by rewrite (find_none f l E x Hin) in Hf.
Qed.
Lemma search_Some test cs ds d :
  search test cs ds = Some d → d ∈ ds ∧ ∃ c, c ∈ cs ∧ device_matches (test c) d = true.
Proof.
  induction cs as [|c cs IH]; simpl; [done|]. destruct (List.find _ ds) eqn:E.
  - intros [= <-]. apply find_elem in E as [? ?]. split; [done|]. exists c. split; [by left|done].
  - intros (? & c' & ? & ?)%IH. split; [done|]. exists c'. split; [by right|done].
Qed.
Lemma search_exists test cs ds c d :
  c ∈ cs → d ∈ ds → device_matches (test c) d = true → ∃ d', search test cs ds = Some d'.
Proof.
  intros Hc Hd Hm. induction cs as [|c' cs IH]; [set_solver|]. simpl.
  destruct (List.find _ ds) eqn:E; [eauto|]. apply elem_of_cons in Hc as [->|Hc]; [|auto].
  destruct (find_exists _ ds d Hd Hm) as [? E']. congruence.
Qed.

(** A device is an exact match when one of its identifying fields is, up to
    normalization, one of the identifier's candidates. *)
Definition exact_match (identifier : string) (d : Device) : Prop :=
  ∃ c, c ∈ identifierCandidates identifier ∧ device_matches (String.eqb c) d = true.

(** How often [Init] must be called before the VSP accepts. *)
Definition vsp_after `{!VSPServer V} (mode : bool) (id : string) (k : nat) (v : V) : V :=
  Nat.iter k (λ v, (vsp_Init mode id v).1) v.
Lemma vsp_after_S `{!VSPServer V} mode id k (v : V) :
  vsp_after mode id (S k) v = vsp_after mode id k (vsp_Init mode id v).1.
Proof. unfold vsp_after. by rewrite Nat.iter_succ_r. Qed.

(** * Theorems *)

(** A bridge-port request on a [GrpcPlugin] with one of the plugins that
    implement no network operation attached ends exactly as if no registry plugin
    were attached: the VSP gets the request, with the same outcome, as long as the
    [GrpcPlugin] is right about the plugin being initialized. *)
Theorem hybrid_simple_falls_back {V} `{!VSPServer V} conn_state vsp_dial pd dial cs fs now {B} `{!OPIServer B}
    req g (w : gworld (plugin_state * world B) V) (ops := simple_ops pd dial cs fs 0) :
  (∀ ep e, dial ep = Some e → errors_Is e ErrAlreadyInitialized = false) →
  registry_honest g w →
  same_leg (CreateBridgePort conn_state vsp_dial now (Some req) g w)
           (via_vsp conn_state vsp_dial "CreateBridgePort" (vsp_CreateBridgePort req) g w).
Proof.
  intros Hdial Hh. pose proof (simple_laws pd dial cs fs 0 : PluginLaws _) as laws.
  unfold CreateBridgePort, hybrid.
  destruct (ensureRegistryInitialized now g w) as [[g' w'] ready] eqn:E.
  pose proof (ensureRegistryInitialized_frame now g w g' w' ready E) as (Hv & Hc & Hgc & Hgcl & Hgp & _).
  destruct (ensureRegistryInitialized_sound now g w g' w' ready) as [_ Hready]; [|done..|].
  { intros cfg [p b] s' e. simpl. unfold Initialize, NewClient. simpl. intros ->.
    repeat case_match; simplify_eq/=; intros [= _ <-]; simpl; by eapply Hdial. }
  destruct ready; simpl; [|by apply via_vsp_cong].
  destruct (registryNetworkPlugin g'); [|by apply via_vsp_cong].
  unfold VendorPlugin.CreateBridgePort, unimplemented. simpl in Hready. rewrite Hready by done.
  by apply via_vsp_cong.
Qed.

(** The times at which a [GrpcPlugin] used at [times] tries to initialize its plugin. *)
Fixpoint init_attempts {S V} `{!PluginOps S} (times : list Z) (g : GrpcPlugin) (w : gworld S V) : list Z :=
  match times with
  | [] => []
  | t :: times =>
      let '(g', w', _) := ensureRegistryInitialized t g w in
      (if bool_decide (g_registryLastAttempt g' = g_registryLastAttempt g) then [] else [t])
      ++ init_attempts times g' w'
  end.
Lemma ensureRegistryInitialized_last {S V} `{!PluginOps S} now g (w : gworld S V) g' w' b t :
  ensureRegistryInitialized now g w = (g', w', b) → g_registryLastAttempt g = Some t →
  g_registryLastAttempt g' = Some t ∨
  (g_registryLastAttempt g' = Some now ∧ t + registryInitRetryInterval ≤ now)%Z.
Proof.
  unfold ensureRegistryInitialized. intros E Hl. rewrite Hl in E.
  destruct (g_registryPlugin g); [|by simplify_eq; auto]. destruct (g_registryInitialized g); [by simplify_eq; auto|].
  destruct (Z.ltb_spec (now - t) registryInitRetryInterval); [by simplify_eq; auto|].
  right. split; [|lia]. destruct (op_Initialize _ _) as [p [e|]]; [destruct (errors_Is e _)|]; by simplify_eq.
Qed.
Lemma ensureRegistryInitialized_first {S V} `{!PluginOps S} now g (w : gworld S V) g' w' b :
  ensureRegistryInitialized now g w = (g', w', b) → g_registryLastAttempt g = None →
  g_registryLastAttempt g' = None ∨ g_registryLastAttempt g' = Some now.
Proof.
  unfold ensureRegistryInitialized. intros E Hl. rewrite Hl in E.
  repeat case_match; simplify_eq/=; auto.
Qed.
Lemma init_attempts_after {S V} `{!PluginOps S} times g (w : gworld S V) t :
  g_registryLastAttempt g = Some t →
  Sorted (λ a b, a + registryInitRetryInterval ≤ b)%Z (t :: init_attempts times g w).
Proof.
  revert g w t. induction times as [|now times IH]; intros g w t Hl; simpl; [by repeat constructor|].
  destruct (ensureRegistryInitialized now g w) as [[g' w'] b] eqn:E. rewrite Hl.
  destruct (ensureRegistryInitialized_last _ _ _ _ _ _ _ E Hl) as [Hl'|[Hl' Hle]]; rewrite Hl'.
  - rewrite bool_decide_true by done. by apply IH.
  - rewrite bool_decide_false.
    + constructor; [by apply IH|by constructor].
    + intros [= ->]. unfold registryInitRetryInterval, Second in Hle. lia.
Qed.
(** Whatever the clock readings at which a [GrpcPlugin] is used, two attempts
    to initialize its registry plugin are at least 30 seconds apart. *)
Theorem init_attempts_spaced {S V} `{!PluginOps S} times g (w : gworld S V) :
  Sorted (λ a b, a + registryInitRetryInterval ≤ b)%Z (init_attempts times g w).
Proof.
  revert g w. induction times as [|now times IH]; intros g w; simpl; [constructor|].
  destruct (ensureRegistryInitialized now g w) as [[g' w'] b] eqn:E.
  destruct (g_registryLastAttempt g) as [t|] eqn:Hl.
  - pose proof (init_attempts_after (now :: times) g w t Hl) as Hs. simpl in Hs. rewrite E, Hl in Hs.
    by inversion Hs.
  - destruct (ensureRegistryInitialized_first _ _ _ _ _ _ E Hl) as [Hl'|Hl']; rewrite Hl'.
    + rewrite bool_decide_true by done. apply IH.
    + rewrite bool_decide_false by done. by apply init_attempts_after.
Qed.

(** A registry plugin is shared: once one [GrpcPlugin] is closed, bridge-port
    creation through any other one that had initialized the same plugin answers
    [ErrNotInitialized], without falling back to the VSP and without recording
    anything, so that the next request ends the same way. *)
Theorem close_breaks_shared_plugin {S V} `{!PluginOps S, !PluginLaws S, !VSPServer V} conn_state vsp_dial
    now req g1 g2 (w : gworld S V) (w' := (GClose g1 w).2) :
  g_registryPlugin g1 ≠ None → g_registryInitialized g1 = true →
  g_registryPlugin g2 = Some true → g_registryInitialized g2 = true →
  CreateBridgePort conn_state vsp_dial now (Some req) g2 w' = (g2, w', Err (Sentinel ErrNotInitialized)).
Proof.
  intros Hp1 Hi1 Hp2 Hi2.
  assert (op_initialized (g_plugin w') = false) as Hoff.
  { subst w'. unfold GClose. destruct (g_registryPlugin g1); [|done]. rewrite Hi1.
    destruct (g_conn _); apply law_Shutdown. }
  unfold CreateBridgePort, hybrid. rewrite ensureRegistryInitialized_ready by (rewrite ?Hp2; done).
  unfold registryNetworkPlugin. rewrite Hp2. simpl. rewrite law_CreateBridgePort by done. simpl.
  by destruct w'.
Qed.

(** Choosing the device for a DPU identifier yields one of the discovered
    devices, and one whose id, serial number or PCI address is the identifier (up
    to the normalizations) whenever such a device exists. *)
Theorem selectDeviceForIdentifier_spec identifier ds :
  ds ≠ [] →
  selectDeviceForIdentifier identifier ds ∈ ds ∧
  (identifier ≠ "" → (∃ d, d ∈ ds ∧ exact_match identifier d) →
   exact_match identifier (selectDeviceForIdentifier identifier ds)).
Proof.
  destruct ds as [|d0 ds]; [done|]. intros _. unfold selectDeviceForIdentifier.
  destruct (String.eqb_spec identifier "") as [->|Hid]; [split; [by left|done]|].
  destruct (search (λ c s, String.eqb c s) _ _) as [d|] eqn:E1.
  - apply search_Some in E1 as (Hin & c & Hc & Hm). split; [done|]. intros _ _. by exists c.
  - split.
    + destruct (search (λ c s, contains s c) _ _) as [d|] eqn:E2; [by apply search_Some in E2 as [? _]|by left].
    + intros _ (d & Hd & c & Hc & Hm).
      destruct (search_exists (λ c s, String.eqb c s) _ _ _ _ Hc Hd Hm) as [d' E]. congruence.
Qed.

(** Translating an OPI request to the plugin's form and a port that carries
    its name, MAC and VLAN back to the OPI form gives the requested port: legal
    MAC addresses, VLANs and both port types survive. *)
Theorem bridge_port_roundtrip req sp vlan port fallback (r := bridgePortRequestFromOPI req) :
  CreateBp req ≫= BpSpec = Some sp →
  Forall is_byte (MacAddress sp) → valid_mac_len (length (MacAddress sp)) = true →
  LogicalBridges sp = match vlan with Some v => [itoa v] | None => [] end →
  from_option fits_int64 true vlan = true →
  (Ptype sp = BRIDGE_PORT_TYPE_ACCESS ∨ Ptype sp = BRIDGE_PORT_TYPE_TRUNK) →
  PortID port = ReqName r → PortMAC port = ReqMAC r → PortVLANID port = ReqVLANID r → ReqName r ≠ "" →
  bridgePortToOPI (Some port) (ReqType r) fallback = {| BpName := ReqName r; BpSpec := Some sp |}.
Proof.
  intros Hsp Hb Hlen Hlb Hfit Hpt Hid Hmac Hvlan Hne.
  unfold bridgePortToOPI. rewrite Hid, Hmac, Hvlan. rewrite (proj2 (String.eqb_neq _ _) Hne).
  rewrite (proj2 (String.eqb_neq _ _) Hne). f_equal. f_equal.
  subst r. unfold bridgePortRequestFromOPI. rewrite Hsp. simpl. destruct sp as [m pt lbs]. simpl in *.
  destruct m as [|b m]; [done|]. f_equal.
  - destruct (String.eqb_spec (mac_string (b :: m)) "") as [E|_]; [|by rewrite ParseMAC_mac_string].
    pose proof (ParseMAC_mac_string (b :: m) Hb Hlen) as Hp. rewrite E in Hp. done.
  - by destruct Hpt as [-> | ->].
  - subst lbs. destruct vlan as [v|]; [|done]. by rewrite atoi_itoa.
Qed.

(** C20: [Start] succeeds as soon as the VSP does: if the VSP can be dialled and
    accepts [Init] after [k] refusals, every loop that gets [k + 1] turns returns
    its address and marks the plugin initialized. *)
Theorem Start_succeeds {S V} `{!PluginOps S, !VSPServer V} conn_state now fuel k ip g (w : gworld S V) :
  (vsp_Init (g_dpuMode g) (g_dpuIdentifier g) (vsp_after (g_dpuMode g) (g_dpuIdentifier g) k (g_vsp w))).2 = Ok ip →
  (∀ i, i < k → ∃ e,
    (vsp_Init (g_dpuMode g) (g_dpuIdentifier g) (vsp_after (g_dpuMode g) (g_dpuIdentifier g) i (g_vsp w))).2 = Err e ∧
    contains "already initialized" (Error e) = false) →
  k < fuel →
  let '(g', w', r) := Start conn_state None now fuel g w in r = Ok ip ∧ IsInitialized g' = true.
Proof.
  unfold Start. destruct (ensureRegistryInitialized now g w) as [[g1 w1] b] eqn:E.
  assert (g_dpuMode g1 = g_dpuMode g ∧ g_dpuIdentifier g1 = g_dpuIdentifier g ∧ g_vsp w1 = g_vsp w) as (<- & <- & <-).
  { unfold ensureRegistryInitialized in E. repeat case_match; simplify_eq/=; done. }
  clear E. revert fuel g1 w1. induction k as [|k IH]; intros [|fuel] g1 w1 Hok Herr Hlt; [lia| |lia|].
  - simpl. unfold ensureConnected. simpl in Hok.
    destruct (vsp_Init _ _ _) as [v r] eqn:Ei. simpl in Hok. subst r.
    destruct (g_conn g1); [destruct (_ || _); [destruct (g_client g1)|]|]; simpl; rewrite Ei; done.
  - simpl. set (R := ensureConnected _ _ _ _).
    assert (∃ g2 w2, R = (g2, w2, None) ∧ g_dpuMode g2 = g_dpuMode g1 ∧ g_dpuIdentifier g2 = g_dpuIdentifier g1
            ∧ g_vsp w2 = g_vsp w1) as (g2 & w2 & -> & Hm & Hi & Hv).
    { subst R. unfold ensureConnected.
      destruct (g_conn g1); [destruct (_ || _); [destruct (g_client g1)|]|]; simpl; eauto 10. }
    rewrite Hm, Hi, Hv. destruct (Herr 0 ltac:(lia)) as (e & He & Hc). simpl in He.
    destruct (vsp_Init _ _ (g_vsp w1)) as [v r] eqn:Ei. simpl in He. subst r. rewrite Hc.
    apply IH; [| |lia]; simpl; rewrite ?Hm, ?Hi.
    + rewrite vsp_after_S, Ei in Hok. done.
    + intros i Hi'. specialize (Herr (Datatypes.S i) ltac:(lia)). rewrite vsp_after_S, Ei in Herr. done.
Qed.

(** * Witnesses *)
Module GrpcDemo.
Import VendorDemo.
(** A VSP that counts its calls and refuses the first [Init]. *)
#[export] Instance vsp : VSPServer nat :=
  {| vsp_Init := λ _ _ n, (Datatypes.S n, if (n =? 0)%nat then Err (Text "not ready") else Ok ("127.0.0.1", 50151%Z));
     vsp_CreateBridgePort := λ req n, (Datatypes.S n, Ok {| BpName := BridgePortId req; BpSpec := None |});
     vsp_DeleteBridgePort := λ _ n, (Datatypes.S n, None);
     vsp_CreateNetworkFunction := λ _ _ n, (Datatypes.S n, None);
     vsp_DeleteNetworkFunction := λ _ _ n, (Datatypes.S n, None);
     vsp_GetDevices := λ n, (Datatypes.S n, Ok ∅);
     vsp_SetNumVfs := λ c n, (Datatypes.S n, Ok c) |}.
#[export] Instance ops : PluginOps (plugin_state * world unit) :=
  simple_ops Intel.desc VendorDemo.dial VendorDemo.up (ScanDemo.fs true) 0.
#[export] Instance laws : PluginLaws (plugin_state * world unit) :=
  simple_laws Intel.desc VendorDemo.dial VendorDemo.up (ScanDemo.fs true) 0.
Definition w0 : gworld (plugin_state * world unit) nat :=
  Build_gworld (New, Build_world no_conns tt) 0 no_conns.
Definition g0 : GrpcPlugin := AttachRegistryPlugin true zero_config (NewGrpcPlugin true "intel-ipu-1").
(** Two [GrpcPlugin]s that have both initialized the shared plugin. *)
Definition s1 := ensureRegistryInitialized 0 g0 w0.
Definition s2 := ensureRegistryInitialized 0 g0 s1.1.2.
Definition mac : list Z := [0; 17; 34; 51; 68; 255]%Z.
Definition spec : BridgePortSpec :=
  {| MacAddress := mac; Ptype := BRIDGE_PORT_TYPE_TRUNK; LogicalBridges := ["7"] |}.
Definition req : CreateBridgePortRequest :=
  {| BridgePortId := "p0"; CreateBp := Some {| BpName := ""; BpSpec := Some spec |} |}.
Definition port : BridgePort :=
  {| PortID := "p0"; PortName := "p0"; PortMAC := "00:11:22:33:44:ff"; PortVLANID := Some 7%Z;
     PortStatus := "up"; PortMetadata := ∅ |}.
Definition d1 : Device :=
  {| ID := "0000:06:00.0"; PCIAddress := "0000:06:00.0"; PCIID := zero_PCIID; DevVendor := "Intel"; Model := "";
     SerialNumber := "AB:CD"; FirmwareVersion := ""; Healthy := true; Metadata := ∅ |}.
End GrpcDemo.
Import VendorDemo GrpcDemo.

Lemma hybrid_simple_falls_back_witness :
  (CreateBridgePort (V := nat) up None 0 (Some req) g0 w0).2 = Ok {| BpName := "p0"; BpSpec := None |}.
Proof.
  refine (eq_trans (proj1 (hybrid_simple_falls_back (V := nat) up None Intel.desc VendorDemo.dial up (ScanDemo.fs true)
    0 (B := unit) req g0 w0 _ _)) _); [done|done|reflexivity].
Defined.
Lemma close_breaks_shared_plugin_witness :
  (CreateBridgePort up None 0 (Some req) s2.1.1 (GClose s1.1.1 s2.1.2).2).2 = Err (Sentinel ErrNotInitialized).
Proof. by rewrite (close_breaks_shared_plugin up None 0 req s1.1.1 s2.1.1 s2.1.2). Defined.
Lemma selectDeviceForIdentifier_spec_witness :
  exact_match "intel-ipu-ab-cd" (selectDeviceForIdentifier "intel-ipu-ab-cd" [zero_Device; d1]).
Proof.
  apply (selectDeviceForIdentifier_spec "intel-ipu-ab-cd" [zero_Device; d1]); [done|done|].
  exists d1. split; [set_solver|]. exists "ab-cd". split; [vm_compute; set_solver|reflexivity].
Defined.
Lemma bridge_port_roundtrip_witness :
  bridgePortToOPI (Some port) (ReqType (bridgePortRequestFromOPI req)) "" = {| BpName := "p0"; BpSpec := Some spec |}.
Proof.
  apply (bridge_port_roundtrip req spec (Some 7%Z)); try reflexivity; [|by right|done].
  repeat constructor; done.
Defined.
Lemma Start_succeeds_witness : (Start (S := plugin_state * world unit) up None 0 2 g0 w0).2 = Ok ("127.0.0.1", 50151%Z).
Proof.
  pose proof (Start_succeeds (S := plugin_state * world unit) up 0 2 1 ("127.0.0.1", 50151%Z) g0 w0) as H.
  destruct (Start _ _ _ _ _ _) as [[g w] r]. apply H; [reflexivity| |lia].
  intros i Hi. assert (i = 0) as -> by lia. by exists (Text "not ready").
Defined.
