(* ===== verification/DevicePlugin.v ===== *)
(** The kubelet device plugin of the daemon: the device handler
    (internal/daemon/device-handler) that turns the vendor plugin's device list
    into kubelet devices, and the device plugin server
    (internal/daemon/device-plugin) with its cache, its watch loops, which run
    concurrently with allocations, and [Allocate]. *)
From S2P Require Import Prelude Plugin GrpcPlugin.

(** A device of the kubelet API. *)
Record KDevice := { KID : string; KHealth : string }.
#[export] Instance KDevice_eq_dec : EqDecision KDevice.
Proof. solve_decision. Defined.
Definition Healthy_ : string := "Healthy".
Abbreviation DeviceList := (gmap string KDevice).

(** sriovutils.IsValidPCIAddress. *)
Definition IsValidPCIAddress (id : string) : bool :=
  (count_char ":" id =? 2)%nat && (count_char "." id =? 1)%nat.

(** * The device handler *)

Definition validatePciDevice (device : string) : result string :=
  if IsValidPCIAddress device then Ok device
  else Err (Text ("netdev " +:+ device +:+ " is not a valid PCI device")).

(** The channel [setupDevicesDone]: nil, open or closed. *)
Inductive channel := ChanNil | ChanOpen | ChanClosed.

Record dpuDeviceHandler := { dh_dpuMode : bool; setupDevicesDone : channel }.
Definition NewDpuDeviceHandler (dpuMode : bool) : dpuDeviceHandler :=
  {| dh_dpuMode := dpuMode; setupDevicesDone := ChanNil |}.

(** The loop over the vendor plugin's answer, its values in some order. *)
Fixpoint handler_devices (dpuMode : bool) (ds : list PbDevice) (devices : DeviceList) : result DeviceList :=
  match ds with
  | [] => Ok devices
  | d :: ds =>
      if dpuMode
      then handler_devices dpuMode ds (<[PbID d := {| KID := PbID d; KHealth := Healthy_ |}]> devices)
      else match validatePciDevice (PbID d) with
           | Err e => Err (Wrap ("Error in deviceHandler: device " +:+ PbID d +:+ " from GetDevice request: ") e)
           | Ok pci => handler_devices dpuMode ds (<[pci := {| KID := pci; KHealth := Healthy_ |}]> devices)
           end
  end.

Section Handler.
Context {W : Type} `{!VendorOps W}.

(** [None]: the receive from [setupDevicesDone] blocks. *)
Definition HandlerGetDevices (h : dpuDeviceHandler) (w : W) : option (W * result DeviceList) :=
  match setupDevicesDone h with
  | ChanClosed =>
      let '(w, r) := vp_GetDevices w in
      Some (w, match r with
               | Err e => Err (Text ("failed to handle GetDevices request: " +:+ Error e))
               | Ok resp => handler_devices (dh_dpuMode h) (map_to_list resp).*2 ∅
               end)
  | _ => None
  end.

Definition SetupDevices (h : dpuDeviceHandler) (w : W) : dpuDeviceHandler * W * option error :=
  let h' := {| dh_dpuMode := dh_dpuMode h; setupDevicesDone := ChanClosed |} in
  match vp_SetNumVfs 8 w with
  | (w, Err e) =>
      if dh_dpuMode h then (h', w, None)
      else (h', w, Some (Text ("failed to set sriov numVfs: " +:+ Error e)))
  | (w, Ok cnt) =>
      if (cnt =? 0)%Z then (h', w, Some (Text ("SetNumVfs ran, but numVfs == " +:+ itoa cnt)))
      else (h', w, None)
  end.
End Handler.

(** * The server *)

Definition devicesEqual (d1 d2 : DeviceList) : bool :=
  if negb (size d1 =? size d2)%nat then false
  else forallb (λ kv, match d2 !! kv.1 with Some v => bool_decide (kv.2 = v) | None => false end) (map_to_list d1).

(** [dpServer]: its cache and whether its gRPC server is still running. *)
Record dpServer := { dp_devices : DeviceList; grpc_running : bool }.
Definition NewDevicePlugin : dpServer := {| dp_devices := ∅; grpc_running := true |}.
Definition setDeviceCache (devices : DeviceList) (dp : dpServer) : dpServer :=
  {| dp_devices := devices; grpc_running := grpc_running dp |}.
Definition stop_server (dp : dpServer) : dpServer :=
  {| dp_devices := dp_devices dp; grpc_running := false |}.

Definition checkCachedDeviceHealth (dp : dpServer) (id : string) : result bool :=
  match dp_devices dp !! id with
  | None => Err (Text ("invalid allocation request with non-existing device: " +:+ id))
  | Some dev => Ok (String.eqb (KHealth dev) Healthy_)
  end.

(** [Allocate]: the two loops.  The response of a container is its [NF-DEV] value. *)
Fixpoint allocate_container (dp : dpServer) (ids : list string) (devName : string) : result string :=
  match ids with
  | [] => Ok devName
  | id :: ids =>
      let? isHealthy := checkCachedDeviceHealth dp id in
      if negb isHealthy then Err (Text ("invalid allocation request with unhealthy device: " +:+ id))
      else allocate_container dp ids (devName +:+ id +:+ ",")
  end.
Fixpoint allocate_loop (dp : dpServer) (reqs : list (list string)) (devName : string)
    (resp : list string) : result (list string) :=
  match reqs with
  | [] => Ok resp
  | ids :: reqs =>
      let? devName := allocate_container dp ids devName in
      allocate_loop dp reqs devName (resp ++ [devName])
  end.
Definition Allocate (dp : dpServer) (reqs : list (list string)) : result (list string) :=
  allocate_loop dp reqs "" [].

(** A [ListAndWatch] call: what it sent last, and where it is in its loop. *)
Inductive lw_pc :=
  | Poll                        (* before deviceHandler.GetDevices *)
  | Send (new : DeviceList)     (* before sendDevices *)
  | Cache (new : DeviceList)    (* before setDeviceCache *)
  | Done.                       (* returned an error *)
Record watcher := { oldDevices : DeviceList; pc : lw_pc }.

(** The server at work: the kubelet may have several [ListAndWatch] streams open
    and sends [Allocate] requests at any time.  [announced] and [granted] record
    what the kubelet was told and which device ids it was granted. *)
Record dpState (W : Type) := {
  server : dpServer; handler : dpuDeviceHandler; vsp : W; watchers : gmap nat watcher;
  announced : list DeviceList; granted : list string }.
Arguments server {_} _.
Arguments handler {_} _.
Arguments vsp {_} _.
Arguments watchers {_} _.
Arguments announced {_} _.
Arguments granted {_} _.
Arguments Build_dpState {_} _ _ _ _ _ _.

Section Server.
Context {W : Type} `{!VendorOps W}.

Inductive dp_step : dpState W → dpState W → Prop :=
  | dp_setup s h w e :
      SetupDevices (handler s) (vsp s) = (h, w, e) →
      dp_step s (Build_dpState (server s) h w (watchers s) (announced s) (granted s))
  | dp_watch s i :
      watchers s !! i = None → grpc_running (server s) = true →
      dp_step s (Build_dpState (server s) (handler s) (vsp s)
                   (<[i := {| oldDevices := ∅; pc := Poll |}]> (watchers s)) (announced s) (granted s))
  | dp_poll s i old w r :
      watchers s !! i = Some {| oldDevices := old; pc := Poll |} →
      HandlerGetDevices (handler s) (vsp s) = Some (w, r) →
      dp_step s (Build_dpState (server s) (handler s) w
                   (<[i := {| oldDevices := old;
                              pc := match r with
                                    | Err _ => Done
                                    | Ok new => if devicesEqual old new then Poll else Send new
                                    end |}]> (watchers s)) (announced s) (granted s))
  | dp_send s i old new :
      watchers s !! i = Some {| oldDevices := old; pc := Send new |} →
      dp_step s (Build_dpState (server s) (handler s) (vsp s)
                   (<[i := {| oldDevices := old; pc := Cache new |}]> (watchers s))
                   (announced s ++ [new]) (granted s))
  | dp_send_fail s i old new :
      watchers s !! i = Some {| oldDevices := old; pc := Send new |} →
      dp_step s (Build_dpState (stop_server (server s)) (handler s) (vsp s)
                   (<[i := {| oldDevices := old; pc := Done |}]> (watchers s)) (announced s) (granted s))
  | dp_cache s i old new :
      watchers s !! i = Some {| oldDevices := old; pc := Cache new |} →
      dp_step s (Build_dpState (setDeviceCache new (server s)) (handler s) (vsp s)
                   (<[i := {| oldDevices := new; pc := Poll |}]> (watchers s)) (announced s) (granted s))
  | dp_allocate s reqs resp :
      grpc_running (server s) = true → Allocate (server s) reqs = Ok resp →
      dp_step s (Build_dpState (server s) (handler s) (vsp s) (watchers s) (announced s)
                   (granted s ++ mjoin reqs)).

Definition dp_init (dpuMode : bool) (w : W) : dpState W :=
  Build_dpState NewDevicePlugin (NewDpuDeviceHandler dpuMode) w ∅ [] [].
End Server.

(** * Lemmas *)

Lemma devicesEqual_spec d1 d2 : devicesEqual d1 d2 = true ↔ d1 = d2.
Proof.
  unfold devicesEqual. destruct (Nat.eqb_spec (size d1) (size d2)) as [Hs|Hs]; simpl;
    [|split; [done|intros ->; done]].
  rewrite forallb_forall. split; [|intros ->].
  - intros H. assert (d1 ⊆ d2) as Hsub.
    { apply map_subseteq_spec. intros i x Hx. specialize (H (i, x) (proj1 (list_elem_of_In _ _) (proj2 (elem_of_map_to_list _ _ _) Hx))). simpl in H.
      destruct (d2 !! i) eqn:E2; [|done]. by apply bool_decide_eq_true in H as ->. }
    apply map_subseteq_size_eq; [done|lia].
  - intros [i x] Hx. apply list_elem_of_In, elem_of_map_to_list in Hx. simpl. rewrite Hx.
    by apply bool_decide_eq_true.
Qed.

(** What the kubelet may be granted, and the variable that names it. *)
Definition allocatable (dp : dpServer) (id : string) : Prop :=
  ∃ dev, dp_devices dp !! id = Some dev ∧ KHealth dev = Healthy_.
Definition device_name (ids : list string) : string := foldr (λ id s, (id +:+ ",") +:+ s) "" ids.
#[global] Arguments device_name : simpl never.

Lemma device_name_cons id ids : device_name (id :: ids) = (id +:+ ",") +:+ device_name ids.
Proof. done. Qed.
Lemma device_name_app l k : device_name (l ++ k) = device_name l +:+ device_name k.
Proof.
  induction l as [|id l IH]; [done|]. change ((id :: l) ++ k) with (id :: (l ++ k)).
  by rewrite !device_name_cons, IH, !string_app_assoc.
Qed.
Lemma checkCached_true dp id : checkCachedDeviceHealth dp id = Ok true ↔ allocatable dp id.
Proof.
  unfold checkCachedDeviceHealth, allocatable. destruct (dp_devices dp !! id) as [dev|]; [|naive_solver].
  split; [intros [= H%String.eqb_eq]; eauto|intros (? & [= <-] & ->); done].
Qed.
Lemma allocate_container_Ok dp ids name r :
  allocate_container dp ids name = Ok r ↔ Forall (allocatable dp) ids ∧ r = name +:+ device_name ids.
Proof.
  revert name. induction ids as [|id ids IH]; intros name; simpl.
  - rewrite string_app_nil_r. split; [intros [= ->]; done|intros [_ ->]; done].
  - rewrite Forall_cons, <-checkCached_true, device_name_cons.
    destruct (checkCachedDeviceHealth dp id) as [[]|e]; simpl; [|naive_solver..].
    rewrite IH, !string_app_assoc. naive_solver.
Qed.
(** The values the containers get: every prefix of the request, flattened. *)
Fixpoint prefixes_from (acc : list string) (reqs : list (list string)) : list (list string) :=
  match reqs with [] => [] | ids :: reqs => (acc ++ ids) :: prefixes_from (acc ++ ids) reqs end.
Lemma allocate_loop_Ok dp reqs acc resp r :
  allocate_loop dp reqs (device_name acc) resp = Ok r ↔
  Forall (allocatable dp) (mjoin reqs) ∧ r = resp ++ (device_name <$> prefixes_from acc reqs).
Proof.
  revert acc resp. induction reqs as [|ids reqs IH]; intros acc resp; simpl.
  - rewrite app_nil_r. split; [intros [= ->]; done|intros [_ ->]; done].
  - rewrite Forall_app. destruct (allocate_container dp ids (device_name acc)) as [name|e] eqn:E.
    + apply allocate_container_Ok in E as [Hids ->]. rewrite <-device_name_app, IH, <-app_assoc. simpl. naive_solver.
    + split; [done|]. intros [[Hids _] _].
      destruct (allocate_container_Ok dp ids (device_name acc) (device_name acc +:+ device_name ids)) as [_ H].
      rewrite H in E by done. done.
Qed.

(** The kubelet device of a vendor device: always healthy. *)
Definition kdevice (id : string) : KDevice := {| KID := id; KHealth := Healthy_ |}.
Definition kdevices (acc : DeviceList) (ds : list PbDevice) : DeviceList :=
  foldl (λ m d, <[PbID d := kdevice (PbID d)]> m) acc ds.
Lemma handler_devices_Ok mode ds acc m :
  handler_devices mode ds acc = Ok m ↔
  (mode = false → Forall (λ d, IsValidPCIAddress (PbID d) = true) ds) ∧
  m = kdevices acc ds.
Proof.
  revert acc. induction ds as [|d ds IH]; intros acc; simpl; [naive_solver|].
  unfold validatePciDevice. rewrite Forall_cons. destruct mode; [rewrite IH; naive_solver|].
  destruct (IsValidPCIAddress (PbID d)); simpl; [rewrite IH|]; naive_solver.
Qed.
Lemma kdevices_lookup ds acc id dev :
  kdevices acc ds !! id = Some dev ↔
  (dev = kdevice id ∧ id ∈ PbID <$> ds) ∨ (acc !! id = Some dev ∧ id ∉ PbID <$> ds).
Proof.
  revert acc. induction ds as [|d ds IH]; intros acc; simpl.
  - split; [right; split; [done|set_solver]|intros [[_ H]|[H _]]; [set_solver|done]].
  - rewrite IH, lookup_insert_Some, elem_of_cons. destruct (decide (id ∈ PbID <$> ds)); naive_solver.
Qed.

(** The state the watch loops maintain: what is cached, or about to be, was
    announced, and what was granted was announced healthy. *)
Definition announced_healthy (l : list DeviceList) (id : string) : Prop :=
  ∃ m, m ∈ l ∧ ∃ dev, m !! id = Some dev ∧ KHealth dev = Healthy_.
Definition dp_inv {W} (s : dpState W) : Prop :=
  (dp_devices (server s) = ∅ ∨ dp_devices (server s) ∈ announced s) ∧
  (∀ i old new, watchers s !! i = Some {| oldDevices := old; pc := Cache new |} → new ∈ announced s) ∧
  Forall (announced_healthy (announced s)) (granted s).

Lemma announced_mono l l' id : l ⊆ l' → announced_healthy l id → announced_healthy l' id.
Proof. unfold announced_healthy. set_solver. Qed.
Lemma dp_inv_step {W} `{!VendorOps W} (s s' : dpState W) : dp_step s s' → dp_inv s → dp_inv s'.
Proof.
  intros Hst (Hc & Hw & Hg). unfold dp_inv.
  destruct Hst as [s h w e _|s i Hi _|s i old w r Hi _|s i old new Hi|s i old new Hi|s i old new Hi|s reqs resp _ Ha];
    simpl in *.
  - done.
  - split; [done|split; [|done]]. intros j old new [[_ [=]]|[_ H]]%lookup_insert_Some. by eapply Hw.
  - split; [done|split; [|done]]. intros j old' new [[_ H]|[_ H]]%lookup_insert_Some; [|by eapply Hw].
    destruct r as [m|e]; [destruct (devicesEqual old m)|]; done.
  - split; [set_solver|split].
    + intros j old' new' [[_ [= _ <-]]|[_ H]]%lookup_insert_Some; [set_solver|apply Hw in H; set_solver].
    + eapply Forall_impl; [done|]. intros id. apply announced_mono. set_solver.
  - split; [done|split; [|done]]. intros j old' new' [[_ [=]]|[_ H]]%lookup_insert_Some. by eapply Hw.
  - split; [right; by eapply Hw|split; [|done]].
    intros j old' new' [[_ [=]]|[_ H]]%lookup_insert_Some. by eapply Hw.
  - split; [done|split; [done|]]. apply Forall_app. split; [done|].
    apply (allocate_loop_Ok _ _ []) in Ha as [Ha _]. eapply Forall_impl; [exact Ha|].
    intros id (dev & Hdev & Hh). destruct Hc as [Hc|Hc]; [by rewrite Hc, lookup_empty in Hdev|].
    exists (dp_devices (server s)). eauto.
Qed.

(** * Theorems *)

(** C21: however the watch loops, device setup and allocations interleave, every
    device id an allocation granted is a device the server had announced to the
    kubelet, as healthy. *)
Theorem granted_devices_announced {W} `{!VendorOps W} mode (w : W) s id :
  rtc dp_step (dp_init mode w) s → id ∈ granted s → announced_healthy (announced s) id.
Proof.
  intros Hs. assert (dp_inv s) as (_ & _ & Hg).
  { assert (dp_inv (dp_init mode w)) as H0 by (split; [by left|split; [by intros|done]]).
    revert H0. induction Hs; eauto using dp_inv_step. }
  by rewrite Forall_forall in Hg; apply Hg.
Qed.

(** [Allocate] succeeds exactly when every requested id is cached as healthy;
    the variable of a container lists the ids of all the containers up to and
    including it, not only its own. *)
Theorem Allocate_spec dp reqs resp :
  Allocate dp reqs = Ok resp ↔
  Forall (allocatable dp) (mjoin reqs) ∧ resp = device_name <$> prefixes_from [] reqs.
Proof. apply (allocate_loop_Ok dp reqs [] []). Qed.

(** Once the devices are set up, the handler reports one kubelet device per
    distinct vendor device id, healthy whatever health the vendor reported; on
    the host it fails if some id is not a PCI address. *)
Theorem HandlerGetDevices_spec {W} `{!VendorOps W} h (w w' : W) resp :
  setupDevicesDone h = ChanClosed → vp_GetDevices w = (w', Ok resp) →
  (dh_dpuMode h = false → map_Forall (λ _ d, IsValidPCIAddress (PbID d) = true) resp) →
  ∃ m, HandlerGetDevices h w = Some (w', Ok m) ∧
       ∀ id dev, m !! id = Some dev ↔ dev = kdevice id ∧ ∃ k d, resp !! k = Some d ∧ PbID d = id.
Proof.
  intros Hd Hv Hpci. unfold HandlerGetDevices. rewrite Hd, Hv.
  set (m := kdevices ∅ (map_to_list resp).*2).
  exists m. split.
  - do 2 f_equal. apply handler_devices_Ok. split; [|done]. intros Hm. apply Hpci in Hm.
    apply Forall_fmap, Forall_forall. intros [k d] Hin%elem_of_map_to_list. by apply (Hm k).
  - intros id dev. subst m. rewrite kdevices_lookup, lookup_empty.
    assert (id ∈ PbID <$> (map_to_list resp).*2 ↔ ∃ k d, resp !! k = Some d ∧ PbID d = id) as <-; [|naive_solver].
    rewrite list_elem_of_fmap. setoid_rewrite list_elem_of_fmap. split.
    + intros (d & -> & [k d'] & -> & Hin%elem_of_map_to_list). eauto.
    + intros (k & d & Hin & <-). exists d. split; [done|]. exists (k, d). split; [done|by apply elem_of_map_to_list].
Qed.

(** * Witnesses *)
Module DevicePluginDemo.
Definition d (i h : string) : PbDevice := {| PbID := i; PbHealth := h; PbNode := "" |}.
Definition resp : DeviceListResponse := {["a" := d "0000:06:00.1" "unhealthy"; "b" := d "0000:06:00.2" "healthy"]}.
#[export] Instance vendor : VendorOps unit :=
  {| vp_CreateBridgePort _ w := (w, Err (Text "")); vp_DeleteBridgePort _ w := (w, Ok tt);
     vp_CreateNetworkFunction _ _ w := (w, Ok tt); vp_DeleteNetworkFunction _ _ w := (w, Ok tt);
     vp_GetDevices w := (w, Ok resp); vp_SetNumVfs n w := (w, Ok n) |}.
Definition h : dpuDeviceHandler := {| dh_dpuMode := false; setupDevicesDone := ChanClosed |}.
Definition m : DeviceList :=
  {["0000:06:00.1" := kdevice "0000:06:00.1"; "0000:06:00.2" := kdevice "0000:06:00.2"]}.
Definition watching (o : DeviceList) (p : lw_pc) : gmap nat watcher := {[0 := {| oldDevices := o; pc := p |}]}.
Definition at_pc (dp : dpServer) (o : DeviceList) (p : lw_pc) (a : list DeviceList) (g : list string) : dpState unit :=
  Build_dpState dp h tt (watching o p) a g.
Definition s1 : dpState unit := Build_dpState NewDevicePlugin h tt ∅ [] [].
Definition s2 : dpState unit := at_pc NewDevicePlugin ∅ Poll [] [].
Definition s3 : dpState unit := at_pc NewDevicePlugin ∅ (Send m) [] [].
Definition s4 : dpState unit := at_pc NewDevicePlugin ∅ (Cache m) [m] [].
Definition s5 : dpState unit := at_pc (setDeviceCache m NewDevicePlugin) m Poll [m] [].
Definition final : dpState unit := at_pc (setDeviceCache m NewDevicePlugin) m Poll [m] ["0000:06:00.1"].
(** Set up, watch, poll, send, cache, allocate. *)
Lemma device_plugin_run : rtc dp_step (dp_init false tt) final.
Proof.
  apply rtc_l with s1; [exact (dp_setup (dp_init false tt) h tt None eq_refl)|].
  apply rtc_l with s2; [exact (dp_watch s1 0 eq_refl eq_refl)|].
  apply rtc_l with s3; [exact (dp_poll s2 0 ∅ tt (Ok m) eq_refl eq_refl)|].
  apply rtc_l with s4; [exact (dp_send s3 0 ∅ m eq_refl)|].
  apply rtc_l with s5; [exact (dp_cache s4 0 ∅ m eq_refl)|].
  apply rtc_once. exact (dp_allocate s5 [["0000:06:00.1"]] ["0000:06:00.1,"] eq_refl eq_refl).
Qed.
End DevicePluginDemo.
Import DevicePluginDemo.
Lemma granted_devices_announced_witness : announced_healthy [m] "0000:06:00.1".
Proof.
  exact (granted_devices_announced false tt _ "0000:06:00.1" device_plugin_run
           (list_elem_of_here _ _)).
Defined.
Lemma HandlerGetDevices_spec_witness : ∃ l, HandlerGetDevices h tt = Some (tt, Ok l).
Proof.
  destruct (HandlerGetDevices_spec h tt tt resp) as (l & Hl & _);
    [done|done| |by exists l].
  intros _. apply (bool_decide_eq_true_1 (map_Forall _ resp)). reflexivity.
Defined.
