(* ===== verification/GoMonad.v ===== *)
(** Effects of the Go code: a monad of state-passing computations that may panic,
    with the error idioms of the source ([if err != nil { return wrap(err) }],
    [_ = f()], [defer]), the retry loop of sriovutils, and [path/filepath]. *)
From S2P Require Import Prelude Plugin.

#[local] Open Scope stdpp_scope.

(** A call ends with a value or in a run-time panic.  A Go function that returns
    [(A, error)] is an [M W (result A)]; one that returns [error], an [M W (result unit)]. *)
Inductive outcome (A : Type) := Ret (a : A) | Panic.
Arguments Ret {_} _.
Arguments Panic {_}.
Definition M (W A : Type) : Type := W → W * outcome A.

#[export] Instance M_ret {W} : MRet (M W) := λ A a w, (w, Ret a).
#[export] Instance M_bind {W} : MBind (M W) := λ A B k f w,
  match f w with (w, Ret a) => k a w | (w, Panic) => (w, Panic) end.
Definition panic {W A} : M W A := λ w, (w, Panic).
(** A call of the environment that only reads, and one that may act. *)
Definition reads {W A} (f : W → A) : M W A := λ w, (w, Ret (f w)).
Definition writes {W} (f : W → W) : M W (result unit) := λ w, (f w, Ret (Ok tt)).
Definition acts {W A} (f : W → W * A) : M W A := λ w, let '(w, a) := f w in (w, Ret a).

(** A call that answers with an error value. *)
Definition acts_err {W} (f : W → W * option error) : M W (result unit) :=
  e ← acts f; mret (match e with None => Ok tt | Some e => Err e end).

(** [x, err := f(); if err != nil { return h(err) }; k]. *)
Definition try_bind {W A B} (f : M W (result A)) (h : error → error) (k : A → M W (result B)) : M W (result B) :=
  r ← f; match r with Ok a => k a | Err e => mret (Err (h e)) end.
Notation "'call' x ':=' f 'or' h 'in' k" := (try_bind f h (λ x, k))
  (at level 10, x pattern, f at level 200, h at level 200, k at level 200) : go_scope.
Definition ok {W} : M W (result unit) := mret (Ok tt).
(** [_ = f()]. *)
Definition ignore {W A} (f : M W A) : M W unit := _ ← f; mret tt.
(** [if c { f }] for an [f] that may fail. *)
Definition when {W} (c : bool) (f : M W (result unit)) : M W (result unit) := if c then f else ok.
(** [defer func() { if err == nil { cleanup() } }()] over a body that returns whether
    [err] is set; a panic runs it too, with [err] still unset. *)
Definition defer_if_nil {W A} (cleanup : M W unit) (body : M W (bool * A)) : M W A := λ w,
  match body w with
  | (w, Ret (true, a)) => (w, Ret a)
  | (w, Ret (false, a)) => (_ ← cleanup; mret a) w
  | (w, Panic) => (_ ← cleanup; panic) w
  end.
(** [fmt.Errorf(msg + "%v", err)] and its like: the text of the wrapped error is kept,
    the error itself is not. *)
Definition errorf (msg : string) (e : error) : error := Text (msg +:+ Error e).

(** sriovutils.Retry: the sleeps between the attempts do not appear. *)
Fixpoint retry_loop {W} (n : nat) (f : M W (result unit)) (err : result unit) : M W (result unit) :=
  match n with
  | O => mret err
  | S n => r ← f; match r with Ok _ => ok | Err _ => retry_loop n f r end
  end.
Definition Retry {W} (retries : nat) (f : M W (result unit)) : M W (result unit) := retry_loop retries f (Ok tt).

(** * Paths

    [filepath.Clean] on the components of a path, [filepath.Join], [filepath.Base]
    and [filepath.Dir]. *)
Definition clean_step (rooted : bool) (stack : list string) (c : string) : list string :=
  if String.eqb c "" || String.eqb c "." then stack
  else if String.eqb c ".." then
    match stack with
    | top :: rest => if String.eqb top ".." then ".." :: stack else rest
    | [] => if rooted then [] else [".."]
    end
  else c :: stack.
Definition Clean (p : string) : string :=
  let rooted := has_prefix "/" p in
  let body := join "/" (reverse (foldl (clean_step rooted) [] (split_char "/" p))) in
  if rooted then "/" +:+ body else if String.eqb body "" then "." else body.
Definition Join (elems : list string) : string :=
  match filter (λ s, s ≠ "") elems with [] => "" | l => Clean (join "/" l) end.

Example Join_ex1 : Join ["/sys/class/net"; "eth0"; "device"; "/sriov_numvfs"] = "/sys/class/net/eth0/device/sriov_numvfs".
Proof. reflexivity. Qed.
Example Clean_ex1 : Clean "a/b/../../../c/." = "../c".
Proof. reflexivity. Qed.

(** * Lemmas *)

(** A computation with a result that satisfies [P] whenever it does not panic. *)
Definition returns {W A} (f : M W A) (w w' : W) (a : A) : Prop := f w = (w', Ret a).
(** A computation that was evaluated. *)
Lemma ran {W A} (f : M W A) w o : (f w).2 = o → f w = ((f w).1, o).
Proof. intros <-. apply surjective_pairing. Qed.
Lemma bind_returns {W A B} (f : M W A) (k : A → M W B) w w' b :
  returns (f ≫= k) w w' b ↔ ∃ w1 a, returns f w w1 a ∧ returns (k a) w1 w' b.
Proof.
  unfold returns, mbind, M_bind. destruct (f w) as [w1 [a|]]; split.
  - eauto.
  - by intros (? & ? & [= <- <-] & ?).
  - done.
  - by intros (? & ? & ? & _).
Qed.
Lemma bind_run {W A B} (f : M W A) (k : A → M W B) w w' a : f w = (w', Ret a) → (f ≫= k) w = k a w'.
Proof. unfold mbind, M_bind. by intros ->. Qed.
Lemma ret_returns {W A} (a b : A) (w w' : W) : returns (mret a) w w' b ↔ w' = w ∧ b = a.
Proof. unfold returns, mret, M_ret. naive_solver. Qed.
Lemma acts_run {W A} (f : W → W * A) w w' a : f w = (w', a) → acts f w = (w', Ret a).
Proof. unfold acts. by intros ->. Qed.
Lemma acts_run_inv {W A} (f : W → W * A) w w' a : returns (acts f) w w' a → f w = (w', a).
Proof. unfold returns, acts. destruct (f w). naive_solver. Qed.
Lemma acts_err_ok {W} (f : W → W * option error) w w' : f w = (w', None) → acts_err f w = (w', Ret (Ok tt)).
Proof. intros H. unfold acts_err. by rewrite (bind_run _ _ _ _ _ (acts_run _ _ _ _ H)). Qed.
Lemma acts_err_inv {W} (f : W → W * option error) w w' : returns (acts_err f) w w' (Ok tt) → f w = (w', None).
Proof.
  unfold acts_err. intros (w1 & [e|] & Hf & H)%bind_returns; apply ret_returns in H as [-> H]; [done|]. by apply acts_run_inv.
Qed.
Lemma call_run {W A B} (f : M W (result A)) h (k : A → M W (result B)) w w' a :
  f w = (w', Ret (Ok a)) → try_bind f h k w = k a w'.
Proof. unfold try_bind. intros H. by rewrite (bind_run _ _ _ _ _ H). Qed.
Lemma call_returns {W A B} (f : M W (result A)) h (k : A → M W (result B)) w w' r :
  returns (try_bind f h k) w w' r ↔
  (∃ w1 a, returns f w w1 (Ok a) ∧ returns (k a) w1 w' r) ∨ (∃ e, returns f w w' (Err e) ∧ r = Err (h e)).
Proof.
  unfold try_bind. rewrite bind_returns. split.
  - intros (w1 & [a|e] & Hf & Hk); [left; eauto|]. apply ret_returns in Hk as [-> ->]. eauto.
  - intros [(w1 & a & Hf & Hk)|(e & Hf & ->)]; [by exists w1, (Ok a)|]. exists w', (Err e). by rewrite ret_returns.
Qed.
Lemma ignore_returns {W A} (f : M W A) w w' u : returns (ignore f) w w' u ↔ ∃ a, returns f w w' a.
Proof.
  unfold ignore. rewrite bind_returns. split.
  - intros (w1 & a & Hf & Hr). apply ret_returns in Hr as [-> _]. eauto.
  - intros [a Hf]. exists w', a. split; [done|]. rewrite ret_returns. by destruct u.
Qed.

(** What a computation leaves alone, whatever it returns. *)
Definition preserves {W A X} (g : W → X) (f : M W A) : Prop := ∀ w, g (f w).1 = g w.
Lemma preserves_returns {W A X} (g : W → X) (f : M W A) w w' a :
  preserves g f → returns f w w' a → g w' = g w.
Proof. unfold returns. intros Hp H. specialize (Hp w). by rewrite H in Hp. Qed.
Lemma preserves_ret {W A X} (g : W → X) (a : A) : preserves g (mret a : M W A).
Proof. done. Qed.
Lemma preserves_panic {W A X} (g : W → X) : preserves g (panic : M W A).
Proof. done. Qed.
Lemma preserves_bind {W A B X} (g : W → X) (f : M W A) (k : A → M W B) :
  preserves g f → (∀ a, preserves g (k a)) → preserves g (f ≫= k).
Proof.
  intros Hf Hk w. unfold mbind, M_bind. specialize (Hf w). destruct (f w) as [w1 [a|]]; simpl in *; [|done].
  by rewrite Hk.
Qed.
Lemma preserves_call {W A B X} (g : W → X) (f : M W (result A)) h (k : A → M W (result B)) :
  preserves g f → (∀ a, preserves g (k a)) → preserves g (try_bind f h k).
Proof. intros Hf Hk. apply preserves_bind; [done|]. intros [a|e]; [auto|done]. Qed.
Lemma preserves_when {W X} (g : W → X) c f : preserves g f → preserves g (when c f : M W _).
Proof. by destruct c. Qed.
Lemma preserves_ignore {W A X} (g : W → X) (f : M W A) : preserves g f → preserves g (ignore f).
Proof. intros Hf. by apply preserves_bind. Qed.
Lemma preserves_reads {W A X} (g : W → X) (f : W → A) : preserves g (reads f).
Proof. done. Qed.
Lemma preserves_retry {W X} (g : W → X) n f : preserves g f → preserves g (Retry n f : M W _).
Proof.
  intros Hf. unfold Retry. generalize (Ok tt). induction n as [|n IH]; intros e; [done|].
  apply preserves_bind; [done|]. intros [[]|e']; [done|apply IH].
Qed.
Lemma preserves_acts {W A X} (g : W → X) (f : W → W * A) : (∀ w, g (f w).1 = g w) → preserves g (acts f).
Proof. intros H w. unfold acts. specialize (H w). by destruct (f w). Qed.
Lemma preserves_acts_err {W X} (g : W → X) (f : W → W * option error) : (∀ w, g (f w).1 = g w) → preserves g (acts_err f).
Proof. intros H. apply preserves_bind; [by apply preserves_acts|done]. Qed.
Create HintDb preserves discriminated.
#[export] Hint Resolve preserves_ret preserves_panic preserves_bind preserves_call preserves_when
  preserves_ignore preserves_reads preserves_retry : preserves.
(** Goes through a computation, up to the calls the hints know. *)
Ltac preserve := repeat first
  [ solve [auto 1 with preserves] | progress intros | apply preserves_call | apply preserves_bind
  | apply preserves_when | apply preserves_ignore | apply preserves_retry
  | match goal with |- preserves _ (match ?x with _ => _ end) => destruct x end | done ].
(** A relation between the states before and after a computation that returns. *)
Definition steps_by {W A} (R : W → W → Prop) (f : M W A) : Prop := ∀ w w' a, returns f w w' a → R w w'.
Section Steps.
Context {W : Type} (R : W → W → Prop) `{!PreOrder R}.
Lemma steps_ret {A} (a : A) : steps_by R (mret a).
Proof. by intros v v' b [-> _]%ret_returns. Qed.
Lemma steps_panic {A} : steps_by R (panic : M W A).
Proof. by intros v v' a. Qed.
Lemma steps_bind {A B} (f : M W A) (k : A → M W B) : steps_by R f → (∀ a, steps_by R (k a)) → steps_by R (f ≫= k).
Proof. intros Hf Hk v v' b (v1 & a & H1 & H2)%bind_returns. etrans; [by eapply Hf|by eapply Hk]. Qed.
Lemma steps_call {A B} (f : M W (result A)) h (k : A → M W (result B)) :
  steps_by R f → (∀ a, steps_by R (k a)) → steps_by R (try_bind f h k).
Proof. intros Hf Hk. apply steps_bind; [done|]. intros [a|e]; [done|apply steps_ret]. Qed.
Lemma steps_reads {A} (f : W → A) : steps_by R (reads f).
Proof. by intros w w' a [= <- _]. Qed.
Lemma steps_acts {A} (f : W → W * A) : (∀ w, R w (f w).1) → steps_by R (acts f).
Proof. intros Hf w w' a H%acts_run_inv. specialize (Hf w). by rewrite H in Hf. Qed.
Lemma steps_acts_err (f : W → W * option error) : (∀ w, R w (f w).1) → steps_by R (acts_err f).
Proof. intros Hf. apply steps_bind; [by apply steps_acts|]. intros e. apply steps_ret. Qed.
Lemma steps_ignore {A} (f : M W A) : steps_by R f → steps_by R (ignore f).
Proof. intros Hf. apply steps_bind; [done|]. intros a. apply steps_ret. Qed.
End Steps.

(** A computation keeps [I] and its result satisfies [Q]. *)
Definition guards {W A} (I : W → Prop) (f : M W A) (Q : A → Prop) : Prop := ∀ w w' a, I w → returns f w w' a → I w' ∧ Q a.
Definition any {A} (a : A) : Prop := True.
(** [Q] of a value that is returned without an error. *)
Definition when_ok {A} (Q : A → Prop) (r : result A) : Prop := match r with Ok a => Q a | Err _ => True end.
Section Guards.
Context {W : Type} (I : W → Prop).
Lemma guards_ret {A} (a : A) (Q : A → Prop) : Q a → guards I (mret a) Q.
Proof. by intros HQ w w' b HI [-> ->]%ret_returns. Qed.
Lemma guards_panic {A} (Q : A → Prop) : guards I panic Q.
Proof. by intros w w' b HI. Qed.
Lemma guards_bind {A B} (f : M W A) (k : A → M W B) P Q :
  guards I f P → (∀ a, P a → guards I (k a) Q) → guards I (f ≫= k) Q.
Proof. intros Hf Hk w w' b HI (w1 & a & [H1 Ha]%Hf & H2)%bind_returns; [|done]. by eapply Hk. Qed.
Lemma guards_call {A B} (f : M W (result A)) h (k : A → M W (result B)) P Q :
  guards I f (when_ok P) → (∀ a, P a → guards I (k a) Q) → (∀ e, Q (Err e)) → guards I (try_bind f h k) Q.
Proof. intros Hf Hk He. eapply guards_bind; [done|]. intros [a|e] Ha; [by apply Hk|by apply guards_ret]. Qed.
Lemma guards_weaken {A} (f : M W A) (P Q : A → Prop) : guards I f P → (∀ a, P a → Q a) → guards I f Q.
Proof. intros Hf HPQ w w' a HI H. destruct (Hf _ _ _ HI H). auto. Qed.
Lemma guards_ignore {A} (f : M W A) : guards I f any → guards I (ignore f) any.
Proof. intros Hf. eapply guards_bind; [done|]. intros a _. by apply guards_ret. Qed.
Lemma guards_ok : guards I ok any.
Proof. by apply guards_ret. Qed.
Lemma guards_any {A} (f : M W A) P : guards I f P → guards I f any.
Proof. intros Hf. by eapply guards_weaken. Qed.
Lemma guards_bind_any {A B} (f : M W A) (k : A → M W B) : guards I f any → (∀ a, guards I (k a) any) → guards I (f ≫= k) any.
Proof. intros Hf Hk. by eapply guards_bind. Qed.
Lemma guards_call_any {A B} (f : M W (result A)) h (k : A → M W (result B)) :
  guards I f any → (∀ a, guards I (k a) any) → guards I (try_bind f h k) any.
Proof. intros Hf Hk. apply guards_bind_any; [done|]. intros [a|e]; [done|by apply guards_ret]. Qed.
End Guards.
(** Total correctness: the computation returns, and what it returns satisfies [Q]. *)
Definition wp {W A} (f : M W A) (Q : A → W → Prop) (w : W) : Prop := ∃ w' a, returns f w w' a ∧ Q a w'.
Section Wp.
Context {W : Type}.
Lemma wp_mono {A} (f : M W A) (P Q : A → W → Prop) w : wp f P w → (∀ a w', P a w' → Q a w') → wp f Q w.
Proof. intros (w' & a & H & HP) HPQ. exists w', a. auto. Qed.
Lemma wp_ret {A} (a : A) (Q : A → W → Prop) w : Q a w → wp (mret a) Q w.
Proof. intros HQ. exists w, a. by split. Qed.
Lemma wp_bind {A B} (f : M W A) (k : A → M W B) Q w : wp f (λ a, wp (k a) Q) w → wp (f ≫= k) Q w.
Proof. intros (w1 & a & H1 & w2 & b & H2 & HQ). exists w2, b. split; [|done]. apply bind_returns. eauto. Qed.
Lemma wp_call {A B} (f : M W (result A)) h (k : A → M W (result B)) Q w :
  wp f (λ r w', match r with Ok a => wp (k a) Q w' | Err e => Q (Err (h e)) w' end) w → wp (try_bind f h k) Q w.
Proof. intros H. apply wp_bind. eapply wp_mono; [exact H|]. intros [a|e] w' HQ; [done|by apply wp_ret]. Qed.
Lemma wp_acts {A} (f : W → W * A) Q w : Q (f w).2 (f w).1 → wp (acts f) Q w.
Proof. intros HQ. exists (f w).1, (f w).2. split; [|done]. unfold returns, acts. by destruct (f w). Qed.
Lemma wp_acts_err (f : W → W * option error) Q w :
  Q (match (f w).2 with None => Ok tt | Some e => Err e end) (f w).1 → wp (acts_err f) Q w.
Proof. intros HQ. apply wp_bind, wp_acts. by apply wp_ret. Qed.
End Wp.
(** A computation that never panics. *)
Definition total {W A} (f : M W A) : Prop := ∀ w, ∃ w' a, returns f w w' a.
Section Total.
Context {W : Type}.
Lemma total_ret {A} (a : A) : total (mret a : M W A).
Proof. intros w. by exists w, a. Qed.
Lemma total_bind {A B} (f : M W A) (k : A → M W B) : total f → (∀ a, total (k a)) → total (f ≫= k).
Proof.
  intros Hf Hk w. destruct (Hf w) as (w1 & a & H1). destruct (Hk a w1) as (w2 & b & H2). exists w2, b.
  apply bind_returns. eauto.
Qed.
Lemma total_call {A B} (f : M W (result A)) h (k : A → M W (result B)) :
  total f → (∀ a, total (k a)) → total (try_bind f h k).
Proof. intros Hf Hk. apply total_bind; [done|]. intros [a|e]; [done|apply total_ret]. Qed.
Lemma total_acts {A} (f : W → W * A) : total (acts f).
Proof. intros w. exists (f w).1, (f w).2. unfold returns, acts. by destruct (f w). Qed.
Lemma total_acts_err (f : W → W * option error) : total (acts_err f).
Proof. apply total_bind; [apply total_acts|]. intros e. apply total_ret. Qed.
Lemma total_writes (f : W → W) : total (writes f).
Proof. intros w. by exists (f w), (Ok tt). Qed.
End Total.
Create HintDb guards discriminated.
#[export] Hint Resolve guards_panic guards_ok : guards.
#[export] Hint Extern 1 (guards _ (mret _) any) => (by apply guards_ret) : guards.
(** Goes through a computation of which only the invariant matters, up to the calls the hints know. *)
Ltac watch := repeat first
  [ solve [eauto with guards]
  | match goal with |- ∀ _, _ => intros end
  | match goal with
    | |- guards _ (try_bind _ _ _) any => apply guards_call_any
    | |- guards _ (ignore _) any => apply guards_ignore
    | |- guards _ (mbind _ _) any => apply guards_bind_any
    | |- guards _ (match ?x with _ => _ end) any => destruct x
    end ].
Create HintDb steps discriminated.
#[export] Hint Resolve steps_ret steps_panic steps_reads : steps.
(** Goes through a computation, up to the calls the hints know. *)
Ltac relate := repeat first
  [ match goal with |- PreOrder _ => apply _ end | solve [eauto with steps typeclass_instances]
  | match goal with |- ∀ _, _ => intros end
  | match goal with
    | |- steps_by _ (try_bind _ _ _) => apply steps_call
    | |- steps_by _ (ignore _) => apply steps_ignore
    | |- steps_by _ (mbind _ _) => apply steps_bind
    | |- steps_by _ (acts _) => apply steps_acts
    | |- steps_by _ (acts_err _) => apply steps_acts_err
    | |- steps_by _ (match ?x with _ => _ end) => destruct x
    end ].
(** Inverts a computation known to return; the name is that of the first part. *)
Tactic Notation "inv_call" hyp(H) "as" simple_intropattern(P) :=
  apply call_returns in H;
  let w := fresh "w" in let a := fresh "a" in let E := fresh "E" in
  destruct H as [(w & a & P & H)|(a & P & E)]; [|try (by simplify_eq); subst].
Tactic Notation "inv_bind" hyp(H) "as" simple_intropattern(P) :=
  apply bind_returns in H;
  let w := fresh "w" in let a := fresh "a" in
  destruct H as (w & a & P & H).
Ltac inv_ret H :=
  let E := fresh "E" in apply ret_returns in H as [-> E];
  first [discriminate E | injection E; clear E; intros; subst | subst | idtac].
