(* ===== verification/CniTypes.v ===== *)
(** The CNI vocabulary: dpu-cni/pkgs/cnitypes (requests, the network configuration,
    the normalization of device ids) and dpu-cni/pkgs/sriovtypes.  The regular
    expressions of the source are run by a matcher for the class they belong to:
    anchored sequences of single characters and non-empty runs. *)
From S2P Require Import Prelude Plugin.

(** * Regular expressions *)

(** One character of a class, or one or more. *)
Inductive item := One (f : ascii → bool) | Many (f : ascii → bool).
Fixpoint rmatch (r : list item) (s : string) : bool :=
  match s with
  | EmptyString => match r with [] => true | _ => false end
  | String c s' =>
      match r with
      | One f :: r' => f c && rmatch r' s'
      | Many f :: r' => f c && (rmatch r' s' || rmatch r s')
      | [] => false
      end
  end.

Definition in_range (lo hi : nat) (c : ascii) : bool :=
  ((lo <=? Ascii.nat_of_ascii c) && (Ascii.nat_of_ascii c <=? hi))%nat.
Definition is_digit : ascii → bool := in_range 48 57.
Definition is_hex_lower (c : ascii) : bool := is_digit c || in_range 97 102 c.
(** [[0-9a-f]] under [(?i)]. *)
Definition is_hex (c : ascii) : bool := is_hex_lower c || in_range 65 70 c.
Definition is_octal : ascii → bool := in_range 48 55.
Definition is_word (c : ascii) : bool :=
  is_digit c || in_range 97 122 c || in_range 65 90 c || Ascii.eqb c "_".
Definition is_char (a c : ascii) : bool := Ascii.eqb c a.
Definition any_char (c : ascii) : bool := negb (Ascii.eqb c (Ascii.ascii_of_nat 10)).
Definition not_dot (c : ascii) : bool := negb (Ascii.eqb c ".").
Definition colon_or_dash (c : ascii) : bool := Ascii.eqb c ":" || Ascii.eqb c "-".
Definition dot_or_dash (c : ascii) : bool := Ascii.eqb c "." || Ascii.eqb c "-".
Definition ones (n : nat) (f : ascii → bool) : list item := replicate n (One f).

Definition pciAddressPattern : list item :=
  ones 4 is_hex ++ [One colon_or_dash] ++ ones 2 is_hex ++ [One colon_or_dash] ++ ones 2 is_hex
  ++ [One dot_or_dash; One is_octal].
Definition shortPciAddressPattern : list item :=
  ones 2 is_hex ++ [One colon_or_dash] ++ ones 2 is_hex ++ [One dot_or_dash; One is_octal].
(** The raw string [^[^.]+\\.[^.]+\\.[^.]+$]: each [\\.] is a backslash and then any character. *)
Definition backslash : ascii := Ascii.ascii_of_nat 92.
Definition auxDevicePattern : list item :=
  [Many not_dot; One (is_char backslash); One any_char; Many not_dot;
   One (is_char backslash); One any_char; Many not_dot].
(** sriovtypes.go. *)
Definition rePciDeviceName : list item :=
  ones 4 is_hex_lower ++ [One (is_char ":")] ++ ones 2 is_hex_lower
  ++ [One (is_char ":"); One (λ c, is_char "0" c || is_char "1" c); One is_hex_lower; One (is_char "."); One is_octal].
Definition reAuxDeviceName : list item :=
  [Many is_word; One any_char; Many is_word; One any_char; Many is_digit].
Definition IsPCIDeviceName (deviceID : string) : bool := rmatch rePciDeviceName deviceID.
Definition IsAuxDeviceName (deviceID : string) : bool := rmatch reAuxDeviceName deviceID.

(** * Device ids *)

Inductive device_id_type := DeviceIDTypeUnknown | DeviceIDTypePCI | DeviceIDTypeNetdev | DeviceIDTypeAux.
#[export] Instance device_id_type_eq_dec : EqDecision device_id_type.
Proof. solve_decision. Defined.

Definition slice (i n : nat) (s : string) : string := take_string n (drop_string i s).
(** The groups of a match are at fixed places: both PCI patterns have fixed width. *)
Definition NormalizeDeviceID (raw : string) : result (string * device_id_type) :=
  let t := trim_space raw in
  if String.eqb t "" then Ok ("", DeviceIDTypeUnknown)
  else if rmatch pciAddressPattern t then
    Ok (to_lower (slice 0 4 t) +:+ ":" +:+ to_lower (slice 5 2 t) +:+ ":" +:+ to_lower (slice 8 2 t)
          +:+ "." +:+ to_lower (slice 11 1 t), DeviceIDTypePCI)
  else if rmatch shortPciAddressPattern t then
    Ok ("0000:" +:+ to_lower (slice 0 2 t) +:+ ":" +:+ to_lower (slice 3 2 t) +:+ "." +:+ to_lower (slice 6 1 t),
        DeviceIDTypePCI)
  else if contains ":" t then Err (Text ("unrecognized PCI address format: " +:+ t))
  else if rmatch auxDevicePattern t then Ok (t, DeviceIDTypeAux)
  else Ok (t, DeviceIDTypeNetdev).

(** * Configuration *)

Definition Proto8021q : string := "802.1q".
Definition Proto8021ad : string := "802.1ad".

Record VfState := mkVfState {
  HostIFName : string; VfSpoofChk : bool; VfTrust : bool; AdminMAC : string; EffectiveMAC : string;
  VfVlan : Z; VfVlanQoS : Z; VfVlanProto : Z; VfMinTxRate : Z; VfMaxTxRate : Z; VfLinkState : Z }.
#[export] Instance VfState_eta : Eta VfState := λ v,
  mkVfState (HostIFName v) (VfSpoofChk v) (VfTrust v) (AdminMAC v) (EffectiveMAC v)
    (VfVlan v) (VfVlanQoS v) (VfVlanProto v) (VfMinTxRate v) (VfMaxTxRate v) (VfLinkState v).
Definition zero_VfState : VfState := mkVfState "" false false "" "" 0 0 0 0 0 0.

(** [NetConf]: of the embedded [types.NetConf] the version, the name and the IPAM
    type; the rest as in the source. *)
Record NetConf := mkNetConf {
  CNIVersion : string; ConfName : string; IPAMType : string; OrigVfState : VfState; DPDKMode : bool;
  Master : string; MAC : string; Vlan : option Z; VlanQoS : option Z; VlanProto : option string;
  ConfDeviceID : string; DeviceIDType : device_id_type; VFID : Z; MinTxRate : option Z;
  MaxTxRate : option Z; SpoofChk : string; Trust : string; LinkState : string; RuntimeMac : string }.
#[export] Instance NetConf_eta : Eta NetConf := λ n,
  mkNetConf (CNIVersion n) (ConfName n) (IPAMType n) (OrigVfState n) (DPDKMode n)
    (Master n) (MAC n) (Vlan n) (VlanQoS n) (VlanProto n)
    (ConfDeviceID n) (DeviceIDType n) (VFID n) (MinTxRate n)
    (MaxTxRate n) (SpoofChk n) (Trust n) (LinkState n) (RuntimeMac n).
Definition zero_NetConf : NetConf :=
  mkNetConf "" "" "" zero_VfState false "" "" None None None "" DeviceIDTypeUnknown 0 None None "" "" "" "".

(** What is left of a configuration written with [json.Marshal] and read back: the
    fields tagged [json:"-"] come back as zero values. *)
Definition json_roundtrip (n : NetConf) : NetConf :=
  n <| DPDKMode := false |> <| DeviceIDType := DeviceIDTypeUnknown |>.

(** A request from the CNI shim: its environment and the configuration it read on
    standard input. *)
Record Request := { Env : gmap string string; Config : string }.
Record PodRequest := mkPodRequest {
  Command : string; PodNamespace : string; PodName : string; PodUID : string; ContainerId : string;
  Netns : string; IfName : string; Path : string; CNIConf : NetConf; CNIReq : Request; ReqNetName : string }.
#[export] Instance PodRequest_eta : Eta PodRequest := λ r,
  mkPodRequest (Command r) (PodNamespace r) (PodName r) (PodUID r) (ContainerId r)
    (Netns r) (IfName r) (Path r) (CNIConf r) (CNIReq r) (ReqNetName r).
Definition CNIAdd : string := "ADD".
Definition CNIDel : string := "DEL".
(** An interface of a CNI result, and the result with the addresses IPAM gave. *)
Record CniInterface := { IfaceName : string; IfaceMac : string; IfaceSandbox : string }.
Record CniResult := { ResCNIVersion : string; Interfaces : list CniInterface; IPs : list (list Z) }.

(** * Lemmas *)

#[local] Arguments is_hex_lower : simpl never.
#[local] Arguments is_hex : simpl never.
#[local] Arguments is_octal : simpl never.
#[local] Arguments lower_ascii : simpl never.
#[local] Arguments is_space : simpl never.
Lemma rmatch_one f r s : rmatch (One f :: r) s = true ↔ ∃ c s', s = String c s' ∧ f c = true ∧ rmatch r s' = true.
Proof.
  split; [|by intros (c & s' & -> & Hf & Hr); simpl; rewrite Hf, Hr].
  destruct s as [|c s]; simpl; [done|]. rewrite andb_true_iff. intros [??]. by exists c, s.
Qed.
Lemma rmatch_nil s : rmatch [] s = true ↔ s = "".
Proof. by destruct s. Qed.
(** Taking a match of a fixed-width pattern apart. *)
Ltac take_apart H :=
  cbn [ones replicate app pciAddressPattern shortPciAddressPattern] in H;
  repeat (apply rmatch_one in H; let c := fresh "c" in let s := fresh "s" in
          let Hc := fresh "Hc" in destruct H as (c & s & -> & Hc & H));
  apply rmatch_nil in H as ->.

(** The normal form: four, two and two lower-case hex digits and a function number. *)
Definition canonicalPattern : list item :=
  ones 4 is_hex_lower ++ [One (is_char ":")] ++ ones 2 is_hex_lower ++ [One (is_char ":")]
  ++ ones 2 is_hex_lower ++ [One (is_char "."); One is_octal].
Definition is_canonical_pci (id : string) : bool := rmatch canonicalPattern id.

Lemma class_impl (f g : ascii → bool) :
  (∀ c, implb (f c) (g c) = true) → ∀ c, f c = true → g c = true.
Proof. intros H c Hf. specialize (H c). by rewrite Hf in H. Qed.
Lemma lower_hex : ∀ c, is_hex c = true → is_hex_lower (lower_ascii c) = true.
Proof. apply (class_impl is_hex (λ c, is_hex_lower (lower_ascii c))). all_ascii. Qed.
Lemma lower_octal : ∀ c, is_octal c = true → is_octal (lower_ascii c) = true.
Proof. apply (class_impl is_octal (λ c, is_octal (lower_ascii c))). all_ascii. Qed.
Lemma hex_lower_fixed : ∀ c, is_hex_lower c = true → lower_ascii c = c.
Proof.
  intros c Hc. apply Ascii.eqb_eq. revert c Hc.
  apply (class_impl is_hex_lower (λ c, Ascii.eqb (lower_ascii c) c)). all_ascii.
Qed.
Lemma octal_fixed : ∀ c, is_octal c = true → lower_ascii c = c.
Proof.
  intros c Hc. apply Ascii.eqb_eq. revert c Hc.
  apply (class_impl is_octal (λ c, Ascii.eqb (lower_ascii c) c)). all_ascii.
Qed.
Lemma hex_lower_hex : ∀ c, is_hex_lower c = true → is_hex c = true.
Proof. apply class_impl. all_ascii. Qed.
Lemma hex_no_space : ∀ c, is_hex c = true → negb (is_space c) = true.
Proof. apply (class_impl is_hex (λ c, negb (is_space c))). all_ascii. Qed.
Lemma octal_no_space : ∀ c, is_octal c = true → negb (is_space c) = true.
Proof. apply (class_impl is_octal (λ c, negb (is_space c))). all_ascii. Qed.

Lemma NormalizeDeviceID_pci raw id :
  NormalizeDeviceID raw = Ok (id, DeviceIDTypePCI) → is_canonical_pci id = true.
Proof.
  unfold NormalizeDeviceID. generalize (trim_space raw). intros t.
  destruct (String.eqb t ""); [done|].
  destruct (rmatch pciAddressPattern t) eqn:H1; [|destruct (rmatch shortPciAddressPattern t) eqn:H2].
  - take_apart H1. intros [= <-]. unfold is_canonical_pci. simpl.
    repeat (rewrite lower_hex by done; simpl). by rewrite lower_octal.
  - take_apart H2. intros [= <-]. unfold is_canonical_pci. simpl.
    repeat (rewrite lower_hex by done; simpl). by rewrite lower_octal.
  - destruct (contains ":" t); [done|]. by destruct (rmatch auxDevicePattern t).
Qed.
Lemma NormalizeDeviceID_fixed id :
  is_canonical_pci id = true → NormalizeDeviceID id = Ok (id, DeviceIDTypePCI).
Proof.
  unfold is_canonical_pci, canonicalPattern. intros H. take_apart H.
  repeat match goal with Hc : is_char _ _ = true |- _ => apply Ascii.eqb_eq in Hc as -> end.
  unfold NormalizeDeviceID, trim_space.
  rewrite trim_func_id; simpl.
  - repeat (rewrite hex_lower_hex by done; simpl).
    repeat match goal with Hc : is_octal _ = true |- _ => rewrite !Hc end. simpl.
    unfold slice, to_lower. simpl. repeat (rewrite hex_lower_fixed by done). by rewrite octal_fixed.
  - repeat (rewrite hex_no_space by (by apply hex_lower_hex); simpl). by rewrite octal_no_space.
Qed.

(** A match of a pattern holds every character the pattern requires. *)
Lemma rmatch_needs a f r s :
  One f ∈ r → (∀ c, f c = true → c = a) → rmatch r s = true → count_char a s ≠ 0.
Proof.
  intros Hin Ha. revert r Hin. induction s as [|c s IH]; intros r Hin Hm.
  { destruct r; [by apply elem_of_nil in Hin|done]. }
  destruct r as [|[g|g] r]; simpl in *; [done|..].
  - apply andb_prop in Hm as [Hg Hm]. apply elem_of_cons in Hin as [[= ->]|Hin]; [|specialize (IH r Hin Hm); lia].
    rewrite (Ha c Hg), Ascii.eqb_refl. lia.
  - apply andb_prop in Hm as [_ Hm].
    apply orb_prop in Hm as [Hm|Hm]; [|specialize (IH (Many g :: r) Hin Hm); lia].
    apply elem_of_cons in Hin as [[=]|Hin]. specialize (IH r Hin Hm). lia.
Qed.
Lemma trim_left_count f a s : (count_char a (trim_left f s) ≤ count_char a s)%nat.
Proof. induction s as [|c s IH]; simpl; [done|]. destruct (f c); simpl; lia. Qed.
Lemma trim_right_count f a s : (count_char a (trim_right f s) ≤ count_char a s)%nat.
Proof.
  induction s as [|c s IH]; simpl; [done|]. destruct (trim_right f s) as [|d t]; simpl in *; [|lia].
  destruct (f c); simpl; lia.
Qed.
Lemma trim_space_count a s : (count_char a (trim_space s) ≤ count_char a s)%nat.
Proof. unfold trim_space, trim_func. etransitivity; [apply trim_right_count|apply trim_left_count]. Qed.

(** * Theorems *)

(** A device id classified as a PCI address is in normal form (long, lower
    case, [dddd:bb:dd.f]), and normalizing it again changes nothing. *)
Theorem NormalizeDeviceID_canonical raw id :
  NormalizeDeviceID raw = Ok (id, DeviceIDTypePCI) →
  is_canonical_pci id = true ∧ NormalizeDeviceID id = Ok (id, DeviceIDTypePCI).
Proof. intros H%NormalizeDeviceID_pci. split; [done|]. by apply NormalizeDeviceID_fixed. Qed.

(** Only an id that holds a backslash is ever classified as an auxiliary
    device: the names the kernel gives auxiliary devices, such as
    [mlx5_core.sf.2], hold none and are taken for network devices. *)
Theorem NormalizeDeviceID_aux_backslash raw id :
  NormalizeDeviceID raw = Ok (id, DeviceIDTypeAux) → count_char backslash raw ≠ 0.
Proof.
  unfold NormalizeDeviceID. intros H.
  assert (rmatch auxDevicePattern (trim_space raw) = true) as Hm by (repeat case_match; simplify_eq/=; done).
  apply (rmatch_needs backslash (is_char backslash)) in Hm; [|by right; left|by intros c ->%Ascii.eqb_eq].
  pose proof (trim_space_count backslash raw). lia.
Qed.

(** * Witnesses *)
Lemma NormalizeDeviceID_canonical_witness : is_canonical_pci "0000:06:ab.1" = true.
Proof. exact (proj1 (NormalizeDeviceID_canonical " 06-AB-1" "0000:06:ab.1" eq_refl)). Defined.
Lemma NormalizeDeviceID_aux_backslash_witness : count_char backslash "a\xb\yc" ≠ 0.
Proof. exact (NormalizeDeviceID_aux_backslash "a\xb\yc" "a\xb\yc" eq_refl). Defined.
