(* ===== verification/SriovUtils.v ===== *)
(** dpu-cni/pkgs/sriovutils: looking virtual functions up in sysfs, the cached
    configurations and the PCI allocation files on disk, and the retried MAC
    address changes.

    The file system the kernel serves is the record [hostfs]; the netlink library,
    network namespaces and the IPAM plugins are the operations of the class
    [NetOps].  The two directories this package owns are modelled as maps, with an
    operating system that may refuse any access ([os_fault]). *)
From S2P Require Import Prelude Plugin Net Scan GoMonad CniTypes.
#[local] Open Scope stdpp_scope.

(** * Reading sysfs *)

(** On top of [sysfs]: [os.Lstat] (answering whether the file is a symbolic link),
    [filepath.EvalSymlinks] and [os.Stat]. *)
Record hostfs := {
  base_fs : sysfs;
  Lstat : string → result bool;
  EvalSymlinks : string → result string;
  Stat : string → option error }.

Definition sriovConfigured : string := "/sriov_numvfs".
Definition NetDirectory : string := "/sys/class/net".
Definition SysBusPci : string := "/sys/bus/pci/devices".
Definition UserspaceDrivers : list string := ["vfio-pci"; "uio_pci_generic"; "igb_uio"].

Section Sysfs.
Context (fs : hostfs).
Abbreviation readFile := (ReadFile (base_fs fs)).
Abbreviation readDir := (ReadDir (base_fs fs)).
Abbreviation readlink := (Readlink (base_fs fs)).

Definition GetPciFromNetDev (ifName : string) : result string :=
  match EvalSymlinks fs (Join [NetDirectory; ifName; "device"]) with
  | Err e => Err (errorf ("failed to find PCI address for net device " +:+ ifName +:+ ": ") e)
  | Ok pciAddr => Ok (path_base pciAddr)
  end.

Definition GetSriovNumVfs (ifName : string) : result Z :=
  let sriovFile := Join [NetDirectory; ifName; "device"; sriovConfigured] in
  match Lstat fs sriovFile with
  | Err e => Err (errorf ("failed to open the sriov_numfs of device " +:+ quote ifName +:+ ": ") e)
  | Ok _ =>
      match readFile sriovFile with
      | Err e => Err (errorf ("failed to read the sriov_numfs of device " +:+ quote ifName +:+ ": ") e)
      | Ok data =>
          if String.eqb data "" then Err (Text ("no data in the file " +:+ quote sriovFile)) else
          match atoi (trim_space data) with
          | None => Err (Text ("failed to convert sriov_numfs(byte value) to int of device " +:+ quote ifName))
          | Some n => Ok n
          end
      end
  end.

(** The virtual function a [virtfn] entry of the PF links to, if it can be read. *)
Definition virtfn (pfName : string) (vf : nat) : option string :=
  let vfDir := Join [NetDirectory; pfName; "device"; "virtfn" +:+ itoa (Z.of_nat vf)] in
  match Lstat fs vfDir with
  | Err _ => None
  | Ok _ => match readlink vfDir with Err _ => None | Ok pciinfo => Some (path_base pciinfo) end
  end.
(** [for vf := i; vf < i + n; vf++]. *)
Fixpoint vfid_loop (addr pfName : string) (i n : nat) : option nat :=
  match n with
  | O => None
  | S n => if bool_decide (virtfn pfName i = Some addr) then Some i else vfid_loop addr pfName (S i) n
  end.
Definition GetVfid (addr pfName : string) : result Z :=
  let? vfTotal := GetSriovNumVfs pfName in
  match vfid_loop addr pfName 0 (Z.to_nat vfTotal) with
  | Some vf => Ok (Z.of_nat vf)
  | None => Err (Text ("unable to get VF ID with PF: " +:+ pfName +:+ " and VF pci address " +:+ addr))
  end.

Definition GetPfName (vf : string) : result string :=
  let pfSymLink := Join [SysBusPci; vf; "physfn"; "net"] in
  let? _ := Lstat fs pfSymLink in
  let? files := readDir pfSymLink in
  match files with
  | [] => Err (Text "PF network device not found")
  | f :: _ => Ok (trim_space (EntryName f))
  end.

Definition GetPciAddress (ifName : string) (vf : Z) : result string :=
  let vfDir := Join [NetDirectory; ifName; "device"; "virtfn" +:+ itoa vf] in
  let what := "virtfn" +:+ itoa vf +:+ " dir of the device " +:+ quote ifName in
  match Lstat fs vfDir with
  | Err e => Err (errorf ("can't get the symbolic link of " +:+ what +:+ ": ") e)
  | Ok symlink =>
      if negb symlink then Err (Text ("no symbolic link for the " +:+ what)) else
      match readlink vfDir with
      | Err e => Err (errorf ("can't read the symbolic link of " +:+ what +:+ ": ") e)
      | Ok pciinfo => Ok (path_base pciinfo)
      end
  end.

(** [None]: the slice expression is out of range, which panics. *)
Definition GetSharedPF (ifName : string) : option (result string) :=
  let pfDir := Join [NetDirectory; ifName] in
  match Lstat fs pfDir with
  | Err e => Some (Err (errorf ("can't get the symbolic link of the device " +:+ quote ifName +:+ ": ") e))
  | Ok symlink =>
      if negb symlink then Some (Err (Text ("no symbolic link for dir of the device " +:+ quote ifName))) else
      let fullpath := match EvalSymlinks fs pfDir with Ok p => p | Err _ => "" end in
      if (String.length fullpath <? String.length ifName)%nat then None else
      let parentDir := take_string (String.length fullpath - String.length ifName) fullpath in
      let dirList := match readDir parentDir with Ok l => l | Err _ => [] end in
      Some (match List.find (λ f, negb (String.eqb (EntryName f) ifName)) dirList with
            | Some f => Ok (EntryName f)
            | None => Err (Text "shared PF not found")
            end)
  end.

Definition GetVFLinkName (pciAddr : string) : result string :=
  let vfDir := Join [SysBusPci; pciAddr; "net"] in
  let? _ := Lstat fs vfDir in
  match readDir vfDir with
  | Err e => Err (errorf ("failed to read net dir of the device " +:+ pciAddr +:+ ": ") e)
  | Ok [] => Err (Text ("VF device " +:+ pciAddr +:+ " sysfs path (" +:+ vfDir +:+ ") has no entries"))
  | Ok (f :: _) => Ok (EntryName f)
  end.
Definition GetVFLinkNamesFromVFID (pfName : string) (vfID : Z) : result (list string) :=
  let vfDir := Join [NetDirectory; pfName; "device"; "virtfn" +:+ itoa vfID; "net"] in
  let? _ := Lstat fs vfDir in
  match readDir vfDir with
  | Err e => Err (errorf ("failed to read the virtfn" +:+ itoa vfID +:+ " dir of the device " +:+ quote pfName +:+ ": ") e)
  | Ok l => Ok (EntryName <$> l)
  end.

Definition HasDpdkDriver (pciAddr : string) : result bool :=
  let? driverPath := EvalSymlinks fs (Join [SysBusPci; pciAddr; "driver"]) in
  match Stat fs driverPath with
  | Some e => Err e
  | None => Ok (existsb (String.eqb (path_base driverPath)) UserspaceDrivers)
  end.
End Sysfs.

(** * The environment *)

(** A network namespace: the host's, or a pod's, by its path. *)
Inductive netns := HostNS | PodNS (path : string).
(** What netlink reports of an interface and of a PF's virtual functions. *)
Record VfInfo := {
  vi_ID : Z; vi_Mac : HardwareAddr; vi_Vlan : Z; vi_Qos : Z; vi_VlanProto : Z; vi_LinkState : Z;
  vi_MaxTxRate : Z; vi_MinTxRate : Z; vi_Spoofchk : bool; vi_Trust : Z }.
Record Link := {
  lk_index : Z; lk_name : string; lk_mac : HardwareAddr; lk_up : bool; lk_alias : string; lk_vfs : list VfInfo }.
(** [ns.GetNS]: the namespace, the error [NSPathNotExistErr], or another error. *)
Inductive ns_result := NsFound | NsNotExist (e : error) | NsError (e : error).
(** [net.IP], 4 or 16 bytes. *)
Abbreviation IP := (list Z).

Class NetOps (N : Type) := {
  os_fault : string → string → N → N * option error;   (* does the OS refuse this call on this path? *)
  the_fs : N → hostfs;
  ns_GetNS : string → N → N * ns_result;
  ns_GetCurrentNS : N → N * option error;
  ns_enter : string → N → N * option error;            (* NetNS.Do reaching the namespace *)
  nl_LinkByName : netns → string → N → N * result Link;
  nl_LinkSetUp : netns → Link → N → N * option error;
  nl_LinkSetDown : netns → Link → N → N * option error;
  nl_LinkSetName : netns → Link → string → N → N * option error;
  nl_LinkSetAlias : netns → Link → string → N → N * option error;
  nl_LinkSetNsFd : netns → Link → netns → N → N * option error;
  nl_LinkSetHardwareAddr : netns → Link → HardwareAddr → N → N * option error;
  nl_LinkSetVfHardwareAddr : Link → Z → HardwareAddr → N → N * option error;
  nl_LinkSetVfVlanQosProto : Link → Z → Z → Z → Z → N → N * option error;
  nl_LinkSetVfRate : Link → Z → Z → Z → N → N * option error;
  nl_LinkSetVfSpoofchk : Link → Z → bool → N → N * option error;
  nl_LinkSetVfTrust : Link → Z → bool → N → N * option error;
  nl_LinkSetVfState : Link → Z → Z → N → N * option error;
  send_raw : netns → list Z → N → N * option error;    (* the raw sockets of packet.go *)
  ipam_ExecAdd : string → string → N → N * result string;
  ipam_NewResultFromResult : string → result CniResult;
  ipam_ExecDel : string → string → N → N * option error;
  ipam_ConfigureIface : netns → string → list IP → N → N * option error }.

(** The two directories of the CNI and the rest of the machine.  [cache] maps the
    path of a cached configuration to the configuration it reads back as, [pci_dir]
    the path of an allocation file to its content. *)
Record cni_world (N : Type) := mkWorld { cache : gmap string NetConf; pci_dir : gmap string string; net : N }.
Arguments mkWorld {_} _ _ _.
Arguments cache {_} _.
Arguments pci_dir {_} _.
Arguments net {_} _.
#[export] Instance cni_world_eta {N} : Eta (cni_world N) := λ w, mkWorld (cache w) (pci_dir w) (net w).

Section Effects.
Context {N : Type} `{!NetOps N}.
Abbreviation CM := (M (cni_world N)).

Definition on_net {A} (f : N → N * A) : CM A := λ w, let '(n, a) := f (net w) in (w <| net := n |>, Ret a).
(** A call that returns only an [error]. *)
Definition net_err (f : N → N * option error) : CM (result unit) :=
  e ← on_net f; mret (match e with None => Ok tt | Some e => Err e end).
Definition sysfs_read {A} (f : hostfs → A) : CM A := reads (λ w, f (the_fs (net w))).
(** [netns.Do(f)]: [f] runs with the namespace as the current one. *)
Definition ns_Do {A} (path : string) (f : CM (result A)) : CM (result A) :=
  call _ := net_err (ns_enter path) or (λ e, e) in f.

Definition EnableArpAndNdiscNotify (ifName : string) : CM (result unit) :=
  call _ := net_err (os_fault "write" (Join ["/proc/sys/net/ipv4/conf/"; ifName; "arp_notify"]))
    or errorf ("failed to write arp_notify=1 for interface " +:+ ifName +:+ ": ") in
  call _ := net_err (os_fault "write" (Join ["/proc/sys/net/ipv6/conf/"; ifName; "ndisc_notify"]))
    or errorf ("failed to write ndisc_notify=1 for interface " +:+ ifName +:+ ": ") in
  ok.

(** ** Cached configurations *)

Definition write_cache (path : string) (conf : NetConf) : CM (result unit) :=
  call _ := net_err (os_fault "write" path) or (λ e, e) in
  writes (λ w, w <| cache := <[path := json_roundtrip conf]> (cache w) |>).
Definition saveScratchNetConf (containerID dataDir : string) (conf : NetConf) : CM (result unit) :=
  call _ := net_err (os_fault "mkdir" dataDir)
    or errorf ("failed to create the sriov data directory(" +:+ quote dataDir +:+ "): ") in
  let path := Join [dataDir; containerID] in
  call _ := write_cache path conf or errorf ("failed to write container data in the path(" +:+ quote path +:+ "): ") in
  ok.
Definition SaveNetConf (cid dataDir podIfName : string) (conf : NetConf) : CM (result unit) :=
  saveScratchNetConf (join "-" [cid; podIfName]) dataDir conf.
Definition not_exist (path : string) : error := Text ("open " +:+ path +:+ ": no such file or directory").
Definition ReadScratchNetConf (cRefPath : string) : CM (result NetConf) :=
  let fail := errorf ("failed to read container data in the path(" +:+ quote cRefPath +:+ "): ") in
  call _ := net_err (os_fault "read" cRefPath) or fail in
  conf ← reads (λ w, cache w !! cRefPath);
  mret (match conf with Some c => Ok c | None => Err (fail (not_exist cRefPath)) end).
Definition CleanCachedNetConf (cRefPath : string) : CM (result unit) :=
  let fail := errorf ("error removing NetConf file " +:+ cRefPath +:+ ": ") in
  call _ := net_err (os_fault "remove" cRefPath) or fail in
  conf ← reads (λ w, cache w !! cRefPath);
  match conf with
  | None => mret (Err (fail (not_exist cRefPath)))
  | Some _ => writes (λ w, w <| cache := delete cRefPath (cache w) |>)
  end.

(** ** The PCI allocator (pci_allocator.go) *)

Definition SaveAllocatedPCI (dataDir pciAddress ns : string) : CM (result unit) :=
  call _ := net_err (os_fault "mkdir" dataDir)
    or errorf ("failed to create the sriov data directory(" +:+ quote dataDir +:+ "): ") in
  let path := Join [dataDir; pciAddress] in
  call _ := net_err (os_fault "write" path)
    or errorf ("failed to write used PCI address lock file in the path(" +:+ quote path +:+ "): ") in
  writes (λ w, w <| pci_dir := <[path := ns]> (pci_dir w) |>).
Definition DeleteAllocatedPCI (dataDir pciAddress : string) : CM (result unit) :=
  let path := Join [dataDir; pciAddress] in
  let fail := errorf ("error removing PCI address lock file " +:+ path +:+ ": ") in
  call _ := net_err (os_fault "remove" path) or fail in
  f ← reads (λ w, pci_dir w !! path);
  match f with
  | None => mret (Err (fail (not_exist path)))
  | Some _ => writes (λ w, w <| pci_dir := delete path (pci_dir w) |>)
  end.
Definition IsAllocated (dataDir pciAddress : string) : CM (result bool) :=
  let path := Join [dataDir; pciAddress] in
  call _ := net_err (os_fault "stat" path) or errorf ("failed to check for pci address file for " +:+ path +:+ ": ") in
  f ← reads (λ w, pci_dir w !! path);
  match f with
  | None => mret (Ok false)
  | Some dat =>
      call _ := net_err (os_fault "read" path) or errorf ("failed to read for pci address file for " +:+ path +:+ ": ") in
      ns ← on_net (ns_GetNS dat);
      match ns with
      | NsFound => mret (Ok true)
      | _ =>
          call _ := DeleteAllocatedPCI dataDir pciAddress
            or errorf ("error deleting the pci allocation for vf pci address " +:+ pciAddress +:+ ": ") in
          mret (Ok false)
      end
  end.

(** ** Hardware addresses *)

Definition SetVFEffectiveMAC (ns : netns) (netDeviceName macAddress : string) : CM (result unit) :=
  match ParseMAC macAddress with
  | Err e => mret (Err (errorf ("failed to parse MAC address " +:+ macAddress +:+ ": ") e))
  | Ok hwaddr =>
      call orgLinkObj := on_net (nl_LinkByName ns netDeviceName) or (λ e, e) in
      Retry 20 (
        call _ := net_err (nl_LinkSetHardwareAddr ns orgLinkObj hwaddr) or (λ e, e) in
        call linkObj := on_net (nl_LinkByName ns netDeviceName)
          or errorf ("failed to get netlink device with name " +:+ lk_name orgLinkObj +:+ ": ") in
        mret (if String.eqb (mac_string (lk_mac linkObj)) macAddress then Ok tt
              else Err (Text "effective mac address is different from requested one")))
  end.
Definition SetVFHardwareMAC (pfDevice : string) (vfID : Z) (macAddress : string) : CM (result unit) :=
  match ParseMAC macAddress with
  | Err e => mret (Err (errorf ("failed to parse MAC address " +:+ macAddress +:+ ": ") e))
  | Ok hwaddr =>
      call orgLinkObj := on_net (nl_LinkByName HostNS pfDevice) or (λ e, e) in
      Retry 20 (
        call _ := net_err (nl_LinkSetVfHardwareAddr orgLinkObj vfID hwaddr) or (λ e, e) in
        call linkObj := on_net (nl_LinkByName HostNS pfDevice)
          or errorf ("failed to get netlink device with name " +:+ lk_name orgLinkObj +:+ ": ") in
        match (if (vfID <? 0)%Z then None else lk_vfs linkObj !! Z.to_nat vfID) with
        | None => panic
        | Some vi => mret (if String.eqb (mac_string (vi_Mac vi)) macAddress then Ok tt
                           else Err (Text "hardware mac address is different from requested one"))
        end)
  end.
End Effects.

(** * Lemmas *)

(** The two directories, which no netlink, namespace or IPAM call touches. *)
Definition files {N} (w : cni_world N) : gmap string NetConf * gmap string string := (cache w, pci_dir w).

Section Lemmas.
Context {N : Type} `{!NetOps N}.
Abbreviation CM := (M (cni_world N)).

Lemma preserves_on_net {A} (f : N → N * A) : preserves files (on_net f : CM A).
Proof. intros w. unfold on_net. by destruct (f (net w)). Qed.
Lemma preserves_net_err f : preserves files (net_err f : CM _).
Proof. apply preserves_bind; [apply preserves_on_net|]. done. Qed.
Lemma preserves_sysfs {A} (f : hostfs → A) : preserves files (sysfs_read f : CM A).
Proof. done. Qed.
Lemma preserves_ns_Do {A X} (g : cni_world N → X) path (f : CM (result A)) :
  preserves g (net_err (ns_enter path) : CM _) → preserves g f → preserves g (ns_Do path f).
Proof. intros He Hf. by apply preserves_call. Qed.
Lemma preserves_EffectiveMAC ns name mac : preserves files (SetVFEffectiveMAC ns name mac : CM _).
Proof.
  unfold SetVFEffectiveMAC. destruct (ParseMAC mac); [|done].
  eauto 10 using preserves_on_net, preserves_net_err with preserves.
Qed.
Lemma preserves_HardwareMAC pf vf mac : preserves files (SetVFHardwareMAC pf vf mac : CM _).
Proof.
  unfold SetVFHardwareMAC. destruct (ParseMAC mac); [|done].
  apply preserves_call; [apply preserves_on_net|]. intros l. apply preserves_retry.
  apply preserves_call; [apply preserves_net_err|]. intros _.
  apply preserves_call; [apply preserves_on_net|]. intros l'.
  by destruct (if (vf <? 0)%Z then None else _).
Qed.
Lemma preserves_Arp name : preserves files (EnableArpAndNdiscNotify name : CM _).
Proof. unfold EnableArpAndNdiscNotify, ok. eauto 10 using preserves_net_err with preserves. Qed.

Lemma net_err_returns f (w w' : cni_world N) r : returns (net_err f) w w' r → files w' = files w.
Proof. intros H. pose proof (preserves_net_err f w) as Hp. unfold returns in H. by rewrite H in Hp. Qed.
(** An empty hardware address cannot be set: it does not parse. *)
Lemma SetVFHardwareMAC_empty pf vf (w : cni_world N) : ∃ e, SetVFHardwareMAC pf vf "" w = (w, Ret (Err e)).
Proof. unfold SetVFHardwareMAC. simpl. eexists. reflexivity. Qed.

(** What the writing operations do when they succeed. *)
Lemma SaveNetConf_returns cid dir ifn conf (w w' : cni_world N) :
  returns (SaveNetConf cid dir ifn conf) w w' (Ok tt) →
  cache w' = <[Join [dir; join "-" [cid; ifn]] := json_roundtrip conf]> (cache w) ∧ pci_dir w' = pci_dir w.
Proof.
  unfold SaveNetConf, saveScratchNetConf, write_cache.
  rewrite call_returns. intros [(w1 & ? & H1 & H)|(? & _ & [=])]. apply net_err_returns in H1.
  rewrite call_returns in H. destruct H as [(w2 & ? & H2 & H)|(? & _ & [=])].
  apply ret_returns in H as [-> _].
  rewrite call_returns in H2. destruct H2 as [(w3 & ? & H3 & H)|(? & _ & [=])]. apply net_err_returns in H3.
  unfold returns, writes in H. injection H as <-. unfold files in *. simpl. split; congruence.
Qed.
Lemma SaveAllocatedPCI_returns dir pci ns (w w' : cni_world N) :
  returns (SaveAllocatedPCI dir pci ns) w w' (Ok tt) →
  cache w' = cache w ∧ pci_dir w' = <[Join [dir; pci] := ns]> (pci_dir w).
Proof.
  unfold SaveAllocatedPCI. rewrite call_returns. intros [(w1 & ? & H1 & H)|(? & _ & [=])]. apply net_err_returns in H1.
  rewrite call_returns in H. destruct H as [(w2 & ? & H2 & H)|(? & _ & [=])]. apply net_err_returns in H2.
  unfold returns, writes in H. injection H as <-. unfold files in *. simpl. split; congruence.
Qed.
Lemma reads_returns {A} (f : cni_world N → A) (w w' : cni_world N) a : returns (reads f) w w' a → w' = w ∧ a = f w.
Proof. unfold returns, reads. by intros [= <- <-]. Qed.
Lemma CleanCachedNetConf_returns p (w w' : cni_world N) r :
  returns (CleanCachedNetConf p) w w' r →
  pci_dir w' = pci_dir w ∧ (cache w' = cache w ∨ cache w' = delete p (cache w)).
Proof.
  unfold CleanCachedNetConf. intros H. apply call_returns in H as [(w1 & u & [= Hc Hp]%net_err_returns & H)|(e & [= Hc Hp]%net_err_returns & _)];
    [|auto]. inv_bind H as [-> ->]%reads_returns.
  destruct (cache w1 !! p); [|inv_ret H; auto]. unfold returns, writes in H. injection H as <- _. simpl. rewrite Hc. auto.
Qed.
Lemma DeleteAllocatedPCI_returns dir pci (w w' : cni_world N) :
  returns (DeleteAllocatedPCI dir pci) w w' (Ok tt) →
  cache w' = cache w ∧ is_Some (pci_dir w !! Join [dir; pci]) ∧ pci_dir w' = delete (Join [dir; pci]) (pci_dir w).
Proof.
  unfold DeleteAllocatedPCI. intros H. inv_call H as [= Hc Hp]%net_err_returns.
  inv_bind H as [-> ->]%reads_returns. rewrite <-Hc, <-Hp.
  destruct (pci_dir w0 !! Join [dir; pci]); [|by inv_ret H].
  unfold returns, writes in H. injection H as <-. simpl. eauto.
Qed.
Lemma IsAllocated_false dir pci (w w' : cni_world N) :
  returns (IsAllocated dir pci) w w' (Ok false) →
  cache w' = cache w ∧ pci_dir w' = delete (Join [dir; pci]) (pci_dir w).
Proof.
  unfold IsAllocated. intros H. inv_call H as [= Hc Hp]%net_err_returns.
  inv_bind H as [-> ->]%reads_returns. rewrite <-Hc, <-Hp.
  destruct (pci_dir w0 !! Join [dir; pci]) as [dat|] eqn:Ef; [|inv_ret H; by rewrite delete_id].
  inv_call H as [= Hc1 Hp1]%net_err_returns.
  inv_bind H as [= Hc2 Hp2]%(preserves_returns files _ _ _ _ (preserves_on_net _)).
  destruct a1; [by inv_ret H|..]; inv_call H as Hd; inv_ret H; destruct a1;
    apply DeleteAllocatedPCI_returns in Hd as (Hc3 & _ & Hp3); split; congruence.
Qed.
End Lemmas.
#[export] Hint Resolve preserves_on_net preserves_net_err preserves_sysfs preserves_ns_Do preserves_EffectiveMAC
  preserves_HardwareMAC preserves_Arp : preserves.
