(* ===== verification/Packet.v ===== *)
(** dpu-cni/pkgs/sriovutils/packet.go: the gratuitous ARP and the unsolicited
    neighbor advertisement sent for every address of a pod, as bytes. *)
From S2P Require Import Prelude Plugin Net GoMonad CniTypes SriovUtils.
#[local] Open Scope stdpp_scope.

(** [htons] on a 16-bit integer. *)
Definition htons (i : Z) : Z := Z.lor (Z.land (uint16 (Z.shiftl i 8)) 65280) (Z.shiftr i 8).
(** [binary.Write] in big-endian order. *)
Definition be16 (n : Z) : list Z := [Z.shiftr n 8; n mod 256]%Z.
Definition be32 (n : Z) : list Z := [Z.shiftr n 24; Z.shiftr n 16 mod 256; Z.shiftr n 8 mod 256; n mod 256]%Z.

(** [net.IP.To4] and [To16]; [None] is nil. *)
Definition v4_in_v6 : list Z := [0; 0; 0; 0; 0; 0; 0; 0; 0; 0; 255; 255]%Z.
Definition To4 (ip : IP) : option IP :=
  if (length ip =? 4)%nat then Some ip
  else if (length ip =? 16)%nat && bool_decide (take 12 ip = v4_in_v6) then Some (drop 12 ip)
  else None.
Definition To16 (ip : IP) : option IP :=
  if (length ip =? 4)%nat then Some (v4_in_v6 ++ ip) else if (length ip =? 16)%nat then Some ip else None.
Definition IsIPv4 (ip : IP) : bool := bool_decide (is_Some (To4 ip)).
Definition IsIPv6 (ip : IP) : bool := bool_decide (To4 ip = None) && bool_decide (is_Some (To16 ip)).
Definition IsValidMACAddress (addr : HardwareAddr) : bool :=
  (length addr =? 6)%nat
  && negb (bool_decide (addr = replicate 6 0%Z)) && negb (bool_decide (addr = replicate 6 255%Z)).

Definition ETH_P_IP : Z := 2048.
Definition ETH_P_ARP : Z := 2054.
Definition arp_packet (mac : HardwareAddr) (srcIP : IP) : list Z :=
  be16 1 ++ be16 ETH_P_IP ++ [6; 4]%Z ++ be16 1
  ++ mac ++ default [] (To4 srcIP) ++ replicate 6 255%Z ++ default [] (To4 srcIP).
(** The ICMPv6 message: type 136, code 0, a checksum the kernel fills in, the body. *)
Definition neighbor_packet (mac : HardwareAddr) (srcIP : IP) : list Z :=
  [136; 0; 0; 0]%Z ++ be32 536870912 ++ default [] (To16 srcIP) ++ [2; 1]%Z ++ mac.

Section Announce.
Context {N : Type} `{!NetOps N}.
Abbreviation CM := (M (cni_world N)).

Definition SendGratuitousArp (ns : netns) (srcIP : IP) (linkObj : Link) : CM (result unit) :=
  call _ := net_err (send_raw ns (arp_packet (lk_mac linkObj) srcIP))
    or errorf ("failed to send Gratuitous ARP on Interface " +:+ lk_name linkObj +:+ ": ") in ok.
Definition SendUnsolicitedNeighborAdvertisement (ns : netns) (srcIP : IP) (linkObj : Link) : CM (result unit) :=
  call _ := net_err (send_raw ns (neighbor_packet (lk_mac linkObj) srcIP))
    or errorf ("failed to send Unsolicited Neighbor Advertisement on Interface " +:+ lk_name linkObj +:+ ": ") in ok.
Fixpoint announce_loop (ns : netns) (ifName : string) (linkObj : Link) (ips : list IP) : CM (result unit) :=
  match ips with
  | [] => ok
  | ip :: ips =>
      if IsIPv6 ip || IsIPv4 ip then
        call _ := (if IsIPv6 ip then SendUnsolicitedNeighborAdvertisement ns ip linkObj
                   else SendGratuitousArp ns ip linkObj)
          or errorf ("failed to send GARP/NA message on interface " +:+ quote ifName +:+ ": ") in
        announce_loop ns ifName linkObj ips
      else mret (Err (Text ("the IP on interface " +:+ quote ifName +:+ " is neither IPv4 or IPv6")))
  end.
Definition AnnounceIPs (ns : netns) (ifName : string) (ips : list IP) : CM (result unit) :=
  call linkObj := on_net (nl_LinkByName ns ifName)
    or errorf ("failed to get netlink device with name " +:+ quote ifName +:+ ": ") in
  if IsValidMACAddress (lk_mac linkObj) then announce_loop ns ifName linkObj ips
  else mret (Err (Text "invalid Ethernet MAC address")).
End Announce.

(** * Lemmas *)

(** The bytes, and a property of every 16-bit integer decided by evaluating it on all pairs of them. *)
Definition all_bytes : list Z := Z.of_nat <$> seq 0 256.
Lemma all_bytes_spec b : is_byte b → b ∈ all_bytes.
Proof.
  intros [H1 H2]. apply list_elem_of_fmap. exists (Z.to_nat b). rewrite elem_of_seq. lia.
Qed.
Lemma all_u16 (p : Z → bool) :
  forallb (λ a, forallb (λ b, p (256 * a + b)%Z) all_bytes) all_bytes = true →
  ∀ i, (0 ≤ i < 2 ^ 16)%Z → p i = true.
Proof.
  intros H i Hi. rewrite forallb_forall in H.
  assert (is_byte (i / 256)) as Ha%all_bytes_spec%list_elem_of_In.
  { split; [apply Z.div_pos; lia|apply Z.div_lt_upper_bound; lia]. }
  assert (is_byte (i mod 256)) as Hb%all_bytes_spec%list_elem_of_In by (apply Z.mod_pos_bound; lia).
  specialize (H _ Ha). rewrite forallb_forall in H. specialize (H _ Hb).
  by rewrite <-Z.div_mod in H by lia.
Qed.

Lemma To4_length ip ip4 : To4 ip = Some ip4 → length ip4 = 4.
Proof.
  unfold To4. destruct (Nat.eqb_spec (length ip) 4) as [H4|]; [by intros [= <-]|].
  destruct (Nat.eqb_spec (length ip) 16); simpl; [|done]. destruct (bool_decide _); [|done].
  intros [= <-]. rewrite length_drop. lia.
Qed.
Lemma To16_length ip ip16 : To16 ip = Some ip16 → length ip16 = 16.
Proof.
  unfold To16. destruct (Nat.eqb_spec (length ip) 4); [intros [= <-]; simpl; lia|].
  by destruct (Nat.eqb_spec (length ip) 16); [intros [= <-]|].
Qed.

Lemma preserves_announce {N} `{!NetOps N} ns ifn ips : preserves files (AnnounceIPs ns ifn ips : M (cni_world N) _).
Proof.
  unfold AnnounceIPs, SendGratuitousArp, ok. preserve.
  induction ips as [|ip ips IH]; simpl; unfold SendUnsolicitedNeighborAdvertisement, SendGratuitousArp, ok; preserve.
Qed.
#[export] Hint Resolve preserves_announce : preserves.

(** * Theorems *)

(** [htons] swaps the two bytes of every 16-bit integer, so it is its own inverse. *)
Theorem htons_swaps i : (0 ≤ i < 2 ^ 16)%Z → htons i = (256 * (i mod 256) + i / 256)%Z ∧ htons (htons i) = i.
Proof.
  intros Hi. apply (all_u16 (λ i, (htons i =? 256 * (i mod 256) + i / 256) && (htons (htons i) =? i))%Z) in Hi;
    [|vm_compute; reflexivity].
  apply andb_prop in Hi. by rewrite !Z.eqb_eq in Hi.
Qed.

(** Every address falls in exactly one family, an IPv4 address written in
    IPv6 form counting as IPv4, and gets a packet of that family: 28 bytes of ARP
    with the address as sender and as target, or 32 bytes of ICMPv6 with the address
    as target and the MAC as link-layer option. *)
Theorem announce_packets mac ip :
  length mac = 6 → (length ip = 4 ∨ length ip = 16) →
  (∃ ip4, To4 ip = Some ip4 ∧ IsIPv4 ip = true ∧ IsIPv6 ip = false ∧
     length (arp_packet mac ip) = 28 ∧ take 6 (drop 8 (arp_packet mac ip)) = mac ∧
     take 4 (drop 14 (arp_packet mac ip)) = ip4 ∧ drop 24 (arp_packet mac ip) = ip4) ∨
  (length ip = 16 ∧ IsIPv6 ip = true ∧ IsIPv4 ip = false ∧
     length (neighbor_packet mac ip) = 32 ∧ take 16 (drop 8 (neighbor_packet mac ip)) = ip ∧
     drop 26 (neighbor_packet mac ip) = mac).
Proof.
  intros Hm Hip. destruct (To4 ip) as [ip4|] eqn:E4.
  - left. exists ip4. pose proof (To4_length _ _ E4) as H4. unfold IsIPv4, IsIPv6, arp_packet. rewrite E4. simpl.
    do 6 (destruct mac as [|? mac]; [done|]). destruct mac; [|done].
    do 4 (destruct ip4 as [|? ip4]; [done|]). by destruct ip4.
  - right. assert (length ip = 16) as Hl.
    { destruct Hip as [H4|]; [|done]. unfold To4 in E4. by rewrite H4 in E4. }
    unfold IsIPv4, IsIPv6, neighbor_packet, To16. rewrite E4, Hl. simpl.
    do 6 (destruct mac as [|? mac]; [done|]). destruct mac; [|done].
    do 16 (destruct ip as [|? ip]; [done|]). by destruct ip.
Qed.

(** * Witnesses *)
Lemma htons_swaps_witness : htons ETH_P_ARP = 1544%Z.
Proof. exact (proj1 (htons_swaps ETH_P_ARP ltac:(unfold ETH_P_ARP; lia))). Defined.
Lemma announce_packets_witness : IsIPv6 (v4_in_v6 ++ [10; 0; 0; 1]%Z) = false.
Proof.
  destruct (announce_packets [2; 0; 0; 0; 0; 1]%Z (v4_in_v6 ++ [10; 0; 0; 1]%Z) eq_refl (or_intror eq_refl))
    as [(ip4 & _ & _ & H & _)|(_ & _ & H & _)]; [exact H|discriminate H].
Defined.
