(* ===== verification/Sriov.v ===== *)
(** The SR-IOV CNI of the host side: dpu-cni/pkgs/sriovconfig (loading and
    validating a configuration) and dpu-cni/pkgs/sriov (configuring a virtual
    function, moving it into a pod and back, [CmdAdd] and [CmdDel]).

    The configuration is a shared object in the source; here the operations that
    change it return it. *)
From S2P Require Import Prelude Plugin Net Scan GoMonad CniTypes SriovUtils Packet.
#[local] Open Scope stdpp_scope.

(** * sriovconfig.go *)

Definition DefaultCNIDir : string := "/var/lib/cni/dpusriov".
(** [NewPCIAllocator(DefaultCNIDir)]. *)
Definition pciDir : string := Join [DefaultCNIDir; "pci"].

Definition getVfInfo (fs : hostfs) (vfPci : string) : result (string * Z) :=
  let? pf := GetPfName fs vfPci in
  let? vfID := GetVfid fs vfPci pf in
  Ok (pf, vfID).

(** The checks of [LoadConf] that need nothing but the configuration. *)
Definition validate_conf (n : NetConf) : result NetConf :=
  let vlan := default 0%Z (Vlan n) in
  if ((vlan <? 0) || (4094 <? vlan))%Z
  then Err (Text ("LoadConf(): vlan id " +:+ itoa vlan +:+ " invalid: value must be in the range 0-4094")) else
  let qos := default 0%Z (VlanQoS n) in
  if ((qos <? 0) || (7 <? qos))%Z
  then Err (Text ("LoadConf(): vlan QoS PCP " +:+ itoa qos +:+ " invalid: value must be in the range 0-7")) else
  if (negb (qos =? 0) && (vlan =? 0))%Z
  then Err (Text "LoadConf(): non-zero vlan id must be configured to set vlan QoS to a non-zero value") else
  let proto := to_lower (default Proto8021q (VlanProto n)) in
  if negb (String.eqb proto Proto8021ad) && negb (String.eqb proto Proto8021q)
  then Err (Text ("LoadConf(): vlan Proto " +:+ proto +:+ " invalid: value must be '802.1Q' or '802.1ad'")) else
  if String.eqb proto Proto8021ad && (vlan =? 0)%Z
  then Err (Text "LoadConf(): non-zero vlan id must be configured to set vlan proto 802.1ad") else
  if negb (String.eqb (LinkState n) "") && negb (String.eqb (LinkState n) "auto")
     && negb (String.eqb (LinkState n) "enable") && negb (String.eqb (LinkState n) "disable")
  then Err (Text ("LoadConf(): invalid link_state value: " +:+ LinkState n)) else
  Ok (n <| Vlan := Some vlan |> <| VlanQoS := Some qos |> <| VlanProto := Some proto |>).

Section Sriov.
Context {N : Type} `{!NetOps N}.
Abbreviation CM := (M (cni_world N)).

Definition LoadConf (n : NetConf) : CM (result NetConf) :=
  if String.eqb (ConfDeviceID n) "" then mret (Err (Text "LoadConf(): VF pci addr is required")) else
  call n :=
    (if bool_decide (DeviceIDType n = DeviceIDTypeNetdev) then
       call pciAddr := sysfs_read (λ fs, GetPciFromNetDev fs (ConfDeviceID n))
         or errorf ("LoadConf(): failed to resolve PCI address from netdev " +:+ ConfDeviceID n +:+ ": ") in
       mret (Ok (n <| ConfDeviceID := pciAddr |> <| DeviceIDType := DeviceIDTypePCI |>))
     else mret (Ok n)) or (λ e, e) in
  call (pfName, vfID) := sysfs_read (λ fs, getVfInfo fs (ConfDeviceID n))
    or errorf "LoadConf(): failed to get VF information: " in
  let n := n <| VFID := vfID |> <| Master := pfName |> in
  call isAllocated := IsAllocated pciDir (ConfDeviceID n) or (λ e, e) in
  if isAllocated : bool then mret (Err (Text ("pci address " +:+ ConfDeviceID n +:+ " is already allocated"))) else
  link ← sysfs_read (λ fs, GetVFLinkName fs (ConfDeviceID n));
  let hostIFName := match link with Ok name => name | Err _ => "" end in
  call n :=
    (if String.eqb hostIFName "" then
       call dpdk := sysfs_read (λ fs, HasDpdkDriver fs (ConfDeviceID n))
         or errorf ("LoadConf(): failed to detect if VF " +:+ ConfDeviceID n +:+ " has dpdk driver ") in
       mret (Ok (n <| DPDKMode := dpdk |>))
     else mret (Ok (n <| OrigVfState := (OrigVfState n) <| HostIFName := hostIFName |> |>))) or (λ e, e) in
  if String.eqb hostIFName "" && negb (DPDKMode n)
  then mret (Err (Text ("LoadConf(): the VF " +:+ ConfDeviceID n +:+ " does not have a interface name or a dpdk driver")))
  else mret (validate_conf n).

Definition cache_path (containerID ifName : string) : string := Join [DefaultCNIDir; join "-" [containerID; ifName]].
(** A cached file is a configuration this package wrote, so it parses. *)
Definition LoadConfFromCache (containerID ifName : string) : CM (result (NetConf * string)) :=
  let cRefPath := cache_path containerID ifName in
  call netConf := ReadScratchNetConf cRefPath
    or (λ _, Text ("error reading cached NetConf in " +:+ DefaultCNIDir +:+ " with name "
                   +:+ join "-" [containerID; ifName])) in
  mret (Ok (netConf, cRefPath)).

Definition GetMacAddressForResult (netConf : NetConf) : string :=
  if negb (String.eqb (MAC netConf) "") then MAC netConf
  else if negb (DPDKMode netConf) then EffectiveMAC (OrigVfState netConf)
  else if negb (String.eqb (AdminMAC (OrigVfState netConf)) "00:00:00:00:00:00") then AdminMAC (OrigVfState netConf)
  else "".

(** * sriov.go *)

Definition host_vlans : bool := false.
Definition VlanProtoInt (proto : string) : Z :=
  if String.eqb proto Proto8021q then 33024 else if String.eqb proto Proto8021ad then 34984 else 0.
Definition VF_LINK_STATE_AUTO : Z := 0.
Definition VF_LINK_STATE_ENABLE : Z := 1.
Definition VF_LINK_STATE_DISABLE : Z := 2.

(** [SetupVF]: the namespace is the pod's, by its path.  The configuration comes
    back with the original effective MAC address, which is recorded even when a
    later step fails. *)
Definition SetupVF (conf : NetConf) (podifName ns : string) : CM (NetConf * result unit) :=
  let linkName := HostIFName (OrigVfState conf) in
  link ← on_net (nl_LinkByName HostNS linkName);
  match link with
  | Err _ => mret (conf, Err (Text ("error getting VF netdevice with name " +:+ linkName)))
  | Ok linkObj =>
      let conf := conf <| OrigVfState := (OrigVfState conf) <| EffectiveMAC := mac_string (lk_mac linkObj) |> |> in
      let tempName := "temp_" +:+ itoa (lk_index linkObj) in
      r ← (call _ := net_err (nl_LinkSetDown HostNS linkObj)
             or errorf ("failed to down vf device " +:+ quote linkName +:+ ": ") in
           call _ := net_err (nl_LinkSetName HostNS linkObj tempName)
             or (λ _, Text ("error setting temp IF name " +:+ tempName +:+ " for " +:+ linkName)) in
           call _ := net_err (nl_LinkSetNsFd HostNS linkObj (PodNS ns))
             or errorf ("failed to move IF " +:+ tempName +:+ " to netns: ") in
           call _ := ns_Do ns (
               call _ := net_err (nl_LinkSetName (PodNS ns) linkObj podifName)
                 or (λ _, Text ("error setting container interface name " +:+ linkName +:+ " for " +:+ tempName)) in
               _ ← ignore (EnableArpAndNdiscNotify podifName);
               call _ := when (negb (String.eqb (MAC conf) "")) (SetVFEffectiveMAC (PodNS ns) podifName (MAC conf))
                 or errorf ("failed to set netlink MAC address to " +:+ MAC conf +:+ ": ") in
               call _ := net_err (nl_LinkSetUp (PodNS ns) linkObj)
                 or errorf "error bringing interface up in container ns: " in
               ok)
             or errorf "error setting up interface in container namespace: " in
           ok);
      mret (conf, r)
  end.

Definition ReleaseVF (conf : NetConf) (podifName ns : string) : CM (result unit) :=
  let host := HostIFName (OrigVfState conf) in
  call _ := net_err ns_GetCurrentNS or errorf "failed to get init netns: " in
  ns_Do ns (
    call linkObj := on_net (nl_LinkByName (PodNS ns) podifName)
      or errorf ("failed to get netlink device with name " +:+ podifName +:+ ": ") in
    call _ := net_err (nl_LinkSetDown (PodNS ns) linkObj) or errorf ("failed to set link " +:+ podifName +:+ " down: ") in
    call _ := net_err (nl_LinkSetName (PodNS ns) linkObj host)
      or errorf ("failed to rename link " +:+ podifName +:+ " to host name " +:+ host +:+ ": ") in
    call _ := when (negb (String.eqb (MAC conf) ""))
                (SetVFEffectiveMAC (PodNS ns) host (EffectiveMAC (OrigVfState conf)))
      or errorf ("failed to restore original effective netlink MAC address "
                 +:+ EffectiveMAC (OrigVfState conf) +:+ ": ") in
    call _ := net_err (nl_LinkSetNsFd (PodNS ns) linkObj HostNS)
      or errorf ("failed to move interface " +:+ host +:+ " to init netns: ") in
    ok).

(** The VF of a link with a given id. *)
Definition link_vf (link : Link) (id : Z) : option VfInfo := List.find (λ vf, (vi_ID vf =? id)%Z) (lk_vfs link).
Definition FillFromVfInfo (info : VfInfo) (vs : VfState) : VfState :=
  mkVfState (HostIFName vs) (vi_Spoofchk info) (negb (vi_Trust info =? 0)%Z) (mac_string (vi_Mac info)) (EffectiveMAC vs)
    (vi_Vlan info) (vi_Qos info) (vi_VlanProto info) (vi_MinTxRate info) (vi_MaxTxRate info) (vi_LinkState info).
Definition FillOriginalVfInfo (conf : NetConf) : CM (result NetConf) :=
  call pfLink := on_net (nl_LinkByName HostNS (Master conf))
    or errorf ("failed to lookup master " +:+ quote (Master conf) +:+ ": ") in
  match link_vf pfLink (VFID conf) with
  | None => mret (Err (Text ("failed to find vf " +:+ itoa (VFID conf))))
  | Some vi => mret (Ok (conf <| OrigVfState := FillFromVfInfo vi (OrigVfState conf) |>))
  end.

Definition given (s : string) : bool := negb (String.eqb s "").
Definition ApplyVFConfig (conf : NetConf) : CM (result unit) :=
  let vf := "vf " +:+ itoa (VFID conf) in
  call pfLink := on_net (nl_LinkByName HostNS (Master conf))
    or errorf ("failed to lookup master " +:+ quote (Master conf) +:+ ": ") in
  call _ := when host_vlans (net_err (nl_LinkSetVfVlanQosProto pfLink (VFID conf) (default 0%Z (Vlan conf))
              (default 0%Z (VlanQoS conf)) (VlanProtoInt (default "" (VlanProto conf)))))
    or errorf ("failed to set " +:+ vf +:+ " vlan configuration: ") in
  call _ := when (given (MAC conf)) (SetVFHardwareMAC (Master conf) (VFID conf) (MAC conf))
    or errorf ("failed to set MAC address to " +:+ MAC conf +:+ ": ") in
  call _ := when (bool_decide (is_Some (MinTxRate conf) ∨ is_Some (MaxTxRate conf)))
      (net_err (nl_LinkSetVfRate pfLink (VFID conf) (default 0%Z (MinTxRate conf)) (default 0%Z (MaxTxRate conf))))
    or errorf ("failed to set " +:+ vf +:+ " tx rates: ") in
  call _ := when (given (SpoofChk conf))
      (net_err (nl_LinkSetVfSpoofchk pfLink (VFID conf) (String.eqb (SpoofChk conf) "on")))
    or errorf ("failed to set " +:+ vf +:+ " spoofchk flag to " +:+ SpoofChk conf +:+ ": ") in
  call _ := when (given (Trust conf)) (net_err (nl_LinkSetVfTrust pfLink (VFID conf) (String.eqb (Trust conf) "on")))
    or errorf ("failed to set " +:+ vf +:+ " trust flag to " +:+ Trust conf +:+ ": ") in
  if given (LinkState conf) then
    let set_state st := call _ := net_err (nl_LinkSetVfState pfLink (VFID conf) st)
      or errorf ("failed to set " +:+ vf +:+ " link state: ") in ok in
    if String.eqb (LinkState conf) "auto" then set_state VF_LINK_STATE_AUTO
    else if String.eqb (LinkState conf) "enable" then set_state VF_LINK_STATE_ENABLE
    else if String.eqb (LinkState conf) "disable" then set_state VF_LINK_STATE_DISABLE
    else mret (Err (Text ("unknown link state " +:+ LinkState conf +:+ " when setting it for " +:+ vf)))
  else ok.

Definition ResetVFConfig (conf : NetConf) : CM (result unit) :=
  let vf := "vf " +:+ itoa (VFID conf) in
  let orig := OrigVfState conf in
  call pfLink := on_net (nl_LinkByName HostNS (Master conf))
    or errorf ("failed to lookup master " +:+ quote (Master conf) +:+ ": ") in
  call _ := when host_vlans (net_err (nl_LinkSetVfVlanQosProto pfLink (VFID conf) (VfVlan orig) (VfVlanQoS orig)
              (if (VfVlanProto orig =? 0)%Z then VlanProtoInt Proto8021q else VfVlanProto orig)))
    or errorf ("failed to set " +:+ vf +:+ " vlan configuration: ") in
  call _ := when (given (SpoofChk conf)) (net_err (nl_LinkSetVfSpoofchk pfLink (VFID conf) (VfSpoofChk orig)))
    or errorf ("failed to restore spoofchk for " +:+ vf +:+ ": ") in
  call _ := when (given (MAC conf)) (SetVFHardwareMAC (Master conf) (VFID conf) (AdminMAC orig))
    or errorf ("failed to restore original administrative MAC address " +:+ AdminMAC orig +:+ ": ") in
  call _ := when (given (Trust conf)) (net_err (nl_LinkSetVfTrust pfLink (VFID conf) (VfTrust orig)))
    or errorf ("failed to set trust for " +:+ vf +:+ ": ") in
  call _ := when (bool_decide (is_Some (MinTxRate conf) ∨ is_Some (MaxTxRate conf)))
      (net_err (nl_LinkSetVfRate pfLink (VFID conf) (VfMinTxRate orig) (VfMaxTxRate orig)))
    or errorf ("failed to disable rate limiting for " +:+ vf +:+ " ") in
  call _ := when (given (LinkState conf)) (net_err (nl_LinkSetVfState pfLink (VFID conf) (VfLinkState orig)))
    or errorf ("failed to set link state to auto for " +:+ vf +:+ ": ") in
  ok.

(** ** CmdAdd *)

(** The first deferred function of [CmdAdd]: undo what a failed [CmdAdd] did. *)
Definition add_cleanup (netConf : NetConf) (ifName ns : string) : CM unit :=
  r ← ns_Do ns (call _ := on_net (nl_LinkByName (PodNS ns) ifName) or (λ e, e) in ok);
  _ ← (if is_ok r then ignore (ReleaseVF netConf ifName ns) else mret tt);
  ignore (ResetVFConfig netConf).

(** The IPAM part: the new result, and whether IPAM has run, so that the second
    deferred function is in force. *)
Definition run_ipam (netConf : NetConf) (req : PodRequest) : CM (result CniResult * bool) :=
  raw ← on_net (ipam_ExecAdd (IPAMType netConf) (Config (CNIReq req)));
  match raw with
  | Err e => mret (Err (errorf ("failed to set up IPAM plugin type " +:+ quote (IPAMType netConf) +:+ " from the device "
                                 +:+ quote (Master netConf) +:+ ": ") e), false)
  | Ok raw =>
      match ipam_NewResultFromResult raw with
      | Err e => mret (Err e, true)
      | Ok newResult =>
          let ips := IPs newResult in
          if (length ips =? 0)%nat then mret (Err (Text "IPAM plugin returned missing IP config"), true) else
          if DPDKMode netConf then mret (Ok newResult, true) else
          r ← ns_Do (Netns req) (
                call _ := net_err (ipam_ConfigureIface (PodNS (Netns req)) (IfName req) ips) or (λ e, e) in
                _ ← ignore (AnnounceIPs (PodNS (Netns req)) (IfName req) ips);
                ok);
          mret (rmap (λ _, newResult) r, true)
      end
  end.
Definition store_add (netConf : NetConf) (req : PodRequest) : CM (result unit) :=
  call _ := SaveNetConf (ContainerId req) DefaultCNIDir (IfName req) netConf or errorf "error saving NetConf " in
  call _ := SaveAllocatedPCI pciDir (ConfDeviceID netConf) (Netns req)
    or errorf ("error saving the pci allocation for vf pci address " +:+ ConfDeviceID netConf +:+ ": ") in
  ok.

(** What follows [ApplyVFConfig], with the deferred functions: the configuration
    returned is the one the caller sees afterwards. *)
Definition add_configured (netConf : NetConf) (req : PodRequest) : CM (result (CniResult * NetConf)) :=
  '(netConf, r) ← (if DPDKMode netConf then mret (netConf, Ok tt)
                   else '(c, r) ← SetupVF netConf (IfName req) (Netns req);
                        mret (c, rerr (errorf ("failed to set up pod interface " +:+ quote (IfName req)
                                                +:+ " from the device " +:+ quote (Master netConf) +:+ ": ")) r));
  let fail {A} (e : error) : CM (result A) :=
    _ ← add_cleanup netConf (IfName req) (Netns req); mret (Err e) in
  let fail_ipam {A} (e : error) : CM (result A) :=
    _ ← ignore (net_err (ipam_ExecDel (IPAMType netConf) (Config (CNIReq req)))); fail e in
  match r with
  | Err e => fail e
  | Ok _ =>
      let mac := GetMacAddressForResult netConf in
      let iface := {| IfaceName := IfName req; IfaceMac := mac; IfaceSandbox := Netns req |} in
      if given (IPAMType netConf) then
        '(r, undo) ← run_ipam netConf req;
        match r with
        | Err e => if undo : bool then fail_ipam e else fail e
        | Ok newResult =>
            let result := {| ResCNIVersion := ResCNIVersion newResult; Interfaces := [iface]; IPs := IPs newResult |} in
            s ← store_add netConf req;
            match s with Err e => fail_ipam e | Ok _ => mret (Ok (result, netConf)) end
        end
      else
        let result := {| ResCNIVersion := CNIVersion netConf; Interfaces := [iface]; IPs := [] |} in
        s ← store_add netConf req;
        match s with Err e => fail e | Ok _ => mret (Ok (result, netConf)) end
  end.

Definition CmdAdd (req : PodRequest) : CM (result (CniResult * NetConf)) :=
  call netConf := LoadConf (CNIConf req) or errorf "SRIOV-CNI failed to load netconf: " in
  let mac := if given (RuntimeMac netConf) then RuntimeMac netConf else MAC netConf in
  let netConf := netConf <| MAC := to_lower mac |> in
  ns ← on_net (ns_GetNS (Netns req));
  match ns with
  | NsNotExist e | NsError e => mret (Err (errorf "failed to open netns: " e))
  | NsFound =>
      (* The error of ApplyVFConfig is a new variable: the deferred cleanup does not see it. *)
      call _ := ApplyVFConfig netConf or errorf "SRIOV-CNI failed to configure VF " in
      add_configured netConf req
  end.

(** ** CmdDel *)

(** The body of [CmdDel] once the cached configuration is loaded.  The flag says
    whether the function's own [err], the one the deferred function looks at, is
    set at the return: the errors of the [if err := ...] statements and of the
    [netns, err :=] block are other variables. *)
Definition del_body (netConf : NetConf) (req : PodRequest) : CM (bool * result (bool * PodRequest)) :=
  ipam ← (if given (IPAMType netConf) then net_err (ipam_ExecDel (IPAMType netConf) (Config (CNIReq req))) else ok);
  match ipam with
  | Err e => mret (true, Err e)
  | Ok _ =>
      if String.eqb (Netns req) "" then mret (false, Ok (false, req)) else
      vf ← sysfs_read (λ fs, GetVfid fs (ConfDeviceID netConf) (Master netConf));
      match vf with
      | Err e => mret (false, Err (errorf "cmdDel() error obtaining VF ID: " e))
      | Ok _ =>
          r ← ResetVFConfig netConf;
          match r with
          | Err e => mret (false, Err (errorf "cmdDel() error reseting VF: " e))
          | Ok _ =>
              released ← (if DPDKMode netConf then mret (Ok true) else
                          ns ← on_net (ns_GetNS (Netns req));
                          match ns with
                          | NsNotExist _ => mret (Ok false)
                          | NsError e => mret (Err (errorf "failed to open netns: " e))
                          | NsFound => call _ := ReleaseVF netConf (IfName req) (Netns req) or (λ e, e) in mret (Ok true)
                          end);
              match released with
              | Err e => mret (false, Err e)
              | Ok false => mret (false, Ok (false, req))
              | Ok true =>
                  let req := req <| CNIConf := (CNIConf req) <| VFID := VFID netConf |> |> in
                  d ← DeleteAllocatedPCI pciDir (ConfDeviceID netConf);
                  mret (match d with
                        | Err e => (true, Err (errorf ("error cleaning the pci allocation for vf pci address "
                                                        +:+ ConfDeviceID netConf +:+ ": ") e))
                        | Ok _ => (false, Ok (true, req))
                        end)
              end
          end
      end
  end.
Definition CmdDel (req : PodRequest) : CM (result (bool * PodRequest)) :=
  cached ← LoadConfFromCache (ContainerId req) (IfName req);
  match cached with
  | Err _ => mret (Ok (false, req))
  | Ok (netConf, cRefPath) => defer_if_nil (ignore (CleanCachedNetConf cRefPath)) (del_body netConf req)
  end.
End Sriov.

(** * Lemmas *)

Section Lemmas.
Context {N : Type} `{!NetOps N}.
Abbreviation CM := (M (cni_world N)).

Lemma preserves_SetupVF c i ns : preserves files (SetupVF c i ns : CM _).
Proof. unfold SetupVF, ok. preserve. Qed.
Lemma preserves_ReleaseVF c i ns : preserves files (ReleaseVF c i ns : CM _).
Proof. unfold ReleaseVF, ok. preserve. Qed.
Lemma preserves_ResetVFConfig c : preserves files (ResetVFConfig c : CM _).
Proof. unfold ResetVFConfig, ok. preserve. Qed.
Lemma preserves_ApplyVFConfig c : preserves files (ApplyVFConfig c : CM _).
Proof. unfold ApplyVFConfig, ok. preserve. Qed.
#[local] Hint Resolve preserves_SetupVF preserves_ReleaseVF preserves_ResetVFConfig preserves_ApplyVFConfig : preserves.
Lemma preserves_add_cleanup c i ns : preserves files (add_cleanup c i ns : CM _).
Proof. unfold add_cleanup, ok. preserve. Qed.
Lemma preserves_run_ipam c req : preserves files (run_ipam c req : CM _).
Proof. unfold run_ipam, ok. preserve. Qed.
#[local] Hint Resolve preserves_add_cleanup preserves_run_ipam : preserves.

(** A configuration [LoadConf] lets through. *)
Record valid_conf (n : NetConf) : Prop := {
  valid_vlan : ∃ v, Vlan n = Some v ∧ (0 ≤ v ≤ 4094)%Z;
  valid_qos : ∃ q, VlanQoS n = Some q ∧ (0 ≤ q ≤ 7)%Z ∧ (q ≠ 0%Z → Vlan n ≠ Some 0%Z);
  valid_proto : VlanProto n = Some Proto8021q ∨ (VlanProto n = Some Proto8021ad ∧ Vlan n ≠ Some 0%Z);
  valid_link : LinkState n ∈ [""; "auto"; "enable"; "disable"] }.
(** The fields it does not decide. *)
Definition same_request (n n' : NetConf) : Prop :=
  MAC n' = MAC n ∧ RuntimeMac n' = RuntimeMac n ∧ IPAMType n' = IPAMType n ∧
  AdminMAC (OrigVfState n') = AdminMAC (OrigVfState n) ∧
  EffectiveMAC (OrigVfState n') = EffectiveMAC (OrigVfState n).

Lemma validate_conf_Ok n n' :
  validate_conf n = Ok n' → valid_conf n' ∧ same_request n n' ∧ ConfDeviceID n' = ConfDeviceID n.
Proof.
  unfold validate_conf. set (v := default 0%Z (Vlan n)). set (q := default 0%Z (VlanQoS n)).
  set (p := to_lower _).
  destruct (_ || _) eqn:E1; [done|]. destruct ((q <? 0)%Z || _) eqn:E2; [done|].
  destruct (negb (q =? 0)%Z && _) eqn:E3; [done|].
  destruct (negb (String.eqb p Proto8021ad) && _) eqn:E4; [done|].
  destruct (String.eqb p Proto8021ad && _) eqn:E5; [done|].
  destruct (negb (String.eqb (LinkState n) "") && _ && _ && _) eqn:E6; [done|]. intros [= <-].
  apply orb_false_elim in E1 as [?%Z.ltb_ge ?%Z.ltb_ge]. apply orb_false_elim in E2 as [?%Z.ltb_ge ?%Z.ltb_ge].
  split; [|done]. constructor; simpl.
  - exists v. split; [done|]. lia.
  - exists q. split; [done|]. split; [lia|]. intros Hq [= Hv].
    rewrite Hv, andb_true_r in E3. apply negb_false_iff, Z.eqb_eq in E3. done.
  - destruct (String.eqb_spec p Proto8021q) as [->|]; [by left|].
    destruct (String.eqb_spec p Proto8021ad) as [->|]; [right|by simpl in E4].
    split; [done|]. intros [= Hv]. by rewrite Hv in E5.
  - destruct (String.eqb_spec (LinkState n) ""), (String.eqb_spec (LinkState n) "auto"),
      (String.eqb_spec (LinkState n) "enable"), (String.eqb_spec (LinkState n) "disable"); set_solver.
Qed.

Lemma validate_returns n n' (w w' : cni_world N) :
  returns (mret (validate_conf n)) w w' (Ok n') → w' = w ∧ validate_conf n = Ok n'.
Proof. intros [-> H]%ret_returns. done. Qed.
Lemma same_request_trans a b c : same_request a b → same_request b c → same_request a c.
Proof. unfold same_request. intuition congruence. Qed.

(** What a successful [LoadConf] did: the device is free, and the configuration is
    valid and keeps what the request asked for. *)
Lemma LoadConf_returns n n' (w w' : cni_world N) :
  returns (LoadConf n) w w' (Ok n') →
  cache w' = cache w ∧ pci_dir w' = delete (Join [pciDir; ConfDeviceID n']) (pci_dir w) ∧
  valid_conf n' ∧ same_request n n'.
Proof.
  unfold LoadConf. destruct (String.eqb _ ""); [by intros [_ [=]]%ret_returns|].
  intros H. inv_call H as H0.
  assert (files w0 = files w ∧ same_request n a) as [[= Hc0 Hp0] Hs0].
  { destruct (bool_decide _); [|inv_ret H0; by split].
    inv_call H0 as H1%(preserves_returns files _ _ _ _ (preserves_sysfs _)). inv_ret H0. unfold files in *; repeat split; congruence. }
  inv_call H as [= Hc1 Hp1]%(preserves_returns files _ _ _ _ (preserves_sysfs _)). destruct a0 as [pf vf].
  inv_call H as H2. destruct a0; [by inv_ret H|]. apply IsAllocated_false in H2 as [Hc2 Hp2].
  inv_bind H as [= Hc3 Hp3]%(preserves_returns files _ _ _ _ (preserves_sysfs _)).
  set (m := a <| VFID := vf |> <| Master := pf |>) in *.
  inv_call H as H4.
  assert (files w4 = files w3 ∧ same_request m a1 ∧ ConfDeviceID a1 = ConfDeviceID m) as ([= Hc4 Hp4] & Hs4 & Hd4).
  { destruct (String.eqb _ ""); [|inv_ret H4; by split].
    inv_call H4 as H5%(preserves_returns files _ _ _ _ (preserves_sysfs _)). inv_ret H4. unfold files in *; repeat split; congruence. }
  destruct (_ && negb (DPDKMode a1)); [by inv_ret H|].
  apply validate_returns in H as [-> Hv]. apply validate_conf_Ok in Hv as (Hv & Hsv & Hdv).
  assert (same_request n n') as Hs.
  { eapply same_request_trans; [exact Hs0|]. eapply same_request_trans; [|exact Hsv]. exact Hs4. }
  rewrite Hdv, Hd4. repeat split; try apply Hv; try apply Hs; try congruence.
Qed.

Lemma store_add_returns c req (w w' : cni_world N) :
  returns (store_add c req) w w' (Ok tt) →
  cache w' = <[cache_path (ContainerId req) (IfName req) := json_roundtrip c]> (cache w) ∧
  pci_dir w' = <[Join [pciDir; ConfDeviceID c] := Netns req]> (pci_dir w).
Proof.
  unfold store_add. intros H. inv_call H as H1. inv_call H as H2. inv_ret H. destruct a, a0.
  apply SaveNetConf_returns in H1 as [Hc1 Hp1]. apply SaveAllocatedPCI_returns in H2 as [Hc2 Hp2].
  unfold cache_path; split; congruence.
Qed.

(** [c'] is [c] up to the effective MAC address [SetupVF] records. *)
Definition same_conf (c c' : NetConf) : Prop :=
  ∃ vs, AdminMAC vs = AdminMAC (OrigVfState c) ∧ c' = c <| OrigVfState := vs |>.
Lemma same_conf_refl c : same_conf c c.
Proof. exists (OrigVfState c). split; [done|]. by destruct c. Qed.
Lemma same_conf_valid c c' : same_conf c c' → valid_conf c → valid_conf c'.
Proof. intros (vs & _ & ->) [? ? ? ?]. by constructor. Qed.
Lemma SetupVF_returns c i ns (w w' : cni_world N) c' r :
  returns (SetupVF c i ns) w w' (c', r) → same_conf c c'.
Proof.
  unfold SetupVF. intros H. inv_bind H as _. destruct a as [l|e]; [|inv_ret H; apply same_conf_refl].
  inv_bind H as _. inv_ret H. eexists. by split; [|reflexivity].
Qed.

Lemma add_configured_returns c req (w w' : cni_world N) res c' :
  returns (add_configured c req) w w' (Ok (res, c')) →
  cache w' = <[cache_path (ContainerId req) (IfName req) := json_roundtrip c']> (cache w) ∧
  pci_dir w' = <[Join [pciDir; ConfDeviceID c'] := Netns req]> (pci_dir w) ∧
  same_conf c c' ∧ (DPDKMode c = true → c' = c).
Proof.
  unfold add_configured. intros H. inv_bind H as H0. destruct a as [c1 r].
  assert (files w0 = files w ∧ same_conf c c1 ∧ (DPDKMode c = true → c1 = c)) as ([= Hc0 Hp0] & Hs & Hdpdk).
  { destruct (DPDKMode c); [inv_ret H0; split; [done|split; [apply same_conf_refl|done]]|]. inv_bind H0 as H1. destruct a as [c2 r2]. inv_ret H0.
    split; [|split; [by eapply SetupVF_returns|done]]. eapply (preserves_returns files); [|exact H1]. apply preserves_SetupVF. }
  destruct r as [u|e]; [|inv_bind H as _; by inv_ret H].
  destruct (given (IPAMType c1)).
  - inv_bind H as [= Hc1 Hp1]%(preserves_returns files _ _ _ _ (preserves_run_ipam _ _)). destruct a as [[nr|e] undo].
    + inv_bind H as H2. destruct a as [[]|e]; [|inv_bind H as _; inv_bind H as _; by inv_ret H].
      inv_ret H. apply store_add_returns in H2 as [Hc2 Hp2]. split; [congruence|]. split; [congruence|done].
    + destruct undo; [inv_bind H as _|]; inv_bind H as _; by inv_ret H.
  - inv_bind H as H2. destruct a as [[]|e]; [|inv_bind H as _; by inv_ret H].
    inv_ret H. apply store_add_returns in H2 as [Hc2 Hp2]. split; [congruence|]. split; [congruence|done].
Qed.

Lemma CmdAdd_returns req (w w' : cni_world N) res c :
  returns (CmdAdd req) w w' (Ok (res, c)) →
  ∃ w1 n, returns (LoadConf (CNIConf req)) w w1 (Ok n) ∧
    let m := n <| MAC := to_lower (if given (RuntimeMac n) then RuntimeMac n else MAC n) |> in
    same_conf m c ∧ (DPDKMode n = true → c = m) ∧
    cache w' = <[cache_path (ContainerId req) (IfName req) := json_roundtrip c]> (cache w) ∧
    pci_dir w' = <[Join [pciDir; ConfDeviceID c] := Netns req]> (pci_dir w).
Proof.
  unfold CmdAdd. intros H. inv_call H as H0. exists w0, a. split; [done|].
  inv_bind H as [= Hc1 Hp1]%(preserves_returns files _ _ _ _ (preserves_on_net _)).
  destruct a0; [|by inv_ret H..].
  inv_call H as [= Hc2 Hp2]%(preserves_returns files _ _ _ _ (preserves_ApplyVFConfig _)).
  apply add_configured_returns in H as (Hc3 & Hp3 & Hs & Hd). split; [done|]. split; [done|].
  apply LoadConf_returns in H0 as (Hc0 & Hp0 & _ & _). split; [congruence|].
  rewrite Hp3, Hp2, Hp1, Hp0. destruct Hs as (vs & _ & ->). simpl. apply insert_delete_eq.
Qed.

(** A successful deletion went through a reset and, as the cached configuration
    never says DPDK, a release. *)
Lemma del_body_true c req (w w' : cni_world N) b req' :
  returns (del_body c req) w w' (b, Ok (true, req')) →
  b = false ∧ VFID (CNIConf req') = VFID c ∧
  (∃ w1 w2, returns (ResetVFConfig c) w1 w2 (Ok tt)) ∧
  (DPDKMode c = false → ∃ w1 w2, returns (ReleaseVF c (IfName req) (Netns req)) w1 w2 (Ok tt)) ∧
  cache w' = cache w ∧ pci_dir w' = delete (Join [pciDir; ConfDeviceID c]) (pci_dir w).
Proof.
  unfold del_body. intros H.
  inv_bind H as H0. assert (files w0 = files w) as [= Hc0 Hp0].
  { destruct (given _); [|by inv_ret H0]. by apply net_err_returns in H0. }
  destruct a as [u|e]; [|by inv_ret H]. destruct (String.eqb _ ""); [by inv_ret H|].
  inv_bind H as [= Hc1 Hp1]%(preserves_returns files _ _ _ _ (preserves_sysfs _)). destruct a as [vf|e]; [|by inv_ret H].
  inv_bind H as H2. destruct a as [[]|e]; [|by inv_ret H].
  pose proof (preserves_returns files _ _ _ _ (preserves_ResetVFConfig _) H2) as [= Hc2 Hp2].
  inv_bind H as H3.
  assert (files w3 = files w2 ∧ (a = Ok true → DPDKMode c = false →
    ∃ w1 w2, returns (ReleaseVF c (IfName req) (Netns req)) w1 w2 (Ok tt))) as [[= Hc3 Hp3] Hrel].
  { destruct (DPDKMode c); [by inv_ret H3|].
    inv_bind H3 as Hf%(preserves_returns files _ _ _ _ (preserves_on_net _)). rewrite <-Hf.
    destruct a0; [|by inv_ret H3..].
    inv_call H3 as Hr; pose proof (preserves_returns files _ _ _ _ (preserves_ReleaseVF _ _ _) Hr) as Hf2.
    { inv_ret H3. split; [done|]. destruct a0. eauto. }
    }
  destruct a as [[]|e]; [|by inv_ret H..].
  inv_bind H as Hd. destruct a as [[]|e]; [|by inv_ret H]. inv_ret H.
  apply DeleteAllocatedPCI_returns in Hd as (Hc4 & _ & Hp4).
  split; [done|]. split; [done|]. split; [eauto|]. split; [auto|]. split; congruence.
Qed.

Lemma LoadConfFromCache_returns cid ifn (w w' : cni_world N) r :
  returns (LoadConfFromCache cid ifn) w w' r →
  files w' = files w ∧ (∀ c p, r = Ok (c, p) → cache w !! cache_path cid ifn = Some c ∧ p = cache_path cid ifn).
Proof.
  unfold LoadConfFromCache, ReadScratchNetConf. intros H. split.
  { eapply (preserves_returns files); [|exact H]. preserve. }
  intros c p ->. inv_call H as H0. inv_ret H. split; [|done].
  inv_call H0 as [= Hc _]%net_err_returns. inv_bind H0 as [-> ->]%reads_returns. rewrite <-Hc.
  apply ret_returns in H0 as [_ H0]. destruct (cache w1 !! cache_path cid ifn); [by injection H0 as ->|done].
Qed.

Lemma GetNS_found ns (w w' : cni_world N) r :
  (∀ m, (ns_GetNS ns m).2 = NsFound) → returns (on_net (ns_GetNS ns)) w w' r → r = NsFound.
Proof.
  unfold returns, on_net. intros Hns. specialize (Hns (net w)). destruct (ns_GetNS ns (net w)). naive_solver.
Qed.
(** An allocated device whose namespace exists is refused. *)
Lemma LoadConf_free n n' (w w' : cni_world N) ns :
  (∀ m, (ns_GetNS ns m).2 = NsFound) →
  pci_dir w !! Join [pciDir; ConfDeviceID n'] = Some ns →
  returns (LoadConf n) w w' (Ok n') → False.
Proof.
  intros Hns Hp H. unfold LoadConf in H. destruct (String.eqb _ ""); [by apply ret_returns in H as [_ [=]]|].
  inv_call H as H0. assert (files w0 = files w) as [= Hc0 Hp0].
  { destruct (bool_decide _); [|by inv_ret H0].
    inv_call H0 as H1%(preserves_returns files _ _ _ _ (preserves_sysfs _)). by inv_ret H0. }
  inv_call H as [= Hc1 Hp1]%(preserves_returns files _ _ _ _ (preserves_sysfs _)). destruct a0 as [pf vf].
  inv_call H as H2. destruct a0; [by inv_ret H|].
  assert (ConfDeviceID n' = ConfDeviceID a) as Hd.
  { inv_bind H as _. inv_call H as H4.
    destruct (String.eqb _ ""); [inv_call H4 as _|]; inv_ret H4; destruct (_ && _); try (by inv_ret H);
      apply validate_returns in H as [_ Hv]; apply validate_conf_Ok in Hv as (_ & _ & ->); done. }
  unfold IsAllocated in H2. inv_call H2 as [= Hc3 Hp3]%net_err_returns. inv_bind H2 as [-> ->]%reads_returns.
  simpl in H2. rewrite Hp3, Hp1, Hp0, <-Hd, Hp in H2. inv_call H2 as _. inv_bind H2 as Hg.
  apply (GetNS_found _ _ _ _ Hns) in Hg as ->. by inv_ret H2.
Qed.

Lemma CmdDel_true req (w w' : cni_world N) req' :
  returns (CmdDel req) w w' (Ok (true, req')) →
  ∃ c, let p := cache_path (ContainerId req) (IfName req) in
    cache w !! p = Some c ∧ VFID (CNIConf req') = VFID c ∧
    (∃ w1 w2, returns (ResetVFConfig c) w1 w2 (Ok tt)) ∧
    (DPDKMode c = false → ∃ w1 w2, returns (ReleaseVF c (IfName req) (Netns req)) w1 w2 (Ok tt)) ∧
    pci_dir w' = delete (Join [pciDir; ConfDeviceID c]) (pci_dir w) ∧
    (cache w' = cache w ∨ cache w' = delete p (cache w)).
Proof.
  unfold CmdDel. intros H. inv_bind H as Hl. apply LoadConfFromCache_returns in Hl as [[= Hc0 Hp0] Hl].
  destruct a as [[c p]|e]; [|by apply ret_returns in H as [_ [=]]].
  destruct (Hl c p eq_refl) as [Hc ->]. exists c. simpl. split; [done|].
  unfold returns, defer_if_nil in H. destruct (del_body c req w0) as [w1 [[b r]|]] eqn:Hb;
    [|by apply bind_returns in H as (? & ? & _ & H)].
  assert (r = Ok (true, req') ∧ pci_dir w' = pci_dir w1 ∧
    (cache w' = cache w1 ∨ cache w' = delete (cache_path (ContainerId req) (IfName req)) (cache w1))) as (-> & Hp1 & Hc1).
  { destruct b; [naive_solver|]. apply bind_returns in H as (w2 & u & Hi & Hr). inv_ret Hr.
    apply ignore_returns in Hi as [r' Hcl]. apply CleanCachedNetConf_returns in Hcl. naive_solver. }
  apply del_body_true in Hb as (_ & Hv & Hreset & Hrel & Hc2 & Hp2). rewrite Hp1, Hp2, Hp0, Hc2, Hc0 in *. eauto 10.
Qed.

Lemma ResetVFConfig_mac c (w w' : cni_world N) :
  MAC c ≠ "" → AdminMAC (OrigVfState c) = "" → returns (ResetVFConfig c) w w' (Ok tt) → False.
Proof.
  unfold ResetVFConfig, given. intros Hm Ha H. rewrite Ha, (proj2 (String.eqb_neq _ _) Hm) in H. simpl in H.
  inv_call H as _. inv_call H as _. inv_call H as _. inv_call H as Hs.
  destruct (SetVFHardwareMAC_empty (Master c) (VFID c) w2) as [e He]. unfold returns in Hs. by rewrite He in Hs.
Qed.
Lemma ReleaseVF_no_link c ifn ns (w w' : cni_world N) :
  (∀ n, ∃ n' e, nl_LinkByName (PodNS ns) ifn n = (n', Err e)) → returns (ReleaseVF c ifn ns) w w' (Ok tt) → False.
Proof.
  unfold ReleaseVF, ns_Do. intros Hl H. inv_call H as _. inv_call H as _. inv_call H as Hn.
  unfold returns, on_net in Hn. destruct (Hl (net w1)) as (n' & e & He). by rewrite He in Hn.
Qed.

(** On an operating system that refuses nothing. *)
Lemma LoadConfFromCache_quiet cid ifn (w : cni_world N) c :
  (∀ op path n, os_fault op path n = (n, None)) → cache w !! cache_path cid ifn = Some c →
  LoadConfFromCache cid ifn w = (w, Ret (Ok (c, cache_path cid ifn))).
Proof.
  intros Hos Hc. unfold LoadConfFromCache, ReadScratchNetConf, try_bind, net_err, on_net, reads, mbind, M_bind, mret, M_ret.
  rewrite Hos. simpl. destruct w. simpl in *. by rewrite Hc.
Qed.
Lemma CmdDel_missing req (w : cni_world N) :
  (∀ op path n, os_fault op path n = (n, None)) → cache w !! cache_path (ContainerId req) (IfName req) = None →
  CmdDel req w = (w, Ret (Ok (false, req))).
Proof.
  intros Hos Hc. unfold CmdDel, LoadConfFromCache, ReadScratchNetConf, try_bind, net_err, on_net, reads, mbind, M_bind, mret, M_ret.
  rewrite Hos. simpl. destruct w. simpl in *. by rewrite Hc.
Qed.
Lemma CleanCachedNetConf_quiet p (w : cni_world N) {A} (r : A) :
  (∀ op path n, os_fault op path n = (n, None)) → is_Some (cache w !! p) →
  (_ ← ignore (CleanCachedNetConf p : CM _); mret r) w = (w <| cache := delete p (cache w) |>, Ret r).
Proof.
  intros Hos [c Hc]. unfold ignore, CleanCachedNetConf, try_bind, net_err, on_net, reads, writes, mbind, M_bind, mret, M_ret.
  rewrite Hos. simpl. destruct w. simpl in *. by rewrite Hc.
Qed.
End Lemmas.

(** * Theorems *)

(** C22: a successful [CmdAdd] hands out a configuration within the ranges of the
    CNI (VLAN, priority, protocol, link state), caches it under the container and
    the interface, records the device as allocated to the pod's namespace, and
    changes no other cached configuration and no other allocation. *)
Theorem CmdAdd_records {N} `{!NetOps N} req (w w' : cni_world N) res conf :
  CmdAdd req w = (w', Ret (Ok (res, conf))) →
  valid_conf conf ∧
  cache w' = <[cache_path (ContainerId req) (IfName req) := json_roundtrip conf]> (cache w) ∧
  pci_dir w' = <[Join [pciDir; ConfDeviceID conf] := Netns req]> (pci_dir w).
Proof.
  intros H. apply CmdAdd_returns in H as (w1 & n & Hl & Hs & _ & Hc & Hp). split; [|done].
  apply LoadConf_returns in Hl as (_ & _ & [? ? ? ?] & _). eapply same_conf_valid; [exact Hs|]. by constructor.
Qed.


(** A virtual function that was given a MAC address is never released: the
    original administrative address was never recorded, so the reset of the cached
    configuration tries to set an empty address, and no [CmdDel] for it succeeds. *)
Theorem CmdDel_mac_never_releases {N} `{!NetOps N} req dreq (w w1 w2 w3 : cni_world N) res conf req' :
  CmdAdd req w = (w1, Ret (Ok (res, conf))) →
  AdminMAC (OrigVfState (CNIConf req)) = "" → MAC conf ≠ "" →
  ContainerId dreq = ContainerId req → IfName dreq = IfName req →
  let p := cache_path (ContainerId req) (IfName req) in
  cache w2 !! p = cache w1 !! p →
  CmdDel dreq w2 ≠ (w3, Ret (Ok (true, req'))).
Proof.
  intros Ha Hadm Hmac Hcid Hifn p Hst Hd. apply CmdAdd_returns in Ha as (w1' & n & Hl & (vs & Hvs & ->) & _ & Hc & _).
  apply LoadConf_returns in Hl as (_ & _ & _ & (_ & _ & _ & Hadm' & _)). simpl in Hvs.
  apply CmdDel_true in Hd as (c & Hcc & _ & (wa & wb & Hr) & _). rewrite Hcid, Hifn in Hcc.
  unfold p in Hst. rewrite Hst, Hc, lookup_insert_eq in Hcc. injection Hcc as <-.
  eapply ResetVFConfig_mac; [| |exact Hr]; simpl; [done|congruence].
Qed.

(** A virtual function bound to a userspace driver is never released if its pod
    has no network interface of that name: the cached configuration forgets that the
    device is in DPDK mode, and [CmdDel] looks for the interface. *)
Theorem CmdDel_dpdk_never_releases {N} `{!NetOps N} req dreq (w w1 w2 w3 : cni_world N) res conf req' :
  CmdAdd req w = (w1, Ret (Ok (res, conf))) →
  ContainerId dreq = ContainerId req → IfName dreq = IfName req →
  (∀ n, ∃ n' e, nl_LinkByName (PodNS (Netns dreq)) (IfName dreq) n = (n', Err e)) →
  let p := cache_path (ContainerId req) (IfName req) in
  cache w2 !! p = cache w1 !! p →
  CmdDel dreq w2 ≠ (w3, Ret (Ok (true, req'))).
Proof.
  intros Ha Hcid Hifn Hlink p Hst Hd. apply CmdAdd_returns in Ha as (w1' & n & _ & _ & _ & Hc & _).
  apply CmdDel_true in Hd as (c & Hcc & _ & _ & Hrel & _). rewrite Hcid, Hifn in Hcc.
  unfold p in Hst. rewrite Hst, Hc, lookup_insert_eq in Hcc. injection Hcc as <-.
  destruct (Hrel eq_refl) as (wa & wb & Hr). by eapply ReleaseVF_no_link.
Qed.

(** When [CmdDel] reports a release, the request carries the cached VF number,
    the device's allocation is gone, every other allocation stands, and of the cached
    configurations at most this one is gone. *)
Theorem CmdDel_released {N} `{!NetOps N} req (w w' : cni_world N) req' :
  CmdDel req w = (w', Ret (Ok (true, req'))) →
  ∃ conf, let p := cache_path (ContainerId req) (IfName req) in
    cache w !! p = Some conf ∧ VFID (CNIConf req') = VFID conf ∧
    pci_dir w' = delete (Join [pciDir; ConfDeviceID conf]) (pci_dir w) ∧
    (cache w' = cache w ∨ cache w' = delete p (cache w)).
Proof. intros H. apply CmdDel_true in H as (c & Hc & Hv & _ & _ & Hp & Hd). exists c. eauto. Qed.

(** When resetting the device fails, [CmdDel] reports the error but drops the
    cached configuration: the retry finds nothing, reports success without a release,
    and the device stays allocated (an operating system that refuses nothing is
    assumed). *)
Theorem CmdDel_retry_leaks {N} `{!NetOps N} req (w w1 : cni_world N) conf vf e :
  (∀ op path n, os_fault op path n = (n, None)) →
  cache w !! cache_path (ContainerId req) (IfName req) = Some conf →
  IPAMType conf = "" → Netns req ≠ "" →
  GetVfid (the_fs (net w)) (ConfDeviceID conf) (Master conf) = Ok vf →
  ResetVFConfig conf w = (w1, Ret (Err e)) →
  ∃ w2 e2, CmdDel req w = (w2, Ret (Err e2)) ∧ pci_dir w2 = pci_dir w ∧ CmdDel req w2 = (w2, Ret (Ok (false, req))).
Proof.
  intros Hos Hc Hipam Hns Hvf Hr.
  pose proof (preserves_ResetVFConfig conf w) as [= Hc1 Hp1]; rewrite Hr in Hc1, Hp1; simpl in Hc1, Hp1.
  set (p := cache_path (ContainerId req) (IfName req)) in *.
  exists (w1 <| cache := delete p (cache w1) |>), (errorf "cmdDel() error reseting VF: " e).
  split; [|split; [done|]].
  - unfold CmdDel. erewrite bind_run; [|by apply LoadConfFromCache_quiet]. unfold defer_if_nil.
    assert (del_body conf req w = (w1, Ret (false, Err (errorf "cmdDel() error reseting VF: " e)))) as ->.
    { unfold del_body. rewrite Hipam. erewrite bind_run; [|reflexivity]. cbv beta iota.
      rewrite (proj2 (String.eqb_neq _ _) Hns). cbv iota.
      erewrite (bind_run (sysfs_read _)); [|unfold sysfs_read, reads; by rewrite Hvf]. cbv beta iota.
      by erewrite bind_run; [|exact Hr]. }
    apply CleanCachedNetConf_quiet; [done|]. fold p. rewrite Hc1, Hc. eauto.
  - apply CmdDel_missing; [done|]. simpl. apply lookup_delete_eq.
Qed.

(** * Witnesses *)
Module SriovDemo.
(** A machine with one PF, two VFs and no IPAM.  The state is the VFs' hardware
    address and whether they are bound to a userspace driver; the pod namespaces
    below [/dpdk] hold no interface. *)
Definition machine : Type := HardwareAddr * bool.
Definition vfi (m : HardwareAddr) : VfInfo :=
  {| vi_ID := 0; vi_Mac := m; vi_Vlan := 0; vi_Qos := 0; vi_VlanProto := 0; vi_LinkState := 0;
     vi_MaxTxRate := 0; vi_MinTxRate := 0; vi_Spoofchk := true; vi_Trust := 0 |}.
Definition link (n : machine) : Link :=
  {| lk_index := 7; lk_name := "eth0"; lk_mac := n.1; lk_up := true; lk_alias := ""; lk_vfs := [vfi n.1; vfi n.1] |}.
Definition demo_fs (n : machine) : hostfs :=
  {| base_fs := {| ReadDir p := if n.2 && has_suffix ".1/net" p then Ok []
                                else Ok [{| EntryName := "eth0"; IsDir := true |}];
                   ReadFile p := Ok "2";
                   Readlink p := Ok (if has_suffix "virtfn0" p then "../0000:06:00.1" else "../0000:06:00.2") |};
     Lstat p := Ok true; EvalSymlinks p := Ok "/sys/bus/pci/drivers/vfio-pci"; Stat p := None |}.
#[export] Instance demo_net : NetOps machine :=
  {| os_fault _ _ n := (n, None); the_fs := demo_fs;
     ns_GetNS _ n := (n, NsFound); ns_GetCurrentNS n := (n, None); ns_enter _ n := (n, None);
     nl_LinkByName ns _ n :=
       match ns with
       | PodNS p => if has_prefix "/dpdk" p then (n, Err (Text "Link not found")) else (n, Ok (link n))
       | HostNS => (n, Ok (link n))
       end;
     nl_LinkSetUp _ _ n := (n, None); nl_LinkSetDown _ _ n := (n, None); nl_LinkSetName _ _ _ n := (n, None);
     nl_LinkSetAlias _ _ _ n := (n, None); nl_LinkSetNsFd _ _ _ n := (n, None);
     nl_LinkSetHardwareAddr _ _ m n := ((m, n.2), None); nl_LinkSetVfHardwareAddr _ _ m n := ((m, n.2), None);
     nl_LinkSetVfVlanQosProto _ _ _ _ _ n := (n, None); nl_LinkSetVfRate _ _ _ _ n := (n, None);
     nl_LinkSetVfSpoofchk _ _ _ n := (n, None); nl_LinkSetVfTrust _ _ _ n := (n, None);
     nl_LinkSetVfState _ _ _ n := (n, None); send_raw _ _ n := (n, None);
     ipam_ExecAdd _ _ n := (n, Ok ""); ipam_NewResultFromResult _ := Err (Text "");
     ipam_ExecDel _ _ n := (n, None); ipam_ConfigureIface _ _ _ n := (n, None) |}.
Definition req (container device mac ns : string) : PodRequest :=
  mkPodRequest CNIAdd "default" "pod" "" container ns "net1" "/opt/cni/bin"
    (zero_NetConf <| ConfDeviceID := device |> <| DeviceIDType := DeviceIDTypePCI |> <| MAC := mac |>)
    {| Env := ∅; Config := "" |} "net".
Definition w0 (dpdk : bool) : cni_world machine := mkWorld ∅ ∅ ([2; 0; 0; 0; 0; 1]%Z, dpdk).
Definition plain := req "c1" "0000:06:00.1" "" "/proc/1/ns/net".
Definition other := req "c2" "0000:06:00.2" "" "/proc/2/ns/net".
Definition with_mac := req "c1" "0000:06:00.1" "02:00:00:00:00:99" "/proc/1/ns/net".
Definition dpdk := req "c1" "0000:06:00.1" "" "/dpdk/1".
(** A run of [CmdAdd]: the world, the result and the configuration after it. *)
Definition run (r : PodRequest) (w : cni_world machine) : cni_world machine * CniResult * NetConf :=
  match CmdAdd r w with
  | (w, Ret (Ok (res, c))) => (w, res, c)
  | (w, _) => (w, {| ResCNIVersion := ""; Interfaces := []; IPs := [] |}, zero_NetConf)
  end.
Definition ran (r : PodRequest) (w : cni_world machine) : Prop :=
  CmdAdd r w = ((run r w).1.1, Ret (Ok ((run r w).1.2, (run r w).2))).
Lemma ran_plain : ran plain (w0 false).
Proof. vm_compute. reflexivity. Qed.
Lemma ran_other : ran other (run plain (w0 false)).1.1.
Proof. vm_compute. reflexivity. Qed.
Lemma ran_mac : ran with_mac (w0 false).
Proof. vm_compute. reflexivity. Qed.
Lemma ran_dpdk : ran dpdk (w0 true).
Proof. vm_compute. reflexivity. Qed.
Definition released := (CmdDel plain (run plain (w0 false)).1.1).1.
Definition released_req : PodRequest := plain <| CNIConf := (CNIConf plain) <| VFID := 0%Z |> |>.
Lemma ran_del : CmdDel plain (run plain (w0 false)).1.1 = (released, Ret (Ok (true, released_req))).
Proof. vm_compute. reflexivity. Qed.
(** The cached configuration of a VF with a MAC address, and its failing reset. *)
Definition mac_world := (run with_mac (w0 false)).1.1.
Definition mac_conf := json_roundtrip (run with_mac (w0 false)).2.
Definition reset_error : error :=
  match (ResetVFConfig mac_conf mac_world).2 with Ret (Err e) => e | _ => Text "" end.
Lemma mac_cached : cache mac_world !! cache_path (ContainerId with_mac) (IfName with_mac) = Some mac_conf.
Proof. vm_compute. reflexivity. Qed.
Lemma mac_reset : ResetVFConfig mac_conf mac_world = ((ResetVFConfig mac_conf mac_world).1, Ret (Err reset_error)).
Proof. vm_compute. reflexivity. Qed.
Lemma mac_vf : GetVfid (the_fs (net mac_world)) (ConfDeviceID mac_conf) (Master mac_conf) = Ok 0%Z.
Proof. vm_compute. reflexivity. Qed.
Lemma mac_conf_fields : MAC (run with_mac (w0 false)).2 ≠ "" ∧ IPAMType mac_conf = "".
Proof. by vm_compute. Qed.
Lemma dev_plain : ConfDeviceID (run plain (w0 false)).2 = "0000:06:00.1".
Proof. vm_compute. reflexivity. Qed.
End SriovDemo.
Import SriovDemo.

Lemma CmdAdd_records_witness :
  pci_dir (run plain (w0 false)).1.1 = {["/var/lib/cni/dpusriov/pci/0000:06:00.1" := "/proc/1/ns/net"]}.
Proof.
  destruct (CmdAdd_records plain _ _ _ _ ran_plain) as (_ & _ & ->). rewrite dev_plain. vm_compute. reflexivity.
Defined.
Lemma CmdDel_mac_never_releases_witness :
  CmdDel with_mac mac_world ≠ (w0 false, Ret (Ok (true, with_mac))).
Proof.
  exact (CmdDel_mac_never_releases with_mac with_mac _ _ mac_world (w0 false) _ _ with_mac ran_mac eq_refl
           (proj1 mac_conf_fields) eq_refl eq_refl eq_refl).
Defined.
Lemma CmdDel_dpdk_never_releases_witness : (CmdDel dpdk (run dpdk (w0 true)).1.1).2 ≠ Ret (Ok (true, dpdk)).
Proof.
  intros H. refine (CmdDel_dpdk_never_releases dpdk dpdk _ _ (run dpdk (w0 true)).1.1
    (CmdDel dpdk (run dpdk (w0 true)).1.1).1 _ _ dpdk ran_dpdk eq_refl eq_refl _ eq_refl _).
  - intros n. by exists n, (Text "Link not found").
  - rewrite <-H. apply surjective_pairing.
Defined.
Lemma CmdDel_released_witness : ∃ conf,
  cache (run plain (w0 false)).1.1 !! cache_path "c1" "net1" = Some conf ∧ VFID conf = 0%Z.
Proof.
  destruct (CmdDel_released plain _ _ _ ran_del) as (c & Hc & Hv & _). by exists c.
Defined.
Lemma CmdDel_retry_leaks_witness : ∃ w2, CmdDel with_mac w2 = (w2, Ret (Ok (false, with_mac))).
Proof.
  destruct (CmdDel_retry_leaks with_mac mac_world (ResetVFConfig mac_conf mac_world).1 mac_conf 0 reset_error)
    as (w2 & e2 & _ & _ & H).
  - intros op path n. reflexivity.
  - exact mac_cached.
  - exact (proj2 mac_conf_fields).
  - discriminate.
  - exact mac_vf.
  - exact mac_reset.
  - by exists w2.
Defined.
