(* ===== verification/CniServer.v ===== *)
(** The CNI request path: the shim the container runtime calls
    (dpu-cni/pkgs/cni, cnihelper) and the server in the daemon that takes the
    request apart and hands it to the side managers (dpu-cni/pkgs/cniserver).

    [encoding/json] on the message types is a parameter, the record [codec]. *)
From S2P Require Import Prelude Plugin GoMonad CniTypes.
#[local] Open Scope stdpp_scope.

(** [json.Unmarshal] of a configuration (with the raw previous result, if any), and
    [encoding/json] on requests and responses, [fmt]'s [%v] of a request;
    [version.ParsePrevResult]. *)
Record codec := {
  unmarshal_NetConf : string → result (NetConf * option string);
  unmarshal_Request : string → result Request;
  marshal_Request : Request → result string;
  print_Request : Request → string;
  unmarshal_Response : string → result (option CniResult);
  marshal_Response : option CniResult → result string;
  ParsePrevResult : string → option error }.

(** * cnihelper.go *)

(** The environment as [os.Environ] lists it, [key=value] each. *)
Fixpoint cut_at (sep : ascii) (s : string) : option (string * string) :=
  match s with
  | EmptyString => None
  | String c s =>
      if Ascii.eqb c sep then Some ("", s)
      else match cut_at sep s with Some (a, b) => Some (String c a, b) | None => None end
  end.
Definition env_map (environ : list string) : gmap string string :=
  foldl (λ m item, match cut_at "=" item with
                   | Some (EmptyString, _) | None => m
                   | Some (k, v) => <[trim_space k := v]> m
                   end) ∅ environ.
Definition NewCNIRequest (environ : list string) (stdinData : string) : Request :=
  {| Env := env_map environ; Config := stdinData |}.

Section Server.
Context (js : codec).

Definition ReadCNIConfig (bytes : string) : result NetConf :=
  let? (conf, prev) := unmarshal_NetConf js bytes in
  let k := if String.eqb (ConfDeviceID conf) "" then Ok conf
           else let? (normalized, deviceType) := NormalizeDeviceID (ConfDeviceID conf) in
                Ok (conf <| ConfDeviceID := normalized |> <| DeviceIDType := deviceType |>) in
  match prev with
  | Some raw => match ParsePrevResult js raw with Some e => Err e | None => k end
  | None => k
  end.

(** * cniserver.go *)

Definition missing (what : string) : error := Text ("missing " +:+ what).
Definition lookup_env (env : gmap string string) (key : string) : result string :=
  match env !! key with Some v => Ok v | None => Err (missing key) end.

Fixpoint gather_args (args : list string) (mapArgs : gmap string string) : result (gmap string string) :=
  match args with
  | [] => Ok mapArgs
  | arg :: args =>
      match split_char "=" arg with
      | [k; v] => gather_args args (<[trim_space k := trim_space v]> mapArgs)
      | _ => Err (Text ("invalid CNI_ARG '" +:+ arg +:+ "'"))
      end
  end.
Definition gatherCNIArgs (env : gmap string string) : result (gmap string string) :=
  let? cniArgs := lookup_env env "CNI_ARGS" in
  gather_args (split_char ";" cniArgs) ∅.

Definition cni_args (req : PodRequest) : string :=
  "IgnoreUnknown=true;K8S_POD_NAMESPACE=" +:+ PodNamespace req +:+ ";K8S_POD_NAME=" +:+ PodName req
  +:+ ";K8S_POD_UID=" +:+ PodUID req.
Definition cniRequestSetEnv (req : PodRequest) (env : gmap string string) : gmap string string :=
  <["CNI_ARGS" := cni_args req]> (<["CNI_PATH" := Path req]> (<["CNI_IFNAME" := IfName req]>
  (<["CNI_NETNS" := Netns req]> (<["CNI_CONTAINERID" := ContainerId req]> (<["CNI_COMMAND" := Command req]> env))))).
Definition cniRequestEnvCleanup (env : gmap string string) : gmap string string :=
  delete "CNI_ARGS" (delete "CNI_PATH" (delete "CNI_IFNAME" (delete "CNI_NETNS"
    (delete "CNI_CONTAINERID" (delete "CNI_COMMAND" env))))).

Definition cniRequestToPodRequest (cr : Request) : result PodRequest :=
  let env := Env cr in
  let? cmd := lookup_env env "CNI_COMMAND" in
  let? container := lookup_env env "CNI_CONTAINERID" in
  let? netns := lookup_env env "CNI_NETNS" in
  let ifName := default "eth0" (env !! "CNI_IFNAME") in
  let? path := lookup_env env "CNI_PATH" in
  let? cniArgs := gatherCNIArgs env in
  let? ns := lookup_env cniArgs "K8S_POD_NAMESPACE" in
  let? name := lookup_env cniArgs "K8S_POD_NAME" in
  let uid := default "" (cniArgs !! "K8S_POD_UID") in
  match ReadCNIConfig (Config cr) with
  | Err _ => Err (Text "broken stdin args")
  | Ok conf =>
      let req := mkPodRequest cmd ns name uid container netns ifName path conf cr (ConfName conf) in
      if String.eqb (ConfDeviceID conf) "" then Ok req else
      match DeviceIDType conf with
      | DeviceIDTypePCI | DeviceIDTypeNetdev => Ok req
      | DeviceIDTypeAux => Err (Text ("auxiliary device IDs are not supported yet: " +:+ ConfDeviceID conf))
      | DeviceIDTypeUnknown => Err (Text ("unsupported device ID format: " +:+ ConfDeviceID conf))
      end
  end.

(** The daemon's process: its environment variables and whatever the handlers act on. *)
Record process (W : Type) := mkProcess { environ : gmap string string; inner : W }.
Arguments mkProcess {_} _ _.
Arguments environ {_} _.
Arguments inner {_} _.
Definition processRequestFunc (W : Type) : Type := PodRequest → M W (result (option CniResult)).
Definition on_inner {W A} (f : M W A) : M (process W) A :=
  λ p, let '(w, r) := f (inner p) in (mkProcess (environ p) w, r).
(** [defer cniRequestEnvCleanup()]: it runs whether the body returns or panics. *)
Definition with_env_cleanup {W A} (body : M (process W) A) : M (process W) A :=
  λ p, let '(p, r) := body p in (mkProcess (cniRequestEnvCleanup (environ p)) (inner p), r).

(** [handleCNIRequest]: under the server's mutex, one request at a time. *)
Definition handleCNIRequest {W} (add del : processRequestFunc W) (body : result string)
    : M (process W) (result string) :=
  match (let? b := body in unmarshal_Request js b) with
  | Err e => mret (Err e)
  | Ok cniRq =>
      match cniRequestToPodRequest cniRq with
      | Err e => mret (Err e)
      | Ok req =>
          with_env_cleanup (
            _ ← (λ p, (mkProcess (cniRequestSetEnv req (environ p)) (inner p), Ret tt));
            call res := (if String.eqb (Command req) CNIAdd then on_inner (add req)
              else if String.eqb (Command req) CNIDel then on_inner (del req)
              else mret (Ok None)) or (λ e, e) in
            mret (marshal_Response js res))
      end
  end.

(** The HTTP answer: its status and its text; [http.Error] ends a line. *)
Definition LF : string := String (Ascii.ascii_of_nat 10) "".
Definition http_error (status : Z) (msg : string) : Z * string := (status, msg +:+ LF).
Definition HttpCNIPost {W} (add del : processRequestFunc W) (method : string) (body : result string)
    : M (process W) (Z * string) :=
  if negb (String.eqb method "POST") then mret (http_error 405 "Method not allowed") else
  r ← handleCNIRequest add del body;
  mret (match r with Ok res => (200%Z, res) | Err e => http_error 400 (Error e) end).
(** The server of Go's [net/http] recovers from a handler that panics: it closes the
    connection, which the client sees as an error. *)
Definition http_recover {W A} (broken : error) (f : M W A) : M W (result A) :=
  λ w, match f w with (w, Ret a) => (w, Ret (Ok a)) | (w, Panic) => (w, Ret (Err broken)) end.

(** * cnishim.go *)

(** [doCNI]: [post] is the HTTP client, it answers with a status and a body, or the error of
    reading it. *)
Definition doCNI {W} (post : string → M W (result (Z * result string))) (req : Request) : M W (result string) :=
  match marshal_Request js req with
  | Err e => mret (Err (errorf ("failed to marshal CNI request " +:+ print_Request js req +:+ ": ") e))
  | Ok data =>
      call (status, body) := post data or errorf "failed to send CNI request: " in
      mret (match body with
            | Err e => Err (errorf "failed to read CNI result: " e)
            | Ok body =>
                if negb (status =? 200)%Z
                then Err (Text ("CNI request failed with status " +:+ itoa status +:+ ": '" +:+ body +:+ "'"))
                else Ok body
            end)
  end.
(** [PostRequest]: when the configuration cannot be read, [conf] is nil and
    [conf.CNIVersion] panics. *)
Definition PostRequest {W} (post : string → M W (result (Z * result string))) (env : list string) (stdin : string)
    : M W (result (option CniResult * string)) :=
  match ReadCNIConfig stdin with
  | Err _ => panic
  | Ok conf =>
      call body := doCNI post (NewCNIRequest env stdin) or (λ e, Text (Error e +:+ ": StdinData: " +:+ stdin)) in
      mret (if String.eqb body "" then Ok (None, CNIVersion conf) else
            match unmarshal_Response js body with
            | Err e => Err (errorf ("failed to unmarshal response '" +:+ body +:+ "': ") e)
            | Ok res => Ok (res, CNIVersion conf)
            end)
  end.
(** [SetLogging] parses the configuration too, without normalizing it. *)
Definition SetLogging (stdin : string) : result unit :=
  match unmarshal_NetConf js stdin with
  | Err e => Err (errorf "SetLogging(): failed to load netconf: " e)
  | Ok _ => Ok tt
  end.
Definition ShimCmdAdd {W} (post : string → M W (result (Z * result string))) (env : list string) (stdin : string)
    : M W (result (option CniResult * string)) :=
  match SetLogging stdin with
  | Err e => mret (Err e)
  | Ok _ => call r := PostRequest post env stdin or errorf "failed to post request for cmdAdd: " in mret (Ok r)
  end.
Definition ShimCmdDel {W} (post : string → M W (result (Z * result string))) (env : list string) (stdin : string)
    : M W (result unit) :=
  match SetLogging stdin with
  | Err e => mret (Err e)
  | Ok _ => call _ := PostRequest post env stdin or errorf "failed to post request for cmdAdd: " in ok
  end.
(** The client of the shim over the socket of the server. *)
Definition post_to_server {W} (broken : error) (add del : processRequestFunc W) (data : string)
    : M (process W) (result (Z * result string)) :=
  call (status, body) := http_recover broken (HttpCNIPost add del "POST" (Ok data)) or (λ e, e) in
  mret (Ok (status, Ok body)).
End Server.
Arguments mkProcess {_} _ _.
Arguments environ {_} _.
Arguments inner {_} _.

(** * Lemmas *)

Lemma trim_left_idemp f s : trim_left f (trim_left f s) = trim_left f s.
Proof. induction s as [|c s IH]; simpl; [done|]. destruct (f c) eqn:E; [done|]. simpl. by rewrite E. Qed.
Lemma trim_right_idemp f s : trim_right f (trim_right f s) = trim_right f s.
Proof.
  induction s as [|c s IH]; simpl; [done|]. destruct (trim_right f s) as [|d t] eqn:E.
  - destruct (f c) eqn:Ec; simpl; [done|]. by rewrite Ec.
  - change (trim_right f (String c (String d t))) with
      (match trim_right f (String d t) with EmptyString => if f c then "" else String c "" | u => String c u end).
    by rewrite IH.
Qed.
Lemma trim_left_right f s : trim_left f s = s → trim_left f (trim_right f s) = trim_right f s.
Proof.
  destruct s as [|c s]; simpl; [done|]. destruct (f c) eqn:E.
  - intros H. exfalso. apply (f_equal String.length) in H. simpl in H.
    assert (String.length (trim_left f s) ≤ String.length s)%nat as Hle.
    { clear. induction s as [|c s IH]; simpl; [done|]. destruct (f c); simpl; lia. }
    lia.
  - intros _. destruct (trim_right f s) as [|d t]; simpl; by rewrite E.
Qed.
Lemma trim_space_idemp s : trim_space (trim_space s) = trim_space s.
Proof.
  unfold trim_space, trim_func. rewrite (trim_left_right _ (trim_left _ s)) by apply trim_left_idemp.
  apply trim_right_idemp.
Qed.
Lemma split_char_pieces sep s p : p ∈ split_char sep s → count_char sep p = 0 ∧ ∀ a, (count_char a p ≤ count_char a s)%nat.
Proof.
  revert p. induction s as [|c s IH]; intros p; simpl.
  { intros ->%list_elem_of_singleton. done. }
  destruct (Ascii.eqb c sep) eqn:E.
  - intros [->|Hp]%elem_of_cons; [split; [done|intros; simpl; lia]|]. destruct (IH p Hp) as [H1 H2].
    split; [done|]. intros a. specialize (H2 a). lia.
  - destruct (split_char_cons sep s) as (w & ws & Hw). rewrite Hw in *.
    intros [->|Hp]%elem_of_cons.
    + destruct (IH w ltac:(by left)) as [H1 H2]. simpl. rewrite E, H1. split; [done|]. intros a. specialize (H2 a). lia.
    + destruct (IH p ltac:(by right)) as [H1 H2]. split; [done|]. intros a. specialize (H2 a). lia.
Qed.

(** A value that survives being written into [CNI_ARGS] and read back. *)
Definition plain_value (v : string) : Prop :=
  count_char ";" v = 0 ∧ count_char "=" v = 0 ∧ trim_space v = v.
Lemma gather_args_plain args m m' :
  Forall (λ a, count_char ";" a = 0) args → map_Forall (λ _ v, plain_value v) m →
  gather_args args m = Ok m' → map_Forall (λ _ v, plain_value v) m'.
Proof.
  intros Ha. revert m. induction Ha as [|arg args Harg _ IH]; intros m Hm; simpl; [by intros [= <-]|].
  destruct (split_char "=" arg) as [|k [|v []]] eqn:E; try done.
  destruct (split_char_pieces "=" arg v) as [H1 H2]; [rewrite E; set_solver|].
  apply IH. apply map_Forall_insert_2; [|done]. specialize (H2 ";"%char).
  pose proof (trim_space_count ";" v). pose proof (trim_space_count "=" v).
  split; [lia|]. split; [lia|]. apply trim_space_idemp.
Qed.
Lemma gatherCNIArgs_plain env m k v : gatherCNIArgs env = Ok m → m !! k = Some v → plain_value v.
Proof.
  unfold gatherCNIArgs. destruct (lookup_env env _) as [s|]; [|done]. intros Hg Hk.
  eapply (gather_args_plain _ ∅ m); [|done|exact Hg|exact Hk].
  apply Forall_forall. intros a Ha. by apply split_char_pieces in Ha as [? _].
Qed.
Lemma gather_one k v args m :
  count_char "=" k = 0 → plain_value v →
  gather_args ((k +:+ String "=" v) :: args) m = gather_args args (<[trim_space k := v]> m).
Proof.
  intros Hk (_ & Hv & Ht). cbn [gather_args]. rewrite split_char_app, (split_char_no_sep _ v) by done. by rewrite Ht.
Qed.

(** The variables a request sets. *)
Definition cni_vars : list string :=
  ["CNI_COMMAND"; "CNI_CONTAINERID"; "CNI_NETNS"; "CNI_IFNAME"; "CNI_PATH"; "CNI_ARGS"].
Lemma cleanup_lookup env k : cniRequestEnvCleanup env !! k = if bool_decide (k ∈ cni_vars) then None else env !! k.
Proof.
  unfold cniRequestEnvCleanup, cni_vars. case_bool_decide as Hk.
  - rewrite !elem_of_cons in Hk. rewrite !lookup_delete. repeat case_decide; try done. set_solver.
  - rewrite !lookup_delete_ne; [done|set_solver..].
Qed.
Lemma setenv_other req env k : k ∉ cni_vars → cniRequestSetEnv req env !! k = env !! k.
Proof. unfold cniRequestSetEnv, cni_vars. intros Hk. rewrite !lookup_insert_ne; [done|set_solver..]. Qed.

(** * Theorems *)

(** The environment prepared for the IPAM plugins says what the request said:
    reading back the [CNI_ARGS] set for an accepted request yields its namespace, pod
    name and UID, whatever characters they hold. *)
Theorem cni_args_roundtrip js cr req env :
  cniRequestToPodRequest js cr = Ok req →
  gatherCNIArgs (cniRequestSetEnv req env) =
  Ok (<["K8S_POD_UID" := PodUID req]> (<["K8S_POD_NAME" := PodName req]>
     (<["K8S_POD_NAMESPACE" := PodNamespace req]> {["IgnoreUnknown" := "true"]}))).
Proof.
  intros H.
  assert (plain_value (PodNamespace req) ∧ plain_value (PodName req) ∧ plain_value (PodUID req)) as (Hns & Hn & Hu).
  { unfold cniRequestToPodRequest in H. destruct (lookup_env (Env cr) _); [|done]. destruct (lookup_env (Env cr) _); [|done].
    destruct (lookup_env (Env cr) _); [|done]. destruct (lookup_env (Env cr) _); [|done].
    destruct (gatherCNIArgs (Env cr)) as [m|] eqn:Hg; [|done]. unfold lookup_env in H.
    destruct (m !! "K8S_POD_NAMESPACE") as [ns|] eqn:E1; [|done]. destruct (m !! "K8S_POD_NAME") as [n|] eqn:E2; [|done].
    assert (plain_value (default "" (m !! "K8S_POD_UID"))) as Huid.
    { destruct (m !! "K8S_POD_UID") eqn:E3; [by eapply gatherCNIArgs_plain|done]. }
    pose proof (gatherCNIArgs_plain _ _ _ _ Hg E1). pose proof (gatherCNIArgs_plain _ _ _ _ Hg E2).
    destruct (ReadCNIConfig js (Config cr)) as [conf|]; [|done].
    destruct (String.eqb _ ""); [by injection H as <-|]. destruct (DeviceIDType conf); by simplify_eq/=. }
  unfold gatherCNIArgs, lookup_env, cniRequestSetEnv. rewrite lookup_insert_eq.
  replace (cni_args req) with (join (String ";" "")
    ["IgnoreUnknown" +:+ String "=" "true"; "K8S_POD_NAMESPACE" +:+ String "=" (PodNamespace req);
     "K8S_POD_NAME" +:+ String "=" (PodName req); "K8S_POD_UID" +:+ String "=" (PodUID req)]).
  2:{ unfold cni_args. reflexivity. }
  rewrite split_join; [|done|].
  - rewrite !gather_one by done. done.
  - destruct Hns as (? & _), Hn as (? & _), Hu as (? & _). repeat constructor; done.
Qed.


(** What the handler of a request answers, as the shim gets it: a handler that panics breaks
    the connection. *)
Definition answer {A} (broken : error) (o : outcome (result A)) : result A :=
  match o with
  | Ret (Ok a) => Ok a
  | Ret (Err e) => Err (Text ("CNI request failed with status 400: '" +:+ (Error e +:+ LF) +:+ "'"))
  | Panic => Err (errorf "failed to send CNI request: " broken)
  end.
Definition shim_error (stdin : string) (e : error) : error :=
  errorf "failed to post request for cmdAdd: " (Text (Error e +:+ ": StdinData: " +:+ stdin)).
Definition handler_of {W} (add del : processRequestFunc W) (req : PodRequest) : M W (result (option CniResult)) :=
  if String.eqb (Command req) CNIAdd then add req else if String.eqb (Command req) CNIDel then del req else mret (Ok None).
(** JSON brings the request back as it was, and the result if there is one; the text of a
    response is not empty. *)
Record json_ok (js : codec) (r : Request) (o : outcome (result (option CniResult))) : Prop := {
  json_request : ∃ data, marshal_Request js r = Ok data ∧ unmarshal_Request js data = Ok r;
  json_response res : o = Ret (Ok res) → ∃ body, marshal_Response js res = Ok body ∧ body ≠ "" ∧ unmarshal_Response js body = Ok res }.
Lemma handle_run js {W} add del data req (w : process W) : 
  (let? cr := unmarshal_Request js data in cniRequestToPodRequest js cr) = Ok req →
  handleCNIRequest js add del (Ok data) w =
    let '(v, o) := handler_of add del req (inner w) in
    (mkProcess (cniRequestEnvCleanup (cniRequestSetEnv req (environ w))) v,
     match o with Ret (Ok res) => Ret (marshal_Response js res) | Ret (Err e) => Ret (Err e) | Panic => Panic end).
Proof.
  unfold handleCNIRequest. simpl. destruct (unmarshal_Request js data) as [cr|e]; [|done]. simpl. intros ->.
  unfold with_env_cleanup, handler_of, try_bind, on_inner, mbind, M_bind, mret, M_ret. simpl.
  destruct (String.eqb (Command req) CNIAdd); simpl; [by destruct (add req (inner w)) as [v [[res|e]|]]|].
  by destruct (String.eqb (Command req) CNIDel); simpl; [destruct (del req (inner w)) as [v [[res|e]|]]|].
Qed.
(** The whole way of a request: through the socket, the server and its handler, and back. *)
Lemma post_run js {W} broken add del env stdin conf req (p : process W) :
  json_ok js (NewCNIRequest env stdin) (handler_of add del req (inner p)).2 →
  ReadCNIConfig js stdin = Ok conf → cniRequestToPodRequest js (NewCNIRequest env stdin) = Ok req →
  let '(v, o) := handler_of add del req (inner p) in
  PostRequest js (post_to_server js broken add del) env stdin p =
    (mkProcess (cniRequestEnvCleanup (cniRequestSetEnv req (environ p))) v,
     Ret (match answer broken o with
          | Ok res => Ok (res, CNIVersion conf) | Err e => Err (Text (Error e +:+ ": StdinData: " +:+ stdin)) end)).
Proof.
  intros [(data & Hm & Hu) Hres] Hc Hr. assert ((let? cr := unmarshal_Request js data in cniRequestToPodRequest js cr) = Ok req) as Hq by by rewrite Hu.
  pose proof (handle_run js add del data req p Hq) as Hrun. destruct (handler_of add del req (inner p)) as [v o]. simpl in Hres.
  unfold PostRequest. rewrite Hc. unfold doCNI. rewrite Hm. unfold post_to_server, HttpCNIPost, http_recover, try_bind, mbind, M_bind, mret, M_ret. simpl.
  rewrite Hrun. destruct o as [[res|e]|]; [|done|done].
  destruct (Hres res eq_refl) as (body & -> & Hb & Hbody). simpl. by rewrite (proj2 (String.eqb_neq _ _) Hb), Hbody.
Qed.


(** On a configuration that parses but whose device id looks like a PCI address
    and is none, the shim does not report the error: it dereferences the missing
    configuration and panics. *)
Theorem shim_panics js {W} post env stdin conf e (w : W) :
  unmarshal_NetConf js stdin = Ok (conf, None) → ConfDeviceID conf ≠ "" →
  NormalizeDeviceID (ConfDeviceID conf) = Err e →
  ShimCmdAdd js post env stdin w = (w, Panic).
Proof.
  intros Hu Hd Hn. unfold ShimCmdAdd, SetLogging. rewrite Hu. unfold PostRequest, ReadCNIConfig. rewrite Hu.
  by rewrite (proj2 (String.eqb_neq _ _) Hd), Hn.
Qed.

(** * Witnesses *)
Module CniServerDemo.
Definition conf : NetConf := zero_NetConf <| ConfDeviceID := "0000:06:00" |>.
Definition env : gmap string string :=
  {["CNI_COMMAND" := "ADD"; "CNI_CONTAINERID" := "c1"; "CNI_NETNS" := "/ns"; "CNI_PATH" := "/opt";
    "CNI_ARGS" := "K8S_POD_NAMESPACE= my ns ;K8S_POD_NAME=pod"]}.
Definition cr : Request := {| Env := env; Config := "" |}.
Definition js : codec :=
  {| unmarshal_NetConf s := if String.eqb s "" then Ok (zero_NetConf, None) else Ok (conf, None);
     unmarshal_Request s := Ok cr; marshal_Request r := Ok "request"; print_Request r := "request";
     unmarshal_Response s := Ok None; marshal_Response r := Ok "null"; ParsePrevResult _ := None |}.
Definition req : PodRequest := mkPodRequest "ADD" "my ns" "pod" "" "c1" "/ns" "eth0" "/opt" zero_NetConf cr "".
Lemma req_ok : cniRequestToPodRequest js cr = Ok req.
Proof. vm_compute. reflexivity. Qed.
End CniServerDemo.
Import CniServerDemo.
Lemma cni_args_roundtrip_witness :
  gatherCNIArgs (cniRequestSetEnv req ∅) =
  Ok {["K8S_POD_UID" := ""; "K8S_POD_NAME" := "pod"; "K8S_POD_NAMESPACE" := "my ns"; "IgnoreUnknown" := "true"]}.
Proof. exact (cni_args_roundtrip js cr req ∅ req_ok). Defined.
(** The server's side of the shim's own request. *)
Definition shim_env : list string :=
  ["CNI_COMMAND=ADD"; "CNI_CONTAINERID=c1"; "CNI_NETNS=/ns"; "CNI_PATH=/opt"; "CNI_ARGS=K8S_POD_NAMESPACE=ns;K8S_POD_NAME=pod"].
Definition shim_js : codec :=
  {| unmarshal_NetConf s := Ok (zero_NetConf, None);
     unmarshal_Request s := Ok (NewCNIRequest shim_env s); marshal_Request r := Ok (Config r); print_Request r := Config r;
     unmarshal_Response s := Ok None; marshal_Response r := Ok "null"; ParsePrevResult _ := None |}.
Definition shim_req : PodRequest :=
  match cniRequestToPodRequest shim_js (NewCNIRequest shim_env "{}") with Ok r => r | Err _ => req end.
Lemma shim_req_ok : cniRequestToPodRequest shim_js (NewCNIRequest shim_env "{}") = Ok shim_req.
Proof. vm_compute. reflexivity. Qed.
Lemma shim_json_ok o : o = Ret (Ok None) → json_ok shim_js (NewCNIRequest shim_env "{}") o.
Proof. intros ->. split; [by exists "{}"|]. intros res [= <-]. by exists "null". Qed.
(** The handler counts its calls. *)
Definition counting : processRequestFunc nat := λ _ n, (S n, Ret (Ok None)).
Lemma shim_panics_witness : (ShimCmdAdd js (λ _, mret (Ok (200%Z, Ok ""))) [] "{}" tt).2 = Panic.
Proof.
  by rewrite (shim_panics js (λ _, mret (Ok (200%Z, Ok ""))) [] "{}" conf
    (Text "unrecognized PCI address format: 0000:06:00") tt eq_refl ltac:(discriminate) eq_refl).
Defined.
