(* ===== verification/NetworkFn.v ===== *)
(** The CNI of the DPU side, dpu-cni/pkgs/networkfn: moving a host device into a pod
    and back, with the undo steps of its deferred functions, [CmdAdd] and [CmdDel].

    What the theorems need of the kernel's network interfaces is the class
    [KernelLaws]: each interface has a namespace, a name, a flag and an alias; an
    operation that succeeds changes what it says and one that fails changes nothing. *)
From S2P Require Import Prelude Plugin Net Scan GoMonad CniTypes SriovUtils.
#[local] Open Scope stdpp_scope.

Section NetworkFn.
Context {N : Type} `{!NetOps N}.
Abbreviation CM := (M (cni_world N)).

Definition temp_name (dev : Link) : string := "temp_" +:+ itoa (lk_index dev).
Definition setDevTempName (ns : netns) (dev : Link) : CM (result Link) :=
  let tempName := temp_name dev in
  call _ := net_err (nl_LinkSetName ns dev tempName)
    or errorf ("failed to rename device " +:+ quote (lk_name dev) +:+ " to " +:+ quote tempName +:+ ": ") in
  call tempDev := on_net (nl_LinkByName ns tempName)
    or errorf ("failed to find " +:+ quote (lk_name dev) +:+ " after rename to " +:+ quote tempName +:+ ": ") in
  mret (Ok tempDev).

(** ** Into the pod *)

(** The first deferred function of [moveLinkInNetNamespace] and the second, given the
    value of [hostDev] when they run ([None] is nil). *)
Definition restore_up (wasUp : bool) (hostDev : option Link) : CM unit :=
  match hostDev with
  | Some dev => if wasUp then ignore (net_err (nl_LinkSetUp HostNS dev)) else mret tt
  | None => mret tt
  end.
Definition restore_name (orig : string) (hostDev : option Link) : CM unit :=
  match hostDev with
  | Some dev => ignore (net_err (nl_LinkSetName HostNS dev orig))
  | None => mret tt
  end.

(** The deferred function that moves the device back to the host: it looks the
    device up again, and that may find nothing. *)
Definition move_back (ns : netns) (contDev : Link) (tempDevName : string) : CM (option Link) :=
  _ ← ignore (net_err (nl_LinkSetNsFd ns contDev HostNS));
  r ← on_net (nl_LinkByName HostNS tempDevName);
  mret (match r with Ok l => Some l | Err _ => None end).

(** The function run in the container's namespace: the container device, or the
    error with the value of [hostDev] left behind. *)
Definition in_container (path tempDevName origName ifName : string) (hostDev : Link)
    : CM (option Link * result Link) :=
  let ns := PodNS path in
  dev ← on_net (nl_LinkByName ns tempDevName);
  match dev with
  | Err e => mret (Some hostDev, Err (errorf ("failed to find " +:+ quote tempDevName +:+ ": ") e))
  | Ok contDev =>
      let back e := h ← move_back ns contDev tempDevName; mret (h, Err e) in
      a ← net_err (nl_LinkSetAlias ns contDev origName);
      match a with
      | Err e => back (errorf ("failed to set alias to " +:+ quote tempDevName +:+ ": ") e)
      | Ok _ =>
          r ← net_err (nl_LinkSetName ns contDev ifName);
          match r with
          | Err e => back (errorf ("failed to rename device " +:+ quote tempDevName +:+ " to " +:+ quote ifName +:+ ": ") e)
          | Ok _ =>
              u ← net_err (nl_LinkSetUp ns contDev);
              match u with
              | Err e =>
                  _ ← ignore (net_err (nl_LinkSetName ns contDev tempDevName));
                  back (errorf ("failed to set " +:+ quote ifName +:+ " up: ") e)
              | Ok _ =>
                  l ← on_net (nl_LinkByName ns ifName);
                  match l with
                  (* contDev is nil now, and the deferred functions use it *)
                  | Err _ => panic
                  | Ok contDev => mret (Some hostDev, Ok contDev)
                  end
              end
          end
      end
  end.

Definition moveLinkInNetNamespace (hostDev : Link) (path ifName : string) : CM (result Link) :=
  let origUp := lk_up hostDev in
  let origName := lk_name hostDev in
  call _ := net_err ns_GetCurrentNS or errorf "failed to get host namespace: " in
  call _ := net_err (nl_LinkSetDown HostNS hostDev) or errorf ("failed to set " +:+ quote origName +:+ " down: ") in
  t ← setDevTempName HostNS hostDev;
  match t with
  (* hostDev has been overwritten with nil: the deferred function restores nothing *)
  | Err e => _ ← restore_up origUp None;
             mret (Err (errorf ("failed to rename device " +:+ quote origName +:+ " to temporary name: ") e))
  | Ok dev =>
      let undo (h : option Link) (e : error) : CM (result Link) :=
        _ ← restore_name origName h; _ ← restore_up origUp h; mret (Err e) in
      m ← net_err (nl_LinkSetNsFd HostNS dev (PodNS path));
      match m with
      | Err e => undo (Some dev) (errorf ("failed to move " +:+ quote (lk_name dev) +:+ " to container ns: ") e)
      | Ok _ =>
          entered ← net_err (ns_enter path);
          match entered with
          | Err e => undo (Some dev) e
          | Ok _ =>
              '(h, r) ← in_container path (lk_name dev) origName ifName dev;
              match r with Err e => undo h e | Ok contDev => mret (Ok contDev) end
          end
      end
  end.

(** ** Out to the host *)

Definition restore_pod (ns : netns) (dev : Link) (ifName : string) : CM unit :=
  _ ← ignore (net_err (nl_LinkSetName ns dev ifName));
  if lk_up dev then ignore (net_err (nl_LinkSetUp ns dev)) else mret tt.
(** The function run in the container's namespace: the device as it was and its
    temporary name. *)
Definition out_of_container (path ifName : string) : CM (result (Link * string)) :=
  let ns := PodNS path in
  call dev := on_net (nl_LinkByName ns ifName) or errorf ("failed to find " +:+ quote ifName +:+ ": ") in
  call _ := net_err (nl_LinkSetDown ns dev) or errorf ("failed to set " +:+ quote ifName +:+ " down: ") in
  t ← setDevTempName ns dev;
  match t with
  | Err e => _ ← restore_pod ns dev ifName;
             mret (Err (errorf ("failed to rename device " +:+ quote ifName +:+ " to temporary name: ") e))
  | Ok newLink =>
      m ← net_err (nl_LinkSetNsFd ns newLink HostNS);
      match m with
      | Err e => _ ← restore_pod ns newLink ifName;
                 mret (Err (errorf ("failed to move " +:+ quote (lk_name newLink) +:+ " to host netns: ") e))
      | Ok _ => mret (Ok (dev, lk_name newLink))
      end
  end.
Definition moveLinkOutToHost (path ifName : string) : CM (result unit) :=
  call _ := net_err ns_GetCurrentNS or (λ e, e) in
  call (origDev, tempName) := ns_Do path (out_of_container path ifName) or (λ e, e) in
  call tempDev := on_net (nl_LinkByName HostNS tempName)
    or errorf ("failed to find " +:+ quote tempName +:+ " in host namespace: ") in
  r ← net_err (nl_LinkSetName HostNS tempDev (lk_alias tempDev));
  match r with
  | Ok _ => ok
  | Err e =>
      _ ← ignore (net_err (nl_LinkSetNsFd HostNS tempDev (PodNS path)));
      _ ← ignore (ns_Do path (
            call lnk := on_net (nl_LinkByName (PodNS path) tempName) or (λ e, e) in
            _ ← ignore (net_err (nl_LinkSetName (PodNS path) lnk ifName));
            _ ← (if lk_up origDev then ignore (net_err (nl_LinkSetUp (PodNS path) lnk)) else mret tt);
            ok));
      mret (Err (errorf ("failed to restore " +:+ quote tempName +:+ " to original name "
                          +:+ quote (lk_alias tempDev) +:+ ": ") e))
  end.

(** ** The commands *)

Definition nf_device (conf : NetConf) : CM (result string) :=
  match DeviceIDType conf with
  | DeviceIDTypePCI =>
      call name := sysfs_read (λ fs, GetVFLinkName fs (ConfDeviceID conf))
        or errorf ("failed to resolve netdev from PCI address " +:+ ConfDeviceID conf +:+ ": ") in
      mret (Ok name)
  | DeviceIDTypeNetdev => mret (Ok (ConfDeviceID conf))
  | DeviceIDTypeAux => mret (Err (Text ("auxiliary device IDs are not supported for networkfn CNI: " +:+ ConfDeviceID conf)))
  | DeviceIDTypeUnknown => mret (Err (Text ("unsupported device ID format for networkfn CNI: " +:+ ConfDeviceID conf)))
  end.
Definition get_ns (path : string) (what : string) : CM (result unit) :=
  r ← on_net (ns_GetNS path);
  mret (match r with NsFound => Ok tt | NsNotExist e | NsError e => Err (errorf what e) end).

(** [CmdAdd]: the request comes back with the device's MAC address in its configuration. *)
Definition NfCmdAdd (req : PodRequest) : CM (result (CniResult * PodRequest)) :=
  let conf := CNIConf req in
  call _ := get_ns (Netns req) "failed to open netns: " or (λ e, e) in
  call deviceID := nf_device conf or (λ e, e) in
  call hostDev := on_net (nl_LinkByName HostNS deviceID) or errorf "failed to find host device: " in
  call contDev := moveLinkInNetNamespace hostDev (Netns req) (IfName req) or errorf "failed to move link " in
  let mac := mac_string (lk_mac contDev) in
  let ifaces := [{| IfaceName := lk_name contDev; IfaceMac := mac; IfaceSandbox := Netns req |}] in
  let req := req <| CNIConf := conf <| MAC := mac |> |> in
  if String.eqb (IPAMType conf) "" then
    mret (Ok ({| ResCNIVersion := ""; Interfaces := ifaces; IPs := [] |}, req)) else
  call raw := on_net (ipam_ExecAdd (IPAMType conf) (Config (CNIReq req))) or (λ e, e) in
  let ipam_undo (e : error) : CM (result (CniResult * PodRequest)) :=
    _ ← ignore (net_err (ipam_ExecDel (IPAMType conf) (Config (CNIReq req)))); mret (Err e) in
  match ipam_NewResultFromResult raw with
  | Err e => ipam_undo e
  | Ok newResult =>
      (* this error is not assigned to err: the deferred function does not see it *)
      if (length (IPs newResult) =? 0)%nat then mret (Err (Text "IPAM plugin returned missing IP config")) else
      r ← ns_Do (Netns req) (net_err (ipam_ConfigureIface (PodNS (Netns req)) (IfName req) (IPs newResult)));
      match r with
      | Err e => ipam_undo e
      | Ok _ => mret (Ok ({| ResCNIVersion := ResCNIVersion newResult; Interfaces := ifaces; IPs := IPs newResult |}, req))
      end
  end.

Definition NfCmdDel (req : PodRequest) : CM (result unit) :=
  let conf := CNIConf req in
  if String.eqb (Netns req) "" then ok else
  call _ := get_ns (Netns req) ("failed to open netns " +:+ quote (Netns req) +:+ ": ") or (λ e, e) in
  call _ := when (negb (String.eqb (IPAMType conf) "")) (net_err (ipam_ExecDel (IPAMType conf) (Config (CNIReq req))))
    or (λ e, e) in
  moveLinkOutToHost (Netns req) (IfName req).
End NetworkFn.

(** * The kernel's interfaces *)

Record ifstate := mkIf { if_ns : netns; if_name : string; if_up : bool; if_alias : string }.
#[export] Instance ifstate_eta : Eta ifstate := λ s, mkIf (if_ns s) (if_name s) (if_up s) (if_alias s).

(** A call on interface [i] of namespace [ns] that edits what the kernel says of it,
    or fails and edits nothing. *)
Definition edits {N} (view : N → gmap Z ifstate) (ns : netns) (i : Z) (upd : ifstate → ifstate)
    (f : N → N * option error) : Prop :=
  ∀ n, match f n with
       | (n', None) => ∃ s, view n !! i = Some s ∧ if_ns s = ns ∧ view n' = <[i := upd s]> (view n)
       | (n', Some _) => view n' = view n
       end.
Definition quiet {N A} (view : N → gmap Z ifstate) (f : N → N * A) : Prop := ∀ n, view (f n).1 = view n.

Class KernelLaws (N : Type) `{!NetOps N} := {
  view : N → gmap Z ifstate;
  law_unique n i j s t : view n !! i = Some s → view n !! j = Some t →
    if_ns s = if_ns t → if_name s = if_name t → i = j;
  law_LinkByName ns name n : match nl_LinkByName ns name n with
    | (n', Ok l) => view n' = view n ∧ lk_name l = name ∧
        view n !! lk_index l = Some (mkIf ns name (lk_up l) (lk_alias l))
    | (n', Err _) => view n' = view n
    end;
  law_SetUp ns l : edits view ns (lk_index l) (λ s, s <| if_up := true |>) (nl_LinkSetUp ns l);
  law_SetDown ns l : edits view ns (lk_index l) (λ s, s <| if_up := false |>) (nl_LinkSetDown ns l);
  law_SetName ns l name : edits view ns (lk_index l) (λ s, s <| if_name := name |>) (nl_LinkSetName ns l name);
  law_SetAlias ns l a : edits view ns (lk_index l) (λ s, s <| if_alias := a |>) (nl_LinkSetAlias ns l a);
  law_SetNsFd ns l to : edits view ns (lk_index l) (λ s, s <| if_ns := to |>) (nl_LinkSetNsFd ns l to);
  law_GetNS p : quiet view (ns_GetNS p);
  law_GetCurrentNS : quiet view ns_GetCurrentNS;
  law_enter p : quiet view (ns_enter p);
  law_ExecAdd t c : quiet view (ipam_ExecAdd t c);
  law_ExecDel t c : quiet view (ipam_ExecDel t c);
  law_ConfigureIface ns i ips : quiet view (ipam_ConfigureIface ns i ips) }.

(** * Lemmas *)

Section Lemmas.
Context {N : Type} `{!NetOps N, !KernelLaws N}.
Definition links (w : cni_world N) : gmap Z ifstate := view (net w).

Lemma edit_returns ns i upd f (w w' : cni_world N) u :
  edits view ns i upd f → returns (net_err f) w w' (Ok u) →
  ∃ s, links w !! i = Some s ∧ if_ns s = ns ∧ links w' = <[i := upd s]> (links w).
Proof.
  intros He H. unfold net_err in H. inv_bind H as H1. unfold returns, on_net in H1. specialize (He (net w)).
  destruct (f (net w)) as [n' [e|]]; injection H1 as <- <-; inv_ret H. exact He.
Qed.
(** The same on an interface already known. *)
Lemma edit_known ns i upd f (w w' : cni_world N) u s0 :
  edits view ns i upd f → returns (net_err f) w w' (Ok u) → links w !! i = Some s0 →
  links w' = <[i := upd s0]> (links w).
Proof. intros He H Hi. destruct (edit_returns _ _ _ _ _ _ _ He H) as (s & Hs & _ & ->). congruence. Qed.
Lemma quiet_returns {A} (f : N → N * A) (w w' : cni_world N) a :
  quiet view f → returns (on_net f) w w' a → links w' = links w.
Proof.
  unfold returns, on_net, links. intros Hq H. specialize (Hq (net w)). destruct (f (net w)).
  injection H as <- _. exact Hq.
Qed.
Lemma quiet_err_returns f (w w' : cni_world N) r :
  quiet view f → returns (net_err f) w w' r → links w' = links w.
Proof. intros Hq H. unfold net_err in H. inv_bind H as H1. inv_ret H. by eapply quiet_returns. Qed.
Lemma lookup_returns ns name (w w' : cni_world N) l :
  returns (on_net (nl_LinkByName ns name)) w w' (Ok l) →
  links w' = links w ∧ lk_name l = name ∧ links w !! lk_index l = Some (mkIf ns name (lk_up l) (lk_alias l)).
Proof.
  unfold returns, on_net, links. intros H. pose proof (law_LinkByName ns name (net w)) as Hl.
  destruct (nl_LinkByName ns name (net w)) as [n' [l'|e]]; injection H as <- H; [subst l'; exact Hl|done].
Qed.
Lemma lookup_found ns name (w w' : cni_world N) l i s :
  returns (on_net (nl_LinkByName ns name)) w w' (Ok l) →
  links w !! i = Some s → if_ns s = ns → if_name s = name →
  links w' = links w ∧ lk_index l = i ∧ lk_name l = name ∧ lk_alias l = if_alias s.
Proof.
  intros H Hi Hns Hn. apply lookup_returns in H as (Hw & Hnm & Hl).
  assert (lk_index l = i) as <- by (by eapply law_unique).
  rewrite Hl in Hi. injection Hi as <-. done.
Qed.
Lemma setDevTempName_returns ns dev (w w' : cni_world N) t s :
  returns (setDevTempName ns dev) w w' (Ok t) → links w !! lk_index dev = Some s → if_ns s = ns →
  links w' = <[lk_index dev := s <| if_name := temp_name dev |>]> (links w) ∧
  lk_index t = lk_index dev ∧ lk_name t = temp_name dev.
Proof.
  unfold setDevTempName. intros H Hi Hns. inv_call H as H1. inv_call H as H2. inv_ret H.
  pose proof (edit_known _ _ _ _ _ _ _ _ (law_SetName _ _ _) H1 Hi) as Hw. simpl in Hw.
  eapply lookup_found in H2 as (Hw2 & Hidx & Hnm & _); [|rewrite Hw; apply lookup_insert_eq|done|done].
  rewrite Hw2, Hw. done.
Qed.

Lemma moveLinkIn_returns dev path ifn (w w' : cni_world N) c s :
  returns (moveLinkInNetNamespace dev path ifn) w w' (Ok c) →
  links w !! lk_index dev = Some s → if_ns s = HostNS →
  links w' = <[lk_index dev := mkIf (PodNS path) ifn true (lk_name dev)]> (links w).
Proof.
  unfold moveLinkInNetNamespace. intros H Hi Hns.
  inv_call H as H0%(quiet_err_returns _ _ _ _ law_GetCurrentNS). inv_call H as H1.
  rewrite <-H0 in Hi. pose proof (edit_known _ _ _ _ _ _ _ _ (law_SetDown _ _) H1 Hi) as Hw1. simpl in Hw1.
  inv_bind H as H2. destruct a1 as [t|e]; [|inv_bind H as _; by inv_ret H].
  eapply setDevTempName_returns in H2 as (Hw2 & Hti & Htn); [|rewrite Hw1; apply lookup_insert_eq|done]. simpl in Hw2.
  inv_bind H as H3. destruct a1 as [u|e]; [|inv_bind H as _; inv_bind H as _; by inv_ret H].
  eapply edit_known in H3 as Hw3; [|apply law_SetNsFd|rewrite Hti, Hw2; apply lookup_insert_eq]. simpl in Hw3. rewrite Hti in Hw3.
  inv_bind H as H4. apply (quiet_err_returns _ _ _ _ (law_enter _)) in H4.
  destruct a1 as [u'|e]; [|inv_bind H as _; inv_bind H as _; by inv_ret H].
  inv_bind H as H5. destruct a1 as [h [c'|e]]; [|inv_bind H as _; inv_bind H as _; by inv_ret H]. inv_ret H.
  (* in the container *)
  unfold in_container in H5. inv_bind H5 as H6. destruct a1 as [d|e]; [|by inv_ret H5].
  eapply lookup_found in H6 as (Hw6 & Hdi & _ & _);
    [|rewrite H4, Hw3; apply lookup_insert_eq|done|by rewrite Htn].
  inv_bind H5 as H7. destruct a1 as [u1|e]; [|inv_bind H5 as _; by inv_ret H5].
  eapply edit_known in H7 as Hw7; [|apply law_SetAlias|rewrite Hdi, Hw6, H4, Hw3; apply lookup_insert_eq].
  inv_bind H5 as H8. destruct a1 as [u2|e]; [|inv_bind H5 as _; by inv_ret H5].
  eapply edit_known in H8 as Hw8; [|apply law_SetName|rewrite Hdi, Hw7, Hdi; apply lookup_insert_eq].
  inv_bind H5 as H9. destruct a1 as [u3|e]; [|inv_bind H5 as _; inv_bind H5 as _; by inv_ret H5].
  eapply edit_known in H9 as Hw9; [|apply law_SetUp|rewrite Hdi, Hw8, Hdi; apply lookup_insert_eq].
  inv_bind H5 as H10. destruct a1 as [l|e]; [|done]. inv_ret H5.
  apply lookup_returns in H10 as (Hw10 & _ & _).
  rewrite Hw10, Hw9, Hw8, Hw7, Hw6, H4, Hw3, Hw2, Hw1, H0, !Hdi. simpl. by rewrite !insert_insert_eq.
Qed.

Lemma moveLinkOut_returns path ifn (w w' : cni_world N) i s :
  returns (moveLinkOutToHost path ifn) w w' (Ok tt) →
  links w !! i = Some s → if_ns s = PodNS path → if_name s = ifn →
  links w' = <[i := mkIf HostNS (if_alias s) false (if_alias s)]> (links w).
Proof.
  unfold moveLinkOutToHost. intros H Hi Hns Hn.
  inv_call H as H0%(quiet_err_returns _ _ _ _ law_GetCurrentNS). inv_call H as H1. destruct a0 as [dev tmp].
  unfold ns_Do in H1. inv_call H1 as H2%(quiet_err_returns _ _ _ _ (law_enter _)).
  unfold out_of_container in H1. inv_call H1 as H3.
  eapply lookup_found in H3 as (Hw3 & Hdi & _ & _); [|rewrite H2, H0; exact Hi|done|done].
  inv_call H1 as H4. eapply edit_known in H4 as Hw4; [|apply law_SetDown|rewrite Hdi, Hw3, H2, H0; exact Hi].
  rewrite Hdi in Hw4. simpl in Hw4.
  inv_bind H1 as H5. destruct a3 as [t|e]; [|inv_bind H1 as _; by inv_ret H1].
  eapply setDevTempName_returns in H5 as (Hw5 & Hti & Htn); [|rewrite Hdi, Hw4; apply lookup_insert_eq|done].
  rewrite Hdi in Hw5, Hti. simpl in Hw5.
  inv_bind H1 as H6. destruct a3 as [u|e]; [|inv_bind H1 as _; by inv_ret H1]. inv_ret H1.
  eapply edit_known in H6 as Hw6; [|apply law_SetNsFd|rewrite Hti, Hw5; apply lookup_insert_eq].
  rewrite Hti in Hw6. simpl in Hw6.
  inv_call H as H7. eapply lookup_found in H7 as (Hw7 & Hxi & _ & Hal); [|rewrite Hw6; apply lookup_insert_eq|done|by rewrite Htn].
  inv_bind H as H8. simpl in Hal. destruct a4 as [u'|e]; [|inv_bind H as _; inv_bind H as _; by inv_ret H].
  eapply edit_known in H8 as Hw8; [|apply law_SetName|rewrite Hxi, Hw7, Hw6; apply lookup_insert_eq].
  rewrite Hxi in Hw8. simpl in Hw8. inv_ret H.
  rewrite Hw8, Hw7, Hw6, Hw5, Hw4, Hw3, H2, H0, Hal. by rewrite !insert_insert_eq.
Qed.

Lemma get_ns_returns p what (w w' : cni_world N) r : returns (get_ns p what) w w' r → links w' = links w.
Proof. unfold get_ns. intros H. inv_bind H as H0%(quiet_returns _ _ _ _ (law_GetNS _)). by inv_ret H. Qed.
Lemma nf_device_returns c (w w' : cni_world N) r : returns (nf_device c) w w' r → w' = w.
Proof.
  unfold nf_device. destruct (DeviceIDType c); intros H; try (by inv_ret H).
  apply call_returns in H as [(w1 & a & H1 & H)|(e & H1 & _)]; [inv_ret H|]; by apply reads_returns in H1 as [-> _].
Qed.
Lemma NfCmdAdd_returns req (w w' : cni_world N) res req' :
  returns (NfCmdAdd req) w w' (Ok (res, req')) →
  ∃ i s, links w !! i = Some s ∧ if_ns s = HostNS ∧
    links w' = <[i := mkIf (PodNS (Netns req)) (IfName req) true (if_name s)]> (links w).
Proof.
  unfold NfCmdAdd. intros H. inv_call H as H0%get_ns_returns. inv_call H as ->%nf_device_returns.
  inv_call H as H1. apply lookup_returns in H1 as (Hw1 & Hn & Hl). inv_call H as H2.
  eapply moveLinkIn_returns in H2 as Hw2; [|rewrite Hw1; exact Hl|done].
  exists (lk_index a1), (mkIf HostNS (lk_name a1) (lk_up a1) (lk_alias a1)). rewrite <-H0, Hn. split; [done|]. split; [done|].
  rewrite <-Hw1, <-Hn. simpl. rewrite <-Hw2.
  destruct (String.eqb _ ""); [by inv_ret H|].
  inv_call H as H3%(quiet_returns _ _ _ _ (law_ExecAdd _ _)).
  destruct (ipam_NewResultFromResult a3) as [nr|e]; [|inv_bind H as _; by inv_ret H].
  destruct (length (IPs nr) =? 0)%nat; [by inv_ret H|].
  inv_bind H as H4. destruct a4 as [u|e]; [|inv_bind H as _; by inv_ret H]. inv_ret H.
  unfold ns_Do in H4. inv_call H4 as H5%(quiet_err_returns _ _ _ _ (law_enter _)).
  apply (quiet_err_returns _ _ _ _ (law_ConfigureIface _ _ _)) in H4. congruence.
Qed.
Lemma NfCmdDel_returns req (w w' : cni_world N) i s :
  returns (NfCmdDel req) w w' (Ok tt) → Netns req ≠ "" →
  links w !! i = Some s → if_ns s = PodNS (Netns req) → if_name s = IfName req →
  links w' = <[i := mkIf HostNS (if_alias s) false (if_alias s)]> (links w).
Proof.
  unfold NfCmdDel. intros H Hne Hi Hns Hn. rewrite (proj2 (String.eqb_neq _ _) Hne) in H.
  inv_call H as H0%get_ns_returns. inv_call H as H1.
  assert (links w1 = links w0) as Hw1.
  { unfold when in H1. destruct (negb _); [|by inv_ret H1]. by apply (quiet_err_returns _ _ _ _ (law_ExecDel _ _)) in H1. }
  eapply moveLinkOut_returns in H as ->; [|rewrite Hw1, H0; exact Hi|done|done]. by rewrite Hw1, H0.
Qed.
End Lemmas.

(** * Theorems *)


(** When the device cannot be found under its new name after it was moved,
    renamed and brought up, the deferred functions run on a nil device: the call does
    not return an error, it panics. *)
Theorem in_container_nil_device {N} `{!NetOps N} path tmp orig ifn host (w w1 w2 w3 w4 w5 : N) dev e :
  nl_LinkByName (PodNS path) tmp w = (w1, Ok dev) →
  nl_LinkSetAlias (PodNS path) dev orig w1 = (w2, None) →
  nl_LinkSetName (PodNS path) dev ifn w2 = (w3, None) →
  nl_LinkSetUp (PodNS path) dev w3 = (w4, None) →
  nl_LinkByName (PodNS path) ifn w4 = (w5, Err e) →
  (in_container path tmp orig ifn host (mkWorld ∅ ∅ w)).2 = Panic.
Proof.
  intros H1 H2 H3 H4 H5.
  unfold in_container, net_err, on_net, mbind, M_bind, mret, M_ret, panic. simpl.
  by rewrite H1; simpl; rewrite H2; simpl; rewrite H3; simpl; rewrite H4; simpl; rewrite H5.
Qed.

(** * Witnesses *)
Module NetworkFnDemo.
#[export] Instance netns_eq_dec : EqDecision netns.
Proof. solve_decision. Defined.
(** A machine with one interface, of index 7. *)
Definition the_link (n : ifstate) : Link :=
  {| lk_index := 7; lk_name := if_name n; lk_mac := [2; 0; 0; 0; 0; 1]%Z; lk_up := if_up n;
     lk_alias := if_alias n; lk_vfs := [] |}.
Definition edit (ns : netns) (l : Link) (f : ifstate → ifstate) (n : ifstate) : ifstate * option error :=
  if bool_decide (lk_index l = 7%Z ∧ if_ns n = ns) then (f n, None) else (n, Some (Text "no such device")).
Definition no_fs : hostfs :=
  {| base_fs := {| ReadDir _ := Err (Text ""); ReadFile _ := Err (Text ""); Readlink _ := Err (Text "") |};
     Lstat _ := Err (Text ""); EvalSymlinks _ := Err (Text ""); Stat _ := None |}.
#[export] Instance one_link : NetOps ifstate :=
  {| os_fault _ _ n := (n, None); the_fs _ := no_fs;
     ns_GetNS _ n := (n, NsFound); ns_GetCurrentNS n := (n, None); ns_enter _ n := (n, None);
     nl_LinkByName ns name n :=
       (n, if bool_decide (if_ns n = ns ∧ if_name n = name) then Ok (the_link n) else Err (Text "Link not found"));
     nl_LinkSetUp ns l := edit ns l (λ s, s <| if_up := true |>);
     nl_LinkSetDown ns l := edit ns l (λ s, s <| if_up := false |>);
     nl_LinkSetName ns l name := edit ns l (λ s, s <| if_name := name |>);
     nl_LinkSetAlias ns l a := edit ns l (λ s, s <| if_alias := a |>);
     nl_LinkSetNsFd ns l to := edit ns l (λ s, s <| if_ns := to |>);
     nl_LinkSetHardwareAddr _ _ _ n := (n, None); nl_LinkSetVfHardwareAddr _ _ _ n := (n, None);
     nl_LinkSetVfVlanQosProto _ _ _ _ _ n := (n, None); nl_LinkSetVfRate _ _ _ _ n := (n, None);
     nl_LinkSetVfSpoofchk _ _ _ n := (n, None); nl_LinkSetVfTrust _ _ _ n := (n, None);
     nl_LinkSetVfState _ _ _ n := (n, None); send_raw _ _ n := (n, None);
     ipam_ExecAdd _ _ n := (n, Ok ""); ipam_NewResultFromResult _ := Err (Text "");
     ipam_ExecDel _ _ n := (n, None); ipam_ConfigureIface _ _ _ n := (n, None) |}.
Definition one_view (n : ifstate) : gmap Z ifstate := {[7%Z := n]}.
Lemma edit_edits ns l f : edits one_view ns (lk_index l) f (edit ns l f).
Proof.
  intros n. unfold edit, one_view. case_bool_decide as H; [|done]. destruct H as [-> H]. exists n.
  rewrite lookup_singleton_eq, insert_singleton_eq. done.
Qed.
#[export] Instance one_laws : KernelLaws ifstate.
Proof.
  refine {| view := one_view |}; try (intros; apply edit_edits); try (intros; intros n; reflexivity).
  - intros n i j s t Hi Hj _ _. unfold one_view in Hi, Hj. apply lookup_singleton_Some in Hi as [<- _], Hj as [<- _]. done.
  - intros ns name n. simpl. case_bool_decide as H; [|done]. destruct H as [<- <-]. split; [done|].
    split; [done|]. unfold one_view. simpl. rewrite lookup_singleton_eq. by destruct n.
Defined.
Definition req : PodRequest :=
  mkPodRequest CNIAdd "default" "nf" "" "c1" "/proc/1/ns/net" "net1" "/opt/cni/bin"
    (zero_NetConf <| ConfDeviceID := "eth7" |> <| DeviceIDType := DeviceIDTypeNetdev |>) {| Env := ∅; Config := "" |} "net".
Definition w0 : cni_world ifstate := mkWorld ∅ ∅ (mkIf HostNS "eth7" true "").
Definition w1 : cni_world ifstate := mkWorld ∅ ∅ (mkIf (PodNS "/proc/1/ns/net") "net1" true "eth7").
Definition w2 : cni_world ifstate := mkWorld ∅ ∅ (mkIf HostNS "eth7" false "eth7").
Definition mac : string := "02:00:00:00:00:01".
Definition res : CniResult :=
  {| ResCNIVersion := ""; Interfaces := [{| IfaceName := "net1"; IfaceMac := mac; IfaceSandbox := "/proc/1/ns/net" |}];
     IPs := [] |}.
Lemma nf_added : NfCmdAdd req w0 = (w1, Ret (Ok (res, req <| CNIConf := CNIConf req <| MAC := mac |> |>))).
Proof. vm_compute. reflexivity. Qed.
Lemma nf_deleted : NfCmdDel req w1 = (w2, Ret (Ok tt)).
Proof. vm_compute. reflexivity. Qed.
End NetworkFnDemo.
Import NetworkFnDemo.
(** A machine that loses the interface when it is brought up. *)
Module Losing.
#[local] Instance losing : NetOps bool :=
  {| os_fault _ _ n := (n, None); the_fs _ := no_fs;
     ns_GetNS _ n := (n, NsFound); ns_GetCurrentNS n := (n, None); ns_enter _ n := (n, None);
     nl_LinkByName := λ _ _ (n : bool), (n, if n then Ok (the_link (mkIf HostNS "" true "")) else Err (Text "Link not found"));
     nl_LinkSetUp _ _ n := (false, None); nl_LinkSetDown _ _ n := (n, None); nl_LinkSetName _ _ _ n := (n, None);
     nl_LinkSetAlias _ _ _ n := (n, None); nl_LinkSetNsFd _ _ _ n := (n, None);
     nl_LinkSetHardwareAddr _ _ _ n := (n, None); nl_LinkSetVfHardwareAddr _ _ _ n := (n, None);
     nl_LinkSetVfVlanQosProto _ _ _ _ _ n := (n, None); nl_LinkSetVfRate _ _ _ _ n := (n, None);
     nl_LinkSetVfSpoofchk _ _ _ n := (n, None); nl_LinkSetVfTrust _ _ _ n := (n, None);
     nl_LinkSetVfState _ _ _ n := (n, None); send_raw _ _ n := (n, None);
     ipam_ExecAdd _ _ n := (n, Ok ""); ipam_NewResultFromResult _ := Err (Text "");
     ipam_ExecDel _ _ n := (n, None); ipam_ConfigureIface _ _ _ n := (n, None) |}.
Definition dev : Link := the_link (mkIf HostNS "" true "").
End Losing.
Lemma in_container_nil_device_witness :
  (@in_container bool Losing.losing "/ns" "temp_7" "eth7" "net1" Losing.dev (mkWorld ∅ ∅ true)).2 = Panic.
Proof.
  exact (@in_container_nil_device bool Losing.losing "/ns" "temp_7" "eth7" "net1" Losing.dev
           true true true true false false Losing.dev _ eq_refl eq_refl eq_refl eq_refl eq_refl).
Defined.
