(* ===== verification/SideManagers.v ===== *)
(** The two sides of the daemon: internal/daemon/hostsidemanager.go, which sets
    virtual functions up and asks the DPU for bridge ports, and
    internal/daemon/dpusidemanager.go, which serves those requests from the vendor
    plugin, moves network-function interfaces into pods and creates a network
    function for every pair of them.

    The CNI machinery below is Sriov.v and NetworkFn.v over a machine [N]; the vendor
    plugin is used through [VendorOps]; the DPU, as the host sees it, through
    [BridgeClient]. *)
From stdpp Require Import gmultiset.
From S2P Require Import Prelude Plugin OpiClient Net GrpcPlugin DevicePlugin GoMonad CniTypes SriovUtils Sriov NetworkFn.
#[local] Open Scope stdpp_scope.

(** [CheckPing]: a ping was seen less than [window] ago. *)
Definition recent_ping (window now : Z) (last : option Z) : bool :=
  match last with None => false | Some t => (now - t <? window)%Z end.

(** * The host side *)

Class BridgeClient (B : Type) := {
  bc_CreateBridgePort : CreateBridgePortRequest → B → B * result OpiBridgePort;
  bc_DeleteBridgePort : string → B → B * option error;
  bc_Ping : B → B * option error }.

Record HostSideManager := mkHost { hs_connected : bool; lastSuccessfulPing : option Z }.
Record host_world (N B : Type) := mkHostWorld { host : HostSideManager; host_cni : cni_world N; remote : B }.
Arguments mkHostWorld {_ _} _ _ _.
Arguments host {_ _} _.
Arguments host_cni {_ _} _.
Arguments remote {_ _} _.

Definition host_port_name (pf vf : Z) : string := "host" +:+ itoa pf +:+ "-" +:+ itoa vf.
Definition host_port_request (pf vf : Z) (m : HardwareAddr) : CreateBridgePortRequest :=
  {| BridgePortId := "";
     CreateBp := Some {| BpName := host_port_name pf vf;
                         BpSpec := Some {| MacAddress := m; Ptype := 1; LogicalBridges := [itoa (vf + 2)] |} |} |}.

Section Host.
Context {N B : Type} `{!NetOps N, !BridgeClient B} (dial : option error).
Abbreviation HM := (M (host_world N B)).

Definition on_host_cni {A} (f : M (cni_world N) A) : HM A :=
  λ w, let '(c, r) := f (host_cni w) in (mkHostWorld (host w) c (remote w), r).
Definition on_remote {A} (f : B → B * A) : HM A :=
  λ w, let '(b, a) := f (remote w) in (mkHostWorld (host w) (host_cni w) b, Ret a).

Definition connectWithRetry : HM (result unit) :=
  c ← reads (λ w, hs_connected (host w));
  if c : bool then ok else
  match dial with
  | Some e => mret (Err (errorf "connectWithRetry dial failed: " e))
  | None => writes (λ w, mkHostWorld (mkHost true (lastSuccessfulPing (host w))) (host_cni w) (remote w))
  end.

(** The VLAN argument is not used. *)
Definition HostCreateBridgePort (pf vf vlan : Z) (mac : string) : HM (result OpiBridgePort) :=
  call _ := connectWithRetry or errorf "Failed to connect with retry: " in
  match ParseMAC mac with
  | Err e => mret (Err (errorf ("Failed to parse Mac '" +:+ mac +:+ "': ") e))
  | Ok m => on_remote (bc_CreateBridgePort (host_port_request pf vf m))
  end.
(** The error of [connectWithRetry] is dropped; without a connection the client is nil. *)
Definition HostDeleteBridgePort (pf vf vlan : Z) (mac : string) : HM (result unit) :=
  _ ← ignore connectWithRetry;
  c ← reads (λ w, hs_connected (host w));
  if c : bool then
    e ← on_remote (bc_DeleteBridgePort (host_port_name pf vf)); mret (match e with None => Ok tt | Some e => Err e end)
  else panic.

Definition hostCmdAddHandler (req : PodRequest) : HM (result (option CniResult)) :=
  call (res, conf) := on_host_cni (CmdAdd req) or errorf "SRIOV manager failed in add handler: " in
  call _ := HostCreateBridgePort 0 (VFID conf) 2 (EffectiveMAC (OrigVfState conf))
    or errorf "Failed to call CreateBridgePort: " in
  mret (Ok (Some res)).
Definition hostCmdDelHandler (req : PodRequest) : HM (result (option CniResult)) :=
  call (vfReleased, req) := on_host_cni (CmdDel req) or (λ _, Text "SRIOV manager failed in del handler") in
  _ ← (if vfReleased : bool
       then ignore (HostDeleteBridgePort 0 (VFID (CNIConf req)) 2 (EffectiveMAC (OrigVfState (CNIConf req))))
       else mret tt);
  mret (Ok None).

(** One tick of [StartPing]. *)
Definition HostPing (now : Z) : HM bool :=
  c ← connectWithRetry;
  match c with
  | Err _ => mret false
  | Ok _ =>
      e ← on_remote bc_Ping;
      match e with
      | Some _ => mret false
      | None => _ ← writes (λ w, mkHostWorld (mkHost (hs_connected (host w)) (Some now)) (host_cni w) (remote w));
                mret true
      end
  end.
Definition HostCheckPing (now : Z) (w : host_world N B) : bool :=
  recent_ping (5 * Second) now (lastSuccessfulPing (host w)).
End Host.

(** * The DPU side *)

Record DpuSideManager := mkDpu { macStore : gmap string (list string); lastPingTime : option Z }.
Record dpu_world (N W : Type) := mkDpuWorld { dpu : DpuSideManager; dpu_cni : cni_world N; vendor : W }.
Arguments mkDpuWorld {_ _} _ _ _.
Arguments dpu {_ _} _.
Arguments dpu_cni {_ _} _.
Arguments vendor {_ _} _.

Section Dpu.
Context {N W : Type} `{!NetOps N, !VendorOps W}.
Abbreviation DM := (M (dpu_world N W)).

Definition on_dpu_cni {A} (f : M (cni_world N) A) : DM A :=
  λ w, let '(c, r) := f (dpu_cni w) in (mkDpuWorld (dpu w) c (vendor w), r).
Definition on_vendor {A} (f : W → W * A) : DM A :=
  λ w, let '(v, a) := f (vendor w) in (mkDpuWorld (dpu w) (dpu_cni w) v, Ret a).
Definition set_macs (ns : string) (macs : list string) : DM (result unit) :=
  writes (λ w, mkDpuWorld (mkDpu (<[ns := macs]> (macStore (dpu w))) (lastPingTime (dpu w))) (dpu_cni w) (vendor w)).
(** Indexing a Go map with an absent key gives the zero value, the nil slice. *)
Definition macs_of (ns : string) (w : dpu_world N W) : list string := default [] (macStore (dpu w) !! ns).

(** The log line reads the name of [bpr.BridgePort], which panics when it is nil. *)
Definition DpuCreateBridgePort (bpr : CreateBridgePortRequest) : DM (result OpiBridgePort) :=
  match CreateBp bpr with None => panic | Some _ => on_vendor (vp_CreateBridgePort (Some bpr)) end.
Definition DpuDeleteBridgePort (name : string) : DM (result unit) := on_vendor (vp_DeleteBridgePort (Some name)).
Definition DpuPing (now : Z) : DM (result unit) :=
  writes (λ w, mkDpuWorld (mkDpu (macStore (dpu w)) (Some now)) (dpu_cni w) (vendor w)).
Definition DpuCheckPing (now : Z) (w : dpu_world N W) : bool := recent_ping (60 * Second) now (lastPingTime (dpu w)).

Definition cniCmdNfAddHandler (req : PodRequest) : DM (result (option CniResult)) :=
  call (res, req) := on_dpu_cni (NfCmdAdd req) or errorf "SRIOV manager failed in add handler: " in
  macs ← reads (macs_of (Netns req));
  let macs := macs ++ [MAC (CNIConf req)] in
  _ ← set_macs (Netns req) macs;
  _ ← match macs with
      | [m0; m1] => ignore (on_vendor (vp_CreateNetworkFunction m0 m1))
      | _ => mret tt
      end;
  mret (Ok (Some res)).
Definition cniCmdNfDelHandler (req : PodRequest) : DM (result (option CniResult)) :=
  call _ := on_dpu_cni (NfCmdDel req) or (λ _, Text "SRIOV manager failed in del handler") in
  macs ← reads (macs_of (Netns req));
  _ ← match macs with
      | [m0; m1] => ignore (on_vendor (vp_DeleteNetworkFunction m0 m1))
      | _ => mret tt
      end;
  match macs with
  | [] => panic
  | _ => _ ← set_macs (Netns req) (removelast macs); mret (Ok None)
  end.
End Dpu.

(** * Which network functions the VSP was told of *)

(** A vendor plugin together with the network functions it was asked to create and
    not yet to delete. *)
Definition watched (W : Type) : Type := gmultiset (string * string) * W.
#[export] Instance watched_ops {W} `{!VendorOps W} : VendorOps (watched W) :=
  {| vp_CreateBridgePort r w := let '(v, a) := vp_CreateBridgePort r w.2 in ((w.1, v), a);
     vp_DeleteBridgePort r w := let '(v, a) := vp_DeleteBridgePort r w.2 in ((w.1, v), a);
     vp_CreateNetworkFunction i o w :=
       let '(v, a) := vp_CreateNetworkFunction i o w.2 in ((w.1 ⊎ {[+ (i, o) +]}, v), a);
     vp_DeleteNetworkFunction i o w :=
       let '(v, a) := vp_DeleteNetworkFunction i o w.2 in ((w.1 ∖ {[+ (i, o) +]}, v), a);
     vp_GetDevices w := let '(v, a) := vp_GetDevices w.2 in ((w.1, v), a);
     vp_SetNumVfs n w := let '(v, a) := vp_SetNumVfs n w.2 in ((w.1, v), a) |}.

(** The pair a pod's interfaces make: the first two. *)
Definition nf_pair (macs : list string) : gmultiset (string * string) :=
  match macs with m0 :: m1 :: _ => {[+ (m0, m1) +]} | _ => ∅ end.
Definition nf_pairs (store : gmap string (list string)) : gmultiset (string * string) :=
  map_fold (λ _ macs acc, nf_pair macs ⊎ acc) ∅ store.

(** The daemon at work: requests handled one at a time, under the CNI server's mutex. *)
Inductive dpu_step {N W} `{!NetOps N, !VendorOps W} : dpu_world N W → dpu_world N W → Prop :=
  | ds_add req w w' r : cniCmdNfAddHandler req w = (w', r) → dpu_step w w'
  | ds_del req w w' r : cniCmdNfDelHandler req w = (w', r) → dpu_step w w'
  | ds_create_port bpr w w' r : DpuCreateBridgePort bpr w = (w', r) → dpu_step w w'
  | ds_delete_port name w w' r : DpuDeleteBridgePort name w = (w', r) → dpu_step w w'
  | ds_ping now w w' r : DpuPing now w = (w', r) → dpu_step w w'.

(** * Lemmas *)

Lemma nf_pairs_insert ns macs store :
  nf_pairs (<[ns := macs]> store) = nf_pair macs ⊎ nf_pairs (delete ns store).
Proof.
  unfold nf_pairs. rewrite (map_fold_delete_L _ _ ns macs); [|intros; multiset_solver|apply lookup_insert_eq].
  by rewrite delete_insert_eq.
Qed.
Lemma nf_pairs_lookup ns store :
  nf_pairs store = nf_pair (default [] (store !! ns)) ⊎ nf_pairs (delete ns store).
Proof.
  destruct (store !! ns) as [macs|] eqn:E; simpl.
  - unfold nf_pairs. rewrite (map_fold_delete_L _ _ ns macs); [done|intros; multiset_solver|done].
  - rewrite delete_id by done. multiset_solver.
Qed.
Lemma nf_pair_app macs m :
  nf_pair (macs ++ [m]) = match macs with [m0] => {[+ (m0, m) +]} | _ => nf_pair macs end.
Proof. by destruct macs as [|m0 [|m1 macs]]. Qed.
Lemma nf_pair_removelast macs :
  nf_pair macs = match macs with [m0; m1] => {[+ (m0, m1) +]} | _ => nf_pair (removelast macs) end.
Proof. by destruct macs as [|m0 [|m1 [|m2 macs]]]. Qed.

Definition pairs_inv {N W} (w : dpu_world N (watched W)) : Prop := (vendor w).1 = nf_pairs (macStore (dpu w)).
Lemma pairs_inv_add {N W} `{!NetOps N, !VendorOps W} req (w w' : dpu_world N (watched W)) r :
  cniCmdNfAddHandler req w = (w', r) → pairs_inv w → pairs_inv w'.
Proof.
  unfold cniCmdNfAddHandler, try_bind, ignore, on_dpu_cni, on_vendor, set_macs, writes, reads, macs_of, mbind, M_bind, mret, M_ret.
  destruct w as [[store ping] c [nfs v]]. unfold pairs_inv. simpl.
  destruct (NfCmdAdd req c) as [c' [[[res req']|e]|]]; [|by intros [= <- _]..]. simpl. intros H Hinv.
  rewrite (nf_pairs_lookup (Netns req')) in Hinv.
  destruct (default [] (store !! Netns req')) as [|m0 [|m1 [|m2 macs]]]; simpl in H, Hinv;
    try (destruct (vp_CreateNetworkFunction _ _ v)); simpl in H; injection H as <- _; simpl;
    rewrite nf_pairs_insert, Hinv; simpl; multiset_solver.
Qed.
Lemma pairs_inv_del {N W} `{!NetOps N, !VendorOps W} req (w w' : dpu_world N (watched W)) r :
  cniCmdNfDelHandler req w = (w', r) → pairs_inv w → pairs_inv w'.
Proof.
  unfold cniCmdNfDelHandler, try_bind, ignore, on_dpu_cni, on_vendor, set_macs, writes, reads, macs_of, panic, mbind, M_bind, mret, M_ret.
  destruct w as [[store ping] c [nfs v]]. unfold pairs_inv. simpl.
  destruct (NfCmdDel req c) as [c' [[u|e]|]]; [|by intros [= <- _]..]. simpl. intros H Hinv.
  assert (nf_pairs store = nf_pair (default [] (store !! Netns req)) ⊎ nf_pairs (delete (Netns req) store)) as Hl
    by apply nf_pairs_lookup.
  destruct (default [] (store !! Netns req)) as [|m0 [|m1 [|m2 macs]]] eqn:E; simpl in H, Hl;
    try (destruct (vp_DeleteNetworkFunction _ _ v)); simpl in H; injection H as <- _; simpl; try done;
    rewrite nf_pairs_insert, Hinv, Hl; simpl; multiset_solver.
Qed.
Lemma pairs_inv_step {N W} `{!NetOps N, !VendorOps W} (w w' : dpu_world N (watched W)) :
  dpu_step w w' → pairs_inv w → pairs_inv w'.
Proof.
  intros [req ? ? r H|req ? ? r H|bpr ? ? r H|name ? ? r H|now ? ? r H].
  - by eapply pairs_inv_add.
  - by eapply pairs_inv_del.
  - unfold DpuCreateBridgePort, on_vendor, panic, pairs_inv in *.
    destruct (CreateBp bpr); [|by injection H as <- _]. destruct (vendor w0) as [nfs v] eqn:E. simpl in H.
    destruct (vp_CreateBridgePort _ v). injection H as <- _. done.
  - unfold DpuDeleteBridgePort, on_vendor, pairs_inv in *. destruct (vendor w0) as [nfs v] eqn:E. simpl in H.
    destruct (vp_DeleteBridgePort _ v). injection H as <- _. done.
  - by injection H as <- _.
Qed.

(** What the host's bridge-port call leaves alone. *)
Lemma HostCreateBridgePort_cni {N B} `{!NetOps N, !BridgeClient B} dial pf vf vlan mac :
  preserves host_cni (HostCreateBridgePort dial pf vf vlan mac : M (host_world N B) _).
Proof.
  assert (∀ A (f : B → B * A), preserves host_cni (on_remote f : M (host_world N B) A)) as Hr.
  { intros A f w. unfold on_remote. by destruct (f (remote w)). }
  unfold HostCreateBridgePort, connectWithRetry, ok. apply preserves_call.
  - preserve.
  - intros _. destruct (ParseMAC mac); [apply Hr|done].
Qed.

Lemma on_host_cni_remote {N B A} (f : M (cni_world N) A) : preserves remote (on_host_cni f : M (host_world N B) _).
Proof. intros w. unfold on_host_cni. by destruct (f (host_cni w)). Qed.
Lemma connect_remote {N B} dial : preserves remote (connectWithRetry dial : M (host_world N B) _).
Proof. unfold connectWithRetry, ok. apply preserves_bind; [done|]. intros []; [done|]. by destruct dial. Qed.
Lemma connect_cni {N B} dial : preserves host_cni (connectWithRetry dial : M (host_world N B) _).
Proof. unfold connectWithRetry, ok. apply preserves_bind; [done|]. intros []; [done|]. by destruct dial. Qed.

(** [CmdDel] gave the virtual function back. *)
Definition released {A B} (o : A * outcome (result (bool * B))) : bool :=
  match o.2 with Ret (Ok (b, _)) => b | _ => false end.
(** What the host's del handler asks the DPU for: nothing unless a virtual function was
    given back, and then the deletion of the port of the VF in the cached configuration. *)
Lemma host_del_asks {N B} `{!NetOps N, !BridgeClient B} dial req (w w' : host_world N B) r :
  hostCmdDelHandler dial req w = (w', Ret (Ok r)) →
  if released (CmdDel req (host_cni w)) then
    ∃ conf, cache (host_cni w) !! cache_path (ContainerId req) (IfName req) = Some conf ∧
      remote w' = (bc_DeleteBridgePort (host_port_name 0 (VFID conf)) (remote w)).1
  else remote w' = remote w.
Proof.
  unfold hostCmdDelHandler. intros H. inv_call H as H0. destruct a as [rel req'].
  pose proof (preserves_returns remote _ _ _ _ (on_host_cni_remote _) H0) as Hr0.
  unfold returns, on_host_cni in H0. destruct (CmdDel req (host_cni w)) as [c' o] eqn:Ed. injection H0 as <- ->. unfold released. simpl in *.
  inv_bind H as H1. inv_ret H. destruct rel; [|by inv_ret H1].
  apply CmdDel_true in Ed as (conf & Hc & Hv & _). exists conf. split; [done|].
  apply ignore_returns in H1 as [x H1]. unfold HostDeleteBridgePort in H1. inv_bind H1 as H2. apply ignore_returns in H2 as [y H2].
  pose proof (preserves_returns remote _ _ _ _ (connect_remote _) H2) as Hr1. simpl in Hr1.
  inv_bind H1 as H3. injection H3 as <- <-. destruct (hs_connected _); [|done]. inv_bind H1 as H4. apply ret_returns in H1 as [-> _].
  unfold returns, on_remote in H4. rewrite Hr1, Hv in H4.
  by destruct (bc_DeleteBridgePort (host_port_name 0 (VFID conf)) (remote w)); injection H4 as <- _.
Qed.

(** What a request of the host may do to the DPU: nothing, or one call. *)
Section Remote.
Context {N B : Type} `{!NetOps N, !BridgeClient B} (dial : option error).
Implicit Type (w : host_world N B).
Lemma host_add_remote req w : let w' := (hostCmdAddHandler dial req w).1 in
  remote w' = remote w ∨ ∃ vf m, remote w' = (bc_CreateBridgePort (host_port_request 0 vf m) (remote w)).1.
Proof.
  cbv zeta. unfold hostCmdAddHandler, try_bind. unfold mbind, M_bind.
  pose proof (on_host_cni_remote (B := B) (CmdAdd req) w) as H1.
  destruct (on_host_cni (CmdAdd req) w) as [w1 [[[res conf]|e]|]]; simpl in *; [|by left..]. rewrite <-H1.
  unfold HostCreateBridgePort, try_bind. unfold mbind, M_bind. pose proof (connect_remote dial w1) as H2.
  destruct (connectWithRetry dial w1) as [w2 [[u|e]|]]; simpl in *; [|by left..]. rewrite <-H2.
  destruct (ParseMAC _) as [m|e]; [|by left]. right. exists (VFID conf), m. unfold on_remote.
  by destruct (bc_CreateBridgePort _ (remote w2)) as [b [port|e]].
Qed.
Lemma host_del_remote req w : let w' := (hostCmdDelHandler dial req w).1 in
  remote w' = remote w ∨ ∃ vf, remote w' = (bc_DeleteBridgePort (host_port_name 0 vf) (remote w)).1.
Proof.
  cbv zeta. unfold hostCmdDelHandler, try_bind, ignore. unfold mbind, M_bind.
  pose proof (on_host_cni_remote (B := B) (CmdDel req) w) as H1.
  destruct (on_host_cni (CmdDel req) w) as [w1 [[[[] req']|e]|]]; simpl in *; [|by left..]. rewrite <-H1.
  unfold HostDeleteBridgePort, ignore. unfold mbind, M_bind. pose proof (connect_remote dial w1) as H2.
  destruct (connectWithRetry dial w1) as [w2 [u|]]; simpl in *; [|by left]. rewrite <-H2.
  destruct (hs_connected (host w2)); [|by left]. right. exists (VFID (CNIConf req')). unfold on_remote.
  by destruct (bc_DeleteBridgePort _ (remote w2)) as [b [e|]].
Qed.
Lemma host_ping_remote now w : let w' := (HostPing dial now w).1 in
  remote w' = remote w ∨ remote w' = (bc_Ping (remote w)).1.
Proof.
  cbv zeta. unfold HostPing. unfold mbind, M_bind. pose proof (connect_remote dial w) as H2.
  destruct (connectWithRetry dial w) as [w2 [[u|e]|]]; simpl in *; [|by left..]. rewrite <-H2.
  unfold on_remote. right. by destruct (bc_Ping (remote w2)) as [b [e|]].
Qed.
End Remote.

(** * Theorems *)


(** A deletion the container runtime may always send, for a pod whose interface
    was never added and with an empty namespace path, panics: the handler cuts the
    last element off an empty list. *)
Theorem nf_del_panics {N W} `{!NetOps N, !VendorOps W} req (w : dpu_world N W) :
  Netns req = "" → macStore (dpu w) !! "" = None → cniCmdNfDelHandler req w = (w, Panic).
Proof.
  intros Hns Hm. unfold cniCmdNfDelHandler, NfCmdDel. rewrite Hns.
  unfold try_bind, on_dpu_cni, reads, macs_of, panic, ok, mbind, M_bind, mret, M_ret. simpl. rewrite Hm. by destruct w.
Qed.

(** Adding a virtual function bound to a userspace driver always fails on the
    host, after the fact: no MAC address was recorded, the bridge-port request cannot
    be made, and the error leaves the device allocated to the pod. *)
Theorem host_add_dpdk_fails {N B} `{!NetOps N, !BridgeClient B} dial req (w : host_world N B) c' res conf :
  CmdAdd req (host_cni w) = (c', Ret (Ok (res, conf))) →
  EffectiveMAC (OrigVfState (CNIConf req)) = "" → DPDKMode conf = true →
  ∃ w' e, hostCmdAddHandler dial req w = (w', Ret (Err e)) ∧ remote w' = remote w ∧ host_cni w' = c' ∧
    pci_dir (host_cni w') !! Join [pciDir; ConfDeviceID conf] = Some (Netns req).
Proof.
  intros Ha Heff Hd. pose proof Ha as Ha'.
  apply CmdAdd_returns in Ha' as (w1 & n & Hl & (vs & _ & Hvs) & Hdp & _ & Hp).
  apply LoadConf_returns in Hl as (_ & _ & _ & (_ & _ & _ & _ & Heff')).
  assert (EffectiveMAC (OrigVfState conf) = "") as He.
  { rewrite (Hdp ltac:(by rewrite Hvs in Hd)). simpl. congruence. }
  unfold hostCmdAddHandler, try_bind at 1, on_host_cni. unfold mbind at 1, M_bind at 1. rewrite Ha.
  rewrite He. unfold HostCreateBridgePort, connectWithRetry, try_bind, reads, writes, ok, mbind, M_bind, mret, M_ret. simpl.
  destruct (hs_connected (host w)), dial; simpl; (eexists _, _; split; [reflexivity|]; simpl; rewrite Hp; split; [done|split; [done|apply lookup_insert_eq]]).
Qed.

(** When the host's add handler succeeds, the DPU was asked, as the handler's
    last act and only then, for a port named after the VF, with the VF's MAC address, in the
    logical bridge of number VF + 2, and it agreed. *)
Theorem host_add_bridge_port {N B} `{!NetOps N, !BridgeClient B} dial req (w w' : host_world N B) r :
  hostCmdAddHandler dial req w = (w', Ret (Ok r)) →
  ∃ conf m port,
    ParseMAC (EffectiveMAC (OrigVfState conf)) = Ok m ∧
    bc_CreateBridgePort (host_port_request 0 (VFID conf) m) (remote w) = (remote w', Ok port) ∧
    cache (host_cni w') !! cache_path (ContainerId req) (IfName req) = Some (json_roundtrip conf).
Proof.
  unfold hostCmdAddHandler. intros H. inv_call H as H0. destruct a as [res conf]. exists conf.
  pose proof (preserves_returns remote _ _ _ _ (on_host_cni_remote _) H0) as Hr0.
  inv_call H as H1. inv_ret H.
  pose proof (preserves_returns host_cni _ _ _ _ (HostCreateBridgePort_cni _ _ _ _ _) H1) as Hc.
  unfold HostCreateBridgePort in H1. inv_call H1 as H2.
  pose proof (preserves_returns remote _ _ _ _ (connect_remote _) H2) as Hr1.
  destruct (ParseMAC (EffectiveMAC (OrigVfState conf))) as [m|e]; [|by inv_ret H1].
  unfold returns, on_remote in H1. exists m. rewrite <-Hr0, <-Hr1.
  destruct (bc_CreateBridgePort (host_port_request 0 (VFID conf) m) (remote w2)) as [b r'] eqn:E.
  injection H1 as Hw ->. exists a. split; [done|]. split; [by rewrite <-Hw|].
  rewrite Hc. unfold returns, on_host_cni in H0. destruct (CmdAdd req (host_cni w)) as [c' o] eqn:Ea.
  injection H0 as <- ->. apply CmdAdd_returns in Ea as (_ & _ & _ & _ & _ & Hcc & _). simpl. rewrite Hcc.
  apply lookup_insert_eq.
Qed.

(** * Witnesses *)
Module SideDemo.
#[export] Existing Instance SriovDemo.demo_net.
#[export] Existing Instance DevicePluginDemo.vendor.
(** A DPU that agrees to everything and counts the calls. *)
#[export] Instance agreeing : BridgeClient nat :=
  {| bc_CreateBridgePort _ n := (S n, Ok {| BpName := ""; BpSpec := None |});
     bc_DeleteBridgePort _ n := (S n, None); bc_Ping n := (S n, None) |}.
Abbreviation dworld := (dpu_world SriovDemo.machine (watched unit)).
Definition d0 : dworld := mkDpuWorld (mkDpu ∅ None) (SriovDemo.w0 false) (∅, tt).
(** Two interfaces of one pod. *)
Definition d1 : dworld := (cniCmdNfAddHandler SriovDemo.plain d0).1.
Definition d2 : dworld := (cniCmdNfAddHandler SriovDemo.plain d1).1.
Lemma two_interfaces : rtc dpu_step d0 d2.
Proof.
  apply rtc_l with d1; [apply (ds_add SriovDemo.plain d0 d1 (cniCmdNfAddHandler SriovDemo.plain d0).2), surjective_pairing|].
  apply rtc_once, (ds_add SriovDemo.plain d1 d2 (cniCmdNfAddHandler SriovDemo.plain d1).2), surjective_pairing.
Qed.
Lemma two_macs : macStore (dpu d2) = {["/proc/1/ns/net" := ["02:00:00:00:00:01"; "02:00:00:00:00:01"]]}.
Proof. vm_compute. reflexivity. Qed.
Lemma one_pair : nf_pairs {["/proc/1/ns/net" := ["02:00:00:00:00:01"; "02:00:00:00:00:01"]]}
  = {[+ ("02:00:00:00:00:01", "02:00:00:00:00:01") +]}.
Proof. vm_compute. reflexivity. Qed.
Definition h0 (dpdk : bool) : host_world SriovDemo.machine nat := mkHostWorld (mkHost false None) (SriovDemo.w0 dpdk) 0.
Lemma dpdk_mode : DPDKMode (SriovDemo.run SriovDemo.dpdk (SriovDemo.w0 true)).2 = true.
Proof. vm_compute. reflexivity. Qed.
Definition h1 : host_world SriovDemo.machine nat := (hostCmdAddHandler None SriovDemo.plain (h0 false)).1.
Definition h1_result : option CniResult :=
  match (hostCmdAddHandler None SriovDemo.plain (h0 false)).2 with Ret (Ok r) => r | _ => None end.
Lemma host_added : hostCmdAddHandler None SriovDemo.plain (h0 false) = (h1, Ret (Ok h1_result)).
Proof. vm_compute. reflexivity. Qed.
End SideDemo.
Import SideDemo.
Lemma nf_del_panics_witness :
  cniCmdNfDelHandler (SriovDemo.req "c1" "" "" "") d0 = (d0, Panic).
Proof. exact (nf_del_panics (SriovDemo.req "c1" "" "" "") d0 eq_refl eq_refl). Defined.
Lemma host_add_dpdk_fails_witness : ∃ w' e, hostCmdAddHandler None SriovDemo.dpdk (h0 true) = (w', Ret (Err e)).
Proof.
  destruct (host_add_dpdk_fails None SriovDemo.dpdk (h0 true) _ _ _ SriovDemo.ran_dpdk eq_refl dpdk_mode) as (w' & e & H & _).
  by exists w', e.
Defined.
Lemma host_add_bridge_port_witness : ∃ conf m port,
  bc_CreateBridgePort (host_port_request 0 (VFID conf) m) 0 = (remote h1, Ok port).
Proof.
  destruct (host_add_bridge_port None SriovDemo.plain (h0 false) h1 h1_result host_added) as (conf & m & port & _ & H & _).
  by exists conf, m, port.
Defined.
