(* ===== verification/Platform.v ===== *)
(** The machine the daemon runs on, internal/platform/platform.go: the [Platform]
    interface, its hardware implementation (what the library ghw and the file system
    answer are parameters), the search for a PCI device's serial number in its
    configuration space, the fake platform, and the name sanitizers of
    vendordetector.go.

    Names are ASCII: on other text Go's [ToLower] and [range] work on code points. *)
From S2P Require Import Prelude Plugin Net Scan.
#[local] Open Scope stdpp_scope.

(** [ghw.PCIDevice] and [ghw.NIC], the fields the program reads. *)
Record PCIDevice := mkPCI {
  pci_Address : string; pci_VendorID : string; pci_VendorName : string;
  pci_ProductID : string; pci_ProductName : string; pci_ClassName : string }.
Record NIC := mkNIC { nic_Name : string; nic_MacAddress : string; nic_PCIAddress : option string }.

(** The interface [Platform], as one detection pass sees it.  A nil device is [None]. *)
Record Platform := {
  PciDevices : result (list PCIDevice);
  NetDevs : result (list NIC);
  Product : result string;
  ReadDeviceSerialNumber : option PCIDevice → result string;
  GetNetDevNamesFromPCIeAddr : string → result (list string);
  GetNetDevNameFromPCIeAddr : string → result string;
  GetNetDevMACAddressFromPCIeAddr : string → result string }.

(** * Device serial numbers *)

Definition byte_at (data : list Z) (i : Z) : Z := nth (Z.to_nat i) data 0%Z.
(** [binary.LittleEndian.Uint32(data[off : off+4])]. *)
Definition le32 (data : list Z) (off : Z) : Z :=
  Z.lor (byte_at data off) (Z.lor (Z.shiftl (byte_at data (off + 1)) 8)
    (Z.lor (Z.shiftl (byte_at data (off + 2)) 16) (Z.shiftl (byte_at data (off + 3)) 24))).
(** [hex.EncodeToString]. *)
Definition hex_string (bs : list Z) : string := join "" (byte_string <$> bs).
Definition slice (data : list Z) (from to : Z) : list Z :=
  take (Z.to_nat (to - from)) (drop (Z.to_nat from) data).

Definition extCapStart : Z := 256.
Definition dsnCapabilityID : Z := 3.
Definition cap_id (header : Z) : Z := Z.land header 0xFFFF.
Definition next_ptr (header : Z) : Z := Z.land (Z.shiftr header 20) 0xFFF.
Definition serial_not_found : result string := Err (Text "device serial number capability not found").

Definition config_len (data : list Z) : Z := Z.of_nat (length data).
(** The loop over the extended capabilities; [None] when the fuel runs out. *)
Fixpoint serial_loop (fuel : nat) (visited : gset Z) (data : list Z) (offset : Z) : option (result string) :=
  match fuel with
  | O => None
  | S fuel =>
      if negb (negb (offset =? 0) && (offset + 4 <=? config_len data))%Z then Some serial_not_found else
      if bool_decide (offset ∈ visited) then Some (Err (Text "detected loop in PCI extended capabilities")) else
      let header := le32 data offset in
      if (header =? 0)%Z then Some serial_not_found else
      if (cap_id header =? dsnCapabilityID)%Z then
        if (offset + 12 >? config_len data)%Z then Some (Err (Text "invalid DSN capability length"))
        else Some (Ok (hex_string (slice data (offset + 4) (offset + 12))))
      else if (next_ptr header =? 0)%Z then Some serial_not_found
      else serial_loop fuel ({[offset]} ∪ visited) data (next_ptr header * 4)
  end.
Definition readDeviceSerialFromConfig (data : list Z) : result string :=
  if (config_len data <? extCapStart + 4)%Z then Err (Text "config space too small for extended capabilities") else
  default serial_not_found (serial_loop (S (length data)) ∅ data extCapStart).

(** * HardwarePlatform *)

Record hardware := {
  ghw_PCI : result (list PCIDevice);
  ghw_Network : result (list NIC);
  ghw_Product : result string;
  (** the bytes of a file *)
  read_bytes : string → result (list Z) }.

Definition at_address (addr : string) (nic : NIC) : bool := bool_decide (nic_PCIAddress nic = Some addr).

Section HardwarePlatform.
Context (hw : hardware).
Definition hw_GetNetDevNames (addr : string) : result (list string) :=
  match ghw_Network hw with
  | Err e => Err (Wrap "failed to get network devices: " e)
  | Ok nics => Ok (nic_Name <$> List.filter (at_address addr) nics)
  end.
Definition hw_GetNetDevName (addr : string) : result string :=
  let? names := hw_GetNetDevNames addr in
  match names with
  | [n] => Ok n
  | _ => Err (Text ("expected exactly 1 interface for PCIe address " +:+ addr +:+ ", got ["
                     +:+ join " " names +:+ "]"))
  end.
Definition hw_GetNetDevMACAddress (addr : string) : result string :=
  match ghw_Network hw with
  | Err e => Err (Wrap "failed to get network devices: " e)
  | Ok nics =>
      match find (at_address addr) nics with
      | Some nic => Ok (nic_MacAddress nic)
      | None => Err (Text ("no network device found at address " +:+ addr))
      end
  end.
Definition hw_ReadDeviceSerialNumber (pciDevice : option PCIDevice) : result string :=
  match pciDevice with
  | None => Err (Text "nil PCI device provided")
  | Some pci =>
      match read_bytes hw (path_join (path_join sysfsPath (pci_Address pci)) "config") with
      | Err e => Err (Text ("failed to open config space: " +:+ Error e))
      | Ok data => readDeviceSerialFromConfig data
      end
  end.
Definition NewHardwarePlatform : Platform := {|
  PciDevices := ghw_PCI hw; NetDevs := ghw_Network hw; Product := ghw_Product hw;
  ReadDeviceSerialNumber := hw_ReadDeviceSerialNumber;
  GetNetDevNamesFromPCIeAddr := hw_GetNetDevNames; GetNetDevNameFromPCIeAddr := hw_GetNetDevName;
  GetNetDevMACAddressFromPCIeAddr := hw_GetNetDevMACAddress |}.
End HardwarePlatform.

(** * FakePlatform *)

Record FakePlatform := { platformName : string; fake_devices : list PCIDevice; fake_netdevs : list NIC }.
Definition NewFakePlatform (name : string) : FakePlatform :=
  {| platformName := name; fake_devices := []; fake_netdevs := [] |}.
Definition AddPciDevice (d : PCIDevice) (p : FakePlatform) : FakePlatform :=
  {| platformName := platformName p; fake_devices := fake_devices p ++ [d]; fake_netdevs := fake_netdevs p |}.
Definition RemoveAllPciDevices (p : FakePlatform) : FakePlatform :=
  {| platformName := platformName p; fake_devices := []; fake_netdevs := fake_netdevs p |}.
Definition fake_platform (p : FakePlatform) : Platform := {|
  PciDevices := Ok (fake_devices p); NetDevs := Ok (fake_netdevs p); Product := Ok (platformName p);
  ReadDeviceSerialNumber o :=
    match o with None => Err (Text "nil PCI device provided") | Some d => Ok ("FAKE-SERIAL-" +:+ pci_Address d) end;
  GetNetDevNamesFromPCIeAddr _ := Err (Text "Not implemented");
  GetNetDevNameFromPCIeAddr _ := Err (Text "Not implemented");
  GetNetDevMACAddressFromPCIeAddr _ := Err (Text "Not implemented") |}.

(** * Names *)

Definition SanitizePCIAddress : string → string := replace_all ":" "-".
Definition SanitizeForTemplate : string → string := replace_all "-" "_".

Definition ascii_in (lo hi c : ascii) : bool :=
  ((nat_of_ascii lo <=? nat_of_ascii c) && (nat_of_ascii c <=? nat_of_ascii hi))%nat.
Definition is_alnum (c : ascii) : bool := ascii_in "a" "z" c || ascii_in "0" "9" c.
Definition is_dash_dot (c : ascii) : bool := Ascii.eqb c "-" || Ascii.eqb c ".".
Definition k8s_char (c : ascii) : ascii := if is_alnum c || is_dash_dot c then c else "-"%char.
Definition SanitizeForK8sName (name : string) : string :=
  if String.eqb name "" then "unknown" else
  let out := trim_func is_dash_dot (string_map k8s_char (to_lower name)) in
  if String.eqb out "" then "unknown" else out.

(** A name Kubernetes accepts for a resource, an RFC 1123 subdomain: dot-separated
    labels of lower-case letters, digits and inner hyphens, 253 characters at most. *)
Definition first_char (s : string) : option ascii := match s with EmptyString => None | String c _ => Some c end.
Fixpoint last_char (s : string) : option ascii :=
  match s with EmptyString => None | String c EmptyString => Some c | String _ s => last_char s end.
Definition opt_alnum (o : option ascii) : bool := match o with Some c => is_alnum c | None => false end.
Definition label_ok (l : string) : bool :=
  opt_alnum (first_char l) && opt_alnum (last_char l) && all_char (λ c, is_alnum c || Ascii.eqb c "-") l.
Definition k8s_name_ok (s : string) : bool :=
  (String.length s <=? 253)%nat && forallb label_ok (split_char "." s).

(** * Lemmas *)

(** Every visited offset is one of the config space's, so the fuel suffices. *)
Definition offsets_of (data : list Z) : gset Z := list_to_set (seqZ 0 (config_len data)).
Lemma size_offsets data : (size (offsets_of data) ≤ length data)%nat.
Proof.
  unfold offsets_of. rewrite size_list_to_set by apply NoDup_seqZ. rewrite length_seqZ. unfold config_len. lia.
Qed.
Lemma serial_loop_total data fuel visited offset :
  visited ⊆ offsets_of data → (length data < fuel + size visited)%nat → (0 ≤ offset)%Z →
  is_Some (serial_loop fuel visited data offset).
Proof.
  revert visited offset. induction fuel as [|fuel IH]; intros visited offset Hv Hf Ho.
  { apply subseteq_size in Hv. pose proof (size_offsets data). lia. }
  cbn [serial_loop]. destruct (negb _) eqn:Hn; [eauto|].
  case_bool_decide as Hin; [eauto|]. destruct (le32 data offset =? 0)%Z; [eauto|].
  destruct (cap_id _ =? _)%Z; [destruct (_ >? _)%Z; eauto|]. destruct (next_ptr _ =? 0)%Z; [eauto|].
  apply IH.
  - apply union_subseteq. split; [|done]. apply singleton_subseteq_l. unfold offsets_of.
    rewrite elem_of_list_to_set, elem_of_seqZ. apply negb_false_iff, andb_true_iff in Hn as [_ Hn]. lia.
  - rewrite size_union by set_solver. rewrite size_singleton. lia.
  - unfold next_ptr. assert (0 ≤ Z.land (Z.shiftr (le32 data offset) 20) 0xFFF)%Z; [|lia].
    apply Z.land_nonneg. right. lia.
Qed.

Lemma serial_loop_Ok data fuel visited offset s :
  serial_loop fuel visited data offset = Some (Ok s) →
  ∃ off, (off + 12 ≤ config_len data)%Z ∧ cap_id (le32 data off) = dsnCapabilityID ∧
    s = hex_string (slice data (off + 4) (off + 12)).
Proof.
  revert visited offset. induction fuel as [|fuel IH]; intros visited offset; [done|]. cbn [serial_loop].
  destruct (negb _); [done|]. case_bool_decide; [done|]. destruct (le32 data offset =? 0)%Z; [done|].
  destruct (cap_id _ =? _)%Z eqn:Hc; [|destruct (next_ptr _ =? 0)%Z; [done|apply IH]].
  destruct (_ >? _)%Z eqn:Hl; [done|]. intros [= <-]. exists offset.
  split; [|split; [|done]]; lia.
Qed.

Lemma serial_loop_step fuel visited data off :
  off ≠ 0%Z → (off + 4 ≤ config_len data)%Z → off ∉ visited → le32 data off ≠ 0%Z →
  cap_id (le32 data off) ≠ dsnCapabilityID → next_ptr (le32 data off) ≠ 0%Z →
  serial_loop (S fuel) visited data off = serial_loop fuel ({[off]} ∪ visited) data (next_ptr (le32 data off) * 4).
Proof.
  intros H1 H2 H3 H4 H5 H6. cbn [serial_loop].
  rewrite (proj2 (Z.eqb_neq _ _) H1), (proj2 (Z.leb_le _ _) H2), bool_decide_eq_false_2 by done.
  by rewrite (proj2 (Z.eqb_neq _ _) H4), (proj2 (Z.eqb_neq _ _) H5), (proj2 (Z.eqb_neq _ _) H6).
Qed.
Lemma serial_loop_zero fuel visited data off :
  off ∉ visited → le32 data off = 0%Z → serial_loop (S fuel) visited data off = Some serial_not_found.
Proof.
  intros H1 H2. cbn [serial_loop]. destruct (negb _); [done|]. by rewrite bool_decide_eq_false_2, H2 by done.
Qed.

(** A valid name has only the characters the sanitizer keeps. *)
Lemma split_all_char P sep s : forallb (all_char P) (split_char sep s) = true → all_char (λ c, P c || Ascii.eqb c sep) s = true.
Proof.
  induction s as [|c s IH]; [done|]. simpl. destruct (split_char_cons sep s) as (w & ws & Hw). rewrite Hw in *.
  destruct (Ascii.eqb c sep) eqn:E; simpl.
  - rewrite orb_true_r. exact IH.
  - rewrite orb_false_r, !andb_true_iff. intros [[Hc Hws] Hx]. split; [done|]. apply IH. simpl. by rewrite Hws, Hx.
Qed.
Lemma k8s_name_chars s : k8s_name_ok s = true → all_char (λ c, is_alnum c || is_dash_dot c) s = true.
Proof.
  unfold k8s_name_ok. intros [_ H]%andb_true_iff.
  eapply (all_char_impl (λ c, (is_alnum c || Ascii.eqb c "-") || Ascii.eqb c "."));
    [intros c; unfold is_dash_dot; by rewrite orb_assoc|].
  apply split_all_char. rewrite forallb_forall in *. intros l Hl. specialize (H l Hl).
  unfold label_ok in H. by apply andb_true_iff in H as [_ H].
Qed.

(** * Theorems *)

(** The search for the serial number ends on every configuration space, loops
    in the capability list included, and a serial number it reports is the eight
    bytes that follow a header of the serial-number capability, in hexadecimal. *)
Theorem serial_search_spec data :
  is_Some (serial_loop (S (length data)) ∅ data extCapStart) ∧
  ∀ s, readDeviceSerialFromConfig data = Ok s →
    ∃ off, (off + 12 ≤ config_len data)%Z ∧ cap_id (le32 data off) = dsnCapabilityID ∧
      s = hex_string (slice data (off + 4) (off + 12)).
Proof.
  assert (is_Some (serial_loop (S (length data)) ∅ data extCapStart)) as Ht.
  { apply serial_loop_total; [set_solver|lia|done]. }
  split; [done|]. intros s. unfold readDeviceSerialFromConfig. destruct (_ <? _)%Z; [done|].
  destruct Ht as [r Hr]. rewrite Hr. simpl. intros ->. by eapply serial_loop_Ok.
Qed.

(** The pointer of a capability header is a byte offset, and the code
    multiplies it by four: on a 4096-byte configuration space whose first capability
    is another one and points at the serial-number capability at offset [n], the
    serial number is not found when nothing lies at offset [4n]. *)
Theorem serial_missed data n :
  config_len data = 4096%Z →
  cap_id (le32 data extCapStart) ≠ dsnCapabilityID →
  next_ptr (le32 data extCapStart) = n → (extCapStart < n)%Z →
  cap_id (le32 data n) = dsnCapabilityID →
  le32 data (n * 4) = 0%Z →
  readDeviceSerialFromConfig data = serial_not_found.
Proof.
  intros Hl Hc Hn Hlt _ Hz. unfold readDeviceSerialFromConfig. unfold extCapStart in *.
  rewrite (proj2 (Z.ltb_ge _ _)) by lia.
  destruct (length data) as [|m] eqn:Em; [unfold config_len in Hl; lia|].
  assert (le32 data 256 ≠ 0)%Z as H0 by (intros E; rewrite E in Hn; vm_compute in Hn; lia).
  rewrite serial_loop_step by (try set_solver; lia). rewrite Hn, serial_loop_zero; [done| |done].
  set_solver by lia.
Qed.

(** * Witnesses *)
Module PlatformDemo.
(** Capability 1 at 0x100 points to 0x140, where the serial number is. *)
Definition config : list Z :=
  replicate 256 0%Z ++ [1; 0; 1; 20]%Z ++ replicate 60 0%Z ++ [3; 0; 1; 0; 1; 2; 3; 4; 5; 6; 7; 8]%Z ++ replicate 3764 0%Z.
Definition direct : list Z := replicate 256 0%Z ++ [3; 0; 1; 0; 1; 2; 3; 4; 5; 6; 7; 8]%Z.
Example direct_serial : readDeviceSerialFromConfig direct = Ok "0102030405060708".
Proof. vm_compute. reflexivity. Qed.
Example pointer : next_ptr (le32 config 256) = 320%Z.
Proof. vm_compute. reflexivity. Qed.
End PlatformDemo.
Lemma serial_missed_witness : readDeviceSerialFromConfig PlatformDemo.config = serial_not_found.
Proof.
  apply (serial_missed PlatformDemo.config 320); first [vm_compute; reflexivity | vm_compute; discriminate].
Defined.
