(* ===== verification/Detect.v ===== *)
(** Detection of data processing units, internal/platform: the six vendor detectors
    (ipu.go, marvell-dpu.go, netsec-accelerator.go, nvidia-bf.go, xsight.go,
    mangoboost.go), the detector manager and its [DetectAll], and the attachment of
    registry plugins with their configuration from the environment
    (vendordetector.go).

    The registry, its plugins' interface, the [Platform] interface and
    [NewGrpcPlugin] are the modelled ones; [os.Stat], [os.Getenv] and the clock are
    parameters. *)
From S2P Require Import Prelude Plugin Net Registry Scan Platform GrpcPlugin.
#[local] Open Scope stdpp_scope.

(** The Kubernetes objects the daemon writes (api/v1/dataprocessingunit_types.go). *)
Inductive ConditionStatus := ConditionTrue | ConditionFalse | ConditionUnknown.
#[export] Instance ConditionStatus_eq_dec : EqDecision ConditionStatus.
Proof. solve_decision. Defined.
Record Condition := mkCondition {
  CondType : string; CondStatus : ConditionStatus; CondReason : string; CondMessage : string;
  ObservedGeneration : Z; LastTransitionTime : Z }.
Record DpuSpec := mkDpuSpec { DpuProductName : string; IsDpuSide : bool; NodeName : string }.
#[export] Instance DpuSpec_eq_dec : EqDecision DpuSpec.
Proof. solve_decision. Defined.
(** [OwnerRefs] holds the names of the owners; the objects are cluster-scoped. *)
Record DataProcessingUnit := mkDpuCR {
  DpuName : string; DpuLabels : gmap string string; DpuAnnotations : gmap string string;
  DpuOwners : list string; DpuSpec_ : DpuSpec; DpuConditions : list Condition }.
#[export] Instance Condition_eta : Eta Condition :=
  λ c, mkCondition (CondType c) (CondStatus c) (CondReason c) (CondMessage c) (ObservedGeneration c) (LastTransitionTime c).
#[export] Instance DataProcessingUnit_eta : Eta DataProcessingUnit :=
  λ d, mkDpuCR (DpuName d) (DpuLabels d) (DpuAnnotations d) (DpuOwners d) (DpuSpec_ d) (DpuConditions d).
Definition ReadyConditionType : string := "Ready".

Inductive stat_result := Exists | NotExist | StatError (e : error).

(** The interface [VendorDetector]; [VspPlugin] is [NewGrpcPlugin] in all of them. *)
Record VendorDetector := {
  d_Name : string; GetVendorName : string; DpuPlatformName : string;
  IsDpuPlatform : Platform → result bool;
  IsDPU : Platform → PCIDevice → list string → result bool;
  GetDpuIdentifier : Platform → PCIDevice → result string;
  DpuPlatformIdentifier : Platform → result string }.

(** [errors.Errorf(msg + "%v", err)]. *)
Definition wrapf {A} (msg : string) (r : result A) : result A := rerr (λ e, Text (msg +:+ Error e)) r.

Section Detect.
Context {P : Type} `{!Plugin P} (reg : @Registry P) (Stat : string → stat_result).

(** ** ipu.go *)
Definition isVirtualFunction (device : string) : result bool :=
  match Stat (Scan.path_join (Scan.path_join Scan.sysfsPath device) "physfn") with
  | Exists => Ok true
  | NotExist => Ok false
  | StatError e => Err (Text ("Error when stating path " +:+ device +:+ ": " +:+ Error e))
  end.
Definition Intel_IsDPU (platform : Platform) (pci : PCIDevice) (dpuDevices : list string) : result bool :=
  let? isVF := wrapf ("Error determining if device " +:+ pci_Address pci +:+ " is a VF or PF: ")
                 (isVirtualFunction (pci_Address pci)) in
  if isVF || negb (String.eqb (pci_ClassName pci) "Network controller")
     || negb (String.eqb (pci_VendorName pci) "Intel Corporation")
     || negb (String.eqb (pci_ProductName pci) "Infrastructure Data Path Function") then Ok false else
  let? names := wrapf ("Error getting network device name for PCI address " +:+ pci_Address pci +:+ ": ")
                  (GetNetDevNamesFromPCIeAddr platform (pci_Address pci)) in
  Ok (existsb (has_suffix "d2") names).
Definition product_contains (fold : string → string) (what : string) (msg : string) (platform : Platform) : result bool :=
  let? name := wrapf msg (Product platform) in Ok (contains what (fold name)).
Definition pci_identifier (prefix : string) (pci : PCIDevice) : string :=
  prefix +:+ SanitizePCIAddress (pci_Address pci).
Definition IntelDetector : VendorDetector := {|
  d_Name := "Intel IPU E2100"; GetVendorName := "intel"; DpuPlatformName := "intel-ipu";
  IsDpuPlatform := product_contains id "IPU Adapter E2100-CCQDA2" "Error getting product info: ";
  IsDPU := Intel_IsDPU;
  GetDpuIdentifier _ pci := Ok (pci_identifier "intel-ipu-" pci);
  DpuPlatformIdentifier _ := Ok "intel-ipu" |}.

(** ** marvell-dpu.go *)
Definition has_ids (vendor product : string) (pci : PCIDevice) : bool :=
  String.eqb (pci_VendorID pci) vendor && String.eqb (pci_ProductID pci) product.
Definition on_bus (vendor product : string) (platform : Platform) : result bool :=
  let? devices := wrapf "Error getting devices: " (PciDevices platform) in
  Ok (existsb (has_ids vendor product) devices).
Definition MrvlVendorID : string := "177d".
Definition MrvlDPUdeviceID : string := "a0f7".
Definition MrvlHostDeviceID : string := "b900".
Definition MarvellDetector : VendorDetector := {|
  d_Name := "Marvell DPU"; GetVendorName := "marvell"; DpuPlatformName := "marvell-dpu";
  IsDpuPlatform := on_bus MrvlVendorID MrvlDPUdeviceID;
  IsDPU _ pci _ := Ok (has_ids MrvlVendorID MrvlHostDeviceID pci);
  GetDpuIdentifier _ pci := Ok (pci_identifier "marvell-dpu-" pci);
  DpuPlatformIdentifier _ := Ok "marvell-dpu" |}.

(** ** netsec-accelerator.go *)
Definition IntelVendorID : string := "8086".
Definition IntelNetSecBackplaneDeviceID : string := "124c".
Definition IntelNetSecHostDeviceID : string := "1599".
Definition IntelNetSecDpuSFPf0PCIeAddress : string := "0000:f4:00.0".
Definition Netsec_IsDPU (platform : Platform) (pci : PCIDevice) (dpuDevices : list string) : result bool :=
  if has_ids IntelVendorID IntelNetSecHostDeviceID pci then
    let? serial := wrapf ("Error reading device serial number for " +:+ pci_Address pci +:+ ": ")
                     (ReadDeviceSerialNumber platform (Some pci)) in
    Ok (negb (existsb (String.eqb serial) dpuDevices))
  else Ok false.
(** The identifier is returned beside the error. *)
Definition Netsec_GetDpuIdentifier (platform : Platform) (pci : PCIDevice) : result string :=
  rmap SanitizePCIAddress (ReadDeviceSerialNumber platform (Some pci)).
Definition Netsec_DpuPlatformIdentifier (platform : Platform) : result string :=
  rmap SanitizePCIAddress
    (wrapf ("Error getting network device MAC address for " +:+ IntelNetSecDpuSFPf0PCIeAddress +:+ ": ")
       (GetNetDevMACAddressFromPCIeAddr platform IntelNetSecDpuSFPf0PCIeAddress)).
Definition NetsecAcceleratorDetector : VendorDetector := {|
  d_Name := "Intel Netsec Accelerator"; GetVendorName := "intel"; DpuPlatformName := "intel-netsec";
  IsDpuPlatform := on_bus IntelVendorID IntelNetSecBackplaneDeviceID;
  IsDPU := Netsec_IsDPU;
  GetDpuIdentifier := Netsec_GetDpuIdentifier;
  DpuPlatformIdentifier := Netsec_DpuPlatformIdentifier |}.

(** ** nvidia-bf.go, xsight.go, mangoboost.go

    One text, up to the vendor's name [plug] in the registry, the prefix of its
    identifiers and the product name looked for. *)
Definition serial_identifier (prefix : string) (platform : Platform) (pci : PCIDevice) : string :=
  match ReadDeviceSerialNumber platform (Some pci) with
  | Err _ => pci_identifier prefix pci
  | Ok serial => prefix +:+ serial
  end.
Definition registry_IsDPU (plug prefix : string) (platform : Platform) (pci : PCIDevice) (dpuDevices : list string)
    : result bool :=
  match GetByDeviceID (to_lower (pci_VendorID pci +:+ ":" +:+ pci_ProductID pci)) reg with
  | None => Ok false
  | Some p =>
      if negb (String.eqb (Name (Info p)) plug) then Ok false else
      if negb (String.eqb (pci_ClassName pci) "Network controller")
         && negb (String.eqb (pci_ClassName pci) "Ethernet controller") then Ok false else
      Ok (negb (existsb (String.eqb (serial_identifier prefix platform pci)) dpuDevices))
  end.
Definition product_identifier (prefix : string) (platform : Platform) : result string :=
  let? name := wrapf "error getting product info: " (Product platform) in
  Ok (prefix +:+ SanitizeForTemplate name).
Definition registry_detector (name plug platformName prefix : string) (fold : string → string) (what : string)
    : VendorDetector := {|
  d_Name := name; GetVendorName := plug; DpuPlatformName := platformName;
  IsDpuPlatform := product_contains fold what "error getting product info: ";
  IsDPU := registry_IsDPU plug prefix;
  GetDpuIdentifier platform pci := Ok (serial_identifier prefix platform pci);
  DpuPlatformIdentifier := product_identifier prefix |}.
Definition NvidiaDetector := registry_detector "NVIDIA BlueField" "nvidia" "nvidia-bf" "nvidia-bf-" id "BlueField".
Definition XSightDetector := registry_detector "xSight DPU" "xsight" "xsight" "xsight-" to_lower "xsight".
Definition MangoBoostDetector :=
  registry_detector "MangoBoost DPU" "mangoboost" "mangoboost" "mangoboost-" to_lower "mangoboost".

(** ** vendordetector.go *)

Definition detectors : list VendorDetector :=
  [IntelDetector; MarvellDetector; NetsecAcceleratorDetector; NvidiaDetector; XSightDetector; MangoBoostDetector].

Definition by_product {A} (f : VendorDetector → A) (dpuProductName : string) : result A :=
  match find (λ d, String.eqb (d_Name d) dpuProductName) detectors with
  | Some d => Ok (f d)
  | None => Err (Text ("unknown DPU product name: " +:+ dpuProductName))
  end.
Definition GetVendorDirectory : string → result string := by_product DpuPlatformName.
Definition GetVendorNameByProductName : string → result string := by_product GetVendorName.

(** [detectDpuPlatform]: every detector is asked; the errors are joined. *)
Fixpoint ask_all (platform : Platform) (ds : list VendorDetector) : list VendorDetector * list error :=
  match ds with
  | [] => ([], [])
  | d :: ds =>
      let '(active, errs) := ask_all platform ds in
      match IsDpuPlatform d platform with
      | Err e => (active, e :: errs)
      | Ok isDPU => (if isDPU : bool then d :: active else active, errs)
      end
  end.
Definition newline : string := String (Ascii.ascii_of_nat 10) "".
Definition detectDpuPlatform (required : bool) (platform : Platform) : result (option VendorDetector) :=
  let '(active, errs) := ask_all platform detectors in
  match errs with
  | _ :: _ => Err (Text ("Failed to detect DPU platform: " +:+ join newline (Error <$> errs)))
  | [] =>
      match active with
      | [d] => Ok (Some d)
      | _ :: _ => Err (Text "Failed to detect DPU platform unambiguously")
      | [] => if required then Err (Text "Failed to detect any DPU platform") else Ok None
      end
  end.
Definition IsDpu (platform : Platform) : result bool :=
  rmap (λ o, match o with Some _ => true | None => false end) (detectDpuPlatform false platform).

Definition postFixDpuSideToIdentifier (identifier : string) (dpuSide : bool) : string :=
  identifier +:+ (if dpuSide then "-dpu" else "-host").
Definition uniqueIdentifierForNode (identifier nodeName : string) : string :=
  if String.eqb nodeName "" then identifier else identifier +:+ "-" +:+ SanitizeForK8sName nodeName.
Definition defaultDpuLabels (d : VendorDetector) (nodeName : string) (isDpuSide : bool) : gmap string string :=
  {[ "dpu" := "enabled";
     "dpu.config.openshift.io/side" := (if isDpuSide then "dpu" else "host");
     "dpu.config.openshift.io/vendor" := to_lower (GetVendorName d);
     "dpu.config.openshift.io/product" := SanitizeForK8sName (d_Name d);
     "dpu.config.openshift.io/node" := nodeName ]}.

Record DetectedDpu := { CR : DataProcessingUnit; Vsp : GrpcPlugin; RegistryPlugin : option P }.

(** [now] is the clock; [getenv] answers the empty string for an unset variable;
    [it] is the order in which the registry's map is listed. *)
Context (now : Z) (getenv : string → string) (it : list (string * P)).

Definition pluginConfigFromEnv (vendor : string) : PluginConfig :=
  let key prefix := prefix +:+ to_upper (replace_all "-" "_" vendor) in
  let override (v key : string) :=
    if String.eqb vendor "" then v else if String.eqb (getenv key) "" then v else getenv key in
  {| OPIEndpoint := override (getenv "DPU_PLUGIN_OPI_ENDPOINT") (key "DPU_PLUGIN_OPI_ENDPOINT_");
     NetworkEndpoint := override (getenv "DPU_PLUGIN_OPI_NETWORK_ENDPOINT") (key "DPU_PLUGIN_OPI_NETWORK_ENDPOINT_");
     LogLevel := default 0%Z (atoi (getenv "DPU_PLUGIN_LOG_LEVEL")) |}.
Definition findRegistryPluginByVendor (vendor : string) : option P :=
  find (λ p, equal_fold (Vendor (Info p)) vendor || equal_fold (Name (Info p)) vendor) (List it).
Definition attachRegistryPlugin (d : VendorDetector) (vsp : GrpcPlugin) : GrpcPlugin * option P :=
  let vendor := GetVendorName d in
  if String.eqb vendor "" then (vsp, None) else
  match findRegistryPluginByVendor vendor with
  | None => (vsp, None)
  | Some p => (AttachRegistryPlugin (implements p INetwork) (pluginConfigFromEnv vendor) vsp, Some p)
  end.

(** The resource made for a detected unit. *)
Definition initial_condition : Condition :=
  mkCondition ReadyConditionType ConditionFalse "Initializing" "DPU resource is being initialized." 0 now.
Definition cr_name (identifier nodeName : string) (isDpuSide : bool) : string :=
  postFixDpuSideToIdentifier (uniqueIdentifierForNode identifier nodeName) isDpuSide.
Definition detected (d : VendorDetector) (nodeName identifier : string) (isDpuSide : bool) : DetectedDpu :=
  let '(vsp, p) := attachRegistryPlugin d (NewGrpcPlugin isDpuSide identifier) in
  {| CR := mkDpuCR (cr_name identifier nodeName isDpuSide) (defaultDpuLabels d nodeName isDpuSide) ∅ []
             (mkDpuSpec (d_Name d) isDpuSide nodeName) [initial_condition];
     Vsp := vsp; RegistryPlugin := p |}.

(** The loop over the PCI devices of the host. *)
Fixpoint detect_devices (platform : Platform) (nodeName : string) (d : VendorDetector) (devices : list PCIDevice)
    (dpuDevices : list string) : result (list DetectedDpu) :=
  match devices with
  | [] => Ok []
  | pci :: devices =>
      let? isDpu := wrapf ("Error detecting if device is DPU with detector " +:+ d_Name d +:+ ": ")
                      (IsDPU d platform pci dpuDevices) in
      if isDpu : bool then
        let? identifier := wrapf ("Error getting DPU identifier with detector " +:+ d_Name d +:+ ": ")
                             (GetDpuIdentifier d platform pci) in
        let? rest := detect_devices platform nodeName d devices (dpuDevices ++ [identifier]) in
        Ok (detected d nodeName identifier false :: rest)
      else detect_devices platform nodeName d devices dpuDevices
  end.
Definition detect_one (platform : Platform) (nodeName : string) (d : VendorDetector) : result (list DetectedDpu) :=
  let? dpuPlatform := wrapf ("Error detecting if running on DPU platform with detector " +:+ d_Name d +:+ ": ")
                        (IsDpuPlatform d platform) in
  if dpuPlatform : bool then
    let? identifier := DpuPlatformIdentifier d platform in
    Ok [detected d nodeName identifier true]
  else
    let? devices := wrapf "Error getting PCI info: " (PciDevices platform) in
    detect_devices platform nodeName d devices [].
Fixpoint detect_with (platform : Platform) (nodeName : string) (ds : list VendorDetector) : result (list DetectedDpu) :=
  match ds with
  | [] => Ok []
  | d :: ds =>
      let? l := detect_one platform nodeName d in
      let? rest := detect_with platform nodeName ds in
      Ok (l ++ rest)
  end.
Definition DetectAll (platform : Platform) (nodeName : string) : result (list DetectedDpu) :=
  detect_with platform nodeName detectors.
End Detect.

(** * Lemmas *)

(** The identifiers of each detector begin in a way of their own; those of the
    Netsec accelerator, serial numbers and hardware addresses, are hexadecimal. *)
Definition id_kind (id : string) : nat :=
  match id with
  | String "i" _ => 0
  | String "m" (String "a" (String "r" _)) => 1
  | String "n" _ => 3
  | String "x" _ => 4
  | String "m" (String "a" (String "n" _)) => 5
  | _ => 2
  end.
Definition is_hex (c : ascii) : bool := ascii_in "0" "9" c || ascii_in "a" "f" c || ascii_in "A" "F" c.
Lemma id_kind_hex s : all_char (λ c, is_hex c || Ascii.eqb c "-") s = true → id_kind s = 2.
Proof.
  destruct s as [|c s]; [done|]. cbn [all_char]. rewrite andb_true_iff. intros [Hc _].
  destruct c as [[] [] [] [] [] [] [] []]; first [reflexivity | discriminate Hc].
Qed.
Lemma hex_digit_hex d : (0 ≤ d < 16)%Z → is_hex (hex_digit d) = true.
Proof.
  intros H. assert (d ∈ [0;1;2;3;4;5;6;7;8;9;10;11;12;13;14;15]%Z) as Hin by set_solver by lia.
  repeat (apply elem_of_cons in Hin as [->|Hin]; [reflexivity|]). by apply elem_of_nil in Hin.
Qed.
Lemma hex_string_hex bs : Forall is_byte bs → all_char is_hex (hex_string bs) = true.
Proof.
  unfold hex_string. intros H. induction H as [|b bs Hb _ IH]; [done|].
  assert (join "" (byte_string <$> b :: bs) = byte_string b +:+ join "" (byte_string <$> bs)) as ->.
  { simpl. by destruct bs. }
  rewrite all_char_app, IH. unfold byte_string, is_byte in *. cbn [all_char].
  rewrite !hex_digit_hex; [done| |].
  - apply Z.mod_pos_bound. lia.
  - split; [apply Z.div_pos; lia|apply Z.div_lt_upper_bound; lia].
Qed.
Lemma replace_all_char P Q a b s :
  (∀ c, P c = true → Q c = true) → Q b = true → all_char (λ c, P c || Ascii.eqb c a) s = true →
  all_char Q (replace_all a b s) = true.
Proof.
  intros HPQ Hb. induction s as [|c s IH]; [done|]. cbn [all_char replace_all string_map].
  rewrite andb_true_iff. intros [Hc Hs]. unfold replace_all in *. simpl. rewrite IH by done.
  rewrite andb_true_r. destruct (Ascii.eqb c a); [done|]. apply HPQ. by rewrite orb_false_r in Hc.
Qed.
Lemma replace_all_absent a b s : all_char (λ c, negb (Ascii.eqb c a)) s = true → replace_all a b s = s.
Proof.
  unfold replace_all. induction s as [|c s IH]; [done|]. cbn [all_char]. rewrite andb_true_iff. intros [Hc Hs].
  simpl. rewrite (IH Hs). by destruct (Ascii.eqb c a).
Qed.

Lemma last_char_app s t c : last_char t = Some c → last_char (s +:+ t) = Some c.
Proof.
  intros Ht. induction s as [|d s IH]; [done|]. simpl. by destruct (s +:+ t) eqn:E.
Qed.
Lemma cr_name_inj id1 id2 node s1 s2 : cr_name id1 node s1 = cr_name id2 node s2 → id1 = id2 ∧ s1 = s2.
Proof.
  unfold cr_name, postFixDpuSideToIdentifier. intros H.
  assert (s1 = s2) as ->.
  { apply (f_equal last_char) in H. destruct s1, s2; try done;
      (erewrite !last_char_app in H by reflexivity); discriminate H. }
  split; [|done]. apply string_app_inj_r in H. unfold uniqueIdentifierForNode in H.
  destruct (String.eqb node ""); [done|]. by apply string_app_inj_r in H.
Qed.

(** What one detector's pass yields: units made from identifiers. *)
Section DetectLemmas.
Context {P : Type} `{!Plugin P} (now : Z) (getenv : string → string) (it : list (string * P)).
Abbreviation unit_of d node id side := (detected now getenv it d node id side).

Lemma detected_name d node id side : DpuName (CR (unit_of d node id side)) = cr_name id node side.
Proof. unfold detected. by destruct (attachRegistryPlugin _ _ _). Qed.
Lemma wrapf_Ok {A} msg (r : result A) a : wrapf msg r = Ok a ↔ r = Ok a.
Proof. by destruct r. Qed.

Lemma detect_devices_ids platform node d devices seen l :
  detect_devices now getenv it platform node d devices seen = Ok l →
  ∃ ids, l = (λ id, unit_of d node id false) <$> ids ∧
    ids `sublist_of` omap (λ pci, match GetDpuIdentifier d platform pci with Ok id => Some id | Err _ => None end) devices.
Proof.
  revert seen l. induction devices as [|pci devices IH]; intros seen l; simpl.
  { intros [= <-]. by exists []. }
  destruct (wrapf _ (IsDPU _ _ _ _)) as [[]|]; [| |done].
  - destruct (GetDpuIdentifier d platform pci) as [id|] eqn:Hid; [|done]. simpl.
    destruct (detect_devices _ _ _ _ _ _ devices _) as [rest|] eqn:Hr; [|done]. intros [= <-].
    apply IH in Hr as (ids & -> & Hs). exists (id :: ids). split; [done|]. by apply sublist_skip.
  - intros H. apply IH in H as (ids & -> & Hs). exists ids. split; [done|].
    destruct (GetDpuIdentifier d platform pci); [by apply sublist_cons|done].
Qed.
(** A detector that refuses identifiers it has seen yields each of them once. *)
Lemma detect_devices_fresh platform node d devices seen l :
  (∀ pci dpus id, IsDPU d platform pci dpus = Ok true → GetDpuIdentifier d platform pci = Ok id → id ∉ dpus) →
  detect_devices now getenv it platform node d devices seen = Ok l →
  ∃ ids, l = (λ id, unit_of d node id false) <$> ids ∧ NoDup ids ∧ (∀ id, id ∈ ids → id ∉ seen) ∧
    ∀ id, id ∈ ids → ∃ pci, GetDpuIdentifier d platform pci = Ok id.
Proof.
  intros Hf. revert seen l. induction devices as [|pci devices IH]; intros seen l; simpl.
  { intros [= <-]. exists []. split; [done|]. split; [constructor|]. split; by intros id ?%elem_of_nil. }
  destruct (wrapf _ (IsDPU _ _ _ _)) as [[]|] eqn:Hd; [|apply IH|done]. apply wrapf_Ok in Hd.
  destruct (GetDpuIdentifier d platform pci) as [id|] eqn:Hid; [|done]. simpl.
  destruct (detect_devices _ _ _ _ _ _ devices _) as [rest|] eqn:Hr; [|done]. intros [= <-].
  apply IH in Hr as (ids & -> & Hn & Hs & Hg). pose proof (Hf _ _ _ Hd Hid). exists (id :: ids).
  split; [done|]. split; [constructor; [|done]; set_solver|]. split; [set_solver|].
  intros id' [->|Hin]%elem_of_cons; eauto.
Qed.

(** What a detector's pass must yield for the names of all of them to differ. *)
Definition good_pass (platform : Platform) (d : VendorDetector) (k : nat) : Prop :=
  (∀ node devices l, PciDevices platform = Ok devices → detect_devices now getenv it platform node d devices [] = Ok l →
     ∃ ids, l = (λ id, unit_of d node id false) <$> ids ∧ NoDup ids ∧ ∀ id, id ∈ ids → id_kind id = k) ∧
  (∀ id, DpuPlatformIdentifier d platform = Ok id → id_kind id = k).
Lemma detect_one_ids platform node d k l :
  good_pass platform d k → detect_one now getenv it platform node d = Ok l →
  ∃ ids side, l = (λ id, unit_of d node id side) <$> ids ∧ NoDup ids ∧ ∀ id, id ∈ ids → id_kind id = k.
Proof.
  intros [Hh Hd]. unfold detect_one. destruct (wrapf _ (IsDpuPlatform _ _)) as [[]|]; [| |done]; simpl.
  - destruct (DpuPlatformIdentifier d platform) as [id|]; [|done]. intros [= <-]. exists [id], true.
    split; [done|]. split; [apply NoDup_singleton|]. intros id' ->%list_elem_of_singleton. auto.
  - destruct (PciDevices platform) as [devices|]; [|done]. simpl. intros H.
    apply (Hh node devices) in H as (ids & -> & Hn & Hk); [|done]. by exists ids, false.
Qed.
Lemma detect_with_names platform node ds ks l :
  Forall2 (good_pass platform) ds ks → NoDup ks →
  detect_with now getenv it platform node ds = Ok l →
  NoDup ((DpuName ∘ CR) <$> l) ∧
  ∀ n, n ∈ (DpuName ∘ CR) <$> l → ∃ id side, n = cr_name id node side ∧ id_kind id ∈ ks.
Proof.
  intros HF. revert l. induction HF as [|d k ds ks Hg _ IH]; intros l Hn; simpl.
  { intros [= <-]. split; [constructor|]. by intros n ?%elem_of_nil. }
  apply NoDup_cons in Hn as [Hk Hn].
  destruct (detect_one _ _ _ _ _ d) as [l1|] eqn:H1; [|done]. simpl.
  destruct (detect_with _ _ _ _ _ ds) as [rest|] eqn:Hr; [|done]. intros [= <-].
  apply (detect_one_ids _ _ _ _ _ Hg) in H1 as (ids & side & -> & Hids & Hkind).
  destruct (IH rest Hn eq_refl) as [HN HR].
  assert ((DpuName ∘ CR) <$> ((λ id, unit_of d node id side) <$> ids) = (λ id, cr_name id node side) <$> ids) as E.
  { rewrite <-list_fmap_compose. apply list_fmap_ext. intros ? id ?. apply detected_name. }
  rewrite fmap_app, E. split.
  - apply NoDup_app. split; [|split; [|done]].
    + apply NoDup_fmap_2_strong; [|done]. intros a b _ _ Hab. by apply cr_name_inj in Hab as [-> _].
    + intros n (id & -> & Hid)%list_elem_of_fmap Hn'. apply HR in Hn' as (id' & side' & Heq & Hk').
      apply cr_name_inj in Heq as [<- _]. by rewrite (Hkind _ Hid) in Hk'.
  - intros n [(id & -> & Hid)%list_elem_of_fmap|Hn']%elem_of_app.
    + exists id, side. split; [done|]. rewrite (Hkind _ Hid). by left.
    + apply HR in Hn' as (id & side' & -> & Hk'). exists id, side'. split; [done|]. by right.
Qed.
End DetectLemmas.

(** ** The detectors on hardware *)

(** What the machine's interfaces document: files hold bytes, hardware addresses are
    hexadecimal, and every PCI function has an address of its own. *)
Record hardware_ok (hw : hardware) : Prop := {
  hwok_bytes path data : read_bytes hw path = Ok data → Forall is_byte data;
  hwok_macs nics nic : ghw_Network hw = Ok nics → nic ∈ nics →
    all_char (λ c, is_hex c || Ascii.eqb c ":") (nic_MacAddress nic) = true;
  hwok_addresses devs : ghw_PCI hw = Ok devs → NoDup (pci_Address <$> devs);
  hwok_address devs pci : ghw_PCI hw = Ok devs → pci ∈ devs →
    all_char (λ c, negb (Ascii.eqb c "-")) (pci_Address pci) = true }.

Lemma replace_all_inj a b s t :
  all_char (λ c, negb (Ascii.eqb c b)) s = true → all_char (λ c, negb (Ascii.eqb c b)) t = true →
  replace_all a b s = replace_all a b t → s = t.
Proof.
  revert t. induction s as [|c s IH]; intros [|d t]; try done. cbn [all_char].
  rewrite !andb_true_iff. intros [Hc Hs] [Hd Ht] H. unfold replace_all in *. simpl in H. injection H as H1 H2.
  f_equal; [|by apply IH]. destruct (Ascii.eqb_spec c a), (Ascii.eqb_spec d a); subst; try done.
  - by rewrite Ascii.eqb_refl in Hd.
  - by rewrite Ascii.eqb_refl in Hc.
Qed.

Section Hardware.
Context (hw : hardware) (Hw : hardware_ok hw).
Abbreviation hp := (NewHardwarePlatform hw).

Lemma serial_hex o s : ReadDeviceSerialNumber hp o = Ok s → all_char is_hex s = true.
Proof.
  simpl. unfold hw_ReadDeviceSerialNumber. destruct o as [pci|]; [|done].
  destruct (read_bytes hw _) as [data|] eqn:Hd; [|done]. apply (hwok_bytes _ Hw) in Hd.
  unfold readDeviceSerialFromConfig. destruct (_ <? _)%Z; [done|].
  destruct (serial_loop _ _ _ _) as [r|] eqn:Hr; [|done]. simpl. intros ->.
  apply serial_loop_Ok in Hr as (off & _ & _ & ->). apply hex_string_hex. unfold slice. by apply Forall_take, Forall_drop.
Qed.
Lemma serial_sanitized s : all_char is_hex s = true → SanitizePCIAddress s = s.
Proof.
  intros H. apply replace_all_absent. eapply all_char_impl; [|done].
  intros c. destruct c as [[] [] [] [] [] [] [] []]; first [done | intros Hc; discriminate Hc].
Qed.
Lemma pci_identifiers_NoDup prefix devices :
  PciDevices hp = Ok devices → NoDup (omap (λ pci, Some (pci_identifier prefix pci)) devices).
Proof.
  simpl. intros Hd. pose proof (hwok_addresses _ Hw _ Hd) as Hn. pose proof (λ pci, hwok_address _ Hw _ pci Hd) as Hc. clear Hd.
  induction devices as [|pci devices IH]; [constructor|]. simpl in *. apply NoDup_cons in Hn as [Hp Hn].
  constructor; [|apply IH; [done|]; intros ??; apply Hc; by right].
  intros (q & Hq & [= Heq])%list_elem_of_omap. apply Hp.
  unfold pci_identifier in Heq. apply string_app_inj_l in Heq.
  apply replace_all_inj in Heq; [|apply Hc; by right|apply Hc; by left].
  apply list_elem_of_fmap. exists q. by rewrite Heq.
Qed.

Lemma not_existsb_eqb x l : negb (existsb (String.eqb x) l) = true → x ∉ l.
Proof.
  intros H Hx. apply negb_true_iff in H.
  assert (existsb (String.eqb x) l = true) as E; [|congruence].
  apply existsb_exists. exists x. split; [by apply list_elem_of_In|apply String.eqb_refl].
Qed.

Context {P : Type} `{!Plugin P} (reg : @Registry P) (now : Z) (getenv : string → string) (it : list (string * P)).

(** Detectors that name units after PCI addresses. *)
Lemma address_good d prefix k :
  GetDpuIdentifier d hp = (λ pci, Ok (pci_identifier prefix pci)) →
  (∀ s, id_kind (prefix +:+ s) = k) →
  (∀ id, DpuPlatformIdentifier d hp = Ok id → id_kind id = k) →
  good_pass now getenv it hp d k.
Proof.
  intros Hg Hk Hd. split; [|done]. intros node devices l Hdev Hl.
  apply detect_devices_ids in Hl as (ids & -> & Hs). rewrite Hg in Hs. exists ids. split; [done|]. split.
  - eapply sublist_NoDup; [by apply (pci_identifiers_NoDup prefix)|done].
  - intros id Hid. eapply elem_of_sublist in Hid; [|done].
    apply list_elem_of_omap in Hid as (pci & _ & [= <-]). apply Hk.
Qed.
(** Detectors that refuse what they have seen. *)
Lemma fresh_good d k :
  (∀ pci dpus id, IsDPU d hp pci dpus = Ok true → GetDpuIdentifier d hp pci = Ok id → id ∉ dpus) →
  (∀ pci id, GetDpuIdentifier d hp pci = Ok id → id_kind id = k) →
  (∀ id, DpuPlatformIdentifier d hp = Ok id → id_kind id = k) →
  good_pass now getenv it hp d k.
Proof.
  intros Hf Hk Hd. split; [|done]. intros node devices l _ Hl.
  apply (detect_devices_fresh now getenv it _ _ _ _ _ _ Hf) in Hl as (ids & -> & Hn & _ & Hg).
  exists ids. split; [done|]. split; [done|]. intros id [pci Hid]%Hg. eauto.
Qed.
Lemma registry_good name plug pn prefix fold what k :
  (∀ s, id_kind (prefix +:+ s) = k) →
  good_pass now getenv it hp (registry_detector reg name plug pn prefix fold what) k.
Proof.
  intros Hk. apply fresh_good; simpl.
  - intros pci dpus id. unfold registry_IsDPU. destruct (GetByDeviceID _ _); [|done].
    destruct (negb _); [done|]. destruct (_ && _); [done|]. intros [= H] [= <-]. by apply not_existsb_eqb.
  - intros pci id [= <-]. unfold serial_identifier, pci_identifier. destruct (ReadDeviceSerialNumber _ _); apply Hk.
  - intros id. unfold product_identifier. destruct (wrapf _ _); [|done]. intros [= <-]. apply Hk.
Qed.
Lemma netsec_good : good_pass now getenv it hp NetsecAcceleratorDetector 2.
Proof.
  apply fresh_good; cbn [IsDPU GetDpuIdentifier DpuPlatformIdentifier NetsecAcceleratorDetector].
  - intros pci dpus id. unfold Netsec_IsDPU, Netsec_GetDpuIdentifier. destruct (has_ids _ _ _); [|done].
    destruct (ReadDeviceSerialNumber hp (Some pci)) as [s|] eqn:Hs; [|done]. simpl.
    intros [= H] [= <-]. rewrite serial_sanitized by (by eapply serial_hex). by apply not_existsb_eqb.
  - intros pci id. unfold Netsec_GetDpuIdentifier. destruct (ReadDeviceSerialNumber hp (Some pci)) as [s|] eqn:Hs; [|done].
    intros [= <-]. apply serial_hex in Hs. rewrite serial_sanitized by done. apply id_kind_hex.
    eapply all_char_impl; [|done]. intros c Hc. by rewrite Hc.
  - intros id. unfold Netsec_DpuPlatformIdentifier. simpl. unfold hw_GetNetDevMACAddress.
    destruct (ghw_Network hw) as [nics|] eqn:Hn; [|done]. destruct (find _ nics) as [nic|] eqn:Hf; [|done].
    intros [= <-]. apply find_some in Hf as [Hf%list_elem_of_In _]. apply id_kind_hex.
    eapply replace_all_char; [|done|by eapply hwok_macs]. intros c Hc. by rewrite Hc.
Qed.
End Hardware.

(** * Theorems *)

(** C26: on real hardware, the resources of one detection pass have pairwise different
    names, over all vendors, ports and both sides: no detected unit hides another one. *)
Theorem DetectAll_names_unique {P} `{!Plugin P} (reg : @Registry P) Stat now getenv it hw nodeName l :
  hardware_ok hw →
  DetectAll reg Stat now getenv it (NewHardwarePlatform hw) nodeName = Ok l →
  NoDup ((DpuName ∘ CR) <$> l).
Proof.
  intros Hw H. refine (proj1 (detect_with_names _ _ _ _ _ _ [0; 1; 2; 3; 4; 5] _ _ _ H)).
  - repeat apply Forall2_cons_2; [..|apply Forall2_nil_2]; try (by apply registry_good).
    + apply (address_good _ Hw _ _ _ _ "intel-ipu-"); try done. by intros id [= <-].
    + apply (address_good _ Hw _ _ _ _ "marvell-dpu-"); try done. by intros id [= <-].
    + by apply netsec_good.
  - by apply (bool_decide_unpack (NoDup [0; 1; 2; 3; 4; 5])).
Qed.

Lemma detect_with_part {P} `{!Plugin P} now getenv (it : list (string * P)) platform node ds d l :
  d ∈ ds → detect_with now getenv it platform node ds = Ok l →
  ∃ l1, detect_one now getenv it platform node d = Ok l1 ∧ l1 ⊆ l.
Proof.
  intros Hd. revert l. induction Hd as [d ds|d d' ds _ IH]; intros l; simpl.
  - destruct (detect_one _ _ _ _ _ d) as [l1|]; [|done]. simpl. destruct (detect_with _ _ _ _ _ ds) as [rest|]; [|done].
    intros [= <-]. exists l1. split; [done|]. set_solver.
  - destruct (detect_one _ _ _ _ _ d') as [l0|]; [|done]. simpl. destruct (detect_with _ _ _ _ _ ds) as [rest|]; [|done].
    intros [= <-]. destruct (IH rest eq_refl) as (l1 & H1 & Hs). exists l1. split; [done|]. set_solver.
Qed.

(** On a BlueField the daemon makes a resource Kubernetes refuses: its name
    holds the product's name, which has capital letters. *)
Theorem bluefield_name_invalid {P} `{!Plugin P} (reg : @Registry P) Stat now getenv it platform nodeName product l :
  Product platform = Ok product → contains "BlueField" product = true →
  DetectAll reg Stat now getenv it platform nodeName = Ok l →
  ∃ u, u ∈ l ∧ DpuProductName (DpuSpec_ (CR u)) = "NVIDIA BlueField" ∧ k8s_name_ok (DpuName (CR u)) = false.
Proof.
  intros Hp Hc H. apply (detect_with_part _ _ _ _ _ _ (NvidiaDetector reg)) in H as (l1 & H1 & Hl); [|unfold detectors; set_solver].
  unfold detect_one in H1. simpl in H1. unfold product_contains, product_identifier in H1. rewrite Hp in H1. simpl in H1.
  unfold id in H1. rewrite Hc in H1. injection H1 as <-. eexists. split; [by apply Hl, list_elem_of_singleton|].
  rewrite detected_name. split; [unfold detected; by destruct (attachRegistryPlugin _ _ _)|].
  apply not_true_is_false. intros Hok%k8s_name_chars. apply contains_spec in Hc as (a & b & ->).
  apply (all_char_count _ "B") in Hok; [|done].
  unfold cr_name, postFixDpuSideToIdentifier, uniqueIdentifierForNode, SanitizeForTemplate, replace_all in Hok.
  rewrite !string_map_app in Hok. destruct (String.eqb nodeName ""); simpl in Hok; rewrite !count_char_app in Hok;
    simpl in Hok; lia.
Qed.

(** * Witnesses *)
Module DetectDemo.
#[export] Instance info_plugin : Plugin PluginInfo := {| Info p := p; implements _ _ := false |}.
Definition reg : @Registry PluginInfo := NewRegistry.
Definition no_env (_ : string) : string := "".
Definition stat (_ : string) : stat_result := NotExist.
Definition nic : NIC := mkNIC "ens1f0d2" "00:11:22:33:44:55" (Some "0000:06:00.0").
Definition ipu (addr : string) : PCIDevice :=
  mkPCI addr "8086" "Intel Corporation" "1452" "Infrastructure Data Path Function" "Network controller".
Definition host : hardware :=
  {| ghw_PCI := Ok [ipu "0000:06:00.0"; mkPCI "0000:07:00.0" "177d" "Cavium" "b900" "" ""];
     ghw_Network := Ok [nic]; ghw_Product := Ok "PowerEdge"; read_bytes _ := Err (Text "no such file") |}.
Definition bluefield : Platform := fake_platform (NewFakePlatform "BlueField-3 DPU").
Definition units (r : result (list (@DetectedDpu PluginInfo))) : list DetectedDpu :=
  match r with Ok l => l | Err _ => [] end.
Definition host_units := units (DetectAll reg stat 0 no_env [] (NewHardwarePlatform host) "node-1").
Definition bf_units := units (DetectAll reg stat 0 no_env [] bluefield "node-1").
Example host_names : DpuName ∘ CR <$> host_units = ["intel-ipu-0000-06-00.0-node-1-host"; "marvell-dpu-0000-07-00.0-node-1-host"].
Proof. vm_compute. reflexivity. Qed.
Lemma host_run : DetectAll reg stat 0 no_env [] (NewHardwarePlatform host) "node-1" = Ok host_units.
Proof. vm_compute. reflexivity. Qed.
Lemma bf_run : DetectAll reg stat 0 no_env [] bluefield "node-1" = Ok bf_units.
Proof. vm_compute. reflexivity. Qed.
Lemma host_ok : hardware_ok host.
Proof.
  split; simpl; [done|..].
  - intros nics n [= <-] ->%list_elem_of_singleton. reflexivity.
  - intros devs [= <-]. by apply (bool_decide_unpack (NoDup ["0000:06:00.0"; "0000:07:00.0"])).
  - intros devs pci [= <-]. rewrite !elem_of_cons. intros [->|[->|[]%elem_of_nil]]; reflexivity.
Qed.
End DetectDemo.
Import DetectDemo.
Lemma DetectAll_names_unique_witness : NoDup ((DpuName ∘ CR) <$> host_units).
Proof. exact (DetectAll_names_unique reg stat 0 no_env [] host "node-1" host_units host_ok host_run). Defined.
Lemma bluefield_name_invalid_witness :
  ∃ u, u ∈ bf_units ∧ DpuProductName (DpuSpec_ (CR u)) = "NVIDIA BlueField" ∧ k8s_name_ok (DpuName (CR u)) = false.
Proof. exact (bluefield_name_invalid reg stat 0 no_env [] bluefield "node-1" "BlueField-3 DPU" bf_units eq_refl eq_refl bf_run). Defined.
