(* ===== verification/Kube.v ===== *)
(** The Kubernetes API server as the daemon's client uses it: the calls
    (class [KubeAPI], the answers are the environment's), the status-condition helpers
    of k8s.io/apimachinery, and what a healthy API server does with the calls (class
    [HealthyAPI]): it stores cluster-scoped resources under their names, refuses annotations
    whose keys are not qualified names, ignores the
    status of an object that is created or updated, and changes only the status on a
    status update. *)
From S2P Require Import Prelude Plugin GoMonad Registry Platform Detect.
#[local] Open Scope stdpp_scope.

(** The answer to a [Get]. *)
Inductive get_result (A : Type) := GetFound (a : A) | GetNotFound (e : error) | GetError (e : error).
Arguments GetFound {_} _.
Arguments GetNotFound {_} _.
Arguments GetError {_} _.
Definition found {A} (o : option A) : get_result A :=
  match o with Some c => GetFound c | None => GetNotFound (Text "not found") end.

(** A call that writes an object also overwrites the caller's copy with the answer:
    that copy is the result.  Nodes are represented by their labels. *)
Class KubeAPI (K : Type) := {
  k_ListDpus : K → K * result (list DataProcessingUnit);
  k_GetDpu : string → K → K * get_result DataProcessingUnit;
  k_CreateDpu : DataProcessingUnit → K → K * result DataProcessingUnit;
  k_UpdateDpu : DataProcessingUnit → K → K * result DataProcessingUnit;
  k_UpdateDpuStatus : DataProcessingUnit → K → K * result DataProcessingUnit;
  k_DeleteDpu : DataProcessingUnit → K → K * option error;
  k_GetDpuOperatorConfig : K → K * option error;
  k_SetControllerReference : DataProcessingUnit → result DataProcessingUnit;
  k_GetNode : string → K → K * result (gmap string string);
  k_UpdateNode : string → gmap string string → K → K * option error }.

(** * Maps of labels *)

(** The order in which Go ranges over a map. *)
Definition order : Type := ∀ A, gmap string A → list (string * A).
Definition is_order (ord : order) : Prop := ∀ A (m : gmap string A), ord A m ≡ₚ map_to_list m.
Arguments is_order _ /.

(** The loop that writes the desired labels into an object's: an absent label reads as the empty string. *)
Fixpoint merge_loop (desired : list (string * string)) (target : gmap string string) (changed : bool)
    : gmap string string * bool :=
  match desired with
  | [] => (target, changed)
  | (k, v) :: desired =>
      if String.eqb (default "" (target !! k)) v then merge_loop desired target changed
      else merge_loop desired (<[k := v]> target) true
  end.

(** What it makes of each label, whatever the order. *)
Definition merged_label (desired target : gmap string string) (k : string) : option string :=
  match desired !! k with
  | Some v => if String.eqb (default "" (target !! k)) v then target !! k else Some v
  | None => target !! k
  end.
Lemma merge_loop_spec l target changed :
  NoDup l.*1 →
  (∀ k, (merge_loop l target changed).1 !! k = merged_label (list_to_map l) target k) ∧
  ((merge_loop l target changed).2 = false → changed = false ∧ (merge_loop l target changed).1 = target).
Proof.
  revert target changed. induction l as [|[k v] l IH]; intros target changed Hn; simpl.
  { split; [|done]. intros k. unfold merged_label. by rewrite lookup_empty. }
  apply NoDup_cons in Hn as [Hk Hn]. simpl in Hk.
  assert ((list_to_map l : gmap string string) !! k = None) as Hl by by apply not_elem_of_list_to_map_1.
  destruct (String.eqb_spec (default "" (target !! k)) v) as [E|E].
  - destruct (IH target changed Hn) as [H1 H2]. split; [|done]. intros k'. rewrite H1. unfold merged_label.
    destruct (decide (k' = k)) as [->|Hne]; [|by rewrite lookup_insert_ne].
    rewrite lookup_insert_eq, Hl. by destruct (String.eqb_spec (default "" (target !! k)) v).
  - destruct (IH (<[k := v]> target) true Hn) as [H1 H2]. split; [|intros H; by apply H2 in H as [? _]].
    intros k'. rewrite H1. unfold merged_label. destruct (decide (k' = k)) as [->|Hne].
    + rewrite !lookup_insert_eq, Hl. by rewrite (proj2 (String.eqb_neq _ _) E).
    + by rewrite !lookup_insert_ne by done.
Qed.

(** [have] shows every label of [desired]. *)
Definition covers (desired have : gmap string string) : Prop :=
  ∀ k v, desired !! k = Some v → default "" (have !! k) = v.
#[export] Instance covers_dec desired have : Decision (covers desired have).
Proof.
  refine (cast_if (decide (map_Forall (λ k v, default "" (have !! k) = v) desired))); done.
Defined.
Lemma merge_loop_order (ord : order) desired target changed : is_order ord →
  covers desired (merge_loop (ord _ desired) target changed).1 ∧
  ((merge_loop (ord _ desired) target changed).2 = false →
     changed = false ∧ (merge_loop (ord _ desired) target changed).1 = target) ∧
  (covers desired target → merge_loop (ord _ desired) target changed = (target, changed)).
Proof.
  intros Ho. pose proof (Ho _ desired) as Hp.
  assert (NoDup (ord _ desired).*1) as Hn by (rewrite Hp; apply NoDup_fst_map_to_list).
  destruct (merge_loop_spec (ord _ desired) target changed Hn) as [H1 H2]. split; [|split; [done|]].
  - intros k v Hk. rewrite H1. unfold merged_label.
    rewrite (list_to_map_proper _ (map_to_list desired)), list_to_map_to_list, Hk by done.
    by destruct (String.eqb_spec (default "" (target !! k)) v).
  - intros Hc. assert (∀ k v, (k, v) ∈ ord _ desired → default "" (target !! k) = v) as Hall.
    { intros k v. rewrite Hp, elem_of_map_to_list. apply Hc. }
    clear -Hall. induction (ord _ desired) as [|[k v] l IH]; simpl; [done|].
    rewrite (Hall k v), String.eqb_refl by by left. apply IH. intros k' v' Hk. apply Hall. by right.
Qed.

(** * k8s.io/apimachinery/pkg/api/meta/conditions.go *)

Definition FindStatusCondition (conditions : list Condition) (conditionType : string) : option Condition :=
  find (λ c, String.eqb (CondType c) conditionType) conditions.
(** The condition found is changed in place; the new one comes with its transition time set. *)
Definition merge_condition (new existing : Condition) : Condition :=
  mkCondition (CondType existing) (CondStatus new) (CondReason new) (CondMessage new) (ObservedGeneration new)
    (if decide (CondStatus existing = CondStatus new) then LastTransitionTime existing else LastTransitionTime new).
Fixpoint SetStatusCondition (conditions : list Condition) (new : Condition) : list Condition :=
  match conditions with
  | [] => [new]
  | c :: conditions =>
      if String.eqb (CondType c) (CondType new) then merge_condition new c :: conditions
      else c :: SetStatusCondition conditions new
  end.

Lemma find_set_condition conds new :
  ∃ c, FindStatusCondition (SetStatusCondition conds new) (CondType new) = Some c ∧
    CondStatus c = CondStatus new ∧ CondReason c = CondReason new ∧ CondMessage c = CondMessage new ∧
    ObservedGeneration c = ObservedGeneration new.
Proof.
  induction conds as [|c conds IH]; simpl.
  - rewrite String.eqb_refl. by exists new.
  - destruct (String.eqb (CondType c) (CondType new)) eqn:E; simpl; rewrite E; [by eexists|done].
Qed.

(** * Names of labels and annotations

    apimachinery's [IsQualifiedName]: a name of at most 63 characters, after at most one
    DNS prefix and a slash; [IsValidLabelValue].  The keys of annotations are lowered
    first. *)
Definition name_part_ok (s : string) : bool :=
  let l := to_lower s in
  (String.length s <=? 63)%nat && opt_alnum (first_char l) && opt_alnum (last_char l)
  && all_char (λ c, is_alnum c || is_dash_dot c || Ascii.eqb c "_") l.
Definition label_value_ok (v : string) : bool := String.eqb v "" || name_part_ok v.
Definition qualified_name_ok (s : string) : bool :=
  match split_char "/" s with
  | [name] => name_part_ok name
  | [prefix; name] => k8s_name_ok prefix && name_part_ok name
  | _ => false
  end.
Definition annotations_ok (annotations : gmap string string) : bool :=
  forallb (λ kv, qualified_name_ok (to_lower kv.1)) (map_to_list annotations).
Lemma annotations_ok_spec m : annotations_ok m = true ↔ ∀ k, is_Some (m !! k) → qualified_name_ok (to_lower k) = true.
Proof.
  unfold annotations_ok. rewrite forallb_forall. split.
  - intros H k [v Hv%elem_of_map_to_list%list_elem_of_In]. by apply H in Hv.
  - intros H [k v] Hv%list_elem_of_In%elem_of_map_to_list. apply H. by eexists.
Qed.

(** * A healthy API server *)

(** The client's copy [o'] of an object it sent as [o]: the status may differ. *)
Definition same_but_status (o o' : DataProcessingUnit) : Prop :=
  o' <| DpuConditions := [] |> = o <| DpuConditions := [] |>.

Class HealthyAPI (K : Type) `{!KubeAPI K} := {
  stored : K → gmap string DataProcessingUnit;
  law_named k n c : stored k !! n = Some c → DpuName c = n;
  law_annotations k n c : stored k !! n = Some c → annotations_ok (DpuAnnotations c) = true;
  law_List k : ∃ k' l, k_ListDpus k = (k', Ok l) ∧ stored k' = stored k ∧ l ≡ₚ (map_to_list (stored k)).*2;
  law_Get n k : ∃ k', k_GetDpu n k = (k', match stored k !! n with Some c => GetFound c | None => GetNotFound (Text "not found") end)
    ∧ stored k' = stored k;
  law_Create o k : k8s_name_ok (DpuName o) = true → annotations_ok (DpuAnnotations o) = true → stored k !! DpuName o = None →
    ∃ k' o', k_CreateDpu o k = (k', Ok o') ∧ same_but_status o o' ∧
      stored k' = <[DpuName o := o <| DpuConditions := [] |>]> (stored k);
  law_Update_refused o k : annotations_ok (DpuAnnotations o) = false →
    ∃ k' e, k_UpdateDpu o k = (k', Err e) ∧ stored k' = stored k;
  law_Update o k c : stored k !! DpuName o = Some c → annotations_ok (DpuAnnotations o) = true →
    ∃ k' o', k_UpdateDpu o k = (k', Ok o') ∧ same_but_status o o' ∧
      stored k' = <[DpuName o := o <| DpuConditions := DpuConditions c |>]> (stored k);
  law_UpdateStatus o k c : stored k !! DpuName o = Some c →
    ∃ k' o', k_UpdateDpuStatus o k = (k', Ok o') ∧
      stored k' = <[DpuName o := c <| DpuConditions := DpuConditions o |>]> (stored k);
  law_Delete o k c : stored k !! DpuName o = Some c →
    ∃ k', k_DeleteDpu o k = (k', None) ∧ stored k' = delete (DpuName o) (stored k);
  law_Config k : ∃ k', k_GetDpuOperatorConfig k = (k', None) ∧ stored k' = stored k;
  law_Owner o : DpuOwners o = [] →
    ∃ o', k_SetControllerReference o = Ok o' ∧ DpuName o' = DpuName o ∧ DpuLabels o' = DpuLabels o ∧
      DpuSpec_ o' = DpuSpec_ o ∧ DpuAnnotations o' = DpuAnnotations o;
  law_GetNode n k : stored (k_GetNode n k).1 = stored k;
  law_UpdateNode n l k : stored (k_UpdateNode n l k).1 = stored k }.
