(* ===== verification/Daemon.v ===== *)
(** The daemon's main loop, internal/daemon/daemon.go: it keeps one managed unit per
    detected DPU, starts their side managers, mirrors them as resources in the
    cluster, labels the node, applies VF counts asked for by annotations, and reports
    ready.

    The API server is Kube.v's; the vendor plugins and side managers of the units are
    used through [Runtime], which the goroutines also act on.  Go ranges over maps in
    an order of its own: [order] is one such order for each loop. *)
From S2P Require Import Prelude Plugin GoMonad Registry Platform Detect Kube.
#[local] Open Scope stdpp_scope.

Class Runtime (D P Mg : Type) := {
  (** [NewDpuSideManager] or [NewHostSideManager] *)
  rt_createSideManager : bool → P → D → D * result Mg;
  (** [go d.runSideManager(...)], with the manager's context and channel *)
  rt_go : Mg → string → D → D;
  rt_Cancel : Mg → D → D;
  (** waiting for [Done], at most 5 seconds, and without a limit *)
  rt_WaitDone : Mg → D → D;
  rt_Join : Mg → D → D;
  rt_Close : P → D → D;
  rt_IsInitialized : P → D → bool;
  rt_CheckPing : Mg → D → bool;
  rt_SetNumVfs : P → Z → D → D * result Z }.

Definition DpuSideLabelKey : string := "dpu.config.openshift.io/dpuside".
Definition DpuConfigVFCountAnnotationPrefix : string := "dpu.config.openshift.io/vf-count/".

(** [Cancel] and [Done] are set together with [Manager]. *)
Record ManagedDpu (P Mg : Type) := mkManaged {
  DpuCR : DataProcessingUnit; MPlugin : P; Manager : option Mg; AppliedVfCount : option Z }.
Arguments mkManaged {_ _} _ _ _ _.
Arguments DpuCR {_ _} _.
Arguments MPlugin {_ _} _.
Arguments Manager {_ _} _.
Arguments AppliedVfCount {_ _} _.
#[export] Instance ManagedDpu_eta {P Mg} : Eta (ManagedDpu P Mg) :=
  λ m, mkManaged (DpuCR m) (MPlugin m) (Manager m) (AppliedVfCount m).

Record Daemon (P Mg : Type) := mkDaemon {
  managers : list Mg; managedDpus : gmap string (ManagedDpu P Mg); nodeName : string; isReady : bool }.
Arguments mkDaemon {_ _} _ _ _ _.
Arguments managers {_ _} _.
Arguments managedDpus {_ _} _.
Arguments nodeName {_ _} _.
Arguments isReady {_ _} _.
#[export] Instance Daemon_eta {P Mg} : Eta (Daemon P Mg) :=
  λ d, mkDaemon (managers d) (managedDpus d) (nodeName d) (isReady d).
Record daemon_world (K D P Mg : Type) := mkDW { api : K; rt : D; dm : Daemon P Mg }.
Arguments mkDW {_ _ _ _} _ _ _.
Arguments api {_ _ _ _} _.
Arguments rt {_ _ _ _} _.
Arguments dm {_ _ _ _} _.
#[export] Instance daemon_world_eta {K D P Mg} : Eta (daemon_world K D P Mg) := λ w, mkDW (api w) (rt w) (dm w).

(** ** Readiness *)

Definition readinessHandler {P Mg} (d : Daemon P Mg) : Z * string :=
  if isReady d then (200%Z, "OK") else (503%Z, "Not ready").
Definition readinessAddress (getenv : string → string) : string :=
  let raw := getenv "DPU_DAEMON_READINESS_PORT" in
  match atoi raw with
  | Some port => if ((0 <? port) && (port <? 65536))%Z then ":" +:+ itoa port else ":8082"
  | None => ":8082"
  end.
Definition markReady {P Mg} (d : Daemon P Mg) : Daemon P Mg := d <| isReady := true |>.

(** ** Mirroring the units *)

Definition mergeLabels (desired : list (string * string)) (target : gmap string string) : gmap string string * bool :=
  merge_loop desired target false.

Definition conditionsNeedUpdate (current desired : list Condition) : bool :=
  match FindStatusCondition desired ReadyConditionType with
  | None => match FindStatusCondition current ReadyConditionType with None => false | Some _ => true end
  | Some d =>
      match FindStatusCondition current ReadyConditionType with
      | None => true
      | Some c =>
          negb (bool_decide (CondStatus c = CondStatus d)) || negb (String.eqb (CondReason c) (CondReason d))
          || negb (String.eqb (CondMessage c) (CondMessage d)) || negb (ObservedGeneration c =? ObservedGeneration d)%Z
      end
  end.

Section Sync.
Context {K : Type} `{!KubeAPI K} (ord : order).
Abbreviation KM := (M K).

Definition setOwnerReference (cr : DataProcessingUnit) : KM (result DataProcessingUnit) :=
  call _ := acts_err k_GetDpuOperatorConfig
    or errorf ("failed to get DpuOperatorConfig " +:+ quote "dpu-operator-config" +:+ ": ") in
  mret (rerr (errorf "failed to set controller reference: ") (k_SetControllerReference cr)).

Definition syncSingleDpuCR (dpuCR : DataProcessingUnit) : KM (result bool) :=
  let identifier := DpuName dpuCR in
  cur ← acts (k_GetDpu identifier);
  match cur with
  | GetError e => mret (Err (errorf ("Failed to get DPU CR " +:+ identifier +:+ ": ") e))
  | GetNotFound _ =>
      call copy := setOwnerReference dpuCR
        or errorf ("Failed to set owner reference for DPU CR " +:+ identifier +:+ ": ") in
      call copy := acts (k_CreateDpu copy) or errorf ("Failed to create DPU CR " +:+ identifier +:+ ": ") in
      call _ := acts (k_UpdateDpuStatus copy) or errorf ("Failed to update DPU CR status " +:+ identifier +:+ ": ") in
      mret (Ok true)
  | GetFound current =>
      let needsSpecUpdate := negb (bool_decide (DpuSpec_ current = DpuSpec_ dpuCR)) in
      let '(labels, needsMetadataUpdate) := mergeLabels (ord _ (DpuLabels dpuCR)) (DpuLabels current) in
      let current := current <| DpuLabels := labels |> in
      let needsStatusUpdate := conditionsNeedUpdate (DpuConditions current) (DpuConditions dpuCR) in
      call current :=
        (if needsSpecUpdate || needsMetadataUpdate
         then acts (k_UpdateDpu (current <| DpuSpec_ := DpuSpec_ dpuCR |>)) else mret (Ok current))
        or errorf ("Failed to update DPU CR spec " +:+ identifier +:+ ": ") in
      call _ :=
        (if needsStatusUpdate
         then acts (k_UpdateDpuStatus (current <| DpuConditions := DpuConditions dpuCR |>)) else mret (Ok current))
        or errorf ("Failed to update DPU CR status " +:+ identifier +:+ ": ") in
      mret (Ok (needsSpecUpdate || needsMetadataUpdate || needsStatusUpdate))
  end.

Definition keep_cr (node : string) (m : gmap string DataProcessingUnit) (cr : DataProcessingUnit) :=
  if String.eqb (NodeName (DpuSpec_ cr)) node then <[DpuName cr := cr]> m else m.
Definition existingCRMap (node : string) (items : list DataProcessingUnit) : gmap string DataProcessingUnit :=
  foldl (keep_cr node) ∅ items.

(** The two loops of [SyncDpuCRs]: an error is logged and the loop goes on. *)
Fixpoint sync_managed (crs : list DataProcessingUnit) (changed : bool) : KM bool :=
  match crs with
  | [] => mret changed
  | cr :: crs =>
      r ← syncSingleDpuCR cr;
      sync_managed crs (match r with Ok true => true | _ => changed end)
  end.
Fixpoint delete_orphans (managed : string → bool) (existing : list (string * DataProcessingUnit)) (changed : bool) : KM bool :=
  match existing with
  | [] => mret changed
  | (name, cr) :: existing =>
      if managed name then delete_orphans managed existing changed else
      e ← acts (k_DeleteDpu cr);
      delete_orphans managed existing (match e with None => true | Some _ => changed end)
  end.
Definition SyncDpuCRs (node : string) (managed : gmap string DataProcessingUnit) : KM (result bool) :=
  call items := acts k_ListDpus or errorf "Failed to list existing DPU CRs: " in
  changed ← sync_managed (ord _ managed).*2 false;
  changed ← delete_orphans (λ name, bool_decide (is_Some (managed !! name))) (ord _ (existingCRMap node items)) changed;
  mret (Ok changed).
End Sync.

(** ** VF counts *)

Fixpoint vf_values (annotations : list (string * string)) (values : gmap Z (list string)) : result (gmap Z (list string)) :=
  match annotations with
  | [] => Ok values
  | (key, value) :: annotations =>
      if negb (has_prefix DpuConfigVFCountAnnotationPrefix key) then vf_values annotations values else
      match atoi value with
      | None => Err (Text ("invalid vfCount " +:+ quote value +:+ " in " +:+ key))
      | Some parsed =>
          if (parsed <=? 0)%Z then Err (Text ("vfCount must be > 0 in " +:+ key)) else
          vf_values annotations (<[int32 parsed := default [] (values !! int32 parsed) ++ [key]]> values)
      end
  end.
(** [(value, ok, err)]: [None] is [ok = false]. *)
Definition desiredVfCountFromAnnotations (annotations : list (string * string)) : result (option Z) :=
  let? values := vf_values annotations ∅ in
  match (map_to_list values).*1 with
  | [] => Ok None
  | [v] => Ok (Some v)
  | _ => Err (Text "conflicting vfCount annotations")
  end.

Section Loop.
Context {K D P Mg : Type} `{!KubeAPI K, !Runtime D P Mg} (ord : order).
Abbreviation world := (daemon_world K D P Mg).
Abbreviation DM := (M world).

Definition on_api {A} (f : M K A) : DM A := λ w, let '(k, a) := f (api w) in (w <| api := k |>, a).
Definition on_rt {A} (f : D → D * A) : DM A := λ w, let '(x, a) := f (rt w) in (w <| rt := x |>, Ret a).
Definition does (f : D → D) : DM unit := on_rt (λ x, (f x, tt)).
Definition on_dm (f : Daemon P Mg → Daemon P Mg) : DM unit := λ w, (w <| dm := f (dm w) |>, Ret tt).
Definition units (w : world) : list (string * ManagedDpu P Mg) := ord _ (managedDpus (dm w)).
Definition set_unit (name : string) (m : ManagedDpu P Mg) : DM unit :=
  on_dm (λ d, d <| managedDpus := <[name := m]> (managedDpus d) |>).

Fixpoint apply_loop (ms : list (string * ManagedDpu P Mg)) : DM unit :=
  match ms with
  | [] => mret tt
  | (name, managed) :: ms =>
      if IsDpuSide (DpuSpec_ (DpuCR managed)) then apply_loop ms else
      cur ← on_api (acts (k_GetDpu name));
      match cur with
      | GetFound current =>
          match desiredVfCountFromAnnotations (ord _ (DpuAnnotations current)) with
          | Ok (Some desired) =>
              if bool_decide (AppliedVfCount managed = Some desired) then apply_loop ms else
              r ← on_rt (rt_SetNumVfs (MPlugin managed) desired);
              match r with
              | Err _ => apply_loop ms
              | Ok _ => _ ← set_unit name (managed <| AppliedVfCount := Some desired |>); apply_loop ms
              end
          | _ => apply_loop ms
          end
      | _ => apply_loop ms
      end
  end.
Definition applyDesiredVfCounts : DM unit := ms ← reads units; apply_loop ms.

(** ** The node's label *)

Definition updateNodeLabels : DM (result unit) :=
  node ← reads (λ w, nodeName (dm w));
  call labels := on_api (acts (k_GetNode node)) or errorf ("Failed to get node " +:+ node +:+ ": ") in
  ms ← reads units;
  match ms with
  | [] =>
      match labels !! DpuSideLabelKey with
      | Some _ =>
          call _ := on_api (acts_err (k_UpdateNode node (delete DpuSideLabelKey labels)))
            or errorf ("Failed to remove DPU side label from node " +:+ node +:+ ": ") in ok
      | None => ok
      end
  | (_, managed) :: _ =>
      let labelValue := if IsDpuSide (DpuSpec_ (DpuCR managed)) then "dpu" else "dpu-host" in
      if bool_decide (labels !! DpuSideLabelKey = Some labelValue) then ok else
      call _ := on_api (acts_err (k_UpdateNode node (<[DpuSideLabelKey := labelValue]> labels)))
        or errorf ("Failed to update DPU side label on node " +:+ node +:+ ": ") in ok
  end.

(** ** The managed units *)

(** What the detector hands over. *)
Record Detected := mkDetected { det_CR : DataProcessingUnit; det_Plugin : P }.
Definition currentlyDetected (l : list Detected) : gmap string Detected :=
  foldl (λ m d, <[DpuName (det_CR d) := d]> m) ∅ l.
Definition new_managed (d : Detected) : ManagedDpu P Mg := mkManaged (det_CR d) (det_Plugin d) None None.
Definition add_detected (cur : gmap string Detected) (ms : gmap string (ManagedDpu P Mg)) : gmap string (ManagedDpu P Mg) :=
  ms ∪ (new_managed <$> cur).

Definition stop_unit (m : ManagedDpu P Mg) : DM unit :=
  _ ← match Manager m with Some g => does (rt_Cancel g) | None => mret tt end;
  _ ← does (rt_Close (MPlugin m));
  match Manager m with Some g => does (rt_WaitDone g) | None => mret tt end.
Fixpoint remove_loop (cur : gmap string Detected) (ms : list (string * ManagedDpu P Mg)) : DM unit :=
  match ms with
  | [] => mret tt
  | (name, m) :: ms =>
      match cur !! name with
      | Some _ => remove_loop cur ms
      | None =>
          _ ← stop_unit m;
          _ ← on_dm (λ d, d <| managedDpus := delete name (managedDpus d) |>);
          remove_loop cur ms
      end
  end.
Definition updateManagedDpus (l : list Detected) : DM unit :=
  let cur := currentlyDetected l in
  _ ← on_dm (λ d, d <| managedDpus := add_detected cur (managedDpus d) |>);
  ms ← reads units;
  remove_loop cur ms.

(** ** One pass of the main loop *)

Fixpoint create_managers (ms : list (string * ManagedDpu P Mg)) : DM (result unit) :=
  match ms with
  | [] => ok
  | (name, m) :: ms =>
      match Manager m with
      | Some _ => create_managers ms
      | None =>
          call g := on_rt (rt_createSideManager (IsDpuSide (DpuSpec_ (DpuCR m))) (MPlugin m)) or (λ e, e) in
          _ ← on_dm (λ d, d <| managers := managers d ++ [g] |>);
          _ ← set_unit name (m <| Manager := Some g |>);
          _ ← does (rt_go g name);
          create_managers ms
      end
  end.

Definition unit_condition (now : Z) (initialized ping : bool) : Condition :=
  if initialized then
    if ping then mkCondition ReadyConditionType ConditionTrue "Initialized" "DPU plugin is initialized and ping successful." 0 now
    else mkCondition ReadyConditionType ConditionFalse "PingFailed" "DPU plugin is initialized but ping failed." 0 now
  else mkCondition ReadyConditionType ConditionFalse "NotInitialized" "DPU plugin is not yet initialized." 0 now.
(** [Manager.CheckPing()] on a nil manager panics. *)
Fixpoint set_conditions (now : Z) (ms : list (string * ManagedDpu P Mg)) : DM unit :=
  match ms with
  | [] => mret tt
  | (name, m) :: ms =>
      initialized ← reads (λ w, rt_IsInitialized (MPlugin m) (rt w));
      ping ← (if initialized : bool then
                match Manager m with Some g => reads (λ w, rt_CheckPing g (rt w)) | None => panic end
              else mret false);
      let c := unit_condition now initialized ping in
      let cr := DpuCR m in
      _ ← set_unit name (m <| DpuCR := cr <| DpuConditions := SetStatusCondition (DpuConditions cr) c |> |>);
      set_conditions now ms
  end.

(** What the ticker's branch of [Serve] does with the detectors' answer. *)
Definition tick (now : Z) (detection : result (list Detected)) : DM (result unit) :=
  match detection with
  | Err e => mret (Err e)
  | Ok l =>
      _ ← updateManagedDpus l;
      ms ← reads units;
      call _ := create_managers ms or (λ e, e) in
      ms ← reads units;
      _ ← set_conditions now ms;
      d ← reads dm;
      call changed := on_api (SyncDpuCRs ord (nodeName d) (DpuCR <$> managedDpus d)) or (λ e, e) in
      call _ := updateNodeLabels or (λ e, e) in
      _ ← applyDesiredVfCounts;
      _ ← (if changed : bool then mret tt else on_dm markReady);
      ok
  end.

Fixpoint each (f : Mg → D → D) (gs : list Mg) : DM unit :=
  match gs with [] => mret tt | g :: gs => _ ← does (f g); each f gs end.
(** [cancelRoutines]: the context of every side manager ever started. *)
Definition cancelRoutines : DM unit := gs ← reads (λ w, managers (dm w)); each rt_Cancel gs.
(** [shutdown]: the resources go first, then the routines. *)
Definition shutdown : DM unit :=
  _ ← on_dm (λ d, d <| managedDpus := ∅ |>);
  d ← reads dm;
  _ ← ignore (on_api (SyncDpuCRs ord (nodeName d) ∅));
  _ ← cancelRoutines;
  gs ← reads (λ w, managers (dm w)); each rt_Join gs.

(** [Serve]: what the [select] picks, one event after the other; between two events
    the routines run.  [None]: the loop goes on when the events end. *)
Inductive event := Ticked (now : Z) (detection : result (list Detected)) | RoutineFailed (e : error) | CtxDone
  | Routines (f : D → D).
Fixpoint Serve (events : list event) : DM (option error) :=
  match events with
  | [] => mret None
  | Ticked now detection :: events =>
      r ← tick now detection;
      match r with Err e => _ ← cancelRoutines; mret (Some e) | Ok _ => Serve events end
  | RoutineFailed e :: _ => _ ← shutdown; mret (Some e)
  | CtxDone :: _ => _ ← shutdown; mret (Some (Text "context canceled"))
  | Routines f :: events => _ ← does f; Serve events
  end.
End Loop.
Arguments Detected : clear implicits.

(** ** Running a side manager *)

Section RunSideManager.
Context {W : Type} (StartVsp SetupDevices Listen Serve_ : M W (result unit)) (cancelled : W → bool).
Definition runSideManager : M W (result unit) :=
  call _ := StartVsp or (λ e, e) in
  call _ := SetupDevices or (λ e, e) in
  call _ := Listen or (λ e, e) in
  r ← Serve_;
  c ← reads cancelled;
  mret (match r with Err e => if c : bool then Ok tt else Err e | Ok _ => Ok tt end).
End RunSideManager.

(** * Lemmas *)

Lemma mergeLabels_spec (ord : order) desired target : is_order ord →
  (∀ k, (mergeLabels (ord _ desired) target).1 !! k = merged_label desired target k) ∧
  ((mergeLabels (ord _ desired) target).2 = false → (mergeLabels (ord _ desired) target).1 = target).
Proof.
  intros Ho. pose proof (Ho _ desired) as Hp.
  assert (NoDup (ord _ desired).*1) as Hn by (rewrite Hp; apply NoDup_fst_map_to_list).
  destruct (merge_loop_spec (ord _ desired) target false Hn) as [H1 H2]. unfold mergeLabels. split.
  - intros k. rewrite H1. f_equal. rewrite (list_to_map_proper _ (map_to_list desired)); [|done|done].
    apply list_to_map_to_list.
  - intros H. by apply H2 in H as [_ ?].
Qed.

Lemma conditionsNeedUpdate_refl conds : conditionsNeedUpdate conds conds = false.
Proof.
  unfold conditionsNeedUpdate. destruct (FindStatusCondition conds _) as [c|]; [|done].
  by rewrite bool_decide_eq_true_2, !String.eqb_refl, Z.eqb_refl.
Qed.

(** What the cluster holds after a unit's resource was mirrored over [old]. *)
Record mirrors (old : option DataProcessingUnit) (desired new : DataProcessingUnit) : Prop := {
  mir_name : DpuName new = DpuName desired;
  mir_spec : DpuSpec_ new = DpuSpec_ desired;
  mir_labels k : DpuLabels new !! k =
    match old with Some o => merged_label (DpuLabels desired) (DpuLabels o) k | None => DpuLabels desired !! k end;
  mir_conditions : is_Some old → conditionsNeedUpdate (DpuConditions new) (DpuConditions desired) = false }.

(** A resource the daemon may create: a valid name, no owner yet, valid annotations. *)
Definition creatable (cr : DataProcessingUnit) : Prop :=
  k8s_name_ok (DpuName cr) = true ∧ DpuOwners cr = [] ∧ annotations_ok (DpuAnnotations cr) = true.

Section Healthy.
Context {K : Type} `{!KubeAPI K, !HealthyAPI K} (ord : order) (Ho : is_order ord).

Lemma setOwnerReference_run cr k : DpuOwners cr = [] →
  ∃ k' o, setOwnerReference cr k = (k', Ret (Ok o)) ∧ stored k' = stored k ∧ DpuName o = DpuName cr ∧
    DpuLabels o = DpuLabels cr ∧ DpuSpec_ o = DpuSpec_ cr ∧ DpuAnnotations o = DpuAnnotations cr.
Proof.
  intros Hc. destruct (law_Config k) as (k1 & H1 & Hs). destruct (law_Owner cr Hc) as (o & H2 & Hn & Hl & Hsp & Ha).
  assert (acts_err k_GetDpuOperatorConfig k = (k1, Ret (Ok tt))) as He
    by (unfold acts_err; by rewrite (bind_run _ _ _ _ _ (acts_run _ _ _ _ H1))).
  exists k1, o. unfold setOwnerReference. rewrite (call_run _ _ _ _ _ _ He). simpl. by rewrite H2.
Qed.

Lemma create_run cr k : creatable cr → stored k !! DpuName cr = None →
  ∃ k' new, syncSingleDpuCR ord cr k = (k', Ret (Ok true)) ∧ stored k' = <[DpuName cr := new]> (stored k) ∧
    mirrors None cr new.
Proof.
  intros (Hv & Hc & Ha) Hn. unfold syncSingleDpuCR.
  destruct (law_Get (DpuName cr) k) as (k1 & H1 & Hs1). rewrite Hn in H1.
  rewrite (bind_run _ _ _ _ _ (acts_run _ _ _ _ H1)).
  destruct (setOwnerReference_run cr k1 Hc) as (k2 & o & H2 & Hs2 & Hon & Hol & Hos & Hoa). rewrite (call_run _ _ _ _ _ _ H2).
  destruct (law_Create o k2) as (k3 & o' & H3 & Hsame & Hs3); [by rewrite Hon|by rewrite Hoa|by rewrite Hon, Hs2, Hs1|].
  rewrite (call_run _ _ _ _ _ _ (acts_run _ _ _ _ H3)).
  assert (DpuName o' = DpuName o) as Hn' by (apply (f_equal DpuName) in Hsame; done).
  destruct (law_UpdateStatus o' k3 (o <| DpuConditions := [] |>)) as (k4 & o4 & H4 & Hs4);
    [rewrite Hs3, Hn'; apply lookup_insert_eq|].
  rewrite (call_run _ _ _ _ _ _ (acts_run _ _ _ _ H4)). eexists _, _. split; [reflexivity|].
  rewrite Hs4, Hs3, Hn', Hon, insert_insert_eq, Hs2, Hs1. split; [reflexivity|].
  split; simpl; [done..|intros l; by rewrite Hol|by intros [? ?]].
Qed.

Lemma update_run cr k old : stored k !! DpuName cr = Some old →
  ∃ k' b new, syncSingleDpuCR ord cr k = (k', Ret (Ok b)) ∧ stored k' = <[DpuName cr := new]> (stored k) ∧
    mirrors (Some old) cr new ∧ (b = false → new = old).
Proof.
  intros Hold. pose proof (law_named _ _ _ Hold) as Hname. unfold syncSingleDpuCR.
  destruct (law_Get (DpuName cr) k) as (k1 & H1 & Hs1). rewrite Hold in H1.
  rewrite (bind_run _ _ _ _ _ (acts_run _ _ _ _ H1)).
  destruct (mergeLabels_spec ord (DpuLabels cr) (DpuLabels old) Ho) as [Hl Hl0].
  destruct (mergeLabels (ord _ (DpuLabels cr)) (DpuLabels old)) as [labels nm]. simpl in Hl, Hl0.
  set (ns := negb (bool_decide _)). set (nc := conditionsNeedUpdate _ _).
  set (old1 := old <| DpuLabels := labels |> <| DpuSpec_ := DpuSpec_ cr |>).
  assert (DpuName old1 = DpuName cr) as Hn1 by exact Hname.
  (* the first write *)
  assert (∃ k2 o2, (if ns || nm then acts (k_UpdateDpu old1) else mret (Ok (old <| DpuLabels := labels |>))) k1 = (k2, Ret (Ok o2)) ∧
    same_but_status old1 o2 ∧ stored k2 = <[DpuName cr := old1]> (stored k)) as (k2 & o2 & H2 & Hsame & Hs2).
  { destruct (ns || nm) eqn:E.
    - destruct (law_Update old1 k1 old) as (k2 & o2 & H2 & Hsame & Hs2); [by rewrite Hs1, Hn1|by apply (law_annotations _ _ _ Hold)|].
      exists k2, o2. split; [by apply acts_run|]. split; [done|]. by rewrite Hs2, Hs1, Hn1.
    - apply orb_false_iff in E as [Hsp ->]. specialize (Hl0 eq_refl).
      apply negb_false_iff, bool_decide_eq_true in Hsp.
      assert (old1 = old) as Heq by (subst old1; rewrite Hl0, <-Hsp; by destruct old).
      exists k1, (old <| DpuLabels := labels |>). split; [done|]. split; [rewrite Heq, Hl0; by destruct old|].
      rewrite Heq, Hs1. symmetry. by apply insert_id. }
  rewrite (call_run _ _ _ _ _ _ H2).
  assert (DpuName o2 = DpuName cr) as Hn2 by (apply (f_equal DpuName) in Hsame; simpl in Hsame; congruence).
  assert (mirrors (Some old) cr (old1 <| DpuConditions := DpuConditions cr |>)) as Hmir.
  { split; simpl; try done. intros _. apply conditionsNeedUpdate_refl. }
  destruct nc eqn:Enc.
  - destruct (law_UpdateStatus (o2 <| DpuConditions := DpuConditions cr |>) k2 old1) as (k3 & o3 & H3 & Hs3);
      [simpl; rewrite Hs2, Hn2; apply lookup_insert_eq|].
    rewrite (call_run _ _ _ _ _ _ (acts_run _ _ _ _ H3)). eexists _, _, _. split; [reflexivity|].
    rewrite Hs3, Hs2. simpl. rewrite Hn2, insert_insert_eq. split; [reflexivity|]. split; [done|].
    rewrite orb_true_r. done.
  - rewrite (call_run _ _ _ k2 k2 o2) by done. eexists _, _, old1. split; [reflexivity|]. split; [done|]. split.
    + destruct Hmir. by split; simpl in *.
    + rewrite orb_false_r. intros [Hsp ->]%orb_false_iff. apply negb_false_iff, bool_decide_eq_true in Hsp.
      subst old1. rewrite Hl0, <-Hsp by done. by destruct old.
Qed.
Lemma syncSingle_run cr k : creatable cr →
  ∃ k' b new, syncSingleDpuCR ord cr k = (k', Ret (Ok b)) ∧ stored k' = <[DpuName cr := new]> (stored k) ∧
    mirrors (stored k !! DpuName cr) cr new ∧ (b = false → stored k !! DpuName cr = Some new).
Proof.
  intros Hc. destruct (stored k !! DpuName cr) as [old|] eqn:E.
  - destruct (update_run cr k old E) as (k' & b & new & H1 & H2 & H3 & H4). exists k', b, new. naive_solver.
  - destruct (create_run cr k Hc E) as (k' & new & H1 & H2 & H3). by exists k', true, new.
Qed.

Lemma sync_managed_run crs changed k : NoDup (DpuName <$> crs) → Forall creatable crs →
  ∃ k' b, sync_managed ord crs changed k = (k', Ret b) ∧
    (∀ n, n ∉ DpuName <$> crs → stored k' !! n = stored k !! n) ∧
    (∀ cr, cr ∈ crs → ∃ new, stored k' !! DpuName cr = Some new ∧ mirrors (stored k !! DpuName cr) cr new) ∧
    (b = false → changed = false ∧ stored k' = stored k).
Proof.
  revert changed k. induction crs as [|cr crs IH]; intros changed k Hn Hc.
  { exists k, changed. split; [done|]. split; [done|]. split; [|done]. by intros cr ?%elem_of_nil. }
  rewrite fmap_cons in *. apply NoDup_cons in Hn as [Hcr Hn]. apply Forall_cons in Hc as [Hc1 Hc].
  destruct (syncSingle_run cr k Hc1) as (k1 & b1 & new & H1 & Hs1 & Hm & Hb1).
  destruct (IH (if b1 then true else changed) k1 Hn Hc) as (k' & b & H2 & Hf & Hin & Hb).
  exists k', b. cbn [sync_managed]. rewrite (bind_run _ _ _ _ _ H1). split; [by destruct b1|].
  split; [|split].
  - intros n Hni. apply not_elem_of_cons in Hni as [Hne Hni]. by rewrite Hf, Hs1, lookup_insert_ne.
  - intros cr' [->|Hin']%elem_of_cons.
    + exists new. by rewrite Hf, Hs1, lookup_insert_eq.
    + destruct (Hin cr' Hin') as (new' & Hnew & Hm'). exists new'. split; [done|].
      rewrite Hs1, lookup_insert_ne in Hm'; [done|]. intros E. apply Hcr. rewrite E. by apply list_elem_of_fmap_2.
  - intros ->. destruct b1; [by apply Hb in eq_refl as [? _] || (destruct (Hb eq_refl); done)|].
    destruct (Hb eq_refl) as [-> ->]. split; [done|]. rewrite Hs1. by apply insert_id, Hb1.
Qed.

Lemma delete_orphans_run managed l changed k :
  NoDup l.*1 → (∀ n c, (n, c) ∈ l → DpuName c = n ∧ is_Some (stored k !! n)) →
  ∃ k' b, delete_orphans managed l changed k = (k', Ret b) ∧
    (∀ n, stored k' !! n = if bool_decide (n ∈ l.*1) && negb (managed n) then None else stored k !! n) ∧
    (b = false → changed = false ∧ stored k' = stored k).
Proof.
  revert changed k. induction l as [|[n c] l IH]; intros changed k Hn Hl; [by exists k, changed|].
  rewrite fmap_cons in *. apply NoDup_cons in Hn as [Hnl Hn]. simpl in Hnl. cbn [delete_orphans].
  destruct (managed n) eqn:Hm.
  - destruct (IH changed k Hn) as (k' & b & H & Hs & Hb); [intros; apply Hl; by right|].
    exists k', b. split; [done|]. split; [|done]. intros n'. rewrite Hs. destruct (decide (n' = n)) as [->|Hne].
    + by rewrite Hm, !andb_false_r.
    + rewrite (bool_decide_ext (n' ∈ n :: l.*1) (n' ∈ l.*1)); [done|]. rewrite elem_of_cons. naive_solver.
  - destruct (Hl n c) as [Hname [c0 Hc0]]; [by left|]. rewrite <-Hname in Hc0.
    destruct (law_Delete c k c0 Hc0) as (k1 & H1 & Hs1). rewrite (bind_run _ _ _ _ _ (acts_run _ _ _ _ H1)).
    destruct (IH true k1 Hn) as (k' & b & H & Hs & Hb).
    { intros n' c' Hin. destruct (Hl n' c') as [? ?]; [by right|]. split; [done|].
      rewrite Hs1, lookup_delete_ne; [done|]. rewrite Hname. intros ->. apply Hnl. by apply list_elem_of_fmap_2' with (n', c'). }
    exists k', b. split; [done|]. split; [|intros E; by apply Hb in E as [? _]].
    intros n'. rewrite Hs, Hs1, Hname. destruct (decide (n' = n)) as [->|Hne].
    + rewrite lookup_delete_eq, Hm, (bool_decide_eq_true_2 (n ∈ n :: l.*1)) by (by left). simpl. by destruct (_ && _).
    + rewrite lookup_delete_ne by done. rewrite (bool_decide_ext (n' ∈ n :: l.*1) (n' ∈ l.*1)); [done|].
      rewrite elem_of_cons. naive_solver.
Qed.
End Healthy.

Lemma order_fst {A} (ord : order) (m : gmap string A) n : is_order ord → n ∈ (ord _ m).*1 ↔ is_Some (m !! n).
Proof.
  intros Ho. rewrite (Ho _ _), list_elem_of_fmap. split.
  - intros ([n' c] & -> & H%elem_of_map_to_list). by exists c.
  - intros [c H]. exists (n, c). by rewrite elem_of_map_to_list.
Qed.
(** A map of resources filed under their names. *)
Definition by_names (m : gmap string DataProcessingUnit) : Prop := ∀ n cr, m !! n = Some cr → DpuName cr = n.
Lemma order_snd (ord : order) m : is_order ord → by_names m →
  (∀ cr, cr ∈ (ord _ m).*2 ↔ m !! DpuName cr = Some cr) ∧ DpuName <$> (ord _ m).*2 = (ord _ m).*1.
Proof.
  intros Ho Hm. split.
  - intros cr. rewrite (Ho _ _), list_elem_of_fmap. split.
    + intros ([n c] & -> & H%elem_of_map_to_list). simpl. by rewrite (Hm _ _ H).
    + intros H. exists (DpuName cr, cr). by rewrite elem_of_map_to_list.
  - rewrite <-list_fmap_compose. apply list_fmap_ext. intros i [n c] Hi. simpl.
    apply list_elem_of_lookup_2 in Hi. rewrite (Ho _ _), elem_of_map_to_list in Hi. by apply Hm.
Qed.

(** The resources of this node among those listed. *)
Lemma existing_fold_other node l m n :
  n ∉ DpuName <$> l →
  foldl (keep_cr node) m l !! n = m !! n.
Proof.
  revert m. induction l as [|c l IH]; intros m; [done|]. rewrite fmap_cons, not_elem_of_cons. intros [Hne Hn].
  simpl. rewrite IH by done. unfold keep_cr. destruct (String.eqb _ _); [by rewrite lookup_insert_ne|done].
Qed.
Lemma existingCRMap_spec node (st : gmap string DataProcessingUnit) l :
  (∀ n c, st !! n = Some c → DpuName c = n) → l ≡ₚ (map_to_list st).*2 →
  ∀ n, existingCRMap node l !! n =
    match st !! n with Some c => if String.eqb (NodeName (DpuSpec_ c)) node then Some c else None | None => None end.
Proof.
  intros Hst Hl n.
  assert (∀ c, c ∈ l ↔ st !! DpuName c = Some c) as Hin.
  { intros c. rewrite Hl, list_elem_of_fmap. split.
    - intros ([n' c'] & -> & H%elem_of_map_to_list). simpl. by rewrite (Hst _ _ H).
    - intros H. exists (DpuName c, c). split; [done|]. by apply elem_of_map_to_list. }
  assert (NoDup (DpuName <$> l)) as Hn.
  { rewrite Hl. assert (DpuName <$> (map_to_list st).*2 = (map_to_list st).*1) as ->; [|apply NoDup_fst_map_to_list].
    rewrite <-list_fmap_compose. apply list_fmap_ext. intros i [n' c'] Hi. simpl.
    apply Hst, elem_of_map_to_list. by eapply list_elem_of_lookup_2. }
  destruct (decide (n ∈ DpuName <$> l)) as [Hnl|Hnl].
  - apply list_elem_of_fmap in Hnl as (c & -> & Hc). rewrite (proj1 (Hin c) Hc).
    unfold existingCRMap. apply list_elem_of_split in Hc as (l1 & l2 & ->).
    rewrite fmap_app, fmap_cons in Hn. apply NoDup_app in Hn as (_ & Hd & Hn). apply NoDup_cons in Hn as [Hc2 _].
    rewrite foldl_app. simpl. rewrite existing_fold_other by done. unfold keep_cr at 1.
    destruct (String.eqb _ _); [apply lookup_insert_eq|]. rewrite existing_fold_other; [done|].
    intros H. apply (Hd _ H). by left.
  - unfold existingCRMap. rewrite existing_fold_other by done. rewrite lookup_empty.
    destruct (st !! n) as [c|] eqn:E; [|done]. exfalso. apply Hnl. rewrite <-(Hst _ _ E). apply list_elem_of_fmap_2, Hin.
    by rewrite (Hst _ _ E).
Qed.

(** What a synchronisation does to a healthy API server. *)
Lemma SyncDpuCRs_run {K} `{!KubeAPI K, !HealthyAPI K} ord node (managed : gmap string DataProcessingUnit) (k : K) :
  is_order ord →
  (∀ n cr, managed !! n = Some cr → DpuName cr = n ∧ creatable cr) →
  ∃ k' changed, SyncDpuCRs ord node managed k = (k', Ret (Ok changed)) ∧
    (∀ n, match managed !! n with
          | Some cr => ∃ new, stored k' !! n = Some new ∧ mirrors (stored k !! n) cr new
          | None => stored k' !! n = match stored k !! n with
                                     | Some c => if String.eqb (NodeName (DpuSpec_ c)) node then None else Some c
                                     | None => None
                                     end
          end) ∧
    (changed = false → stored k' = stored k).
Proof.
  intros Ho Hm. unfold SyncDpuCRs.
  destruct (law_List k) as (k1 & items & H1 & Hs1 & Hitems). rewrite (call_run _ _ _ _ _ _ (acts_run _ _ _ _ H1)).
  destruct (order_snd ord managed Ho (λ n cr H, proj1 (Hm n cr H))) as [Hin Hnames].
  destruct (sync_managed_run ord Ho (ord _ managed).*2 false k1) as (k2 & b2 & H2 & Hf & Hnew & Hb2).
  { rewrite Hnames, (Ho _ _). apply NoDup_fst_map_to_list. }
  { apply Forall_forall. intros cr Hcr. apply Hin in Hcr. by apply Hm in Hcr as [_ ?]. }
  rewrite (bind_run _ _ _ _ _ H2).
  pose proof (existingCRMap_spec node (stored k) items (λ n c, law_named k n c) Hitems) as Hex.
  destruct (delete_orphans_run (λ name, bool_decide (is_Some (managed !! name)))
              (ord _ (existingCRMap node items)) b2 k2) as (k3 & b3 & H3 & Hs3 & Hb3).
  { rewrite (Ho _ _). apply NoDup_fst_map_to_list. }
  { intros n c. rewrite (Ho _ _), elem_of_map_to_list, Hex. destruct (stored k !! n) as [c'|] eqn:E; [|done].
    destruct (String.eqb _ _); [|done]. intros [= ->]. split; [by eapply law_named|].
    destruct (decide (n ∈ DpuName <$> (ord _ managed).*2)) as [Hn|Hn].
    - apply list_elem_of_fmap in Hn as (cr & -> & Hcr). destruct (Hnew cr Hcr) as (new & -> & _). by exists new.
    - rewrite Hf, Hs1, E by done. by exists c. }
  rewrite (bind_run _ _ _ _ _ H3). exists k3, b3. split; [done|]. split.
  - intros n. rewrite Hs3. destruct (managed !! n) as [cr|] eqn:E.
    + rewrite (bool_decide_eq_true_2 (is_Some (Some cr))) by eauto. rewrite andb_false_r.
      destruct (Hm _ _ E) as [<- _]. apply Hin in E. destruct (Hnew cr E) as (new & H & Hmir). exists new.
      by rewrite <-Hs1.
    + rewrite (bool_decide_eq_false_2 (is_Some None)) by (by intros [? ?]). rewrite andb_true_r.
      rewrite (bool_decide_ext _ _ (order_fst _ _ _ Ho)), Hex, Hf, Hs1;
        [|rewrite Hnames, (order_fst _ _ _ Ho), E; by intros [? ?]].
      destruct (stored k !! n) as [c|]; [|by destruct (bool_decide _)].
      destruct (String.eqb _ _); [by rewrite bool_decide_eq_true_2 by eauto|].
      by rewrite bool_decide_eq_false_2 by (by intros [? ?]).
  - intros ->. destruct (Hb3 eq_refl) as [-> ->]. destruct (Hb2 eq_refl) as [_ ->]. done.
Qed.

(** ** Invariants of computations *)

Definition keeps {W A} (I : W → Prop) (f : M W A) : Prop := ∀ w, I w → I (f w).1.
Lemma keeps_ret {W A} (I : W → Prop) (a : A) : keeps I (mret a : M W A).
Proof. by intros w. Qed.
Lemma keeps_panic {W A} (I : W → Prop) : keeps I (panic : M W A).
Proof. by intros w. Qed.
Lemma keeps_reads {W A} (I : W → Prop) (f : W → A) : keeps I (reads f).
Proof. by intros w. Qed.
Lemma keeps_bind {W A B} (I : W → Prop) (f : M W A) (k : A → M W B) :
  keeps I f → (∀ a, keeps I (k a)) → keeps I (f ≫= k).
Proof.
  intros Hf Hk w Hw. unfold mbind, M_bind. specialize (Hf w Hw). destruct (f w) as [w1 [a|]]; [|done]. by apply Hk.
Qed.
Lemma keeps_call {W A B} (I : W → Prop) (f : M W (result A)) h (k : A → M W (result B)) :
  keeps I f → (∀ a, keeps I (k a)) → keeps I (try_bind f h k).
Proof. intros Hf Hk. apply keeps_bind; [done|]. intros [a|e]; [auto|apply keeps_ret]. Qed.
Lemma keeps_returns {W A} (I : W → Prop) (f : M W A) w w' a : keeps I f → returns f w w' a → I w → I w'.
Proof. unfold returns. intros Hk H Hw. specialize (Hk w Hw). by rewrite H in Hk. Qed.

(** What the daemon's state always satisfies, on detections that are [creatable]:
    units are filed under the names of their resources, and those can be created. *)
Definition units_ok {P Mg} (ms : gmap string (ManagedDpu P Mg)) : Prop :=
  ∀ n m, ms !! n = Some m → DpuName (DpuCR m) = n ∧ creatable (DpuCR m).
Lemma units_ok_insert {P Mg} n m (ms : gmap string (ManagedDpu P Mg)) :
  units_ok ms → DpuName (DpuCR m) = n → creatable (DpuCR m) → units_ok (<[n := m]> ms).
Proof. intros Hms Hn Hc n' m'. rewrite lookup_insert. case_decide as E; [subst; by intros [= <-]|apply Hms]. Qed.
Lemma units_ok_delete {P Mg} n (ms : gmap string (ManagedDpu P Mg)) : units_ok ms → units_ok (delete n ms).
Proof. intros Hms n' m' [_ H]%lookup_delete_Some. by apply Hms. Qed.

Section LoopLemmas.
Context {K D P Mg : Type} `{!KubeAPI K, !Runtime D P Mg} (ord : order) (Ho : is_order ord).
Abbreviation world := (daemon_world K D P Mg).

Lemma currentlyDetected_lookup (l : list (Detected P)) n d :
  currentlyDetected l !! n = Some d → d ∈ l ∧ DpuName (det_CR d) = n.
Proof.
  unfold currentlyDetected. assert (∀ m : gmap string (Detected P), foldl (λ m d, <[DpuName (det_CR d) := d]> m) m l !! n = Some d →
    (d ∈ l ∧ DpuName (det_CR d) = n) ∨ m !! n = Some d) as H.
  { induction l as [|x l IH]; intros m; simpl; [by right|]. intros [[H1 H2]|H]%IH.
    - left. split; [by right|done].
    - rewrite lookup_insert in H. case_decide; [|by right]. simplify_eq. left. split; [by left|done]. }
  intros [?|H']%H; [done|]. by rewrite lookup_empty in H'.
Qed.

Lemma currentlyDetected_None (l : list (Detected P)) n :
  currentlyDetected l !! n = None ↔ n ∉ (DpuName ∘ det_CR) <$> l.
Proof.
  split.
  - unfold currentlyDetected. intros H Hn. revert H. apply not_eq_None_Some.
    assert (∀ m : gmap string (Detected P), n ∈ (DpuName ∘ det_CR) <$> l ∨ is_Some (m !! n) →
      is_Some (foldl (λ m d, <[DpuName (det_CR d) := d]> m) m l !! n)) as H; [|by apply H; left].
    clear Hn. induction l as [|x l IH]; intros m; simpl; [by intros [?%elem_of_nil|]|].
    intros Hm. apply IH. rewrite lookup_insert_is_Some. rewrite elem_of_cons in Hm.
    destruct (decide (DpuName (det_CR x) = n)); naive_solver.
  - intros Hn. destruct (currentlyDetected l !! n) as [d|] eqn:E; [|done].
    apply currentlyDetected_lookup in E as [Hd <-]. destruct Hn. apply (list_elem_of_fmap_2 (DpuName ∘ det_CR) l d Hd).
Qed.

(** [updateManagedDpus], as one equation per unit. *)
Definition stopped (m : ManagedDpu P Mg) (x : D) : D :=
  match Manager m with
  | Some g => rt_WaitDone g (rt_Close (MPlugin m) (rt_Cancel g x))
  | None => rt_Close (MPlugin m) x
  end.
Lemma stop_unit_run m (w : world) : stop_unit m w = (w <| rt := stopped m (rt w) |>, Ret tt).
Proof.
  unfold stop_unit, stopped, does, on_rt, mbind, M_bind, mret, M_ret. destruct w. by destruct (Manager m).
Qed.
Definition is_gone (cur : gmap string (Detected P)) (x : string * ManagedDpu P Mg) : Prop := cur !! x.1 = None.
#[local] Instance is_gone_dec cur x : Decision (is_gone cur x).
Proof. unfold is_gone. apply _. Defined.
Lemma remove_loop_run cur ms (w : world) :
  remove_loop cur ms w =
  (mkDW (api w) (foldl (λ x '(_, m), stopped m x) (rt w) (filter (is_gone cur) ms))
     (dm w <| managedDpus := foldl (λ u n, delete n u) (managedDpus (dm w)) (filter (is_gone cur) ms).*1 |>), Ret tt).
Proof.
  revert w. induction ms as [|[n m] ms IH]; intros w; simpl; [by destruct w as [? ? []]|].
  destruct (cur !! n) as [d|] eqn:E.
  - rewrite filter_cons_False by (unfold is_gone; simpl; by rewrite E). apply IH.
  - rewrite filter_cons_True by done. rewrite (bind_run _ _ _ _ _ (stop_unit_run m w)).
    unfold mbind, M_bind, on_dm. rewrite IH. by destruct w as [? ? []].
Qed.
Lemma foldl_delete_lookup {A} (l : list string) (u : gmap string A) n :
  foldl (λ u n, delete n u) u l !! n = if bool_decide (n ∈ l) then None else u !! n.
Proof.
  revert u. induction l as [|x l IH]; intros u; simpl; [done|]. rewrite IH.
  destruct (decide (n = x)) as [->|Hne].
  - rewrite (bool_decide_eq_true_2 (x ∈ x :: l)) by by left. by rewrite lookup_delete_eq; destruct (bool_decide _).
  - rewrite lookup_delete_ne by done. rewrite (bool_decide_ext (n ∈ x :: l) (n ∈ l)); [done|].
    rewrite elem_of_cons. naive_solver.
Qed.
Lemma updateManagedDpus_run l (w : world) :
  ∃ gone, gone ≡ₚ filter (is_gone (currentlyDetected l)) (map_to_list (managedDpus (dm w))) ∧
  ∃ w', updateManagedDpus ord l w = (w', Ret tt) ∧ api w' = api w ∧ managers (dm w') = managers (dm w) ∧
    nodeName (dm w') = nodeName (dm w) ∧ isReady (dm w') = isReady (dm w) ∧
    rt w' = foldl (λ x '(_, m), stopped m x) (rt w) gone ∧
    ∀ n, managedDpus (dm w') !! n =
      (λ d, default (new_managed d) (managedDpus (dm w) !! n)) <$> currentlyDetected l !! n.
Proof.
  set (cur := currentlyDetected l). set (ms := add_detected cur (managedDpus (dm w))).
  assert (∀ n, ms !! n = match managedDpus (dm w) !! n with Some m => Some m | None => new_managed <$> cur !! n end) as Hms.
  { intros n. unfold ms, add_detected. rewrite lookup_union, lookup_fmap. by destruct (managedDpus _ !! n), (cur !! n). }
  exists (filter (is_gone cur) (ord _ ms)). split.
  - rewrite (Ho _ ms). apply NoDup_Permutation; try apply NoDup_filter, NoDup_map_to_list.
    intros [n m]. rewrite !list_elem_of_filter, !elem_of_map_to_list, Hms. unfold is_gone. simpl.
    split; intros [Hg H]; (split; [done|]); rewrite Hg in *; by destruct (managedDpus (dm w) !! n).
  - eexists. split.
    + unfold updateManagedDpus. unfold mbind, M_bind at 1, on_dm at 1. unfold mbind, M_bind, reads. apply remove_loop_run.
    + simpl. do 5 (split; [done|]). intros n. unfold units. simpl. fold cur ms. rewrite foldl_delete_lookup.
      destruct (cur !! n) as [d|] eqn:E; simpl.
      * rewrite bool_decide_eq_false_2.
        -- rewrite Hms. by destruct (managedDpus (dm w) !! n); rewrite ?E.
        -- intros ([n' m] & -> & [Hg _]%list_elem_of_filter)%list_elem_of_fmap. unfold is_gone in Hg. by rewrite E in Hg.
      * destruct (ms !! n) as [m|] eqn:Em; [|by destruct (bool_decide _)].
        rewrite bool_decide_eq_true_2; [done|]. apply list_elem_of_fmap. exists (n, m). split; [done|].
        apply list_elem_of_filter. split; [done|]. rewrite (Ho _ ms). by apply elem_of_map_to_list.
Qed.

(** Frames: what the steps of a pass leave alone. *)
Lemma preserves_on_rt {A X} (g : world → X) (f : D → D * A) : (∀ w x, g (w <| rt := x |>) = g w) → preserves g (on_rt f).
Proof. intros H w. unfold on_rt. destruct (f (rt w)) as [x a]. apply H. Qed.
Lemma preserves_on_dm {X} (g : world → X) (f : Daemon P Mg → Daemon P Mg) :
  (∀ w, g (w <| dm := f (dm w) |>) = g w) → preserves g (on_dm f).
Proof. intros H w. apply H. Qed.
Lemma preserves_on_api {A X} (g : world → X) (f : M K A) : (∀ w k, g (w <| api := k |>) = g w) → preserves g (on_api f).
Proof. intros H w. unfold on_api. destruct (f (api w)) as [k a]. apply H. Qed.
Definition status (w : world) : bool * string := (isReady (dm w), nodeName (dm w)).
#[local] Hint Extern 2 (preserves _ (on_rt _)) => (apply preserves_on_rt; by intros []) : preserves.
#[local] Hint Extern 2 (preserves _ (does _)) => (apply preserves_on_rt; by intros []) : preserves.
#[local] Hint Extern 2 (preserves _ (on_dm _)) => (apply preserves_on_dm; by intros []) : preserves.
#[local] Hint Extern 2 (preserves _ (set_unit _ _)) => (apply preserves_on_dm; by intros []) : preserves.
#[local] Hint Extern 2 (preserves _ (on_api _)) => (apply preserves_on_api; by intros []) : preserves.
Lemma create_managers_status ms : preserves status (create_managers ms).
Proof. induction ms as [|[n m] ms IH]; simpl; [done|]. destruct (Manager m); [done|]. preserve. Qed.
Lemma set_conditions_status now ms : preserves status (set_conditions now ms).
Proof. induction ms as [|[n m] ms IH]; simpl; [done|]. preserve. Qed.
Lemma apply_loop_status ms : preserves status (apply_loop ord ms).
Proof. induction ms as [|[n m] ms IH]; simpl; [done|]. destruct (IsDpuSide _); [done|]. preserve. Qed.
Lemma updateNodeLabels_status : preserves status (updateNodeLabels ord).
Proof. unfold updateNodeLabels, ok. preserve. Qed.
Lemma updateNodeLabels_dm : preserves dm (updateNodeLabels ord : M world _).
Proof. unfold updateNodeLabels, ok. preserve. Qed.
Lemma create_managers_api ms : preserves (api : world → K) (create_managers ms).
Proof. induction ms as [|[n m] ms IH]; simpl; [done|]. destruct (Manager m); [done|]. preserve. Qed.
Lemma set_conditions_api now ms : preserves (api : world → K) (set_conditions now ms).
Proof. induction ms as [|[n m] ms IH]; simpl; [done|]. preserve. Qed.

(** Units stay filed under the names of creatable resources. *)
Abbreviation good := (λ w : world, units_ok (managedDpus (dm w))).
Abbreviation snapshot_ok := (Forall (λ x : string * ManagedDpu P Mg, DpuName (DpuCR x.2) = x.1 ∧ creatable (DpuCR x.2))).
Lemma snapshot_of w : good w → snapshot_ok (units ord w).
Proof.
  intros Hw. apply Forall_forall. intros [n m]. unfold units. rewrite (Ho _ _), elem_of_map_to_list. apply Hw.
Qed.
Lemma preserves_keeps {A X} (g : world → X) (I : X → Prop) (f : M world A) : preserves g f → keeps (λ w, I (g w)) f.
Proof. intros Hf w Hw. by rewrite Hf. Qed.
Lemma set_unit_good n m : DpuName (DpuCR m) = n → creatable (DpuCR m) → keeps good (set_unit n m : M world unit).
Proof. intros H1 H2 w Hw. by apply units_ok_insert. Qed.
Lemma create_managers_good ms : snapshot_ok ms → keeps good (create_managers ms).
Proof.
  intros Hms. induction Hms as [|[n m] ms [H1 H2] _ IH]; simpl; [apply keeps_ret|].
  destruct (Manager m); [done|]. apply keeps_call.
  { apply (preserves_keeps (λ w, managedDpus (dm w))). auto with preserves. }
  intros g. apply keeps_bind; [apply (preserves_keeps (λ w, managedDpus (dm w))); auto with preserves|].
  intros _. apply keeps_bind; [by apply set_unit_good|]. intros _.
  apply keeps_bind; [apply (preserves_keeps (λ w, managedDpus (dm w))); auto with preserves|done].
Qed.
Lemma set_conditions_good now ms : snapshot_ok ms → keeps good (set_conditions now ms).
Proof.
  intros Hms. induction Hms as [|[n m] ms [H1 H2] _ IH]; simpl; [apply keeps_ret|].
  apply keeps_bind; [apply keeps_reads|]. intros i. apply keeps_bind.
  { destruct i; [destruct (Manager m); [apply keeps_reads|apply keeps_panic]|apply keeps_ret]. }
  intros p. apply keeps_bind; [by apply set_unit_good|done].
Qed.
Lemma updateManagedDpus_good l (w : world) :
  (∀ d, d ∈ l → creatable (det_CR d)) → good w → good (updateManagedDpus ord l w).1.
Proof.
  intros Hl Hw. destruct (updateManagedDpus_run l w) as (_ & _ & w' & -> & _ & _ & _ & _ & _ & Hm). simpl.
  intros n m. rewrite Hm. destruct (currentlyDetected l !! n) as [d|] eqn:E; [|done].
  apply currentlyDetected_lookup in E as [Hd Hn]. intros [= <-]. destruct (managedDpus (dm w) !! n) eqn:E'; [by apply Hw|].
  split; [done|]. by apply Hl.
Qed.

(** The units' resources. *)
Definition crs (w : world) : gmap string DataProcessingUnit := DpuCR <$> managedDpus (dm w).
Lemma crs_good w : good w → ∀ n cr, crs w !! n = Some cr → DpuName cr = n ∧ creatable cr.
Proof. intros Hw n cr. unfold crs. rewrite lookup_fmap. intros (m & H & ->)%fmap_Some. by apply Hw. Qed.
Lemma apply_loop_frame `{!HealthyAPI K} ms (w : world) :
  (∀ n m, (n, m) ∈ ms → crs w !! n = Some (DpuCR m)) →
  crs (apply_loop ord ms w).1 = crs w ∧ stored (api (apply_loop ord ms w).1) = stored (api w).
Proof.
  revert w. induction ms as [|[n m] ms IH]; intros w Hms; [done|]. cbn [apply_loop].
  destruct (IsDpuSide _); [apply IH; intros; apply Hms; by right|].
  destruct (law_Get n (api w)) as (k & Hk & Hs).
  assert (∀ w1, crs w1 = crs w → stored (api w1) = stored (api w) →
    crs (apply_loop ord ms w1).1 = crs w ∧ stored (api (apply_loop ord ms w1).1) = stored (api w)) as Hrest.
  { intros w1 H1 H2. destruct (IH w1) as [H3 H4]; [|by rewrite H3, H4]. intros n' m' Hin. rewrite H1. apply Hms. by right. }
  assert (on_api (acts (k_GetDpu n)) w = (w <| api := k |>, Ret (match stored (api w) !! n with
    Some c => GetFound c | None => GetNotFound (Text "not found") end))) as Hg by (unfold on_api, acts; by rewrite Hk).
  rewrite (bind_run _ _ _ _ _ Hg). destruct (stored (api w) !! n) as [c|]; [|by apply Hrest].
  destruct (desiredVfCountFromAnnotations _) as [[v|]|]; [|by apply Hrest..].
  destruct (bool_decide _); [by apply Hrest|].
  destruct (rt_SetNumVfs (MPlugin m) v (rt w)) as [x r] eqn:Hr.
  assert (on_rt (rt_SetNumVfs (MPlugin m) v) (w <| api := k |>) = (w <| api := k |> <| rt := x |>, Ret r)) as Hx
    by (unfold on_rt; simpl; by rewrite Hr).
  rewrite (bind_run _ _ _ _ _ Hx). destruct r as [a|e]; [|by apply Hrest].
  rewrite (bind_run (set_unit _ _) _ _ _ tt eq_refl). apply Hrest; [|done].
  unfold crs. simpl. rewrite fmap_insert. simpl. apply insert_id. apply Hms. by left.
Qed.

(** The parts of a pass that ends without an error. *)
Lemma tick_inv now l (w w' : world) : tick ord now (Ok l) w = (w', Ret (Ok tt)) → 
  ∃ w1 w2 w3 k changed w4 w5,
    returns (updateManagedDpus ord l) w w1 tt ∧
    returns (create_managers (units ord w1)) w1 w2 (Ok tt) ∧
    returns (set_conditions now (units ord w2)) w2 w3 tt ∧
    returns (SyncDpuCRs ord (nodeName (dm w3)) (crs w3)) (api w3) k (Ok changed) ∧
    returns (updateNodeLabels ord) (w3 <| api := k |>) w4 (Ok tt) ∧
    returns (apply_loop ord (units ord w4)) w4 w5 tt ∧
    w' = if changed : bool then w5 else w5 <| dm := markReady (dm w5) |>.
Proof.
  unfold tick. intros H. inv_bind H as H1. destruct a. inv_bind H as H2. injection H2 as <- <-.
  inv_call H as H3. destruct a. inv_bind H as H4. injection H4 as <- <-. inv_bind H as H5. destruct a.
  inv_bind H as H6. injection H6 as <- <-. inv_call H as H7. inv_call H as H8. destruct a0. inv_bind H as H9.
  inv_bind H as H10. inv_ret H.
  unfold returns, on_api in H7. destruct (SyncDpuCRs ord _ _ (api w2)) as [k r] eqn:Hk.
  injection H7 as <- ->. unfold applyDesiredVfCounts in H9. inv_bind H9 as H11. injection H11 as <- <-. destruct a0.
  eexists _, _, _, _, _, _, _. repeat (split; [eassumption|]). destruct a1, a; [by inv_ret H10|]. by injection H10 as <-.
Qed.

(** A pass against a healthy API server, seen from its synchronisation. *)
Lemma updateNodeLabels_stored `{!HealthyAPI K} : preserves (λ w : world, stored (api w)) (updateNodeLabels ord).
Proof.
  assert (∀ n, preserves (λ w : world, stored (api w)) (on_api (acts (k_GetNode n)))) as Hg.
  { intros n w. unfold on_api, acts. pose proof (law_GetNode n (api w)) as H. by destruct (k_GetNode n (api w)). }
  assert (∀ n l, preserves (λ w : world, stored (api w)) (on_api (acts_err (k_UpdateNode n l)))) as Hu.
  { intros n l w. unfold on_api, acts_err, mbind, M_bind, acts. pose proof (law_UpdateNode n l (api w)) as H.
    by destruct (k_UpdateNode n l (api w)). }
  unfold updateNodeLabels, ok. preserve; auto.
Qed.
Lemma tick_healthy `{!HealthyAPI K} now l (w w' : world) :
  good w → (∀ d, d ∈ l → creatable (det_CR d)) → tick ord now (Ok l) w = (w', Ret (Ok tt)) →
  ∃ k k' changed, SyncDpuCRs ord (nodeName (dm w)) (crs w') k = (k', Ret (Ok changed)) ∧ stored (api w') = stored k' ∧
    isReady (dm w') = (if changed : bool then isReady (dm w) else true) ∧ nodeName (dm w') = nodeName (dm w) ∧
    ∀ n cr, crs w' !! n = Some cr → DpuName cr = n ∧ creatable cr.
Proof.
  intros Hw Hl H. apply tick_inv in H as (w1 & w2 & w3 & k & changed & w4 & w5 & H1 & H2 & H3 & H4 & H5 & H6 & ->).
  assert (good w1) as G1.
  { pose proof (updateManagedDpus_good l w Hl Hw) as G. unfold returns in H1. by rewrite H1 in G. }
  pose proof (keeps_returns _ _ _ _ _ (create_managers_good _ (snapshot_of w1 G1)) H2 G1) as G2.
  pose proof (keeps_returns _ _ _ _ _ (set_conditions_good now _ (snapshot_of w2 G2)) H3 G2) as G3.
  assert (status w1 = status w) as S1.
  { destruct (updateManagedDpus_run l w) as (_ & _ & w1' & E & _ & _ & Hn & Hi & _). unfold returns in H1.
    rewrite E in H1. injection H1 as <-. unfold status. by rewrite Hn, Hi. }
  pose proof (preserves_returns _ _ _ _ _ (create_managers_status _) H2) as S2.
  pose proof (preserves_returns _ _ _ _ _ (set_conditions_status _ _) H3) as S3.
  pose proof (preserves_returns _ _ _ _ _ updateNodeLabels_dm H5) as D4. simpl in D4.
  pose proof (preserves_returns _ _ _ _ _ updateNodeLabels_stored H5) as T4. simpl in T4.
  pose proof (preserves_returns _ _ _ _ _ (apply_loop_status _) H6) as S5.
  assert (status w3 = status w) as S by congruence. injection S as Hr Hn.
  assert (crs w4 = crs w3) as C4 by (unfold crs; by rewrite D4).
  destruct (apply_loop_frame (units ord w4) w4) as [C5 T5].
  { intros n m. unfold units. rewrite (Ho _ _), elem_of_map_to_list. intros Hm. unfold crs. by rewrite lookup_fmap, Hm. }
  unfold returns in H6. rewrite H6 in C5, T5. simpl in C5, T5.
  unfold status in S5. rewrite D4 in S5. injection S5 as R5 N5.
  assert (crs w5 = crs w3) as C by congruence. unfold returns in H4. rewrite <-C in H4.
  pose proof (crs_good _ G3) as Hc. rewrite <-C in Hc. rewrite T4 in T5.
  exists (api w3), k, changed. rewrite <-Hn.
  destruct changed; (split; [exact H4|split; [exact T5|split; [|split; [exact N5|exact Hc]]]]); [|done].
  by rewrite R5, Hr.
Qed.
End LoopLemmas.

Arguments crs {_ _ _ _} _.
Arguments units {_ _ _ _} _ _.

(** ** An API server that refuses new resources *)

Record refusing (K : Type) `{!KubeAPI K} : Prop := {
  ref_List (k : K) : ∃ k', k_ListDpus k = (k', Ok []);
  ref_Get n (k : K) : ∃ k' e, k_GetDpu n k = (k', GetNotFound e);
  ref_Create o (k : K) : ∃ k' e, k_CreateDpu o k = (k', Err e) }.
Lemma syncSingle_refused {K} `{!KubeAPI K} ord cr (k : K) : refusing K →
  ∃ k' o, syncSingleDpuCR ord cr k = (k', o) ∧ ∀ r, o = Ret r → ∃ e, r = Err e.
Proof.
  intros Href. unfold syncSingleDpuCR. destruct (ref_Get K Href (DpuName cr) k) as (k1 & e1 & H1).
  rewrite (bind_run _ _ _ _ _ (acts_run _ _ _ _ H1)). unfold try_bind at 1. unfold mbind at 1, M_bind at 1.
  destruct (setOwnerReference cr k1) as [k2 [[o|e]|]].
  - destruct (ref_Create K Href o k2) as (k3 & e3 & H3). unfold try_bind. rewrite (bind_run _ _ _ _ _ (acts_run _ _ _ _ H3)).
    eexists _, _. split; [reflexivity|]. intros r [= <-]. eauto.
  - eexists _, _. split; [reflexivity|]. intros r [= <-]. eauto.
  - by eexists _, _.
Qed.
Lemma SyncDpuCRs_refused {K} `{!KubeAPI K} ord node managed (k k' : K) r : refusing K →
  SyncDpuCRs ord node managed k = (k', Ret (Ok r)) → is_order ord → r = false.
Proof.
  intros Href H Ho. unfold SyncDpuCRs in H. destruct (ref_List K Href k) as (k1 & H1).
  rewrite (call_run _ _ _ _ _ _ (acts_run _ _ _ _ H1)) in H.
  assert (∀ l c k2, ∀ k3 b, sync_managed ord l c k2 = (k3, Ret b) → b = c) as Hm.
  { induction l as [|cr l IH]; intros c k2 k3 b; cbn [sync_managed]; [by intros [= _ <-]|].
    destruct (syncSingle_refused ord cr k2 Href) as (k4 & o & H4 & He).
    unfold mbind, M_bind. rewrite H4. destruct o as [x|]; [|done]. destruct (He x eq_refl) as [e ->]. apply IH. }
  apply bind_returns in H as (k2 & b & H2 & H). apply Hm in H2 as ->.
  apply bind_returns in H as (k3 & b & H3 & H). injection H as _ <-.
  assert (ord _ (existingCRMap node []) = []) as E by (apply Permutation_nil; rewrite (Ho _ _); unfold existingCRMap; simpl; by rewrite map_to_list_empty).
  rewrite E in H3. by injection H3 as _ <-.
Qed.

(** ** VF counts *)

Definition is_vf (x : string * string) : bool := has_prefix DpuConfigVFCountAnnotationPrefix x.1.
(** The annotation asks for [p] VFs. *)
Definition asks (x : string * string) (p : Z) : Prop := atoi x.2 = Some p ∧ (0 < p)%Z.
Lemma vf_values_dom l acc vals v : vf_values l acc = Ok vals →
  is_Some (vals !! v) ↔ is_Some (acc !! v) ∨ ∃ x p, x ∈ l ∧ is_vf x = true ∧ asks x p ∧ int32 p = v.
Proof.
  revert acc. induction l as [|[key value] l IH]; intros acc; cbn [vf_values].
  { intros [= ->]. split; [by left|]. intros [?|(x & p & Hx & _)]; [done|]. by apply elem_of_nil in Hx. }
  destruct (has_prefix DpuConfigVFCountAnnotationPrefix key) eqn:Ep; cbn [negb].
  - destruct (atoi value) as [q|] eqn:Eq; [|done]. destruct (q <=? 0)%Z eqn:Eq0; [done|].
    intros H%IH. rewrite H, lookup_insert_is_Some. split.
    + intros [[<-|[_ Ha]]|(x & p & Hx & Hr)].
      * right. exists (key, value), q. split; [by left|]. split; [done|]. split; [split; [done|lia]|done].
      * by left.
      * right. exists x, p. split; [by right|done].
    + intros [Ha|(x & p & [->|Hx]%elem_of_cons & Hv & [Hp Hp0] & Hi)].
      * left. destruct (decide (int32 q = v)); auto.
      * left. left. change (atoi value = Some p) in Hp. congruence.
      * right. by exists x, p.
  - intros H%IH. rewrite H. split; (intros [Ha|(x & p & Hx & Hv & Hr)]; [by left|right]).
    + exists x, p. split; [by right|done].
    + apply elem_of_cons in Hx as [->|Hx]; [unfold is_vf in Hv; cbn [fst] in Hv; congruence|]. by exists x, p.
Qed.
Lemma vf_values_total l acc :
  (∃ vals, vf_values l acc = Ok vals) ↔ ∀ x, x ∈ l → is_vf x = true → ∃ p, asks x p.
Proof.
  revert acc. induction l as [|[key value] l IH]; intros acc; cbn [vf_values].
  { split; [by intros _ x ?%elem_of_nil|]. intros _. by exists acc. }
  destruct (has_prefix DpuConfigVFCountAnnotationPrefix key) eqn:Ep; cbn [negb].
  - split.
    + destruct (atoi value) as [q|] eqn:Eq; [|by intros [? ?]]. destruct (q <=? 0)%Z eqn:Eq0; [by intros [? ?]|].
      intros H x [->|Hx]%elem_of_cons Hv; [exists q; split; [done|lia]|]. exact (proj1 (IH _) H x Hx Hv).
    + intros H. destruct (H (key, value)) as (q & Hq & Hq0); [by left|done|]. change (atoi value = Some q) in Hq. rewrite Hq.
      rewrite (proj2 (Z.leb_gt _ _)) by lia. apply IH. intros x Hx. apply H. by right.
  - rewrite IH. split; intros H x Hx Hv; [|apply H; [by right|done]].
    apply elem_of_cons in Hx as [->|Hx]; [unfold is_vf in Hv; cbn [fst] in Hv; congruence|by apply H].
Qed.

(** * Theorems *)

(** C7: one synchronisation against a healthy API server makes the cluster's resources
    those of the managed units: each of them exists with the unit's specification,
    labels and readiness (other labels of an existing one are kept), the node's
    other resources are gone, and those of other nodes are untouched; when it reports
    that nothing changed, nothing did. *)
Theorem SyncDpuCRs_refines {K} `{!KubeAPI K, !HealthyAPI K} ord node (managed : gmap string DataProcessingUnit) (k : K) :
  is_order ord →
  (∀ n cr, managed !! n = Some cr → DpuName cr = n ∧ creatable cr) →
  ∃ k' changed, SyncDpuCRs ord node managed k = (k', Ret (Ok changed)) ∧
    (∀ n, match managed !! n with
          | Some cr => ∃ new, stored k' !! n = Some new ∧ mirrors (stored k !! n) cr new
          | None => stored k' !! n = match stored k !! n with
                                     | Some c => if String.eqb (NodeName (DpuSpec_ c)) node then None else Some c
                                     | None => None
                                     end
          end) ∧
    (changed = false → stored k' = stored k).
Proof. apply SyncDpuCRs_run. Qed.

(** C27: taking over a detection: the managed units are then exactly the detected
    ones; a unit that was already managed is kept as it is, a new one starts without a
    manager, and each unit that is gone, and no other, is stopped, once: cancelled,
    closed, and waited for. *)
Theorem updateManagedDpus_spec {K D P Mg} `{!Runtime D P Mg} ord l (w : daemon_world K D P Mg) :
  is_order ord →
  ∃ w', updateManagedDpus ord l w = (w', Ret tt) ∧ api w' = api w ∧
    (∀ n, managedDpus (dm w') !! n =
       (λ d, default (new_managed d) (managedDpus (dm w) !! n)) <$> currentlyDetected l !! n) ∧
    ∃ gone, NoDup gone ∧ rt w' = foldl (λ x '(_, m), stopped m x) (rt w) gone ∧
      ∀ n m, (n, m) ∈ gone ↔ managedDpus (dm w) !! n = Some m ∧ n ∉ (DpuName ∘ det_CR) <$> l.
Proof.
  intros Ho. destruct (updateManagedDpus_run ord Ho l w) as (gone & Hg & w' & Hr & Ha & _ & _ & _ & Hrt & Hm).
  exists w'. do 3 (split; [done|]). exists gone. split; [rewrite Hg; apply NoDup_filter, NoDup_map_to_list|].
  split; [done|]. intros n m. rewrite Hg, list_elem_of_filter, elem_of_map_to_list. unfold is_gone. simpl.
  rewrite <-currentlyDetected_None. tauto.
Qed.


(** Against an API server that refuses to create resources (say, because their
    names are invalid), every pass that ends leaves the daemon ready, although no unit
    has a resource: the errors are logged and count as nothing to do. *)
Theorem ready_without_resources {K D P Mg} `{!KubeAPI K, !Runtime D P Mg} ord now l (w w' : daemon_world K D P Mg) :
  is_order ord → refusing K → tick ord now (Ok l) w = (w', Ret (Ok tt)) → isReady (dm w') = true.
Proof.
  intros Ho Href H. apply tick_inv in H as (w1 & w2 & w3 & k & changed & w4 & w5 & _ & _ & _ & H4 & _ & _ & ->).
  by apply SyncDpuCRs_refused in H4 as ->.
Qed.

(** A VF count is applied exactly when there is an annotation for one and all
    such annotations ask, with positive integers, for the same number modulo 2^32. *)
Theorem desiredVfCount_spec l v :
  desiredVfCountFromAnnotations l = Ok (Some v) ↔
  (∃ x, x ∈ l ∧ is_vf x = true) ∧ ∀ x, x ∈ l → is_vf x = true → ∃ p, asks x p ∧ int32 p = v.
Proof.
  unfold desiredVfCountFromAnnotations. pose proof (vf_values_total l ∅) as Ht.
  destruct (vf_values l ∅) as [vals|e] eqn:E.
  - pose proof (λ v, vf_values_dom l ∅ vals v E) as Hd. clear E. simpl.
    assert (∀ v, v ∈ (map_to_list vals).*1 ↔ ∃ x p, x ∈ l ∧ is_vf x = true ∧ asks x p ∧ int32 p = v) as Hk.
    { intros u. rewrite list_elem_of_fmap. specialize (Hd u). rewrite lookup_empty in Hd. split.
      - intros ([u' ks] & -> & H%elem_of_map_to_list). simpl in *. by destruct (proj1 Hd) as [[? [=]]|?]; [exists ks|].
      - intros H. destruct Hd as [_ [ks Hks]]; [by right|]. exists (u, ks). by rewrite elem_of_map_to_list. }
    pose proof (NoDup_fst_map_to_list vals) as Hn. pose proof (proj1 Ht (ex_intro _ vals eq_refl)) as Hall. clear Hd Ht.
    destruct (map_to_list vals).*1 as [|u [|u2 us]].
    + split; [done|]. intros [(x & Hx & Hv) _]. destruct (Hall x Hx Hv) as [p Hp].
      assert (int32 p ∈ []) as Hin by (apply Hk; eauto 10). by apply elem_of_nil in Hin.
    + split.
      * intros [= ->]. split; [destruct (proj1 (Hk v)) as (x & p & ? & ? & _); [by left|eauto]|].
        intros x Hx Hv. destruct (Hall x Hx Hv) as [p Hp]. exists p. split; [done|].
        apply list_elem_of_singleton, Hk. eauto 10.
      * intros [_ H]. destruct (proj1 (Hk u)) as (x & p & Hx & Hv & [Hp _] & <-); [by left|].
        destruct (H x Hx Hv) as (q & [Hq _] & <-). congruence.
    + split; [done|]. intros [_ H]. exfalso. apply NoDup_cons in Hn as [Hu _]. apply Hu.
      destruct (proj1 (Hk u)) as (x & p & Hx & Hv & [Hp _] & <-); [by left|].
      destruct (proj1 (Hk u2)) as (y & q & Hy & Hv' & [Hq _] & <-); [right; by left|].
      destruct (H x Hx Hv) as (p' & [Hp' _] & E1). destruct (H y Hy Hv') as (q' & [Hq' _] & E2).
      assert (int32 p = int32 q) as -> by congruence. by left.
  - split; [done|]. intros [_ H]. destruct (proj2 Ht) as [vals Hv]; [|done].
    intros x Hx Hv. destruct (H x Hx Hv) as (p & Hp & _). eauto.
Qed.
(** The number is cut to 32 bits after it was checked to be positive. *)
Lemma vf_count_wraps :
  desiredVfCountFromAnnotations [(DpuConfigVFCountAnnotationPrefix +:+ "config", "4294967296")] = Ok (Some 0%Z).
Proof. reflexivity. Qed.

(** * Witnesses *)
Module DaemonDemo.
Definition by_key : order := λ A m, map_to_list m.
Lemma by_key_order : is_order by_key.
Proof. by intros A m. Qed.

(** A server with a map of resources; whatever it is started with, a resource has the
    name it is filed under and valid annotations. *)
Definition named (k : gmap string DataProcessingUnit) : gmap string DataProcessingUnit :=
  map_imap (λ n c, if annotations_ok (DpuAnnotations c) then Some (c <| DpuName := n |>) else None) k.
Lemma named_lookup k n : named k !! n =
  k !! n ≫= λ c, if annotations_ok (DpuAnnotations c) then Some (c <| DpuName := n |>) else None.
Proof. unfold named. rewrite map_lookup_imap. by destruct (k !! n). Qed.
Lemma named_inv k n c : named k !! n = Some c → DpuName c = n ∧ annotations_ok (DpuAnnotations c) = true.
Proof.
  rewrite named_lookup. destruct (k !! n) as [x|]; simpl; [|done].
  destruct (annotations_ok (DpuAnnotations x)) eqn:E; [|done]. by intros [= <-].
Qed.
Lemma named_insert k c n : DpuName c = n → annotations_ok (DpuAnnotations c) = true → named (<[n := c]> k) = <[n := c]> (named k).
Proof.
  intros <- Ha. apply map_eq. intros n. rewrite named_lookup, !lookup_insert, named_lookup. case_decide; [|done].
  subst. simpl. rewrite Ha. by destruct c.
Qed.
Lemma named_delete k n : named (delete n k) = delete n (named k).
Proof. apply map_eq. intros m. rewrite named_lookup, !lookup_delete, named_lookup. by case_decide. Qed.
#[export] Instance server : KubeAPI (gmap string DataProcessingUnit) :=
  {| k_ListDpus k := (k, Ok (map_to_list (named k)).*2);
     k_GetDpu n k := (k, found (named k !! n));
     k_CreateDpu o k := (<[DpuName o := o <| DpuConditions := [] |>]> k, Ok o);
     k_UpdateDpu o k :=
       match named k !! DpuName o with
       | Some c =>
           if annotations_ok (DpuAnnotations o) then (<[DpuName o := o <| DpuConditions := DpuConditions c |>]> k, Ok o)
           else (k, Err (Text "invalid annotations"))
       | None => (k, Err (Text "not found"))
       end;
     k_UpdateDpuStatus o k :=
       match named k !! DpuName o with
       | Some c => (<[DpuName o := c <| DpuConditions := DpuConditions o |>]> k, Ok o)
       | None => (k, Err (Text "not found"))
       end;
     k_DeleteDpu o k := (delete (DpuName o) k, None);
     k_GetDpuOperatorConfig k := (k, None);
     k_SetControllerReference o := Ok (o <| DpuOwners := ["dpu-operator-config"] |>);
     k_GetNode _ k := (k, Ok ∅); k_UpdateNode _ _ k := (k, None) |}.
#[export] Instance server_healthy : HealthyAPI (gmap string DataProcessingUnit).
Proof.
  refine {| stored := named |}; simpl.
  - intros k n c H. by apply named_inv in H as [? _].
  - intros k n c H. by apply named_inv in H as [_ ?].
  - intros k. by eexists _, _.
  - intros n k. by exists k.
  - intros o k _ Ha _. eexists _, _. split; [done|]. split; [done|]. by apply named_insert.
  - intros o k ->. destruct (named k !! DpuName o); by eexists _, _.
  - intros o k c -> Ha. rewrite Ha. eexists _, _. split; [done|]. split; [done|]. by apply named_insert.
  - intros o k c Hc. rewrite Hc. apply named_inv in Hc as [H1 H2]. eexists _, _. split; [done|]. by apply named_insert.
  - intros o k c _. eexists. split; [done|]. apply named_delete.
  - intros k. by exists k.
  - intros o _. by eexists.
  - done.
  - done.
Defined.
(** Managers and plugins that always work; the state counts the calls. *)
#[export] Instance working : Runtime nat unit unit :=
  {| rt_createSideManager _ _ d := (S d, Ok tt); rt_go _ _ d := S d; rt_Cancel _ d := S d; rt_WaitDone _ d := S d;
     rt_Join _ d := S d; rt_Close _ d := S d; rt_IsInitialized _ _ := true; rt_CheckPing _ _ := true;
     rt_SetNumVfs _ n d := (S d, Ok n) |}.
Abbreviation dworld K := (daemon_world K nat unit unit).
Definition fresh {K} (k : K) : dworld K := mkDW k 0 (mkDaemon [] ∅ "node-1" false).
Definition units_of : list (Detected unit) := (λ u, mkDetected (CR u) tt) <$> DetectDemo.host_units.
(** A resource left behind by an earlier detection. *)
Definition stale : DataProcessingUnit := mkDpuCR "old-host" ∅ ∅ [] (mkDpuSpec "Intel IPU E2100" false "node-1") [].
Definition w0 : dworld (gmap string DataProcessingUnit) := fresh {["old-host" := stale]}.
Definition w1 := (tick by_key 1 (Ok units_of) w0).1.
Definition w2 := (tick by_key 2 (Ok units_of) w1).1.
Lemma ran1 : tick by_key 1 (Ok units_of) w0 = (w1, Ret (Ok tt)).
Proof. vm_compute. reflexivity. Qed.
Lemma ran2 : tick by_key 2 (Ok units_of) w1 = (w2, Ret (Ok tt)).
Proof. vm_compute. reflexivity. Qed.
Lemma not_ready1 : isReady (dm w1) = false.
Proof. vm_compute. reflexivity. Qed.
Lemma ready2 : isReady (dm w2) = true.
Proof. vm_compute. reflexivity. Qed.
Definition creatable_check (cr : DataProcessingUnit) : bool :=
  k8s_name_ok (DpuName cr) && bool_decide (DpuOwners cr = []) && annotations_ok (DpuAnnotations cr).
Lemma creatable_check_sound cr : creatable_check cr = true → creatable cr.
Proof. unfold creatable_check. rewrite !andb_true_iff, bool_decide_eq_true. unfold creatable. tauto. Qed.
Lemma units_creatable d : d ∈ units_of → creatable (det_CR d).
Proof.
  intros Hd. assert (forallb (λ d, creatable_check (det_CR d)) units_of = true) as H by (vm_compute; reflexivity).
  rewrite forallb_forall in H. by apply list_elem_of_In, H, creatable_check_sound in Hd.
Qed.
Lemma w1_units : units_ok (managedDpus (dm w1)).
Proof.
  assert (forallb (λ '(n, m), String.eqb (DpuName (DpuCR m)) n && creatable_check (DpuCR m)) (map_to_list (managedDpus (dm w1))) = true)
    as H by (vm_compute; reflexivity).
  intros n m Hm%elem_of_map_to_list%list_elem_of_In. rewrite forallb_forall in H. apply H in Hm.
  rewrite andb_true_iff in Hm. destruct Hm as [H1%String.eqb_eq H2%creatable_check_sound]. done.
Qed.
(** What the units of [w2] ask for. *)
Definition wanted : gmap string DataProcessingUnit := crs w2.
Lemma wanted_ok n cr : wanted !! n = Some cr → DpuName cr = n ∧ creatable cr.
Proof.
  assert (forallb (λ '(n, m), String.eqb (DpuName m) n && creatable_check m) (map_to_list wanted) = true) as H by (vm_compute; reflexivity).
  intros Hm%elem_of_map_to_list%list_elem_of_In. rewrite forallb_forall in H. apply H in Hm.
  rewrite andb_true_iff in Hm. destruct Hm as [H1%String.eqb_eq H2%creatable_check_sound]. done.
Qed.
(** A server that has nothing and takes nothing. *)
#[export] Instance closed : KubeAPI unit :=
  {| k_ListDpus k := (k, Ok []); k_GetDpu _ k := (k, GetNotFound (Text "not found"));
     k_CreateDpu _ k := (k, Err (Text "invalid name")); k_UpdateDpu _ k := (k, Err (Text ""));
     k_UpdateDpuStatus _ k := (k, Err (Text "")); k_DeleteDpu _ k := (k, None); k_GetDpuOperatorConfig k := (k, None);
     k_SetControllerReference o := Ok o; k_GetNode _ k := (k, Ok ∅); k_UpdateNode _ _ k := (k, None) |}.
Lemma closed_refusing : refusing unit.
Proof. split; intros; simpl; eauto. Qed.
Definition r1 := (tick by_key 1 (Ok units_of) (fresh tt)).1.
Lemma ran_closed : tick by_key 1 (Ok units_of) (fresh tt) = (r1, Ret (Ok tt)).
Proof. vm_compute. reflexivity. Qed.
End DaemonDemo.
Import DaemonDemo.
Lemma SyncDpuCRs_refines_witness :
  ∃ k' changed, SyncDpuCRs by_key "node-1" wanted (api w0) = (k', Ret (Ok changed)) ∧ stored k' !! "old-host" = None.
Proof.
  destruct (SyncDpuCRs_refines by_key "node-1" wanted (api w0) by_key_order wanted_ok) as (k' & c & H & Hn & _).
  exists k', c. split; [exact H|]. exact (Hn "old-host").
Defined.
Lemma updateManagedDpus_spec_witness :
  ∃ w', updateManagedDpus by_key [] w2 = (w', Ret tt) ∧ ∀ n, managedDpus (dm w') !! n = None.
Proof.
  destruct (updateManagedDpus_spec by_key [] w2 by_key_order) as (w' & H & _ & Hn & _).
  exists w'. split; [exact H|]. intros n. rewrite Hn. reflexivity.
Defined.
Lemma ready_without_resources_witness : isReady (dm r1) = true.
Proof. exact (ready_without_resources by_key 1 units_of (fresh tt) r1 by_key_order closed_refusing ran_closed). Defined.
