(* ===== verification/Encode.v ===== *)
(** Encodings of the Go standard library that the controllers depend on:
    the text that encoding/json writes for strings, maps, lists and structs,
    crypto/sha256, and encoding/hex.  Strings are byte strings; the JSON encoder is
    that of valid UTF-8 text below 128. *)
From S2P Require Import Prelude.
#[local] Open Scope stdpp_scope.

(** * encoding/hex *)

Definition hex_digit (z : Z) : ascii := Ascii.ascii_of_nat (Z.to_nat (if (z <? 10)%Z then 48 + z else 87 + z)).
Definition hex_byte (z : Z) : string := String (hex_digit (z / 16)) (String (hex_digit (z mod 16)) "").
Definition EncodeToString (l : list Z) : string := foldr (λ z s, hex_byte z +:+ s) "" l.

(** * encoding/json *)

(** The escapes of a string: HTML characters are escaped too. *)
Definition backslash : ascii := Ascii.ascii_of_nat 92.
Definition json_char (c : ascii) : string :=
  let n := Ascii.nat_of_ascii c in
  let esc d := String backslash (String d "") in
  if Ascii.eqb c (Ascii.ascii_of_nat 34) || Ascii.eqb c backslash then esc c
  else if (n =? 8)%nat then esc "b"%char else if (n =? 12)%nat then esc "f"%char
  else if (n =? 10)%nat then esc "n"%char else if (n =? 13)%nat then esc "r"%char else if (n =? 9)%nat then esc "t"%char
  else if (n <? 32)%nat || Ascii.eqb c "<" || Ascii.eqb c ">" || Ascii.eqb c "&"
  then String backslash ("u00" +:+ hex_byte (Z.of_nat n))
  else String c "".
Fixpoint json_chars (s : string) : string :=
  match s with EmptyString => "" | String c s => json_char c +:+ json_chars s end.
Definition json_string (s : string) : string := quote (json_chars s).
Definition json_list (l : list string) : string := "[" +:+ join "," l +:+ "]".
(** A struct: its fields with their encodings, [None] for one that [omitempty] omits. *)
Definition json_struct (fields : list (string * option string)) : string :=
  "{" +:+ join "," (omap (λ '(k, v), (λ v, json_string k +:+ ":" +:+ v) <$> v) fields) +:+ "}".
(** A map: its keys are sorted. *)
Definition json_map {A} (f : A → string) (m : gmap string A) : string :=
  json_struct ((λ '(k, v), (k, Some (f v))) <$> sort_by fst (map_to_list m)).
Definition omitempty {A} (l : list A) (enc : string) : option string := match l with [] => None | _ => Some enc end.

Example json_ex : json_struct [("a", Some (json_string "x<y")); ("b", None); ("c", Some (json_list ["1"; "2"]))]
  = "{" +:+ quote "a" +:+ ":" +:+ quote ("x" +:+ String backslash "u003cy") +:+ "," +:+ quote "c" +:+ ":[1,2]}".
Proof. reflexivity. Qed.

(** * crypto/sha256 *)

Section Sha256.
#[local] Open Scope Z_scope.

Definition w32 (z : Z) : Z := Z.land z (2 ^ 32 - 1).
Definition rotr (x n : Z) : Z := Z.lor (Z.shiftr x n) (w32 (Z.shiftl x (32 - n))).
Definition xor3 (a b c : Z) : Z := Z.lxor a (Z.lxor b c).
Definition sha_ch (x y z : Z) : Z := Z.lxor (Z.land x y) (Z.land (Z.lxor x (2 ^ 32 - 1)) z).
Definition sha_maj (x y z : Z) : Z := xor3 (Z.land x y) (Z.land x z) (Z.land y z).
(** The constants of FIPS 180-4: 32 bits of the fractional parts of the cube roots of the
    first 64 primes, and of the square roots of the first 8. *)
Fixpoint cube_root (bits : nat) (n acc : Z) : Z :=
  match bits with
  | O => acc
  | S bits => let r := acc + 2 ^ Z.of_nat bits in cube_root bits n (if r * r * r <=? n then r else acc)
  end.
Definition is_prime (n : Z) : bool :=
  forallb (λ d, negb (n mod d =? 0)) (Z.of_nat <$> seq 2 (Z.to_nat (Z.sqrt n) - 1)).
Definition primes : list Z := filter is_prime (Z.of_nat <$> seq 2 310).
Definition sha_k : list Z := Eval vm_compute in (λ p, w32 (cube_root 36 (p * 2 ^ 96) 0)) <$> primes.
Definition sha_init : list Z := Eval vm_compute in (λ p, w32 (Z.sqrt (p * 2 ^ 64))) <$> take 8 primes.

(** Big-endian: the value of bytes, and the [n] low bytes of a value. *)
Definition be_val (l : list Z) : Z := foldl (λ a b, a * 256 + b) 0 l.
Definition be_bytes (n : nat) (z : Z) : list Z :=
  (λ i, Z.shiftr z (8 * Z.of_nat i) mod 256) <$> reverse (seq 0 n).

Fixpoint pieces (fuel n : nat) (l : list Z) : list (list Z) :=
  match fuel, l with S fuel, _ :: _ => take n l :: pieces fuel n (drop n l) | _, _ => [] end.

(** The message schedule, latest word first. *)
Fixpoint schedule (n : nat) (ws : list Z) : list Z :=
  match n with
  | O => ws
  | S n =>
      let at_ i := nth i ws 0 in
      let s0 := xor3 (rotr (at_ 14%nat) 7) (rotr (at_ 14%nat) 18) (Z.shiftr (at_ 14%nat) 3) in
      let s1 := xor3 (rotr (at_ 1%nat) 17) (rotr (at_ 1%nat) 19) (Z.shiftr (at_ 1%nat) 10) in
      schedule n (w32 (at_ 15%nat + s0 + at_ 6%nat + s1) :: ws)
  end.
Definition sha_round (st : list Z) (kw : Z * Z) : list Z :=
  match st with
  | [a; b; c; d; e; f; g; h] =>
      let t1 := h + xor3 (rotr e 6) (rotr e 11) (rotr e 25) + sha_ch e f g + kw.1 + kw.2 in
      let t2 := xor3 (rotr a 2) (rotr a 13) (rotr a 22) + sha_maj a b c in
      [w32 (t1 + t2); a; b; c; w32 (d + t1); e; f; g]
  | _ => st
  end.
Definition sha_block (st : list Z) (block : list Z) : list Z :=
  let ws := reverse (schedule 48 (reverse (be_val <$> pieces 16 4 block))) in
  zip_with (λ x y, w32 (x + y)) st (foldl sha_round st (zip sha_k ws)).
Definition sha_pad (l : list Z) : list Z :=
  let n := Z.of_nat (length l) in
  l ++ [128] ++ replicate (Z.to_nat ((55 - n) mod 64)) 0 ++ be_bytes 8 (8 * n).
Definition Sum256 (l : list Z) : list Z :=
  let padded := sha_pad l in
  foldl sha_block sha_init (pieces (length padded) 64 padded) ≫= be_bytes 4.
End Sha256.

Definition bytes_of (s : string) : list Z := (λ c, Z.of_nat (Ascii.nat_of_ascii c)) <$> String.list_ascii_of_string s.

Example sha_abc : EncodeToString (Sum256 (bytes_of "abc")) = "ba7816bf8f01cfea414140de5dae2223b00361a396177a9cb410ff61f20015ad".
Proof. vm_compute. reflexivity. Qed.
Example sha_two_blocks :
  EncodeToString (Sum256 (bytes_of "abcdbcdecdefdefgefghfghighijhijkijkljklmklmnlmnomnopnopq"))
  = "248d6a61d20638b8e5c026930c3e6039a33ce45964ff2167f6ecedd419db06c1".
Proof. vm_compute. reflexivity. Qed.

(** * Lemmas *)

Lemma sha_round_length st kw : length (sha_round st kw) = length st.
Proof. by destruct st as [|? [|? [|? [|? [|? [|? [|? [|? [|??]]]]]]]]]. Qed.
Lemma sha_block_length st block : length (sha_block st block) = length st.
Proof.
  unfold sha_block. rewrite length_zip_with.
  assert (∀ l s, length (foldl sha_round s l) = length s) as ->; [|lia].
  induction l as [|kw l IH]; intros s; simpl; [done|]. by rewrite IH, sha_round_length.
Qed.
Lemma Sum256_length l : length (Sum256 l) = 32%nat.
Proof.
  unfold Sum256. generalize (pieces (length (sha_pad l)) 64 (sha_pad l)). intros bs.
  assert (∀ st, length (foldl sha_block st bs) = length st) as H.
  { induction bs as [|b bs IH]; intros st; simpl; [done|]. by rewrite IH, sha_block_length. }
  specialize (H sha_init). revert H. generalize (foldl sha_block sha_init bs). intros st H.
  by do 9 (destruct st as [|? st]; try done).
Qed.
Lemma EncodeToString_length l : String.length (EncodeToString l) = (2 * length l)%nat.
Proof. induction l as [|z l IH]; simpl; [done|]. rewrite IH. lia. Qed.
Lemma hex_hash_length l : String.length (EncodeToString (Sum256 l)) = 64%nat.
Proof. by rewrite EncodeToString_length, Sum256_length. Qed.
