(* ===== verification/Controller.v ===== *)
(** What the reconcilers share: results of a reconciliation, the error idiom of a
    function that returns more than an error, owner references and finalizers
    (sigs.k8s.io/controller-runtime/pkg/controller/controllerutil), and what it means
    for repeated steps to reach a state. *)
From S2P Require Import Prelude Plugin GoMonad Kube.
#[local] Open Scope stdpp_scope.

(** [ctrl.Result], delays in seconds, and the error returned with it. *)
Record ctrl_result := mkResult { Requeue : bool; RequeueAfter : Z }.
#[export] Instance ctrl_result_eq_dec : EqDecision ctrl_result.
Proof. solve_decision. Defined.
Definition Reconciled : Type := ctrl_result * option error.
Definition no_requeue : ctrl_result := mkResult false 0.
(** [return ctrl.Result{}, nil], [return ctrl.Result{}, err] and [return ctrl.Result{RequeueAfter: t}, nil]. *)
Definition finished : Reconciled := (no_requeue, None).
Definition failed (e : error) : Reconciled := (no_requeue, Some e).
Definition requeue_after (t : Z) : Reconciled := (mkResult false t, None).

(** [x, err := f(); if err != nil { return h(err) }; k], for a function that returns
    anything. *)
Definition try_or {W A R} (f : M W (result A)) (h : error → R) (k : A → M W R) : M W R :=
  r ← f; match r with Ok a => k a | Err e => mret (h e) end.
Notation "'try' x ':=' f 'or' h 'in' k" := (try_or f h (λ x, k))
  (at level 10, x pattern, f at level 200, h at level 200, k at level 200) : go_scope.
Lemma try_run {W A R} (f : M W (result A)) (h : error → R) k w w' a :
  f w = (w', Ret (Ok a)) → try_or f h k w = k a w'.
Proof. intros H. unfold try_or. by rewrite (bind_run _ _ _ _ _ H). Qed.
Lemma try_fails {W A R} (f : M W (result A)) (h : error → R) k w w' e :
  f w = (w', Ret (Err e)) → try_or f h k w = (w', Ret (h e)).
Proof. intros H. unfold try_or. by rewrite (bind_run _ _ _ _ _ H). Qed.
(** * Owner references *)

Record OwnerReference := mkOwnerRef {
  APIVersion : string; OwnerKind : string; OwnerName : string; OwnerUID : string;
  IsController : bool; BlockOwnerDeletion : bool }.
#[export] Instance OwnerReference_eq_dec : EqDecision OwnerReference.
Proof. solve_decision. Defined.
(** The owner: its kind (from the scheme), namespace ([""] when cluster-scoped), name and UID. *)
Record Owner := mkOwner { own_APIVersion : string; own_Kind : string; own_Namespace : string; own_Name : string; own_UID : string }.

(** [schema.ParseGroupVersion]: the group; [None] when it does not parse. *)
Definition parse_group (apiVersion : string) : option string :=
  if String.eqb apiVersion "" || String.eqb apiVersion "/" then Some "" else
  match split_char "/" apiVersion with
  | [_] => Some ""
  | [g; _] => Some g
  | _ => None
  end.
Definition referSameObject (a b : OwnerReference) : bool :=
  match parse_group (APIVersion a), parse_group (APIVersion b) with
  | Some g, Some g' => String.eqb g g' && String.eqb (OwnerKind a) (OwnerKind b) && String.eqb (OwnerName a) (OwnerName b)
  | _, _ => false
  end.
Fixpoint upsertOwnerRef (ref : OwnerReference) (owners : list OwnerReference) : list OwnerReference :=
  match owners with
  | [] => [ref]
  | o :: owners => if referSameObject o ref then ref :: owners else o :: upsertOwnerRef ref owners
  end.
Definition validateOwner (ownerNs objNs : string) : result unit :=
  if String.eqb ownerNs "" then Ok tt
  else if String.eqb objNs "" then
    Err (Text ("cluster-scoped resource must not have a namespace-scoped owner, owner's namespace " +:+ ownerNs))
  else if String.eqb ownerNs objNs then Ok tt
  else Err (Text ("cross-namespace owner references are disallowed, owner's namespace " +:+ ownerNs
                  +:+ ", obj's namespace " +:+ objNs)).
Definition controller_ref (o : Owner) : OwnerReference :=
  mkOwnerRef (own_APIVersion o) (own_Kind o) (own_Name o) (own_UID o) true true.
(** On the owners of an object in namespace [objNs]. *)
Definition SetControllerReference (o : Owner) (objNs : string) (owners : list OwnerReference) : result (list OwnerReference) :=
  let? _ := validateOwner (own_Namespace o) objNs in
  let ref := controller_ref o in
  match find IsController owners with
  | Some existing =>
      if referSameObject existing ref then Ok (upsertOwnerRef ref owners)
      else Err (Text ("Object is already owned by another " +:+ OwnerKind existing +:+ " controller " +:+ OwnerName existing))
  | None => Ok (upsertOwnerRef ref owners)
  end.

(** An object without owners in its owner's namespace, or with a cluster-scoped owner. *)
Lemma SetControllerReference_fresh o ns :
  own_Namespace o = "" ∨ own_Namespace o = ns → SetControllerReference o ns [] = Ok [controller_ref o].
Proof.
  unfold SetControllerReference, validateOwner. intros [->| <-]; [done|].
  destruct (String.eqb (own_Namespace o) ""); simpl; [done|]. by rewrite String.eqb_refl.
Qed.
Lemma SetControllerReference_cross o ns owners :
  own_Namespace o ≠ "" → ns ≠ own_Namespace o → is_ok (SetControllerReference o ns owners) = false.
Proof.
  unfold SetControllerReference, validateOwner. intros Ho Hn.
  destruct (String.eqb_spec (own_Namespace o) ""); [done|]. destruct (String.eqb_spec ns ""); [done|].
  by destruct (String.eqb_spec (own_Namespace o) ns); [congruence|].
Qed.

(** * Finalizers *)

Definition ContainsFinalizer (f : string) (fs : list string) : bool := existsb (String.eqb f) fs.
Definition AddFinalizer (f : string) (fs : list string) : list string :=
  if ContainsFinalizer f fs then fs else fs ++ [f].
Definition RemoveFinalizer (f : string) (fs : list string) : list string := filter (λ g, negb (String.eqb g f)) fs.

Lemma ContainsFinalizer_spec f fs : ContainsFinalizer f fs = true ↔ f ∈ fs.
Proof.
  unfold ContainsFinalizer. rewrite existsb_exists. split.
  - by intros (g & Hg%list_elem_of_In & ->%String.eqb_eq).
  - intros H%list_elem_of_In. exists f. by rewrite String.eqb_refl.
Qed.
Lemma RemoveFinalizer_spec f g fs : g ∈ RemoveFinalizer f fs ↔ g ∈ fs ∧ g ≠ f.
Proof.
  unfold RemoveFinalizer. rewrite list_elem_of_filter, negb_True. split.
  - intros [H Hg]. split; [done|]. intros ->. apply H. by rewrite String.eqb_refl.
  - intros [Hg Hne]. split; [|done]. rewrite (proj2 (String.eqb_neq g f) Hne). by intros [].
Qed.

(** * Reaching a state *)

(** Whatever the steps do, and they can always be taken, a state with [P] is reached. *)
Inductive eventually {S} (step : S → S → Prop) (P : S → Prop) (s : S) : Prop :=
  | eventually_now : P s → eventually step P s
  | eventually_later : (∃ s', step s s') → (∀ s', step s s' → eventually step P s') → eventually step P s.
Lemma eventually_measure {S} (step : S → S → Prop) (P Inv : S → Prop) (m : S → nat) :
  (∀ s, Inv s → ∃ s', step s s') →
  (∀ s s', Inv s → step s s' → P s' ∨ (Inv s' ∧ (m s' < m s)%nat)) →
  ∀ s, Inv s → eventually step P s.
Proof.
  intros Hex Hdec s. remember (m s) as n eqn:Hn. revert s Hn. induction n as [n IH] using lt_wf_ind. intros s -> Hs.
  apply eventually_later; [by apply Hex|]. intros s' Hs'. destruct (Hdec s s' Hs Hs') as [H|[Hi Hm]]; [by apply eventually_now|].
  by apply (IH (m s')).
Qed.
