(* ===== verification/Pods.v ===== *)
(** Pods and service function chains (api/v1/servicefunctionchain_types.go, the pod
    fields of k8s.io/api/core/v1 that the operator sets), and the API server as the two
    service-function-chain reconcilers use it: the calls (class [SfcAPI]) and what a
    healthy server and kubelet do (class [HealthyPods]). *)
From S2P Require Import Prelude Plugin GoMonad Platform Kube Encode Controller.
#[local] Open Scope stdpp_scope.

Record Container := mkContainer {
  CName : string; CImage : string; CPorts : list (string * Z);
  CRequests : gmap string Z; CLimits : gmap string Z;
  CPrivileged : bool; CCapDrop : list string; CCapAdd : list string }.
Record PodSpec := mkPodSpec { NodeSelector : gmap string string; Containers : list Container }.
(** [Terminating]: the deletion timestamp is set. *)
Record Pod := mkPod {
  PodName : string; PodNamespace : string; PodLabels : gmap string string; PodAnnotations : gmap string string;
  PodOwners : list OwnerReference; PodSpec_ : PodSpec; Terminating : bool }.
#[export] Instance Pod_eta : Eta Pod :=
  λ p, mkPod (PodName p) (PodNamespace p) (PodLabels p) (PodAnnotations p) (PodOwners p) (PodSpec_ p) (Terminating p).

Record DpuResourceRequirements := mkDpuResources { Requests : Z; Limits : Z }.
Record NetworkFunction := mkNF {
  NFName : string; NFImage : string; Networks : list string; DpuResources : option DpuResourceRequirements }.
Record ServiceFunctionChain := mkSfc {
  SfcName : string; SfcNamespace : string; SfcUID : string;
  SfcNodeSelector : gmap string string; NetworkFunctions : list NetworkFunction }.
Definition sfc_owner (s : ServiceFunctionChain) : Owner :=
  mkOwner "config.openshift.io/v1" "ServiceFunctionChain" (SfcNamespace s) (SfcName s) (SfcUID s).

(** Namespace and name. *)
Abbreviation key := (string * string)%type.
Definition pod_key (p : Pod) : key := (PodNamespace p, PodName p).

Class SfcAPI (K : Type) := {
  s_GetSfc : key → K → K * get_result ServiceFunctionChain;
  (** the [ResourceName] of the DpuOperatorConfig *)
  s_GetResourceName : K → K * get_result string;
  (** the labels of a node *)
  s_GetNode : string → K → K * get_result (gmap string string);
  (** the pods of a namespace with a label *)
  s_ListPods : string → string * string → K → K * result (list Pod);
  s_GetPod : key → K → K * get_result Pod;
  s_CreatePod : Pod → K → K * option error;
  s_UpdatePod : Pod → K → K * option error;
  s_DeletePod : Pod → K → K * get_result unit }.

(** * The pod specification as JSON

    [resource.Quantity] prints a positive number of at most 32 bits with the largest of
    the suffixes k, M, G that divides it. *)
Definition quantity (z : Z) : string :=
  if (z mod 1000000000 =? 0)%Z && negb (z =? 0)%Z then itoa (z / 1000000000) +:+ "G"
  else if (z mod 1000000 =? 0)%Z && negb (z =? 0)%Z then itoa (z / 1000000) +:+ "M"
  else if (z mod 1000 =? 0)%Z && negb (z =? 0)%Z then itoa (z / 1000) +:+ "k"
  else itoa z.
Definition json_quantities (m : gmap string Z) : option string :=
  omitempty (map_to_list m) (json_map (λ z, json_string (quantity z)) m).
Definition json_port (p : string * Z) : string :=
  json_struct [("name", omitempty (String.list_ascii_of_string p.1) (json_string p.1)); ("containerPort", Some (itoa p.2))].
Definition json_container (c : Container) : string :=
  json_struct [
    ("name", Some (json_string (CName c)));
    ("image", omitempty (String.list_ascii_of_string (CImage c)) (json_string (CImage c)));
    ("ports", omitempty (CPorts c) (json_list (json_port <$> CPorts c)));
    ("resources", Some (json_struct [("limits", json_quantities (CLimits c)); ("requests", json_quantities (CRequests c))]));
    ("securityContext", Some (json_struct [
      ("capabilities", Some (json_struct [
         ("add", omitempty (CCapAdd c) (json_list (json_string <$> CCapAdd c)));
         ("drop", omitempty (CCapDrop c) (json_list (json_string <$> CCapDrop c)))]));
      ("privileged", Some (if CPrivileged c then "true" else "false"))]))].
Definition json_podspec (s : PodSpec) : string :=
  json_struct [
    ("containers", Some (json_list (json_container <$> Containers s)));
    ("nodeSelector", omitempty (map_to_list (NodeSelector s)) (json_map json_string (NodeSelector s)))].

(** * What a server accepts

    A pod's name, its label values, the names of its containers, and the requests and
    limits of extended resources, which must be equal. *)
Definition container_ok (c : Container) : bool :=
  (String.length (CName c) <=? 63)%nat && label_ok (CName c) && bool_decide (CRequests c = CLimits c).
Definition pod_valid (p : Pod) : bool :=
  k8s_name_ok (PodName p)
  && forallb (λ kv, label_value_ok kv.2) (map_to_list (PodLabels p))
  && forallb container_ok (Containers (PodSpec_ p)).

(** * A healthy server

    What the server stores of a pod it creates: admission may add labels, annotations
    and defaults. *)
Definition admitted (sent stored : Pod) : Prop :=
  pod_key stored = pod_key sent ∧ Terminating stored = Terminating sent ∧
  PodLabels sent ⊆ PodLabels stored ∧ PodAnnotations sent ⊆ PodAnnotations stored.
Definition remove_terminating (m : gmap key Pod) : gmap key Pod := filter (λ kp, Terminating kp.2 = false) m.

(** A pod is gone at once when it is deleted, or is marked as terminating and goes when
    its kubelet has stopped it ([reap]). *)
Class HealthyPods (K : Type) `{!SfcAPI K} := {
  chains : K → gmap key ServiceFunctionChain;
  pods : K → gmap key Pod;
  resource_setting : K → option string;
  node_labels : K → gmap string (gmap string string);
  reap : K → K;
  law_pod_key k n p : pods k !! n = Some p → pod_key p = n;
  law_chain_key k n s : chains k !! n = Some s → (SfcNamespace s, SfcName s) = n;
  law_GetSfc n k : s_GetSfc n k = (k, found (chains k !! n));
  law_GetResourceName k : s_GetResourceName k = (k, found (resource_setting k));
  law_GetNode n k : s_GetNode n k = (k, found (node_labels k !! n));
  law_ListPods ns l k : ∃ ps, s_ListPods ns l k = (k, Ok ps) ∧ NoDup ps ∧
    ∀ p, p ∈ ps ↔ pods k !! pod_key p = Some p ∧ PodNamespace p = ns ∧ PodLabels p !! l.1 = Some l.2;
  law_GetPod n k : s_GetPod n k = (k, found (pods k !! n));
  law_CreatePod p k : pod_valid p = true → pods k !! pod_key p = None →
    ∃ k' p', s_CreatePod p k = (k', None) ∧ admitted p p' ∧ pods k' = <[pod_key p := p']> (pods k) ∧
      chains k' = chains k ∧ resource_setting k' = resource_setting k;
  law_UpdatePod p k old : pods k !! pod_key p = Some old → Terminating p = Terminating old →
    PodSpec_ p = PodSpec_ old →
    ∃ k', s_UpdatePod p k = (k', None) ∧ pods k' = <[pod_key p := p]> (pods k) ∧
      chains k' = chains k ∧ resource_setting k' = resource_setting k;
  law_DeletePod p k : pods k !! pod_key p = Some p →
    ∃ k', s_DeletePod p k = (k', GetFound tt) ∧
      (pods k' = delete (pod_key p) (pods k) ∨ pods k' = <[pod_key p := p <| Terminating := true |>]> (pods k)) ∧
      chains k' = chains k ∧ resource_setting k' = resource_setting k;
  law_reap k : pods (reap k) = remove_terminating (pods k) ∧ chains (reap k) = chains k ∧
    resource_setting (reap k) = resource_setting k }.
