(* ===== verification/SfcController.v ===== *)
(** The operator's service-function-chain controller,
    internal/controller/servicefunctionchain_controller.go: it keeps one pod per network
    function of a chain, in the chain's namespace, and recreates a pod whose
    specification changed, which it notices by a hash in an annotation. *)
From S2P Require Import Prelude Plugin GoMonad Platform Kube Encode Controller Pods.
#[local] Open Scope stdpp_scope.

Definition sfcLabelKey : string := "dpu.config.openshift.io/sfc".
Definition sfcFunctionLabel : string := "dpu.config.openshift.io/network-function".
Definition sfcSpecHashKey : string := "dpu.config.openshift.io/pod-spec-hash".
Definition sfcNetworksAnnoKey : string := "k8s.v1.cni.cncf.io/networks".
Definition nodeSideLabelKey : string := "dpu.config.openshift.io/dpuside".
Definition defaultDpuNAD : string := "dpunfcni-conf".
Definition defaultHostNAD : string := "default-sriov-net".
Definition defaultDpuResource : string := "openshift.io/dpu".

(** * The desired pods *)

Definition side_networks (side : string) : option (list string) :=
  let s := to_lower side in
  if String.eqb s "dpu" then Some [defaultDpuNAD]
  else if String.eqb s "dpu-host" || String.eqb s "host" then Some [defaultHostNAD]
  else None.
Definition defaultNetworksForNodeSelector (nodeSelector : gmap string string) : list string :=
  match nodeSelector !! nodeSideLabelKey ≫= side_networks with
  | Some nets => nets
  | None =>
      match nodeSelector !! "dpu" with
      | Some v => if equal_fold v "true" then [defaultDpuNAD] else [defaultHostNAD]
      | None => [defaultHostNAD]
      end
  end.
Definition dpu_count (n : option Z) : Z :=
  match n with Some n => if (0 <? n)%Z then n else 2 | None => 2 end.
Definition networkFunctionPod (sfc : ServiceFunctionChain) (nf : NetworkFunction) (resourceName : string) : Pod :=
  let podName := SfcName sfc +:+ "-" +:+ NFName nf in
  let networks := match Networks nf with
                  | [] => defaultNetworksForNodeSelector (SfcNodeSelector sfc)
                  | nets => nets
                  end in
  mkPod podName (SfcNamespace sfc)
    {[ sfcLabelKey := SfcName sfc; sfcFunctionLabel := NFName nf ]}
    {[ sfcNetworksAnnoKey := join ", " networks ]} []
    (mkPodSpec (SfcNodeSelector sfc)
       [mkContainer podName (NFImage nf) [("web", 8080%Z)]
          {[ resourceName := dpu_count (Requests <$> DpuResources nf) ]}
          {[ resourceName := dpu_count (Limits <$> DpuResources nf) ]}
          true ["ALL"] ["NET_RAW"; "NET_ADMIN"]]) false.

(** The hash of the specification and the networks; [json.Marshal] does not fail on them. *)
Definition fingerprint (p : Pod) : string :=
  json_struct [("spec", Some (json_podspec (PodSpec_ p)));
               ("networks", Some (json_string (default "" (PodAnnotations p !! sfcNetworksAnnoKey))))].
Definition setPodSpecHash (p : Pod) : Pod :=
  p <| PodAnnotations := <[sfcSpecHashKey := EncodeToString (Sum256 (bytes_of (fingerprint p)))]> (PodAnnotations p) |>.

Definition desired_pod (sfc : ServiceFunctionChain) (resourceName : string) (nf : NetworkFunction) : result Pod :=
  let pod := networkFunctionPod sfc nf resourceName in
  rmap (λ owners, setPodSpecHash (pod <| PodOwners := owners |>))
    (SetControllerReference (sfc_owner sfc) (PodNamespace pod) (PodOwners pod)).
(** A later function takes the place of an earlier one with the same pod name. *)
Fixpoint desired_pods (sfc : ServiceFunctionChain) (resourceName : string) (nfs : list NetworkFunction)
    (pods : gmap string Pod) : result (gmap string Pod) :=
  match nfs with
  | [] => Ok pods
  | nf :: nfs =>
      let? pod := desired_pod sfc resourceName nf in
      desired_pods sfc resourceName nfs (<[PodName pod := pod]> pods)
  end.

(** * Reconciliation *)

Section Reconcile.
Context {K : Type} `{!SfcAPI K} (ord : order).
Abbreviation KM := (M K).

Definition resourceNameForSFC : KM string :=
  r ← acts s_GetResourceName;
  mret (match r with
        | GetFound n => if String.eqb n "" then defaultDpuResource else n
        | _ => defaultDpuResource
        end).

(** The error of a deletion, and the one left when a missing object is fine. *)
Definition delete_err (r : get_result unit) : option error :=
  match r with GetFound _ => None | GetNotFound e | GetError e => Some e end.
Definition ignore_missing (r : get_result unit) : result unit :=
  match r with GetError e => Err e | _ => Ok tt end.

Definition reconcilePod (desired : Pod) : KM (bool * option error) :=
  cur ← acts (s_GetPod (pod_key desired));
  match cur with
  | GetNotFound _ => e ← acts (s_CreatePod desired); mret (false, e)
  | GetError e => mret (false, Some e)
  | GetFound existing =>
      let desiredHash := default "" (PodAnnotations desired !! sfcSpecHashKey) in
      if String.eqb desiredHash "" then mret (false, Some (Text ("missing desired pod spec hash for " +:+ PodName desired)))
      else if negb (String.eqb (default "" (PodAnnotations existing !! sfcSpecHashKey)) desiredHash)
      then r ← acts (s_DeletePod existing); mret (true, delete_err r)
      else
        let '(labels, updated) := merge_loop (ord _ (PodLabels desired)) (PodLabels existing) false in
        let '(annotations, updated) := merge_loop (ord _ (PodAnnotations desired)) (PodAnnotations existing) updated in
        let existing := existing <| PodLabels := labels |> <| PodAnnotations := annotations |> in
        if updated : bool then e ← acts (s_UpdatePod existing); mret (false, e)
        else mret (false, None)
  end.

Fixpoint delete_stale (desired : gmap string Pod) (existing : list Pod) : KM (result unit) :=
  match existing with
  | [] => ok
  | p :: existing =>
      match desired !! PodName p with
      | Some _ => delete_stale desired existing
      | None =>
          r ← acts (s_DeletePod p);
          match ignore_missing r with
          | Err e => mret (Err e)
          | Ok _ => delete_stale desired existing
          end
      end
  end.
Fixpoint reconcile_pods (desired : list (string * Pod)) : KM Reconciled :=
  match desired with
  | [] => mret finished
  | (_, pod) :: desired =>
      r ← reconcilePod pod;
      match r with
      | (_, Some e) => mret (failed e)
      | (true, None) => mret (requeue_after 2)
      | (false, None) => reconcile_pods desired
      end
  end.
Definition ReconcileChain (req : key) : KM Reconciled :=
  r ← acts (s_GetSfc req);
  match r with
  | GetNotFound _ => mret finished
  | GetError e => mret (failed e)
  | GetFound sfc =>
      resourceName ← resourceNameForSFC;
      match desired_pods sfc resourceName (NetworkFunctions sfc) ∅ with
      | Err e => mret (failed e)
      | Ok desired =>
          try existing := acts (s_ListPods (SfcNamespace sfc) (sfcLabelKey, SfcName sfc)) or failed in
          try _ := delete_stale desired existing or failed in
          reconcile_pods (ord _ desired)
      end
  end.
End Reconcile.

(** * Lemmas *)

(** The pods a chain asks for, as a map of its functions. *)
Definition the_pod (s : ServiceFunctionChain) (rn : string) (nf : NetworkFunction) : Pod :=
  setPodSpecHash (networkFunctionPod s nf rn <| PodOwners := [controller_ref (sfc_owner s)] |>).
Definition add_pod s rn (m : gmap string Pod) (nf : NetworkFunction) : gmap string Pod :=
  <[PodName (the_pod s rn nf) := the_pod s rn nf]> m.
Definition chain_pods (s : ServiceFunctionChain) (rn : string) : gmap string Pod :=
  foldl (add_pod s rn) ∅ (NetworkFunctions s).
Lemma desired_pod_Ok s rn nf : desired_pod s rn nf = Ok (the_pod s rn nf).
Proof. unfold desired_pod. simpl. by rewrite SetControllerReference_fresh by by right. Qed.
Lemma desired_pods_Ok s rn : desired_pods s rn (NetworkFunctions s) ∅ = Ok (chain_pods s rn).
Proof.
  unfold chain_pods. generalize (∅ : gmap string Pod). induction (NetworkFunctions s) as [|nf nfs IH]; intros m; simpl; [done|].
  rewrite desired_pod_Ok. by rewrite IH.
Qed.
Lemma chain_pods_inv s rn n d : chain_pods s rn !! n = Some d →
  ∃ nf, nf ∈ NetworkFunctions s ∧ d = the_pod s rn nf ∧ PodName d = n.
Proof.
  unfold chain_pods. assert (∀ nfs m, foldl (add_pod s rn) m nfs !! n = Some d →
    m !! n = Some d ∨ ∃ nf, nf ∈ nfs ∧ d = the_pod s rn nf ∧ PodName d = n) as H.
  { induction nfs as [|nf nfs IH]; intros m H; simpl in H; [by left|].
    apply IH in H as [H|(nf' & ? & ?)]; [|right; exists nf'; split; [by right|done]].
    unfold add_pod in H. rewrite lookup_insert in H. case_decide as E; [|by left]. injection H as <-. right. exists nf. split; [by left|done]. }
  intros [H'|?]%H; [by rewrite lookup_empty in H'|done].
Qed.
Lemma chain_pods_dom s rn n : is_Some (chain_pods s rn !! n) ↔ ∃ nf, nf ∈ NetworkFunctions s ∧ n = SfcName s +:+ "-" +:+ NFName nf.
Proof.
  split.
  - intros [d (nf & Hnf & -> & <-)%chain_pods_inv]. by exists nf.
  - unfold chain_pods. generalize (∅ : gmap string Pod). induction (NetworkFunctions s) as [|nf nfs IH]; intros m; simpl.
    { by intros (? & []%elem_of_nil & _). }
    intros (nf' & [->|Hnf]%elem_of_cons & ->); [|by apply IH; exists nf'].
    clear IH. assert (∀ n m, is_Some (m !! n) → is_Some (foldl (add_pod s rn) m nfs !! n)) as H.
    { clear. induction nfs as [|nf nfs IH]; intros n m H; simpl; [done|]. apply IH. unfold add_pod. rewrite lookup_insert. case_decide; eauto. }
    apply H. unfold add_pod. simpl. rewrite lookup_insert_eq. eauto.
Qed.

Definition hash_of (p : Pod) : string := default "" (PodAnnotations p !! sfcSpecHashKey).
Lemma the_pod_hash s rn nf : hash_of (the_pod s rn nf) ≠ "".
Proof.
  unfold hash_of, the_pod, setPodSpecHash. simpl. rewrite lookup_insert_eq. simpl.
  intros H%(f_equal String.length). by rewrite hex_hash_length in H.
Qed.
Lemma the_pod_label s rn nf : PodLabels (the_pod s rn nf) !! sfcLabelKey = Some (SfcName s).
Proof. unfold the_pod, setPodSpecHash. simpl. by rewrite lookup_insert_eq. Qed.

(** A pod shows what is desired of it. *)
Definition shows (d p : Pod) : Prop := covers (PodLabels d) (PodLabels p) ∧ covers (PodAnnotations d) (PodAnnotations p).
Lemma shows_hash d p : hash_of d ≠ "" → shows d p → hash_of p = hash_of d.
Proof. unfold hash_of. intros Hd [_ H]. destruct (PodAnnotations d !! sfcSpecHashKey) as [h|] eqn:E; [|done]. by apply H. Qed.
Lemma covers_subseteq m m' : m ⊆ m' → covers m m'.
Proof. intros H k v Hk. by rewrite (lookup_weaken _ _ _ _ Hk H). Qed.

Section Run.
Context {K : Type} `{!SfcAPI K, !HealthyPods K} (ord : order) (Ho : is_order ord).

Definition same_env (k k' : K) : Prop := chains k' = chains k ∧ resource_setting k' = resource_setting k.
#[local] Instance same_env_refl : Reflexive same_env.
Proof. done. Qed.
#[local] Instance same_env_trans : Transitive same_env.
Proof. intros k1 k2 k3 [H1 H2] [H3 H4]. split; congruence. Qed.

(** Gone, or about to be. *)
Definition gone (k : K) (n : key) : Prop := ∀ p, pods k !! n = Some p → Terminating p = true.
(** What [reconcilePod] may do for a desired pod. *)
Definition placed (d : Pod) (k k' : K) : Prop :=
  ∃ p, pods k' = <[pod_key d := p]> (pods k) ∧ shows d p ∧
    Terminating p = from_option Terminating false (pods k !! pod_key d).
Definition blocked (d : Pod) (k : K) : Prop := ∃ p, pods k !! pod_key d = Some p ∧ hash_of p ≠ hash_of d.
Definition removed (n : key) (k k' : K) : Prop :=
  (∀ n', n' ≠ n → pods k' !! n' = pods k !! n') ∧ gone k' n.

Lemma delete_removed p k : pods k !! pod_key p = Some p →
  ∃ k', s_DeletePod p k = (k', GetFound tt) ∧ same_env k k' ∧ removed (pod_key p) k k'.
Proof.
  intros Hp. destruct (law_DeletePod p k Hp) as (k' & Hd & Hm & He). exists k'. split; [done|]. split; [done|].
  unfold removed, gone. destruct Hm as [-> | ->]; split.
  - intros n' Hn. by rewrite lookup_delete_ne.
  - intros q. by rewrite lookup_delete_eq.
  - intros n' Hn. by rewrite lookup_insert_ne.
  - intros q. rewrite lookup_insert_eq. by intros [= <-].
Qed.

Lemma reconcilePod_run d k : pod_valid d = true → hash_of d ≠ "" → Terminating d = false →
  ∃ k' b, reconcilePod ord d k = (k', Ret (b, None)) ∧ same_env k k' ∧
    (if b : bool then blocked d k ∧ removed (pod_key d) k k' else ¬ blocked d k ∧ placed d k k').
Proof.
  intros Hv Hh Ht. unfold reconcilePod. rewrite (bind_run _ _ _ _ _ (acts_run _ _ _ _ (law_GetPod _ _))).
  destruct (pods k !! pod_key d) as [p|] eqn:Ep; simpl.
  - fold (hash_of d). fold (hash_of p). pose proof (law_pod_key _ _ _ Ep) as Hk.
    rewrite (proj2 (String.eqb_neq _ _) Hh). destruct (String.eqb_spec (hash_of p) (hash_of d)) as [E|E]; simpl.
    + destruct (merge_loop_order ord (PodLabels d) (PodLabels p) false Ho) as (L1 & L2 & _).
      destruct (merge_loop (ord _ (PodLabels d)) _ _) as [ls u] eqn:El; simpl in *.
      destruct (merge_loop_order ord (PodAnnotations d) (PodAnnotations p) u Ho) as (A1 & A2 & _).
      destruct (merge_loop (ord _ (PodAnnotations d)) _ _) as [anns u']; simpl in *.
      assert (¬ blocked d k) as Hb by (intros (q & Hq & Hne); congruence).
      destruct u'.
      * destruct (law_UpdatePod (p <| PodLabels := ls |> <| PodAnnotations := anns |>) k p) as (k' & Hu & Hm & He); try done.
        { by rewrite <-Hk in Ep. }
        rewrite (bind_run _ _ _ _ _ (acts_run _ _ _ _ Hu)). exists k', false. split; [done|]. split; [done|].
        split; [done|]. eexists. rewrite <-Hk. split; [exact Hm|]. rewrite Hk, Ep. done.
      * destruct (A2 eq_refl) as [-> ->]. destruct (L2 eq_refl) as [_ ->]. exists k, false. split; [done|]. split; [done|].
        split; [done|]. exists p. rewrite Ep. split; [by rewrite insert_id|]. done.
    + destruct (delete_removed p k) as (k' & Hd & He & Hr); [by rewrite Hk|].
      rewrite (bind_run _ _ _ _ _ (acts_run _ _ _ _ Hd)). exists k', true. split; [done|]. split; [done|].
      rewrite <-Hk. split; [by exists p|done].
  - destruct (law_CreatePod d k Hv Ep) as (k' & p & Hc & (_ & Hpt & Hl & Ha) & Hm & He).
    rewrite (bind_run _ _ _ _ _ (acts_run _ _ _ _ Hc)). exists k', false. split; [done|]. split; [done|].
    split; [intros (q & Hq & _); congruence|]. exists p. rewrite Ep, Hpt. split; [done|]. split; [|done].
    split; by apply covers_subseteq.
Qed.

(** The stale pods: those listed whose name is not desired. *)
Lemma delete_stale_run (D : gmap string Pod) ps k : NoDup ps → (∀ p, p ∈ ps → pods k !! pod_key p = Some p) →
  ∃ k', delete_stale D ps k = (k', Ret (Ok tt)) ∧ same_env k k' ∧
    ∀ n, (pods k' !! n = pods k !! n ∧ ∀ p, p ∈ ps → pod_key p = n → is_Some (D !! n.2)) ∨
         (gone k' n ∧ ∃ p, p ∈ ps ∧ pod_key p = n ∧ D !! n.2 = None).
Proof.
  revert k. induction ps as [|p ps IH]; intros k Hn Hps; simpl.
  { exists k. split; [done|]. split; [done|]. intros n. left. split; [done|]. by intros p []%elem_of_nil. }
  apply NoDup_cons in Hn as [Hp Hn]. assert (pods k !! pod_key p = Some p) as Hpk by by apply Hps; left.
  destruct (D !! PodName p) as [d|] eqn:ED.
  - destruct (IH k Hn) as (k' & Hr & He & Hk'); [intros q Hq; apply Hps; by right|].
    exists k'. split; [done|]. split; [done|]. intros n. destruct (Hk' n) as [[H1 H2]|(H1 & q & Hq & H2)].
    + left. split; [done|]. intros q [->|Hq]%elem_of_cons <-; [simpl; rewrite ED; eauto|by apply (H2 q)].
    + right. split; [done|]. exists q. split; [by right|done].
  - destruct (delete_removed p k Hpk) as (k1 & Hd & He1 & Hrm & Hg).
    assert (∀ q, q ∈ ps → pod_key q ≠ pod_key p) as Hne.
    { intros q Hq E. assert (pods k !! pod_key q = Some q) as H by by apply Hps; right. rewrite E, Hpk in H. by injection H as ->. }
    destruct (IH k1 Hn) as (k' & Hr & He & Hk'); [intros q Hq; rewrite Hrm by auto; apply Hps; by right|].
    rewrite (bind_run _ _ _ _ _ (acts_run _ _ _ _ Hd)). exists k'. split; [done|]. split; [by trans k1|].
    intros n. destruct (Hk' n) as [[H1 H2]|(H1 & q & Hq & H2)].
    + destruct (decide (n = pod_key p)) as [->|Hnp].
      * right. split; [|exists p; split; [by left|done]]. intros q Hq. rewrite H1 in Hq. by apply Hg.
      * left. split; [by rewrite H1, Hrm|]. intros q [->|Hq]%elem_of_cons Eq; [done|by apply (H2 q)].
    + right. split; [done|]. exists q. split; [by right|done].
Qed.

(** The state of a desired pod's place after a pass. *)
Definition put (d : Pod) (k k' : K) : Prop :=
  ∃ p, pods k' !! pod_key d = Some p ∧ shows d p ∧ Terminating p = from_option Terminating false (pods k !! pod_key d).
Definition wanted (d : Pod) : Prop := pod_valid d = true ∧ hash_of d ≠ "" ∧ Terminating d = false.
Lemma blocked_ext d k k' : pods k' !! pod_key d = pods k !! pod_key d → blocked d k' ↔ blocked d k.
Proof. unfold blocked. by intros ->. Qed.
Lemma put_ext d k1 k2 k' : pods k2 !! pod_key d = pods k1 !! pod_key d → put d k2 k' → put d k1 k'.
Proof. unfold put. by intros ->. Qed.

Lemma reconcile_pods_run l k :
  (∀ d, d ∈ l.*2 → wanted d) → NoDup (pod_key <$> l.*2) →
  ∃ k' r, reconcile_pods ord l k = (k', Ret r) ∧ same_env k k' ∧
    (∀ n, n ∉ pod_key <$> l.*2 → pods k' !! n = pods k !! n) ∧
    ((r = finished ∧ ∀ d, d ∈ l.*2 → ¬ blocked d k ∧ put d k k') ∨
     (r = requeue_after 2 ∧ ∃ d0, d0 ∈ l.*2 ∧ blocked d0 k ∧ gone k' (pod_key d0) ∧
        ∀ d, d ∈ l.*2 → d ≠ d0 → pods k' !! pod_key d = pods k !! pod_key d ∨ (¬ blocked d k ∧ put d k k'))).
Proof.
  revert k. induction l as [|[n d] l IH]; intros k Hw Hn; simpl.
  { exists k, finished. split; [done|]. split; [done|]. split; [done|]. left. split; [done|]. by intros d []%elem_of_nil. }
  apply NoDup_cons in Hn as [Hd Hn]. destruct (Hw d) as (Hv & Hh & Ht); [by left|].
  assert (∀ d', d' ∈ l.*2 → pod_key d' ≠ pod_key d) as Hne by (intros d' Hd' E; apply Hd; apply list_elem_of_fmap; by exists d').
  destruct (reconcilePod_run d k Hv Hh Ht) as (k1 & b & Hr & He & Hb). rewrite (bind_run _ _ _ _ _ Hr). destruct b.
  - destruct Hb as (Hb & Hfr & Hg). exists k1, (requeue_after 2). split; [done|]. split; [done|].
    split; [intros m [Hm _]%not_elem_of_cons; by apply Hfr|]. right. split; [done|]. exists d. split; [by left|].
    split; [done|]. split; [done|]. intros d' [->|Hd']%elem_of_cons Hdd; [done|]. left. by apply Hfr, Hne.
  - destruct Hb as (Hb & p & Hp & Hs & Hpt).
    destruct (IH k1) as (k' & r & Hr' & He' & Hfr & Hcase); [intros d' Hd'; apply Hw; by right|done|].
    assert (∀ m, m ≠ pod_key d → pods k1 !! m = pods k !! m) as Hk1 by (intros m Hm; rewrite Hp; by apply lookup_insert_ne).
    assert (¬ blocked d k ∧ put d k k') as Hput.
    { split; [done|]. exists p. rewrite Hfr, Hp by done. by rewrite lookup_insert_eq. }
    exists k', r. split; [done|]. split; [by trans k1|].
    split; [intros m [Hm Hm']%not_elem_of_cons; by rewrite Hfr, Hk1|].
    destruct Hcase as [[-> Hall]|(-> & d0 & Hd0 & Hb0 & Hg0 & Hall)]; [left|right]; (split; [done|]).
    + intros d' [->|Hd']%elem_of_cons; [done|]. destruct (Hall d' Hd') as [H1 H2].
      rewrite (blocked_ext _ k) in H1 by auto. split; [done|]. by apply (put_ext _ _ k1); [apply Hk1, Hne|].
    + exists d0. split; [by right|]. rewrite <-(blocked_ext _ k k1) by auto. split; [done|]. split; [done|].
      intros d' [->|Hd']%elem_of_cons Hdd; [by right|]. destruct (Hall d' Hd' Hdd) as [H|[H1 H2]].
      * left. rewrite H. auto.
      * right. rewrite (blocked_ext _ k) in H1 by auto. split; [done|]. by apply (put_ext _ _ k1); [apply Hk1, Hne|].
Qed.

(** ** A pass over a chain *)

Definition resource_of (k : K) : string :=
  match resource_setting k with Some n => if String.eqb n "" then defaultDpuResource else n | None => defaultDpuResource end.
Definition chain_valid (s : ServiceFunctionChain) (rn : string) : bool := forallb pod_valid (the_pod s rn <$> NetworkFunctions s).
Definition labelled (s : ServiceFunctionChain) (k : K) (n : key) : Prop :=
  n.1 = SfcNamespace s ∧ ∃ p, pods k !! n = Some p ∧ PodLabels p !! sfcLabelKey = Some (SfcName s).

Lemma chain_pod_key s rn n d : chain_pods s rn !! n = Some d → pod_key d = (SfcNamespace s, n).
Proof. by intros (nf & _ & -> & <-)%chain_pods_inv. Qed.
Lemma chain_pod_wanted s rn n d : chain_valid s rn = true → chain_pods s rn !! n = Some d → wanted d.
Proof.
  intros Hv (nf & Hnf & -> & _)%chain_pods_inv. split; [|split; [apply the_pod_hash|done]].
  unfold chain_valid in Hv. rewrite forallb_forall in Hv. apply Hv, list_elem_of_In. by apply list_elem_of_fmap_2.
Qed.
Lemma elem_of_order {A} (m : gmap string A) n a : (n, a) ∈ ord _ m ↔ m !! n = Some a.
Proof. rewrite (Ho _ m). apply elem_of_map_to_list. Qed.
Lemma order_values {A} (m : gmap string A) a : a ∈ (ord _ m).*2 ↔ ∃ n, m !! n = Some a.
Proof.
  rewrite list_elem_of_fmap. split.
  - intros ([n x] & -> & H%elem_of_order). by exists n.
  - intros (n & H). exists (n, a). by rewrite elem_of_order.
Qed.
Lemma chain_keys_NoDup s rn : NoDup (pod_key <$> (ord _ (chain_pods s rn)).*2).
Proof.
  assert (pod_key <$> (ord _ (chain_pods s rn)).*2 = pair (SfcNamespace s) <$> (ord _ (chain_pods s rn)).*1) as ->.
  { rewrite <-!list_fmap_compose. apply list_fmap_ext. intros i [n d] Hi. simpl.
    apply list_elem_of_lookup_2, elem_of_order in Hi. by apply chain_pod_key in Hi. }
  apply (NoDup_fmap_2 _). rewrite (Ho _ (chain_pods s rn)). apply NoDup_fst_map_to_list.
Qed.

Lemma ReconcileChain_run req k s (D := chain_pods s (resource_of k)) :
  chains k !! req = Some s → chain_valid s (resource_of k) = true →
  ∃ k' r, ReconcileChain ord req k = (k', Ret r) ∧ same_env k k' ∧
    (∀ n, pods k' !! n = pods k !! n ∨ labelled s k n ∨ (n.1 = SfcNamespace s ∧ is_Some (D !! n.2))) ∧
    (∀ n, labelled s k n → D !! n.2 = None → gone k' n) ∧
    ((r = finished ∧ ∀ n d, D !! n = Some d → ¬ blocked d k ∧ put d k k') ∨
     (r = requeue_after 2 ∧ ∃ n0 d0, D !! n0 = Some d0 ∧ blocked d0 k ∧ gone k' (pod_key d0) ∧
        ∀ n d, D !! n = Some d → n ≠ n0 → pods k' !! pod_key d = pods k !! pod_key d ∨ (¬ blocked d k ∧ put d k k'))).
Proof.
  intros Hs Hv. unfold ReconcileChain. rewrite (bind_run _ _ _ _ _ (acts_run _ _ _ _ (law_GetSfc _ _))), Hs. simpl.
  assert (resourceNameForSFC k = (k, Ret (resource_of k))) as Hrn.
  { unfold resourceNameForSFC. rewrite (bind_run _ _ _ _ _ (acts_run _ _ _ _ (law_GetResourceName k))).
    unfold resource_of. by destruct (resource_setting k). }
  rewrite (bind_run _ _ _ _ _ Hrn), desired_pods_Ok. fold D.
  destruct (law_ListPods (SfcNamespace s) (sfcLabelKey, SfcName s) k) as (ps & Hl & Hnd & Hps).
  rewrite (try_run _ _ _ _ _ _ (acts_run _ _ _ _ Hl)).
  destruct (delete_stale_run D ps k Hnd) as (k1 & Hr1 & He1 & Hk1); [by intros p [? _]%Hps|].
  rewrite (try_run _ _ _ _ _ _ Hr1).
  destruct (reconcile_pods_run (ord _ D) k1) as (k' & r & Hr & He & Hfr & Hcase).
  { intros d [n Hd]%order_values. by eapply chain_pod_wanted. }
  { apply chain_keys_NoDup. }
  assert (∀ n, n ∈ pod_key <$> (ord _ D).*2 → n.1 = SfcNamespace s ∧ is_Some (D !! n.2)) as Hin.
  { intros n (d & -> & [m Hd]%order_values)%list_elem_of_fmap. rewrite (chain_pod_key _ _ _ _ Hd). by eauto. }
  assert (∀ n d, D !! n = Some d → pods k1 !! pod_key d = pods k !! pod_key d) as HD.
  { intros n d Hd. destruct (Hk1 (pod_key d)) as [[? _]|(_ & p & _ & _ & Hno)]; [done|].
    rewrite (chain_pod_key _ _ _ _ Hd) in Hno. simpl in Hno. congruence. }
  exists k', r. split; [done|]. split; [by trans k1|]. split; [|split].
  - intros n. destruct (decide (n ∈ pod_key <$> (ord _ D).*2)) as [Hn|Hn]; [by right; right; apply Hin|].
    rewrite Hfr by done. destruct (Hk1 n) as [[? _]|(_ & p & Hp & <- & _)]; [by left|].
    right. left. apply Hps in Hp as (? & ? & ?). split; [done|]. by exists p.
  - intros n (Hn1 & p & Hp & Hlab) HDn. assert (n ∉ pod_key <$> (ord _ D).*2) as Hn by (intros [_ [? ?]]%Hin; congruence).
    pose proof (law_pod_key _ _ _ Hp) as Hpk. unfold gone. rewrite Hfr by done. destruct (Hk1 n) as [[_ H]|[H _]]; [|done].
    destruct (H p) as [? ?]; [apply Hps; rewrite Hpk; by destruct p; simplify_eq/=|done|congruence].
  - destruct Hcase as [[-> Hall]|(-> & d0 & [n0 Hd0]%order_values & Hb & Hg & Hall)]; [left|right]; (split; [done|]).
    + intros n d Hd. destruct (Hall d) as [H1 H2]; [by apply order_values; exists n|].
      rewrite (blocked_ext _ k) in H1 by by eapply HD. split; [done|]. eapply put_ext; [|exact H2]. by eapply HD.
    + exists n0, d0. rewrite <-(blocked_ext _ k k1) by by eapply HD. do 3 (split; [done|]). intros n d Hd Hne.
      assert (d ≠ d0) as Hdd by (intros ->; apply Hne; apply chain_pod_key in Hd, Hd0; congruence).
      destruct (Hall d) as [H|[H1 H2]]; [by apply order_values; exists n|done|left; rewrite H; by eapply HD|right].
      rewrite (blocked_ext _ k) in H1 by by eapply HD. split; [done|]. eapply put_ext; [|exact H2]. by eapply HD.
Qed.
End Run.

(** ** Convergence *)

Section Converge.
Context {K : Type} `{!SfcAPI K, !HealthyPods K}.

(** The cluster shows the chain: each desired pod is there, is not about to go, and
    shows its labels, annotations and hash; no other pod carries the chain's label. *)
Definition settled (s : ServiceFunctionChain) (k : K) : Prop :=
  (∀ n d, chain_pods s (resource_of k) !! n = Some d →
     ∃ p, pods k !! pod_key d = Some p ∧ shows d p ∧ Terminating p = false) ∧
  (∀ n, labelled s k n → is_Some (chain_pods s (resource_of k) !! n.2)).
(** A round: a reconciliation, with maps in any order, and the kubelets finish. *)
Definition round (req : key) (k k' : K) : Prop :=
  ∃ ord k1 r, is_order ord ∧ ReconcileChain ord req k = (k1, Ret r) ∧ k' = reap k1.
(** The chain is there and asks for pods that the server accepts. *)
Definition chain_there (req : key) (s : ServiceFunctionChain) (rn : string) (k : K) : Prop :=
  chains k !! req = Some s ∧ resource_of k = rn ∧ chain_valid s rn = true.
Definition no_terminating (k : K) : Prop := ∀ n p, pods k !! n = Some p → Terminating p = false.

Lemma same_env_resource k k' : same_env k k' → resource_of k' = resource_of k.
Proof. intros [_ H]. unfold resource_of. by rewrite H. Qed.
Lemma reap_lookup k n p : pods (reap k) !! n = Some p ↔ pods k !! n = Some p ∧ Terminating p = false.
Proof. destruct (law_reap k) as (-> & _). unfold remove_terminating. apply map_lookup_filter_Some. Qed.
Lemma reap_gone k n : gone k n → pods (reap k) !! n = None.
Proof.
  intros Hg. destruct (pods (reap k) !! n) as [p|] eqn:E; [|done]. apply reap_lookup in E as [E1 E2].
  apply Hg in E1. congruence.
Qed.
Lemma reap_env k k1 : same_env k k1 → same_env k (reap k1).
Proof. destruct (law_reap k1) as (_ & H1 & H2). intros [H3 H4]. split; congruence. Qed.

(** The desired pods whose place another pod holds. *)
#[local] Instance blocked_dec d (k : K) : Decision (blocked d k).
Proof.
  unfold blocked. destruct (pods k !! pod_key d) as [p|]; [|right; by intros (? & ? & _)].
  destruct (decide (hash_of p = hash_of d)); [right|left; by exists p]. intros (q & [= <-] & Hq). done.
Defined.
Definition blocked_names (s : ServiceFunctionChain) (rn : string) (k : K) : gset string :=
  dom (filter (λ nd, blocked nd.2 k) (chain_pods s rn)).
Lemma blocked_names_spec s rn k n :
  n ∈ blocked_names s rn k ↔ ∃ d, chain_pods s rn !! n = Some d ∧ blocked d k.
Proof. unfold blocked_names. rewrite elem_of_dom. unfold is_Some. by setoid_rewrite map_lookup_filter_Some. Qed.
Lemma blocked_reap d k : blocked d (reap k) → ¬ gone k (pod_key d) ∧ blocked d k.
Proof.
  intros (p & [Hp Ht]%reap_lookup & Hh). split; [|by exists p]. intros Hg. apply Hg in Hp. congruence.
Qed.
Lemma put_blocked d (k k' : K) : hash_of d ≠ "" → put d k k' → ¬ blocked d k'.
Proof. intros Hd (p & Hp & Hs & _) (q & Hq & Hne). apply (shows_hash _ _ Hd) in Hs. congruence. Qed.

Lemma round_step req s rn k k' : chain_there req s rn k → round req k k' →
  chain_there req s rn k' ∧ no_terminating k' ∧
  (no_terminating k → settled s k' ∨ (size (blocked_names s rn k') < size (blocked_names s rn k))%nat).
Proof.
  intros (Hs & <- & Hv) (ord & k1 & r & Ho & Hr & ->).
  destruct (ReconcileChain_run ord Ho req k s Hs Hv) as (k1' & r' & Hr' & He & Hframe & Hstale & Hcase).
  rewrite Hr in Hr'. injection Hr' as <- <-. pose proof (reap_env _ _ He) as He'. pose proof (same_env_resource _ _ He') as Hrn.
  split; [split; [destruct He' as [-> _]; done|]; by rewrite Hrn|]. split; [by intros n p [_ ?]%reap_lookup|]. intros Hnt.
  destruct Hcase as [[-> Hall]|(-> & n0 & d0 & Hd0 & Hb0 & Hg0 & Hall)]; [left|right].
  - unfold settled. rewrite Hrn. split.
    + intros n d Hd. destruct (Hall n d Hd) as [_ (p & Hp & Hsh & Ht)]. exists p. rewrite reap_lookup.
      assert (Terminating p = false) as Htf by (rewrite Ht; destruct (pods k !! pod_key d) eqn:E; [by eapply Hnt|done]). done.
    + intros n (Hn & p & [Hp Ht]%reap_lookup & Hl). destruct (chain_pods s (resource_of k) !! n.2) as [d|] eqn:ED; [by eexists|].
      assert (gone k1 n) as Hg; [|apply Hg in Hp; congruence].
      destruct (Hframe n) as [E|[?|[_ [? ?]]]]; [|by apply Hstale|congruence]. apply Hstale; [|done].
      split; [done|]. exists p. by rewrite <-E.
  - apply subset_size. split.
    + intros n (d & Hd & [Hg Hb]%blocked_reap)%blocked_names_spec. apply blocked_names_spec. exists d. split; [done|].
      destruct (decide (n = n0)) as [->|Hne]; [congruence|]. destruct (Hall n d Hd Hne) as [H|[_ H2]]; [by apply (blocked_ext _ k k1)|].
      destruct (put_blocked d k k1); [by eapply chain_pod_wanted|done|done].
    + intros Hsub. assert (n0 ∈ blocked_names s (resource_of k) (reap k1)) as (d & Hd & [Hg _]%blocked_reap)%blocked_names_spec.
      { apply Hsub, blocked_names_spec. by exists d0. }
      rewrite Hd0 in Hd. by injection Hd as <-.
Qed.
End Converge.

(** ** A settled chain *)

Lemma reconcilePod_shown {K} `{!SfcAPI K, !HealthyPods K} ord d p (k : K) : is_order ord → hash_of d ≠ "" →
  pods k !! pod_key d = Some p → shows d p → reconcilePod ord d k = (k, Ret (false, None)).
Proof.
  intros Ho Hh Hp Hs. unfold reconcilePod. rewrite (bind_run _ _ _ _ _ (acts_run _ _ _ _ (law_GetPod _ _))), Hp. simpl.
  fold (hash_of d) (hash_of p). rewrite (proj2 (String.eqb_neq _ _) Hh), (shows_hash _ _ Hh Hs), String.eqb_refl. simpl.
  destruct Hs as [Hl Ha]. rewrite (proj2 (proj2 (merge_loop_order _ _ _ _ Ho)) Hl), (proj2 (proj2 (merge_loop_order _ _ _ _ Ho)) Ha).
  done.
Qed.
Lemma settled_fixed {K} `{!SfcAPI K, !HealthyPods K} ord req s (k : K) : is_order ord →
  chains k !! req = Some s → settled s k → ReconcileChain ord req k = (k, Ret finished).
Proof.
  intros Ho Hs [Hd Hst]. unfold ReconcileChain. rewrite (bind_run _ _ _ _ _ (acts_run _ _ _ _ (law_GetSfc _ _))), Hs. simpl.
  assert (resourceNameForSFC k = (k, Ret (resource_of k))) as Hrn.
  { unfold resourceNameForSFC. rewrite (bind_run _ _ _ _ _ (acts_run _ _ _ _ (law_GetResourceName k))).
    unfold resource_of. by destruct (resource_setting k). }
  rewrite (bind_run _ _ _ _ _ Hrn), desired_pods_Ok.
  destruct (law_ListPods (SfcNamespace s) (sfcLabelKey, SfcName s) k) as (ps & Hl & _ & Hps).
  rewrite (try_run _ _ _ _ _ _ (acts_run _ _ _ _ Hl)).
  assert (delete_stale (chain_pods s (resource_of k)) ps k = (k, Ret (Ok tt))) as Hdel.
  { assert (∀ p, p ∈ ps → is_Some (chain_pods s (resource_of k) !! PodName p)) as H.
    { intros p (Hp & Hns & Hlab)%Hps. apply (Hst (pod_key p)). split; [done|]. by exists p. }
    clear Hl Hps. induction ps as [|p ps IH]; simpl; [done|]. destruct (H p) as [d ->]; [by left|]. apply IH. intros q Hq. apply H. by right. }
  rewrite (try_run _ _ _ _ _ _ Hdel).
  assert (∀ n d, (n, d) ∈ ord _ (chain_pods s (resource_of k)) → chain_pods s (resource_of k) !! n = Some d) as H
    by (intros n d; by apply elem_of_order).
  induction (ord _ (chain_pods s (resource_of k))) as [|[n d] l IH]; simpl; [done|].
  assert (chain_pods s (resource_of k) !! n = Some d) as Hn by (apply H; by left). destruct (Hd n d Hn) as (p & Hp & Hsh & _).
  assert (hash_of d ≠ "") as Hh by (apply chain_pods_inv in Hn as (nf & _ & -> & _); apply the_pod_hash).
  rewrite (bind_run _ _ _ _ _ (reconcilePod_shown ord d p k Ho Hh Hp Hsh)). apply IH. intros n' d' Hd'. apply H. by right.
Qed.

(** * Theorems *)


(** A cluster that shows the chain is left as it is, in every order of the maps: the
    reconciliation writes nothing and does not ask to be repeated. *)
Theorem chain_settled_stays {K} `{!SfcAPI K, !HealthyPods K} ord req s (k : K) :
  is_order ord → chains k !! req = Some s → settled s k → ReconcileChain ord req k = (k, Ret finished).
Proof. apply settled_fixed. Qed.

(** C33: a reconciliation touches only pods of the chain's namespace that carry the
    chain's label or have the name of one of its functions. *)
Theorem chain_touches_its_pods {K} `{!SfcAPI K, !HealthyPods K} ord req s (k : K) n :
  is_order ord → chains k !! req = Some s → chain_valid s (resource_of k) = true →
  ∃ k' r, ReconcileChain ord req k = (k', Ret r) ∧
    (pods k' !! n ≠ pods k !! n → n.1 = SfcNamespace s ∧
       ((∃ p, pods k !! n = Some p ∧ PodLabels p !! sfcLabelKey = Some (SfcName s)) ∨
        ∃ nf, nf ∈ NetworkFunctions s ∧ n.2 = SfcName s +:+ "-" +:+ NFName nf)).
Proof.
  intros Ho Hs Hv. destruct (ReconcileChain_run ord Ho req k s Hs Hv) as (k' & r & Hr & _ & Hf & _).
  exists k', r. split; [done|]. intros Hne. destruct (Hf n) as [?|[[H1 H2]|[H1 H2]]]; [done|split; [done|by left]|].
  split; [done|]. right. by apply chain_pods_dom in H2.
Qed.

(** Two chains of a namespace can ask for the same pod ("a-b" with "c", "a" with
    "b-c"): unless the pods have equal hashes no state of the cluster shows both
    chains, and so there is none in which neither is reconciled further. *)
Theorem chains_in_conflict {K} `{!SfcAPI K, !HealthyPods K} s1 s2 n d1 d2 (k : K) :
  SfcNamespace s1 = SfcNamespace s2 →
  chain_pods s1 (resource_of k) !! n = Some d1 → chain_pods s2 (resource_of k) !! n = Some d2 →
  hash_of d1 ≠ hash_of d2 → ¬ (settled s1 k ∧ settled s2 k).
Proof.
  intros Hns H1 H2 Hne [[S1 _] [S2 _]]. destruct (S1 n d1 H1) as (p1 & Hp1 & Hs1 & _). destruct (S2 n d2 H2) as (p2 & Hp2 & Hs2 & _).
  rewrite (chain_pod_key _ _ _ _ H1), Hns in Hp1. rewrite (chain_pod_key _ _ _ _ H2), Hp1 in Hp2. injection Hp2 as <-.
  apply chain_pods_inv in H1 as (nf1 & _ & -> & _), H2 as (nf2 & _ & -> & _).
  apply shows_hash in Hs1, Hs2; try apply the_pod_hash. congruence.
Qed.


(** Requests and limits default independently, to 2: a function that asks for a
    number of devices other than 2 and gives no limit gets a pod that the server
    refuses, since requests and limits of devices must be equal. *)
Theorem requests_without_limits_refused s nf rn r :
  DpuResources nf = Some r → (0 < Requests r)%Z → Requests r ≠ 2%Z → Limits r = 0%Z →
  pod_valid (the_pod s rn nf) = false.
Proof.
  intros Hr H0 H2 Hl. unfold pod_valid, container_ok. simpl. rewrite Hr. simpl. rewrite Hl.
  rewrite (bool_decide_eq_false_2 _); [by rewrite !andb_false_r|]. intros H%(f_equal (lookup rn)).
  rewrite !lookup_singleton_eq in H. injection H. unfold dpu_count. destruct (Z.ltb_spec 0 (Requests r)); lia.
Qed.

(** * Witnesses *)
Module SfcDemo.
(** A server with maps of pods and chains; an object is served only under its own key. *)
Record server := mkServer {
  raw_pods : gmap key Pod; raw_chains : gmap key ServiceFunctionChain; setting : option string;
  raw_nodes : gmap string (gmap string string) }.
#[export] Instance server_eta : Eta server := λ s, mkServer (raw_pods s) (raw_chains s) (setting s) (raw_nodes s).
Definition served_pods (s : server) : gmap key Pod := filter (λ np, pod_key np.2 = np.1) (raw_pods s).
Definition served_chains (s : server) : gmap key ServiceFunctionChain :=
  filter (λ ns, (SfcNamespace ns.2, SfcName ns.2) = ns.1) (raw_chains s).
Definition put_pod (p : Pod) (s : server) : server := s <| raw_pods := <[pod_key p := p]> (raw_pods s) |>.
#[export] Instance server_api : SfcAPI server :=
  {| s_GetSfc n s := (s, found (served_chains s !! n));
     s_GetResourceName s := (s, found (setting s));
     s_GetNode n s := (s, found (raw_nodes s !! n));
     s_ListPods ns l s := (s, Ok (filter (λ p, PodNamespace p = ns ∧ PodLabels p !! l.1 = Some l.2)
                                    (map_to_list (served_pods s)).*2));
     s_GetPod n s := (s, found (served_pods s !! n));
     s_CreatePod p s := (put_pod p s, None);
     s_UpdatePod p s := (put_pod p s, None);
     s_DeletePod p s := (put_pod (p <| Terminating := true |>) s, GetFound tt) |}.
Lemma served_put p s : served_pods (put_pod p s) = <[pod_key p := p]> (served_pods s).
Proof. unfold served_pods, put_pod. simpl. by rewrite map_filter_insert_True. Qed.
Lemma served_key s n p : served_pods s !! n = Some p → pod_key p = n.
Proof. by intros [_ H]%map_lookup_filter_Some. Qed.
Lemma served_values s p : p ∈ (map_to_list (served_pods s)).*2 ↔ served_pods s !! pod_key p = Some p.
Proof.
  rewrite list_elem_of_fmap. split.
  - intros ([n q] & -> & H%elem_of_map_to_list). simpl. by rewrite (served_key _ _ _ H).
  - intros H. exists (pod_key p, p). by rewrite elem_of_map_to_list.
Qed.
Lemma served_NoDup s : NoDup (map_to_list (served_pods s)).*2.
Proof.
  apply (NoDup_fmap_1 pod_key). assert (pod_key <$> (map_to_list (served_pods s)).*2 = (map_to_list (served_pods s)).*1) as ->;
    [|apply NoDup_fst_map_to_list].
  rewrite <-list_fmap_compose. apply list_fmap_ext. intros i [n p] Hi%list_elem_of_lookup_2%elem_of_map_to_list.
  by apply served_key in Hi.
Qed.
#[export] Instance chain_server_healthy : HealthyPods server.
Proof.
  refine {| chains := served_chains; pods := served_pods; resource_setting := setting; node_labels := raw_nodes;
            reap s := s <| raw_pods := remove_terminating (served_pods s) |> |}.
  - apply served_key.
  - intros s n c [_ H]%map_lookup_filter_Some. done.
  - done.
  - done.
  - done.
  - intros ns l s. eexists. split; [done|]. split; [apply NoDup_filter, served_NoDup|]. intros p.
    rewrite list_elem_of_filter, served_values. naive_solver.
  - done.
  - intros p s _ _. exists (put_pod p s), p. split; [done|]. split; [done|]. split; [apply served_put|done].
  - intros p s old _ _ _. exists (put_pod p s). split; [done|]. split; [apply served_put|done].
  - intros p s _. eexists. split; [done|]. split; [right|done]. by rewrite served_put.
  - intros s. split; [|done]. unfold served_pods at 1. simpl. apply map_filter_id.
    intros n p [H _]%map_lookup_filter_Some. by apply served_key in H.
Defined.

Definition chain : ServiceFunctionChain :=
  mkSfc "chain" "default" "uid-1" {["dpu" := "true"]}
    [mkNF "fw" "quay.io/fw:2" [] None; mkNF "nat" "quay.io/nat:1" ["net-a"; "net-b"] (Some (mkDpuResources 4 4))].
(** A pod from an older specification, one of a function that is gone, and a stranger. *)
Definition old_pod (name : string) (chain : string) : Pod :=
  mkPod name "default" {[sfcLabelKey := chain]} {[sfcSpecHashKey := "0000"]} [] (mkPodSpec ∅ []) false.
Definition cluster : server :=
  mkServer {[ ("default", "chain-fw") := old_pod "chain-fw" "chain"; ("default", "chain-old") := old_pod "chain-old" "chain";
              ("default", "other") := old_pod "other" "x" ]} {[ ("default", "chain") := chain ]} None ∅.
Lemma cluster_chain : chains cluster !! ("default", "chain") = Some chain.
Proof. vm_compute. reflexivity. Qed.
Lemma chain_accepted : chain_valid chain (resource_of cluster) = true.
Proof. vm_compute. reflexivity. Qed.
Lemma cluster_there : chain_there ("default", "chain") chain (resource_of cluster) cluster.
Proof. split; [exact cluster_chain|]. split; [reflexivity|exact chain_accepted]. Qed.
Definition chain_order : order := λ A m, map_to_list m.
Lemma chain_order_ok : is_order chain_order.
Proof. by intros A m. Qed.
(** Two rounds show the chain here. *)
Definition run1 (s : server) : server := reap (ReconcileChain chain_order ("default", "chain") s).1.
Definition shown : server := run1 (run1 cluster).
Lemma shown_chain : chains shown !! ("default", "chain") = Some chain.
Proof. vm_compute. reflexivity. Qed.
Definition ok_pod (s : server) (n : string) (d : Pod) : bool :=
  match pods s !! pod_key d with
  | Some p => bool_decide (covers (PodLabels d) (PodLabels p)) && bool_decide (covers (PodAnnotations d) (PodAnnotations p))
              && negb (Terminating p)
  | None => false
  end.
Definition settled_check (s : server) (c : ServiceFunctionChain) : bool :=
  let D := chain_pods c (resource_of s) in
  forallb (λ nd, ok_pod s nd.1 nd.2) (map_to_list D)
  && forallb (λ np, bool_decide (is_Some (D !! np.1.2))
                    || negb (bool_decide (PodLabels np.2 !! sfcLabelKey = Some (SfcName c)))) (map_to_list (pods s)).
Lemma settled_check_sound s c : settled_check s c = true → settled c s.
Proof.
  unfold settled_check. rewrite andb_true_iff, !forallb_forall. intros [H1 H2]. split.
  - intros n d Hd%elem_of_map_to_list%list_elem_of_In%H1. unfold ok_pod in Hd. cbn [snd] in Hd. unfold shows.
    destruct (pods s !! pod_key d) as [p|]; [|done]. rewrite !andb_true_iff, !bool_decide_eq_true, negb_true_iff in Hd.
    exists p. tauto.
  - intros n (_ & p & Hp%elem_of_map_to_list%list_elem_of_In%H2 & Hl). simpl in Hp.
    rewrite (bool_decide_eq_true_2 _ Hl) in Hp. by rewrite orb_false_r, bool_decide_eq_true in Hp.
Qed.
Lemma shown_settled : settled chain shown.
Proof. apply settled_check_sound. vm_compute. reflexivity. Qed.
(** Two chains that meet in a pod's name. *)
Definition chain1 : ServiceFunctionChain := mkSfc "a" "default" "uid-2" ∅ [mkNF "b-c" "quay.io/x:1" [] None].
Definition chain2 : ServiceFunctionChain := mkSfc "a-b" "default" "uid-3" ∅ [mkNF "c" "quay.io/y:1" [] None].
Definition pod1 : Pod := the_pod chain1 (resource_of cluster) (mkNF "b-c" "quay.io/x:1" [] None).
Definition pod2 : Pod := the_pod chain2 (resource_of cluster) (mkNF "c" "quay.io/y:1" [] None).
Lemma chain1_pod : chain_pods chain1 (resource_of cluster) !! "a-b-c" = Some pod1.
Proof. vm_compute. reflexivity. Qed.
Lemma chain2_pod : chain_pods chain2 (resource_of cluster) !! "a-b-c" = Some pod2.
Proof. vm_compute. reflexivity. Qed.
Lemma hashes_differ : hash_of pod1 ≠ hash_of pod2.
Proof. vm_compute. discriminate. Qed.
Definition nat_pod : Pod :=
  the_pod chain "openshift.io/dpu" (mkNF "nat" "quay.io/nat:1" ["net-a"; "net-b"] (Some (mkDpuResources 4 4))).
Lemma chain_nat_pod : chain_pods chain "openshift.io/dpu" !! "chain-nat" = Some nat_pod.
Proof. vm_compute. reflexivity. Qed.
Lemma chain_bounded :
  Forall (λ nf, ∀ r, DpuResources nf = Some r → (Requests r < 2 ^ 31 ∧ Limits r < 2 ^ 31)%Z) (NetworkFunctions chain).
Proof. apply Forall_forall. intros nf Hnf r Hr. simpl in Hnf. set_unfold in Hnf. destruct Hnf as [->|[->|[]]]; simplify_eq/=; lia. Qed.
End SfcDemo.
Import SfcDemo.
Lemma chain_settled_stays_witness : ReconcileChain chain_order ("default", "chain") shown = (shown, Ret finished).
Proof. exact (chain_settled_stays chain_order ("default", "chain") chain shown chain_order_ok shown_chain shown_settled). Defined.
Lemma chain_touches_its_pods_witness :
  ∃ k' r, ReconcileChain chain_order ("default", "chain") cluster = (k', Ret r) ∧ pods k' !! ("kube-system", "dns") = None.
Proof.
  destruct (chain_touches_its_pods chain_order ("default", "chain") chain cluster ("kube-system", "dns")
    chain_order_ok cluster_chain chain_accepted) as (k' & r & H & Hn).
  exists k', r. split; [exact H|]. destruct (decide (pods k' !! ("kube-system", "dns") = pods cluster !! ("kube-system", "dns"))) as [->|Hne].
  - vm_compute. reflexivity.
  - destruct (Hn Hne) as [E _]. discriminate E.
Defined.
Lemma chains_in_conflict_witness : ¬ (settled chain1 cluster ∧ settled chain2 cluster).
Proof.
  exact (chains_in_conflict chain1 chain2 "a-b-c" pod1 pod2 cluster eq_refl chain1_pod chain2_pod hashes_differ).
Defined.
Lemma requests_without_limits_refused_witness :
  pod_valid (the_pod chain "openshift.io/dpu" (mkNF "fw" "quay.io/fw:2" [] (Some (mkDpuResources 4 0)))) = false.
Proof.
  apply (requests_without_limits_refused chain _ "openshift.io/dpu" (mkDpuResources 4 0)); [reflexivity|simpl; lia|discriminate|reflexivity].
Defined.
