(* ===== verification/Sfc.v ===== *)
(** The daemon's service-function-chain reconciler,
    internal/daemon/sfc-reconciler/sfc.go: on every node whose labels match a chain's
    selector it makes sure that a pod exists for each network function. *)
From S2P Require Import Prelude Plugin GoMonad Platform Kube Controller Pods SfcController.
#[local] Open Scope stdpp_scope.

(** The two settings the code reads from the environment of the daemon: [vars.Namespace]
    and [deviceplugin.DpuResourceName]. *)
Record sfc_env := mkSfcEnv { env_Namespace : string; env_DpuResourceName : string }.
Definition from_environment (getenv : string → string) : sfc_env :=
  let or_default v d := if String.eqb v "" then d else v in
  mkSfcEnv (or_default (getenv "POD_NAMESPACE") "openshift-dpu-operator")
    (or_default (getenv "DPU_RESOURCE_NAME") "openshift.io/dpu").
(** The node's name: K8S_NODE, or the host's. *)
Definition NewSfcReconciler (getenv : string → string) (hostname : result string) : string :=
  if String.eqb (getenv "K8S_NODE") "" then match hostname with Ok h => h | Err _ => "unknown" end
  else getenv "K8S_NODE".

Definition networkFunctionPod (env : sfc_env) (name image : string) (nodeSelector : gmap string string) : Pod :=
  mkPod name (env_Namespace env) ∅ {["k8s.v1.cni.cncf.io/networks" := "dpunfcni-conf, dpunfcni-conf"]} []
    (mkPodSpec nodeSelector
       [mkContainer name image [("web", 8080%Z)] {[ env_DpuResourceName env := 2%Z ]} {[ env_DpuResourceName env := 2%Z ]}
          true ["ALL"] ["NET_RAW"; "NET_ADMIN"]]) false.

Section Reconcile.
Context {K : Type} `{!SfcAPI K} (ord : order) (env : sfc_env) (nodeName : string).
Abbreviation KM := (M K).

(** [Get] fills the pod it is given: the object that is updated is the one found. *)
Definition createOrUpdatePod (pod : Pod) : KM (result unit) :=
  cur ← acts (s_GetPod (pod_key pod));
  match cur with
  | GetNotFound _ => acts_err (s_CreatePod pod)
  | GetFound pod => acts_err (s_UpdatePod pod)
  | GetError e => mret (Err e)
  end.
Definition ensureNetworkFunctionExists (sfc : ServiceFunctionChain) (nf : NetworkFunction) : KM (result unit) :=
  let pod := networkFunctionPod env (NFName nf) (NFImage nf) (SfcNodeSelector sfc) in
  match SetControllerReference (sfc_owner sfc) (PodNamespace pod) (PodOwners pod) with
  | Err e => mret (Err e)
  | Ok owners => createOrUpdatePod (pod <| PodOwners := owners |>)
  end.

Fixpoint selector_loop (labels : gmap string string) (selector : list (string * string)) : bool :=
  match selector with
  | [] => true
  | (k, v) :: selector =>
      match labels !! k with
      | Some nodeValue => if String.eqb nodeValue v then selector_loop labels selector else false
      | None => false
      end
  end.
Definition matchesNodeSelector (nodeSelector : gmap string string) : KM (result bool) :=
  if bool_decide (nodeSelector = ∅) then mret (Ok true) else
  r ← acts (s_GetNode nodeName);
  match r with
  | GetFound labels => mret (Ok (selector_loop labels (ord _ nodeSelector)))
  | GetNotFound e | GetError e => mret (Err e)
  end.

Fixpoint ensure_functions (sfc : ServiceFunctionChain) (nfs : list NetworkFunction) : KM Reconciled :=
  match nfs with
  | [] => mret finished
  | nf :: nfs =>
      try _ := ensureNetworkFunctionExists sfc nf or (λ e, (mkResult false 60, Some e)) in
      ensure_functions sfc nfs
  end.
Definition SfcReconcile (req : key) : KM Reconciled :=
  r ← acts (s_GetSfc req);
  match r with
  | GetNotFound _ | GetError _ => mret (mkResult true 0, None)
  | GetFound sfc =>
      try matches := matchesNodeSelector (SfcNodeSelector sfc) or (λ _, requeue_after 60) in
      if matches : bool then ensure_functions sfc (NetworkFunctions sfc) else mret finished
  end.
End Reconcile.

(** * Lemmas *)

Lemma selector_loop_spec labels l : selector_loop labels l = true ↔ ∀ k v, (k, v) ∈ l → labels !! k = Some v.
Proof.
  induction l as [|[k v] l IH]; simpl; [split; [by intros _ k v []%elem_of_nil|done]|].
  destruct (labels !! k) as [w|] eqn:E.
  - destruct (String.eqb_spec w v) as [->|Hne].
    + rewrite IH. split; [intros H k' v' [[= -> ->]|H']%elem_of_cons; auto|]. intros H k' v' H'. apply H. by right.
    + split; [done|]. intros H. assert (labels !! k = Some v) by (apply H; by left). congruence.
  - split; [done|]. intros H. assert (labels !! k = Some v) by (apply H; by left). congruence.
Qed.
Lemma selector_subset (ord : order) labels (sel : gmap string string) : is_order ord →
  selector_loop labels (ord _ sel) = true ↔ sel ⊆ labels.
Proof.
  intros Ho. rewrite selector_loop_spec, map_subseteq_spec. setoid_rewrite (Ho _ sel). by setoid_rewrite elem_of_map_to_list.
Qed.

Section Run.
Context {K : Type} `{!SfcAPI K, !HealthyPods K} (ord : order) (Ho : is_order ord) (env : sfc_env) (nodeName : string).

(** The chain may run on the node. *)
Definition selected (s : ServiceFunctionChain) (k : K) : Prop :=
  SfcNodeSelector s = ∅ ∨ ∃ labels, node_labels k !! nodeName = Some labels ∧ SfcNodeSelector s ⊆ labels.
Lemma matchesNodeSelector_run (s : ServiceFunctionChain) k : selected s k →
  matchesNodeSelector ord nodeName (SfcNodeSelector s) k = (k, Ret (Ok true)).
Proof.
  unfold matchesNodeSelector. intros [->|(labels & Hl & Hsel)]; [done|]. case_bool_decide; [done|].
  rewrite (bind_run _ _ _ _ _ (acts_run _ _ _ _ (law_GetNode _ _))), Hl. simpl.
  by rewrite (proj2 (selector_subset ord labels (SfcNodeSelector s) Ho) Hsel).
Qed.
Lemma SfcReconcile_selected req s k : chains k !! req = Some s → selected s k →
  SfcReconcile ord env nodeName req k = ensure_functions env s (NetworkFunctions s) k.
Proof.
  intros Hs Hsel. unfold SfcReconcile. rewrite (bind_run _ _ _ _ _ (acts_run _ _ _ _ (law_GetSfc _ _))), Hs. simpl.
  by rewrite (try_run _ _ _ _ _ _ (matchesNodeSelector_run s k Hsel)).
Qed.

Definition node_pod (s : ServiceFunctionChain) (nf : NetworkFunction) : Pod :=
  networkFunctionPod env (NFName nf) (NFImage nf) (SfcNodeSelector s) <| PodOwners := [controller_ref (sfc_owner s)] |>.
(** An existing pod is written back as it was found. *)
Lemma createOrUpdatePod_run p k : pod_valid p = true →
  ∃ k', createOrUpdatePod p k = (k', Ret (Ok tt)) ∧
    ∃ q, pods k' = <[pod_key p := q]> (pods k) ∧ (∀ q', pods k !! pod_key p = Some q' → q = q').
Proof.
  intros Hv. unfold createOrUpdatePod. rewrite (bind_run _ _ _ _ _ (acts_run _ _ _ _ (law_GetPod _ _))).
  destruct (pods k !! pod_key p) as [q|] eqn:E; simpl.
  - pose proof (law_pod_key _ _ _ E) as Hk. destruct (law_UpdatePod q k q) as (k' & Hu & Hm & _); [by rewrite Hk|done|done|].
    exists k'. split; [by apply acts_err_ok|]. exists q. rewrite Hm, Hk. split; [done|]. by intros q' [= <-].
  - destruct (law_CreatePod p k Hv E) as (k' & q & Hc & _ & Hm & _). exists k'. split; [by apply acts_err_ok|]. by exists q.
Qed.
Lemma ensure_functions_run s nfs k : SfcNamespace s = env_Namespace env → forallb pod_valid (node_pod s <$> nfs) = true →
  ∃ k', ensure_functions env s nfs k = (k', Ret finished) ∧
    (∀ n p, pods k !! n = Some p → pods k' !! n = Some p) ∧
    (∀ n, is_Some (pods k' !! n) ↔ is_Some (pods k !! n) ∨ ∃ nf, nf ∈ nfs ∧ n = (env_Namespace env, NFName nf)).
Proof.
  intros Hns. revert k. induction nfs as [|nf nfs IH]; intros k Hv; simpl.
  { exists k. split; [done|]. split; [done|]. intros n. split; [by left|]. intros [?|(? & []%elem_of_nil & _)]; done. }
  simpl in Hv. apply andb_true_iff in Hv as [Hv1 Hv2].
  destruct (createOrUpdatePod_run (node_pod s nf) k Hv1) as (k1 & Hr & q & Hm & Hq).
  assert (ensureNetworkFunctionExists env s nf k = (k1, Ret (Ok tt))) as Hr'.
  { unfold ensureNetworkFunctionExists. simpl. rewrite SetControllerReference_fresh by by right. exact Hr. }
  rewrite (try_run _ _ _ _ _ _ Hr'). destruct (IH k1 Hv2) as (k' & Hrun & Hkeep & Hdom). exists k'. split; [done|]. split.
  - intros n p Hp. apply Hkeep. rewrite Hm, lookup_insert. case_decide as E; [|done]. subst n. by rewrite (Hq p Hp).
  - intros n. rewrite Hdom, Hm, lookup_insert. setoid_rewrite elem_of_cons. case_decide as E.
    + subst n. split; [intros _; right; exists nf; by split; [left|]|intros _; left; by eexists].
    + split; [intros [?|(nf' & ? & ?)]; [by left|right; exists nf'; tauto]|].
      intros [?|(nf' & [->|?] & ->)]; [by left|done|right; eauto].
Qed.
End Run.

(** * Theorems *)


(** A chain of another namespace never gets a pod from the daemons: the pods are put
    into the operator's namespace, where the chain cannot own them, so every
    reconciliation fails and is repeated after a minute. *)
Theorem sfc_other_namespace {K} `{!SfcAPI K, !HealthyPods K} ord env node req s (k : K) :
  is_order ord → chains k !! req = Some s → selected node s k → SfcNamespace s ≠ "" →
  env_Namespace env ≠ SfcNamespace s → NetworkFunctions s ≠ [] →
  ∃ e, SfcReconcile ord env node req k = (k, Ret (mkResult false 60, Some e)).
Proof.
  intros Ho Hs Hsel Hns Hne Hnf. rewrite (SfcReconcile_selected ord Ho _ _ _ s) by done.
  destruct (NetworkFunctions s) as [|nf nfs]; [done|]. simpl.
  pose proof (SetControllerReference_cross (sfc_owner s) (env_Namespace env) [] Hns Hne) as Hc.
  assert (∃ e, ensureNetworkFunctionExists env s nf k = (k, Ret (Err e))) as [e He].
  { unfold ensureNetworkFunctionExists. simpl. destruct (SetControllerReference _ _ _); [done|]. by eexists. }
  exists e. by rewrite (try_fails _ _ _ _ _ _ He).
Qed.

(** * Witnesses *)
Module NodeDemo.
Import SfcController.SfcDemo.
Definition env_of (ns : string) : sfc_env := from_environment (λ v, if String.eqb v "POD_NAMESPACE" then ns else "").
Definition nodes : server := cluster <| raw_nodes := {["node-1" := {["dpu" := "true"; "zone" := "a"]}]} |>.
Lemma nodes_chain : chains nodes !! ("default", "chain") = Some chain.
Proof. vm_compute. reflexivity. Qed.
Lemma nodes_selected : selected "node-1" chain nodes.
Proof. right. eexists. split; [reflexivity|]. change (SfcNodeSelector chain) with ({["dpu" := "true"]} : gmap string string).
  apply map_subseteq_spec. intros k v. rewrite lookup_singleton_Some. by intros [<- <-]. Qed.
Lemma node_pods_valid : forallb pod_valid (node_pod (env_of "default") chain <$> NetworkFunctions chain) = true.
Proof. vm_compute. reflexivity. Qed.
Lemma fw_asked : ∃ nf, nf ∈ NetworkFunctions chain ∧ ("default", "fw") = (env_Namespace (env_of "default"), NFName nf).
Proof. eexists. split; [by left|reflexivity]. Qed.
End NodeDemo.
Import SfcController.SfcDemo NodeDemo.
Lemma sfc_other_namespace_witness :
  ∃ e, SfcReconcile chain_order (env_of "") "node-1" ("default", "chain") nodes = (nodes, Ret (mkResult false 60, Some e)).
Proof.
  apply (sfc_other_namespace chain_order (env_of "") "node-1" ("default", "chain") chain nodes
    chain_order_ok nodes_chain nodes_selected); discriminate.
Defined.
