(* ===== verification/Cluster.v ===== *)
(** What the operator finds out about its cluster and host, and the settings it derives:
    internal/utils/{cluster_environment,filesystem_mode_detector,path_manager,fileutils}.go,
    internal/images, and the admission webhook of api/v1/dpuoperatorconfig_webhook.go. *)
From S2P Require Import Prelude Plugin GoMonad Kube Controller.
#[local] Open Scope stdpp_scope.

(** * internal/utils/cluster_environment.go *)

Inductive Flavour := OpenShiftFlavour | MicroShiftFlavour | KindFlavour | UnknownFlavour.
#[export] Instance Flavour_eq_dec : EqDecision Flavour.
Proof. solve_decision. Defined.
Definition Flavour_string (f : Flavour) : string :=
  match f with
  | OpenShiftFlavour => "OpenShift" | MicroShiftFlavour => "MicroShift" | KindFlavour => "Kind" | UnknownFlavour => "Unknown"
  end.

(** A node is represented by its images, an image by its names. *)
Class ClusterAPI (K : Type) := {
  c_GetConfigMap : string → string → K → K * get_result unit;
  c_GetCRD : string → K → K * get_result unit;
  c_ListNodes : K → K * result (list (list (list string))) }.

Section Environment.
Context {K : Type} `{!ClusterAPI K}.
Abbreviation KM := (M K).

Definition exists_or (msg : string) (r : get_result unit) : result bool :=
  match r with
  | GetFound _ => Ok true
  | GetNotFound _ => Ok false
  | GetError e => Err (errorf msg e)
  end.
Definition isMicroShift : KM (result bool) :=
  r ← acts (c_GetConfigMap "kube-public" "microshift-version");
  mret (exists_or "Failed to check if running on microshift: " r).
Definition isOpenShift : KM (result bool) :=
  r ← acts (c_GetCRD "clusterversions.config.openshift.io");
  mret (exists_or "Failed to check if running on openshift: " r).
(** The first name of each image; an image without names is an index out of range. *)
Fixpoint kind_image (images : list (list string)) : KM (result bool) :=
  match images with
  | [] => mret (Ok false)
  | [] :: _ => panic
  | (name :: _) :: images => if contains "docker.io/kindest" name then mret (Ok true) else kind_image images
  end.
Definition isKind : KM (result bool) :=
  call nodes := acts c_ListNodes or errorf "failed to list nodes: " in
  match nodes with [images] => kind_image images | _ => mret (Ok false) end.
(** [Flavour] of ClusterEnvironment. *)
Definition DetectFlavour : KM (result Flavour) :=
  call microShift := isMicroShift or (λ e, e) in
  if microShift : bool then mret (Ok MicroShiftFlavour) else
  call openShift := isOpenShift or (λ e, e) in
  if openShift : bool then mret (Ok OpenShiftFlavour) else
  call kind := isKind or (λ e, e) in
  mret (Ok (if kind : bool then KindFlavour else UnknownFlavour)).
End Environment.

(** * internal/utils/filesystem_mode_detector.go *)

Inductive FilesystemMode := ImageMode | PackageMode.
#[export] Instance FilesystemMode_eq_dec : EqDecision FilesystemMode.
Proof. solve_decision. Defined.
Definition FilesystemMode_string (m : FilesystemMode) : string :=
  match m with ImageMode => "ImageMode" | PackageMode => "PackageMode" end.
(** The answer of [Stat], as [os.IsPermission] and [os.IsNotExist] tell it. *)
Inductive stat_result := StatOk | StatPermission | StatNotExist | StatError (e : error).
Fixpoint image_mode_at (stat : string → stat_result) (paths : list string) : result bool :=
  match paths with
  | [] => Ok false
  | path :: paths =>
      match stat path with
      | StatOk | StatPermission => Ok true
      | StatNotExist => image_mode_at stat paths
      | StatError e => Err (errorf ("Failed to check image-based OS status at " +:+ path +:+ ": ") e)
      end
  end.
Definition ostree_paths : list string := ["/host-run/ostree-booted"; "/run/ostree-booted"].
Definition IsImageMode (stat : string → stat_result) : result bool := image_mode_at stat ostree_paths.
Definition IsPackageMode (stat : string → stat_result) : result bool := rmap negb (IsImageMode stat).
Definition DetectMode (stat : string → stat_result) : result FilesystemMode :=
  rmap (λ b : bool, if b then ImageMode else PackageMode) (IsImageMode stat).

(** * internal/utils/path_manager.go *)

Record PathManager := NewPathManager { rootDir : string }.
Definition wrap (p : PathManager) (path : string) : string := Join [rootDir p; path].
Definition CNIServerPath (p : PathManager) : string := wrap p "/var/run/dpu-daemon/dpu-cni/dpu-cni-server.sock".
Definition KubeletEndPoint (p : PathManager) : string := wrap p "/var/lib/kubelet/device-plugins/kubelet.sock".
Definition PluginEndpoint (p : PathManager) : string := wrap p "/var/lib/kubelet/device-plugins/dpuNet.sock".
Definition VendorPluginSocket (p : PathManager) : string := wrap p "/var/run/dpu-daemon/vendor-plugin/vendor-plugin.sock".
Definition CniPath (p : PathManager) : string := "/var/lib/cni/bin/dpu-cni".
Definition CniHostDir (p : PathManager) (clusterFlavour : Flavour) (filesystemMode : FilesystemMode) : result string :=
  match clusterFlavour, filesystemMode with
  | MicroShiftFlavour, ImageMode => Ok (wrap p "/run/cni")
  | OpenShiftFlavour, _ => Ok (wrap p "/var/lib/cni")
  | MicroShiftFlavour, PackageMode | KindFlavour, _ => Ok (wrap p "/opt/cni")
  | UnknownFlavour, _ =>
      Err (Text ("unknown combination of cluster flavour (" +:+ Flavour_string clusterFlavour
                 +:+ ") and filesystem mode (" +:+ FilesystemMode_string filesystemMode +:+ ")"))
  end.

(** The file system as [EnsureSocketDirExists] uses it; a mode is its low nine bits. *)
Class SocketDirs (F : Type) := {
  f_RemoveAll : string → F → F * option error;   (** [None] also when there is nothing *)
  f_Stat : string → F → result (option Z * Z);    (** the owner, when the system tells it, and the mode *)
  f_Remove : string → F → F * option error;       (** [None] also when there is nothing *)
  f_MkdirAll : string → Z → F → F * option error }.
(** [filepath.Dir] of a rooted path with a file name. *)
Definition path_dir (p : string) : string :=
  let dir := Clean ("/" +:+ join "/" (reverse (tail (reverse (tail (split_char "/" p)))))) in dir.
Definition EnsureSocketDirExists {F} `{!SocketDirs F} (serverSocketPath : string) : M F (result unit) :=
  let runDir := path_dir serverSocketPath in
  removed ← acts (f_RemoveAll runDir);
  call _ :=
    match removed with
    | None => ok
    | Some _ =>
        call info := reads (f_Stat runDir) or errorf ("failed to stat old socket directory " +:+ runDir +:+ ": ") in
        let '(owner, mode) := info in
        match owner with
        | None => mret (Err (Text "failed to read socket directory stat info: "))
        | Some uid =>
            if negb (uid =? 0)%Z
            then mret (Err (Text ("insecure owner of socket directory " +:+ runDir +:+ ": " +:+ itoa uid)))
            else if negb (Z.land mode 511 =? 448)%Z
            then mret (Err (Text ("insecure permissions on socket directory " +:+ runDir)))
            else call _ := acts_err (f_Remove serverSocketPath)
                   or errorf ("failed to remove old socket " +:+ serverSocketPath +:+ ": ") in ok
        end
    end or (λ e, e) in
  call _ := acts_err (f_MkdirAll runDir 448) or errorf ("failed to create socket directory " +:+ runDir +:+ ": ") in ok.

(** * internal/utils/fileutils.go

    Files on an [afero.Fs] with their contents and modes.  The failures of the file system
    are arguments: of [Create], of [io.Copy] (with what was written by then), of [Chmod];
    so is the mode of a file that is created. *)
Record file := mkFile { contents : string; mode : Z }.
Definition CopyFile (create_fails : option error) (copy_fails : option (string * error)) (created_mode : Z)
    (src dst : string) (fs : gmap string file) : gmap string file * result unit :=
  match fs !! src with
  | None => (fs, Err (Text ("open " +:+ src +:+ ": file does not exist")))
  | Some s =>
      match create_fails with
      | Some e => (fs, Err e)
      | None =>
          (* [Create] empties the destination, which may be the source *)
          let m := from_option mode created_mode (fs !! dst) in
          let rest := if String.eqb src dst then "" else contents s in
          match copy_fails with
          | Some (written, e) => (<[dst := mkFile written m]> fs, Err e)
          | None => (<[dst := mkFile rest m]> fs, Ok tt)
          end
      end
  end.
Definition Touch (create_fails : option error) (created_mode : Z) (dst : string) (fs : gmap string file)
    : gmap string file * result unit :=
  match create_fails with
  | Some e => (fs, Err (errorf "failed to create file: " e))
  | None => (<[dst := mkFile "" (from_option mode created_mode (fs !! dst))]> fs, Ok tt)
  end.
Definition MakeExecutable (chmod_fails : option error) (f : string) (fs : gmap string file) : gmap string file * result unit :=
  match fs !! f with
  | None => (fs, Err (Text ("stat " +:+ f +:+ ": file does not exist")))
  | Some i =>
      match chmod_fails with
      | Some e => (fs, Err e)
      | None => (<[f := mkFile (contents i) (Z.lor (mode i) 73)]> fs, Ok tt)
      end
  end.

(** * internal/images *)

Definition AllImageKeys : list string :=
  ["DpuOperatorDaemonImage"; "NRIWebhookImage"; "intel_ipu"; "marvell_dpu"; "intel_netsec"; "nvidia_bf"; "xsight";
   "mangoboost"; "IntelVspP4Image"; "MarvellVspCpAgentImage"].
Definition ErrImageNotFound : error := Text "image not found".
Definition is_image_key (key : string) : bool := existsb (String.eqb key) AllImageKeys.
(** [GetImage] of EnvImageManager and of DummyImageManager. *)
Definition env_GetImage (getenv : string → string) (key : string) : result string :=
  if negb (is_image_key key) then Err (Wrap ("invalid image key " +:+ key +:+ ": ") ErrImageNotFound)
  else if String.eqb (getenv key) "" then Err (Wrap ("environment variable " +:+ key +:+ " not set: ") ErrImageNotFound)
  else Ok (getenv key).
Definition dummy_GetImage (key : string) : result string :=
  if negb (is_image_key key) then Err (Wrap ("invalid image key " +:+ key +:+ ": ") ErrImageNotFound)
  else Ok (key +:+ "-mock-image").
Definition MergeVarsWithImages (getImage : string → result string) (keys : list string) (additionalVars : gmap string string)
    : gmap string string :=
  additionalVars ∪ foldl (λ vars key, <[key := match getImage key with Ok v => v | Err _ => "" end]> vars) ∅ keys.

(** * api/v1/dpuoperatorconfig_webhook.go *)

Definition DpuOperatorConfigName : string := "dpu-operator-config".
Definition validateDpuOperatorConfig (name : string) : result unit :=
  if String.eqb name DpuOperatorConfigName then Ok tt
  else Err (Text ("DpuOperatorConfig must have standard name " +:+ quote DpuOperatorConfigName)).
Inductive admission := AdmitCreate (name : string) | AdmitUpdate (oldName name : string) | AdmitDelete (name : string).
Definition validate (a : admission) : result unit :=
  match a with
  | AdmitCreate name | AdmitUpdate _ name => validateDpuOperatorConfig name
  | AdmitDelete _ => Ok tt
  end.

(** * Lemmas *)

(** The variables that win, and the images behind them. *)
Lemma MergeVarsWithImages_lookup getImage keys vars k : MergeVarsWithImages getImage keys vars !! k =
  match vars !! k with
  | Some v => Some v
  | None => if bool_decide (k ∈ keys) then Some (match getImage k with Ok v => v | Err _ => "" end) else None
  end.
Proof.
  unfold MergeVarsWithImages. rewrite lookup_union.
  assert (∀ m, foldl (λ vars key, <[key := match getImage key with Ok v => v | Err _ => "" end]> vars) m keys !! k
    = if bool_decide (k ∈ keys) then Some (match getImage k with Ok v => v | Err _ => "" end) else (m : gmap string string) !! k) as H.
  { induction keys as [|key keys IH]; intros m; simpl; [done|]. rewrite IH, lookup_insert.
    repeat case_bool_decide; repeat case_decide; subst; set_solver. }
  rewrite H, lookup_empty. destruct (vars !! k); [by destruct (if bool_decide _ then _ else _)|]. by destruct (if bool_decide _ then _ else _).
Qed.
Lemma is_image_key_spec k : is_image_key k = true ↔ k ∈ AllImageKeys.
Proof.
  unfold is_image_key. rewrite existsb_exists. split.
  - by intros (x & Hx%list_elem_of_In & ->%String.eqb_eq).
  - intros H%list_elem_of_In. exists k. by rewrite String.eqb_refl.
Qed.

(** * Theorems *)

(** An image is found exactly for a known key whose variable is set. *)
Lemma env_GetImage_spec getenv key v :
  env_GetImage getenv key = Ok v ↔ key ∈ AllImageKeys ∧ getenv key = v ∧ v ≠ "".
Proof.
  unfold env_GetImage. rewrite <-is_image_key_spec. destruct (is_image_key key); simpl; [|naive_solver].
  destruct (String.eqb_spec (getenv key) "") as [E|E]; rewrite ?E; naive_solver.
Qed.
(** Image mode: one of the two files is there, readable or not, and no earlier one gives
    an unexpected error. *)
Lemma IsImageMode_spec stat :
  IsImageMode stat = Ok true ↔
  let hit r := r = StatOk ∨ r = StatPermission in
  hit (stat "/host-run/ostree-booted") ∨ (stat "/host-run/ostree-booted" = StatNotExist ∧ hit (stat "/run/ostree-booted")).
Proof.
  unfold IsImageMode. simpl. destruct (stat "/host-run/ostree-booted"), (stat "/run/ostree-booted"); naive_solver.
Qed.
(** The CNI directory is known for every flavour but the unknown one. *)
Lemma CniHostDir_known p f m : is_ok (CniHostDir p f m) = negb (bool_decide (f = UnknownFlavour)).
Proof. by destruct f, m. Qed.
(** A cluster of one node, without the marks of MicroShift and OpenShift, that has an
    image without a name before any image of kind: detection panics. *)
Lemma flavour_panics {K} `{!ClusterAPI K} (k k1 k2 k3 : K) e1 e2 images :
  c_GetConfigMap "kube-public" "microshift-version" k = (k1, GetNotFound e1) →
  c_GetCRD "clusterversions.config.openshift.io" k1 = (k2, GetNotFound e2) →
  c_ListNodes k2 = (k3, Ok [[] :: images]) →
  DetectFlavour k = (k3, Panic).
Proof.
  intros H1 H2 H3. unfold DetectFlavour, isMicroShift, isOpenShift, isKind, try_bind, mbind, M_bind, acts.
  rewrite H1. simpl. rewrite H2. simpl. by rewrite H3.
Qed.
(** The socket directory: success means that the old one was removed, or was root's
    alone and lost its socket, and that one exists with no access for others. *)
Lemma EnsureSocketDirExists_safe {F} `{!SocketDirs F} path (w w' : F) :
  returns (EnsureSocketDirExists path) w w' (Ok tt) →
  ∃ w1 w2 r, f_RemoveAll (path_dir path) w = (w1, r) ∧ f_MkdirAll (path_dir path) 448 w2 = (w', None) ∧
    (w2 = w1 ∧ r = None ∨
     f_Remove path w1 = (w2, None) ∧ ∃ m, f_Stat (path_dir path) w1 = Ok (Some 0%Z, m) ∧ Z.land m 511 = 448%Z).
Proof.
  unfold EnsureSocketDirExists. intros H. apply bind_returns in H as (w1 & r & Hr & H).
  apply call_returns in H as [(w2 & [] & Hold & H)|(e & _ & [=])].
  apply call_returns in H as [(w3 & [] & Hmk & H)|(e & _ & [=])]. apply ret_returns in H as [<- _].
  unfold returns, acts in Hr. destruct (f_RemoveAll (path_dir path) w) as [w1' r'] eqn:E. simplify_eq.
  exists w1, w2, r. split; [done|]. split; [by apply acts_err_inv|]. destruct r as [e|]; [|left; split; [by apply ret_returns in Hold as [-> _]|done]].
  right. apply call_returns in Hold as [(w3 & [owner m] & Hst & Hold)|(? & _ & [=])].
  unfold returns, reads in Hst. injection Hst as <- Hst. destruct owner as [uid|]; [|by apply ret_returns in Hold as [_ [=]]].
  destruct (Z.eqb_spec uid 0) as [->|]; [|by apply ret_returns in Hold as [_ [=]]]. simpl in Hold.
  destruct (Z.eqb_spec (Z.land m 511) 448) as [Hm|]; [|by apply ret_returns in Hold as [_ [=]]]. simpl in Hold.
  apply call_returns in Hold as [(w4 & [] & Hrm & Hold)|(? & _ & [=])]. apply ret_returns in Hold as [-> _].
  split; [by apply acts_err_inv|]. by exists m.
Qed.
