(* ===== verification/Render.v ===== *)
(** Manifests, pkgs/render/render.go: the templates under bindata are expanded, decoded
    and applied, and what was applied is remembered for a clean-up in reverse order.

    The embedded files and the YAML decoder are arguments; the API server is
    [RenderAPI]. *)
From S2P Require Import Prelude Plugin GoMonad Kube Controller.
#[local] Open Scope stdpp_scope.

(** * Templates

    [text/template] on what the manifests use, texts with references [{{.Key}}] to the
    variables; other actions are refused here.  [missingkey=error]. *)
Inductive piece := Lit (c : ascii) | Field (name : string).
Definition ident_char (c : ascii) : bool :=
  let n := Ascii.nat_of_ascii c in
  ((48 <=? n)%nat && (n <=? 57)%nat) || ((65 <=? n)%nat && (n <=? 90)%nat) || ((97 <=? n)%nat && (n <=? 122)%nat) || (n =? 95)%nat.
(** Inside a reference [action] is the name so far. *)
Fixpoint parse_template (action : option string) (s : string) : result (list piece) :=
  match action, s with
  | None, EmptyString => Ok []
  | None, String "{" (String "{" (String "." s)) => parse_template (Some "") s
  | None, String "{" (String "{" _) => Err (Text "unexpected action")
  | None, String c s => rmap (cons (Lit c)) (parse_template None s)
  | Some _, EmptyString => Err (Text "unclosed action")
  | Some name, String "}" (String "}" s) =>
      if String.eqb name "" then Err (Text "missing name") else rmap (cons (Field name)) (parse_template None s)
  | Some name, String c s =>
      if ident_char c then parse_template (Some (name +:+ String c "")) s else Err (Text "unexpected character")
  end.
Fixpoint execute (vars : gmap string string) (t : list piece) : result string :=
  match t with
  | [] => Ok ""
  | Lit c :: t => rmap (String c) (execute vars t)
  | Field name :: t =>
      match vars !! name with
      | Some v => rmap (λ s, v +:+ s) (execute vars t)
      | None => Err (Text ("map has no entry for key " +:+ quote name))
      end
  end.
Definition ApplyTemplate (contents : string) (vars : gmap string string) : result string :=
  let? t := rerr (errorf "Failed to parse yaml through template: ") (parse_template None contents) in
  rerr (errorf "Failed to Execute template on buffer: ") (execute vars t).

Example template_ex : ApplyTemplate "ns: {{.Namespace}}, {a}" {["Namespace" := "dpu"]} = Ok "ns: dpu, {a}".
Proof. reflexivity. Qed.

(** * Files and objects *)

(** An embedded directory: its entries with whether they are directories; a file's text. *)
Record bindata := mkBindata { ReadDir : string → result (list (string * bool)); ReadFile : string → result string }.
Definition BinDataYamlFiles (dirPath : string) (b : bindata) : result (list string) :=
  rmap (λ dir, sort_by (λ s, s) (omap (λ '(name, isDir), if negb isDir && has_suffix ".yaml" name then Some (Join [dirPath; name]) else None) dir))
    (ReadDir b (Join ["bindata"; dirPath])).

(** An unstructured object: its metadata, and the rest of it as [ObjBody]. *)
Record Object := mkObject {
  ObjAPIVersion : string; ObjKind : string; ObjNamespace : string; ObjName : string;
  ObjLabels : gmap string string; ObjAnnotations : gmap string string; ObjOwners : list OwnerReference;
  ObjResourceVersion : string; ObjUID : string; ObjCreated : string; ObjBody : string }.
#[export] Instance Object_eta : Eta Object := λ o,
  mkObject (ObjAPIVersion o) (ObjKind o) (ObjNamespace o) (ObjName o) (ObjLabels o) (ObjAnnotations o) (ObjOwners o)
    (ObjResourceVersion o) (ObjUID o) (ObjCreated o) (ObjBody o).
Abbreviation okey := (string * string * string * string)%type.
Definition obj_key (o : Object) : okey := (ObjAPIVersion o, ObjKind o, ObjNamespace o, ObjName o).

(** The answer of sriov-network-operator's [apply.ApplyObject]. *)
Inductive apply_result := Applied | ApplyExists (e : error) | ApplyConflict (e : error) | ApplyError (e : error).
Class RenderAPI (K : Type) := {
  r_Get : okey → K → K * get_result Object;
  r_Update : Object → K → K * option error;
  r_ApplyObject : Object → K → K * apply_result;
  r_Delete : Object → K → K * get_result unit }.

(** * The renderer *)

Record ResourceRenderer := mkRenderer { parentKey : string; resources : gmap string Object; rorder : list string }.
#[export] Instance ResourceRenderer_eta : Eta ResourceRenderer := λ r, mkRenderer (parentKey r) (resources r) (rorder r).
Definition NewResourceRenderer (parent : string) : ResourceRenderer := mkRenderer parent ∅ [].
Definition resource_key (o : Object) : string := ObjKind o +:+ "/" +:+ ObjNamespace o +:+ "/" +:+ ObjName o.
Definition trackResource (o : Object) (rr : ResourceRenderer) : ResourceRenderer :=
  match resources rr !! resource_key o with
  | Some _ => rr
  | None => rr <| resources := <[resource_key o := o]> (resources rr) |> <| rorder := rorder rr ++ [resource_key o] |>
  end.

Section Apply.
Context {K : Type} `{!RenderAPI K} (b : bindata) (decode : string → result Object).
Abbreviation KM := (M K).

(** What is kept of the existing object when it is updated. *)
Definition merge_existing (existing obj : Object) : Object :=
  obj <| ObjResourceVersion := ObjResourceVersion existing |> <| ObjUID := ObjUID existing |>
      <| ObjCreated := ObjCreated existing |>
      <| ObjLabels := ObjLabels obj ∪ ObjLabels existing |>
      <| ObjAnnotations := ObjAnnotations obj ∪ ObjAnnotations existing |>.
(** The object of a file, owned by [owner]. *)
Definition render_file (filePath : string) (data : gmap string string) (owner : option Owner) : result Object :=
  let? file := rerr (errorf ("Failed to read file '" +:+ filePath +:+ "': ")) (ReadFile b (Join ["bindata"; filePath])) in
  let? applied := rerr (errorf ("Failed to apply template on '" +:+ filePath +:+ "': ")) (ApplyTemplate file data) in
  let? obj := decode applied in
  match owner with
  | Some o => rmap (λ owners, obj <| ObjOwners := owners |>) (SetControllerReference o (ObjNamespace obj) (ObjOwners obj))
  | None => Ok obj
  end.
Definition apply_object (obj : Object) : KM (result Object) :=
  cur ← acts (r_Get (obj_key obj));
  match cur with
  | GetFound existing =>
      let obj := merge_existing existing obj in
      call _ := acts_err (r_Update obj) or errorf "failed to update resource: " in
      mret (Ok obj)
  | GetError e => mret (Err (errorf "failed to check existing resource: " e))
  | GetNotFound _ =>
      r ← acts (r_ApplyObject obj);
      mret (match r with
            | Applied | ApplyExists _ | ApplyConflict _ => Ok obj
            | ApplyError e => Err (errorf "failed to apply object with err: " e)
            end)
  end.
Definition applyObjectFromBinData (filePath : string) (data : gmap string string) (owner : option Owner) : KM (result Object) :=
  match render_file filePath data owner with
  | Err e => mret (Err e)
  | Ok obj => apply_object obj
  end.

(** The API server and the renderer. *)
Definition on_api {A} (f : KM A) : M (K * ResourceRenderer) A := λ w, let '(k, a) := f w.1 in ((k, w.2), a).
Definition on_rr (f : ResourceRenderer → ResourceRenderer) : M (K * ResourceRenderer) unit := λ w, ((w.1, f w.2), Ret tt).
Fixpoint apply_files (files : list string) (data : gmap string string) (owner : option Owner) : M (K * ResourceRenderer) (result unit) :=
  match files with
  | [] => ok
  | f :: files =>
      call obj := on_api (applyObjectFromBinData f data owner) or (λ e, e) in
      _ ← on_rr (trackResource obj);
      apply_files files data owner
  end.
(** [ApplyAllFromBinData] of a ResourceRenderer. *)
Definition ApplyAllFromBinData (binDataPath : string) (data : gmap string string) (owner : option Owner)
    : M (K * ResourceRenderer) (result unit) :=
  match BinDataYamlFiles binDataPath b with
  | Err e => mret (Err e)
  | Ok files => apply_files files data owner
  end.

(** ** Clean-up

    The wait for an object to go: at most [polls] questions, 100 ms apart, in 300 s. *)
Fixpoint wait_gone (polls : nat) (o : Object) : KM (result unit) :=
  match polls with
  | O => mret (Err (Text "context deadline exceeded"))
  | S polls =>
      r ← acts (r_Get (obj_key o));
      match r with
      | GetNotFound _ => ok
      | GetError e => mret (Err e)
      | GetFound _ => wait_gone polls o
      end
  end.
Fixpoint cleanup_loop (polls : nat) (rs : gmap string Object) (keys : list string) (errs : list error) : KM (list error) :=
  match keys with
  | [] => mret errs
  | key :: keys =>
      match rs !! key with
      | None => cleanup_loop polls rs keys errs
      | Some resource =>
          d ← acts (r_Delete resource);
          match d with
          | GetNotFound _ => cleanup_loop polls rs keys errs
          | GetError e => cleanup_loop polls rs keys (errs ++ [errorf ("failed to delete " +:+ key +:+ ": ") e])
          | GetFound _ =>
              r ← wait_gone polls resource;
              cleanup_loop polls rs keys
                (match r with Ok _ => errs | Err e => errs ++ [errorf ("timeout waiting for deletion of " +:+ key +:+ ": ") e] end)
          end
      end
  end.
Definition CleanupResourcesInReverseOrder (polls : nat) : M (K * ResourceRenderer) (result unit) := λ w,
  match rorder w.2 with
  | [] => (w, Ret (Ok tt))
  | order =>
      (errs ← on_api (cleanup_loop polls (resources w.2) (reverse order) []);
       _ ← on_rr (λ rr, rr <| resources := ∅ |> <| rorder := [] |>);
       mret (match errs with
             | [] => Ok tt
             | _ => Err (Text ("cleanup errors: " +:+ join " " (Error <$> errs)))
             end)) w
  end.
End Apply.

(** * Lemmas *)

(** ** Templates *)

Definition print_piece (p : piece) : string :=
  match p with Lit c => String c "" | Field name => "{{." +:+ name +:+ "}}" end.
Definition print_template (t : list piece) : string := foldr (λ p s, print_piece p +:+ s) "" t.
(** Names are identifiers, and no brace of the text is followed by another. *)
Fixpoint template_ok (t : list piece) : bool :=
  match t with
  | [] => true
  | Field name :: t => negb (String.eqb name "") && all_char ident_char name && template_ok t
  | Lit "{" :: t => negb (has_prefix "{" (print_template t)) && template_ok t
  | Lit _ :: t => template_ok t
  end.
Lemma parse_action name acc s : all_char ident_char name = true →
  parse_template (Some acc) (name +:+ s) = parse_template (Some (acc +:+ name)) s.
Proof.
  revert acc. induction name as [|c name IH]; intros acc H; simpl in *; [by rewrite string_app_nil_r|].
  apply andb_prop in H as [Hc H]. rewrite Hc.
  destruct (Ascii.eqb_spec c "}") as [->|Hne]; [done|].
  assert (∀ (x y : result (list piece)), match c, name +:+ s with "}"%char, String "}" s => x | _, _ => y end = y) as E.
  { intros x y. by destruct c as [[] [] [] [] [] [] [] []]. }
  transitivity (parse_template (Some (acc +:+ String c "")) (name +:+ s)).
  - by destruct c as [[] [] [] [] [] [] [] []].
  - rewrite IH by done. by rewrite string_app_assoc.
Qed.
Lemma parse_print t : template_ok t = true → parse_template None (print_template t) = Ok t.
Proof.
  induction t as [|[c|name] t IH]; [done|..]; intros H.
  - assert (template_ok t = true ∧ (c = "{"%char → has_prefix "{" (print_template t) = false)) as [Ht Hc].
    { simpl in H. destruct (Ascii.eqb_spec c "{") as [->|Hne].
      - rewrite andb_true_iff, negb_true_iff in H. tauto.
      - split; [|done]. by destruct c as [[] [] [] [] [] [] [] []]. }
    change (print_template (Lit c :: t)) with (String c (print_template t)).
    transitivity (rmap (cons (Lit c)) (parse_template None (print_template t))); [|by rewrite IH].
    clear H IH Ht. destruct (Ascii.eqb_spec c "{") as [->|Hne].
    + specialize (Hc eq_refl). destruct (print_template t) as [|d s]; [done|]. simpl in Hc.
      destruct (Ascii.eqb_spec "{" d) as [<-|]; [done|]. clear Hc. simpl. by destruct d as [[] [] [] [] [] [] [] []].
    + by destruct c as [[] [] [] [] [] [] [] []].
  - simpl in H. rewrite !andb_true_iff, negb_true_iff in H. destruct H as [[Hn Hi] Ht].
    change (print_template (Field name :: t)) with (("{{." +:+ name +:+ "}}") +:+ print_template t).
    rewrite !string_app_assoc. simpl. rewrite parse_action by done. simpl. by rewrite Hn, IH.
Qed.
Definition piece_value (vars : gmap string string) (p : piece) : string :=
  match p with Lit c => String c "" | Field name => default "" (vars !! name) end.
Definition instantiate (vars : gmap string string) (t : list piece) : string := foldr (λ p s, piece_value vars p +:+ s) "" t.
Definition all_defined (vars : gmap string string) (t : list piece) : bool :=
  forallb (λ p, match p with Field name => bool_decide (is_Some (vars !! name)) | Lit _ => true end) t.
Lemma execute_spec vars t :
  if all_defined vars t then execute vars t = Ok (instantiate vars t) else is_ok (execute vars t) = false.
Proof.
  induction t as [|[c|name] t IH]; simpl; [done|..].
  - destruct (all_defined vars t); simpl in *; [by rewrite IH|]. by destruct (execute vars t).
  - destruct (vars !! name) as [v|]; [|by rewrite bool_decide_eq_false_2 by by intros []].
    rewrite bool_decide_eq_true_2 by eauto. simpl. destruct (all_defined vars t); simpl in *; [by rewrite IH|].
    by destruct (execute vars t).
Qed.

(** ** Tracking *)

Record tracked (rr : ResourceRenderer) : Prop := {
  tracked_NoDup : NoDup (rorder rr);
  tracked_dom k : k ∈ rorder rr ↔ is_Some (resources rr !! k);
  tracked_key k o : resources rr !! k = Some o → resource_key o = k }.
Lemma tracked_new parent : tracked (NewResourceRenderer parent).
Proof.
  split; simpl; [constructor| |].
  - intros k. rewrite lookup_empty, elem_of_nil. split; [done|by intros []].
  - intros k o. by rewrite lookup_empty.
Qed.
Lemma trackResource_tracked o rr : tracked rr → tracked (trackResource o rr).
Proof.
  intros [Hn Hd Hk]. unfold trackResource. destruct (resources rr !! resource_key o) as [o'|] eqn:E; [done|].
  split; simpl.
  - apply NoDup_app. split; [done|]. split; [|apply NoDup_singleton]. intros k H1 ->%list_elem_of_singleton.
    apply Hd in H1 as [? H1]. congruence.
  - intros k. rewrite elem_of_app, list_elem_of_singleton, lookup_insert, Hd. case_decide; subst; naive_solver.
  - intros k q. rewrite lookup_insert. case_decide; [naive_solver|apply Hk].
Qed.
Lemma trackResource_lookup o rr k : resources (trackResource o rr) !! k =
  match resources rr !! k with
  | Some q => Some q
  | None => if decide (resource_key o = k) then Some o else None
  end.
Proof.
  unfold trackResource. destruct (resources rr !! resource_key o) as [o'|] eqn:E; simpl.
  - case_decide as Hd; [|by destruct (resources rr !! k)]. subst k. by rewrite E.
  - rewrite lookup_insert. case_decide as Hd; [|by destruct (resources rr !! k)]. subst k. by rewrite E.
Qed.

(** * A healthy API server *)

Class HealthyObjects (K : Type) `{!RenderAPI K} := {
  objects : K → gmap okey Object;
  law_obj_key k n o : objects k !! n = Some o → obj_key o = n;
  law_obj_Get n k : r_Get n k = (k, found (objects k !! n));
  law_obj_Update o k old : objects k !! obj_key o = Some old →
    ∃ k', r_Update o k = (k', None) ∧ objects k' = <[obj_key o := o]> (objects k);
  law_obj_Apply o k : objects k !! obj_key o = None →
    ∃ k', r_ApplyObject o k = (k', Applied) ∧ objects k' = <[obj_key o := o]> (objects k);
  law_obj_Delete o k : ∃ k', objects k' = delete (obj_key o) (objects k) ∧
    r_Delete o k = (k', match objects k !! obj_key o with Some _ => GetFound tt | None => GetNotFound (Text "not found") end) }.

(** The object that is in the cluster for a rendered one, which may have been merged
    with one that was there before. *)
Definition shown_as (old : option Object) (o o' : Object) : Prop :=
  obj_key o' = obj_key o ∧ ObjBody o' = ObjBody o ∧ ObjOwners o' = ObjOwners o ∧
  match old with
  | None => o' = o
  | Some x => ObjUID o' = ObjUID x ∧ ObjResourceVersion o' = ObjResourceVersion x ∧
      ObjLabels o' = ObjLabels o ∪ ObjLabels x ∧ ObjAnnotations o' = ObjAnnotations o ∪ ObjAnnotations x
  end.

Section Run.
Context {K : Type} `{!RenderAPI K, !HealthyObjects K} (b : bindata) (decode : string → result Object).

Lemma apply_object_run o (k : K) :
  ∃ k' o', apply_object o k = (k', Ret (Ok o')) ∧ objects k' = <[obj_key o := o']> (objects k) ∧
    shown_as (objects k !! obj_key o) o o'.
Proof.
  unfold apply_object. rewrite (bind_run _ _ _ _ _ (acts_run _ _ _ _ (law_obj_Get _ _))).
  destruct (objects k !! obj_key o) as [x|] eqn:E; simpl.
  - destruct (law_obj_Update (merge_existing x o) k x E) as (k' & Hu & Hm). exists k', (merge_existing x o).
    unfold try_bind. rewrite (bind_run _ _ _ _ _ (acts_err_ok _ _ _ Hu)). done.
  - destruct (law_obj_Apply o k E) as (k' & Ha & Hm). exists k', o.
    rewrite (bind_run _ _ _ _ _ (acts_run _ _ _ _ Ha)). done.
Qed.
Lemma shown_as_key x o o' : shown_as x o o' → resource_key o' = resource_key o.
Proof. intros (Hk & _). unfold resource_key. unfold obj_key in Hk. by injection Hk as _ -> -> ->. Qed.

(** Applying files whose objects are different. *)
Lemma apply_files_run data owner files objs k rr :
  Forall2 (λ f o, render_file b decode f data owner = Ok o) files objs → NoDup (obj_key <$> objs) →
  ∃ k' rr', apply_files b decode files data owner (k, rr) = ((k', rr'), Ret (Ok tt)) ∧
    (∀ o, o ∈ objs → ∃ o', objects k' !! obj_key o = Some o' ∧ shown_as (objects k !! obj_key o) o o') ∧
    (∀ n, n ∉ obj_key <$> objs → objects k' !! n = objects k !! n) ∧
    (tracked rr → tracked rr') ∧
    (∀ r x, resources rr !! r = Some x → resources rr' !! r = Some x) ∧
    (∀ r x, resources rr' !! r = Some x → resources rr !! r = Some x ∨ ∃ o, o ∈ objs ∧ obj_key x = obj_key o) ∧
    (∀ o, o ∈ objs → is_Some (resources rr' !! resource_key o)).
Proof.
  intros HF. revert k rr. induction HF as [|f o files objs Hf HF IH]; intros k rr Hn; simpl.
  { exists k, rr. split; [done|]. split; [by intros o []%elem_of_nil|]. do 3 (split; [done|]). split; [by left|]. by intros o []%elem_of_nil. }
  apply NoDup_cons in Hn as [Ho Hn]. destruct (apply_object_run o k) as (k1 & o1 & Hr & Hm & Hs).
  destruct (IH k1 (trackResource o1 rr) Hn) as (k' & rr' & Hrun & Hobj & Hother & Htr & Hkeep & Hnew & Hin).
  assert (on_api (applyObjectFromBinData b decode f data owner) (k, rr) = ((k1, rr), Ret (Ok o1))) as Hon.
  { unfold on_api, applyObjectFromBinData. simpl. by rewrite Hf, Hr. }
  exists k', rr'. split; [|split; [|split; [|split; [|split; [|split]]]]].
  - unfold try_bind. by rewrite (bind_run _ _ _ _ _ Hon).
  - intros q [->|Hq]%elem_of_cons.
    + exists o1. rewrite Hother, Hm by done. by rewrite lookup_insert_eq.
    + destruct (Hobj q Hq) as (q' & Hq1 & Hq2). exists q'. split; [done|].
      rewrite Hm, lookup_insert_ne in Hq2; [done|]. intros E. apply Ho. rewrite E. by apply list_elem_of_fmap_2.
  - intros n [Hne Hnin]%not_elem_of_cons. rewrite Hother, Hm by done. by rewrite lookup_insert_ne by congruence.
  - intros H. by apply Htr, trackResource_tracked.
  - intros r x Hx. apply Hkeep. by rewrite trackResource_lookup, Hx.
  - intros r x Hx. destruct (Hnew r x Hx) as [H|(q & Hq & E)]; [|right; exists q; split; [by right|done]].
    rewrite trackResource_lookup in H. destruct (resources rr !! r); [by left|]. case_decide; [|done]. injection H as <-.
    right. exists o. split; [by left|]. by destruct Hs.
  - intros q [->|Hq]%elem_of_cons; [|by apply Hin].
    destruct (resources (trackResource o1 rr) !! resource_key o) as [x|] eqn:E; [eexists; by apply Hkeep|].
    rewrite trackResource_lookup, (shown_as_key _ _ _ Hs) in E. destruct (resources rr !! resource_key o); [done|].
    by rewrite decide_True in E.
Qed.

(** Clean-up deletes what is tracked and nothing else. *)
Lemma wait_gone_run polls o (k : K) : objects k !! obj_key o = None → wait_gone (S polls) o k = (k, Ret (Ok tt)).
Proof. intros H. simpl. by rewrite (bind_run _ _ _ _ _ (acts_run _ _ _ _ (law_obj_Get _ _))), H. Qed.
Lemma cleanup_loop_run polls rs keys errs k :
  ∃ k', cleanup_loop (S polls) rs keys errs k = (k', Ret errs) ∧
    ∀ n, ((∃ r x, r ∈ keys ∧ rs !! r = Some x ∧ obj_key x = n) → objects k' !! n = None) ∧
         ((∀ r x, r ∈ keys → rs !! r = Some x → obj_key x ≠ n) → objects k' !! n = objects k !! n).
Proof.
  revert k. induction keys as [|r keys IH]; intros k; cbn [cleanup_loop].
  { exists k. split; [done|]. intros n. split; [by intros (r & x & []%elem_of_nil & _)|done]. }
  destruct (rs !! r) as [x|] eqn:Er.
  - destruct (law_obj_Delete x k) as (k1 & Hm & Hd). destruct (IH k1) as (k' & Hr & Hk'). exists k'.
    rewrite (bind_run _ _ _ _ _ (acts_run _ _ _ _ Hd)). split.
    + destruct (objects k !! obj_key x); [|done]. rewrite (bind_run _ _ k1 k1 (Ok tt)); [done|].
      apply wait_gone_run. rewrite Hm. apply lookup_delete_eq.
    + assert (∀ n, objects k1 !! n = None → objects k' !! n = None) as Hgone.
      { intros n Hn. destruct (Hk' n) as [H1 H2]. destruct (decide (Exists (λ r, obj_key <$> rs !! r = Some n) keys)) as [H|H].
        - apply Exists_exists in H as (r' & Hr' & (x' & Hx' & E)%fmap_Some). apply H1. eauto.
        - rewrite H2; [done|]. intros r' x' Hr' Hx' E. apply H, Exists_exists. exists r'. by rewrite Hx', <-E. }
      intros n. destruct (Hk' n) as [H1 H2]. split.
      * intros (r' & x' & [->|Hr']%elem_of_cons & Hx' & <-); [|apply H1; eauto].
        rewrite Er in Hx'. injection Hx' as <-. apply Hgone. rewrite Hm. apply lookup_delete_eq.
      * intros H. rewrite H2, Hm; [|intros r' x' Hr'; apply H; by right]. rewrite lookup_delete_ne; [done|]. apply (H r); [by left|done].
  - destruct (IH k) as (k' & Hr & Hk'). exists k'. split; [done|]. intros n. destruct (Hk' n) as [H1 H2]. split.
    + intros (r' & x & [->|Hr']%elem_of_cons & Hx & <-); [congruence|apply H1; eauto].
    + intros H. apply H2. intros r' x Hr'. apply H. by right.
Qed.
Lemma cleanup_run polls k rr : tracked rr →
  ∃ k', CleanupResourcesInReverseOrder (S polls) (k, rr) = ((k', rr <| resources := ∅ |> <| rorder := [] |>), Ret (Ok tt)) ∧
    ∀ n, ((∃ r x, resources rr !! r = Some x ∧ obj_key x = n) → objects k' !! n = None) ∧
         ((∀ r x, resources rr !! r = Some x → obj_key x ≠ n) → objects k' !! n = objects k !! n).
Proof.
  intros [Hn Hd Hk]. unfold CleanupResourcesInReverseOrder. simpl. destruct (rorder rr) as [|r0 rs] eqn:E.
  - assert (resources rr = ∅) as Hempty.
    { apply map_eq. intros r. rewrite lookup_empty. destruct (resources rr !! r) as [x|] eqn:Ex; [|done].
      assert (r ∈ []) as []%elem_of_nil by (apply Hd; eauto). }
    exists k. split; [destruct rr; simpl in *; by subst|]. intros n. rewrite Hempty. split; [|done].
    by intros (r & x & H & _).
  - destruct (cleanup_loop_run polls (resources rr) (reverse (r0 :: rs)) [] k) as (k' & Hr & Hk').
    exists k'. split.
    + assert (on_api (cleanup_loop (S polls) (resources rr) (reverse (r0 :: rs)) []) (k, rr) = ((k', rr), Ret [])) as Hon.
      { unfold on_api. simpl fst. by rewrite Hr. }
      by rewrite (bind_run _ _ _ _ _ Hon).
    + intros n. destruct (Hk' n) as [H1 H2]. setoid_rewrite elem_of_reverse in H1. setoid_rewrite elem_of_reverse in H2.
      split; [|intros H; apply H2; intros r x _; apply H].
      intros (r & x & Hx & Hn'). apply H1. exists r, x. split; [apply Hd; eauto|done].
Qed.
End Run.

Lemma apply_files_parent {K} `{!RenderAPI K} b decode data owner files (k : K) rr k' rr' r :
  apply_files b decode files data owner (k, rr) = ((k', rr'), Ret r) → parentKey rr' = parentKey rr.
Proof.
  assert (preserves (λ w : K * ResourceRenderer, parentKey w.2) (apply_files b decode files data owner)) as H.
  { induction files as [|f files IH]; [done|]. simpl. apply preserves_call.
    - intros [k0 rr0]. unfold on_api. simpl. by destruct (applyObjectFromBinData b decode f data owner k0).
    - intros o. apply preserves_bind; [|done]. intros [k0 rr0]. simpl. unfold trackResource. by destruct (_ !! _). }
  intros Hr. specialize (H (k, rr)). by rewrite Hr in H.
Qed.
Lemma cleanup_order {K} `{!RenderAPI K} polls (w : K * ResourceRenderer) w' r :
  CleanupResourcesInReverseOrder polls w = (w', Ret r) → rorder w'.2 = [].
Proof.
  unfold CleanupResourcesInReverseOrder. destruct (rorder w.2) as [|r0 rs] eqn:E; [by intros [= <- <-]|].
  unfold mbind, M_bind, on_api, on_rr. destruct (cleanup_loop _ _ _ _ _) as [k [errs|]]; [|done]. by intros [= <- _].
Qed.
Lemma NoDup_fmap_elem {A B} (f : A → B) (l : list A) x y : NoDup (f <$> l) → x ∈ l → y ∈ l → f x = f y → x = y.
Proof.
  induction l as [|z l IH]; [by intros _ []%elem_of_nil|]. intros [Hz Hn]%NoDup_cons Hx Hy E.
  apply elem_of_cons in Hx as [->|Hx], Hy as [->|Hy]; [done|..|by apply IH].
  - exfalso. apply Hz. rewrite E. by apply list_elem_of_fmap_2.
  - exfalso. apply Hz. rewrite <-E. by apply list_elem_of_fmap_2.
Qed.

(** * Theorems *)


(** On a healthy server, applying a directory whose files render to different
    objects puts each of them into the cluster, owned and with the content of its file
    (labels and annotations of one that was there are kept unless the file sets them),
    touches nothing else, and tracks them all. *)
Theorem apply_all_shows {K} `{!RenderAPI K, !HealthyObjects K} b decode path data owner files objs (k : K) rr :
  BinDataYamlFiles path b = Ok files → Forall2 (λ f o, render_file b decode f data owner = Ok o) files objs →
  NoDup (obj_key <$> objs) → tracked rr →
  ∃ k' rr', ApplyAllFromBinData b decode path data owner (k, rr) = ((k', rr'), Ret (Ok tt)) ∧ tracked rr' ∧
    (∀ o, o ∈ objs → is_Some (resources rr' !! resource_key o) ∧
       ∃ o', objects k' !! obj_key o = Some o' ∧ shown_as (objects k !! obj_key o) o o') ∧
    (∀ n, n ∉ obj_key <$> objs → objects k' !! n = objects k !! n).
Proof.
  intros Hfiles HF Hn Hrr. destruct (apply_files_run b decode data owner files objs k rr HF Hn)
    as (k' & rr' & Hr & H1 & H2 & Ht & _ & _ & H3).
  exists k', rr'. unfold ApplyAllFromBinData. rewrite Hfiles. split; [done|]. split; [by apply Ht|]. split; [|done].
  intros o Ho. split; [by apply H3|by apply H1].
Qed.

(** C36: cleaning up after applying removes exactly the objects of the manifests, when
    their kinds, namespaces and names differ, and leaves the renderer empty. *)
Theorem apply_then_cleanup {K} `{!RenderAPI K, !HealthyObjects K} b decode path data owner files objs (k : K) parent polls :
  BinDataYamlFiles path b = Ok files → Forall2 (λ f o, render_file b decode f data owner = Ok o) files objs →
  NoDup (resource_key <$> objs) → (0 < polls)%nat →
  ∃ w k', ApplyAllFromBinData b decode path data owner (k, NewResourceRenderer parent) = (w, Ret (Ok tt)) ∧
    CleanupResourcesInReverseOrder polls w = ((k', NewResourceRenderer parent), Ret (Ok tt)) ∧
    ∀ n, objects k' !! n = if bool_decide (n ∈ obj_key <$> objs) then None else objects k !! n.
Proof.
  intros Hfiles HF Hn Hp. destruct polls as [|polls]; [lia|].
  assert (NoDup (obj_key <$> objs)) as Hn'.
  { apply (NoDup_fmap_1 (λ n : okey, n.1.1.2 +:+ "/" +:+ n.1.2 +:+ "/" +:+ n.2)). by rewrite <-list_fmap_compose. }
  destruct (apply_files_run b decode data owner files objs k (NewResourceRenderer parent) HF Hn')
    as (k1 & rr' & Hr & _ & Hother & Ht & _ & Hnew & Hin). specialize (Ht (tracked_new parent)).
  destruct (cleanup_run polls k1 rr' Ht) as (k' & Hc & Hk').
  exists (k1, rr'), k'. unfold ApplyAllFromBinData. rewrite Hfiles. split; [done|].
  assert (parentKey rr' = parent) as Hpar by by apply (apply_files_parent b decode data owner files k (NewResourceRenderer parent) k1 rr' (Ok tt)).
  split; [rewrite Hc; unfold NewResourceRenderer; by rewrite <-Hpar|].
  assert (∀ r x, resources rr' !! r = Some x → ∃ o, o ∈ objs ∧ obj_key x = obj_key o) as Hnew'.
  { intros r x Hx. destruct (Hnew r x Hx) as [H|H]; [|done]. simpl in H. by rewrite lookup_empty in H. }
  intros n. destruct (Hk' n) as [H1 H2]. case_bool_decide as E.
  - apply list_elem_of_fmap in E as (o & -> & Ho). apply H1. destruct (Hin o Ho) as [x Hx]. exists (resource_key o), x.
    split; [done|]. destruct (Hnew' _ _ Hx) as (q & Hq & Eq). rewrite Eq. f_equal.
    apply (tracked_key _ Ht) in Hx. assert (resource_key q = resource_key o) as Hqo.
    { rewrite <-Hx. unfold resource_key. unfold obj_key in Eq. by injection Eq as _ -> -> ->. }
    by apply (NoDup_fmap_elem resource_key objs).
  - rewrite H2, Hother; [done|done|]. intros r x Hx <-. apply E. destruct (Hnew' _ _ Hx) as (q & Hq & ->). by apply list_elem_of_fmap_2.
Qed.

(** A clean-up that fails forgets the objects it could not delete: repeated, it
    succeeds at once and deletes nothing. *)
Theorem cleanup_forgets {K} `{!RenderAPI K} polls (w : K * ResourceRenderer) w' r :
  CleanupResourcesInReverseOrder polls w = (w', Ret r) →
  rorder w'.2 = [] ∧ ∀ polls', CleanupResourcesInReverseOrder polls' w' = (w', Ret (Ok tt)).
Proof.
  intros H. assert (rorder w'.2 = []) as E by by eapply cleanup_order.
  split; [done|]. intros polls'. unfold CleanupResourcesInReverseOrder. by rewrite E.
Qed.

(** * Witnesses *)
Module RenderDemo.
(** A server with a map of objects, each served under its own key. *)
Abbreviation store := (gmap okey Object).
Definition served (s : store) : store := filter (λ no, obj_key no.2 = no.1) s.
#[export] Instance store_api : RenderAPI store :=
  {| r_Get n s := (s, found (served s !! n));
     r_Update o s := (<[obj_key o := o]> s, None);
     r_ApplyObject o s := (<[obj_key o := o]> s, Applied);
     r_Delete o s := (delete (obj_key o) s,
       match served s !! obj_key o with Some _ => GetFound tt | None => GetNotFound (Text "not found") end) |}.
#[export] Instance store_healthy : HealthyObjects store.
Proof.
  refine {| objects := served |}.
  - by intros s n o [_ H]%map_lookup_filter_Some.
  - done.
  - intros o s old _. eexists. split; [done|]. unfold served. by rewrite map_filter_insert_True.
  - intros o s _. eexists. split; [done|]. unfold served. by rewrite map_filter_insert_True.
  - intros o s. eexists. split; [|done]. unfold served. by rewrite map_filter_delete.
Defined.
(** Manifests of the form kind/namespace/name. *)
Definition decode (s : string) : result Object :=
  match split_char "/" s with
  | [kind; ns; name] => Ok (mkObject "v1" kind ns name ∅ ∅ [] "" "" "" s)
  | _ => Err (Text "not an object")
  end.
Definition files : bindata := mkBindata
  (λ d, if String.eqb d "bindata/daemon" then Ok [("02.sa.yaml", false); ("01.role.yaml", false); ("README.md", false)] else Err (Text "no directory"))
  (λ f, if String.eqb f "bindata/daemon/01.role.yaml" then Ok "Role/{{.Namespace}}/daemon"
        else if String.eqb f "bindata/daemon/02.sa.yaml" then Ok "ServiceAccount/{{.Namespace}}/daemon" else Err (Text "no file")).
Definition vars : gmap string string := {["Namespace" := "dpu"]}.
Definition owner : Owner := mkOwner "config.openshift.io/v1" "DpuOperatorConfig" "" "dpu-operator-config" "uid".
Definition role : Object := mkObject "v1" "Role" "dpu" "daemon" ∅ ∅ [controller_ref owner] "" "" "" "Role/dpu/daemon".
Definition sa : Object := mkObject "v1" "ServiceAccount" "dpu" "daemon" ∅ ∅ [controller_ref owner] "" "" "" "ServiceAccount/dpu/daemon".
Lemma files_listed : BinDataYamlFiles "daemon" files = Ok ["daemon/01.role.yaml"; "daemon/02.sa.yaml"].
Proof. vm_compute. reflexivity. Qed.
Lemma files_render : Forall2 (λ f o, render_file files decode f vars (Some owner) = Ok o) ["daemon/01.role.yaml"; "daemon/02.sa.yaml"] [role; sa].
Proof. repeat constructor; vm_compute; reflexivity. Qed.
Lemma keys_differ : NoDup (obj_key <$> [role; sa]).
Proof. apply NoDup_cons. split; [by intros [=]%list_elem_of_singleton|apply NoDup_singleton]. Qed.
Lemma names_differ : NoDup (resource_key <$> [role; sa]).
Proof. apply NoDup_cons. split; [by intros [=]%list_elem_of_singleton|apply NoDup_singleton]. Qed.
(** A server that refuses to delete. *)
Definition refusing_api : RenderAPI store :=
  {| r_Get := r_Get; r_Update := r_Update; r_ApplyObject := r_ApplyObject;
     r_Delete _ s := (s, GetError (Text "forbidden")) |}.
Definition tracking : ResourceRenderer := trackResource role (NewResourceRenderer "dpu/config").
Definition refused := CleanupResourcesInReverseOrder (RenderAPI0 := refusing_api) 10 (∅, tracking).
End RenderDemo.
Import RenderDemo.
Lemma apply_all_shows_witness :
  ∃ k' rr', ApplyAllFromBinData files decode "daemon" vars (Some owner) (∅ : store, NewResourceRenderer "dpu/config") = ((k', rr'), Ret (Ok tt))
    ∧ ∃ o', objects k' !! obj_key sa = Some o' ∧ shown_as None sa o'.
Proof.
  destruct (apply_all_shows files decode "daemon" vars (Some owner) _ _ ∅ (NewResourceRenderer "dpu/config")
    files_listed files_render keys_differ (tracked_new _)) as (k' & rr' & H & _ & Hs & _).
  exists k', rr'. split; [exact H|]. exact (proj2 (Hs sa (list_elem_of_further _ _ _ (list_elem_of_here _ _)))).
Defined.
Lemma apply_then_cleanup_witness :
  ∃ w k', ApplyAllFromBinData files decode "daemon" vars (Some owner) (∅ : store, NewResourceRenderer "dpu/config") = (w, Ret (Ok tt))
    ∧ CleanupResourcesInReverseOrder 3000 w = ((k', NewResourceRenderer "dpu/config"), Ret (Ok tt)).
Proof.
  destruct (apply_then_cleanup files decode "daemon" vars (Some owner) _ _ ∅ "dpu/config" 3000
    files_listed files_render names_differ ltac:(lia)) as (w & k' & H1 & H2 & _).
  exists w, k'. split; [exact H1|exact H2].
Defined.
Lemma cleanup_forgets_witness :
  ∃ w e, refused = (w, Ret (Err e)) ∧ CleanupResourcesInReverseOrder 10 (RenderAPI0 := refusing_api) w = (w, Ret (Ok tt)).
Proof.
  eexists _, _. split; [reflexivity|]. exact (proj2 (cleanup_forgets (RenderAPI0 := refusing_api) 10 (∅, tracking) _ _ eq_refl) 10%nat).
Defined.
