(* ===== verification/OperatorConfig.v ===== *)
(** The controller of the operator's configuration,
    internal/controller/dpuoperatorconfig_controller.go: it deploys the daemon, the
    network attachments, the resources injector and what the vendor processes share,
    reports the outcome in a Ready condition, and cleans up before the configuration is
    deleted, which a finalizer delays. *)
From S2P Require Import Prelude Plugin GoMonad Platform Detect Kube Controller Cluster Render.
#[local] Open Scope stdpp_scope.

Record DpuOperatorConfig := mkConfig {
  CfgName : string; CfgUID : string; CfgLogLevel : Z; CfgResourceName : string;
  CfgFinalizers : list string; CfgDeleting : bool; CfgConditions : list Condition }.
#[export] Instance DpuOperatorConfig_eta : Eta DpuOperatorConfig := λ c,
  mkConfig (CfgName c) (CfgUID c) (CfgLogLevel c) (CfgResourceName c) (CfgFinalizers c) (CfgDeleting c) (CfgConditions c).
(** It is cluster-scoped. *)
Definition config_owner (c : DpuOperatorConfig) : Owner :=
  mkOwner "config.openshift.io/v1" "DpuOperatorConfig" "" (CfgName c) (CfgUID c).
Definition dpuOperatorConfigFinalizer : string := "config.openshift.io/dpuoperatorconfig-finalizer".

(** A write answers with the object, which replaces the caller's copy. *)
Class ConfigAPI (K : Type) := {
  o_GetConfig : string → K → K * get_result DpuOperatorConfig;
  o_UpdateConfig : DpuOperatorConfig → K → K * result DpuOperatorConfig;
  o_UpdateConfigStatus : DpuOperatorConfig → K → K * result DpuOperatorConfig }.

(** What the reconciler is built with: the environment, the host's files as [Stat] sees
    them, the image manager, the embedded manifests and the YAML decoder. *)
Record operator_env := mkOperatorEnv {
  op_getenv : string → string; op_stat : string → stat_result; op_getImage : string → result string;
  op_imagePullPolicy : string; op_namespace : string; op_paths : PathManager;
  op_binData : bindata; op_decode : string → result Object; op_polls : nat }.

Definition plugin_endpoints : list (string * string) := [
  ("PluginOPIEndpoint", "DPU_PLUGIN_OPI_ENDPOINT");
  ("PluginOPINetworkEndpoint", "DPU_PLUGIN_OPI_NETWORK_ENDPOINT");
  ("PluginOPIEndpointNvidia", "DPU_PLUGIN_OPI_ENDPOINT_NVIDIA");
  ("PluginOPIEndpointIntel", "DPU_PLUGIN_OPI_ENDPOINT_INTEL");
  ("PluginOPIEndpointMarvell", "DPU_PLUGIN_OPI_ENDPOINT_MARVELL");
  ("PluginOPIEndpointXSight", "DPU_PLUGIN_OPI_ENDPOINT_XSIGHT");
  ("PluginOPIEndpointMangoBoost", "DPU_PLUGIN_OPI_ENDPOINT_MANGOBOOST");
  ("PluginOPINetworkEndpointNvidia", "DPU_PLUGIN_OPI_NETWORK_ENDPOINT_NVIDIA");
  ("PluginOPINetworkEndpointIntel", "DPU_PLUGIN_OPI_NETWORK_ENDPOINT_INTEL");
  ("PluginOPINetworkEndpointMarvell", "DPU_PLUGIN_OPI_NETWORK_ENDPOINT_MARVELL");
  ("PluginOPINetworkEndpointXSight", "DPU_PLUGIN_OPI_NETWORK_ENDPOINT_XSIGHT");
  ("PluginOPINetworkEndpointMangoBoost", "DPU_PLUGIN_OPI_NETWORK_ENDPOINT_MANGOBOOST")].

Section Reconcile.
Context {K : Type} `{!ClusterAPI K, !RenderAPI K, !ConfigAPI K} (env : operator_env).
Abbreviation W := (K * ResourceRenderer)%type.

(** The variables of the manifests; none when the cluster or the host is not understood. *)
Definition known_vars (cfg : DpuOperatorConfig) (cniDir : string) : gmap string string :=
  list_to_map ([
    ("Namespace", op_namespace env);
    ("ImagePullPolicy", op_imagePullPolicy env);
    ("ResourceName", if String.eqb (CfgResourceName cfg) "" then "openshift.io/dpu" else CfgResourceName cfg);
    ("CniDir", cniDir);
    ("PluginLogLevel", itoa (CfgLogLevel cfg));
    ("DaemonLogLevel", itoa (CfgLogLevel cfg))]
    ++ ((λ '(name, var), (name, op_getenv env var)) <$> plugin_endpoints)).
Definition yamlVars (cfg : DpuOperatorConfig) : M K (gmap string string) :=
  flavour ← DetectFlavour;
  mret (match flavour with
        | Err _ => ∅
        | Ok flavour =>
            match DetectMode (op_stat env) with
            | Err _ => ∅
            | Ok mode =>
                match CniHostDir (op_paths env) flavour mode with
                | Err _ => ∅
                | Ok p => known_vars cfg p
                end
            end
        end).
Definition createAndApplyAllFromBinData (binDataPath : string) (cfg : DpuOperatorConfig) : M W (result unit) :=
  vars ← on_api (yamlVars cfg);
  ApplyAllFromBinData (op_binData env) (op_decode env) binDataPath
    (MergeVarsWithImages (op_getImage env) AllImageKeys vars) (Some (config_owner cfg)).

Definition ensureDpuDeamonSet (cfg : DpuOperatorConfig) : M W (result unit) :=
  match op_getImage env "DpuOperatorDaemonImage" with
  | Err e => mret (Err e)
  | Ok _ => createAndApplyAllFromBinData "daemon" cfg
  end.
Definition ensureNetworkFunctioNAD (cfg : DpuOperatorConfig) : M W (result unit) :=
  call _ := createAndApplyAllFromBinData "networkfn-nad-dpu" cfg or (λ e, e) in
  createAndApplyAllFromBinData "networkfn-nad-host" cfg.
Definition ensureNetworkResourcesInjector (cfg : DpuOperatorConfig) : M W (result unit) :=
  createAndApplyAllFromBinData "network-resources-injector" cfg.
Definition ensureSharedVSPResources (cfg : DpuOperatorConfig) : M W (result unit) :=
  createAndApplyAllFromBinData "vsp/shared" cfg.

(** ** Status *)

Definition setReadyCondition (now : Z) (status : ConditionStatus) (reason message : string) (cfg : DpuOperatorConfig) : DpuOperatorConfig :=
  cfg <| CfgConditions := SetStatusCondition (CfgConditions cfg) (mkCondition "Ready" status reason message 0 now) |>.
Definition initializeStatus (now : Z) (cfg : DpuOperatorConfig) : M W (result DpuOperatorConfig) :=
  match CfgConditions cfg with
  | [] => on_api (acts (o_UpdateConfigStatus
            (setReadyCondition now ConditionFalse "WaitingForReconcile" "Waiting for reconcile to start DPU Daemons" cfg)))
  | _ => mret (Ok cfg)
  end.
Definition updateStatus (now : Z) (cfg : DpuOperatorConfig) (reconcileErrors : list (string * error)) : M W (result unit) :=
  match reconcileErrors with
  | (component, err) :: _ =>
      call _ := on_api (acts (o_UpdateConfigStatus (setReadyCondition now ConditionFalse (component +:+ "Error") (Error err) cfg))) or (λ e, e) in
      mret (Err err)
  | [] =>
      call _ := on_api (acts (o_UpdateConfigStatus (setReadyCondition now ConditionTrue "ComponentsReady"
        "All DPU operator components deployed successfully" cfg))) or (λ e, e) in
      ok
  end.

(** ** The reconciliation *)

Definition handleDeletion (cfg : DpuOperatorConfig) : M W Reconciled :=
  if ContainsFinalizer dpuOperatorConfigFinalizer (CfgFinalizers cfg) then
    try _ := CleanupResourcesInReverseOrder (op_polls env) or failed in
    try _ := on_api (acts (o_UpdateConfig (cfg <| CfgFinalizers := RemoveFinalizer dpuOperatorConfigFinalizer (CfgFinalizers cfg) |>))) or failed in
    mret finished
  else mret finished.

(** The components in the order of deployment; an error does not stop the others. *)
Definition components (cfg : DpuOperatorConfig) : list (string * M W (result unit)) := [
  ("DpuDaemonSet", ensureDpuDeamonSet cfg);
  ("NetworkFunctionNAD", ensureNetworkFunctioNAD cfg);
  ("NetworkResourcesInjector", ensureNetworkResourcesInjector cfg);
  ("SharedVSPResources", ensureSharedVSPResources cfg)].
Fixpoint run_components (l : list (string * M W (result unit))) (errs : list (string * error)) : M W (list (string * error)) :=
  match l with
  | [] => mret errs
  | (component, f) :: l =>
      r ← f;
      run_components l (match r with Ok _ => errs | Err e => errs ++ [(component, e)] end)
  end.
Definition deploy (now : Z) (cfg : DpuOperatorConfig) : M W Reconciled :=
  try cfg :=
    (if FindStatusCondition (CfgConditions cfg) "Ready" is None
     then on_api (acts (o_UpdateConfigStatus (setReadyCondition now ConditionFalse "FinalizerAdded"
            "Finalizer has been added, beginning component reconciliation" cfg)))
     else mret (Ok cfg)) or failed in
  try cfg := initializeStatus now cfg or failed in
  errs ← run_components (components cfg) [];
  try _ := updateStatus now cfg errs or failed in
  mret finished.
Definition ReconcileConfig (now : Z) (name : string) : M W Reconciled :=
  r ← on_api (acts (o_GetConfig name));
  match r with
  | GetNotFound _ => mret finished
  | GetError e => mret (failed e)
  | GetFound cfg =>
      if CfgDeleting cfg then handleDeletion cfg
      else if negb (ContainsFinalizer dpuOperatorConfigFinalizer (CfgFinalizers cfg)) then
        try _ := on_api (acts (o_UpdateConfig (cfg <| CfgFinalizers := AddFinalizer dpuOperatorConfigFinalizer (CfgFinalizers cfg) |>))) or failed in
        mret (mkResult true 0, None)
      else deploy now cfg
  end.
End Reconcile.

(** * A healthy API server

    Configurations are stored under their names; a status update changes only the
    conditions; manifests and detection do not touch configurations. *)
Class HealthyConfigs (K : Type) `{!ClusterAPI K, !RenderAPI K, !ConfigAPI K, !HealthyObjects K} := {
  configs : K → gmap string DpuOperatorConfig;
  law_cfg_name k n c : configs k !! n = Some c → CfgName c = n;
  law_GetConfig n k : o_GetConfig n k = (k, found (configs k !! n));
  law_UpdateConfigStatus c k old : configs k !! CfgName c = Some old →
    ∃ k', o_UpdateConfigStatus c k = (k', Ok c) ∧ objects k' = objects k ∧
      configs k' = <[CfgName c := old <| CfgConditions := CfgConditions c |>]> (configs k);
  law_cfg_r_Get n k : configs (r_Get n k).1 = configs k;
  law_cfg_r_Update o k : configs (r_Update o k).1 = configs k;
  law_cfg_r_Apply o k : configs (r_ApplyObject o k).1 = configs k;
  law_cfg_GetConfigMap n m k : configs (c_GetConfigMap n m k).1 = configs k;
  law_cfg_GetCRD n k : configs (c_GetCRD n k).1 = configs k;
  law_cfg_ListNodes k : configs (c_ListNodes k).1 = configs k }.

(** * Lemmas *)

Section Frame.
Context {K : Type} `{!ClusterAPI K, !RenderAPI K, !ConfigAPI K, !HealthyObjects K, !HealthyConfigs K}.
Lemma preserves_on_objects {A X} (g : K → X) (f : M K A) : preserves g f → preserves (λ w : K * ResourceRenderer, g w.1) (on_api f).
Proof. intros H [k rr]. unfold on_api. simpl. specialize (H k). by destruct (f k). Qed.

Lemma DetectFlavour_configs : preserves configs DetectFlavour.
Proof.
  assert (∀ images, preserves configs (kind_image (K := K) images)) as Hk.
  { induction images as [|[|n ns] images IH]; simpl; [done|done|]. by destruct (contains _ n). }
  unfold DetectFlavour, isMicroShift, isOpenShift, isKind. repeat first
    [ done | apply Hk | apply preserves_acts; intros; (apply law_cfg_GetConfigMap || apply law_cfg_GetCRD || apply law_cfg_ListNodes)
    | apply preserves_call | apply preserves_bind | intros []
    | match goal with |- preserves _ (match ?l with _ => _ end) => destruct l end | intros ? ].
Qed.
Lemma apply_all_configs b decode path data owner :
  preserves (λ w : K * ResourceRenderer, configs w.1) (ApplyAllFromBinData b decode path data owner).
Proof.
  unfold ApplyAllFromBinData. destruct (BinDataYamlFiles path b) as [files|e]; [|done].
  induction files as [|f files IH]; simpl; [done|]. apply preserves_call; [|intros o; by apply preserves_bind].
  apply preserves_on_objects. unfold applyObjectFromBinData, apply_object. destruct (render_file b decode f data owner) as [o|e]; [|done].
  apply preserves_bind; [apply preserves_acts, law_cfg_r_Get|]. intros [x|e|e]; [|apply preserves_bind; [|done]|done].
  - apply preserves_call; [|done]. apply preserves_acts_err, law_cfg_r_Update.
  - apply preserves_acts, law_cfg_r_Apply.
Qed.
Lemma createAndApply_configs env path cfg :
  preserves (λ w : K * ResourceRenderer, configs w.1) (createAndApplyAllFromBinData env path cfg).
Proof.
  apply preserves_bind; [|intros vars; apply apply_all_configs]. apply preserves_on_objects, preserves_bind; [apply DetectFlavour_configs|done].
Qed.
Lemma run_components_configs env cfg errs :
  preserves (λ w : K * ResourceRenderer, configs w.1) (run_components (components env cfg) errs).
Proof.
  assert (∀ l errs, Forall (λ c, preserves (λ w : K * ResourceRenderer, configs w.1) c.2) l →
    preserves (λ w : K * ResourceRenderer, configs w.1) (run_components l errs)) as H.
  { induction l as [|[c f] l IH]; intros es Hl; simpl; [done|]. apply Forall_cons in Hl as [H1 H2].
    apply preserves_bind; [done|]. intros []; by apply IH. }
  apply H. unfold components. rewrite !Forall_cons. split_and!; simpl.
  - unfold ensureDpuDeamonSet. destruct (op_getImage env _); [apply createAndApply_configs|done].
  - apply preserves_call; intros; apply createAndApply_configs.
  - apply createAndApply_configs.
  - apply createAndApply_configs.
  - by apply Forall_nil.
Qed.
End Frame.

(** ** Deploying *)

Section Deploy.
Context {K : Type} `{!ClusterAPI K, !RenderAPI K, !ConfigAPI K, !HealthyObjects K, !HealthyConfigs K}.
Context (env : operator_env) (flavour : Flavour) (mode : FilesystemMode) (cniDir : string).
(** The cluster and the host are understood. *)
Context (Hflavour : ∀ k : K, DetectFlavour k = (k, Ret (Ok flavour)))
  (Hmode : DetectMode (op_stat env) = Ok mode) (Hcni : CniHostDir (op_paths env) flavour mode = Ok cniDir).

Definition config_vars (cfg : DpuOperatorConfig) : gmap string string :=
  MergeVarsWithImages (op_getImage env) AllImageKeys (known_vars env cfg cniDir).
(** The directory's manifests render to these objects. *)
Definition renders (cfg : DpuOperatorConfig) (dir : string) (objs : list Object) : Prop :=
  ∃ files, BinDataYamlFiles dir (op_binData env) = Ok files ∧
    Forall2 (λ f o, render_file (op_binData env) (op_decode env) f (config_vars cfg) (Some (config_owner cfg)) = Ok o) files objs.
(** What has been applied so far, from the cluster [k0]. *)
Definition deployed (objs : list Object) (k0 : K) (w : K * ResourceRenderer) : Prop :=
  tracked w.2 ∧
  (∀ o, o ∈ objs → ∃ o', objects w.1 !! obj_key o = Some o' ∧ shown_as (objects k0 !! obj_key o) o o') ∧
  (∀ n, n ∉ obj_key <$> objs → objects w.1 !! n = objects k0 !! n).

Lemma yamlVars_run cfg k : yamlVars env cfg k = (k, Ret (known_vars env cfg cniDir)).
Proof. unfold yamlVars. rewrite (bind_run _ _ _ _ _ (Hflavour k)). by rewrite Hmode, Hcni. Qed.
Lemma createAndApply_run done cfg dir objs k0 w :
  deployed done k0 w → renders cfg dir objs → NoDup (obj_key <$> (done ++ objs)) →
  ∃ w', createAndApplyAllFromBinData env dir cfg w = (w', Ret (Ok tt)) ∧ deployed (done ++ objs) k0 w'.
Proof.
  intros (Ht & Hd & Ho) (files & Hfiles & HF) Hn. rewrite fmap_app in Hn. apply NoDup_app in Hn as (Hn1 & Hdis & Hn2).
  destruct w as [k rr]. destruct (apply_files_run _ _ _ _ files objs k rr HF Hn2) as (k' & rr' & Hr & Hobj & Hother & Htr & _).
  exists (k', rr'). split.
  - unfold createAndApplyAllFromBinData.
    assert (on_api (yamlVars env cfg) (k, rr) = ((k, rr), Ret (known_vars env cfg cniDir))) as Hy.
    { unfold on_api. simpl. by rewrite yamlVars_run. }
    rewrite (bind_run _ _ _ _ _ Hy). unfold ApplyAllFromBinData. rewrite Hfiles. exact Hr.
  - split; [by apply Htr|]. simpl in *. split.
    + intros o [Hin|Hin]%elem_of_app.
      * rewrite Hother; [by apply Hd|]. apply Hdis. by apply list_elem_of_fmap_2.
      * destruct (Hobj o Hin) as (o' & H1 & H2). exists o'. split; [done|]. rewrite <-Ho; [done|].
        intros H. apply (Hdis _ H). by apply list_elem_of_fmap_2.
    + intros n. rewrite fmap_app, not_elem_of_app. intros [H1 H2]. by rewrite Hother, Ho.
Qed.

(** All components, with their five directories. *)
Definition component_dirs : list string :=
  ["daemon"; "networkfn-nad-dpu"; "networkfn-nad-host"; "network-resources-injector"; "vsp/shared"].
Lemma components_run cfg objss k rr img : op_getImage env "DpuOperatorDaemonImage" = Ok img → tracked rr →
  Forall2 (renders cfg) component_dirs objss → NoDup (obj_key <$> concat objss) →
  ∃ w', run_components (components env cfg) [] (k, rr) = (w', Ret []) ∧ deployed (concat objss) k w'.
Proof.
  intros Himg Ht HF Hn. unfold component_dirs in HF. do 5 (apply Forall2_cons_inv_l in HF as (? & ? & ? & HF & ->)).
  apply Forall2_nil_inv_l in HF as ->. simpl in *. rewrite app_nil_r in *.
  match type of Hn with NoDup (obj_key <$> ?o1 ++ ?o2 ++ ?o3 ++ ?o4 ++ ?o5) => rename o1 into d1, o2 into d2, o3 into d3, o4 into d4, o5 into d5 end.
  rewrite !app_assoc in *. assert (deployed [] k (k, rr)) as D0 by (split; [done|]; split; [by intros o []%elem_of_nil|done]).
  assert (∀ a b : list Object, NoDup (obj_key <$> a ++ b) → NoDup (obj_key <$> a)) as Hpre.
  { intros a b. rewrite fmap_app. by intros [? _]%NoDup_app. }
  pose proof (Hpre _ _ Hn) as Hn4. pose proof (Hpre _ _ Hn4) as Hn3. pose proof (Hpre _ _ Hn3) as Hn2. pose proof (Hpre _ _ Hn2) as Hn1.
  destruct (createAndApply_run [] cfg "daemon" d1 k (k, rr) D0) as (w1 & R1 & D1); [done|done|].
  destruct (createAndApply_run d1 cfg "networkfn-nad-dpu" d2 k w1 D1) as (w2 & R2 & D2); [done|done|].
  destruct (createAndApply_run _ cfg "networkfn-nad-host" d3 k w2 D2) as (w3 & R3 & D3); [done|done|].
  destruct (createAndApply_run _ cfg "network-resources-injector" d4 k w3 D3) as (w4 & R4 & D4); [done|done|].
  destruct (createAndApply_run _ cfg "vsp/shared" d5 k w4 D4) as (w5 & R5 & D5); [done|done|].
  assert (ensureNetworkFunctioNAD env cfg w1 = (w3, Ret (Ok tt))) as R23.
  { unfold ensureNetworkFunctioNAD, try_bind. by rewrite (bind_run _ _ _ _ _ R2). }
  exists w5. split; [|done]. unfold ensureDpuDeamonSet. rewrite Himg. rewrite (bind_run _ _ _ _ _ R1), (bind_run _ _ _ _ _ R23).
  by rewrite (bind_run _ _ _ _ _ R4), (bind_run _ _ _ _ _ R5).
Qed.
End Deploy.

(** ** Reporting *)

Section Report.
Context {K : Type} `{!ClusterAPI K, !RenderAPI K, !ConfigAPI K, !HealthyObjects K, !HealthyConfigs K} (env : operator_env).
Abbreviation W := (K * ResourceRenderer)%type.

Definition same_config (c c' : DpuOperatorConfig) : Prop := c' <| CfgConditions := [] |> = c <| CfgConditions := [] |>.
(** What the condition says of the errors of the components. *)
Definition reports (errs : list (string * error)) (c : Condition) : Prop :=
  match errs with
  | [] => CondStatus c = ConditionTrue ∧ CondReason c = "ComponentsReady"
  | (component, e) :: _ => CondStatus c = ConditionFalse ∧ CondReason c = component +:+ "Error" ∧ CondMessage c = Error e
  end.
Definition outcome_of (errs : list (string * error)) : Reconciled :=
  match errs with [] => finished | (_, e) :: _ => failed e end.

Lemma status_stored c k old : configs k !! CfgName c = Some old → same_config old c →
  ∃ k', o_UpdateConfigStatus c k = (k', Ok c) ∧ objects k' = objects k ∧ configs k' !! CfgName c = Some c.
Proof.
  intros H Hs. destruct (law_UpdateConfigStatus c k old H) as (k' & Hu & Hobj & Hc). exists k'. split; [done|]. split; [done|].
  rewrite Hc, lookup_insert_eq. f_equal. unfold same_config in Hs. destruct c, old. simpl in *. by injection Hs as -> -> -> -> -> ->.
Qed.
Lemma deploy_start now cfg k rr : configs k !! CfgName cfg = Some cfg →
  ∃ k1 cfg1, same_config cfg cfg1 ∧ objects k1 = objects k ∧ configs k1 !! CfgName cfg = Some cfg1 ∧
    deploy env now cfg (k, rr) =
      (errs ← run_components (components env cfg1) []; try _ := updateStatus now cfg1 errs or failed in mret finished) (k1, rr).
Proof.
  intros Hc. assert (∀ c w, CfgConditions c ≠ [] → initializeStatus now c w = (w : W, Ret (Ok c))) as Hinit.
  { intros c w Hne. unfold initializeStatus. by destruct (CfgConditions c). }
  unfold deploy. destruct (FindStatusCondition (CfgConditions cfg) "Ready") as [r|] eqn:E.
  - exists k, cfg. do 3 (split; [done|]). rewrite (try_run _ _ _ (k, rr) (k, rr) cfg) by done.
    assert (CfgConditions cfg ≠ []) as Hne by by destruct (CfgConditions cfg).
    by rewrite (try_run _ _ _ _ _ _ (Hinit _ _ Hne)).
  - set (c1 := setReadyCondition now ConditionFalse "FinalizerAdded" _ cfg).
    destruct (status_stored c1 k cfg Hc) as (k1 & Hu & Hobj & Hk1); [done|]. exists k1, c1. do 3 (split; [done|]).
    assert (on_api (acts (o_UpdateConfigStatus c1)) (k, rr) = ((k1, rr), Ret (Ok c1))) as Hon.
    { unfold on_api, acts. simpl. by rewrite Hu. }
    assert (CfgConditions c1 ≠ []) as Hne.
    { unfold c1, setReadyCondition. simpl. destruct (CfgConditions cfg) as [|c cs]; simpl; [done|]. by destruct (String.eqb _ _). }
    by rewrite (try_run _ _ _ _ _ _ Hon), (try_run _ _ _ _ _ _ (Hinit _ _ Hne)).
Qed.
Lemma updateStatus_run now cfg errs k rr : configs k !! CfgName cfg = Some cfg →
  ∃ k' c r, (try _ := updateStatus now cfg errs or failed in mret finished) (k, rr) = ((k', rr), Ret (outcome_of errs)) ∧
    objects k' = objects k ∧ configs k' !! CfgName cfg = Some c ∧ same_config cfg c ∧
    FindStatusCondition (CfgConditions c) "Ready" = Some r ∧ reports errs r.
Proof.
  intros Hc.
  assert (∀ st reason msg, ∃ k' c r,
    c = setReadyCondition now st reason msg cfg ∧ on_api (acts (o_UpdateConfigStatus c)) (k, rr) = ((k', rr), Ret (Ok c)) ∧
    objects k' = objects k ∧ configs k' !! CfgName cfg = Some c ∧ FindStatusCondition (CfgConditions c) "Ready" = Some r ∧
    CondStatus r = st ∧ CondReason r = reason ∧ CondMessage r = msg) as Hset.
  { intros st reason msg. set (c := setReadyCondition now st reason msg cfg).
    destruct (status_stored c k cfg Hc) as (k1 & Hu & Hobj & Hk1); [done|].
    destruct (find_set_condition (CfgConditions cfg) (mkCondition "Ready" st reason msg 0 now)) as (r & Hf & H1 & H2 & H3 & _).
    exists k1, c, r. split; [done|]. split; [|done]. unfold on_api, acts. simpl. by rewrite Hu. }
  destruct errs as [|[component e] errs]; simpl.
  - destruct (Hset ConditionTrue "ComponentsReady" "All DPU operator components deployed successfully")
      as (k' & c & r & -> & Hf & Hobj & Hk & Hr & H1 & H2 & _). eexists k', _, r. split; [|done].
    unfold updateStatus, try_or, try_bind, mbind, M_bind. by rewrite Hf.
  - destruct (Hset ConditionFalse (component +:+ "Error") (Error e))
      as (k' & c & r & -> & Hf & Hobj & Hk & Hr & H1 & H2 & H3). eexists k', _, r. split; [|done].
    unfold updateStatus, try_or, try_bind, mbind, M_bind. by rewrite Hf.
Qed.

(** A reconciliation of a live configuration with its finalizer. *)
Lemma ReconcileConfig_live now name k rr cfg : configs k !! name = Some cfg → CfgDeleting cfg = false →
  dpuOperatorConfigFinalizer ∈ CfgFinalizers cfg → ReconcileConfig env now name (k, rr) = deploy env now cfg (k, rr).
Proof.
  intros Hc Hd Hf. unfold ReconcileConfig. assert (on_api (acts (o_GetConfig name)) (k, rr) = ((k, rr), Ret (GetFound cfg))) as Hg.
  { unfold on_api, acts. simpl. by rewrite law_GetConfig, Hc. }
  rewrite (bind_run _ _ _ _ _ Hg), Hd. by rewrite (proj2 (ContainsFinalizer_spec _ _) Hf).
Qed.
Lemma deploy_reports now cfg k rr w1 errs : configs k !! CfgName cfg = Some cfg →
  ∀ k1 cfg1, same_config cfg cfg1 → configs k1 !! CfgName cfg = Some cfg1 →
  run_components (components env cfg1) [] (k1, rr) = (w1, Ret errs) →
  ∃ k' c r, (errs ← run_components (components env cfg1) []; try _ := updateStatus now cfg1 errs or failed in mret finished) (k1, rr)
      = ((k', w1.2), Ret (outcome_of errs)) ∧
    objects k' = objects w1.1 ∧ configs k' !! CfgName cfg = Some c ∧ same_config cfg c ∧
    FindStatusCondition (CfgConditions c) "Ready" = Some r ∧ reports errs r.
Proof.
  intros Hc k1 cfg1 Hs Hk1 Hr. assert (CfgName cfg1 = CfgName cfg) as Hn by (unfold same_config in Hs; destruct cfg, cfg1; simpl in *; congruence).
  destruct w1 as [k2 rr2]. assert (configs k2 !! CfgName cfg1 = Some cfg1) as Hk2.
  { pose proof (run_components_configs env cfg1 [] (k1, rr)) as H. rewrite Hr in H. simpl in H. by rewrite H, Hn. }
  destruct (updateStatus_run now cfg1 errs k2 rr2 Hk2) as (k' & c & r & Hu & Hobj & Hk' & Hs' & Hf & Hrep).
  exists k', c, r. rewrite (bind_run _ _ _ _ _ Hr). rewrite <-Hn. split; [done|]. split; [done|]. split; [done|].
  split; [|done]. unfold same_config in *. by rewrite Hs', Hs.
Qed.
End Report.

Lemma same_config_vars env c c' cniDir : same_config c c' → config_vars env cniDir c' = config_vars env cniDir c ∧ config_owner c' = config_owner c.
Proof. unfold same_config. destruct c, c'; simpl. by intros [= -> -> -> -> -> ->]. Qed.
Lemma same_config_name c c' : same_config c c' → CfgName c' = CfgName c.
Proof. unfold same_config. destruct c, c'; simpl. by intros [= -> -> -> -> -> ->]. Qed.
Lemma run_components_fail {K} c f (l : list (string * M (K * ResourceRenderer) (result unit))) w w' e :
  f w = (w', Ret (Err e)) → run_components ((c, f) :: l) [] w = run_components l [(c, e)] w'.
Proof. intros H. simpl. by rewrite (bind_run _ _ _ _ _ H). Qed.
Lemma run_components_app {K} (l : list (string * M (K * ResourceRenderer) (result unit))) errs w w' errs' :
  run_components l errs w = (w', Ret errs') → ∃ more, errs' = errs ++ more.
Proof.
  revert errs w. induction l as [|[c f] l IH]; intros errs w; simpl.
  - intros [= _ <-]. exists []. by rewrite app_nil_r.
  - unfold mbind, M_bind. destruct (f w) as [w1 [[u|e]|]]; [apply IH| |done].
    intros H. apply IH in H as [more ->]. exists ((c, e) :: more). by rewrite <-app_assoc.
Qed.

Lemma config_reports_run {K} `{!ClusterAPI K, !RenderAPI K, !ConfigAPI K, !HealthyObjects K, !HealthyConfigs K}
    env now name (w w' : K * ResourceRenderer) cfg res :
  configs w.1 !! name = Some cfg → CfgDeleting cfg = false → dpuOperatorConfigFinalizer ∈ CfgFinalizers cfg →
  ReconcileConfig env now name w = (w', Ret res) →
  ∃ cfg1 w0 w1 errs c r, same_config cfg cfg1 ∧ run_components (components env cfg1) [] w0 = (w1, Ret errs) ∧
    res = outcome_of errs ∧ configs w'.1 !! name = Some c ∧
    FindStatusCondition (CfgConditions c) "Ready" = Some r ∧ reports errs r.
Proof.
  destruct w as [k rr]. simpl. intros Hc Hd Hf H. rewrite (ReconcileConfig_live env now name k rr cfg Hc Hd Hf) in H.
  pose proof (law_cfg_name _ _ _ Hc) as Hname. rewrite <-Hname in Hc.
  destruct (deploy_start env now cfg k rr Hc) as (k1 & cfg1 & Hs & Hobj1 & Hk1 & E). rewrite E in H.
  destruct (run_components (components env cfg1) [] (k1, rr)) as [w1 [errs|]] eqn:Hr.
  - destruct (deploy_reports env now cfg k rr w1 errs Hc k1 cfg1 Hs Hk1 Hr) as (k' & c & r & E' & _ & Hk' & _ & Hfind & Hrep).
    rewrite E' in H. injection H as <- <-. exists cfg1, (k1, rr), w1, errs, c, r. rewrite <-Hname. done.
  - unfold mbind, M_bind in H. by rewrite Hr in H.
Qed.

(** Without the variables of a cluster that is understood the daemon is not deployed. *)
Lemma daemon_not_deployed {K} `{!ClusterAPI K, !RenderAPI K, !ConfigAPI K} env cfg r f fs t (w : K * ResourceRenderer) :
  (∀ k0 : K, DetectFlavour k0 = (k0, Ret r)) → r = Ok UnknownFlavour ∨ is_ok r = false →
  BinDataYamlFiles "daemon" (op_binData env) = Ok (f :: fs) →
  ReadFile (op_binData env) (Join ["bindata"; f]) = Ok (print_template t) → template_ok t = true → Field "Namespace" ∈ t →
  ∃ e, ensureDpuDeamonSet env cfg w = (w, Ret (Err e)).
Proof.
  intros Hr Hun Hdir Hfile Ht Hin. unfold ensureDpuDeamonSet. destruct (op_getImage env "DpuOperatorDaemonImage"); [|by eexists].
  assert (on_api (yamlVars env cfg) w = (w, Ret ∅)) as Hy.
  { destruct w as [k rr]. unfold on_api, yamlVars. simpl. rewrite (bind_run _ _ _ _ _ (Hr k)). destruct Hun as [->|Hun].
    - destruct (DetectMode (op_stat env)) as [m|]; [|done]. by destruct m.
    - by destruct r. }
  unfold createAndApplyAllFromBinData. rewrite (bind_run _ _ _ _ _ Hy). unfold ApplyAllFromBinData. rewrite Hdir. simpl.
  unfold applyObjectFromBinData, render_file. rewrite Hfile. simpl.
  assert (is_ok (ApplyTemplate (print_template t) (MergeVarsWithImages (op_getImage env) AllImageKeys ∅)) = false) as Hfail.
  { unfold ApplyTemplate. rewrite (parse_print t Ht). simpl. pose proof (execute_spec (MergeVarsWithImages (op_getImage env) AllImageKeys ∅) t) as Hx.
    destruct (all_defined _ t) eqn:E; [|by destruct (execute _ t)]. unfold all_defined in E. rewrite forallb_forall in E.
    apply list_elem_of_In in Hin. specialize (E _ Hin). simpl in E. rewrite MergeVarsWithImages_lookup, lookup_empty in E. done. }
  destruct (ApplyTemplate _ _) as [|e]; [done|]. destruct w as [k rr]. eexists. done.
Qed.

(** * Theorems *)

(** C9: a configuration that has its finalizer, on a cluster and a host that are
    understood, with manifests that render to different objects: one reconciliation
    deploys all objects of the five directories, touches no other object, and reports
    Ready. *)
Theorem config_deploys {K} `{!ClusterAPI K, !RenderAPI K, !ConfigAPI K, !HealthyObjects K, !HealthyConfigs K}
    env flavour mode cniDir now name (k : K) rr cfg img objss :
  (∀ k0 : K, DetectFlavour k0 = (k0, Ret (Ok flavour))) → DetectMode (op_stat env) = Ok mode →
  CniHostDir (op_paths env) flavour mode = Ok cniDir → op_getImage env "DpuOperatorDaemonImage" = Ok img →
  configs k !! name = Some cfg → CfgDeleting cfg = false → dpuOperatorConfigFinalizer ∈ CfgFinalizers cfg →
  tracked rr → Forall2 (renders env cniDir cfg) component_dirs objss → NoDup (obj_key <$> concat objss) →
  ∃ w', ReconcileConfig env now name (k, rr) = (w', Ret finished) ∧ deployed (concat objss) k w' ∧
    ∃ c r, configs w'.1 !! name = Some c ∧ FindStatusCondition (CfgConditions c) "Ready" = Some r ∧
      CondStatus r = ConditionTrue ∧ CondReason r = "ComponentsReady".
Proof.
  intros Hfl Hmode Hcni Himg Hc Hd Hf Ht HF Hn. rewrite (ReconcileConfig_live env now name k rr cfg Hc Hd Hf).
  pose proof (law_cfg_name _ _ _ Hc) as Hname. rewrite <-Hname in Hc.
  destruct (deploy_start env now cfg k rr Hc) as (k1 & cfg1 & Hs & Hobj1 & Hk1 & ->).
  destruct (components_run env flavour mode cniDir Hfl Hmode Hcni cfg1 objss k1 rr img Himg Ht) as (w1 & Hr & Hdep); [|done|].
  { eapply Forall2_impl; [exact HF|]. intros dir objs (files & H1 & H2). exists files.
    destruct (same_config_vars env cfg cfg1 cniDir Hs) as [-> ->]. done. }
  destruct (deploy_reports env now cfg k rr w1 [] Hc k1 cfg1 Hs Hk1 Hr) as (k' & c & r & -> & Hobj & Hk' & _ & Hfind & Hrep).
  exists (k', w1.2). split; [done|]. split.
  - destruct Hdep as (H1 & H2 & H3). unfold deployed. simpl. rewrite Hobj, <-Hobj1. done.
  - exists c, r. rewrite <-Hname. destruct Hrep. done.
Qed.

(** Whatever the components do, the reconciliation ends with a Ready condition that
    tells the truth: true when all succeeded, otherwise false with the name and error of
    the first that failed, which is also the error returned. *)
Theorem config_reports_first_error {K} `{!ClusterAPI K, !RenderAPI K, !ConfigAPI K, !HealthyObjects K, !HealthyConfigs K}
    env now name (w w' : K * ResourceRenderer) cfg res :
  configs w.1 !! name = Some cfg → CfgDeleting cfg = false → dpuOperatorConfigFinalizer ∈ CfgFinalizers cfg →
  ReconcileConfig env now name w = (w', Ret res) →
  ∃ cfg1 w0 w1 errs c r, same_config cfg cfg1 ∧ run_components (components env cfg1) [] w0 = (w1, Ret errs) ∧
    res = outcome_of errs ∧ configs w'.1 !! name = Some c ∧
    FindStatusCondition (CfgConditions c) "Ready" = Some r ∧ reports errs r.
Proof. apply config_reports_run. Qed.

(** On a cluster of unknown kind (or one whose kind cannot be told) the
    configuration never becomes ready, although detection reports no error: the variables
    of the manifests are left out without a word, and the daemon's templates fail. *)
Theorem unknown_cluster_not_ready {K} `{!ClusterAPI K, !RenderAPI K, !ConfigAPI K, !HealthyObjects K, !HealthyConfigs K}
    env now name (w w' : K * ResourceRenderer) cfg res r f fs t :
  (∀ k0 : K, DetectFlavour k0 = (k0, Ret r)) → r = Ok UnknownFlavour ∨ is_ok r = false →
  BinDataYamlFiles "daemon" (op_binData env) = Ok (f :: fs) →
  ReadFile (op_binData env) (Join ["bindata"; f]) = Ok (print_template t) → template_ok t = true → Field "Namespace" ∈ t →
  configs w.1 !! name = Some cfg → CfgDeleting cfg = false → dpuOperatorConfigFinalizer ∈ CfgFinalizers cfg →
  ReconcileConfig env now name w = (w', Ret res) →
  ∃ c cond, configs w'.1 !! name = Some c ∧ FindStatusCondition (CfgConditions c) "Ready" = Some cond ∧
    CondStatus cond = ConditionFalse ∧ CondReason cond = "DpuDaemonSetError" ∧ is_Some res.2.
Proof.
  intros Hr Hun Hdir Hfile Ht Hin Hc Hd Hf H.
  destruct (config_reports_run env now name w w' cfg res Hc Hd Hf H) as (cfg1 & w0 & w1 & errs & c & cond & Hs & Hrun & -> & Hc' & Hcond & Hrep).
  destruct (daemon_not_deployed env cfg1 r f fs t w0 Hr Hun Hdir Hfile Ht Hin) as [e He].
  exists c, cond. split; [done|]. split; [done|]. unfold components in Hrun.
  rewrite (run_components_fail _ _ _ _ _ _ He) in Hrun. apply run_components_app in Hrun as [more ->]. destruct Hrep as (H1 & H2 & _).
  split; [done|]. split; [done|]. by eexists.
Qed.

(** When the clean-up of a configuration being deleted fails, the next
    reconciliation removes the finalizer without deleting anything: all it does is to
    update the configuration. *)
Theorem config_deletion_forgets {K} `{!ClusterAPI K, !RenderAPI K, !ConfigAPI K} env now name (k k1 : K) rr cfg w1 e :
  o_GetConfig name k = (k1, GetFound cfg) → CfgDeleting cfg = true → dpuOperatorConfigFinalizer ∈ CfgFinalizers cfg →
  CleanupResourcesInReverseOrder (op_polls env) (k1, rr) = (w1, Ret (Err e)) →
  ReconcileConfig env now name (k, rr) = (w1, Ret (failed e)) ∧
  ∀ k2 k3 k4 c, o_GetConfig name k2 = (k3, GetFound cfg) →
    o_UpdateConfig (cfg <| CfgFinalizers := RemoveFinalizer dpuOperatorConfigFinalizer (CfgFinalizers cfg) |>) k3 = (k4, Ok c) →
    ReconcileConfig env now name (k2, w1.2) = ((k4, w1.2), Ret finished).
Proof.
  intros Hg Hd Hf Hc. pose proof (proj2 (ContainsFinalizer_spec _ _) Hf) as Hf'.
  assert (∀ k0 k0' rr0, o_GetConfig name k0 = (k0', GetFound cfg) →
    ReconcileConfig env now name (k0, rr0) = handleDeletion env cfg (k0', rr0)) as Hrec.
  { intros k0 k0' rr0 H. unfold ReconcileConfig.
    assert (on_api (acts (o_GetConfig name)) (k0, rr0) = ((k0', rr0), Ret (GetFound cfg))) as Hon.
    { unfold on_api, acts. simpl. by rewrite H. }
    by rewrite (bind_run _ _ _ _ _ Hon), Hd. }
  split.
  - rewrite (Hrec k k1) by done. unfold handleDeletion. rewrite Hf'. by rewrite (try_fails _ _ _ _ _ _ Hc).
  - intros k2 k3 k4 c Hg2 Hu. rewrite (Hrec k2 k3) by done. unfold handleDeletion. rewrite Hf'.
    pose proof (cleanup_order _ _ _ _ Hc) as Ho.
    assert (CleanupResourcesInReverseOrder (op_polls env) (k3, w1.2) = ((k3, w1.2), Ret (Ok tt))) as Hc2.
    { unfold CleanupResourcesInReverseOrder. simpl. by rewrite Ho. }
    rewrite (try_run _ _ _ _ _ _ Hc2).
    assert (on_api (acts (o_UpdateConfig (cfg <| CfgFinalizers := RemoveFinalizer dpuOperatorConfigFinalizer (CfgFinalizers cfg) |>)))
      (k3, w1.2) = ((k4, w1.2), Ret (Ok c))) as Hon. { unfold on_api, acts. cbn [fst]. by rewrite Hu. }
    by rewrite (try_run _ _ _ _ _ _ Hon).
Qed.

(** * Witnesses *)
Module OperatorDemo.
Import RenderDemo.
(** A cluster, with or without the mark of OpenShift, that keeps objects and configurations. *)
Record cluster (openshift : bool) := mkCluster { c_objects : gmap okey Object; c_configs : gmap string DpuOperatorConfig }.
Arguments mkCluster {_} _ _.
Arguments c_objects {_} _.
Arguments c_configs {_} _.
#[export] Instance cluster_kind os : ClusterAPI (cluster os) :=
  {| c_GetConfigMap _ _ k := (k, GetNotFound (Text "not found"));
     c_GetCRD _ k := (k, if os then GetFound tt else GetNotFound (Text "not found"));
     c_ListNodes k := (k, Ok []) |}.
Definition with_objects {os} (k : cluster os) (o : gmap okey Object) : cluster os := mkCluster o (c_configs k).
#[export] Instance cluster_objects os : RenderAPI (cluster os) :=
  {| r_Get n k := (k, found (served (c_objects k) !! n));
     r_Update o k := (with_objects k (<[obj_key o := o]> (c_objects k)), None);
     r_ApplyObject o k := (with_objects k (<[obj_key o := o]> (c_objects k)), Applied);
     r_Delete o k := (with_objects k (delete (obj_key o) (c_objects k)),
       match served (c_objects k) !! obj_key o with Some _ => GetFound tt | None => GetNotFound (Text "not found") end) |}.
Definition served_configs {os} (k : cluster os) : gmap string DpuOperatorConfig := filter (λ nc, CfgName nc.2 = nc.1) (c_configs k).
#[export] Instance cluster_configs os : ConfigAPI (cluster os) :=
  {| o_GetConfig n k := (k, found (served_configs k !! n));
     o_UpdateConfig c k := (mkCluster (c_objects k) (<[CfgName c := c]> (c_configs k)), Ok c);
     o_UpdateConfigStatus c k :=
       (mkCluster (c_objects k)
          (match served_configs k !! CfgName c with
           | Some old => <[CfgName c := old <| CfgConditions := CfgConditions c |>]> (c_configs k)
           | None => c_configs k
           end), Ok c) |}.
#[export] Instance cluster_objects_healthy os : HealthyObjects (cluster os).
Proof.
  refine {| objects k := served (c_objects k) |}.
  - by intros s n o [_ H]%map_lookup_filter_Some.
  - done.
  - intros o s old _. eexists. split; [done|]. unfold served. simpl. by rewrite map_filter_insert_True.
  - intros o s _. eexists. split; [done|]. unfold served. simpl. by rewrite map_filter_insert_True.
  - intros o s. eexists. split; [|done]. unfold served. simpl. by rewrite map_filter_delete.
Defined.
#[export] Instance cluster_configs_healthy os : HealthyConfigs (cluster os).
Proof.
  refine {| configs := served_configs |}; try done.
  - by intros k n c [_ H]%map_lookup_filter_Some.
  - intros c k old H. eexists. split; [done|]. split; [done|]. simpl. rewrite H. unfold served_configs. simpl.
    apply map_lookup_filter_Some in H as [_ H]. simpl in H. by rewrite map_filter_insert_True.
Defined.

Definition manifests : bindata := mkBindata
  (λ d, if existsb (λ c, String.eqb d (Join ["bindata"; c])) component_dirs then Ok [("01.yaml", false)] else Err (Text "no directory"))
  (λ f, Ok ("Thing/{{.Namespace}}/" +:+ replace_all "/" "-" f)).
Definition env : operator_env :=
  mkOperatorEnv (λ _, "") (λ _, StatNotExist) dummy_GetImage "IfNotPresent" "dpu" (NewPathManager "/") manifests decode 3000.
Definition cfg : DpuOperatorConfig := mkConfig "dpu-operator-config" "uid" 0 "" [dpuOperatorConfigFinalizer] false [].
Definition start os : cluster os := mkCluster ∅ {["dpu-operator-config" := cfg]}.
Definition thing (dir : string) : Object :=
  let name := "bindata-" +:+ replace_all "/" "-" dir +:+ "-01.yaml" in
  mkObject "v1" "Thing" "dpu" name ∅ ∅ [controller_ref (config_owner cfg)] "" "" "" ("Thing/dpu/" +:+ name).
Definition things : list (list Object) := (λ d, [thing d]) <$> component_dirs.
Lemma things_rendered : Forall2 (renders env "/var/lib/cni" cfg) component_dirs things.
Proof. repeat constructor; (eexists; split; [vm_compute; reflexivity|]; repeat constructor; vm_compute; reflexivity). Qed.
Lemma things_differ : NoDup (obj_key <$> concat things).
Proof. apply (bool_decide_unpack _). vm_compute. exact I. Qed.
Lemma start_cfg os : configs (start os) !! "dpu-operator-config" = Some cfg.
Proof. by destruct os; vm_compute. Qed.
Lemma has_finalizer : dpuOperatorConfigFinalizer ∈ CfgFinalizers cfg.
Proof. by left. Qed.
Definition new_renderer : ResourceRenderer := NewResourceRenderer "dpu/dpu-operator-config".
Definition plain_end := ReconcileConfig env 0 "dpu-operator-config" (start false, new_renderer).
Definition plain_state : cluster false * ResourceRenderer := plain_end.1.
Definition plain_error : error :=
  match plain_end.2 with Ret (_, Some e) => e | _ => Text "" end.
Lemma plain_ran : ReconcileConfig env 0 "dpu-operator-config" (start false, new_renderer) = (plain_state, Ret (failed plain_error)).
Proof. vm_compute. reflexivity. Qed.
Definition first_file : list piece :=
  (Lit <$> String.list_ascii_of_string "Thing/") ++ [Field "Namespace"]
  ++ (Lit <$> String.list_ascii_of_string "/bindata-daemon-01.yaml").
Lemma first_file_read : ReadFile (op_binData env) (Join ["bindata"; "daemon/01.yaml"]) = Ok (print_template first_file).
Proof. vm_compute. reflexivity. Qed.
Lemma first_file_field : Field "Namespace" ∈ first_file.
Proof. apply elem_of_app. right. apply elem_of_app. left. by left. Qed.
Lemma daemon_listed : BinDataYamlFiles "daemon" (op_binData env) = Ok ["daemon/01.yaml"].
Proof. vm_compute. reflexivity. Qed.
(** A configuration being deleted on a cluster that refuses to delete its objects. *)
Definition leaving : DpuOperatorConfig := cfg <| CfgDeleting := true |>.
Definition stuck_objects : RenderAPI (cluster true) :=
  {| r_Get := r_Get; r_Update := r_Update; r_ApplyObject := r_ApplyObject;
     r_Delete _ k := (k, GetError (Text "forbidden")) |}.
Definition leave : cluster true := mkCluster ∅ {["dpu-operator-config" := leaving]}.
Definition leaving_error : error :=
  match (CleanupResourcesInReverseOrder (RenderAPI0 := stuck_objects) (op_polls env) (leave, trackResource role new_renderer)).2 with Ret (Err e) => e | _ => Text "" end.
Lemma leaving_fails : CleanupResourcesInReverseOrder (RenderAPI0 := stuck_objects) (op_polls env) (leave, trackResource role new_renderer)
  = ((leave, new_renderer), Ret (Err leaving_error)).
Proof. vm_compute. reflexivity. Qed.
Lemma flavour_of os (k : cluster os) : DetectFlavour k = (k, Ret (Ok (if os then OpenShiftFlavour else UnknownFlavour))).
Proof. by destruct os. Qed.
End OperatorDemo.
Import OperatorDemo.
Lemma config_deploys_witness :
  ∃ w', ReconcileConfig env 0 "dpu-operator-config" (start true, new_renderer) = (w', Ret finished) ∧
    deployed (concat things) (start true) w'.
Proof.
  destruct (config_deploys env OpenShiftFlavour PackageMode "/var/lib/cni" 0 "dpu-operator-config" (start true) new_renderer
    cfg "DpuOperatorDaemonImage-mock-image" things (flavour_of true) eq_refl eq_refl eq_refl (start_cfg true) eq_refl has_finalizer
    (tracked_new _) things_rendered things_differ) as (w' & H & Hd & _).
  exists w'. split; [exact H|exact Hd].
Defined.
Lemma config_reports_first_error_witness :
  ∃ c r, configs plain_state.1 !! "dpu-operator-config" = Some c ∧ FindStatusCondition (CfgConditions c) "Ready" = Some r.
Proof.
  destruct (config_reports_first_error env 0 "dpu-operator-config" (start false, new_renderer) plain_state cfg (failed plain_error)
    (start_cfg false) eq_refl has_finalizer plain_ran) as (_ & _ & _ & _ & c & r & _ & _ & _ & H1 & H2 & _).
  exists c, r. split; [exact H1|exact H2].
Defined.
Lemma unknown_cluster_not_ready_witness :
  ∃ c cond, configs plain_state.1 !! "dpu-operator-config" = Some c ∧ FindStatusCondition (CfgConditions c) "Ready" = Some cond ∧
    CondStatus cond = ConditionFalse ∧ CondReason cond = "DpuDaemonSetError".
Proof.
  destruct (unknown_cluster_not_ready env 0 "dpu-operator-config" (start false, new_renderer) plain_state cfg (failed plain_error)
    (Ok UnknownFlavour) "daemon/01.yaml" [] first_file (flavour_of false) (or_introl eq_refl) daemon_listed first_file_read eq_refl
    first_file_field (start_cfg false) eq_refl has_finalizer plain_ran) as (c & cond & H1 & H2 & H3 & H4 & _).
  exists c, cond. split; [exact H1|]. split; [exact H2|]. split; [exact H3|exact H4].
Defined.
Lemma config_deletion_forgets_witness :
  ReconcileConfig (RenderAPI0 := stuck_objects) env 0 "dpu-operator-config" (leave, trackResource RenderDemo.role new_renderer)
    = ((leave, new_renderer), Ret (failed leaving_error)).
Proof.
  exact (proj1 (config_deletion_forgets (RenderAPI0 := stuck_objects) env 0 "dpu-operator-config" leave leave
    (trackResource RenderDemo.role new_renderer) leaving (leave, new_renderer) leaving_error eq_refl eq_refl has_finalizer leaving_fails)).
Defined.
