(* ===== verification/DpuConfig.v ===== *)
(** The controller of DPU configurations,
    internal/controller/dataprocessingunitconfig_controller.go: it marks the DPU resources
    a configuration selects with annotations, among them the number of virtual functions
    that the daemons read. *)
From S2P Require Import Prelude Plugin GoMonad Platform Detect Kube Controller Daemon.
#[local] Open Scope stdpp_scope.

Record LabelSelectorRequirement := mkRequirement { ReqKey : string; ReqOperator : string; ReqValues : list string }.
Record LabelSelector := mkSelector { MatchLabels : gmap string string; MatchExpressions : list LabelSelectorRequirement }.
(** [MatchedDPUs]: [None] is the nil slice, which is how an empty one is read back. *)
Record DataProcessingUnitConfig := mkDpuConfig {
  PcName : string; PcNamespace : string; PcGeneration : Z; DpuSelector : option LabelSelector; VfCount : option Z;
  PcObservedGeneration : Z; MatchedDPUs : option (list string) }.
#[export] Instance DataProcessingUnitConfig_eta : Eta DataProcessingUnitConfig := λ c,
  mkDpuConfig (PcName c) (PcNamespace c) (PcGeneration c) (DpuSelector c) (VfCount c) (PcObservedGeneration c) (MatchedDPUs c).
Abbreviation cfg_key := (string * string)%type.

Class DpuConfigAPI (K : Type) := {
  p_GetConfig : cfg_key → K → K * get_result DataProcessingUnitConfig;
  p_UpdateConfigStatus : DataProcessingUnitConfig → K → K * option error }.

(** * Selectors (apimachinery's [LabelSelectorAsSelector], [NewRequirement], [Matches]) *)

Inductive operator := OpIn | OpNotIn | OpExists | OpDoesNotExist.
Record Requirement := mkReq { req_key : string; req_op : operator; req_values : list string }.
Definition parse_operator (op : string) : option operator :=
  if String.eqb op "In" then Some OpIn else if String.eqb op "NotIn" then Some OpNotIn
  else if String.eqb op "Exists" then Some OpExists else if String.eqb op "DoesNotExist" then Some OpDoesNotExist else None.
Definition NewRequirement (key : string) (op : operator) (vals : list string) : result Requirement :=
  let count_ok := match op, vals with
                  | (OpIn | OpNotIn), [] => false
                  | (OpExists | OpDoesNotExist), _ :: _ => false
                  | _, _ => true
                  end in
  if qualified_name_ok key && count_ok && forallb label_value_ok vals then Ok (mkReq key op vals)
  else Err (Text ("invalid requirement on " +:+ quote key)).
Fixpoint requirements (l : list (string * option operator * string * list string)) : result (list Requirement) :=
  match l with
  | [] => Ok []
  | (key, Some op, _, vals) :: l =>
      let? r := NewRequirement key op vals in
      rmap (cons r) (requirements l)
  | (_, None, name, _) :: _ => Err (Text (quote name +:+ " is not a valid label selector operator"))
  end.
(** Labels first, in the order of the map, then expressions; no requirement matches everything. *)
Definition LabelSelectorAsSelector (ord : order) (ps : LabelSelector) : result (list Requirement) :=
  requirements (((λ '(k, v), (k, Some OpIn, "", [v])) <$> ord _ (MatchLabels ps))
    ++ ((λ e, (ReqKey e, parse_operator (ReqOperator e), ReqOperator e, ReqValues e)) <$> MatchExpressions ps)).
Definition requirement_matches (ls : gmap string string) (r : Requirement) : bool :=
  let has_value := match ls !! req_key r with Some v => existsb (String.eqb v) (req_values r) | None => false end in
  match req_op r with
  | OpIn => has_value
  | OpNotIn => negb has_value
  | OpExists => bool_decide (is_Some (ls !! req_key r))
  | OpDoesNotExist => negb (bool_decide (is_Some (ls !! req_key r)))
  end.
Definition selector_matches (sel : list Requirement) (ls : gmap string string) : bool := forallb (requirement_matches ls) sel.

(** * Annotations *)

Definition configAnnotationPrefix : string := "dpu.config.openshift.io/config-".
Definition annotationKey (c : DataProcessingUnitConfig) : string := configAnnotationPrefix +:+ PcNamespace c +:+ "." +:+ PcName c.
Definition vfKey (c : DataProcessingUnitConfig) : string := DpuConfigVFCountAnnotationPrefix +:+ PcNamespace c +:+ "." +:+ PcName c.
Definition legacyAnnotationKey (c : DataProcessingUnitConfig) : string := configAnnotationPrefix +:+ PcName c.
Definition legacyVfKey (c : DataProcessingUnitConfig) : string := DpuConfigVFCountAnnotationPrefix +:+ PcName c.

(** [if m[k] != v { m[k] = v; changed = true }] and [if _, ok := m[k]; ok { delete(m, k); changed = true }]. *)
Definition set_key (k v : string) (st : gmap string string * bool) : gmap string string * bool :=
  if String.eqb (default "" (st.1 !! k)) v then st else (<[k := v]> st.1, true).
Definition drop_key (k : string) (st : gmap string string * bool) : gmap string string * bool :=
  match st.1 !! k with Some _ => (delete k st.1, true) | None => st end.
Definition annotate (c : DataProcessingUnitConfig) (matches : bool) (m : gmap string string) : gmap string string * bool :=
  if matches then
    let st := drop_key (legacyAnnotationKey c) (set_key (annotationKey c) "true" (m, false)) in
    match VfCount c with
    | Some n => drop_key (legacyVfKey c) (set_key (vfKey c) (itoa n) st)
    | None =>
        match st.1 !! vfKey c with
        | Some _ => drop_key (vfKey c) st
        | None => drop_key (legacyVfKey c) st
        end
    end
  else drop_key (legacyVfKey c) (drop_key (vfKey c) (drop_key (legacyAnnotationKey c) (drop_key (annotationKey c) (m, false)))).

(** * Reconciliation *)

Section Reconcile.
Context {K : Type} `{!KubeAPI K, !DpuConfigAPI K} (ord : order).
Abbreviation KM := (M K).

Fixpoint annotate_dpus (c : DataProcessingUnitConfig) (sel : list Requirement) (dpus : list DataProcessingUnit)
    (matched : list string) : KM (result (list string)) :=
  match dpus with
  | [] => mret (Ok matched)
  | dpu :: dpus =>
      let matches := selector_matches sel (DpuLabels dpu) in
      let '(annotations, changed) := annotate c matches (DpuAnnotations dpu) in
      call _ :=
        (if changed : bool then acts (k_UpdateDpu (dpu <| DpuAnnotations := annotations |>)) else mret (Ok dpu)) or (λ e, e) in
      annotate_dpus c sel dpus (if matches then matched ++ [DpuName dpu] else matched)
  end.
Definition ReconcileDpuConfig (req : cfg_key) : KM Reconciled :=
  r ← acts (p_GetConfig req);
  match r with
  | GetNotFound _ => mret finished
  | GetError e => mret (failed e)
  | GetFound cfg =>
      match (match DpuSelector cfg with Some s => LabelSelectorAsSelector ord s | None => Ok [] end) with
      | Err e => mret (failed e)
      | Ok sel =>
          try dpus := acts k_ListDpus or failed in
          try matched := annotate_dpus cfg sel dpus [] or failed in
          if bool_decide (PcObservedGeneration cfg = PcGeneration cfg ∧ MatchedDPUs cfg = Some matched) then mret finished else
          try _ := acts_err (p_UpdateConfigStatus (cfg <| PcObservedGeneration := PcGeneration cfg |> <| MatchedDPUs := Some matched |>))
            or failed in
          mret finished
      end
  end.
End Reconcile.

(** * Lemmas *)

(** ** The keys *)

Lemma longer_ne s t : s +:+ "." +:+ t ≠ t.
Proof. intros H%(f_equal String.length). rewrite !string_length_app in H. simpl in H. lia. Qed.
Lemma annotation_legacy_ne c : annotationKey c ≠ legacyAnnotationKey c.
Proof. unfold annotationKey, legacyAnnotationKey. intros H%string_app_inj_l. by eapply longer_ne. Qed.
Lemma vf_legacy_ne c : vfKey c ≠ legacyVfKey c.
Proof. unfold vfKey, legacyVfKey. intros H%string_app_inj_l. by eapply longer_ne. Qed.
Lemma mark_vf_ne s t : configAnnotationPrefix +:+ s ≠ DpuConfigVFCountAnnotationPrefix +:+ t.
Proof. done. Qed.

Lemma set_key_lookup k v st k' : v ≠ "" → (set_key k v st).1 !! k' = if decide (k = k') then Some v else st.1 !! k'.
Proof.
  intros Hv. unfold set_key. destruct (String.eqb_spec (default "" (st.1 !! k)) v) as [E|E]; simpl.
  - case_decide as Hk; [|done]. subst k'. destruct (st.1 !! k); simpl in E; congruence.
  - by rewrite lookup_insert.
Qed.
Lemma drop_key_lookup k st k' : (drop_key k st).1 !! k' = if decide (k = k') then None else st.1 !! k'.
Proof.
  unfold drop_key. destruct (st.1 !! k) eqn:E; simpl; [by rewrite lookup_delete|]. case_decide; [by subst|done].
Qed.
(** Nothing changed when [changed] is not set. *)
Definition faithful (m : gmap string string) (st : gmap string string * bool) : Prop := st.2 = false → st.1 = m.
Lemma set_key_faithful k v m st : faithful m st → faithful m (set_key k v st).
Proof. unfold faithful, set_key. by destruct (String.eqb _ v). Qed.
Lemma drop_key_faithful k m st : faithful m st → faithful m (drop_key k st).
Proof. unfold faithful, drop_key. by destruct (st.1 !! k). Qed.
Lemma annotate_faithful c b m : faithful m (annotate c b m).
Proof.
  assert (faithful m (m, false)) as H0 by done. unfold annotate.
  destruct b; [|by repeat apply drop_key_faithful].
  destruct (VfCount c); [by repeat first [apply drop_key_faithful|apply set_key_faithful]|].
  destruct (_ !! vfKey c); by repeat first [apply drop_key_faithful|apply set_key_faithful].
Qed.

(** What the annotations are afterwards. *)
Lemma annotate_lookup c b m k : (annotate c b m).1 !! k =
  if b then
    if decide (k = annotationKey c) then Some "true"
    else if decide (k = legacyAnnotationKey c) then None
    else if decide (k = vfKey c) then itoa <$> VfCount c
    else if decide (k = legacyVfKey c) then
      match VfCount c, m !! vfKey c with None, Some _ => m !! k | _, _ => None end
    else m !! k
  else if decide (k = annotationKey c ∨ k = legacyAnnotationKey c ∨ k = vfKey c ∨ k = legacyVfKey c) then None else m !! k.
Proof.
  assert (annotationKey c ≠ vfKey c ∧ annotationKey c ≠ legacyVfKey c ∧ legacyAnnotationKey c ≠ vfKey c ∧ legacyAnnotationKey c ≠ legacyVfKey c)
    as (H1 & H2 & H3 & H4) by (split_and!; apply mark_vf_ne).
  pose proof (annotation_legacy_ne c) as H5. pose proof (vf_legacy_ne c) as H6.
  assert (∀ k', (drop_key (legacyAnnotationKey c) (set_key (annotationKey c) "true" (m, false))).1 !! k'
    = if decide (legacyAnnotationKey c = k') then None else if decide (annotationKey c = k') then Some "true" else m !! k') as Hst.
  { intros k'. by rewrite drop_key_lookup, set_key_lookup. }
  unfold annotate. destruct b.
  - destruct (VfCount c) as [n|]; simpl.
    + pose proof (itoa_nonempty n). rewrite drop_key_lookup, set_key_lookup by done. rewrite Hst.
      repeat case_decide; subst; congruence.
    + rewrite (Hst (vfKey c)). rewrite decide_False, decide_False by congruence.
      destruct (m !! vfKey c) eqn:E; rewrite drop_key_lookup, Hst; repeat case_decide; subst; congruence.
  - rewrite !drop_key_lookup. simpl. repeat case_decide; try naive_solver.
Qed.

(** ** Validity of the keys *)

(** The key of a VF count has two slashes, whatever the configuration. *)
Lemma vfKey_invalid c : qualified_name_ok (to_lower (vfKey c)) = false.
Proof.
  unfold vfKey. rewrite to_lower_app. generalize (to_lower (PcNamespace c +:+ "." +:+ PcName c)). intros rest.
  assert (split_char "/" (to_lower DpuConfigVFCountAnnotationPrefix +:+ rest)
    = "dpu.config.openshift.io" :: "vf-count" :: split_char "/" rest) as E by reflexivity.
  unfold qualified_name_ok. rewrite E. by destruct (split_char_cons "/" rest) as (w & ws & ->).
Qed.
Lemma valid_no_vf c m : annotations_ok m = true → m !! vfKey c = None.
Proof.
  rewrite annotations_ok_spec. intros H. destruct (m !! vfKey c) eqn:E; [|done].
  specialize (H _ (ex_intro _ _ E)). by rewrite vfKey_invalid in H.
Qed.
Lemma annotate_ok c b m : VfCount c = None ∨ b = false → qualified_name_ok (to_lower (annotationKey c)) = true →
  annotations_ok m = true → annotations_ok (annotate c b m).1 = true.
Proof.
  rewrite !annotations_ok_spec. intros Hc Hk Hm k [v Hv]. rewrite annotate_lookup in Hv. destruct b.
  - destruct Hc as [Hc|]; [|done]. rewrite Hc in Hv. repeat case_decide; subst; try done; try (apply Hm; by eexists).
    destruct (m !! vfKey c); [|done]. apply Hm. by eexists.
  - case_decide; [done|]. apply Hm. by eexists.
Qed.
Lemma annotate_refused c m : is_Some (VfCount c) → annotations_ok m = true →
  (annotate c true m).2 = true ∧ annotations_ok (annotate c true m).1 = false.
Proof.
  intros [n Hn] Hm. assert ((annotate c true m).1 !! vfKey c = Some (itoa n)) as Hv.
  { rewrite annotate_lookup, decide_False by (intros E; symmetry in E; by apply mark_vf_ne in E).
    rewrite decide_False by (intros E; symmetry in E; by apply mark_vf_ne in E). by rewrite decide_True, Hn. }
  split.
  - destruct (annotate c true m).2 eqn:E; [done|]. pose proof (annotate_faithful c true m E) as H.
    rewrite H, (valid_no_vf c m Hm) in Hv. done.
  - destruct (annotations_ok (annotate c true m).1) eqn:E; [|done]. apply (valid_no_vf c) in E. congruence.
Qed.

(** ** Runs *)

Class HealthyDpuConfigs (K : Type) `{!KubeAPI K, !DpuConfigAPI K, !HealthyAPI K} := {
  dpu_configs : K → gmap cfg_key DataProcessingUnitConfig;
  law_p_key k n c : dpu_configs k !! n = Some c → (PcNamespace c, PcName c) = n;
  law_p_Get n k : p_GetConfig n k = (k, found (dpu_configs k !! n));
  law_p_UpdateStatus c k : ∃ k', p_UpdateConfigStatus c k = (k', None) ∧ stored k' = stored k ∧
    dpu_configs k' = <[(PcNamespace c, PcName c) := c]> (dpu_configs k);
  law_p_List k : dpu_configs (k_ListDpus k).1 = dpu_configs k;
  law_p_UpdateDpu o k : dpu_configs (k_UpdateDpu o k).1 = dpu_configs k }.

Section Run.
Context {K : Type} `{!KubeAPI K, !DpuConfigAPI K, !HealthyAPI K, !HealthyDpuConfigs K}.

(** A DPU resource as the configuration leaves it. *)
Definition marked (c : DataProcessingUnitConfig) (sel : list Requirement) (d : DataProcessingUnit) : DataProcessingUnit :=
  d <| DpuAnnotations := (annotate c (selector_matches sel (DpuLabels d)) (DpuAnnotations d)).1 |>.
Definition selected (sel : list Requirement) (l : list DataProcessingUnit) : list string :=
  DpuName <$> filter (λ d, selector_matches sel (DpuLabels d) = true) l.

Lemma annotate_dpu_run c sel d (k : K) :
  VfCount c = None ∨ selector_matches sel (DpuLabels d) = false → qualified_name_ok (to_lower (annotationKey c)) = true →
  stored k !! DpuName d = Some d →
  ∃ k' o, (if (annotate c (selector_matches sel (DpuLabels d)) (DpuAnnotations d)).2
           then acts (k_UpdateDpu (marked c sel d)) else mret (Ok d)) k = (k', Ret (Ok o)) ∧
    stored k' = <[DpuName d := marked c sel d]> (stored k) ∧ dpu_configs k' = dpu_configs k.
Proof.
  intros Hc Hk Hd. pose proof (law_annotations _ _ _ Hd) as Hm.
  destruct (annotate c _ _).2 eqn:E.
  - assert (annotations_ok (DpuAnnotations (marked c sel d)) = true) as Hok by (by apply annotate_ok).
    destruct (law_Update (marked c sel d) k d Hd Hok) as (k' & o & Hu & _ & Hs). exists k', o.
    split; [by apply acts_run|]. split; [rewrite Hs; by destruct d|].
    pose proof (law_p_UpdateDpu (marked c sel d) k) as Hf. by rewrite Hu in Hf.
  - pose proof (annotate_faithful c (selector_matches sel (DpuLabels d)) (DpuAnnotations d) E) as Hf.
    exists k, d. split; [done|]. split; [|done]. unfold marked. rewrite Hf. symmetry. apply insert_id. rewrite Hd. by destruct d.
Qed.
Lemma annotate_dpus_run c sel l matched (k : K) :
  VfCount c = None → qualified_name_ok (to_lower (annotationKey c)) = true →
  NoDup (DpuName <$> l) → (∀ d, d ∈ l → stored k !! DpuName d = Some d) →
  ∃ k', annotate_dpus c sel l matched k = (k', Ret (Ok (matched ++ selected sel l))) ∧ dpu_configs k' = dpu_configs k ∧
    (∀ d, d ∈ l → stored k' !! DpuName d = Some (marked c sel d)) ∧
    (∀ n, n ∉ DpuName <$> l → stored k' !! n = stored k !! n).
Proof.
  intros Hc Hk. revert k matched. induction l as [|d l IH]; intros k matched Hn Hl; simpl.
  { exists k. unfold selected. simpl. rewrite app_nil_r. split; [done|]. split; [done|]. split; [by intros d []%elem_of_nil|done]. }
  apply NoDup_cons in Hn as [Hd Hn].
  destruct (annotate_dpu_run c sel d k) as (k1 & o & Hr & Hs & Hp); [by left|done|by apply Hl; left|].
  destruct (IH k1 (if selector_matches sel (DpuLabels d) then matched ++ [DpuName d] else matched) Hn) as (k' & Hr' & Hp' & H1 & H2).
  { intros q Hq. rewrite Hs, lookup_insert_ne; [apply Hl; by right|]. intros E. apply Hd. rewrite E. by apply list_elem_of_fmap_2. }
  exists k'. split; [|split; [by rewrite Hp', Hp|split]].
  - destruct (annotate c _ _) as [anns changed] eqn:E. unfold marked in Hr. rewrite E in Hr. simpl in Hr.
    rewrite (call_run _ _ _ _ _ _ Hr), Hr'. unfold selected. rewrite filter_cons.
    destruct (selector_matches sel (DpuLabels d)); simpl; [by rewrite <-app_assoc|done].
  - intros q [->|Hq]%elem_of_cons; [|by apply H1]. rewrite H2, Hs by done. by rewrite lookup_insert_eq.
  - intros n [Hne Hnin]%not_elem_of_cons. rewrite H2, Hs by done. by rewrite lookup_insert_ne.
Qed.
(** With a VF count the first selected resource stops the loop. *)
Lemma annotate_dpus_refused c sel l matched (k : K) :
  is_Some (VfCount c) → qualified_name_ok (to_lower (annotationKey c)) = true →
  NoDup (DpuName <$> l) → (∀ d, d ∈ l → stored k !! DpuName d = Some d) →
  (∃ d, d ∈ l ∧ selector_matches sel (DpuLabels d) = true) →
  ∃ k' e, annotate_dpus c sel l matched k = (k', Ret (Err e)).
Proof.
  intros Hc Hk. revert k matched. induction l as [|d l IH]; intros k matched Hn Hl Hm; simpl.
  { by destruct Hm as (d & []%elem_of_nil & _). }
  apply NoDup_cons in Hn as [Hd Hn]. assert (stored k !! DpuName d = Some d) as Hdk by by apply Hl; left.
  destruct (selector_matches sel (DpuLabels d)) eqn:E.
  - destruct (annotate_refused c (DpuAnnotations d) Hc (law_annotations _ _ _ Hdk)) as [H1 H2].
    destruct (annotate c true (DpuAnnotations d)) as [anns changed]. simpl in *. subst changed.
    set (o := d <| DpuAnnotations := anns |>). destruct (law_Update_refused o k H2) as (k1 & e & Hu & _).
    exists k1, e. unfold try_bind. by rewrite (bind_run _ _ _ _ _ (acts_run _ _ _ _ Hu)).
  - destruct (annotate_dpu_run c sel d k) as (k1 & o & Hr & Hs & Hp); [by right|done|done|].
    rewrite E in Hr. unfold marked in Hr. rewrite E in Hr. destruct (annotate c false (DpuAnnotations d)) as [anns changed]. simpl in Hr.
    destruct (IH k1 matched Hn) as (k' & e & Hr').
    { intros q Hq. rewrite Hs, lookup_insert_ne; [apply Hl; by right|]. intros Eq. apply Hd. rewrite Eq. by apply list_elem_of_fmap_2. }
    { destruct Hm as (q & [->|Hq]%elem_of_cons & Hq'); [congruence|by exists q]. }
    exists k', e. by rewrite (call_run _ _ _ _ _ _ Hr).
Qed.
(** What a listing gives the loop. *)
Lemma listed (k : K) l : l ≡ₚ (map_to_list (stored k)).*2 →
  NoDup (DpuName <$> l) ∧ (∀ d, d ∈ l ↔ stored k !! DpuName d = Some d).
Proof.
  intros Hp. assert (∀ d, d ∈ l ↔ stored k !! DpuName d = Some d) as Hd.
  { intros d. rewrite Hp, list_elem_of_fmap. split.
    - intros ([n x] & -> & H%elem_of_map_to_list). simpl. by rewrite (law_named _ _ _ H).
    - intros H. exists (DpuName d, d). by rewrite elem_of_map_to_list. }
  split; [|done]. rewrite Hp, <-list_fmap_compose.
  assert (DpuName ∘ snd <$> map_to_list (stored k) = (map_to_list (stored k)).*1) as ->; [|apply NoDup_fst_map_to_list].
  apply list_fmap_ext. intros i [n x] H%list_elem_of_lookup_2%elem_of_map_to_list. simpl. by apply law_named in H.
Qed.
End Run.

(** The selector of a configuration. *)
Definition config_selector (ord : order) (c : DataProcessingUnitConfig) : result (list Requirement) :=
  match DpuSelector c with Some s => LabelSelectorAsSelector ord s | None => Ok [] end.

Lemma ReconcileDpuConfig_start {K} `{!KubeAPI K, !DpuConfigAPI K, !HealthyAPI K, !HealthyDpuConfigs K} ord req (k : K) c sel :
  dpu_configs k !! req = Some c → config_selector ord c = Ok sel →
  ∃ k1 dpus, stored k1 = stored k ∧ dpu_configs k1 = dpu_configs k ∧ NoDup (DpuName <$> dpus) ∧
    (∀ d, d ∈ dpus ↔ stored k !! DpuName d = Some d) ∧
    ReconcileDpuConfig ord req k =
      (try matched := annotate_dpus c sel dpus [] or failed in
       if bool_decide (PcObservedGeneration c = PcGeneration c ∧ MatchedDPUs c = Some matched) then mret finished else
       try _ := acts_err (p_UpdateConfigStatus (c <| PcObservedGeneration := PcGeneration c |> <| MatchedDPUs := Some matched |>))
         or failed in
       mret finished) k1.
Proof.
  intros Hc Hs. destruct (law_List k) as (k1 & dpus & Hl & Hst & Hp). destruct (listed k dpus Hp) as [Hn Hd].
  exists k1, dpus. split; [done|]. split; [pose proof (law_p_List k) as H; by rewrite Hl in H|]. split; [done|]. split; [done|].
  unfold ReconcileDpuConfig. rewrite (bind_run _ _ _ _ _ (acts_run _ _ _ _ (law_p_Get _ _))), Hc. simpl.
  unfold config_selector in Hs. rewrite Hs. by rewrite (try_run _ _ _ _ _ _ (acts_run _ _ _ _ Hl)).
Qed.

(** * Theorems *)


(** The annotation for a VF count has a key with two slashes, which a Kubernetes API
    server refuses: as soon as a configuration with a count selects a DPU resource, its
    reconciliation fails, and no resource ever shows the count. *)
Theorem vf_count_never_applied {K} `{!KubeAPI K, !DpuConfigAPI K, !HealthyAPI K, !HealthyDpuConfigs K} ord req (k : K) c sel n d :
  dpu_configs k !! req = Some c → config_selector ord c = Ok sel → is_Some (VfCount c) →
  qualified_name_ok (to_lower (annotationKey c)) = true →
  stored k !! n = Some d → selector_matches sel (DpuLabels d) = true →
  ∃ k' e, ReconcileDpuConfig ord req k = (k', Ret (failed e)) ∧
    ∀ n' d', stored k' !! n' = Some d' → DpuAnnotations d' !! vfKey c = None.
Proof.
  intros Hc Hs Hv Hk Hd Hm. destruct (ReconcileDpuConfig_start ord req k c sel Hc Hs) as (k1 & dpus & Hst & _ & Hn & Hdpus & ->).
  pose proof (law_named _ _ _ Hd) as Hdn. subst n.
  destruct (annotate_dpus_refused c sel dpus [] k1 Hv Hk Hn) as (k' & e & Hr).
  - intros q Hq. rewrite Hst. by apply Hdpus.
  - exists d. split; [by apply Hdpus|done].
  - exists k', e. rewrite (try_fails _ _ _ _ _ _ Hr). split; [done|]. intros n' d' H. apply valid_no_vf. by eapply law_annotations.
Qed.

(** The key a configuration used in older releases, which it removes wherever it
    finds it, is the current key of another: a configuration named "a.b" takes the mark
    of the configuration "b" of namespace "a" off every resource. *)
Theorem legacy_keys_collide c c' matches m :
  PcName c = PcNamespace c' +:+ "." +:+ PcName c' → PcNamespace c ≠ "" →
  (annotate c matches m).1 !! annotationKey c' = None.
Proof.
  intros Hn Hns. assert (annotationKey c' = legacyAnnotationKey c) as E.
  { unfold annotationKey, legacyAnnotationKey. by rewrite Hn. }
  rewrite E, annotate_lookup. pose proof (annotation_legacy_ne c) as Hne.
  destruct matches; [rewrite decide_False, decide_True by done; done|]. by rewrite decide_True by tauto.
Qed.

(** When a configuration is deleted its marks stay: the reconciliation that follows
    changes no resource. *)
Theorem deleted_config_leaves_marks {K} `{!KubeAPI K, !DpuConfigAPI K, !HealthyAPI K, !HealthyDpuConfigs K} ord req (k : K) :
  dpu_configs k !! req = None → ReconcileDpuConfig ord req k = (k, Ret finished).
Proof.
  intros Hc. unfold ReconcileDpuConfig. by rewrite (bind_run _ _ _ _ _ (acts_run _ _ _ _ (law_p_Get _ _))), Hc.
Qed.

(** * Witnesses *)
Module ConfigDemo.
Import Daemon.DaemonDemo.
(** The daemon's server with a map of configurations beside it. *)
Definition store : Type := gmap string DataProcessingUnit * gmap cfg_key DataProcessingUnitConfig.
Definition on_dpus {A} (f : gmap string DataProcessingUnit → gmap string DataProcessingUnit * A) (s : store) : store * A :=
  ((( f s.1).1, s.2), (f s.1).2).
#[export] Instance store_dpus : KubeAPI store :=
  {| k_ListDpus := on_dpus k_ListDpus; k_GetDpu n := on_dpus (k_GetDpu n); k_CreateDpu o := on_dpus (k_CreateDpu o);
     k_UpdateDpu o := on_dpus (k_UpdateDpu o); k_UpdateDpuStatus o := on_dpus (k_UpdateDpuStatus o);
     k_DeleteDpu o := on_dpus (k_DeleteDpu o); k_GetDpuOperatorConfig := on_dpus k_GetDpuOperatorConfig;
     k_SetControllerReference := k_SetControllerReference (K := gmap string DataProcessingUnit);
     k_GetNode n := on_dpus (k_GetNode n); k_UpdateNode n l := on_dpus (k_UpdateNode n l) |}.
Definition served_configs (s : store) : gmap cfg_key DataProcessingUnitConfig :=
  filter (λ nc, (PcNamespace nc.2, PcName nc.2) = nc.1) s.2.
#[export] Instance store_configs : DpuConfigAPI store :=
  {| p_GetConfig n s := (s, found (served_configs s !! n));
     p_UpdateConfigStatus c s := ((s.1, <[(PcNamespace c, PcName c) := c]> s.2), None) |}.
Lemma on_dpus_run {A} (f : gmap string DataProcessingUnit → gmap string DataProcessingUnit * A) s k' a :
  f s.1 = (k', a) → on_dpus f s = ((k', s.2), a).
Proof. unfold on_dpus. by intros ->. Qed.
#[export] Instance store_healthy : HealthyAPI store.
Proof.
  refine {| stored s := stored s.1 |}.
  - intros k. apply law_named.
  - intros k. apply law_annotations.
  - intros k. destruct (law_List k.1) as (k' & l & H & ?). exists (k', k.2), l. split; [by apply on_dpus_run|done].
  - intros n k. destruct (law_Get n k.1) as (k' & H & ?). exists (k', k.2). split; [by apply on_dpus_run|done].
  - intros o k H1 H2 H3. destruct (law_Create o k.1 H1 H2 H3) as (k' & o' & H & ?). exists (k', k.2), o'. split; [by apply on_dpus_run|done].
  - intros o k H1. destruct (law_Update_refused o k.1 H1) as (k' & e & H & ?). exists (k', k.2), e. split; [by apply on_dpus_run|done].
  - intros o k c H1 H2. destruct (law_Update o k.1 c H1 H2) as (k' & o' & H & ?). exists (k', k.2), o'. split; [by apply on_dpus_run|done].
  - intros o k c H1. destruct (law_UpdateStatus o k.1 c H1) as (k' & o' & H & ?). exists (k', k.2), o'. split; [by apply on_dpus_run|done].
  - intros o k c H1. destruct (law_Delete o k.1 c H1) as (k' & H & ?). exists (k', k.2). split; [by apply on_dpus_run|done].
  - intros k. destruct (law_Config k.1) as (k' & H & ?). exists (k', k.2). split; [by apply on_dpus_run|done].
  - apply (law_Owner (K := gmap string DataProcessingUnit)).
  - intros n k. apply law_GetNode.
  - intros n l k. apply law_UpdateNode.
Defined.
#[export] Instance store_configs_healthy : HealthyDpuConfigs store.
Proof.
  refine {| dpu_configs := served_configs |}; try done.
  - by intros k n c [_ H]%map_lookup_filter_Some.
  - intros c k. eexists. split; [done|]. split; [done|]. unfold served_configs. simpl. by rewrite map_filter_insert_True.
Defined.
Definition the_selector : LabelSelector := mkSelector {["side" := "host"]} [mkRequirement "maintenance" "DoesNotExist" []].
Definition plain : DataProcessingUnitConfig := mkDpuConfig "cfg" "dpu" 2 (Some the_selector) None 1 None.
Definition with_vfs : DataProcessingUnitConfig := mkDpuConfig "vfs" "dpu" 1 None (Some 8%Z) 0 None.
Definition host : DataProcessingUnit :=
  mkDpuCR "host-1" {["side" := "host"]} {["dpu.config.openshift.io/config-cfg" := "true"]} [] (mkDpuSpec "Intel IPU E2100" false "node-1") [].
Definition start : store := ({["host-1" := host]}, {[("dpu", "cfg") := plain; ("dpu", "vfs") := with_vfs]}).
Definition reqs : list Requirement := [mkReq "side" OpIn ["host"]; mkReq "maintenance" OpDoesNotExist []].
Lemma plain_there : dpu_configs start !! ("dpu", "cfg") = Some plain.
Proof. vm_compute. reflexivity. Qed.
Lemma vfs_there : dpu_configs start !! ("dpu", "vfs") = Some with_vfs.
Proof. vm_compute. reflexivity. Qed.
Lemma plain_selector : config_selector by_key plain = Ok reqs.
Proof. vm_compute. reflexivity. Qed.
Lemma host_there : stored start !! "host-1" = Some host.
Proof. vm_compute. reflexivity. Qed.
End ConfigDemo.
Import Daemon.DaemonDemo ConfigDemo.
Lemma vf_count_never_applied_witness :
  ∃ k' e, ReconcileDpuConfig by_key ("dpu", "vfs") start = (k', Ret (failed e)).
Proof.
  destruct (vf_count_never_applied by_key ("dpu", "vfs") start with_vfs [] "host-1" host vfs_there eq_refl (ex_intro _ _ eq_refl) eq_refl
    host_there eq_refl) as (k' & e & H & _).
  exists k', e. exact H.
Defined.
Lemma legacy_keys_collide_witness :
  (annotate (mkDpuConfig "a.b" "x" 1 None None 0 None) false {["dpu.config.openshift.io/config-a.b" := "true"]}).1
    !! annotationKey (mkDpuConfig "b" "a" 1 None None 0 None) = None.
Proof. apply legacy_keys_collide; [reflexivity|discriminate]. Defined.
Lemma deleted_config_leaves_marks_witness : ReconcileDpuConfig by_key ("dpu", "gone") start = (start, Ret finished).
Proof. apply deleted_config_leaves_marks. vm_compute. reflexivity. Defined.
