(* ===== verification/DpuController.v ===== *)
(** The controller of DPU resources, internal/controller/dataprocessingunit_controller.go:
    for each DPU the daemons report it deploys the vendor-specific process, from the
    manifests of the vendor, and cleans up when the resource is being deleted. *)
From S2P Require Import Prelude Plugin GoMonad Registry Platform Detect Kube Controller Cluster Render.
#[local] Open Scope stdpp_scope.

(** A DPU resource with the metadata the controller reads. *)
Record DpuObject := mkDpuObject { obj_dpu : DataProcessingUnit; obj_uid : string; obj_deleting : bool }.
Class DpuObjectAPI (K : Type) := { v_GetDpu : string → K → K * get_result DpuObject }.
(** It is cluster-scoped. *)
Definition dpu_owner (d : DpuObject) : Owner :=
  mkOwner "config.openshift.io/v1" "DataProcessingUnit" "" (DpuName (obj_dpu d)) (obj_uid d).

Record vsp_env := mkVspEnv {
  ve_getImage : string → result string; ve_imagePullPolicy : string; ve_namespace : string;
  ve_binData : bindata; ve_decode : string → result Object; ve_polls : nat }.

Section Controller.
Context {P : Type} `{!Plugin P} (reg : @Registry P) (Stat : string → Detect.stat_result) (it : list (string * P)).
Context (env : vsp_env).

Definition product (d : DataProcessingUnit) : string := DpuProductName (DpuSpec_ d).

(** The registry plugin of a product, which is only logged: by the vendor of its
    detector, else by a vendor of that name. *)
Definition getPluginForDPU (dpu : DataProcessingUnit) : option P :=
  let by_vendor :=
    match GetVendorNameByProductName reg Stat (product dpu) with
    | Ok vendorName => find (λ p, equal_fold (Vendor (Info p)) vendorName || equal_fold (Name (Info p)) vendorName) (List it)
    | Err _ => None
    end in
  match by_vendor with
  | Some p => Some p
  | None => find (λ p, equal_fold (product dpu) (Vendor (Info p))) (List it)
  end.

Definition getVSPName (dpu : DataProcessingUnit) : string := "vsp-" +:+ DpuName dpu.
Definition getVendorDirectory (dpu : DataProcessingUnit) : result string :=
  rmap (λ dir, "vsp/" +:+ dir) (GetVendorDirectory reg Stat (product dpu)).
Definition getVSPImageForDPU (dpu : DataProcessingUnit) : result string :=
  match find (λ d, String.eqb (d_Name d) (product dpu)) (detectors reg Stat) with
  | Some d => ve_getImage env (SanitizeForTemplate (DpuPlatformName d))
  | None => Err (Text ("unknown DPU product name: " +:+ product dpu))
  end.
Definition vsp_vars (dpu : DataProcessingUnit) (vspImage : string) : gmap string string :=
  MergeVarsWithImages (ve_getImage env) AllImageKeys (list_to_map [
    ("Namespace", ve_namespace env); ("VspName", getVSPName dpu); ("DpuName", DpuName dpu);
    ("NodeName", NodeName (DpuSpec_ dpu)); ("VendorSpecificPluginImage", vspImage);
    ("ImagePullPolicy", ve_imagePullPolicy env); ("Command", "[]"); ("Args", "[]")]).

Section Reconcile.
Context {K : Type} `{!RenderAPI K, !DpuObjectAPI K}.
(** The API server and the renderers of the DPUs, by name. *)
Abbreviation W := (K * gmap string ResourceRenderer)%type.

Definition on_cluster {A} (f : M K A) : M W A := λ w, let '(k, a) := f w.1 in ((k, w.2), a).
(** A step on a DPU's renderer. *)
Definition on_renderer {A} (name : string) (rr : ResourceRenderer) (f : M (K * ResourceRenderer) A) : M W A := λ w,
  let '((k, rr), a) := f (w.1, rr) in ((k, <[name := rr]> w.2), a).

Definition applyVSPResourcesWithTracking (binDataPath : string) (data : gmap string string) (owner : Owner) (dpuName : string)
    : M W (result unit) :=
  renderer ← reads (λ w : W, default (NewResourceRenderer dpuName) (w.2 !! dpuName));
  on_renderer dpuName renderer (ApplyAllFromBinData (ve_binData env) (ve_decode env) binDataPath data (Some owner)).
Definition ensureVSPResources (d : DpuObject) : M W (result unit) :=
  let dpu := obj_dpu d in
  match getVSPImageForDPU dpu with
  | Err e => mret (Err (errorf ("failed to get VSP image for DPU type " +:+ product dpu +:+ ": ") e))
  | Ok vspImage =>
      match getVendorDirectory dpu with
      | Err e => mret (Err (errorf ("failed to get vendor directory for DPU type " +:+ product dpu +:+ ": ") e))
      | Ok vendorDir =>
          call _ := applyVSPResourcesWithTracking vendorDir (vsp_vars dpu vspImage) (dpu_owner d) (DpuName dpu)
            or errorf "failed to apply vendor-specific VSP resources: " in ok
      end
  end.
Definition cleanupVSPResources (dpu : DataProcessingUnit) : M W (result unit) :=
  renderer ← reads (λ w : W, w.2 !! DpuName dpu);
  match renderer with
  | None => ok
  | Some rr => on_renderer (DpuName dpu) rr (CleanupResourcesInReverseOrder (ve_polls env))
  end.
Definition ReconcileDpu (name : string) : M W Reconciled :=
  r ← on_cluster (acts (v_GetDpu name));
  match r with
  | GetNotFound _ => mret finished
  | GetError e => mret (failed e)
  | GetFound d =>
      if obj_deleting d
      then try _ := cleanupVSPResources (obj_dpu d) or failed in mret finished
      else try _ := ensureVSPResources d or failed in mret finished
  end.
End Reconcile.

(** * Lemmas *)

(** Every product a detector can report has an image and a directory of manifests. *)
Definition vendor_directories : list string :=
  ["vsp/intel-ipu"; "vsp/marvell-dpu"; "vsp/intel-netsec"; "vsp/nvidia-bf"; "vsp/xsight"; "vsp/mangoboost"].
Lemma detectors_served dpu d : find (λ d, String.eqb (d_Name d) (product dpu)) (detectors reg Stat) = Some d →
  SanitizeForTemplate (DpuPlatformName d) ∈ AllImageKeys ∧
  ∃ dir, getVendorDirectory dpu = Ok dir ∧ dir ∈ vendor_directories.
Proof.
  intros H. assert (Forall (λ d, SanitizeForTemplate (DpuPlatformName d) ∈ AllImageKeys ∧ "vsp/" +:+ DpuPlatformName d ∈ vendor_directories)
    (detectors reg Stat)) as Hall.
  { repeat apply Forall_cons; repeat split; simpl; try (apply (bool_decide_unpack _); vm_compute; exact I). }
  pose proof (find_some _ _ H) as [Hin _]. apply list_elem_of_In in Hin. rewrite Forall_forall in Hall.
  destruct (Hall d Hin) as [H1 H2]. split; [done|]. eexists. split; [|exact H2].
  unfold getVendorDirectory, GetVendorDirectory, by_product. by rewrite H.
Qed.
End Controller.

Section Run.
Context {P : Type} `{!Plugin P} (reg : @Registry P) (Stat : string → Detect.stat_result) (env : vsp_env).
Context {K : Type} `{!RenderAPI K, !DpuObjectAPI K}.

Lemma ReconcileDpu_found name (k k1 : K) rrs d : v_GetDpu name k = (k1, GetFound d) →
  ReconcileDpu reg Stat env name (k, rrs) =
    (if obj_deleting d then try _ := cleanupVSPResources env (obj_dpu d) or failed in mret finished
     else try _ := ensureVSPResources reg Stat env d or failed in mret finished) (k1, rrs).
Proof.
  intros H. unfold ReconcileDpu.
  assert (on_cluster (acts (v_GetDpu name)) (k, rrs) = ((k1, rrs), Ret (GetFound d))) as Hon.
  { unfold on_cluster, acts. simpl. by rewrite H. }
  by rewrite (bind_run _ _ _ _ _ Hon).
Qed.
Lemma on_renderer_run {A} name (f : M (K * ResourceRenderer) A) (k k' : K) rrs rr rr' a :
  f (k, rr) = ((k', rr'), a) → on_renderer name rr f (k, rrs) = ((k', <[name := rr']> rrs), a).
Proof. unfold on_renderer. simpl. by intros ->. Qed.

(** A deployed DPU: its objects are shown, its renderer tracks them. *)
Lemma ensureVSPResources_run `{!HealthyObjects K} d img dir files objs (k : K) rrs :
  let rr := default (NewResourceRenderer (DpuName (obj_dpu d))) (rrs !! DpuName (obj_dpu d)) in
  getVSPImageForDPU reg Stat env (obj_dpu d) = Ok img → getVendorDirectory reg Stat (obj_dpu d) = Ok dir →
  BinDataYamlFiles dir (ve_binData env) = Ok files →
  Forall2 (λ f o, render_file (ve_binData env) (ve_decode env) f (vsp_vars env (obj_dpu d) img) (Some (dpu_owner d)) = Ok o) files objs →
  NoDup (obj_key <$> objs) →
  ∃ k' rr', ensureVSPResources reg Stat env d (k, rrs) = ((k', <[DpuName (obj_dpu d) := rr']> rrs), Ret (Ok tt)) ∧
    (tracked rr → tracked rr') ∧
    (∀ o, o ∈ objs → is_Some (resources rr' !! resource_key o) ∧
       ∃ o', objects k' !! obj_key o = Some o' ∧ shown_as (objects k !! obj_key o) o o') ∧
    (∀ n, n ∉ obj_key <$> objs → objects k' !! n = objects k !! n).
Proof.
  intros rr Himg Hdir Hfiles HF Hn.
  destruct (apply_files_run _ _ _ _ files objs k rr HF Hn) as (k' & rr' & Hr & H1 & H2 & Ht & _ & _ & H3).
  exists k', rr'. split; [|split; [done|split; [|done]]].
  - assert (applyVSPResourcesWithTracking env dir (vsp_vars env (obj_dpu d) img) (dpu_owner d) (DpuName (obj_dpu d)) (k, rrs)
      = ((k', <[DpuName (obj_dpu d) := rr']> rrs), Ret (Ok tt))) as Ha.
    { unfold applyVSPResourcesWithTracking. rewrite (bind_run _ _ (k, rrs) (k, rrs) rr) by done.
      apply on_renderer_run. unfold ApplyAllFromBinData. by rewrite Hfiles. }
    unfold ensureVSPResources. rewrite Himg, Hdir. by rewrite (call_run _ _ _ _ _ _ Ha).
  - intros o Ho. split; [by apply H3|by apply H1].
Qed.
End Run.

(** * Theorems *)

(** A DPU of a product the detectors know is served: with an image for its vendor
    and manifests that render, one reconciliation deploys the vendor-specific process
    from the vendor's directory, owned by the DPU, and touches nothing else. *)
Theorem dpu_served {P} `{!Plugin P} (reg : @Registry P) Stat env {K} `{!RenderAPI K, !DpuObjectAPI K, !HealthyObjects K}
    name (k : K) rrs d det img dir files objs :
  v_GetDpu name k = (k, GetFound d) → obj_deleting d = false →
  find (λ x, String.eqb (d_Name x) (product (obj_dpu d))) (detectors reg Stat) = Some det →
  ve_getImage env (SanitizeForTemplate (DpuPlatformName det)) = Ok img → dir = "vsp/" +:+ DpuPlatformName det →
  BinDataYamlFiles dir (ve_binData env) = Ok files →
  Forall2 (λ f o, render_file (ve_binData env) (ve_decode env) f (vsp_vars env (obj_dpu d) img) (Some (dpu_owner d)) = Ok o) files objs →
  NoDup (obj_key <$> objs) →
  dir ∈ vendor_directories ∧
  ∃ k' rrs', ReconcileDpu reg Stat env name (k, rrs) = ((k', rrs'), Ret finished) ∧
    (∀ o, o ∈ objs → ∃ o', objects k' !! obj_key o = Some o' ∧ shown_as (objects k !! obj_key o) o o') ∧
    (∀ n, n ∉ obj_key <$> objs → objects k' !! n = objects k !! n).
Proof.
  intros Hg Hd Hdet Himg -> Hfiles HF Hn. destruct (detectors_served reg Stat (obj_dpu d) det Hdet) as (_ & dir' & Hdir & Hin).
  assert (dir' = "vsp/" +:+ DpuPlatformName det) as ->.
  { unfold getVendorDirectory, GetVendorDirectory, by_product in Hdir. rewrite Hdet in Hdir. by injection Hdir as <-. }
  split; [done|]. assert (getVSPImageForDPU reg Stat env (obj_dpu d) = Ok img) as Hi by (unfold getVSPImageForDPU; by rewrite Hdet).
  destruct (ensureVSPResources_run reg Stat env d img _ files objs k rrs Hi Hdir Hfiles HF Hn) as (k' & rr' & Hr & _ & H1 & H2).
  exists k', (<[DpuName (obj_dpu d) := rr']> rrs). rewrite (ReconcileDpu_found _ _ _ _ _ _ _ _ Hg), Hd.
  rewrite (try_run _ _ _ _ _ _ Hr). split; [done|]. split; [|done]. intros o Ho. by apply H1.
Qed.

(** A DPU of a product no detector knows is refused, and nothing is touched. *)
Theorem unknown_product_refused {P} `{!Plugin P} (reg : @Registry P) Stat env {K} `{!RenderAPI K, !DpuObjectAPI K} name (k k1 : K) rrs d :
  v_GetDpu name k = (k1, GetFound d) → obj_deleting d = false →
  (∀ x, x ∈ detectors reg Stat → d_Name x ≠ product (obj_dpu d)) →
  ∃ e, ReconcileDpu reg Stat env name (k, rrs) = ((k1, rrs), Ret (failed e)).
Proof.
  intros Hg Hd Hno. rewrite (ReconcileDpu_found _ _ _ _ _ _ _ _ Hg), Hd.
  assert (find (λ x, String.eqb (d_Name x) (product (obj_dpu d))) (detectors reg Stat) = None) as Hf.
  { destruct (find _ _) as [x|] eqn:E; [|done]. apply find_some in E as [Hin%list_elem_of_In Hx%String.eqb_eq]. by apply Hno in Hin. }
  assert (∃ e, ensureVSPResources reg Stat env d (k1, rrs) = ((k1, rrs), Ret (Err e))) as [e He].
  { unfold ensureVSPResources, getVSPImageForDPU. rewrite Hf. by eexists. }
  exists e. by rewrite (try_fails _ _ _ _ _ _ He).
Qed.

(** What was deployed is remembered in memory only: after a restart of the operator
    the deletion of a DPU cleans up nothing, and reports success. *)
Theorem restart_forgets_vsp {P} `{!Plugin P} (reg : @Registry P) Stat env {K} `{!RenderAPI K, !DpuObjectAPI K} name (k k1 : K) rrs d :
  v_GetDpu name k = (k1, GetFound d) → obj_deleting d = true → rrs !! DpuName (obj_dpu d) = None →
  ReconcileDpu reg Stat env name (k, rrs) = ((k1, rrs), Ret finished).
Proof.
  intros Hg Hd Hrr. rewrite (ReconcileDpu_found _ _ _ _ _ _ _ _ Hg), Hd.
  assert (cleanupVSPResources env (obj_dpu d) (k1, rrs) = ((k1, rrs), Ret (Ok tt))) as Hc.
  { unfold cleanupVSPResources. rewrite (bind_run _ _ (k1, rrs) (k1, rrs) None) by (unfold reads; simpl; by rewrite Hrr). done. }
  by rewrite (try_run _ _ _ _ _ _ Hc).
Qed.

(** * Witnesses *)
Module VspDemo.
Import RenderDemo DetectDemo.
#[export] Instance dpu_store : DpuObjectAPI (gmap okey Object) :=
  {| v_GetDpu n k :=
       (k, if String.eqb n "ipu" then GetFound (mkDpuObject (mkDpuCR n ∅ ∅ [] (mkDpuSpec "Intel IPU E2100" true "node-1") []) "uid" false)
           else if String.eqb n "other" then GetFound (mkDpuObject (mkDpuCR n ∅ ∅ [] (mkDpuSpec "Other" true "node-1") []) "uid" false)
           else if String.eqb n "old" then GetFound (mkDpuObject (mkDpuCR n ∅ ∅ [] (mkDpuSpec "Intel IPU E2100" true "node-1") []) "uid" true)
           else GetNotFound (Text "not found")) |}.
Definition pods : bindata := mkBindata
  (λ d, if String.eqb d "bindata/vsp/intel-ipu" then Ok [("99.vsp-pod.yaml", false)] else Err (Text "no directory"))
  (λ _, Ok "Pod/{{.Namespace}}/{{.VspName}}").
Definition env : vsp_env := mkVspEnv dummy_GetImage "Always" "dpu" pods decode 3000.
Definition ipu : DpuObject := mkDpuObject (mkDpuCR "ipu" ∅ ∅ [] (mkDpuSpec "Intel IPU E2100" true "node-1") []) "uid" false.
Definition vsp_pod : Object := mkObject "v1" "Pod" "dpu" "vsp-ipu" ∅ ∅ [controller_ref (dpu_owner ipu)] "" "" "" "Pod/dpu/vsp-ipu".
Lemma pods_listed : BinDataYamlFiles "vsp/intel-ipu" (ve_binData env) = Ok ["vsp/intel-ipu/99.vsp-pod.yaml"].
Proof. vm_compute. reflexivity. Qed.
Lemma pods_render : Forall2 (λ f o, render_file (ve_binData env) (ve_decode env) f (vsp_vars env (obj_dpu ipu) "intel_ipu-mock-image")
  (Some (dpu_owner ipu)) = Ok o) ["vsp/intel-ipu/99.vsp-pod.yaml"] [vsp_pod].
Proof. repeat constructor; vm_compute; reflexivity. Qed.
Lemma other_unknown x : x ∈ detectors reg stat → d_Name x ≠ "Other".
Proof. intros Hx%list_elem_of_In. simpl in Hx. repeat destruct Hx as [<-|Hx]; done. Qed.
Definition other : DpuObject := mkDpuObject (mkDpuCR "other" ∅ ∅ [] (mkDpuSpec "Other" true "node-1") []) "uid" false.
Definition old : DpuObject := mkDpuObject (mkDpuCR "old" ∅ ∅ [] (mkDpuSpec "Intel IPU E2100" true "node-1") []) "uid" true.
Definition empty : gmap okey Object := ∅.
Lemma ipu_found : v_GetDpu "ipu" empty = (empty, GetFound ipu).
Proof. reflexivity. Qed.
Lemma other_found : v_GetDpu "other" empty = (empty, GetFound other).
Proof. reflexivity. Qed.
Lemma old_found : v_GetDpu "old" empty = (empty, GetFound old).
Proof. reflexivity. Qed.
Lemma ipu_detector : find (λ x, String.eqb (d_Name x) (product (obj_dpu ipu))) (detectors reg stat) = Some (IntelDetector stat).
Proof. reflexivity. Qed.
End VspDemo.
Import RenderDemo DetectDemo VspDemo.
Lemma dpu_served_witness :
  ∃ k' rrs', ReconcileDpu reg stat env "ipu" (empty, ∅) = ((k', rrs'), Ret finished) ∧
    ∃ o', objects k' !! obj_key vsp_pod = Some o' ∧ shown_as None vsp_pod o'.
Proof.
  destruct (dpu_served reg stat env "ipu" empty ∅ ipu (IntelDetector stat) "intel_ipu-mock-image" "vsp/intel-ipu" _ _
    ipu_found eq_refl ipu_detector eq_refl eq_refl pods_listed pods_render (NoDup_singleton _)) as (_ & k' & rrs' & H & Ho & _).
  exists k', rrs'. split; [exact H|exact (Ho vsp_pod (list_elem_of_here _ _))].
Defined.
Lemma unknown_product_refused_witness : ∃ e, ReconcileDpu reg stat env "other" (empty, ∅) = ((empty, ∅), Ret (failed e)).
Proof. exact (unknown_product_refused reg stat env "other" empty empty ∅ other other_found eq_refl other_unknown). Defined.
Lemma restart_forgets_vsp_witness : ReconcileDpu reg stat env "old" (empty, ∅) = ((empty, ∅), Ret finished).
Proof. exact (restart_forgets_vsp reg stat env "old" empty empty ∅ old old_found eq_refl eq_refl). Defined.
