(* ===== verification/VspNet.v ===== *)
(** What the vendor-specific processes share, vendor-specific-plugins/common/vspnetutils.go:
    virtual functions, veth pairs, the Open vSwitch bridge, link-local addresses, and the
    loops that wait for the kernel.

    The machine is [HostOps]: commands, files, netlink, PCI discovery and a clock.  Times
    are in milliseconds; the elapsed time and the name of the interface in
    the text of a timeout are left out. *)
From Stdlib Require Import DecimalString DecimalPos DecimalZ.
From S2P Require Import Prelude Plugin Net GoMonad CniTypes SriovUtils Platform.
#[local] Open Scope stdpp_scope.

Class HostOps (W : Type) := {
  h_Run : list string → W → W * option error;               (** [exec.Command(...).Run()] *)
  h_Output : list string → W → W * result string;           (** [exec.Command(...).Output()] *)
  h_WriteFile : string → string → W → W * option error;
  h_Readlink : string → W → W * (string * option error);
  h_PciDevices : W → W * result (list PCIDevice);
  h_ReadSerial : PCIDevice → W → W * result string;
  h_PciDriver : string → W → W * result (option string);     (** of ghw's [GetDevice]; [None]: no such device *)
  h_GetNetDevName : string → W → W * result string;         (** [GetNetDevNameFromPCIeAddr] *)
  h_NetEntries : string → W → W * result (list string);      (** [os.Lstat], then [os.ReadDir] *)
  h_LinkByName : string → W → W * result Link;
  h_LinkSetUp : Link → W → W * option error;
  h_LinkSetDown : Link → W → W * option error;
  h_LinkAddVeth : string → string → W → W * option error;
  h_LinkDel : Link → W → W * option error;
  h_LinkSetVfVlan : Link → Z → Z → W → W * option error;
  h_LinkSetVfSpoofchk : Link → Z → bool → W → W * option error;
  h_LinkSetVfTrust : Link → Z → bool → W → W * option error;
  h_Now : W → W * Z;
  h_Sleep : Z → W → W }.

Definition NetSysDir : string := "/sys/class/net".
Definition newline : string := String (Ascii.ascii_of_nat 10) "".
(** [errors.Join]. *)
Definition join_errors (a b : error) : error := Text (Error a +:+ newline +:+ Error b).

Record VEthPairDeviceInfo := mkVeth { VethIfMac : string; IfName : string; PeerName : string; PeerIfMAC : string }.
(** The name of the PF's interface and the index of the VF. *)
Abbreviation VfDeviceKey := (string * Z)%type.
Record VfDeviceInfo := mkVfDev { VfKey : VfDeviceKey; VfPciAddress : string; Vlan : Z; Allocated : bool }.
#[export] Instance VfDeviceInfo_eta : Eta VfDeviceInfo := λ d, mkVfDev (VfKey d) (VfPciAddress d) (Vlan d) (Allocated d).

(** [\d+], and [strconv.Atoi] of it. *)
Definition digits (s : string) : bool := negb (String.eqb s "") && all_char is_digit s.
Definition Atoi (s : string) : result Z :=
  match atoi s with
  | Some z => Ok z
  | None => Err (Text ("strconv.Atoi: parsing " +:+ quote s +:+ ": value out of range"))
  end.

Section Utils.
Context {W : Type} `{!HostOps W}.
Abbreviation HM := (M W).

Definition SetSriovNumVfs (pciAddr : string) (numVfs : Z) : HM (result unit) :=
  let numVfsFilePath := Join ["/sys/bus/pci/devices"; pciAddr; "sriov_numvfs"] in
  call _ := acts_err (h_WriteFile numVfsFilePath "0") or (λ e, e) in
  if (numVfs =? 0)%Z then ok else acts_err (h_WriteFile numVfsFilePath (itoa numVfs)).

(** ** Link-local addresses *)

Definition linkHasAddrgenmodeEui64 (interfaceName : string) : HM bool :=
  out ← acts (h_Output ["ip"; "-d"; "link"; "show"; "dev"; interfaceName]);
  mret (match out with Ok s => contains "addrgenmode eui64" s | Err _ => false end).
Definition enableOptomisticDuplicateAddressDetection (interfaceName : string) : HM (result unit) :=
  acts_err (h_WriteFile ("/proc/sys/net/ipv6/conf/" +:+ interfaceName +:+ "/optimistic_dad") "1").
Definition link_down_cmd (interfaceName : string) : list string := ["ip"; "link"; "set"; interfaceName; "down"].
Definition EnableIPV6LinkLocal (interfaceName ipv6Addr : string) : HM (result unit) :=
  _ ← ignore (acts (h_Run ["nsenter"; "-t"; "1"; "-m"; "-u"; "-n"; "-i"; "--"; "nmcli"; "device"; "set"; interfaceName; "managed"; "no"]));
  _ ← ignore (enableOptomisticDuplicateAddressDetection interfaceName);
  eui64 ← linkHasAddrgenmodeEui64 interfaceName;
  call _ := (if eui64 : bool then ok else
      call _ := acts_err (h_Run ["ip"; "link"; "set"; interfaceName; "addrgenmode"; "eui64"])
        or errorf ("error setting link " +:+ interfaceName +:+ " addrgenmode: ") in
      call _ := acts_err (h_Run (link_down_cmd interfaceName))
        or errorf ("error setting link " +:+ interfaceName +:+ " down after setting addrgenmode: ") in ok) or (λ e, e) in
  call _ := acts_err (h_Run ["ip"; "link"; "set"; interfaceName; "up"]) or errorf ("error setting link " +:+ interfaceName +:+ " up: ") in
  call _ := acts_err (h_Run ["ip"; "addr"; "replace"; ipv6Addr +:+ "/64"; "dev"; interfaceName; "optimistic"])
    or errorf ("error configuring IPv6 address " +:+ ipv6Addr +:+ "/64 on link " +:+ interfaceName +:+ ": ") in
  ok.

(** ** Veth pairs *)

Definition LinkSetUpDown (ifName : string) (up : bool) : HM (result unit) :=
  call link := acts (h_LinkByName ifName) or (λ e, e) in
  acts_err (if up then h_LinkSetUp link else h_LinkSetDown link).
Definition DestroyVethPair (dev : VEthPairDeviceInfo) : HM (result unit) :=
  call nfLink := acts (h_LinkByName (IfName dev)) or (λ e, e) in
  acts_err (h_LinkDel nfLink).
Definition veth_up (dev : VEthPairDeviceInfo) (link : Link) : HM (result unit) :=
  r ← acts_err (h_LinkSetUp link);
  match r with
  | Ok _ => ok
  | Err e =>
      d ← DestroyVethPair dev;
      mret (Err (match d with Ok _ => e | Err d => join_errors d e end))
  end.
Definition CreateVethPair (ifname peername : string) : HM (result VEthPairDeviceInfo) :=
  let deviceInfo := mkVeth "" ifname peername "" in
  _ ← ignore (DestroyVethPair deviceInfo);
  call _ := acts_err (h_LinkAddVeth ifname peername) or (λ e, e) in
  call ifLink := acts (h_LinkByName ifname) or (λ e, e) in
  call peerLink := acts (h_LinkByName peername) or (λ e, e) in
  call _ := veth_up deviceInfo ifLink or (λ e, e) in
  call _ := veth_up deviceInfo peerLink or (λ e, e) in
  mret (Ok (mkVeth (mac_string (lk_mac ifLink)) ifname peername (mac_string (lk_mac peerLink)))).
Definition CreateNfVethPair (idx : Z) : HM (result VEthPairDeviceInfo) :=
  CreateVethPair ("nf_if" +:+ itoa idx) ("dp_if" +:+ itoa idx).

(** ** Virtual functions in sysfs *)

Definition readPCIsymbolicLink (symbolicLink : string) : HM (string * option error) :=
  '(pciDevDir, err) ← acts (h_Readlink symbolicLink);
  mret (if (String.length pciDevDir <=? 3)%nat then ("", Some (Text "could not find PCI Address"))
        else (drop_string 3 pciDevDir, err)).
Definition VfPCIAddressFromVfIndex (pfName : string) (vfId : Z) : HM (result string) :=
  '(pciAddress, err) ← readPCIsymbolicLink (Join [NetSysDir; pfName; "device"; "virtfn" +:+ itoa vfId]);
  mret (match err with
        | Some e => Err (Text (Error e +:+ " for VF virtfn" +:+ itoa vfId +:+ " of PF " +:+ pfName))
        | None => Ok pciAddress
        end).
Definition SetPfHwModeVepa (pfName : string) : HM (result unit) :=
  acts_err (h_Run ["bridge"; "link"; "set"; "dev"; pfName; "hwmode"; "vepa"]).

(** ** Open vSwitch *)

Definition ovs_vsctl (args : list string) : list string := ["chroot"; "/host"; "ovs-vsctl"] ++ args.
Definition CreateOvSBridge (bridgeName : string) : HM (result unit) := acts_err (h_Run (ovs_vsctl ["--may-exist"; "add-br"; bridgeName])).
Definition DeleteOvSBridge (bridgeName : string) : HM (result unit) := acts_err (h_Run (ovs_vsctl ["del-br"; bridgeName])).
Definition AddInterfaceToOvSBridge (bridgeName ifname : string) : HM (result unit) :=
  acts_err (h_Run (ovs_vsctl ["--may-exist"; "add-port"; bridgeName; ifname])).
Definition DeleteInterfaceFromOvSBridge (bridgeName ifname : string) : HM (result unit) :=
  acts_err (h_Run (ovs_vsctl ["del-port"; bridgeName; ifname])).

(** ** Waiting

    The three loops: an attempt that succeeds ends the loop; one that fails ends it when
    more than [timeout] has passed, and is repeated after a pause otherwise.  An attempt
    that fails gives the value of [lastErr].  The fuel is shown to be enough. *)
Definition retryInterval : Z := 500.
Definition timeout_error (msg : string) (lastErr : option error) : error :=
  match lastErr with Some e => Wrap (msg +:+ ": ") e | None => Text (msg +:+ ": %!w(<nil>)") end.
Fixpoint wait_loop {A} (fuel : nat) (startTime timeout : Z) (msg : string) (attempt : HM (A + option error)) : HM (result A) :=
  match fuel with
  | O => mret (Err (Text "out of fuel"))
  | S fuel =>
      r ← attempt;
      now ← acts h_Now;
      match r with
      | inl a => mret (Ok a)
      | inr lastErr =>
          if (now - startTime >? timeout)%Z then mret (Err (timeout_error msg lastErr))
          else _ ← writes (h_Sleep retryInterval); wait_loop fuel startTime timeout msg attempt
      end
  end.
Definition wait_fuel (timeout : Z) : nat := Z.to_nat (timeout / retryInterval + 2).
Definition wait {A} (timeout : Z) (msg : string) (attempt : HM (A + option error)) : HM (result A) :=
  startTime ← acts h_Now;
  wait_loop (wait_fuel timeout) startTime timeout msg attempt.

Definition netdev_attempt (pcieAddr : string) : HM (string + option error) :=
  r ← acts (h_GetNetDevName pcieAddr);
  mret (match r with Ok ifName => inl ifName | Err e => inr (Some e) end).
Definition WaitForNetDevReady (pcieAddr : string) (timeout : Z) : HM (result string) :=
  wait timeout ("timeout waiting for VF netdev to appear for PCIe address " +:+ pcieAddr) (netdev_attempt pcieAddr).
Definition pci_attempt (pfName : string) (vfId : Z) : HM (string + option error) :=
  r ← VfPCIAddressFromVfIndex pfName vfId;
  mret (match r with
        | Ok a => if String.eqb a "" then inr None else inl a
        | Err e => inr (Some e)
        end).
Definition WaitForVfPciAddressReady (pfName : string) (vfId timeout : Z) : HM (result string) :=
  wait timeout ("timeout waiting for VF PCI address for PF " +:+ pfName +:+ " VF " +:+ itoa vfId) (pci_attempt pfName vfId).
(** The error of [LinkByName] is assigned to a shadowing variable: [lastErr] stays nil. *)
Definition link_attempt (pcieAddr : string) : HM ((string * Link) + option error) :=
  r ← acts (h_GetNetDevName pcieAddr);
  match r with
  | Err e => mret (inr (Some e))
  | Ok ifName =>
      l ← acts (h_LinkByName ifName);
      mret (match l with Ok link => inl (ifName, link) | Err _ => inr None end)
  end.
Definition WaitForLinkReady (pcieAddr : string) (timeout : Z) : HM (result (string * Link)) :=
  wait timeout ("timeout waiting for VF netdev link to be ready pcie: " +:+ pcieAddr) (link_attempt pcieAddr).
End Utils.

(** * The clock *)

Class ClockLaws (W : Type) `{!HostOps W} := {
  clock : W → Z;
  law_Now w : let '(w', t) := h_Now w in t = clock w' ∧ (clock w ≤ clock w')%Z;
  law_Sleep d w : (clock w + d ≤ clock (h_Sleep d w))%Z;
  law_Readlink_time p w : (clock w ≤ clock (h_Readlink p w).1)%Z;
  law_GetNetDevName_time a w : (clock w ≤ clock (h_GetNetDevName a w).1)%Z;
  law_LinkByName_time n w : (clock w ≤ clock (h_LinkByName n w).1)%Z }.

Section Waiting.
Context {W : Type} `{!HostOps W, !ClockLaws W}.

(** An attempt does not panic and does not turn the clock back. *)
Definition attempts {A} (f : M W A) : Prop := ∀ w, ∃ w' a, f w = (w', Ret a) ∧ (clock w ≤ clock w')%Z.
Lemma attempts_ret {A} (a : A) : attempts (mret a).
Proof. intros w. exists w, a. by split. Qed.
Lemma attempts_acts {A} (f : W → W * A) : (∀ w, clock w ≤ clock (f w).1)%Z → attempts (acts f).
Proof. intros H w. specialize (H w). destruct (f w) as [w' a] eqn:E. exists w', a. by rewrite (acts_run _ _ _ _ E). Qed.
Lemma attempts_bind {A B} (f : M W A) (k : A → M W B) : attempts f → (∀ a, attempts (k a)) → attempts (f ≫= k).
Proof.
  intros Hf Hk w. destruct (Hf w) as (w1 & a & E & Hc). destruct (Hk a w1) as (w2 & b & E2 & Hc2).
  exists w2, b. rewrite (bind_run _ _ _ _ _ E). split; [done|lia].
Qed.
Lemma netdev_attempts a : attempts (netdev_attempt a).
Proof. apply attempts_bind; [apply attempts_acts, law_GetNetDevName_time|]. intros [?|?]; apply attempts_ret. Qed.
Lemma link_attempts a : attempts (link_attempt a).
Proof.
  apply attempts_bind; [apply attempts_acts, law_GetNetDevName_time|]. intros [n|e]; [|apply attempts_ret].
  apply attempts_bind; [apply attempts_acts, law_LinkByName_time|]. intros [?|?]; apply attempts_ret.
Qed.
Lemma pci_attempts p i : attempts (pci_attempt p i).
Proof.
  apply attempts_bind; [|intros [?|?]; [case_match|]; apply attempts_ret].
  apply attempts_bind; [|intros [? []]; apply attempts_ret].
  apply attempts_bind; [apply attempts_acts, law_Readlink_time|]. intros [? ?]. apply attempts_ret.
Qed.

(** The result of an attempt, or the timeout once more than [timeout] has passed. *)
Definition waited {A} (startTime timeout : Z) (msg : string) (w' : W) (r : result A) : Prop :=
  is_ok r = true ∨ (∃ lastErr, r = Err (timeout_error msg lastErr)) ∧ (startTime + timeout < clock w')%Z.
Lemma wait_loop_ends {A} fuel startTime timeout msg (attempt : M W (A + option error)) w : attempts attempt →
  (0 < fuel)%nat → (startTime + timeout < clock w + retryInterval * (Z.of_nat fuel - 1))%Z →
  ∃ w' r, wait_loop fuel startTime timeout msg attempt w = (w', Ret r) ∧ waited startTime timeout msg w' r.
Proof.
  intros Ha. revert w. induction fuel as [|fuel IH]; intros w Hf Hc; [lia|]. cbn [wait_loop].
  destruct (Ha w) as (w1 & r & E & H1). rewrite (bind_run _ _ _ _ _ E).
  pose proof (law_Now w1) as Hn. destruct (h_Now w1) as [w2 now] eqn:En. destruct Hn as [-> H2].
  rewrite (bind_run _ _ _ _ _ (acts_run _ _ _ _ En)). destruct r as [a|lastErr].
  { exists w2, (Ok a). split; [done|by left]. }
  destruct (_ >? _)%Z eqn:Et.
  { eexists w2, _. split; [done|]. right. split; [by eexists|lia]. }
  pose proof (law_Sleep retryInterval w2) as H3. unfold retryInterval in *.
  apply (IH (h_Sleep 500 w2)); [destruct fuel; [lia|lia]|lia].
Qed.
Lemma wait_ends {A} timeout msg (attempt : M W (A + option error)) w : attempts attempt → (0 ≤ timeout)%Z →
  ∃ startTime w' r, wait timeout msg attempt w = (w', Ret r) ∧ (clock w ≤ startTime)%Z ∧ waited startTime timeout msg w' r.
Proof.
  intros Ha Ht. unfold wait. pose proof (law_Now w) as Hn. destruct (h_Now w) as [w2 now] eqn:En. destruct Hn as [-> Hc].
  rewrite (bind_run _ _ _ _ _ (acts_run _ _ _ _ En)).
  destruct (wait_loop_ends (wait_fuel timeout) (clock w2) timeout msg attempt w2) as (w' & r & E & Hw); [done| | |].
  - unfold wait_fuel, retryInterval. pose proof (Z.div_pos timeout 500). lia.
  - unfold wait_fuel, retryInterval. pose proof (Z.div_pos timeout 500). pose proof (Z.mul_succ_div_gt timeout 500). lia.
  - by exists (clock w2), w', r.
Qed.
End Waiting.

(** * The bridge and the names of devices

    What the theorems on bridge ports need of the machine: a network device keeps its
    name once it has one, and the bridge holds what [ovs-vsctl] put there. *)
Definition add_port_cmd (br p : string) : list string := ovs_vsctl ["--may-exist"; "add-port"; br; p].
Definition del_port_cmd (br p : string) : list string := ovs_vsctl ["del-port"; br; p].

Class OvsView (W : Type) := { netdev : string → W → option string; bridge_ports : string → W → gset string }.
Definition settles {W} `{!OvsView W} (w w' : W) : Prop := ∀ a n, netdev a w = Some n → netdev a w' = Some n.
Definition quietly {W} `{!OvsView W} (w w' : W) : Prop := settles w w' ∧ ∀ br, bridge_ports br w' = bridge_ports br w.
Class OvsLaws (W : Type) `{!HostOps W, !OvsView W} := {
  law_netdev a w : let '(w', r) := h_GetNetDevName a w in quietly w w' ∧ ∀ n, r = Ok n → netdev a w' = Some n;
  law_link n w : quietly w (h_LinkByName n w).1;
  law_up l w : quietly w (h_LinkSetUp l w).1;
  law_down l w : quietly w (h_LinkSetDown l w).1;
  law_now w : quietly w (h_Now w).1;
  law_sleep d w : quietly w (h_Sleep d w);
  law_add_port br p w : let '(w', e) := h_Run (add_port_cmd br p) w in settles w w' ∧
    (e = None → bridge_ports br w' = {[p]} ∪ bridge_ports br w);
  law_del_port br p w : let '(w', e) := h_Run (del_port_cmd br p) w in settles w w' ∧
    (e = None → bridge_ports br w' = bridge_ports br w ∖ {[p]}) }.

Section Ovs.
Context {W : Type} `{!HostOps W, !OvsView W, !OvsLaws W}.
#[export] Instance quietly_preorder : PreOrder quietly.
Proof.
  split; [by intros w; split; [intros a n|]|]. intros w1 w2 w3 [H1 E1] [H2 E2]. split; [intros a n Ha; auto|].
  intros br. by rewrite E2.
Qed.
Lemma quiet_netdev a w : quietly w (h_GetNetDevName a w).1.
Proof. pose proof (law_netdev a w) as H. by destruct (h_GetNetDevName a w), H. Qed.
#[local] Hint Resolve law_link law_up law_down law_now quiet_netdev : steps.
Lemma sleep_quiet d : steps_by quietly (writes (h_Sleep d)).
Proof. intros w w' a [= <- _]. apply law_sleep. Qed.
#[local] Hint Resolve sleep_quiet : steps.
Lemma wait_quiet {A} timeout msg (attempt : M W (A + option error)) : steps_by quietly attempt → steps_by quietly (wait timeout msg attempt).
Proof.
  intros Ha. unfold wait. relate. generalize (wait_fuel timeout). intros fuel.
  induction fuel as [|fuel IH]; cbn [wait_loop]; relate.
Qed.
Lemma WaitForNetDevReady_quiet a t : steps_by quietly (WaitForNetDevReady a t).
Proof. apply wait_quiet. unfold netdev_attempt. relate. Qed.

(** A wait that succeeds gives the result of an attempt. *)
Lemma wait_last {A} (P : A → W → Prop) timeout msg (attempt : M W (A + option error)) w w' a :
  (∀ w w' a, returns attempt w w' (inl a) → P a w') → (∀ a w w', quietly w w' → P a w → P a w') →
  returns (wait timeout msg attempt) w w' (Ok a) → P a w'.
Proof.
  intros Ha Hq H. unfold wait in H. apply bind_returns in H as (w1 & start & _ & H). revert w1 H. generalize (wait_fuel timeout). intros fuel.
  induction fuel as [|fuel IH]; intros w1 H; cbn [wait_loop] in H; [inv_ret H|].
  apply bind_returns in H as (w2 & r & H2 & H). apply bind_returns in H as (w3 & now & H3%acts_run_inv & H).
  pose proof (law_now w2) as Hn. rewrite H3 in Hn. destruct r as [b|last].
  - apply ret_returns in H as [-> [= ->]]. eapply Hq; [exact Hn|]. by eapply Ha.
  - destruct (_ >? _)%Z; [inv_ret H|]. apply bind_returns in H as (w4 & u & _ & H). by eapply IH.
Qed.
Lemma WaitForNetDevReady_name a t w w' n : returns (WaitForNetDevReady a t) w w' (Ok n) → netdev a w' = Some n.
Proof.
  apply (wait_last (λ n w, netdev a w = Some n)); [|by intros m w1 w2 [Hs _] ?; apply Hs].
  intros u u' m H. unfold netdev_attempt in H. apply bind_returns in H as (u1 & r & H1%acts_run_inv & H).
  pose proof (law_netdev a u) as Hl. rewrite H1 in Hl. apply ret_returns in H as [-> H]. destruct r; [|done].
  injection H as ->. by apply Hl.
Qed.
Lemma GetNetDevName_name a w w' n : returns (acts (h_GetNetDevName a)) w w' (Ok n) → netdev a w' = Some n ∧ quietly w w'.
Proof. intros H%acts_run_inv. pose proof (law_netdev a w) as Hl. rewrite H in Hl. split; [by apply Hl|apply Hl]. Qed.
(** Adding and removing an interface. *)
Lemma add_to_bridge br n w w' : returns (AddInterfaceToOvSBridge br n) w w' (Ok tt) →
  settles w w' ∧ bridge_ports br w' = {[n]} ∪ bridge_ports br w.
Proof.
  intros H%acts_err_inv. pose proof (law_add_port br n w) as Hl. unfold add_port_cmd in Hl. rewrite H in Hl.
  split; [apply Hl|by apply Hl].
Qed.
Lemma delete_from_bridge br n w w' : returns (DeleteInterfaceFromOvSBridge br n) w w' (Ok tt) →
  settles w w' ∧ bridge_ports br w' = bridge_ports br w ∖ {[n]}.
Proof.
  intros H%acts_err_inv. pose proof (law_del_port br n w) as Hl. unfold del_port_cmd in Hl. rewrite H in Hl.
  split; [apply Hl|by apply Hl].
Qed.
End Ovs.

(** * Nothing here panics *)

Section Total.
Context {W : Type} `{!HostOps W}.
Lemma total_wait {A} timeout msg (attempt : M W (A + option error)) : total attempt → total (wait timeout msg attempt).
Proof.
  intros Ha. apply total_bind; [apply total_acts|]. intros t. generalize (wait_fuel timeout). intros n.
  induction n as [|n IH]; cbn [wait_loop]; [apply total_ret|]. apply total_bind; [done|]. intros r.
  apply total_bind; [apply total_acts|]. intros now. destruct r as [a|e]; [apply total_ret|]. destruct (_ >? _)%Z; [apply total_ret|].
  apply total_bind; [apply total_writes|]. intros _. apply IH.
Qed.
Lemma total_WaitForNetDevReady a t : total (WaitForNetDevReady a t : M W _).
Proof. apply total_wait, total_bind; [apply total_acts|]. intros r. apply total_ret. Qed.
End Total.

(** * A server on a machine

    The state of a process: the fields of the server and the machine it runs on. *)
Section Server.
Context {S W : Type}.
Definition on_host {A} (f : M W A) : M (S * W) A := λ v, let '(w, a) := f v.2 in ((v.1, w), a).
Definition server {A} (f : S → A) : M (S * W) A := reads (λ v, f v.1).
Definition modify (f : S → S) : M (S * W) unit := λ v, ((f v.1, v.2), Ret tt).

Lemma on_host_returns {A} (f : M W A) v v' a : returns (on_host f) v v' a → v'.1 = v.1 ∧ returns f v.2 v'.2 a.
Proof. unfold returns, on_host. destruct (f v.2) as [w o]. by intros [= <- ->]. Qed.
Lemma server_returns {A} (f : S → A) (v v' : S * W) a : returns (server f) v v' a → v' = v ∧ a = f v.1.
Proof. by intros [= <- <-]. Qed.
Lemma modify_returns f (v v' : S * W) u : returns (modify f) v v' u → v' = (f v.1, v.2).
Proof. by intros [= <- _]. Qed.

Lemma wp_on_host {A} (f : M W A) Q v : wp f (λ a w, Q a (v.1, w)) v.2 → wp (on_host f) Q v.
Proof.
  intros (w & a & H & HQ). exists (v.1, w), a. split; [|done]. unfold returns, on_host in *. by rewrite H.
Qed.
Lemma wp_on_host_total {A} (f : M W A) Q v : total f → (∀ a w, Q a (v.1, w)) → wp (on_host f) Q v.
Proof. intros Hf HQ. destruct (Hf v.2) as (w & a & H). apply wp_on_host. by exists w, a. Qed.
Lemma wp_server {A} (f : S → A) Q (v : S * W) : Q (f v.1) v → wp (server f) Q v.
Proof. intros HQ. by exists v, (f v.1). Qed.
Lemma wp_modify f Q (v : S * W) : Q tt (f v.1, v.2) → wp (modify f) Q v.
Proof. intros HQ. by exists (f v.1, v.2), tt. Qed.

(** What an operation that returns does to the server. *)
Definition on_server (R : S → S → Prop) (v v' : S * W) : Prop := R v.1 v'.1.
#[export] Instance server_preorder (R : S → S → Prop) : PreOrder R → PreOrder (on_server R).
Proof. intros [Hr Ht]. split; [intros v; apply Hr|]. intros v1 v2 v3. apply Ht. Qed.
Lemma rel_on_host (R : S → S → Prop) `{!PreOrder R} {A} (f : M W A) : steps_by (on_server R) (on_host f).
Proof. intros v v' a [E _]%on_host_returns. unfold on_server. by rewrite E. Qed.
Lemma rel_server (R : S → S → Prop) `{!PreOrder R} {A} (f : S → A) : steps_by (on_server R) (server f).
Proof. by intros v v' a [-> _]%server_returns. Qed.
Lemma rel_modify (R : S → S → Prop) f : (∀ s, R s (f s)) → steps_by (on_server R) (modify f).
Proof. intros Hf v v' a ->%modify_returns. apply Hf. Qed.
End Server.
Abbreviation server_rel R := (steps_by (on_server R)).
#[export] Hint Resolve rel_on_host rel_server : steps.

(** * Numbers in names *)

Lemma string_of_uint_digits u : all_char is_digit (NilEmpty.string_of_uint u) = true.
Proof. by induction u. Qed.
Lemma digits_itoa z : (0 ≤ z)%Z → digits (itoa z) = true.
Proof.
  intros Hz. destruct z as [|p|p]; [done| |lia]. unfold digits, itoa. simpl.
  assert (NilZero.string_of_uint (Pos.to_uint p) = NilEmpty.string_of_uint (Pos.to_uint p)) as ->.
  { pose proof (Unsigned.to_uint_nonnil p). by destruct (Pos.to_uint p). }
  rewrite string_of_uint_digits, andb_true_r. pose proof (Unsigned.to_uint_nonnil p). by destruct (Pos.to_uint p).
Qed.
Lemma digits_no_char c s : is_digit c = false → digits s = true → count_char c s = 0.
Proof.
  unfold digits. intros Hc [_ H]%andb_prop. induction s as [|d s IH]; simpl in *; [done|].
  apply andb_prop in H as [Hd H]. destruct (Ascii.eqb_spec d c) as [->|]; [congruence|]. by apply IH.
Qed.
Lemma Atoi_itoa z : (0 ≤ z < 2 ^ 63)%Z → Atoi (itoa z) = Ok z.
Proof. intros H. unfold Atoi. rewrite atoi_itoa; [done|]. unfold fits_int64. lia. Qed.

(** * The waits end *)

(** C32: every wait of the program returns: with the result of an attempt, or, when more than
    the timeout has passed, with the timeout error; its fuel is never used up. *)
Theorem waits_end {W} `{!HostOps W, !ClockLaws W} timeout pcieAddr pfName vfId (w : W) : (0 ≤ timeout)%Z →
  let ends {A} (f : M W (result A)) (msg : string) := ∃ startTime w' r, f w = (w', Ret r) ∧ (clock w ≤ startTime)%Z ∧
    waited startTime timeout msg w' r in
  ends (WaitForNetDevReady pcieAddr timeout) ("timeout waiting for VF netdev to appear for PCIe address " +:+ pcieAddr) ∧
  ends (WaitForVfPciAddressReady pfName vfId timeout) ("timeout waiting for VF PCI address for PF " +:+ pfName +:+ " VF " +:+ itoa vfId) ∧
  ends (WaitForLinkReady pcieAddr timeout) ("timeout waiting for VF netdev link to be ready pcie: " +:+ pcieAddr).
Proof.
  intros Ht. repeat split; (apply wait_ends; [|done]); [apply netdev_attempts|apply pci_attempts|apply link_attempts].
Qed.

(** An interface whose addresses are generated from its MAC is not toggled: whatever only
    [ip link set down] changes stays as it was. *)
Theorem eui64_not_toggled {W X} `{!HostOps W} (g : W → X) ifName addr :
  (∀ cmd w, cmd ≠ link_down_cmd ifName → g (h_Run cmd w).1 = g w) →
  (∀ p c w, g (h_WriteFile p c w).1 = g w) →
  (∀ w, g (h_Output ["ip"; "-d"; "link"; "show"; "dev"; ifName] w).1 = g w ∧
    ∃ out, (h_Output ["ip"; "-d"; "link"; "show"; "dev"; ifName] w).2 = Ok out ∧ contains "addrgenmode eui64" out = true) →
  preserves g (EnableIPV6LinkLocal ifName addr).
Proof.
  intros Hrun Hwrite Hshow. unfold EnableIPV6LinkLocal, enableOptomisticDuplicateAddressDetection.
  assert (∀ cmd, cmd ≠ link_down_cmd ifName → preserves g (acts (h_Run cmd))) as Hact.
  { intros cmd Hc w. unfold acts. specialize (Hrun cmd w Hc). by destruct (h_Run cmd w). }
  assert (∀ p c, preserves g (acts (h_WriteFile p c))) as Hfile.
  { intros p c w. unfold acts. specialize (Hwrite p c w). by destruct (h_WriteFile p c w). }
  assert (∀ cmd, cmd ≠ link_down_cmd ifName → preserves g (acts_err (h_Run cmd))) as Hcmd.
  { intros cmd Hc. apply preserves_bind; [by apply Hact|]. by intros []. }
  apply preserves_bind; [by apply preserves_ignore, Hact|intros _].
  apply preserves_bind; [apply preserves_ignore, preserves_bind; [apply Hfile|by intros []]|intros _].
  intros w. destruct (Hshow w) as [Hs (out & Ho & Hc)]. unfold linkHasAddrgenmodeEui64.
  destruct (h_Output _ w) as [w1 r] eqn:E. simpl in Hs, Ho. subst r.
  rewrite (bind_run _ _ w w1 true) by (rewrite (bind_run _ _ _ _ _ (acts_run _ _ _ _ E)); simpl; by rewrite Hc).
  rewrite <-Hs. apply preserves_call; [done|intros _]. do 2 (apply preserves_call; [by apply Hcmd|intros _]). done.
Qed.

(** * A machine *)

Module HostDemo.
Record machine := mkMachine {
  m_time : Z; m_names : gmap string string; m_symlinks : gmap string string; m_ports : gmap string (gset string);
  m_links : gmap string Link; m_pci : list PCIDevice; m_net : gmap string (list string) }.
#[export] Instance machine_eta : Eta machine := λ m,
  mkMachine (m_time m) (m_names m) (m_symlinks m) (m_ports m) (m_links m) (m_pci m) (m_net m).
Definition not_there (what : string) : error := Text (what +:+ ": no such file or directory").
Definition ports_of (br : string) (m : machine) : gset string := default ∅ (m_ports m !! br).
Definition run (cmd : list string) (m : machine) : machine * option error :=
  match cmd with
  | [_; _; _; a; b; br; p] =>
      if decide (cmd = add_port_cmd br p) then (m <| m_ports := <[br := {[p]} ∪ ports_of br m]> (m_ports m) |>, None) else (m, None)
  | [_; _; _; a; br; p] =>
      if decide (cmd = del_port_cmd br p) then
        if decide (p ∈ ports_of br m) then (m <| m_ports := <[br := ports_of br m ∖ {[p]}]> (m_ports m) |>, None)
        else (m, Some (Text "exit status 1"))
      else (m, None)
  | _ => (m, None)
  end.
Definition link_of (i : Z) (name : string) : Link :=
  {| lk_index := i; lk_name := name; lk_mac := [2; 0; 0; 0; 0; i]%Z; lk_up := false; lk_alias := ""; lk_vfs := [] |}.
Definition get {A} (what : string) (o : option A) : result A := match o with Some a => Ok a | None => Err (not_there what) end.
#[export] Instance machine_ops : HostOps machine := {|
  h_Run := run; h_Output cmd m := (m, Ok "addrgenmode none"); h_WriteFile p c m := (m, None);
  h_Readlink p m := (m, match m_symlinks m !! p with Some t => (t, None) | None => ("", Some (not_there p)) end);
  h_PciDevices m := (m, Ok (m_pci m)); h_ReadSerial d m := (m, Ok "serial"); h_PciDriver a m := (m, Ok None);
  h_GetNetDevName a m := (m, get a (m_names m !! a)); h_NetEntries p m := (m, get p (m_net m !! p));
  h_LinkByName n m := (m, get n (m_links m !! n));
  h_LinkSetUp l m := (m <| m_links := <[lk_name l := l]> (m_links m) |>, None); h_LinkSetDown l m := (m, None);
  h_LinkAddVeth a b m :=
    let i := Z.of_nat (size (m_links m)) in
    (m <| m_links := <[a := link_of i a]> (<[b := link_of (i + 1) b]> (m_links m)) |>, None);
  h_LinkDel l m := (m <| m_links := delete (lk_name l) (m_links m) |>, None);
  h_LinkSetVfVlan l i v m := (m, None); h_LinkSetVfSpoofchk l i b m := (m, None); h_LinkSetVfTrust l i b m := (m, None);
  h_Now m := (m, m_time m); h_Sleep d m := m <| m_time := (m_time m + d)%Z |> |}.
#[export] Instance machine_clock : ClockLaws machine.
Proof. by refine {| clock := m_time |}; intros *; simpl. Defined.
#[export] Instance machine_view : OvsView machine := {| netdev a m := m_names m !! a; bridge_ports := ports_of |}.
#[export] Instance machine_laws : OvsLaws machine.
Proof.
  split; try (by intros *; split; [intros ? ?|]).
  - intros a w. simpl. split; [by split; [intros ? ?|]|]. unfold get. destruct (m_names w !! a); [|done]. by intros n [= ->].
  - intros br p w. simpl. unfold run, add_port_cmd, ovs_vsctl. simpl. rewrite decide_True by done. split; [by intros ? ?|].
    intros _. unfold ports_of at 1. simpl. by rewrite lookup_insert_eq.
  - intros br p w. simpl. unfold run, del_port_cmd, ovs_vsctl. simpl. rewrite decide_True by done.
    destruct (decide _); (split; [by intros ? ?|]); [|done]. intros _. unfold ports_of at 1. simpl. by rewrite lookup_insert_eq.
Qed.
Definition idle : machine := mkMachine 0 ∅ ∅ ∅ ∅ [] ∅.
End HostDemo.
Import HostDemo.

Lemma waits_end_witness : ∃ startTime w' r, WaitForNetDevReady "0000:f4:00.2" 40000 idle = (w', Ret r) ∧
  (clock idle ≤ startTime)%Z ∧ waited startTime 40000 ("timeout waiting for VF netdev to appear for PCIe address " +:+ "0000:f4:00.2") w' r.
Proof. exact (proj1 (waits_end 40000 "0000:f4:00.2" "eth0" 0 idle ltac:(done))). Defined.
Example never_ready : ∃ e, (WaitForNetDevReady "0000:f4:00.2" 40000 idle).2 = Ret (Err e) ∧
  m_time (WaitForNetDevReady "0000:f4:00.2" 40000 idle).1 = 40500%Z.
Proof. eexists. vm_compute. split; reflexivity. Qed.
