(* ===== verification/Netsec.v ===== *)
(** The vendor-specific process of the Intel Netsec accelerator,
    vendor-specific-plugins/intel-netsec/main.go.

    The descriptions of virtual functions are Go objects that the table of devices and
    the service function chain share: they live in a heap, and a pointer is an index into
    it. *)
From S2P Require Import Prelude Plugin Net OpiClient GrpcPlugin GoMonad CniTypes SriovUtils Platform SideManagers VspNet.
#[local] Open Scope stdpp_scope.

Definition IPv6AddrDpu : string := "fe80::1".
Definition IPv6AddrHost : string := "fe80::2".
Definition DefaultPort : Z := 8085.
Definition IntelVendorID : string := "8086".
Definition IntelNetSecHostVfDeviceID : string := "1889".
Definition IntelNetSecHostDeviceID : string := "1599".
Definition IntelNetSecDpuSFPf1PCIeAddress : string := "0000:f4:00.1".
Definition IntelNetSecDpuBackplanef2PCIeAddress : string := "0000:f4:00.2".
Definition VlanOffset : Z := 2.
Definition NoOfVethPairs : nat := 2.
Definition MaxChains : Z := 1.
Definition OvSBridgeName : string := "br-secondary".
(** 40 s. *)
Definition IntelWaitForVfSetupTimeout : Z := 40000.

(** ghw's [PCIAddressFromString], its bus and function: [None] is a nil address. *)
Definition hex_of_length (n : nat) (s : string) : bool := (String.length s =? n)%nat && all_char is_hex_lower s.
Definition domain_ok (s : string) : bool :=
  all_char is_hex_lower s && ((String.length s <=? 4)%nat || ((String.length s =? 5)%nat && has_prefix "1" s)).
Definition bus_and_function (bus df : string) : option (string * string) :=
  match split_char "." df with
  | [dev; fn] => if hex_of_length 2 bus && hex_of_length 2 dev && hex_of_length 1 fn then Some (bus, fn) else None
  | _ => None
  end.
Definition PCIAddressFromString (address : string) : option (string * string) :=
  match split_char ":" (to_lower address) with
  | [bus; df] => bus_and_function bus df
  | [dom; bus; df] => if domain_ok dom then bus_and_function bus df else None
  | _ => None
  end.

(** * State *)

Abbreviation ptr := nat.
Record intelNetSecVfRepDev := mkRep { vfRepDev : ptr; hostSideMac : string }.
Record intelNetSecServiceFunctionChain := mkChain { vfRepDevs : gmap VfDeviceKey intelNetSecVfRepDev; sfpVfDevs : VfDeviceInfo }.
#[export] Instance chain_eta : Eta intelNetSecServiceFunctionChain := λ c, mkChain (vfRepDevs c) (sfpVfDevs c).

Record intelNetSecVspServer := mkNetsec {
  isDPUMode : bool; dpuIdentifier : string; dpuPcieAddress : string;
  vfCnt : Z;
  vethTunnelPairDevs : gmap string VEthPairDeviceInfo;
  heap : list VfDeviceInfo;
  vfDevs : gmap VfDeviceKey ptr;
  numNfs : Z;
  serviceFunctionChains : gmap Z intelNetSecServiceFunctionChain }.
#[export] Instance server_eta : Eta intelNetSecVspServer := λ s,
  mkNetsec (isDPUMode s) (dpuIdentifier s) (dpuPcieAddress s) (vfCnt s) (vethTunnelPairDevs s) (heap s) (vfDevs s)
    (numNfs s) (serviceFunctionChains s).
Definition NewIntelNetSecVspServer : intelNetSecVspServer := mkNetsec false "" "" 0 ∅ [] ∅ 0 ∅.

Section Server.
Context {W : Type} `{!HostOps W}.
Abbreviation VM := (M (intelNetSecVspServer * W)).

(** ** Initialization *)

(** A nil address is dereferenced. *)
Fixpoint vfs_on_bus (bus : string) (devices : list PCIDevice) (found : list string) : VM (list string) :=
  match devices with
  | [] => mret found
  | pci :: devices =>
      match PCIAddressFromString (pci_Address pci) with
      | None => panic
      | Some (b, _) =>
          vfs_on_bus bus devices
            (if String.eqb b bus && String.eqb (pci_VendorID pci) IntelVendorID
                && String.eqb (pci_ProductID pci) IntelNetSecHostVfDeviceID
             then found ++ [pci_Address pci] else found)
      end
  end.
Definition getVFs (pfPCIeAddress : string) : VM (result (list string)) :=
  call devices := on_host (acts h_PciDevices) or errorf "failed to get PCI devices: " in
  match PCIAddressFromString pfPCIeAddress with
  | None => panic
  | Some (bus, _) => found ← vfs_on_bus bus devices []; mret (Ok found)
  end.

Definition configureCommChannelIPs (dpuMode : bool) : VM (result (string * Z)) :=
  pcie ← (if dpuMode then mret IntelNetSecDpuBackplanef2PCIeAddress else server dpuPcieAddress);
  call ifName := on_host (acts (h_GetNetDevName pcie)) or (λ e, e) in
  call _ := on_host (EnableIPV6LinkLocal ifName (if dpuMode then IPv6AddrDpu else IPv6AddrHost)) or (λ e, e) in
  mret (Ok ("[" +:+ IPv6AddrDpu +:+ (if dpuMode then "%" else "%25") +:+ ifName +:+ "]", DefaultPort)).

Fixpoint find_dpu (dpuIdentifier : string) (devices : list PCIDevice) : VM (result string) :=
  match devices with
  | [] => mret (Err (Text ("DPU PCIe address not found for identifier: " +:+ dpuIdentifier)))
  | pci :: devices =>
      if String.eqb (pci_VendorID pci) IntelVendorID && String.eqb (pci_ProductID pci) IntelNetSecHostDeviceID then
        call serial := on_host (acts (h_ReadSerial pci))
          or errorf ("error reading device serial number for " +:+ pci_Address pci +:+ ": ") in
        if String.eqb serial dpuIdentifier then
          match PCIAddressFromString (pci_Address pci) with
          | None => panic
          | Some (_, fn) => if String.eqb fn "0" then mret (Ok (pci_Address pci)) else find_dpu dpuIdentifier devices
          end
        else find_dpu dpuIdentifier devices
      else find_dpu dpuIdentifier devices
  end.
Definition GetDpuPcieAddress (dpuIdentifier : string) : VM (result string) :=
  dpu ← server isDPUMode;
  if dpu : bool then mret (Ok "") else
  call devices := on_host (acts h_PciDevices) or errorf "Error getting devices: " in
  find_dpu dpuIdentifier devices.

Definition ifUpAndAddToBridge (ifName : string) : M W (result unit) :=
  call link := acts (h_LinkByName ifName) or (λ e, e) in
  call _ := acts_err (h_LinkSetUp link) or (λ e, e) in
  AddInterfaceToOvSBridge OvSBridgeName ifName.
Definition ifDownAndDelFromBridge (ifName : string) : M W (result unit) :=
  call link := acts (h_LinkByName ifName) or (λ e, e) in
  call _ := acts_err (h_LinkSetDown link) or (λ e, e) in
  DeleteInterfaceFromOvSBridge OvSBridgeName ifName.

Definition initOvSDataPlane (bridgeName : string) : VM (result unit) :=
  call _ := on_host (CreateOvSBridge bridgeName) or (λ e, e) in
  call sfpPortIfName := on_host (acts (h_GetNetDevName IntelNetSecDpuSFPf1PCIeAddress)) or (λ e, e) in
  call vfPcieAddr := on_host (WaitForVfPciAddressReady sfpPortIfName 0 IntelWaitForVfSetupTimeout) or (λ e, e) in
  call vfIfName := on_host (WaitForNetDevReady vfPcieAddr IntelWaitForVfSetupTimeout) or (λ e, e) in
  call sfpPortlink := on_host (acts (h_LinkByName sfpPortIfName)) or (λ e, e) in
  call _ := on_host (acts_err (h_LinkSetVfSpoofchk sfpPortlink 0 false)) or (λ e, e) in
  call _ := on_host (acts_err (h_LinkSetVfTrust sfpPortlink 0 true)) or (λ e, e) in
  _ ← modify (λ s, s <| serviceFunctionChains :=
        <[0%Z := mkChain ∅ (mkVfDev (sfpPortIfName, 0%Z) vfPcieAddr 0 true)]> (serviceFunctionChains s) |>);
  on_host (ifUpAndAddToBridge vfIfName).

Fixpoint veth_loop (idxs : list nat) : VM (result unit) :=
  match idxs with
  | [] => ok
  | idx :: idxs =>
      call veth := on_host (CreateNfVethPair (Z.of_nat idx)) or (λ e, e) in
      _ ← modify (λ s, s <| vethTunnelPairDevs := <[VethIfMac veth := veth]> (vethTunnelPairDevs s) |>);
      veth_loop idxs
  end.
Definition createVethPairs : VM (result unit) := veth_loop (seq 0 NoOfVethPairs).

(** The wait for a VF, whose link is then set down: its address and name. *)
Definition finishVfSetup (ifName : string) (vfID : Z) : M W (result (string * string)) :=
  call pcieAddr := WaitForVfPciAddressReady ifName vfID IntelWaitForVfSetupTimeout or (λ e, e) in
  call (vfIfName, vfLink) := WaitForLinkReady pcieAddr IntelWaitForVfSetupTimeout or (λ e, e) in
  call _ := acts_err (h_LinkSetDown vfLink) or (λ e, e) in
  mret (Ok (pcieAddr, vfIfName)).
Fixpoint spoofchk_loop (ifName : string) (vfIDs : list Z) : M W (result unit) :=
  match vfIDs with
  | [] => ok
  | vfID :: vfIDs =>
      call link := acts (h_LinkByName ifName) or (λ e, e) in
      call _ := acts_err (h_LinkSetVfSpoofchk link vfID false) or (λ e, e) in
      call _ := finishVfSetup ifName vfID or (λ e, e) in
      spoofchk_loop ifName vfIDs
  end.
(** [for vfID := 0; vfID < numVfs; vfID++]. *)
Definition vf_ids (numVfs : Z) : list Z := Z.of_nat <$> seq 0 (Z.to_nat numVfs).
Definition setSpoofChkExternalPorts (pfPcieAddr : string) (numVfs : Z) : M W (result unit) :=
  call ifName := acts (h_GetNetDevName pfPcieAddr) or (λ e, e) in
  spoofchk_loop ifName (vf_ids numVfs).
Definition setExternalPortNumVfs (numVfs : Z) : VM (result unit) :=
  call _ := on_host (SetSriovNumVfs IntelNetSecDpuSFPf1PCIeAddress numVfs) or (λ e, e) in
  on_host (setSpoofChkExternalPorts IntelNetSecDpuSFPf1PCIeAddress numVfs).

(** When [GetDpuPcieAddress] fails its empty result has been assigned. *)
Definition Init (dpuMode : bool) (identifier : string) : VM (result (string * Z)) :=
  _ ← modify (λ s, s <| isDPUMode := dpuMode |> <| dpuIdentifier := identifier |>);
  addr ← GetDpuPcieAddress identifier;
  _ ← modify (λ s, s <| dpuPcieAddress := match addr with Ok a => a | Err _ => "" end |>);
  match addr with
  | Err e => mret (Err e)
  | Ok _ =>
      call ipPort := configureCommChannelIPs dpuMode or (λ e, e) in
      call _ := (if dpuMode then
          call _ := createVethPairs or (λ e, e) in
          call _ := setExternalPortNumVfs MaxChains or (λ e, e) in
          initOvSDataPlane OvSBridgeName
        else ok) or (λ e, e) in
      mret (Ok ipPort)
  end.

Definition healthy (id : string) : PbDevice := {| PbID := id; PbHealth := "Healthy"; PbNode := "" |}.
Definition GetDevices : VM (result DeviceListResponse) :=
  dpu ← server isDPUMode;
  if dpu : bool then
    veths ← server vethTunnelPairDevs;
    mret (Ok (list_to_map ((λ d, (IfName d, healthy (IfName d))) <$> (map_to_list veths).*2)))
  else
    pf ← server dpuPcieAddress;
    call vfs := getVFs pf or (λ e, e) in
    mret (Ok (list_to_map ((λ vf, (vf, healthy vf)) <$> vfs))).

(** ** Bridge ports *)

(** [^host(\d+)-(\d+)$]. *)
Definition match_bridge_port (name : string) : option (string * string) :=
  if has_prefix "host" name then
    match split_char "-" (drop_string 4 name) with
    | [pf; vf] => if digits pf && digits vf then Some (pf, vf) else None
    | _ => None
    end
  else None.
Definition bridge_port_ids (name : string) : result (Z * Z) :=
  match match_bridge_port name with
  | None => Err (Text "OPI BridgePortName does not match expected format")
  | Some (pf, vf) => let? pfid := Atoi pf in let? vfId := Atoi vf in Ok (pfid, vfId)
  end.
Definition describe (k : VfDeviceKey) : string := "PFInterfaceName: " +:+ k.1 +:+ ", VFId: " +:+ itoa k.2.
(** The pointer of the device. *)
Definition getConnectedVf (name : string) : VM (result ptr) :=
  match bridge_port_ids name with
  | Err e => mret (Err e)
  | Ok (pfid, vfId) =>
      if negb (pfid =? 0)%Z then mret (Err (Text ("PFID " +:+ itoa pfid +:+ " is not supported"))) else
      call pfIfName := on_host (acts (h_GetNetDevName IntelNetSecDpuBackplanef2PCIeAddress)) or (λ e, e) in
      devs ← server vfDevs;
      mret (match devs !! (pfIfName, vfId) with
            | Some p => Ok p
            | None => Err (Text ("VF Device not found " +:+ describe (pfIfName, vfId)))
            end)
  end.
Definition deref (p : ptr) : VM VfDeviceInfo :=
  d ← server (λ s, heap s !! p);
  match d with Some d => mret d | None => panic end.
Definition set_allocated (b : bool) (p : ptr) (s : intelNetSecVspServer) : intelNetSecVspServer :=
  s <| heap := alter (λ d, d <| Allocated := b |>) p (heap s) |>.
Definition set_reps (reps : gmap VfDeviceKey intelNetSecVfRepDev) (s : intelNetSecVspServer) : intelNetSecVspServer :=
  s <| serviceFunctionChains := alter (λ c, c <| vfRepDevs := reps |>) 0%Z (serviceFunctionChains s) |>.

(** A request without a bridge port or without its specification, and a server without a
    chain, are nil dereferences. *)
Definition CreateBridgePort (req : CreateBridgePortRequest) : VM (result OpiBridgePort) :=
  match CreateBp req with
  | None => panic
  | Some bp =>
      call p := getConnectedVf (BpName bp) or (λ e, e) in
      vfDevice ← deref p;
      if Allocated vfDevice then mret (Err (Text ("VF Device is already allocated " +:+ describe (VfKey vfDevice)))) else
      call vfIfName := on_host (WaitForNetDevReady (VfPciAddress vfDevice) IntelWaitForVfSetupTimeout) or (λ e, e) in
      call _ := on_host (ifUpAndAddToBridge vfIfName) or (λ e, e) in
      chain ← server (λ s, serviceFunctionChains s !! 0%Z);
      match BpSpec bp, chain with
      | None, _ | _, None => panic
      | Some spec, Some c =>
          match vfRepDevs c !! VfKey vfDevice with
          | Some _ => mret (Err (Text ("VF Device is already exists " +:+ describe (VfKey vfDevice))))
          | None =>
              _ ← modify (set_reps (<[VfKey vfDevice := mkRep p (mac_string (MacAddress spec))]> (vfRepDevs c)));
              _ ← modify (set_allocated true p);
              mret (Ok {| BpName := ""; BpSpec := None |})
          end
      end
  end.
Definition DeleteBridgePort (name : string) : VM (result unit) :=
  call p := getConnectedVf name or (λ e, e) in
  vfDevice ← deref p;
  call vfIfName := on_host (WaitForNetDevReady (VfPciAddress vfDevice) IntelWaitForVfSetupTimeout) or (λ e, e) in
  call _ := on_host (ifDownAndDelFromBridge vfIfName) or (λ e, e) in
  chain ← server (λ s, serviceFunctionChains s !! 0%Z);
  match chain with
  | None => panic
  | Some c =>
      match vfRepDevs c !! VfKey vfDevice with
      | None => mret (Err (Text ("VF Device not found " +:+ describe (VfKey vfDevice))))
      | Some rep =>
          d ← deref (vfRepDev rep);
          if negb (Allocated d) then mret (Err (Text ("VF Device is not allocated " +:+ describe (VfKey vfDevice)))) else
          _ ← modify (set_allocated false (vfRepDev rep));
          _ ← modify (set_reps (delete (VfKey vfDevice) (vfRepDevs c)));
          ok
      end
  end.

(** ** Network functions *)

Definition find_veth (mac what : string) : VM (result VEthPairDeviceInfo) :=
  veths ← server vethTunnelPairDevs;
  mret (match veths !! mac with
        | Some v => Ok v
        | None => Err (Text ("veth pair not found for " +:+ what +:+ ": " +:+ mac))
        end).
Definition CreateNetworkFunction (input output : string) : VM (result unit) :=
  call inportVeth := find_veth input "input" or (λ e, e) in
  call outportVeth := find_veth output "output" or (λ e, e) in
  call _ := on_host (ifUpAndAddToBridge (PeerName inportVeth)) or (λ e, e) in
  call _ := on_host (ifUpAndAddToBridge (PeerName outportVeth)) or (λ e, e) in
  _ ← modify (λ s, s <| numNfs := (numNfs s + 1)%Z |>);
  ok.
Definition DeleteNetworkFunction (input output : string) : VM (result unit) :=
  _ ← modify (λ s, s <| numNfs := (numNfs s - 1)%Z |>);
  call inportVeth := find_veth input "input" or (λ e, e) in
  call outportVeth := find_veth output "output" or (λ e, e) in
  call _ := on_host (ifDownAndDelFromBridge (PeerName inportVeth)) or (λ e, e) in
  on_host (ifDownAndDelFromBridge (PeerName outportVeth)).

(** ** Virtual functions *)

(** [vsp.vfDevs[key] = &VfDeviceInfo{...}]. *)
Definition new_device (d : VfDeviceInfo) (s : intelNetSecVspServer) : intelNetSecVspServer :=
  s <| heap := heap s ++ [d] |> <| vfDevs := <[VfKey d := length (heap s)]> (vfDevs s) |>.
Fixpoint vlan_loop (ifName : string) (vfIDs : list Z) : VM (result unit) :=
  match vfIDs with
  | [] => ok
  | vfID :: vfIDs =>
      let vlan := (vfID + VlanOffset)%Z in
      call link := on_host (acts (h_LinkByName ifName)) or (λ e, e) in
      call _ := on_host (acts_err (h_LinkSetVfVlan link vfID vlan)) or (λ e, e) in
      call _ := on_host (acts_err (h_LinkSetVfSpoofchk link vfID false)) or (λ e, e) in
      call _ := on_host (acts_err (h_LinkSetVfTrust link vfID true)) or (λ e, e) in
      call (pcieAddr, _) := on_host (finishVfSetup ifName vfID) or (λ e, e) in
      _ ← modify (new_device (mkVfDev (ifName, vfID) pcieAddr vlan false));
      vlan_loop ifName vfIDs
  end.
Definition setVlanIdsSpoofChkInternalPorts (pfPcieAddr : string) (numVfs : Z) : VM (result unit) :=
  call ifName := on_host (acts (h_GetNetDevName pfPcieAddr)) or (λ e, e) in
  call _ := on_host (SetPfHwModeVepa ifName) or (λ e, e) in
  vlan_loop ifName (vf_ids numVfs).
Definition SetNumVfs (count : Z) : VM (result Z) :=
  dpu ← server isDPUMode;
  pf ← (if dpu : bool then mret IntelNetSecDpuBackplanef2PCIeAddress else server dpuPcieAddress);
  call _ := on_host (SetSriovNumVfs pf count) or (λ e, e) in
  call _ := setVlanIdsSpoofChkInternalPorts pf count or (λ e, e) in
  _ ← modify (λ s, s <| vfCnt := count |>);
  mret (Ok count).

(** ** Shutdown, on the machine; the veth pairs in the order of the map. *)

Fixpoint destroy_veths (veths : list VEthPairDeviceInfo) : M W unit :=
  match veths with
  | [] => mret tt
  | d :: veths => _ ← ignore (DestroyVethPair d); destroy_veths veths
  end.
Definition Stop (order : gmap string VEthPairDeviceInfo → list VEthPairDeviceInfo) : VM unit :=
  _ ← ignore (on_host (DeleteOvSBridge OvSBridgeName));
  veths ← server vethTunnelPairDevs;
  on_host (destroy_veths (order veths)).
End Server.

(** * Names of bridge ports *)

(** The host side names the port of a VF so that the DPU side reads the same VF. *)
Lemma match_host_port pf vf : (0 ≤ pf)%Z → (0 ≤ vf)%Z → match_bridge_port (host_port_name pf vf) = Some (itoa pf, itoa vf).
Proof.
  intros Hp Hv. unfold match_bridge_port, host_port_name. rewrite has_prefix_app. change 4%nat with (String.length "host").
  rewrite drop_string_app. apply digits_itoa in Hp, Hv. change ("-" +:+ itoa vf) with (String "-" (itoa vf)).
  rewrite (split_char_app "-" (itoa pf)) by by apply digits_no_char.
  rewrite (split_char_no_sep "-" (itoa vf)) by by apply digits_no_char. by rewrite Hp, Hv.
Qed.

(** * The server's devices *)

(** Every device of the table is filed under its PF and index, with the VLAN of its
    index; every port of the chain belongs to an allocated device, filed likewise. *)
Record netsec_inv (s : intelNetSecVspServer) : Prop := {
  inv_devices k p : vfDevs s !! k = Some p → ∃ d, heap s !! p = Some d ∧ VfKey d = k ∧ Vlan d = (k.2 + VlanOffset)%Z;
  inv_ports c k r : serviceFunctionChains s !! 0%Z = Some c → vfRepDevs c !! k = Some r →
    ∃ d, heap s !! vfRepDev r = Some d ∧ VfKey d = k ∧ Allocated d = true }.

Section Frame.
Context {W : Type} `{!HostOps W} (R : intelNetSecVspServer → intelNetSecVspServer → Prop) `{!PreOrder R}.
Lemma rel_deref p : server_rel R (deref p : M (_ * W) _).
Proof. unfold deref. relate. Qed.
Lemma rel_find_veth mac what : server_rel R (find_veth mac what : M (_ * W) _).
Proof. unfold find_veth. relate. Qed.
Lemma rel_getConnectedVf name : server_rel R (getConnectedVf name : M (_ * W) _).
Proof. unfold getConnectedVf. relate. Qed.
Lemma rel_find_dpu i devices : server_rel R (find_dpu i devices : M (_ * W) _).
Proof. induction devices as [|pci devices IH]; cbn [find_dpu]; relate. Qed.
End Frame.
#[export] Hint Resolve rel_deref rel_find_veth rel_getConnectedVf rel_find_dpu : steps.

Definition keep_inv (s s' : intelNetSecVspServer) : Prop := netsec_inv s → netsec_inv s'.
#[export] Instance inv_preorder : PreOrder keep_inv.
Proof. unfold keep_inv. split; [by intros s|]. intros s1 s2 s3. auto. Qed.
Lemma inv_fields s s' :
  heap s' = heap s → vfDevs s' = vfDevs s → serviceFunctionChains s' = serviceFunctionChains s → netsec_inv s → netsec_inv s'.
Proof. intros H1 H2 H3 [Hd Hp]. split; rewrite H1; [rewrite H2|rewrite H3]; done. Qed.
(** Goes through an operation; the changes of the server that matter remain. *)
Ltac relate_server := relate; repeat (apply rel_modify; intros ??; relate);
  try match goal with H : netsec_inv ?s |- netsec_inv _ => solve [by apply (inv_fields s)] end.
Lemma inv_new_device s k addr : netsec_inv s → netsec_inv (new_device (mkVfDev k addr (k.2 + VlanOffset) false) s).
Proof.
  intros [Hd Hp]. split; simpl.
  - intros k' p. rewrite lookup_insert_Some. intros [[<- <-]|[Hne H]].
    + eexists. by rewrite list_lookup_middle by done.
    + destruct (Hd _ _ H) as (d & Hh & ?). exists d. by rewrite lookup_app_l by by eapply lookup_lt_Some.
  - intros c k' r Hc Hr. destruct (Hp _ _ _ Hc Hr) as (d & Hh & ?). exists d. by rewrite lookup_app_l by by eapply lookup_lt_Some.
Qed.
Lemma inv_new_chain s sfp : netsec_inv s →
  netsec_inv (s <| serviceFunctionChains := <[0%Z := mkChain ∅ sfp]> (serviceFunctionChains s) |>).
Proof.
  intros [Hd Hp]. split; simpl; [done|]. intros c k r. rewrite lookup_insert_eq. intros [= <-] H. simpl in H. by rewrite lookup_empty in H.
Qed.

(** The chain and the flags with one port more or less. *)
Definition bind_port (p : ptr) (k : VfDeviceKey) (r : intelNetSecVfRepDev) (c : intelNetSecServiceFunctionChain) (s : intelNetSecVspServer) :=
  set_allocated true p (set_reps (<[k := r]> (vfRepDevs c)) s).
Definition free_port (p : ptr) (k : VfDeviceKey) (c : intelNetSecServiceFunctionChain) (s : intelNetSecVspServer) :=
  set_reps (delete k (vfRepDevs c)) (set_allocated false p s).

Section Ports.
Context {W : Type} `{!HostOps W}.
Abbreviation VM := (M (intelNetSecVspServer * W)).

Lemma deref_returns p (v v' : _ * W) d : returns (deref p) v v' d → v' = v ∧ heap v.1 !! p = Some d.
Proof.
  unfold deref. intros H. inv_bind H as H1. apply server_returns in H1 as [-> ->].
  destruct (heap v.1 !! p); [inv_ret H; by split|done].
Qed.
(** The name of the backplane's interface is a question to the machine. *)
Lemma getConnectedVf_returns name (v v' : _ * W) p : returns (getConnectedVf name) v v' (Ok p) →
  v'.1 = v.1 ∧ ∃ pf vf, bridge_port_ids name = Ok (0%Z, vf) ∧ vfDevs v.1 !! (pf, vf) = Some p ∧
    returns (acts (h_GetNetDevName IntelNetSecDpuBackplanef2PCIeAddress)) v.2 v'.2 (Ok pf).
Proof.
  unfold getConnectedVf. intros H. destruct (bridge_port_ids name) as [[pfid vf]|e]; [|inv_ret H].
  destruct (Z.eqb_spec pfid 0) as [->|]; [|inv_ret H]. simpl in H.
  inv_call H as H1. apply on_host_returns in H1 as [E1 H1]. inv_bind H as H2. apply server_returns in H2 as [-> ->].
  destruct (vfDevs _ !! _) as [q|] eqn:E; inv_ret H. rewrite E1 in *. split; [done|]. eauto.
Qed.

Lemma CreateBridgePort_returns req (v v' : _ * W) r : returns (CreateBridgePort req) v v' r →
  match r with
  | Err _ => v'.1 = v.1
  | Ok _ => ∃ bp spec pf vf p d ifName c w2 w3, CreateBp req = Some bp ∧ BpSpec bp = Some spec ∧
      bridge_port_ids (BpName bp) = Ok (0%Z, vf) ∧ vfDevs v.1 !! (pf, vf) = Some p ∧ heap v.1 !! p = Some d ∧ Allocated d = false ∧
      serviceFunctionChains v.1 !! 0%Z = Some c ∧ vfRepDevs c !! VfKey d = None ∧
      v'.1 = bind_port p (VfKey d) (mkRep p (mac_string (MacAddress spec))) c v.1 ∧
      returns (acts (h_GetNetDevName IntelNetSecDpuBackplanef2PCIeAddress)) v.2 w2 (Ok pf) ∧
      returns (WaitForNetDevReady (VfPciAddress d) IntelWaitForVfSetupTimeout) w2 w3 (Ok ifName) ∧
      returns (ifUpAndAddToBridge ifName) w3 v'.2 (Ok tt)
  end.
Proof.
  unfold CreateBridgePort. intros H. destruct (CreateBp req) as [bp|] eqn:Ebp; [|done].
  apply call_returns in H as [(v1 & p & H1 & H)|(e & H1 & ->)]; [|symmetry; by apply (rel_getConnectedVf eq _ _ _ _ H1)].
  apply getConnectedVf_returns in H1 as (E1 & pf & vf & Hids & Hdev & Hname).
  inv_bind H as H2. apply deref_returns in H2 as [-> Hd]. destruct (Allocated a) eqn:Ea; [inv_ret H; done|].
  apply call_returns in H as [(v2 & ifName & H2 & H)|(e & H2 & ->)]; apply on_host_returns in H2 as [E2 H2]; [|congruence].
  apply call_returns in H as [(v3 & [] & H3 & H)|(e & H3 & ->)]; apply on_host_returns in H3 as [E3 H3]; [|congruence].
  inv_bind H as H4. apply server_returns in H4 as [-> ->].
  destruct (BpSpec bp) as [spec|] eqn:Es; [|done]. destruct (serviceFunctionChains v3.1 !! 0%Z) as [c|] eqn:Ec; [|done].
  destruct (vfRepDevs c !! VfKey a) eqn:Ek; [inv_ret H; congruence|].
  inv_bind H as H5. inv_bind H as H6. inv_ret H. injection H5 as <- <-. injection H6 as <- <-.
  rewrite E3, E2, E1 in *. by exists bp, spec, pf, vf, p, a, ifName, c, v1.2, v2.2.
Qed.
Lemma DeleteBridgePort_returns name (v v' : _ * W) r : returns (DeleteBridgePort name) v v' r →
  match r with
  | Err _ => v'.1 = v.1
  | Ok _ => ∃ pf vf p d rep d' ifName c w2 w3, bridge_port_ids name = Ok (0%Z, vf) ∧
      vfDevs v.1 !! (pf, vf) = Some p ∧ heap v.1 !! p = Some d ∧
      serviceFunctionChains v.1 !! 0%Z = Some c ∧ vfRepDevs c !! VfKey d = Some rep ∧
      heap v.1 !! vfRepDev rep = Some d' ∧ Allocated d' = true ∧
      v'.1 = free_port (vfRepDev rep) (VfKey d) c v.1 ∧
      returns (acts (h_GetNetDevName IntelNetSecDpuBackplanef2PCIeAddress)) v.2 w2 (Ok pf) ∧
      returns (WaitForNetDevReady (VfPciAddress d) IntelWaitForVfSetupTimeout) w2 w3 (Ok ifName) ∧
      returns (ifDownAndDelFromBridge ifName) w3 v'.2 (Ok tt)
  end.
Proof.
  unfold DeleteBridgePort. intros H.
  apply call_returns in H as [(v1 & p & H1 & H)|(e & H1 & ->)]; [|symmetry; by apply (rel_getConnectedVf eq _ _ _ _ H1)].
  apply getConnectedVf_returns in H1 as (E1 & pf & vf & Hids & Hdev & Hname).
  inv_bind H as H2. apply deref_returns in H2 as [-> Hd].
  apply call_returns in H as [(v2 & ifName & H2 & H)|(e & H2 & ->)]; apply on_host_returns in H2 as [E2 H2]; [|congruence].
  apply call_returns in H as [(v3 & [] & H3 & H)|(e & H3 & ->)]; apply on_host_returns in H3 as [E3 H3]; [|congruence].
  inv_bind H as H4. apply server_returns in H4 as [-> ->].
  destruct (serviceFunctionChains v3.1 !! 0%Z) as [c|] eqn:Ec; [|done].
  destruct (vfRepDevs c !! VfKey a) as [rep|] eqn:Ek; [|inv_ret H; congruence].
  inv_bind H as H5. apply deref_returns in H5 as [-> Hd']. destruct (Allocated a0) eqn:Ea; [|inv_ret H; congruence]. simpl in H.
  inv_bind H as H5. inv_bind H as H6. inv_ret H. injection H5 as <- <-. injection H6 as <- <-.
  rewrite E3, E2, E1 in *. by exists pf, vf, p, a, rep, a0, ifName, c, v1.2, v2.2.
Qed.

Lemma inv_bind_port s p d k mac c : netsec_inv s → heap s !! p = Some d → VfKey d = k →
  serviceFunctionChains s !! 0%Z = Some c → netsec_inv (bind_port p k (mkRep p mac) c s).
Proof.
  intros [Hd Hp] Hh Hk Hc. split; simpl.
  - intros k' q Hq. destruct (Hd _ _ Hq) as (d' & Hh' & ?). destruct (decide (q = p)) as [->|Hne].
    + rewrite list_lookup_alter_eq, Hh'. by eexists.
    + rewrite list_lookup_alter_ne by done. by exists d'.
  - assert (∀ q d', heap s !! q = Some d' → Allocated d' = true ∨ q = p →
        ∃ d'', alter (λ d, d <| Allocated := true |>) p (heap s) !! q = Some d'' ∧ VfKey d'' = VfKey d' ∧ Allocated d'' = true) as Ha.
    { intros q d' Hq Hor. destruct (decide (q = p)) as [->|Hne].
      - rewrite list_lookup_alter_eq, Hq. by eexists.
      - rewrite list_lookup_alter_ne by done. exists d'. naive_solver. }
    intros c' k' r Hi Hr. rewrite lookup_alter_eq, Hc in Hi. injection Hi as <-. simpl in Hr.
    apply lookup_insert_Some in Hr as [[<- <-]|[_ Hr]]; simpl.
    + destruct (Ha _ _ Hh (or_intror eq_refl)) as (d'' & ? & ? & ?). exists d''. by rewrite <-Hk.
    + destruct (Hp _ _ _ Hc Hr) as (d' & Hq & <- & Hal). eauto.
Qed.
Lemma inv_free_port s rep k c : netsec_inv s → serviceFunctionChains s !! 0%Z = Some c → vfRepDevs c !! k = Some rep →
  netsec_inv (free_port (vfRepDev rep) k c s).
Proof.
  intros [Hd Hp] Hc Hk. split; simpl.
  - intros k' q Hq. destruct (Hd _ _ Hq) as (d' & Hh' & ?). destruct (decide (q = vfRepDev rep)) as [->|Hne].
    + rewrite list_lookup_alter_eq, Hh'. by eexists.
    + rewrite list_lookup_alter_ne by done. by exists d'.
  - intros c' k' r Hi Hr. rewrite lookup_alter_eq, Hc in Hi. injection Hi as <-. simpl in Hr.
    apply lookup_delete_Some in Hr as [Hne Hr]. destruct (Hp _ _ _ Hc Hr) as (d' & Hq & <- & Hal).
    destruct (Hp _ _ _ Hc Hk) as (d0 & Hq0 & <- & _). exists d'.
    rewrite list_lookup_alter_ne; [done|]. intros E. rewrite E in Hq0. congruence.
Qed.
End Ports.

(** * The server as a transition system

    A call that panics ends the process; between calls the machine may change. *)
Inductive netsec_op :=
  | OpInit (dpuMode : bool) (identifier : string) | OpGetDevices | OpSetNumVfs (n : Z)
  | OpCreateBridgePort (req : CreateBridgePortRequest) | OpDeleteBridgePort (name : string)
  | OpCreateNetworkFunction (input output : string) | OpDeleteNetworkFunction (input output : string).
Section Reachable.
Context {W : Type} `{!HostOps W}.
Definition run_op (op : netsec_op) : M (intelNetSecVspServer * W) unit :=
  match op with
  | OpInit b i => ignore (Init b i) | OpGetDevices => ignore GetDevices | OpSetNumVfs n => ignore (SetNumVfs n)
  | OpCreateBridgePort req => ignore (CreateBridgePort req) | OpDeleteBridgePort name => ignore (DeleteBridgePort name)
  | OpCreateNetworkFunction i o => ignore (CreateNetworkFunction i o)
  | OpDeleteNetworkFunction i o => ignore (DeleteNetworkFunction i o)
  end.
Inductive reachable : intelNetSecVspServer * W → Prop :=
  | reach_start w : reachable (NewIntelNetSecVspServer, w)
  | reach_machine s w w' : reachable (s, w) → reachable (s, w')
  | reach_op op v v' : reachable v → returns (run_op op) v v' tt → reachable v'.

Abbreviation keeps_inv := (server_rel keep_inv).
Lemma keep_veths l : keeps_inv (veth_loop l : M (_ * W) _).
Proof.
  induction l as [|i l IH]; [apply steps_ret, _|]. cbn [veth_loop]. relate_server.
Qed.
#[local] Hint Resolve keep_veths : steps.
Lemma keep_init b i : keeps_inv (Init b i : M (_ * W) _).
Proof.
  unfold Init, GetDpuPcieAddress, configureCommChannelIPs, createVethPairs, setExternalPortNumVfs, initOvSDataPlane.
  relate_server. by apply inv_new_chain.
Qed.
Lemma keep_vlan_loop ifName l : keeps_inv (vlan_loop ifName l : M (_ * W) _).
Proof.
  induction l as [|i l IH]; [apply steps_ret, _|]. cbn [vlan_loop]. relate_server.
  by apply (inv_new_device _ (ifName, i)).
Qed.
#[local] Hint Resolve keep_init keep_vlan_loop : steps.
Lemma keep_vfs_on_bus bus l found : keeps_inv (vfs_on_bus bus l found : M (_ * W) _).
Proof. revert found. induction l as [|d l IH]; intros found; cbn [vfs_on_bus]; relate_server. Qed.
#[local] Hint Resolve keep_vfs_on_bus : steps.
Lemma keep_create req : keeps_inv (CreateBridgePort req : M (_ * W) _).
Proof.
  intros v v' r H Hinv. apply CreateBridgePort_returns in H. destruct r as [a|e]; [|by rewrite H].
  destruct H as (bp & spec & pf & vf & p & d & ifName & c & w2 & w3 & _ & _ & _ & _ & Hd & _ & Hc & _ & -> & _).
  by eapply inv_bind_port.
Qed.
Lemma keep_delete name : keeps_inv (DeleteBridgePort name : M (_ * W) _).
Proof.
  intros v v' r H Hinv. apply DeleteBridgePort_returns in H. destruct r as [a|e]; [|by rewrite H].
  destruct H as (pf & vf & p & d & rep & d' & ifName & c & w2 & w3 & _ & _ & _ & Hc & Hk & _ & _ & -> & _).
  by apply inv_free_port.
Qed.
#[local] Hint Resolve keep_create keep_delete : steps.
Lemma keep_op op : keeps_inv (run_op op : M (_ * W) _).
Proof.
  destruct op; cbn [run_op];
    unfold ignore, GetDevices, SetNumVfs, setVlanIdsSpoofChkInternalPorts, CreateNetworkFunction, DeleteNetworkFunction, getVFs; relate_server.
Qed.
Lemma reachable_inv v : reachable v → netsec_inv v.1.
Proof.
  induction 1 as [w|s w w' _ IH|op v v' _ IH Hop]; [|done|by eapply keep_op].
  split; simpl; intros *; rewrite lookup_empty; done.
Qed.
End Reachable.

(** * Bridge ports on the machine *)

Section Machine.
Context {W : Type} `{!HostOps W, !OvsView W, !OvsLaws W}.
Lemma settles_trans (w1 w2 w3 : W) : settles w1 w2 → settles w2 w3 → settles w1 w3.
Proof. intros H1 H2 a n Ha. auto. Qed.
Lemma ifUp_run n (w w' : W) : returns (ifUpAndAddToBridge n) w w' (Ok tt) →
  settles w w' ∧ bridge_ports OvSBridgeName w' = {[n]} ∪ bridge_ports OvSBridgeName w.
Proof.
  unfold ifUpAndAddToBridge. intros H. inv_call H as H1. apply acts_run_inv in H1. pose proof (law_link n w) as [S1 E1].
  rewrite H1 in S1, E1. inv_call H as H2. destruct a0. apply acts_err_inv in H2. pose proof (law_up a w0) as [S2 E2].
  rewrite H2 in S2, E2. apply add_to_bridge in H as [S3 ->]. rewrite E2, E1. split; [|done].
  eapply settles_trans; [exact S1|]. by eapply settles_trans.
Qed.
Lemma ifDown_run n (w w' : W) : returns (ifDownAndDelFromBridge n) w w' (Ok tt) →
  settles w w' ∧ bridge_ports OvSBridgeName w' = bridge_ports OvSBridgeName w ∖ {[n]}.
Proof.
  unfold ifDownAndDelFromBridge. intros H. inv_call H as H1. apply acts_run_inv in H1. pose proof (law_link n w) as [S1 E1].
  rewrite H1 in S1, E1. inv_call H as H2. destruct a0. apply acts_err_inv in H2. pose proof (law_down a w0) as [S2 E2].
  rewrite H2 in S2, E2. apply delete_from_bridge in H as [S3 ->]. rewrite E2, E1. split; [|done].
  eapply settles_trans; [exact S1|]. by eapply settles_trans.
Qed.
End Machine.

Lemma free_bind_port p d r k c c' s : heap s !! p = Some d → Allocated d = false → serviceFunctionChains s !! 0%Z = Some c →
  vfRepDevs c !! k = None → serviceFunctionChains (bind_port p k r c s) !! 0%Z = Some c' → free_port p k c' (bind_port p k r c s) = s.
Proof.
  intros Hd Ha Hc Hk Hc'. simpl in Hc'. rewrite lookup_alter_eq, Hc in Hc'. injection Hc' as <-.
  unfold free_port, bind_port, set_reps, set_allocated. destruct s as [m i a n ve h ds nf cs]; simpl in *. f_equal.
  - apply list_eq. intros q. destruct (decide (q = p)) as [->|Hne].
    + rewrite !list_lookup_alter_eq, Hd. simpl. destruct d; simpl in *. by subst.
    + by rewrite !list_lookup_alter_ne.
  - apply map_eq. intros j. destruct (decide (j = 0%Z)) as [->|Hne].
    + rewrite !lookup_alter_eq, Hc. simpl. rewrite delete_insert_id by done. by destruct c.
    + by rewrite !lookup_alter_ne.
Qed.

(** * Virtual functions *)

Definition fresh_device (s : intelNetSecVspServer) (s' : intelNetSecVspServer) (k : VfDeviceKey) : Prop :=
  ∃ p addr, (length (heap s) ≤ p)%nat ∧ vfDevs s' !! k = Some p ∧
    heap s' !! p = Some (mkVfDev k addr (k.2 + VlanOffset) false).
(** New descriptions for the VFs of the list; everything else as it was. *)
Definition vlans_set (ifName : string) (vfIDs : list Z) (s s' : intelNetSecVspServer) : Prop :=
  (∀ i, i ∈ vfIDs → fresh_device s s' (ifName, i)) ∧
  (∀ k, (∀ i, i ∈ vfIDs → k ≠ (ifName, i)) → vfDevs s' !! k = vfDevs s !! k) ∧
  (∃ l, heap s' = heap s ++ l) ∧ serviceFunctionChains s' = serviceFunctionChains s.
Lemma vlan_loop_returns {W} `{!HostOps W} ifName l (v v' : _ * W) : NoDup l →
  returns (vlan_loop ifName l) v v' (Ok tt) → vlans_set ifName l v.1 v'.1.
Proof.
  revert v. induction l as [|i l IH]; intros v Hnd H; cbn [vlan_loop] in H.
  { inv_ret H. split; [by intros i ?%elem_of_nil|]. split; [done|]. split; [|done]. exists []. by rewrite app_nil_r. }
  apply NoDup_cons in Hnd as [Hi Hnd].
  inv_call H as H1. apply on_host_returns in H1 as [E1 _]. inv_call H as H2. apply on_host_returns in H2 as [E2 _].
  inv_call H as H3. apply on_host_returns in H3 as [E3 _]. inv_call H as H4. apply on_host_returns in H4 as [E4 _].
  inv_call H as H5. apply on_host_returns in H5 as [E5 _]. destruct a3 as [addr n]. inv_bind H as H6. injection H6 as <- _.
  destruct (IH _ Hnd H) as (Hnew & Hold & [l' Hheap] & Hch). simpl in *.
  assert (w3.1 = v.1) as E by congruence. rewrite E in *. split; [|split; [|split]].
  - intros j [->|Hj]%elem_of_cons.
    + exists (length (heap v.1)), addr. split; [done|]. rewrite Hold, Hheap by naive_solver. rewrite lookup_insert_eq.
      rewrite lookup_app_l by (rewrite length_app; simpl; lia). by rewrite list_lookup_middle.
    + destruct (Hnew j Hj) as (p & a' & Hp & Hk & Hh). exists p, a'. simpl in Hp.
      rewrite length_app in Hp. split; [lia|done].
  - intros k Hk. rewrite Hold by (intros j Hj; apply Hk; by right). apply lookup_insert_ne. intros <-. by apply (Hk i); [left|].
  - eexists. by rewrite Hheap, <-app_assoc.
  - done.
Qed.
Lemma vf_ids_elem n i : i ∈ vf_ids n ↔ (0 ≤ i < n)%Z.
Proof.
  unfold vf_ids. rewrite list_elem_of_fmap. split.
  - intros (j & -> & Hj%elem_of_seq). lia.
  - intros H. exists (Z.to_nat i). split; [lia|]. apply elem_of_seq. lia.
Qed.
Lemma vf_ids_NoDup n : NoDup (vf_ids n).
Proof. apply NoDup_fmap_2; [apply _|apply NoDup_seq]. Qed.

(** * A second initialization *)

Definition same_devices (s s' : intelNetSecVspServer) : Prop := vfDevs s' = vfDevs s ∧ heap s' = heap s.
#[export] Instance same_devices_preorder : PreOrder same_devices.
Proof. split; [by split|]. intros s1 s2 s3 [E1 E2] [E3 E4]. split; congruence. Qed.
Section Init.
Context {W : Type} `{!HostOps W}.
Lemma devices_veths l : server_rel same_devices (veth_loop l : M (_ * W) _).
Proof. induction l as [|i l IH]; cbn [veth_loop]; relate. by apply rel_modify. Qed.
#[local] Hint Resolve devices_veths : steps.
Lemma devices_init b i : server_rel same_devices (Init b i : M (_ * W) _).
Proof.
  unfold Init, GetDpuPcieAddress, configureCommChannelIPs, createVethPairs, setExternalPortNumVfs, initOvSDataPlane.
  relate; by apply rel_modify.
Qed.
Lemma initOvSDataPlane_returns br (v v' : _ * W) : returns (initOvSDataPlane br) v v' (Ok tt) →
  ∃ sfp, serviceFunctionChains v'.1 !! 0%Z = Some (mkChain ∅ sfp).
Proof.
  unfold initOvSDataPlane. intros H. do 7 (apply call_returns in H as [(? & ? & _ & H)|(? & _ & ?)]; [|done]).
  inv_bind H as H1. injection H1 as <- _. apply on_host_returns in H as [-> _]. eexists. simpl. by rewrite lookup_insert_eq.
Qed.
Lemma Init_dpu_chain i (v v' : _ * W) r : returns (Init true i) v v' (Ok r) →
  ∃ sfp, serviceFunctionChains v'.1 !! 0%Z = Some (mkChain ∅ sfp).
Proof.
  unfold Init. intros H. inv_bind H as H1. inv_bind H as H2. inv_bind H as H3. destruct a0; [|inv_ret H].
  inv_call H as H4. inv_call H as H5. inv_ret H. inv_call H5 as H6. inv_call H5 as H7. destruct a3.
  by eapply initOvSDataPlane_returns.
Qed.
End Init.

(** * Properties *)

(** C12: along every sequence of calls that return, whatever the machine does in between,
    every VF is filed under its own index with a VLAN no other VF of its PF has, and every
    port of the chain belongs to a device marked as allocated. *)
Theorem netsec_devices {W} `{!HostOps W} (v : intelNetSecVspServer * W) : reachable v →
  netsec_inv v.1 ∧
  ∀ pf i j p q d e, vfDevs v.1 !! (pf, i) = Some p → vfDevs v.1 !! (pf, j) = Some q →
    heap v.1 !! p = Some d → heap v.1 !! q = Some e → Vlan d = Vlan e → i = j.
Proof.
  intros Hr%reachable_inv. split; [done|]. intros pf i j p q d e Hi Hj Hd He Hv.
  destruct (inv_devices _ Hr _ _ Hi) as (d' & Hd' & _ & Ed). destruct (inv_devices _ Hr _ _ Hj) as (e' & He' & _ & Ee).
  simpl in *. rewrite Hd in Hd'. rewrite He in He'. injection Hd' as <-. injection He' as <-. lia.
Qed.

(** Deleting the bridge port just created restores the server exactly, and the bridge
    has the interface of the VF between the two calls and not after them. *)
Theorem netsec_port_roundtrip {W} `{!HostOps W, !OvsView W, !OvsLaws W} req bp resp (v v1 v2 : intelNetSecVspServer * W) :
  CreateBp req = Some bp →
  returns (CreateBridgePort req) v v1 (Ok resp) → returns (DeleteBridgePort (BpName bp)) v1 v2 (Ok tt) →
  v2.1 = v.1 ∧ ∃ ifName, bridge_ports OvSBridgeName v1.2 = {[ifName]} ∪ bridge_ports OvSBridgeName v.2 ∧
    bridge_ports OvSBridgeName v2.2 = bridge_ports OvSBridgeName v.2 ∖ {[ifName]}.
Proof.
  intros Hbp Hcreate%CreateBridgePort_returns Hdelete%DeleteBridgePort_returns.
  destruct Hcreate as (bp' & spec & pf & vf & p & d & n & c & w2 & w3 & Hbp' & _ & Hids & Hdev & Hd & Ha & Hc & Hk & Hs1 & Hn1 & Hw1 & Hup).
  rewrite Hbp in Hbp'. injection Hbp' as <-.
  destruct Hdelete as (pf' & vf' & p' & d' & rep & d'' & n' & c' & u2 & u3 & Hids' & Hdev' & Hd' & Hc' & Hk' & _ & _ & Hs2 & Hn2 & Hw2 & Hdown).
  rewrite Hids in Hids'. injection Hids' as <-.
  apply GetNetDevName_name in Hn1 as [N1 Q1], Hn2 as [N2 Q2].
  pose proof (WaitForNetDevReady_quiet _ _ _ _ _ Hw1) as Q3. pose proof (WaitForNetDevReady_quiet _ _ _ _ _ Hw2) as Q4.
  apply WaitForNetDevReady_name in Hw1 as N3, Hw2 as N4. apply ifUp_run in Hup as [S1 E1]. apply ifDown_run in Hdown as [S2 E2].
  assert (pf' = pf) as ->. { apply Q3, S1, Q2 in N1. congruence. }
  rewrite Hs1 in Hdev', Hd', Hc'. simpl in Hdev', Hd'. rewrite Hdev in Hdev'. injection Hdev' as <-.
  rewrite list_lookup_alter_eq, Hd in Hd'. injection Hd' as <-. simpl in Hk', Hs2, N4.
  assert (n' = n) as ->. { apply S1, Q2, Q4 in N3. congruence. }
  split.
  - pose proof Hc' as Hc2. simpl in Hc2. rewrite lookup_alter_eq, Hc in Hc2. injection Hc2 as <-. simpl in Hk'.
    rewrite lookup_insert_eq in Hk'. injection Hk' as <-. rewrite Hs2, Hs1. simpl vfRepDev. by eapply free_bind_port.
  - exists n. destruct Q1 as [_ Q1], Q2 as [_ Q2], Q3 as [_ Q3], Q4 as [_ Q4]. rewrite E2, Q4, Q2, E1, Q3, Q1. split; [done|]. set_solver.
Qed.

(** A successful change of the number of VFs describes each of the new VFs afresh, as
    unallocated and with the VLAN of its index; the descriptions of VFs that no longer
    exist and the ports of the chain stay. *)
Theorem SetNumVfs_spec {W} `{!HostOps W} n c (v v' : intelNetSecVspServer * W) : returns (SetNumVfs n) v v' (Ok c) →
  c = n ∧ vfCnt v'.1 = n ∧ ∃ pf, (∀ i, (0 ≤ i < n)%Z → fresh_device v.1 v'.1 (pf, i)) ∧
    (∀ k, (∀ i, (0 ≤ i < n)%Z → k ≠ (pf, i)) → vfDevs v'.1 !! k = vfDevs v.1 !! k) ∧
    serviceFunctionChains v'.1 = serviceFunctionChains v.1.
Proof.
  unfold SetNumVfs, setVlanIdsSpoofChkInternalPorts. intros H. inv_bind H as H1. apply server_returns in H1 as [-> ->].
  inv_bind H as H2. assert (w = v) as ->. { by destruct (isDPUMode v.1); [inv_ret H2|apply server_returns in H2 as []]. }
  inv_call H as H3. apply on_host_returns in H3 as [E3 _]. inv_call H as H4. inv_bind H as H5. inv_ret H. injection H5 as <-.
  inv_call H4 as H6. apply on_host_returns in H6 as [E6 _]. inv_call H4 as H7. apply on_host_returns in H7 as [E7 _]. destruct a1.
  apply vlan_loop_returns in H4 as (Hnew & Hold & _ & Hch); [|apply vf_ids_NoDup]. assert (w2.1 = v.1) as E by congruence. rewrite E in *.
  split; [done|]. split; [done|]. exists a3. setoid_rewrite vf_ids_elem in Hnew. setoid_rewrite vf_ids_elem in Hold. by split; [|split].
Qed.

(** When a server in use is initialized again the ports that exist are stranded: they
    can neither be created ("already allocated") nor deleted ("not found"). *)
Theorem reinit_strands_ports {W} `{!HostOps W} id r (v v1 : intelNetSecVspServer * W) : returns (Init true id) v v1 (Ok r) →
  ∀ pf i p d req bp w, vfDevs v.1 !! (pf, i) = Some p → heap v.1 !! p = Some d → Allocated d = true →
    CreateBp req = Some bp → bridge_port_ids (BpName bp) = Ok (0%Z, i) →
    (h_GetNetDevName IntelNetSecDpuBackplanef2PCIeAddress w).2 = Ok pf →
    (∀ v2 x, returns (CreateBridgePort req) (v1.1, w) v2 x → is_ok x = false ∧ v2.1 = v1.1) ∧
    (∀ v2 x, returns (DeleteBridgePort (BpName bp)) (v1.1, w) v2 x → is_ok x = false ∧ v2.1 = v1.1).
Proof.
  intros Hinit pf i p d req bp w Hk Hd Ha Hbp Hids Hname. destruct (devices_init _ _ _ _ _ Hinit) as [E1 E2].
  apply Init_dpu_chain in Hinit as [sfp Hc]. rewrite <-E1 in Hk. rewrite <-E2 in Hd.
  assert (∀ w2 pf', returns (acts (h_GetNetDevName IntelNetSecDpuBackplanef2PCIeAddress)) w w2 (Ok pf') → pf' = pf) as Hpf.
  { intros w2 pf' H%acts_run_inv. rewrite H in Hname. by injection Hname. }
  split; intros v2 x H; [apply CreateBridgePort_returns in H|apply DeleteBridgePort_returns in H]; (destruct x as [a|e]; [exfalso|done]).
  - destruct H as (bp' & spec & pf' & vf & p' & d' & n & c & w2 & w3 & Hbp' & _ & Hids' & Hdev & Hd' & Ha' & _ & _ & _ & Hn & _).
    apply Hpf in Hn as ->. simpl in *. congruence.
  - destruct H as (pf' & vf & p' & d' & rep & d'' & n & c & w2 & w3 & _ & _ & _ & Hc' & Hrep & _). simpl in Hc'. rewrite Hc in Hc'.
    injection Hc' as <-. simpl in Hrep. by apply lookup_empty_Some in Hrep.
Qed.

(** The DPU side reads from a port's name the VF for which the host side named it, for
    every VF index a machine integer holds. *)
Theorem host_names_understood pf vf : (0 ≤ pf < 2 ^ 63)%Z → (0 ≤ vf < 2 ^ 63)%Z →
  bridge_port_ids (host_port_name pf vf) = Ok (pf, vf).
Proof. intros Hp Hv. unfold bridge_port_ids. rewrite match_host_port by lia. by rewrite !Atoi_itoa. Qed.

(** * A Netsec accelerator *)

Module NetsecDemo.
Import HostDemo.
Definition names : gmap string string := list_to_map [
  ("0000:f4:00.2", "bp2"); ("0000:f4:00.1", "sfp1"); ("0000:f4:02.0", "bp2v0"); ("0000:f4:11.0", "sfp1v0")].
Definition dpu : machine :=
  mkMachine 0 names
    (list_to_map [("/sys/class/net/bp2/device/virtfn0", "../0000:f4:02.0"); ("/sys/class/net/sfp1/device/virtfn0", "../0000:f4:11.0")])
    ∅ (list_to_map ((λ '(i, n), (n, link_of (Z.of_nat i) n)) <$> imap pair (map_to_list names).*2)) [] ∅.
Abbreviation V := (intelNetSecVspServer * machine)%type.
Definition started : V := (NewIntelNetSecVspServer, dpu).
Definition initialized : V := (Init true "dpu-1" started).1.
Definition with_vf : V := (SetNumVfs 1 initialized).1.
Definition port : CreateBridgePortRequest := host_port_request 0 0 [2; 0; 0; 0; 0; 9]%Z.
Definition plugged : V := (CreateBridgePort port with_vf).1.
Definition unplugged : V := (DeleteBridgePort "host0-0" plugged).1.
Definition again : V := (Init true "dpu-1" plugged).1.
Lemma init_ran : Init true "dpu-1" started = (initialized, Ret (Ok ("[fe80::1%bp2]", 8085%Z))).
Proof. vm_compute. reflexivity. Qed.
Lemma vfs_ran : SetNumVfs 1 initialized = (with_vf, Ret (Ok 1%Z)).
Proof. vm_compute. reflexivity. Qed.
Lemma create_ran : CreateBridgePort port with_vf = (plugged, Ret (Ok {| BpName := ""; BpSpec := None |})).
Proof. vm_compute. reflexivity. Qed.
Lemma delete_ran : DeleteBridgePort "host0-0" plugged = (unplugged, Ret (Ok tt)).
Proof. vm_compute. reflexivity. Qed.
Lemma init_again : Init true "dpu-1" plugged = (again, Ret (Ok ("[fe80::1%bp2]", 8085%Z))).
Proof. vm_compute. reflexivity. Qed.
Lemma plugged_reach : reachable plugged.
Proof.
  eapply (reach_op (OpCreateBridgePort port)); [|by eapply ignore_returns; eexists; exact create_ran].
  eapply (reach_op (OpSetNumVfs 1)); [|by eapply ignore_returns; eexists; exact vfs_ran].
  eapply (reach_op (OpInit true "dpu-1")); [apply reach_start|by eapply ignore_returns; eexists; exact init_ran].
Qed.
Definition vf0 : VfDeviceInfo := mkVfDev ("bp2", 0%Z) "0000:f4:02.0" 2 true.
Lemma vf0_filed : vfDevs plugged.1 !! ("bp2", 0%Z) = Some 0%nat.
Proof. vm_compute. reflexivity. Qed.
Lemma vf0_described : heap plugged.1 !! 0%nat = Some vf0.
Proof. vm_compute. reflexivity. Qed.
Definition refused : V := (DeleteBridgePort "host0-0" (again.1, again.2)).1.
Definition not_found : error := Text ("VF Device not found " +:+ describe ("bp2", 0%Z)).
Lemma refused_ran : DeleteBridgePort "host0-0" (again.1, again.2) = (refused, Ret (Err not_found)).
Proof. vm_compute. reflexivity. Qed.
Lemma backplane_named : (h_GetNetDevName IntelNetSecDpuBackplanef2PCIeAddress again.2).2 = Ok "bp2".
Proof. vm_compute. reflexivity. Qed.
End NetsecDemo.
Import HostDemo NetsecDemo.

Lemma netsec_devices_witness : netsec_inv plugged.1.
Proof. exact (proj1 (netsec_devices plugged plugged_reach)). Defined.
Lemma netsec_port_roundtrip_witness : unplugged.1 = with_vf.1 ∧
  ∃ ifName, bridge_ports OvSBridgeName plugged.2 = {[ifName]} ∪ bridge_ports OvSBridgeName with_vf.2 ∧
    bridge_ports OvSBridgeName unplugged.2 = bridge_ports OvSBridgeName with_vf.2 ∖ {[ifName]}.
Proof. exact (netsec_port_roundtrip port _ _ with_vf plugged unplugged eq_refl create_ran delete_ran). Defined.
Lemma SetNumVfs_spec_witness : vfCnt with_vf.1 = 1%Z.
Proof. exact (proj1 (proj2 (SetNumVfs_spec 1 1 initialized with_vf vfs_ran))). Defined.
Lemma reinit_strands_ports_witness : is_ok (Err not_found : result unit) = false ∧ refused.1 = again.1.
Proof.
  exact (proj2 (reinit_strands_ports "dpu-1" _ plugged again init_again "bp2" 0 0%nat vf0 port _ again.2 vf0_filed vf0_described
    eq_refl eq_refl eq_refl backplane_named) refused (Err not_found) refused_ran).
Defined.
Lemma host_names_understood_witness : bridge_port_ids (host_port_name 0 7) = Ok (0, 7)%Z.
Proof. apply host_names_understood; lia. Defined.
