(* ===== verification/MrvlUtils.v ===== *)
(** What the Marvell vendor-specific process is built on: devices by id and the platform
    set-up, marvell/mrvl-utils/mrvlutils.go, and the control plane agent,
    marvell/cp-agent/cp-agent-run.go.

    [os.Exit] and [klog.Fatalf] end the process, as a panic does.  [PrintPortInfo] and
    [PrintDPDKPortInfo] only log and are left out. *)
From S2P Require Import Prelude Plugin Net GoMonad SriovUtils Platform VspNet.
#[local] Open Scope stdpp_scope.

Definition MrvlVendorID : string := "177d".
Definition MrvlDPUSDPPFId : string := "a0f7".
Definition MrvlHostSDPPFId : string := "b900".
Definition MrvlDPIPFId : string := "a080".
Definition MrvlPEMPFId : string := "a06c".
Definition MrvlRVUPF2Id : string := "a0ef".

(** [int] arithmetic wraps. *)
Definition int64 (z : Z) : Z := ((z + 2 ^ 63) mod 2 ^ 64 - 2 ^ 63)%Z.
(** [strings.ReplaceAll] for a non-empty [old]; [skip] bytes have been replaced already. *)
Fixpoint replace_from (skip : nat) (old new s : string) : string :=
  match s with
  | EmptyString => ""
  | String c s' =>
      match skip with
      | S skip => replace_from skip old new s'
      | O => if has_prefix old s then new +:+ replace_from (String.length old - 1) old new s' else String c (replace_from 0 old new s')
      end
  end.
Definition ReplaceAll (s old new : string) : string := replace_from 0 old new s.
Example ReplaceAll_ex : ReplaceAll "run %IMAGE% as %IMAGE%." "%IMAGE%" "img" = "run img as img.".
Proof. reflexivity. Qed.

Section Utils.
Context {W : Type} `{!HostOps W}.
Abbreviation HM := (M W).

(** ** Devices *)

(** The answer of [GetAllVfsByDeviceID]; the second wraps [ErrNoSuchDevice]. *)
Inductive vfs_result := VfsFound (addresses : list string) | VfsNone (e : error) | VfsError (e : error).
Definition has_id (deviceID : string) (d : PCIDevice) : bool :=
  String.eqb (pci_VendorID d) MrvlVendorID && String.eqb (pci_ProductID d) deviceID.
Definition GetAllVfsByDeviceID (deviceID : string) : HM vfs_result :=
  r ← acts h_PciDevices;
  mret (match r with
        | Err e => VfsError e
        | Ok devices =>
            match pci_Address <$> List.filter (has_id deviceID) devices with
            | [] => VfsNone (Wrap ("No devices for PCI ID [" +:+ MrvlVendorID +:+ ":" +:+ deviceID +:+ "] found: ") (Text "no such device"))
            | l => VfsFound l
            end
        end).
Definition vfs_or_error (r : vfs_result) : result (list string) :=
  match r with VfsFound l => Ok l | VfsNone e | VfsError e => Err e end.

Definition GetNameByPCI (pciAddress : string) : HM (result string) :=
  call files := acts (h_NetEntries (Join ["/sys/bus/pci/devices"; pciAddress; "net"])) or (λ e, e) in
  mret (match files with
        | [] => Err (Text "PF network device not found")
        | f :: _ => Ok (trim_space f)
        end).
Fixpoint names_of (pcis : list string) (found : list string) : HM (result (list string)) :=
  match pcis with
  | [] => mret (Ok found)
  | vfpci :: pcis => call vfName := GetNameByPCI vfpci or (λ e, e) in names_of pcis (found ++ [vfName])
  end.
Definition GetAllVfsNameByDeviceID (deviceID : string) : HM (result (list string)) :=
  r ← GetAllVfsByDeviceID deviceID;
  match vfs_or_error r with Err e => mret (Err e) | Ok pcis => names_of pcis [] end.

(** [list[dpu_vfid]] with a negative index panics. *)
Definition Mapped_VF (pf_count pfid vfid : Z) : HM (result string) :=
  call devices := acts h_PciDevices or (λ e, e) in
  let list := pci_Address <$> List.filter (has_id MrvlDPUSDPPFId) devices in
  let dpu_vfid := int64 (int64 (pf_count * vfid) + pfid) in
  if (dpu_vfid >? Z.of_nat (length list) - 1)%Z then mret (Err (Text "mapped VF out of bounds")) else
  if (dpu_vfid <? 0)%Z then panic else
  match list !! Z.to_nat dpu_vfid with
  | Some a => mret (Ok (hd "" (split_char " " a)))
  | None => panic
  end.

(** The first device with the id; an empty address counts as none. *)
Definition GetPCIByDeviceID (deviceID : string) : HM (result string) :=
  call devices := acts h_PciDevices or (λ e, e) in
  let pciAddress := match find (has_id deviceID) devices with Some d => pci_Address d | None => "" end in
  mret (if String.eqb pciAddress ""
        then Err (Text ("device not found with Vendor ID: " +:+ MrvlVendorID +:+ " and Device ID: " +:+ deviceID))
        else Ok pciAddress).
Definition GetNameByDeviceID (deviceID : string) : HM (result string) :=
  call pciAddress := GetPCIByDeviceID deviceID or (λ e, e) in
  GetNameByPCI pciAddress.

(** ** Platform set-up *)

Definition GetPCIDriver (pciAddress : string) : HM string :=
  r ← acts (h_PciDriver pciAddress);
  match r with Ok (Some driver) => mret driver | _ => panic end.
Definition DetectPlatformMode : HM string :=
  r ← acts h_PciDevices;
  match r with
  | Err _ => panic
  | Ok devices => mret (if existsb (has_id MrvlDPUSDPPFId) devices then "dpu" else "host")
  end.
Definition BindToVFIO (pciAddress : string) : HM (result unit) :=
  driver ← GetPCIDriver pciAddress;
  call _ := when (negb (String.eqb driver ""))
    (acts_err (h_WriteFile (Join ["/sys/bus/pci/drivers/"; driver; "unbind"]) pciAddress)) or (λ e, e) in
  call _ := acts_err (h_WriteFile (Join ["/sys/bus/pci/devices/"; pciAddress; "driver_override"]) "vfio-pci") or (λ e, e) in
  acts_err (h_WriteFile (Join ["/sys/bus/pci/drivers_probe"]) pciAddress).

Definition bash (cmd : string) : HM (result unit) := acts_err (h_Run ["bash"; "-c"; cmd]).
Definition SetupHugepages : HM (result unit) :=
  call _ := bash "mkdir -p /dev/huge" or (λ e, e) in
  bash "mount -t hugetlbfs none /dev/huge".
(** The errors are logged and dropped. *)
Definition loadHostDriver : HM (result unit) :=
  _ ← ignore (bash "chroot /host modprobe octeon_ep");
  _ ← ignore (bash "chroot /host modprobe octeon_ep_vf");
  ok.
Definition unloadHostDriver : HM unit :=
  _ ← ignore (bash "chroot /host rmmod octeon_ep_vf");
  ignore (bash "chroot /host rmmod octeon_ep").
(** [for i := 1; i < 10; i++]. *)
Fixpoint host_interface_loop (n : nat) : HM (result unit) :=
  match n with
  | O => mret (Err (Text "Failed to set up Host Interface"))
  | S n =>
      ifName ← GetNameByDeviceID MrvlHostSDPPFId;
      if match ifName with Ok i => negb (String.eqb i "") | Err _ => false end then ok else
      _ ← unloadHostDriver;
      _ ← writes (h_Sleep 20000);
      l ← loadHostDriver;
      match l with
      | Err _ => panic
      | Ok _ => _ ← writes (h_Sleep 5000); host_interface_loop n
      end
  end.
Definition SetupHostInterface : HM (result unit) := host_interface_loop 9.

Definition SetupDpuServiceWithImage (template : string) (getenv : string → string) (cpAgentImage : string) : HM (result unit) :=
  let imageToUse := if String.eqb cpAgentImage "" then getenv "MarvellVspCpAgentImage" else cpAgentImage in
  call _ := acts_err (h_WriteFile "/host/etc/systemd/system/cp-agent.service" (ReplaceAll template "%IMAGE%" imageToUse)) or (λ e, e) in
  call _ := bash "chroot /host systemctl enable cp-agent" or (λ e, e) in
  call _ := bash "chroot /host systemctl daemon-reload" or (λ e, e) in
  call _ := bash "chroot /host systemctl start cp-agent" or (λ e, e) in
  ok.
Definition SetupDpuService (template : string) (getenv : string → string) : HM (result unit) :=
  SetupDpuServiceWithImage template getenv "".
Definition SetupPlatform (template : string) (getenv : string → string) : HM (result unit) :=
  mode ← DetectPlatformMode;
  if String.eqb mode "host" then SetupHostInterface else SetupDpuService template getenv.

(** ** The control plane agent

    The second RVU PF is used without a check that there are two. *)
Definition second (l : list string) : HM string := match l with _ :: x :: _ => mret x | _ => panic end.
Definition setupDpuLink : HM (result unit) :=
  call _ := SetupHugepages or (λ e, e) in
  call _ := bash "chroot /host modprobe vfio-pci" or (λ e, e) in
  dpi ← GetAllVfsByDeviceID MrvlDPIPFId;
  match vfs_or_error dpi with
  | Err e => mret (Err e)
  | Ok dpi_pf =>
      call _ := BindToVFIO (hd "" dpi_pf) or (λ e, e) in
      pem ← GetAllVfsByDeviceID MrvlPEMPFId;
      match vfs_or_error pem with
      | Err e => mret (Err e)
      | Ok pem_pf =>
          call _ := BindToVFIO (hd "" pem_pf) or (λ e, e) in
          rvu ← GetAllVfsByDeviceID MrvlRVUPF2Id;
          match vfs_or_error rvu with
          | Err _ =>
              bash ("/usr/bin/octep_cp_agent.25.03.0 /usr/bin/cn106xx.cfg -- --dpi_dev " +:+ hd "" dpi_pf
                +:+ " --pem_dev " +:+ hd "" pem_pf +:+ " &> /tmp/octep-cp-agent.log")
          | Ok rvu_pf_2 =>
              x ← second rvu_pf_2;
              call _ := BindToVFIO x or (λ e, e) in
              bash ("/usr/bin/octep_cp_agent /usr/bin/cn106xx.cfg -- --sdp_rvu_pf " +:+ x
                +:+ " --pem_dev " +:+ hd "" pem_pf +:+ " &> /tmp/octep-cp-agent.log")
          end
      end
  end.
End Utils.
