(* ===== verification/DataPlane.v ===== *)
(** The data planes of the Marvell vendor-specific process: the interface [mrvldp] of
    marvell/main.go, its two implementations (ovs-dp/ovsdp.go, debug-dp/debugdp.go), what
    the interface promises ([FlowContract]) and that Open vSwitch keeps the promise when
    its commands do what they document ([OvsFlows]).

    A flow is filed under its priority and its match (input port, destination MAC, either
    of them empty for any). *)
From S2P Require Import Prelude Plugin Net GoMonad SriovUtils Platform VspNet MrvlUtils.
#[local] Open Scope stdpp_scope.

Record mrvldp (W : Type) := {
  AddPortToDataPlane : string → string → string → bool → M W (result unit);
  DeletePortFromDataPlane : string → string → M W (result unit);
  InitDataPlane : string → bool → M W (result unit);
  ReadAllPortFromDataPlane : string → M W (result string);
  DeleteDataplane : string → M W (result unit);
  AddFlowRuleToDataPlane : string → string → string → string → M W (result unit);
  DeleteFlowRuleFromDataPlane : string → string → string → string → M W (result unit) }.
Arguments AddPortToDataPlane {_} _ _ _ _ _.
Arguments DeletePortFromDataPlane {_} _ _ _.
Arguments InitDataPlane {_} _ _ _.
Arguments ReadAllPortFromDataPlane {_} _ _.
Arguments DeleteDataplane {_} _ _.
Arguments AddFlowRuleToDataPlane {_} _ _ _ _ _.
Arguments DeleteFlowRuleFromDataPlane {_} _ _ _ _ _.

(** * Open vSwitch *)

Definition rpm_device_id : string := "a063".
Definition ovs_ofctl (args : list string) : list string := ["chroot"; "/host"; "ovs-ofctl"] ++ args.
Definition add_flow_cmd (br flow : string) : list string := ovs_ofctl ["add-flow"; br; flow].
Definition del_flows_cmd (br flow : string) : list string := ovs_ofctl ["del-flows"; br; flow].
Definition normal_flow : string := "priority=65535,actions=NORMAL".
Definition flow_text (src dst mac : string) : string :=
  if negb (String.eqb mac "") then
    if String.eqb src dst then "priority=100,in_port=" +:+ src +:+ ",dl_dst=" +:+ mac +:+ ",actions=in_port"
    else "in_port=" +:+ src +:+ ",dl_dst=" +:+ mac +:+ ",actions=output:" +:+ dst
  else "priority=10,in_port=" +:+ src +:+ ",actions=output:" +:+ dst.
Definition match_text (src mac : string) : string :=
  if negb (String.eqb mac "") then "in_port=" +:+ src +:+ ",dl_dst=" +:+ mac else "in_port=" +:+ src.

Section OvsDP.
Context {W : Type} `{!HostOps W}.

Definition ovs_AddPort (bridgeName portName vfPCIAddres : string) (isDPDK : bool) : M W (result unit) :=
  _ ← ignore (LinkSetUpDown portName true);
  acts_err (h_Run (if isDPDK
    then ovs_vsctl ["--may-exist"; "add-port"; bridgeName; portName; "--"; "set"; "Interface"; portName; "type=dpdk";
                    "options:dpdk-devargs=" +:+ vfPCIAddres]
    else add_port_cmd bridgeName portName)).
Definition ovs_DeletePort (bridgeName portName : string) : M W (result unit) :=
  err ← acts_err (h_Run (del_port_cmd bridgeName portName));
  _ ← ignore (LinkSetUpDown portName false);
  mret err.
Definition createBridge (bridgeName : string) : M W (result unit) :=
  acts_err (h_Run (ovs_vsctl ["--may-exist"; "add-br"; bridgeName; "--"; "set"; "bridge"; bridgeName; "datapath_type=netdev"])).
(** A missing RPM interface is logged, and the port "" added in its place. *)
Definition ovs_Init (bridgeName : string) (isMacLearning : bool) : M W (result unit) :=
  call _ := createBridge bridgeName or (λ e, e) in
  call _ := when isMacLearning
    (call _ := acts_err (h_Run (ovs_ofctl ["del-flows"; bridgeName])) or (λ e, e) in
     acts_err (h_Run (add_flow_cmd bridgeName normal_flow))) or (λ e, e) in
  portName ← GetNameByDeviceID rpm_device_id;
  _ ← ignore (ovs_AddPort bridgeName (match portName with Ok n => n | Err _ => "" end) "" false);
  ok.
Definition ovs_ReadAllPort (bridgeName : string) : M W (result string) :=
  acts (h_Output (ovs_vsctl ["--may-exist"; "list-ports"; bridgeName])).
Definition ovs_DeleteDataplane (bridgeName : string) : M W (result unit) := acts_err (h_Run (ovs_vsctl ["del-br"; bridgeName])).
Definition ovs_AddFlowRule (bridgeName srcInterface dstInterface dstMac : string) : M W (result unit) :=
  acts_err (h_Run (add_flow_cmd bridgeName (flow_text srcInterface dstInterface dstMac))).
Definition ovs_DeleteFlowRule (bridgeName srcInterface dstInterface dstMac : string) : M W (result unit) :=
  acts_err (h_Run (del_flows_cmd bridgeName (match_text srcInterface dstMac))).
Definition OvsDP : mrvldp W := {|
  AddPortToDataPlane := ovs_AddPort; DeletePortFromDataPlane := ovs_DeletePort; InitDataPlane := ovs_Init;
  ReadAllPortFromDataPlane := ovs_ReadAllPort; DeleteDataplane := ovs_DeleteDataplane;
  AddFlowRuleToDataPlane := ovs_AddFlowRule; DeleteFlowRuleFromDataPlane := ovs_DeleteFlowRule |}.
(** The data plane that only logs. *)
Definition DebugDP : mrvldp W := {|
  AddPortToDataPlane _ _ _ _ := ok; DeletePortFromDataPlane _ _ := ok; InitDataPlane _ _ := ok;
  ReadAllPortFromDataPlane _ := mret (Ok ""); DeleteDataplane _ := ok;
  AddFlowRuleToDataPlane _ _ _ _ := ok; DeleteFlowRuleFromDataPlane _ _ _ _ := ok |}.
End OvsDP.

(** * Flow tables *)

Record flow_key := mkFlow { priority : Z; in_port : string; dl_dst : string }.
#[export] Instance flow_key_eq_dec : EqDecision flow_key.
Proof. solve_decision. Defined.
#[export] Instance flow_key_countable : Countable flow_key.
Proof.
  refine (inj_countable' (λ f, (priority f, in_port f, dl_dst f)) (λ '(p, i, d), mkFlow p i d) _). by intros [].
Defined.
Abbreviation flow_table := (gmap flow_key string).
Definition normal : flow_key := mkFlow 65535 "" "".
(** The default priority is 32768. *)
Definition rule (src dst mac : string) : flow_key * string :=
  if negb (String.eqb mac "") then
    if String.eqb src dst then (mkFlow 100 src mac, "in_port") else (mkFlow 32768 src mac, "output:" +:+ dst)
  else (mkFlow 10 src "", "output:" +:+ dst).
Definition matched_by (src mac : string) (k : flow_key) : bool :=
  String.eqb (in_port k) src && (String.eqb mac "" || String.eqb (dl_dst k) mac).
Definition remove_flows (src mac : string) (t : flow_table) : flow_table := filter (λ ka, matched_by src mac ka.1 = false) t.

(** A packet by its input port and destination; the flow with the highest priority among
    those that match decides what happens to it. *)
Definition applies (port mac : string) (k : flow_key) : Prop :=
  (in_port k = "" ∨ in_port k = port) ∧ (dl_dst k = "" ∨ dl_dst k = mac).
Definition decides (t : flow_table) (port mac : string) (k : flow_key) (action : string) : Prop :=
  t !! k = Some action ∧ applies port mac k ∧
  ∀ k' a', t !! k' = Some a' → applies port mac k' → (priority k' ≤ priority k)%Z.

(** The text of a flow is a list of assignments between commas: the contract is about
    names that hold none of its separators. *)
Definition plain : string → bool := all_char (λ c, negb (Ascii.eqb c "," || Ascii.eqb c "=" || is_space c)).

(** What a data plane promises about the flows of its bridges: the table of a bridge holds
    the rules as they were given, by their names. *)
Definition rule_added (src dst mac : string) (t t' : flow_table) : Prop :=
  src ≠ "" ∧ t' = <[(rule src dst mac).1 := (rule src dst mac).2]> t.
Definition rule_removed (src mac : string) (t t' : flow_table) : Prop := src ≠ "" ∧ t' = remove_flows src mac t.
Definition port_gone (p : string) (t t' : flow_table) : Prop :=
  t' ⊆ t ∧ ∀ k, in_port k ≠ p ∨ in_port k = "" → t' !! k = t !! k.
Class FlowContract (W : Type) `{!HostOps W} (dp : mrvldp W) := {
  flows : string → W → flow_table;
  promise_pci b : preserves (flows b) (acts h_PciDevices);
  promise_entries b path : preserves (flows b) (acts (h_NetEntries path));
  promise_AddPort b br p a d : preserves (flows b) (AddPortToDataPlane dp br p a d);
  promise_DeletePort b br p w w' r : returns (DeletePortFromDataPlane dp br p) w w' r → port_gone p (flows b w) (flows b w');
  promise_Init br w w' : returns (InitDataPlane dp br true) w w' (Ok tt) → flows br w' = {[normal := "NORMAL"]};
  promise_AddFlow br src dst mac w w' r : plain src = true → plain dst = true → plain mac = true →
    returns (AddFlowRuleToDataPlane dp br src dst mac) w w' r →
    rule_added src dst mac (flows br w) (flows br w') ∨ is_ok r = false ∧ flows br w' = flows br w;
  promise_DeleteFlow br src dst mac w w' r : plain src = true → plain mac = true →
    returns (DeleteFlowRuleFromDataPlane dp br src dst mac) w w' r →
    rule_removed src mac (flows br w) (flows br w') ∨ is_ok r = false ∧ flows br w' = flows br w }.

(** * Open vSwitch keeps the promise

    What [ovs-ofctl] and [ovs-vsctl] document; a command that fails changes no flow. *)
Definition dpdk_cmd (br p a : string) : list string :=
  ovs_vsctl ["--may-exist"; "add-port"; br; p; "--"; "set"; "Interface"; p; "type=dpdk"; "options:dpdk-devargs=" +:+ a].
Class OvsFlows (W : Type) `{!HostOps W} := {
  ovs_flows : string → W → flow_table;
  law_flows_pci b w : ovs_flows b (h_PciDevices w).1 = ovs_flows b w;
  law_flows_entries b p w : ovs_flows b (h_NetEntries p w).1 = ovs_flows b w;
  law_flows_link b n w : ovs_flows b (h_LinkByName n w).1 = ovs_flows b w;
  law_flows_up b l w : ovs_flows b (h_LinkSetUp l w).1 = ovs_flows b w;
  law_flows_down b l w : ovs_flows b (h_LinkSetDown l w).1 = ovs_flows b w;
  law_flows_add_port b br p w : ovs_flows b (h_Run (add_port_cmd br p) w).1 = ovs_flows b w;
  law_flows_dpdk b br p a w : ovs_flows b (h_Run (dpdk_cmd br p a) w).1 = ovs_flows b w;
  law_flows_del_port b br p w : port_gone p (ovs_flows b w) (ovs_flows b (h_Run (del_port_cmd br p) w).1);
  law_clear br w w' : h_Run (ovs_ofctl ["del-flows"; br]) w = (w', None) → ovs_flows br w' = ∅;
  law_normal br w w' : h_Run (add_flow_cmd br normal_flow) w = (w', None) → ovs_flows br w' = <[normal := "NORMAL"]> (ovs_flows br w);
  law_add_flow br src dst mac w : plain src = true → plain dst = true → plain mac = true →
    let '(w', e) := h_Run (add_flow_cmd br (flow_text src dst mac)) w in
    match e with None => rule_added src dst mac (ovs_flows br w) (ovs_flows br w') | Some _ => ovs_flows br w' = ovs_flows br w end;
  law_del_flows br src mac w : plain src = true → plain mac = true →
    let '(w', e) := h_Run (del_flows_cmd br (match_text src mac)) w in
    match e with None => rule_removed src mac (ovs_flows br w) (ovs_flows br w') | Some _ => ovs_flows br w' = ovs_flows br w end }.

Section OvsContract.
Context {W : Type} `{!HostOps W, !OvsFlows W}.
Lemma keeps_acts {A} (b : string) (f : W → W * A) : (∀ w, ovs_flows b (f w).1 = ovs_flows b w) → preserves (ovs_flows b) (acts f).
Proof. intros H w. unfold acts. specialize (H w). by destruct (f w). Qed.
Lemma keeps_acts_err (b : string) (f : W → W * option error) :
  (∀ w, ovs_flows b (f w).1 = ovs_flows b w) → preserves (ovs_flows b) (acts_err f).
Proof. intros H. apply preserves_bind; [by apply keeps_acts|]. by intros []. Qed.
#[local] Hint Resolve keeps_acts keeps_acts_err law_flows_pci law_flows_entries law_flows_link law_flows_up law_flows_down
  law_flows_add_port law_flows_dpdk : preserves.
Lemma keeps_LinkSetUpDown b n up : preserves (ovs_flows b) (LinkSetUpDown n up).
Proof. unfold LinkSetUpDown. apply preserves_call; [auto with preserves|]. intros l. destruct up; auto with preserves. Qed.
#[local] Hint Resolve keeps_LinkSetUpDown : preserves.
Lemma keeps_AddPort b br p a d : preserves (ovs_flows b) (ovs_AddPort br p a d).
Proof. unfold ovs_AddPort. apply preserves_bind; [auto with preserves|]. intros _. destruct d; apply keeps_acts_err; [apply law_flows_dpdk|apply law_flows_add_port]. Qed.
#[local] Hint Resolve keeps_AddPort : preserves.
Lemma keeps_GetNameByDeviceID b id : preserves (ovs_flows b) (GetNameByDeviceID id).
Proof.
  unfold GetNameByDeviceID, GetPCIByDeviceID, GetNameByPCI.
  repeat (first [apply preserves_call; [solve [auto with preserves]|intros ?] | done]).
Qed.
(** A command whose outcome is described for success and failure. *)
Lemma ran_or_not cmd (P : flow_table → flow_table → Prop) b (w w' : W) r :
  (let '(w1, e) := h_Run cmd w in match e with None => P (ovs_flows b w) (ovs_flows b w1) | Some _ => ovs_flows b w1 = ovs_flows b w end) →
  returns (acts_err (h_Run cmd)) w w' r → P (ovs_flows b w) (ovs_flows b w') ∨ is_ok r = false ∧ ovs_flows b w' = ovs_flows b w.
Proof.
  intros Hl H. unfold acts_err in H. apply bind_returns in H as (w1 & e & H1%acts_run_inv & H). rewrite H1 in Hl.
  destruct e; apply ret_returns in H as [-> ->]; [right|left]; done.
Qed.
Lemma ovs_Init_flows br (w w' : W) : returns (ovs_Init br true) w w' (Ok tt) → ovs_flows br w' = {[normal := "NORMAL"]}.
Proof.
  unfold ovs_Init. intros H. inv_call H as H1. inv_call H as H2. simpl in H2. inv_call H2 as H3. destruct a1.
  apply acts_err_inv in H3. destruct a0. apply acts_err_inv in H2.
  assert (ovs_flows br w1 = {[normal := "NORMAL"]}) as E.
  { rewrite (law_normal _ _ _ H2), (law_clear _ _ _ H3). apply insert_empty. }
  rewrite <-E. eapply (preserves_returns (ovs_flows br)); [|exact H].
  apply preserves_bind; [apply keeps_GetNameByDeviceID|]. intros n. preserve.
Qed.
#[export] Instance ovs_contract : FlowContract W OvsDP.
Proof.
  refine {| flows := ovs_flows |}; simpl.
  - auto with preserves.
  - auto with preserves.
  - apply keeps_AddPort.
  - intros b br p w w' r H. unfold ovs_DeletePort in H. apply bind_returns in H as (w1 & e & H1 & H).
    apply bind_returns in H as (w2 & u & H2 & H). apply ret_returns in H as [-> ->].
    apply (preserves_returns (ovs_flows b)) in H2; [|auto with preserves]. rewrite H2.
    unfold acts_err in H1. apply bind_returns in H1 as (w3 & e' & H1%acts_run_inv & H3).
    pose proof (law_flows_del_port b br p w) as Hl. rewrite H1 in Hl. by destruct e'; apply ret_returns in H3 as [-> _].
  - apply ovs_Init_flows.
  - intros br src dst mac w w' r Hs Hd Hm. apply ran_or_not. by apply law_add_flow.
  - intros br src dst mac w w' r Hs Hm. apply ran_or_not. by apply law_del_flows.
Defined.
End OvsContract.

(** * A machine with a switch *)

Module OvsDemo.
Import HostDemo.
Definition host : Type := machine * gmap string flow_table.
Definition lift {A} (f : machine → machine * A) (h : host) : host * A := let '(m, a) := f h.1 in ((m, h.2), a).

(** A flow from its text; the priorities are those the data plane uses. *)
Definition strip (p s : string) : option string := if has_prefix p s then Some (drop_string (String.length p) s) else None.
Definition field (p : string) (l : list string) : string := hd "" (omap (strip p) l).
Definition parse_priority (s : string) : Z :=
  if String.eqb s "65535" then 65535 else if String.eqb s "100" then 100 else if String.eqb s "10" then 10 else 32768.
Definition parse_flow (text : string) : flow_key * string :=
  let l := split_char "," text in
  (mkFlow (parse_priority (field "priority=" l)) (field "in_port=" l) (field "dl_dst=" l), field "actions=" l).
Definition table (br : string) (h : host) : flow_table := default ∅ (h.2 !! br).
Definition set_table (br : string) (t : flow_table) (h : host) : host := (h.1, <[br := t]> h.2).
Definition invalid : option error := Some (Text "exit status 1").
Definition host_run (cmd : list string) (h : host) : host * option error :=
  match cmd with
  | [a; b; c; verb; br; text] =>
      let f := parse_flow text in
      let refused := existsb (String.eqb "in_port=") (split_char "," text) in
      if decide (cmd = add_flow_cmd br text) then
        if refused then (h, invalid) else (set_table br (<[f.1 := f.2]> (table br h)) h, None)
      else if decide (cmd = del_flows_cmd br text) then
        if refused then (h, invalid) else (set_table br (remove_flows (in_port f.1) (dl_dst f.1) (table br h)) h, None)
      else lift (run cmd) h
  | [a; b; c; verb; br] => if decide (cmd = ovs_ofctl ["del-flows"; br]) then (set_table br ∅ h, None) else lift (run cmd) h
  | _ => lift (run cmd) h
  end.
#[export] Instance host_ops : HostOps host := {|
  h_Run := host_run; h_Output c := lift (h_Output c); h_WriteFile p c := lift (h_WriteFile p c); h_Readlink p := lift (h_Readlink p);
  h_PciDevices := lift (λ m, (m, Ok (List.filter (λ d, negb (count_char ":" (pci_Address d) =? 0)%nat) (m_pci m)))); h_ReadSerial d := lift (h_ReadSerial d); h_PciDriver a := lift (h_PciDriver a);
  h_GetNetDevName a := lift (h_GetNetDevName a);
  h_NetEntries p := lift (λ m, (m, get p (List.filter plain <$> (m_net m !! p))));
  h_LinkByName n := lift (λ m, (m, if (count_char ":" n =? 0)%nat then get n (m_links m !! n) else Err (not_there n)));
  h_LinkSetUp l := lift (h_LinkSetUp l); h_LinkSetDown l := lift (h_LinkSetDown l);
  h_LinkAddVeth a b := lift (h_LinkAddVeth a b); h_LinkDel l := lift (h_LinkDel l);
  h_LinkSetVfVlan l i v := lift (h_LinkSetVfVlan l i v); h_LinkSetVfSpoofchk l i b := lift (h_LinkSetVfSpoofchk l i b);
  h_LinkSetVfTrust l i b := lift (h_LinkSetVfTrust l i b);
  h_Now := lift h_Now; h_Sleep d h := (h_Sleep d h.1, h.2) |}.
Lemma lift_keeps {A} b (f : machine → machine * A) h : table b (lift f h).1 = table b h.
Proof. unfold lift, table. by destruct (f h.1). Qed.
Lemma plain_no_comma s : plain s = true → count_char "," s = 0.
Proof. by apply all_char_count. Qed.
(** The fields of the texts of the data plane. *)
Lemma split_fields l : Forall (λ s, count_char "," s = 0) l → l ≠ [] → split_char "," (join "," l) = l.
Proof.
  induction 1 as [|s l Hs Hl IH]; intros Hne; [done|]. cbn [join]. destruct l as [|s' l]; [by apply split_char_no_sep|].
  change ("," +:+ join "," (s' :: l)) with (String "," (join "," (s' :: l))). rewrite split_char_app by done. by rewrite IH.
Qed.
(** The fields of the texts of the data plane. *)
Definition rule_fields (src dst mac : string) : list string :=
  if negb (String.eqb mac "")
  then if String.eqb src dst then ["priority=100"; "in_port=" +:+ src; "dl_dst=" +:+ mac; "actions=in_port"]
       else ["in_port=" +:+ src; "dl_dst=" +:+ mac; "actions=output:" +:+ dst]
  else ["priority=10"; "in_port=" +:+ src; "actions=output:" +:+ dst].
Definition match_fields (src mac : string) : list string :=
  ("in_port=" +:+ src) :: if negb (String.eqb mac "") then ["dl_dst=" +:+ mac] else [].
Lemma flow_fields src dst mac : plain src = true → plain dst = true → plain mac = true →
  split_char "," (flow_text src dst mac) = rule_fields src dst mac.
Proof.
  intros Hs%plain_no_comma Hd%plain_no_comma Hm%plain_no_comma.
  assert (flow_text src dst mac = join "," (rule_fields src dst mac)) as ->.
  { unfold flow_text, rule_fields. destruct (negb _), (String.eqb src dst); cbn [join]; by rewrite ?string_app_assoc. }
  unfold rule_fields. apply split_fields.
  - destruct (negb _), (String.eqb src dst); repeat constructor; by rewrite ?count_char_app, ?Hs, ?Hd, ?Hm.
  - by destruct (negb _), (String.eqb src dst).
Qed.
Lemma text_fields src mac : plain src = true → plain mac = true → split_char "," (match_text src mac) = match_fields src mac.
Proof.
  intros Hs%plain_no_comma Hm%plain_no_comma.
  assert (match_text src mac = join "," (match_fields src mac)) as ->.
  { unfold match_text, match_fields. destruct (negb _); cbn [join]; by rewrite ?string_app_assoc. }
  unfold match_fields. apply split_fields; [|done].
  destruct (negb _); repeat constructor; by rewrite ?count_char_app, ?Hs, ?Hm.
Qed.
Lemma parse_rule src dst mac : plain src = true → plain dst = true → plain mac = true →
  parse_flow (flow_text src dst mac) = rule src dst mac.
Proof.
  intros. unfold parse_flow. rewrite flow_fields by done. unfold rule_fields, rule. by destruct (negb _), (String.eqb src dst).
Qed.
Lemma parse_match src mac : plain src = true → plain mac = true →
  in_port (parse_flow (match_text src mac)).1 = src ∧ dl_dst (parse_flow (match_text src mac)).1 = mac.
Proof.
  intros. unfold parse_flow. rewrite text_fields by done. unfold match_fields. by destruct (String.eqb_spec mac "") as [->|].
Qed.
(** An input port without a name is refused. *)
Lemma rule_refused src dst mac : existsb (String.eqb "in_port=") (rule_fields src dst mac) = String.eqb src "".
Proof. unfold rule_fields. destruct (negb _), (String.eqb src dst), src; done. Qed.
Lemma match_refused src mac : existsb (String.eqb "in_port=") (match_fields src mac) = String.eqb src "".
Proof. unfold match_fields. destruct (negb _), src; done. Qed.
Lemma table_set br t h : table br (set_table br t h) = t.
Proof. unfold table, set_table. simpl. by rewrite lookup_insert_eq. Qed.

#[export] Instance host_flows : OvsFlows host.
Proof.
  refine {| ovs_flows := table |}; try (intros; apply lift_keeps).
  - intros b br p w. simpl. split; [by rewrite lift_keeps|]. intros k _. by rewrite lift_keeps.
  - intros br w w'. simpl. rewrite decide_True by done. intros [= <-]. apply table_set.
  - intros br w w'. simpl. rewrite decide_True by done. intros [= <-]. apply table_set.
  - intros br src dst mac w Hs Hd Hm. cbn -[parse_flow]. rewrite decide_True by done. rewrite flow_fields, rule_refused by done.
    destruct (String.eqb_spec src "") as [->|Hne]; [done|]. split; [done|]. by rewrite table_set, parse_rule.
  - intros br src mac w Hs Hm. cbn -[parse_flow]. rewrite decide_False, decide_True by done. rewrite text_fields, match_refused by done.
    destruct (String.eqb_spec src "") as [->|Hne]; [done|]. split; [done|]. rewrite table_set. by destruct (parse_match src mac Hs Hm) as [-> ->].
Qed.
End OvsDemo.
