(* ===== verification/Marvell.v ===== *)
(** The vendor-specific process of the Marvell accelerator,
    vendor-specific-plugins/marvell/main.go.

    The data plane is any [mrvldp].  The order in which Go iterates over the store of
    devices is a parameter.  [Stop] is modelled on the machine and the store. *)
From S2P Require Import Prelude Plugin Net OpiClient GrpcPlugin GoMonad CniTypes SriovUtils Platform SideManagers VspNet MrvlUtils DataPlane.
#[local] Open Scope stdpp_scope.

Definition DPUdeviceID : string := "a0f7".
Definition HostDeviceID : string := "b900".
Definition DefaultPort : Z := 8085.
Definition PortType : string := "veth".
Definition NoOfPortPairs : nat := 2.
Definition IPv6AddrDpu : string := "fe80::1".
Definition IPv6AddrHost : string := "fe80::2".
Definition NumPFs : Z := 1.
Definition PFID : Z := 0.
Definition isDPDK : bool := false.
Definition HostVFDeviceID : string := "b903".
Definition DpuRpmDeviceID : string := "a063".
Definition NfName : string := "mrvl-nf1".
Definition isMacLearning : bool := true.

Record mrvlDeviceInfo := mkDevice {
  secInterfaceName : string; dpInterfaceName : string; dpMAC : string; dev_portType : string; health : string; pciAddress : string }.
Record vfInfo := mkVfInfo { vfName : string; mac : string }.
Record mrvlNfPortMap := mkNf { vfPort : list vfInfo; inpPort : string; outPort : string }.
#[export] Instance mrvlNfPortMap_eta : Eta mrvlNfPortMap := λ n, mkNf (vfPort n) (inpPort n) (outPort n).
(** The store is [None] when the map is nil. *)
Record mrvlVspServer := mkMrvl {
  isDPUMode : bool; deviceStore : option (gmap string mrvlDeviceInfo); portType : string; bridgeName : string;
  networkStore : gmap string mrvlNfPortMap; isNF : bool }.
#[export] Instance mrvlVspServer_eta : Eta mrvlVspServer := λ s,
  mkMrvl (isDPUMode s) (deviceStore s) (portType s) (bridgeName s) (networkStore s) (isNF s).
Definition NewMarvellVspServer : mrvlVspServer := mkMrvl false (Some ∅) "" "" ∅ false.

(** What [vsp.deviceStore[k]] and [vsp.networkStore[k]] read: a missing entry is a zero one. *)
Definition device (s : mrvlVspServer) (k : string) : mrvlDeviceInfo := default (mkDevice "" "" "" "" "" "") (default ∅ (deviceStore s) !! k).
Definition network (s : mrvlVspServer) (k : string) : mrvlNfPortMap := default (mkNf [] "" "") (networkStore s !! k).

(** [host(\d+)-(\d+)], not anchored: the leftmost match. *)
Fixpoint span_digits (s : string) : string * string :=
  match s with
  | String c s' => if is_digit c then let '(d, r) := span_digits s' in (String c d, r) else ("", s)
  | EmptyString => ("", "")
  end.
Definition match_here (s : string) : option (string * string) :=
  if has_prefix "host" s then
    let '(pf, rest) := span_digits (drop_string 4 s) in
    match rest with
    | String "-" rest =>
        let vf := (span_digits rest).1 in
        if String.eqb pf "" || String.eqb vf "" then None else Some (pf, vf)
    | _ => None
    end
  else None.
Fixpoint find_vf (s : string) : option (string * string) :=
  match match_here s, s with
  | Some m, _ => Some m
  | None, String _ s' => find_vf s'
  | None, EmptyString => None
  end.
Example find_vf_ex : find_vf "xhostahost12-7-1" = Some ("12", "7").
Proof. reflexivity. Qed.

Section Server.
Context {W : Type} `{!HostOps W} (dp : mrvldp W) (order : gmap string mrvlDeviceInfo → list mrvlDeviceInfo).
Abbreviation VM := (M (mrvlVspServer * W)).

(** ** Devices *)

Definition ethtool_disable_offload (ifname : string) : M W unit :=
  ignore (acts (h_Run ["ethtool"; "-K"; ifname; "tx"; "off"; "rx"; "off"])).
Definition GetDeviceHealth (secInterfaceName : string) : VM string :=
  ty ← server portType;
  if String.eqb ty "veth" || String.eqb ty "sriov" then
    link ← on_host (acts (h_LinkByName secInterfaceName));
    mret (match link with Ok l => if lk_up l then "Healthy" else "Unhealthy" | Err _ => "Unhealthy" end)
  else mret (if String.eqb ty "hwlbk" then "Healthy" else "Unhealthy").
(** An assignment to a nil map panics. *)
Definition store_device (k : string) (d : mrvlDeviceInfo) : VM unit :=
  store ← server deviceStore;
  match store with
  | None => panic
  | Some m => modify (λ s, s <| deviceStore := Some (<[k := d]> m) |>)
  end.
(** The two links if both exist. *)
Definition existing_pair (sec dpn : string) : M W (option (Link * Link)) :=
  nf ← acts (h_LinkByName sec);
  match nf with
  | Err _ => mret None
  | Ok nfLink =>
      peer ← acts (h_LinkByName dpn);
      mret (match peer with Ok peerLink => Some (nfLink, peerLink) | Err _ => None end)
  end.
Definition veth_links (sec dpn : string) : M W (result (Link * Link)) :=
  pair ← existing_pair sec dpn;
  match pair with
  | Some links => mret (Ok links)
  | None =>
      call _ := acts_err (h_LinkAddVeth sec dpn) or (λ e, e) in
      call nfLink := acts (h_LinkByName sec) or (λ e, e) in
      call peerLink := acts (h_LinkByName dpn) or (λ e, e) in
      _ ← ethtool_disable_offload sec;
      _ ← ethtool_disable_offload dpn;
      mret (Ok (nfLink, peerLink))
  end.
Definition createVethPair (index : nat) : VM (result unit) :=
  let sec := "nf_interface" +:+ itoa (Z.of_nat index) in
  let dpn := "dp_interface" +:+ itoa (Z.of_nat index) in
  call (nfLink, peerLink) := on_host (veth_links sec dpn) or (λ e, e) in
  call _ := on_host (acts_err (h_LinkSetUp nfLink)) or (λ e, e) in
  call _ := on_host (acts_err (h_LinkSetUp peerLink)) or (λ e, e) in
  h ← GetDeviceHealth sec;
  _ ← store_device (mac_string (lk_mac nfLink)) (mkDevice sec dpn (mac_string (lk_mac peerLink)) "veth" h "");
  ok.
Definition createHwLBK : VM (result unit) := mret (Err (Text "currently only veth pairs are supported")).
Fixpoint clean_veths (devices : list mrvlDeviceInfo) (errResult : result unit) : M W (result unit) :=
  match devices with
  | [] => mret errResult
  | d :: devices =>
      r ← (call nfLink := acts (h_LinkByName (secInterfaceName d)) or (λ e, e) in acts_err (h_LinkDel nfLink));
      clean_veths devices
        (match r, errResult with Ok _, _ => errResult | Err e, Ok _ => Err e | Err e, Err e0 => Err (join_errors e0 e) end)
  end.
Definition CleanVethPairs : VM (result unit) :=
  store ← server deviceStore;
  match store with
  | None => ok
  | Some m =>
      _ ← modify (λ s, s <| deviceStore := None |>);
      on_host (clean_veths (order m) (Ok tt))
  end.
Fixpoint create_pairs (idxs : list nat) : VM (result unit) :=
  match idxs with
  | [] => ok
  | i :: idxs =>
      r ← createVethPair i;
      match r with
      | Ok _ => create_pairs idxs
      | Err e => _ ← ignore CleanVethPairs; mret (Err e)
      end
  end.
Definition ConfigureNetworkInterface : VM (result unit) :=
  _ ← modify (λ s, s <| portType := PortType |>);
  if String.eqb PortType "veth" then create_pairs (seq 0 NoOfPortPairs)
  else if String.eqb PortType "hwlbk" then createHwLBK
  else mret (Err (Text "invalid Port Type")).
Fixpoint store_vfs (vfs : list string) : VM (result unit) :=
  match vfs with
  | [] => ok
  | vfpci :: vfs =>
      h ← GetDeviceHealth vfpci;
      _ ← store_device vfpci (mkDevice "" "" "" "sriov" h vfpci);
      store_vfs vfs
  end.
Definition reloadVFs : VM (result unit) :=
  r ← on_host (GetAllVfsByDeviceID HostVFDeviceID);
  match r with
  | VfsError e => mret (Err e)
  | VfsNone _ => _ ← modify (λ s, s <| deviceStore := Some ∅ |>); ok
  | VfsFound vfs => _ ← modify (λ s, s <| deviceStore := Some ∅ |>); store_vfs vfs
  end.

(** ** Initialization *)

Definition configureIP (dpuMode : bool) : M W (result (string * Z)) :=
  call ifName := GetNameByDeviceID (if dpuMode then DPUdeviceID else HostDeviceID) or (λ e, e) in
  call _ := EnableIPV6LinkLocal ifName (if dpuMode then IPv6AddrDpu else IPv6AddrHost) or (λ e, e) in
  mret (Ok ("[" +:+ IPv6AddrDpu +:+ (if dpuMode then "%" else "%25") +:+ ifName +:+ "]", DefaultPort)).
Definition Stop : VM unit :=
  br ← server bridgeName;
  _ ← ignore (on_host (DeleteDataplane dp br));
  ignore CleanVethPairs.
(** [if err := f(); err != nil { vsp.Stop(); return nil, err }]. *)
Definition or_stop (f : VM (result unit)) : VM (result unit) :=
  r ← f;
  match r with Ok _ => ok | Err e => _ ← Stop; mret (Err e) end.
Definition Init (dpuMode : bool) : VM (result (string * Z)) :=
  _ ← modify (λ s, s <| isDPUMode := dpuMode |> <| deviceStore := Some ∅ |>);
  call ipPort := on_host (configureIP dpuMode) or (λ e, e) in
  call _ := (if dpuMode then
      call _ := or_stop ConfigureNetworkInterface or (λ e, e) in
      _ ← modify (λ s, s <| bridgeName := "br-mrv0" |>);
      or_stop (on_host (InitDataPlane dp "br-mrv0" isMacLearning))
    else
      r ← on_host (GetAllVfsByDeviceID HostDeviceID);
      match vfs_or_error r with
      | Err e => mret (Err e)
      | Ok _ =>
          call _ := reloadVFs or (λ e, e) in
          _ ← modify (λ s, s <| portType := "sriov" |>);
          ok
      end) or (λ e, e) in
  mret (Ok ipPort).

Definition device_entry (dpu : bool) (d : mrvlDeviceInfo) : string * PbDevice :=
  let id := if dpu then secInterfaceName d else pciAddress d in
  (id, {| PbID := id; PbHealth := health d; PbNode := "" |}).
(** The devices in the order of the map, a later one over an earlier one. *)
Definition GetDevices : VM (result DeviceListResponse) :=
  dpu ← server isDPUMode;
  store ← server deviceStore;
  mret (match store with
        | None => Err (Text "device Store is empty")
        | Some m => Ok (list_to_map (reverse (device_entry dpu <$> order m)))
        end).

(** The text of the store in the last error is left out. *)
Definition SetNumVfs (vfcnt : Z) : VM (result Z) :=
  dpu ← server isDPUMode;
  if dpu : bool then mret (Err (Text "SetNumVfs is not supported in DPU Mode")) else
  pci ← on_host (GetPCIByDeviceID HostDeviceID);
  match pci with
  | Err _ => mret (Err (Text "PCI Address not found"))
  | Ok pciAddress =>
      if (vfcnt <? 0)%Z then mret (Err (Text "invalid VF Count")) else
      let set n := acts_err (h_Run ["sh"; "-c"; "echo " +:+ itoa n +:+ " > /sys/bus/pci/devices/" +:+ pciAddress +:+ "/sriov_numvfs"]) in
      call _ := on_host (set 0%Z) or errorf "failed to reset sriov_numvfs to 0: " in
      call _ := on_host (set vfcnt) or errorf ("failed to set sriov_numvfs to " +:+ itoa vfcnt +:+ ": ") in
      call _ := reloadVFs or errorf "failed to load VFs after creating them: " in
      n ← server (λ s, Z.of_nat (size (default ∅ (deviceStore s))));
      if negb (n =? vfcnt)%Z then mret (Err (Text ("failed to load expected number " +:+ itoa vfcnt +:+ " of VFs but got ..."))) else
      mret (Ok vfcnt)
  end.

(** ** Bridge ports *)

(** The VF after the one named, whatever its PF; its name and address. *)
Definition getVFDetails (BridgePortName : string) : M W (result (string * string)) :=
  match find_vf BridgePortName with
  | None => mret (Err (Text "no VFId Match Found"))
  | Some (pf, vf) =>
      match Atoi pf, Atoi vf with
      | Err e, _ | _, Err e => mret (Err e)
      | Ok pfid, Ok vfId =>
          let vfId := int64 (vfId + 1) in
          call vfPciAddress := Mapped_VF NumPFs PFID vfId or (λ e, e) in
          if String.eqb vfPciAddress "" then mret (Err (Text "mapped VF not found")) else
          call vfName := (if isDPDK then mret (Ok ("vf" +:+ itoa pfid +:+ "-" +:+ itoa vfId)) else GetNameByPCI vfPciAddress) or (λ e, e) in
          mret (Ok (vfName, vfPciAddress))
      end
  end.
Definition store_network (k : string) (n : mrvlNfPortMap) : VM unit :=
  modify (λ s, s <| networkStore := <[k := n]> (networkStore s) |>).
Definition add_flow (src dst mac : string) : VM (result unit) :=
  br ← server bridgeName;
  on_host (AddFlowRuleToDataPlane dp br src dst mac).
Definition delete_flow (src dst mac : string) : VM (result unit) :=
  br ← server bridgeName;
  on_host (DeleteFlowRuleFromDataPlane dp br src dst mac).
Definition add_port (name pci : string) : VM (result unit) :=
  br ← server bridgeName;
  on_host (AddPortToDataPlane dp br name pci isDPDK).
Definition delete_port (name : string) : VM (result unit) :=
  br ← server bridgeName;
  on_host (DeletePortFromDataPlane dp br name).

(** The three rules that connect a VF to the network function: to its input, back from it
    by MAC address, and between VFs at its output. *)
Definition vf_flows (inp out name mac : string) : VM (result unit) :=
  call _ := add_flow name inp "" or (λ e, e) in
  call _ := add_flow inp name mac or (λ e, e) in
  add_flow out out mac.
Definition CreateBridgePort (req : CreateBridgePortRequest) : VM (result OpiBridgePort) :=
  match CreateBp req with
  | None => panic
  | Some bp =>
      call (name, pci) := on_host (getVFDetails (BpName bp)) or (λ e, e) in
      call _ := add_port name pci or (λ e, e) in
      match BpSpec bp with
      | None => panic
      | Some spec =>
          let vf := mkVfInfo name (mac_string (MacAddress spec)) in
          n ← server (λ s, network s NfName);
          _ ← store_network NfName (n <| vfPort := vfPort n ++ [vf] |>);
          nf ← server isNF;
          call _ := (if nf : bool then vf_flows (inpPort n) (outPort n) name (mac_string (MacAddress spec)) else ok) or (λ e, e) in
          mret (Ok {| BpName := "bridge_port/" +:+ BpName bp; BpSpec := Some spec |})
      end
  end.
(** The first entry of the VF. *)
Fixpoint remove_vf (name : string) (vfs : list vfInfo) : list vfInfo :=
  match vfs with
  | [] => []
  | vf :: vfs => if String.eqb (vfName vf) name then vfs else vf :: remove_vf name vfs
  end.
Definition vf_mac (name : string) (vfs : list vfInfo) : string :=
  match find (λ vf, String.eqb (vfName vf) name) vfs with Some vf => mac vf | None => "" end.
(** [false]: the rules of the hairpin or of the way back could not be deleted, which ends
    the call without an error. *)
Definition delete_vf_flows (name : string) : VM (result bool) :=
  n ← server (λ s, network s NfName);
  let m := vf_mac name (vfPort n) in
  call _ := delete_flow name "" "" or (λ e, e) in
  r ← delete_flow (outPort n) (outPort n) m;
  match r with
  | Err _ => mret (Ok false)
  | Ok _ =>
      r ← delete_flow (inpPort n) name m;
      mret (Ok (is_ok r))
  end.
Definition DeleteBridgePort (portName : string) : VM (result unit) :=
  call (name, _) := on_host (getVFDetails portName) or (λ e, e) in
  nf ← server isNF;
  call deleted := (if nf : bool then delete_vf_flows name else mret (Ok true)) or (λ e, e) in
  if negb deleted then ok else
  call _ := delete_port name or (λ e, e) in
  _ ← modify (λ s, s <| networkStore := alter (λ n, n <| vfPort := remove_vf name (vfPort n) |>) NfName (networkStore s) |>);
  ok.

(** ** Network functions *)

Fixpoint flows_of_vfs (inp out : string) (vfs : list vfInfo) : VM (result unit) :=
  match vfs with
  | [] => ok
  | vf :: vfs => call _ := vf_flows inp out (vfName vf) (mac vf) or (λ e, e) in flows_of_vfs inp out vfs
  end.
Definition AddNetworkFunction (inp out nfName : string) : VM (result unit) :=
  call _ := add_port inp "" or (λ e, e) in
  call _ := add_port out "" or (λ e, e) in
  dpuVfs ← server (λ s, vfPort (network s nfName));
  _ ← store_network nfName (mkNf dpuVfs inp out);
  call _ := flows_of_vfs inp out dpuVfs or (λ e, e) in
  call rpm := on_host (GetNameByDeviceID DpuRpmDeviceID) or (λ e, e) in
  call _ := add_flow out rpm "" or (λ e, e) in
  add_flow rpm out "".
Definition CreateNetworkFunction (input output : string) : VM (result unit) :=
  _ ← modify (λ s, s <| isNF := true |>);
  inp ← server (λ s, dpInterfaceName (device s input));
  out ← server (λ s, dpInterfaceName (device s output));
  AddNetworkFunction inp out NfName.
Fixpoint delete_flows_of (inp : string) (vfs : list vfInfo) : VM (result unit) :=
  match vfs with
  | [] => ok
  | vf :: vfs => call _ := delete_flow (vfName vf) inp "" or (λ e, e) in delete_flows_of inp vfs
  end.
Definition DeleteNetworkFunctionPort (inp out nfName : string) : VM (result unit) :=
  dpuVfs ← server (λ s, vfPort (network s nfName));
  call _ := delete_flows_of inp dpuVfs or (λ e, e) in
  call _ := delete_flow inp "" "" or (λ e, e) in
  call _ := delete_flow out "" "" or (λ e, e) in
  call rpm := on_host (GetNameByDeviceID DpuRpmDeviceID) or (λ e, e) in
  call _ := delete_flow rpm "" "" or (λ e, e) in
  call _ := delete_port inp or (λ e, e) in
  delete_port out.
Definition DeleteNetworkFunction (input output : string) : VM (result unit) :=
  _ ← modify (λ s, s <| isNF := false |>);
  inp ← server (λ s, dpInterfaceName (device s input));
  out ← server (λ s, dpInterfaceName (device s output));
  DeleteNetworkFunctionPort inp out NfName.
End Server.

(** * Names that can stand in a flow *)

(** The interfaces of the machine have such names. *)
Class PlainNames (W : Type) `{!HostOps W} := {
  law_plain p w : match (h_NetEntries p w).2 with Ok l => Forall (λ n, plain n = true) l | Err _ => True end }.
Definition Plain (s : string) : Prop := plain s = true.

Lemma plain_trim s : Plain s → trim_space s = s.
Proof.
  intros H. apply trim_func_id. revert H. apply all_char_impl. intros c. rewrite !negb_true_iff. by intros [_ ?]%orb_false_elim.
Qed.
Lemma plain_app s t : Plain s → Plain t → Plain (s +:+ t).
Proof. unfold Plain, plain. rewrite all_char_app. by intros -> ->. Qed.
Lemma plain_join l : Forall Plain l → Plain (join ":" l).
Proof.
  unfold Plain, plain. induction 1 as [|s l Hs Hl IH]; [done|]. cbn [join]. destruct l; [done|]. by rewrite !all_char_app, Hs, IH.
Qed.
Lemma plain_byte b : is_byte b → Plain (byte_string b).
Proof.
  intros Hb. assert (∀ d, (0 ≤ d < 16)%Z → Plain (String (hex_digit d) "")) as Hd.
  { intros d H. assert (d ∈ [0;1;2;3;4;5;6;7;8;9;10;11;12;13;14;15]%Z) as Hin by set_solver by lia.
    repeat (apply elem_of_cons in Hin as [->|Hin]; [done|]). by apply elem_of_nil in Hin. }
  unfold is_byte in Hb. pose proof (Z.div_lt_upper_bound b 16 16). pose proof (Z.div_pos b 16). pose proof (Z.mod_pos_bound b 16).
  unfold Plain, plain, byte_string.
  change (String (hex_digit (b / 16)) (String (hex_digit (b mod 16)) ""))
    with (String (hex_digit (b / 16)) "" +:+ String (hex_digit (b mod 16)) "").
  rewrite all_char_app. apply andb_true_intro. split; apply Hd; lia.
Qed.
Lemma plain_mac m : Forall is_byte m → Plain (mac_string m).
Proof. intros H. apply plain_join, Forall_fmap. by eapply Forall_impl; [exact H|apply plain_byte]. Qed.
Lemma plain_digits s : digits s = true → Plain s.
Proof.
  unfold digits. intros [_ H]%andb_prop. revert H. apply all_char_impl. intros c. unfold is_digit, is_space.
  destruct (Ascii.eqb_spec c ","), (Ascii.eqb_spec c "="); subst; try done. simpl.
  intros H. apply andb_prop in H as [H1%Nat.leb_le H2%Nat.leb_le]. apply negb_true_iff, orb_false_intro; [|apply Nat.eqb_neq; lia].
  apply andb_false_intro2, Nat.leb_gt. lia.
Qed.

(** What the server holds for a flow. *)
Definition nf_plain (n : mrvlNfPortMap) : Prop :=
  Plain (inpPort n) ∧ Plain (outPort n) ∧ Forall (λ vf, Plain (vfName vf) ∧ Plain (mac vf)) (vfPort n).
Record names_plain (s : mrvlVspServer) : Prop := {
  plain_devices m k d : deviceStore s = Some m → m !! k = Some d → Plain (dpInterfaceName d);
  plain_networks k n : networkStore s !! k = Some n → nf_plain n }.
Lemma plain_new : names_plain NewMarvellVspServer.
Proof. split; simpl; [intros m k d [= <-]|intros k n]; by rewrite lookup_empty. Qed.
Lemma plain_device s k : names_plain s → Plain (dpInterfaceName (device s k)).
Proof.
  intros [Hd _]. unfold device. destruct (deviceStore s) as [m|]; simpl; [|by rewrite lookup_empty].
  destruct (m !! k) eqn:E; simpl; [by eapply Hd|done].
Qed.
Lemma plain_network s k : names_plain s → nf_plain (network s k).
Proof.
  intros [_ Hn]. unfold network. destruct (networkStore s !! k) eqn:E; simpl; [by eapply Hn|]. by repeat split.
Qed.
Lemma plain_remove_vf name l : Forall (λ vf, Plain (vfName vf) ∧ Plain (mac vf)) l →
  Forall (λ vf, Plain (vfName vf) ∧ Plain (mac vf)) (remove_vf name l).
Proof. induction 1 as [|vf l Hv Hl IH]; simpl; [done|]. case_match; [done|]. by constructor. Qed.
Lemma plain_vf_mac name l : Forall (λ vf, Plain (vfName vf) ∧ Plain (mac vf)) l → Plain (vf_mac name l).
Proof.
  unfold vf_mac. induction 1 as [|vf l [_ Hv] Hl IH]; [done|]. cbn [find]. by destruct (String.eqb (vfName vf) name).
Qed.

(** * The normal flow *)

(** It is there, and every other flow has a smaller priority. *)
Definition normal_first (t : flow_table) : Prop :=
  t !! normal = Some "NORMAL" ∧ ∀ k a, t !! k = Some a → k ≠ normal → (priority k < 65535)%Z.
Lemma normal_first_init : normal_first {[normal := "NORMAL"]}.
Proof. split; [apply lookup_singleton_eq|]. intros k a [<- _]%lookup_singleton_Some Hne. by destruct Hne. Qed.
Lemma rule_priority src dst m : (priority (rule src dst m).1 < 65535)%Z ∧ (rule src dst m).1 ≠ normal.
Proof. unfold rule. repeat case_match; simpl; (split; [lia|done]). Qed.
Lemma normal_first_added src dst m t t' : rule_added src dst m t t' → normal_first t → normal_first t'.
Proof.
  intros [_ ->] [Hn Ho]. destruct (rule_priority src dst m) as [Hp Hne]. split; [by rewrite lookup_insert_ne|].
  intros k a [[<- _]|[_ H]]%lookup_insert_Some Hk; [done|by eapply Ho].
Qed.
Lemma normal_first_removed src m t t' : rule_removed src m t t' → normal_first t → normal_first t'.
Proof.
  intros [Hs ->] [Hn Ho]. unfold remove_flows. split.
  - apply map_lookup_filter_Some. split; [done|]. by destruct src.
  - intros k a [H _]%map_lookup_filter_Some. by eapply Ho.
Qed.
Lemma normal_first_gone p t t' : port_gone p t t' → normal_first t → normal_first t'.
Proof.
  intros [Hsub Hk] [Hn Ho]. split; [rewrite Hk; [done|by right]|]. intros k a H. apply Ho with a. by eapply lookup_weaken.
Qed.
Lemma normal_decides t port m k a : normal_first t → decides t port m k a ↔ k = normal ∧ a = "NORMAL".
Proof.
  intros [Hn Ho]. split.
  - intros (Hk & _ & Hmax). destruct (decide (k = normal)) as [->|Hne]; [split; [done|congruence]|].
    specialize (Hmax _ _ Hn ltac:(split; by left)). specialize (Ho _ _ Hk Hne). simpl in Hmax. lia.
  - intros [-> ->]. split; [done|]. split; [split; by left|]. intros k a Hk _.
    destruct (decide (k = normal)) as [->|Hne]; [done|]. specialize (Ho _ _ Hk Hne). simpl. lia.
Qed.

(** * What the calls keep *)

Section Flows.
Context {W : Type} `{!HostOps W, !PlainNames W} (dp : mrvldp W) `{!FlowContract W dp}.
Context (order : gmap string mrvlDeviceInfo → list mrvlDeviceInfo).

Definition Bridge : string := "br-mrv0".
(** The state of a server that serves the DPU side. *)
Record serving (v : mrvlVspServer * W) : Prop := {
  serving_dpu : isDPUMode v.1 = true; serving_bridge : bridgeName v.1 = Bridge;
  serving_plain : names_plain v.1; serving_flows : normal_first (flows Bridge v.2) }.

Lemma guard_server {A} (f : mrvlVspServer → A) : guards serving (server f) (λ a, ∃ v, serving v ∧ a = f v.1).
Proof. intros v v' a H [-> ->]%server_returns. eauto. Qed.
Lemma guard_on_host {A} (f : M W A) (Q : A → Prop) :
  (∀ w w' a, returns f w w' a → (normal_first (flows Bridge w) → normal_first (flows Bridge w')) ∧ Q a) → guards serving (on_host f) Q.
Proof.
  intros Hf v v' a [H1 H2 H3 H4] [E H]%on_host_returns. destruct (Hf _ _ _ H) as [Hn Hq]. split; [|done].
  split; rewrite ?E; auto.
Qed.
Lemma guard_quiet {A} (f : M W A) : preserves (flows Bridge) f → guards serving (on_host f) any.
Proof. intros Hf. apply guard_on_host. intros w w' a H%(preserves_returns (flows Bridge)); [|done]. by rewrite H. Qed.
Lemma guard_modify f : (∀ s, names_plain s → isDPUMode (f s) = isDPUMode s ∧ bridgeName (f s) = bridgeName s ∧ names_plain (f s)) →
  guards serving (modify f) any.
Proof.
  intros Hf v v' a [H1 H2 H3 H4] ->%modify_returns. destruct (Hf _ H3) as (E1 & E2 & ?). split; [|done].
  split; simpl; congruence.
Qed.
Lemma guard_server_any {A} (f : mrvlVspServer → A) : guards serving (server f) any.
Proof. eapply guards_any, guard_server. Qed.
#[local] Hint Resolve guard_server_any : guards.

(** Reading the machine's devices. *)
#[local] Hint Resolve promise_pci promise_entries promise_AddPort : preserves.
Lemma quiet_GetNameByPCI pci : preserves (flows Bridge) (GetNameByPCI pci).
Proof. unfold GetNameByPCI. apply preserves_call; [auto with preserves|done]. Qed.
Lemma quiet_GetPCI id : preserves (flows Bridge) (GetPCIByDeviceID id).
Proof. unfold GetPCIByDeviceID. apply preserves_call; [auto with preserves|done]. Qed.
Lemma quiet_Mapped_VF n p i : preserves (flows Bridge) (Mapped_VF n p i).
Proof. unfold Mapped_VF. apply preserves_call; [auto with preserves|]. intros l. by repeat case_match. Qed.
#[local] Hint Resolve quiet_GetNameByPCI quiet_GetPCI quiet_Mapped_VF : preserves.
Lemma quiet_GetName id : preserves (flows Bridge) (GetNameByDeviceID id).
Proof. unfold GetNameByDeviceID. apply preserves_call; auto with preserves. Qed.
Lemma quiet_getVF n : preserves (flows Bridge) (getVFDetails n).
Proof.
  unfold getVFDetails. destruct (find_vf n) as [[pf vf]|]; [|done]. destruct (Atoi pf), (Atoi vf); try done.
  apply preserves_call; [auto with preserves|]. intros x. case_match; [done|]. by apply preserves_call; [apply quiet_GetNameByPCI|].
Qed.
Lemma plain_GetNameByPCI pci w w' n : returns (GetNameByPCI pci) w w' (Ok n) → Plain n.
Proof.
  unfold GetNameByPCI. intros H. inv_call H as H1. apply acts_run_inv in H1. pose proof (law_plain (Join ["/sys/bus/pci/devices"; pci; "net"]) w) as Hl.
  rewrite H1 in Hl. simpl in Hl. destruct a as [|f l]; inv_ret H. apply Forall_cons in Hl as [Hf _]. by rewrite plain_trim.
Qed.
Lemma guard_rpm id : guards serving (on_host (GetNameByDeviceID id)) (when_ok Plain).
Proof.
  apply guard_on_host. intros w w' a H. split; [by rewrite (preserves_returns (flows Bridge) _ _ _ _ (quiet_GetName id) H)|].
  destruct a as [n|e]; [|done]. unfold GetNameByDeviceID in H. inv_call H as H1. by eapply plain_GetNameByPCI.
Qed.
Lemma plain_getVF n w w' x : returns (getVFDetails n) w w' (Ok x) → Plain x.1.
Proof.
  unfold getVFDetails. intros H. destruct (find_vf n) as [[pf vf]|]; [|inv_ret H].
  destruct (Atoi pf); [|inv_ret H]. destruct (Atoi vf); [|inv_ret H]. inv_call H as H1. destruct (String.eqb _ ""); [inv_ret H|].
  inv_call H as H2. apply ret_returns in H as [_ [= ->]]. by eapply (plain_GetNameByPCI _ _ _ _ H2).
Qed.
Lemma guard_getVF n : guards serving (on_host (getVFDetails n)) (when_ok (λ x, Plain x.1)).
Proof.
  apply guard_on_host. intros w w' a H. split; [by rewrite (preserves_returns (flows Bridge) _ _ _ _ (quiet_getVF n) H)|].
  destruct a as [x|e]; [|done]. by eapply plain_getVF.
Qed.

(** The data plane. *)
Lemma guard_add_flow src dst m : Plain src → Plain dst → Plain m → guards serving (add_flow dp src dst m) any.
Proof.
  intros Hs Hd Hm. eapply guards_bind; [apply guard_server|]. intros br (v & Hv & ->). rewrite (serving_bridge _ Hv).
  apply guard_on_host. intros w w' a H. split; [|done]. destruct (promise_AddFlow _ _ _ _ _ _ _ Hs Hd Hm H) as [Hr|[_ ->]]; [|done].
  by eapply normal_first_added.
Qed.
Lemma guard_delete_flow src dst m : Plain src → Plain m → guards serving (delete_flow dp src dst m) any.
Proof.
  intros Hs Hm. eapply guards_bind; [apply guard_server|]. intros br (v & Hv & ->). rewrite (serving_bridge _ Hv).
  apply guard_on_host. intros w w' a H. split; [|done]. destruct (promise_DeleteFlow _ _ _ _ _ _ _ Hs Hm H) as [Hr|[_ ->]]; [|done].
  by eapply normal_first_removed.
Qed.
Lemma guard_add_port name pci : guards serving (add_port dp name pci) any.
Proof. unfold add_port. watch. apply guard_quiet. auto with preserves. Qed.
Lemma guard_delete_port name : guards serving (delete_port dp name) any.
Proof.
  unfold delete_port. watch. apply guard_on_host. intros w w' r H. split; [|done]. by eapply normal_first_gone, promise_DeletePort.
Qed.
#[local] Hint Resolve guard_add_port guard_delete_port : guards.
Lemma guard_vf_flows inp out name m : Plain inp → Plain out → Plain name → Plain m → guards serving (vf_flows dp inp out name m) any.
Proof. intros. unfold vf_flows. apply guards_call_any; [by apply guard_add_flow|intros _]. apply guards_call_any; intros; by apply guard_add_flow. Qed.
Lemma guard_store_network k n : nf_plain n → guards serving (store_network k n) any.
Proof.
  intros Hn. apply guard_modify. intros s [Hd Hk]. split; [done|]. split; [done|]. split; simpl; [done|].
  intros k' n' [[<- <-]|[_ ?]]%lookup_insert_Some; [done|by eapply Hk].
Qed.

(** The calls. *)
Definition bytes_ok (req : CreateBridgePortRequest) : Prop :=
  ∀ bp spec, CreateBp req = Some bp → BpSpec bp = Some spec → Forall is_byte (MacAddress spec).
Lemma guard_create_port req : bytes_ok req → guards serving (CreateBridgePort dp req) any.
Proof.
  intros Hb. unfold CreateBridgePort. destruct (CreateBp req) as [bp|] eqn:E; [|watch].
  eapply guards_call; [apply guard_getVF| |done]. intros [name pci] Hname. simpl in Hname.
  apply guards_call_any; [apply guard_add_port|intros _].
  destruct (BpSpec bp) as [spec|] eqn:Es; [|watch]. pose proof (plain_mac _ (Hb _ _ E Es)) as Hm.
  eapply guards_bind; [apply guard_server|]. intros n (v & Hv & ->). pose proof (plain_network v.1 NfName (serving_plain _ Hv)) as (Hi & Ho & Hl).
  apply guards_bind_any; [|intros _]. { apply guard_store_network. split; [done|]. split; [done|]. simpl. apply Forall_app. by auto. }
  watch. by apply guard_vf_flows.
Qed.
Lemma guard_delete_vf_flows name : Plain name → guards serving (delete_vf_flows dp name) any.
Proof.
  intros Hname. unfold delete_vf_flows. eapply guards_bind; [apply guard_server|]. intros n (v & Hv & ->).
  pose proof (plain_network v.1 NfName (serving_plain _ Hv)) as (Hi & Ho & Hl). pose proof (plain_vf_mac name _ Hl) as Hm.
  watch; by apply guard_delete_flow.
Qed.
Lemma guard_delete_port_call name : guards serving (DeleteBridgePort dp name) any.
Proof.
  unfold DeleteBridgePort. eapply guards_call; [apply guard_getVF| |done]. intros [n pci] Hname. simpl in Hname. watch.
  - by apply guard_delete_vf_flows.
  - apply guard_modify. intros s [Hd Hk]. split; [done|]. split; [done|]. split; simpl; [done|].
    intros k nf. rewrite lookup_alter_Some. intros [(_ & nf' & ? & ->)|[_ ?]]; [|by eapply Hk].
    destruct (Hk _ _ H) as (? & ? & ?). split; [done|]. split; [done|]. by apply plain_remove_vf.
Qed.
Lemma guard_flows_of_vfs inp out l : Plain inp → Plain out → Forall (λ vf, Plain (vfName vf) ∧ Plain (mac vf)) l →
  guards serving (flows_of_vfs dp inp out l) any.
Proof.
  intros Hi Ho. induction 1 as [|vf l [Hn Hm] Hl IH]; [watch|]. cbn [flows_of_vfs]. watch. by apply guard_vf_flows.
Qed.
Lemma guard_AddNetworkFunction inp out : Plain inp → Plain out → guards serving (AddNetworkFunction dp inp out NfName) any.
Proof.
  intros Hi Ho. unfold AddNetworkFunction. do 2 (apply guards_call_any; [apply guard_add_port|intros _]). eapply guards_bind; [apply guard_server|]. intros l (v & Hv & ->).
  destruct (plain_network v.1 NfName (serving_plain _ Hv)) as (_ & _ & Hl).
  apply guards_bind_any; [by apply guard_store_network|intros _]. apply guards_call_any; [by apply guard_flows_of_vfs|intros _].
  eapply guards_call; [apply guard_rpm| |done]. intros rpm Hr. watch; by apply guard_add_flow.
Qed.
Lemma guard_delete_flows_of inp l : Forall (λ vf, Plain (vfName vf) ∧ Plain (mac vf)) l → guards serving (delete_flows_of dp inp l) any.
Proof. induction 1 as [|vf l [Hn Hm] Hl IH]; [watch|]. cbn [delete_flows_of]. watch. by apply guard_delete_flow. Qed.
Lemma guard_DeleteNetworkFunctionPort inp out : Plain inp → Plain out → guards serving (DeleteNetworkFunctionPort dp inp out NfName) any.
Proof.
  intros Hi Ho. unfold DeleteNetworkFunctionPort. eapply guards_bind; [apply guard_server|]. intros l (v & Hv & ->).
  destruct (plain_network v.1 NfName (serving_plain _ Hv)) as (_ & _ & Hl).
  apply guards_call_any; [by apply guard_delete_flows_of|intros _].
  do 2 (apply guards_call_any; [by apply guard_delete_flow|intros _]).
  eapply guards_call; [apply guard_rpm| |done]. intros rpm Hr. watch. by apply guard_delete_flow.
Qed.
Lemma guard_interface k : guards serving (server (λ s, dpInterfaceName (device s k))) Plain.
Proof. eapply guards_weaken; [apply guard_server|]. intros a (v & Hv & ->). by apply plain_device, serving_plain. Qed.
Lemma guard_set_nf b : guards serving (modify (λ s, s <| isNF := b |>)) any.
Proof. apply guard_modify. intros s [Hd Hk]. split; [done|]. split; [done|]. by split. Qed.
Lemma guard_create_nf i o : guards serving (CreateNetworkFunction dp i o) any.
Proof.
  unfold CreateNetworkFunction. apply guards_bind_any; [apply guard_set_nf|intros _].
  eapply guards_bind; [apply guard_interface|]. intros inp Hi. eapply guards_bind; [apply guard_interface|]. intros out Ho.
  by apply guard_AddNetworkFunction.
Qed.
Lemma guard_delete_nf i o : guards serving (DeleteNetworkFunction dp i o) any.
Proof.
  unfold DeleteNetworkFunction. apply guards_bind_any; [apply guard_set_nf|intros _].
  eapply guards_bind; [apply guard_interface|]. intros inp Hi. eapply guards_bind; [apply guard_interface|]. intros out Ho.
  by apply guard_DeleteNetworkFunctionPort.
Qed.
Lemma guard_SetNumVfs n : guards serving (SetNumVfs n) any.
Proof. unfold SetNumVfs. eapply guards_bind; [apply guard_server|]. intros d (v & Hv & ->). rewrite (serving_dpu _ Hv). watch. Qed.

(** * The server as a transition system

    The calls between one initialization and the next; between calls the machine may
    change, but not the flows of the bridge. *)
Inductive mrvl_op :=
  | OpGetDevices | OpSetNumVfs (n : Z)
  | OpCreateBridgePort (req : CreateBridgePortRequest) | OpDeleteBridgePort (name : string)
  | OpCreateNetworkFunction (input output : string) | OpDeleteNetworkFunction (input output : string).
Definition run_op (op : mrvl_op) : M (mrvlVspServer * W) unit :=
  match op with
  | OpGetDevices => ignore (GetDevices order) | OpSetNumVfs n => ignore (SetNumVfs n)
  | OpCreateBridgePort req => ignore (CreateBridgePort dp req) | OpDeleteBridgePort name => ignore (DeleteBridgePort dp name)
  | OpCreateNetworkFunction i o => ignore (CreateNetworkFunction dp i o)
  | OpDeleteNetworkFunction i o => ignore (DeleteNetworkFunction dp i o)
  end.
Definition op_ok (op : mrvl_op) : Prop := match op with OpCreateBridgePort req => bytes_ok req | _ => True end.
Inductive serves (v : mrvlVspServer * W) : mrvlVspServer * W → Prop :=
  | serves_start : serves v v
  | serves_machine s w w' : serves v (s, w) → flows Bridge w' = flows Bridge w → serves v (s, w')
  | serves_op op v1 v2 : serves v v1 → op_ok op → returns (run_op op) v1 v2 tt → serves v v2.
Lemma guard_op op : op_ok op → guards serving (run_op op) any.
Proof.
  destruct op; intros Hop; apply guards_ignore.
  - unfold GetDevices. watch.
  - apply guard_SetNumVfs.
  - by apply guard_create_port.
  - apply guard_delete_port_call.
  - apply guard_create_nf.
  - apply guard_delete_nf.
Qed.
Lemma serves_serving v v' : serving v → serves v v' → serving v'.
Proof.
  intros Hv. induction 1 as [|s w w' _ [H1 H2 H3 H4] E|op v1 v2 _ IH Hop Hr]; [done| |by eapply guard_op].
  split; simpl in *; by rewrite ?E.
Qed.

(** ** The initialization of the DPU side *)

Definition in_dpu (v : mrvlVspServer * W) : Prop := isDPUMode v.1 = true ∧ names_plain v.1.
Lemma dpu_server {A} (f : mrvlVspServer → A) : guards in_dpu (server f) any.
Proof. by intros v v' a H [-> _]%server_returns. Qed.
Lemma dpu_on_host {A} (f : M W A) : guards in_dpu (on_host f) any.
Proof. intros v v' a H [E _]%on_host_returns. unfold in_dpu. by rewrite E. Qed.
Lemma dpu_modify f : (∀ s, names_plain s → isDPUMode (f s) = isDPUMode s ∧ names_plain (f s)) → guards in_dpu (modify f) any.
Proof. intros Hf v v' a [H1 H2] ->%modify_returns. destruct (Hf _ H2) as [E ?]. split; [|done]. split; simpl; congruence. Qed.
#[local] Hint Resolve dpu_server dpu_on_host : guards.
Lemma dpu_pair i : guards in_dpu (createVethPair i) any.
Proof.
  unfold createVethPair, GetDeviceHealth. watch. unfold store_device.
  intros v v' u [Hd Hp] H. inv_bind H as H1. apply server_returns in H1 as [-> ->]. destruct (deviceStore v.1) as [m|] eqn:E; [|done].
  apply modify_returns in H as ->. split; [|done]. split; [done|]. destruct Hp as [Hs Hn]. split; simpl; [|done].
  intros m' k d [= <-] [[_ <-]|[_ ?]]%lookup_insert_Some; [|by eapply Hs].
  change (Plain ("dp_interface" +:+ itoa (Z.of_nat i))). apply plain_app; [done|]. apply plain_digits, digits_itoa. lia.
Qed.
Lemma dpu_clean : guards in_dpu (CleanVethPairs order) any.
Proof. unfold CleanVethPairs. watch. apply dpu_modify. intros s [Hs Hn]. split; [done|]. by split. Qed.
#[local] Hint Resolve dpu_pair dpu_clean : guards.
Lemma dpu_pairs l : guards in_dpu (create_pairs order l) any.
Proof. induction l as [|i l IH]; cbn [create_pairs]; watch. Qed.
Lemma Init_serving ip v v' : names_plain v.1 → returns (Init dp order true) v v' (Ok ip) → serving v'.
Proof.
  unfold Init. intros [Hs Hn] H. inv_bind H as H1. apply modify_returns in H1 as ->. inv_call H as H1.
  apply on_host_returns in H1 as [E1 _]. inv_call H as H2. inv_ret H. inv_call H2 as H3.
  assert (in_dpu w) as Hw. { split; rewrite E1; [done|]. split; simpl; [|done]. by intros m k d [= <-]; rewrite lookup_empty. }
  assert (in_dpu w1) as [Hd Hp].
  { unfold or_stop in H3. inv_bind H3 as H4. destruct a3; [|inv_bind H3 as H5; inv_ret H3]. inv_ret H3.
    eapply (guards_any in_dpu (ConfigureNetworkInterface order)) in H4 as [? _]; [done| |done]. unfold ConfigureNetworkInterface.
    apply guards_bind_any; [|intros _; apply dpu_pairs]. apply dpu_modify. intros s [??]. split; [done|]. by split. }
  inv_bind H2 as H4. apply modify_returns in H4 as ->. unfold or_stop in H2. inv_bind H2 as H4.
  destruct a4; [|inv_bind H2 as H5; inv_ret H2]. inv_ret H2. apply on_host_returns in H4 as [E2 H4].
  split; rewrite ?E2; simpl; [done|done| |].
  - destruct Hp as [Hs' Hn']. by split.
  - destruct a4. rewrite (promise_Init _ _ _ H4). apply normal_first_init.
Qed.
End Flows.

(** * The rules of a network function *)

Definition vf_rules (inp out : string) (vf : vfInfo) : list (string * string * string) :=
  [(vfName vf, inp, ""); (inp, vfName vf, mac vf); (out, out, mac vf)].
Definition nf_rules (inp out rpm : string) (vfs : list vfInfo) : list (string * string * string) :=
  mjoin (vf_rules inp out <$> vfs) ++ [(out, rpm, ""); (rpm, out, "")].
Definition add_rule (t : flow_table) (r : string * string * string) : flow_table :=
  <[(rule r.1.1 r.1.2 r.2).1 := (rule r.1.1 r.1.2 r.2).2]> t.
(** The flows of other ports. *)
Definition others (srcs : gset string) (t : flow_table) : flow_table := filter (λ ka, in_port ka.1 ∉ srcs) t.

Lemma rule_in_port src dst m : in_port (rule src dst m).1 = src.
Proof. unfold rule. by repeat case_match. Qed.
Lemma others_empty t : others ∅ t = t.
Proof. apply map_filter_id. intros k a _. set_solver. Qed.
Lemma others_removed src srcs t : remove_flows src "" (others srcs t) = others ({[src]} ∪ srcs) t.
Proof.
  unfold remove_flows, others. rewrite map_filter_filter. apply map_filter_ext. intros k a _. simpl. unfold matched_by. simpl.
  rewrite andb_true_r. destruct (String.eqb_spec (in_port k) src); set_solver.
Qed.
Lemma others_add_rules srcs l t : Forall (λ r, r.1.1 ∈ srcs) l → others srcs (foldl add_rule t l) = others srcs t.
Proof.
  intros Hl. revert t. induction Hl as [|r l Hr Hl IH]; intros t; [done|]. cbn [foldl]. rewrite IH. apply map_filter_insert_not.
  intros a. simpl. rewrite rule_in_port. set_solver.
Qed.
Lemma others_gone p srcs t t' : p ∈ srcs → port_gone p (others srcs t) t' → t' = others srcs t.
Proof.
  intros Hp [Hsub Hk]. apply map_eq. intros k. destruct (decide (in_port k = p)) as [E|Hne]; [|apply Hk; by left].
  assert (others srcs t !! k = None) as Hn. { apply map_lookup_filter_None. right. intros a _. simpl. rewrite E. by intros []. }
  rewrite Hn. by eapply lookup_weaken_None.
Qed.

Section Rules.
Context {W : Type} `{!HostOps W, !PlainNames W} (dp : mrvldp W) `{!FlowContract W dp}.
Abbreviation bridged v := (bridgeName v.1 = Bridge).
Abbreviation table v := (flows Bridge v.2).

(** Calls that succeed on the bridge. *)
Lemma add_flow_ok src dst m (v v' : mrvlVspServer * W) : bridged v → Plain src → Plain dst → Plain m →
  returns (add_flow dp src dst m) v v' (Ok tt) → v'.1 = v.1 ∧ table v' = add_rule (table v) (src, dst, m).
Proof.
  intros Hb Hs Hd Hm H. unfold add_flow in H. inv_bind H as H1. apply server_returns in H1 as [-> ->].
  apply on_host_returns in H as [E H]. rewrite Hb in H. split; [done|].
  by destruct (promise_AddFlow _ _ _ _ _ _ _ Hs Hd Hm H) as [[_ Hr]|[? _]].
Qed.
Lemma delete_flow_ok src dst m (v v' : mrvlVspServer * W) : bridged v → Plain src → Plain m →
  returns (delete_flow dp src dst m) v v' (Ok tt) → v'.1 = v.1 ∧ table v' = remove_flows src m (table v).
Proof.
  intros Hb Hs Hm H. unfold delete_flow in H. inv_bind H as H1. apply server_returns in H1 as [-> ->].
  apply on_host_returns in H as [E H]. rewrite Hb in H. split; [done|].
  by destruct (promise_DeleteFlow _ _ _ m _ _ _ Hs Hm H) as [[_ Hr]|[? _]].
Qed.
Lemma delete_flow_server src dst m r (v v' : mrvlVspServer * W) : returns (delete_flow dp src dst m) v v' r → v'.1 = v.1.
Proof. unfold delete_flow. intros H. inv_bind H as H1. apply server_returns in H1 as [-> _]. by apply on_host_returns in H as [-> _]. Qed.
Lemma add_port_ok name pci r (v v' : mrvlVspServer * W) : returns (add_port dp name pci) v v' r → v'.1 = v.1 ∧ table v' = table v.
Proof.
  intros H. unfold add_port in H. inv_bind H as H1. apply server_returns in H1 as [-> ->]. apply on_host_returns in H as [E H].
  split; [done|]. by apply (preserves_returns (flows Bridge)) in H; [|apply promise_AddPort].
Qed.
Lemma delete_port_ok name r (v v' : mrvlVspServer * W) : returns (delete_port dp name) v v' r →
  v'.1 = v.1 ∧ port_gone name (table v) (table v').
Proof.
  intros H. unfold delete_port in H. inv_bind H as H1. apply server_returns in H1 as [-> ->]. apply on_host_returns in H as [E H].
  split; [done|]. by eapply promise_DeletePort.
Qed.
Lemma rpm_ok rpm (v v' : mrvlVspServer * W) : returns (on_host (GetNameByDeviceID DpuRpmDeviceID)) v v' (Ok rpm) →
  v'.1 = v.1 ∧ table v' = table v ∧ Plain rpm ∧ returns (GetNameByDeviceID DpuRpmDeviceID) v.2 v'.2 (Ok rpm).
Proof.
  intros [E H]%on_host_returns. split; [done|]. split; [|split; [|done]].
  - apply (preserves_returns (flows Bridge)) in H; [done|by eapply quiet_GetName].
  - unfold GetNameByDeviceID in H. inv_call H as H1. by eapply plain_GetNameByPCI.
Qed.
Lemma vf_flows_ok inp out name m (v v' : mrvlVspServer * W) : bridged v → Plain inp → Plain out → Plain name → Plain m →
  returns (vf_flows dp inp out name m) v v' (Ok tt) →
  v'.1 = v.1 ∧ table v' = foldl add_rule (table v) (vf_rules inp out (mkVfInfo name m)).
Proof.
  intros Hb Hi Ho Hn Hm H. unfold vf_flows in H. inv_call H as H2. inv_call H as H3. destruct a, a0.
  apply add_flow_ok in H2 as [E2 T2]; [|done..]. apply add_flow_ok in H3 as [E3 T3]; [|congruence|done..].
  apply add_flow_ok in H as [E1 T1]; [|congruence|done..]. split; [congruence|]. by rewrite T1, T3, T2.
Qed.
Lemma flows_of_vfs_ok inp out l (v v' : mrvlVspServer * W) : bridged v → Plain inp → Plain out →
  Forall (λ vf, Plain (vfName vf) ∧ Plain (mac vf)) l → returns (flows_of_vfs dp inp out l) v v' (Ok tt) →
  v'.1 = v.1 ∧ table v' = foldl add_rule (table v) (mjoin (vf_rules inp out <$> l)).
Proof.
  intros Hb Hi Ho Hl. revert v Hb. induction Hl as [|vf l [Hn Hm] Hl IH]; intros v Hb H; [inv_ret H; done|].
  cbn [flows_of_vfs] in H. inv_call H as H1. destruct a. apply vf_flows_ok in H1 as [E1 T1]; [|done..].
  apply IH in H as [E T]; [|congruence]. split; [congruence|]. rewrite T, T1. by destruct vf.
Qed.
Lemma delete_flows_of_ok inp l (v v' : mrvlVspServer * W) srcs t : bridged v → table v = others srcs t →
  Forall (λ vf, Plain (vfName vf) ∧ Plain (mac vf)) l → returns (delete_flows_of dp inp l) v v' (Ok tt) →
  v'.1 = v.1 ∧ table v' = others (list_to_set (vfName <$> l) ∪ srcs) t.
Proof.
  intros Hb Ht Hl. revert v srcs Hb Ht. induction Hl as [|vf l [Hn Hm] Hl IH]; intros v srcs Hb Ht H.
  { inv_ret H. split; [done|]. rewrite Ht. f_equal. set_solver. }
  cbn [delete_flows_of] in H. inv_call H as H1. destruct a. apply delete_flow_ok in H1 as [E1 T1]; [|done..].
  rewrite Ht, others_removed in T1. eapply IH in H as [E T]; [|congruence|exact T1]. split; [congruence|]. rewrite T. f_equal. set_solver.
Qed.
(** The results without a value. *)
Ltac units := repeat match goal with u : unit |- _ => destruct u end.
Definition nf_input (s : mrvlVspServer) (i : string) : string := dpInterfaceName (device s i).
Definition with_nf (inp out : string) (s : mrvlVspServer) : mrvlVspServer :=
  s <| isNF := true |> <| networkStore := <[NfName := mkNf (vfPort (network s NfName)) inp out]> (networkStore s) |>.
Lemma plain_with_nf i o s : names_plain s → names_plain (with_nf (nf_input s i) (nf_input s o) s).
Proof.
  intros Hp. pose proof Hp as [Hs Hn]. split; simpl; [done|].
  intros k n [[<- <-]|[_ ?]]%lookup_insert_Some; [|by eapply Hn]. destruct (plain_network _ NfName Hp) as (_ & _ & ?).
  split; [by apply plain_device|]. by split; [apply plain_device|].
Qed.
Lemma nf_rules_sources inp out rpm l :
  Forall (λ r, r.1.1 ∈ ({[inp; out; rpm]} ∪ list_to_set (vfName <$> l) : gset string)) (nf_rules inp out rpm l).
Proof.
  unfold nf_rules. apply Forall_app. split; [|repeat constructor; set_solver].
  apply list.Forall_forall. intros rl (rs & Hin & (vf & -> & Hvf)%list_elem_of_fmap)%list_elem_of_join.
  apply list_elem_of_In in Hin. destruct Hin as [<-|[<-|[<-|[]]]]; simpl; [|set_solver|set_solver].
  apply elem_of_union_r, elem_of_list_to_set, list_elem_of_fmap. eauto.
Qed.
Lemma create_nf_ok i o (v v' : mrvlVspServer * W) : names_plain v.1 → bridged v →
  returns (CreateNetworkFunction dp i o) v v' (Ok tt) →
  let inp := nf_input v.1 i in let out := nf_input v.1 o in
  ∃ rpm w w', returns (GetNameByDeviceID DpuRpmDeviceID) w w' (Ok rpm) ∧ Plain rpm ∧ v'.1 = with_nf inp out v.1 ∧
    table v' = foldl add_rule (table v) (nf_rules inp out rpm (vfPort (network v.1 NfName))).
Proof.
  intros Hp Hb H inp out. pose proof (plain_device _ i Hp : Plain inp) as Hi. pose proof (plain_device _ o Hp : Plain out) as Ho.
  destruct (plain_network _ NfName Hp) as (_ & _ & Hl).
  unfold CreateNetworkFunction in H. inv_bind H as H1. apply modify_returns in H1 as ->.
  inv_bind H as H1. apply server_returns in H1 as [-> ->]. inv_bind H as H1. apply server_returns in H1 as [-> ->].
  change (dpInterfaceName (device _ i)) with inp in H. change (dpInterfaceName (device _ o)) with out in H.
  unfold AddNetworkFunction in H. inv_call H as H1. apply add_port_ok in H1 as [E1 T1]. inv_call H as H2. apply add_port_ok in H2 as [E2 T2].
  inv_bind H as H3. apply server_returns in H3 as [-> ->]. inv_bind H as H3. apply modify_returns in H3 as ->.
  rewrite T1 in T2. rewrite E1 in E2. clear T1 E1. rewrite E2 in H. simpl in T2.
  change (vfPort (network _ NfName)) with (vfPort (network v.1 NfName)) in H.
  inv_call H as H4. units. apply flows_of_vfs_ok in H4 as [E4 T4]; [|done..]. simpl in E4, T4.
  inv_call H as H5. apply rpm_ok in H5 as (E5 & T5 & Hr & Hrpm). rewrite E4 in E5.
  inv_call H as H6. units. apply add_flow_ok in H6 as [E6 T6]; [|by rewrite E5|done..]. rewrite E5 in E6.
  apply add_flow_ok in H as [E7 T7]; [|by rewrite E6|done..]. rewrite E6 in E7.
  do 3 eexists. split; [exact Hrpm|]. split; [done|]. split; [done|].
  rewrite T7, T6, T5, T4, T2. unfold nf_rules. by rewrite foldl_app.
Qed.
Lemma delete_nf_ok i o srcs t (v v' : mrvlVspServer * W) : names_plain v.1 → bridged v → table v = others srcs t →
  returns (DeleteNetworkFunction dp i o) v v' (Ok tt) →
  let inp := nf_input v.1 i in let out := nf_input v.1 o in
  ∃ rpm w w', returns (GetNameByDeviceID DpuRpmDeviceID) w w' (Ok rpm) ∧ v'.1 = v.1 <| isNF := false |> ∧
    table v' = others ({[inp; out; rpm]} ∪ list_to_set (vfName <$> vfPort (network v.1 NfName)) ∪ srcs) t.
Proof.
  intros Hp Hb Ht H inp out. pose proof (plain_device _ i Hp : Plain inp) as Hi. pose proof (plain_device _ o Hp : Plain out) as Ho.
  destruct (plain_network _ NfName Hp) as (_ & _ & Hl).
  unfold DeleteNetworkFunction in H. inv_bind H as H1. apply modify_returns in H1 as ->.
  inv_bind H as H1. apply server_returns in H1 as [-> ->]. inv_bind H as H1. apply server_returns in H1 as [-> ->].
  change (dpInterfaceName (device _ i)) with inp in H. change (dpInterfaceName (device _ o)) with out in H.
  unfold DeleteNetworkFunctionPort in H. inv_bind H as H1. apply server_returns in H1 as [-> ->].
  change (vfPort (network _ NfName)) with (vfPort (network v.1 NfName)) in H.
  inv_call H as H1. units. eapply delete_flows_of_ok in H1 as [E1 T1]; [|done|exact Ht|done]. simpl in E1.
  inv_call H as H2. units. apply delete_flow_ok in H2 as [E2 T2]; [|by rewrite E1|done..]. rewrite T1, others_removed in T2.
  inv_call H as H3. units. apply delete_flow_ok in H3 as [E3 T3]; [|by rewrite E2, E1|done..]. rewrite T2, others_removed in T3.
  inv_call H as H4. apply rpm_ok in H4 as (E4 & T4 & Hr & Hrpm).
  inv_call H as H5. units. apply delete_flow_ok in H5 as [E5 T5]; [|by rewrite E4, E3, E2, E1|done..].
  rewrite T4, T3, others_removed in T5.
  inv_call H as H6. apply delete_port_ok in H6 as [E6 T6]. rewrite T5 in T6. apply others_gone in T6; [|set_solver].
  apply delete_port_ok in H as [E7 T7]. rewrite T6 in T7. apply others_gone in T7; [|set_solver].
  do 3 eexists. split; [exact Hrpm|]. split; [by rewrite E7, E6, E5, E4, E3, E2, E1|]. rewrite T7. f_equal. set_solver.
Qed.
End Rules.

(** * The host side *)

(** No interface has a colon in its name, and every PCI address has one. *)
Class HostNames (W : Type) `{!HostOps W} := {
  law_link_colon n w : count_char ":" n ≠ 0 → is_ok (h_LinkByName n w).2 = false;
  law_pci_colon w l : (h_PciDevices w).2 = Ok l → Forall (λ d, count_char ":" (pci_Address d) ≠ 0) l }.
Definition all_unhealthy (s : mrvlVspServer) : Prop :=
  portType s ≠ "hwlbk" ∧ ∀ m k d, deviceStore s = Some m → m !! k = Some d → health d = "Unhealthy".
Section Host.
Context {W : Type} `{!HostOps W, !HostNames W}.
Definition unhealthy (v : mrvlVspServer * W) : Prop := all_unhealthy v.1.
Lemma unhealthy_server {A} (f : mrvlVspServer → A) : guards unhealthy (server f) any.
Proof. by intros v v' a H [-> _]%server_returns. Qed.
Lemma unhealthy_on_host {A} (f : M W A) : guards unhealthy (on_host f) any.
Proof. intros v v' a H [E _]%on_host_returns. unfold unhealthy. by rewrite E. Qed.
Lemma unhealthy_clear : guards unhealthy (modify (λ s, s <| deviceStore := Some ∅ |>)) any.
Proof. intros v v' a [H1 H2] ->%modify_returns. split; [|done]. split; [done|]. by intros m k d [= <-]; rewrite lookup_empty. Qed.
#[local] Hint Resolve unhealthy_server unhealthy_on_host unhealthy_clear : guards.
(** The health of a VF is that of an interface named like its address. *)
Lemma vf_health pci : count_char ":" pci ≠ 0 → guards unhealthy (GetDeviceHealth pci) (λ h, h = "Unhealthy").
Proof.
  intros Hc v v' h Hv H. unfold GetDeviceHealth in H. inv_bind H as H1. apply server_returns in H1 as [-> ->].
  destruct (String.eqb (portType v.1) "veth" || _).
  - inv_bind H as H1. apply on_host_returns in H1 as [E H1%acts_run_inv]. pose proof (law_link_colon pci v.2 Hc) as Hl.
    rewrite H1 in Hl. destruct a; [done|]. apply ret_returns in H as [-> ->]. split; [|done]. unfold unhealthy. by rewrite E.
  - apply ret_returns in H as [-> ->]. split; [done|]. destruct Hv as [Hp _]. by destruct (String.eqb_spec (portType v.1) "hwlbk").
Qed.
Lemma unhealthy_store_vfs l : Forall (λ a, count_char ":" a ≠ 0) l → guards unhealthy (store_vfs l) any.
Proof.
  induction 1 as [|a l Ha Hl IH]; cbn [store_vfs]; [watch|]. eapply guards_bind; [by apply vf_health|]. intros h ->.
  apply guards_bind_any; [|done]. intros v v' u [H1 H2] H. unfold store_device in H. inv_bind H as H3.
  apply server_returns in H3 as [-> ->]. destruct (deviceStore v.1) as [m|] eqn:E; [|done]. apply modify_returns in H as ->.
  split; [|done]. split; [done|]. simpl. by intros m' k d [= <-] [[_ <-]|[_ ?]]%lookup_insert_Some; [|eapply H2].
Qed.
Lemma unhealthy_reload : guards unhealthy (reloadVFs : M (_ * W) _) any.
Proof.
  unfold reloadVFs. eapply guards_bind with (P := λ r, match r with VfsFound l => Forall (λ a, count_char ":" a ≠ 0) l | _ => True end).
  - intros v v' r Hv [E H]%on_host_returns. split; [unfold unhealthy; by rewrite E|]. unfold GetAllVfsByDeviceID in H.
    inv_bind H as H1. apply acts_run_inv in H1. pose proof (law_pci_colon v.2) as Hl. rewrite H1 in Hl. apply ret_returns in H as [_ ->].
    destruct a as [l|]; [|done]. specialize (Hl _ eq_refl). destruct (pci_Address <$> _) as [|a0 l0] eqn:El; [done|]. rewrite <-El.
    apply Forall_fmap, list.Forall_forall. intros d [Hd%list_elem_of_In _]%list_elem_of_In%filter_In.
    by apply (proj1 (list.Forall_forall _ _) Hl).
  - intros [l| |] Hl; watch. by apply unhealthy_store_vfs.
Qed.
#[local] Hint Resolve unhealthy_reload : guards.
Lemma unhealthy_set n : guards unhealthy (ignore (SetNumVfs n) : M (_ * W) _) any.
Proof. unfold SetNumVfs. watch. Qed.
Lemma unhealthy_init dp order : guards unhealthy (ignore (Init dp order false) : M (_ * W) _) any.
Proof.
  unfold Init. watch.
  - intros v v' u [H1 H2] ->%modify_returns. split; [|done]. split; [done|]. by intros m k d [= <-]; rewrite lookup_empty.
  - intros v v' u [H1 H2] ->%modify_returns. split; [|done]. by split.
Qed.
End Host.

(** ** The VF behind a bridge port *)

Lemma int64_small z : (- 2 ^ 63 ≤ z < 2 ^ 63)%Z → int64 z = z.
Proof. intros H. unfold int64. rewrite Z.mod_small; lia. Qed.
Lemma span_digits_app d s : all_char is_digit d = true → match s with String c _ => is_digit c = false | "" => True end →
  span_digits (d +:+ s) = (d, s).
Proof.
  intros Hd Hs. induction d as [|c d IH]; simpl in *.
  - destruct s; [done|]. simpl. by rewrite Hs.
  - apply andb_prop in Hd as [-> Hd]. by rewrite IH.
Qed.
Lemma find_host_port pf vf : (0 ≤ pf)%Z → (0 ≤ vf)%Z → find_vf (host_port_name pf vf) = Some (itoa pf, itoa vf).
Proof.
  intros Hp%digits_itoa Hv%digits_itoa. unfold digits in *. apply andb_prop in Hp as [Hp1 Hp2], Hv as [Hv1 Hv2].
  assert (match_here (host_port_name pf vf) = Some (itoa pf, itoa vf)) as E.
  { unfold match_here, host_port_name. rewrite has_prefix_app. change 4 with (String.length "host"). rewrite drop_string_app.
    rewrite span_digits_app by done. cbn [append].
    assert (span_digits (itoa vf) = (itoa vf, "")) as ->.
    { rewrite <-(string_app_nil_r (itoa vf)) at 1. by rewrite span_digits_app. }
    simpl. by rewrite (proj1 (negb_true_iff _) Hp1), (proj1 (negb_true_iff _) Hv1). }
  unfold find_vf. unfold host_port_name in *. cbn [append] in *. by rewrite E.
Qed.

(** * Properties *)

Section Properties.
Context {W : Type} `{!HostOps W}.

(** C29: once the DPU side has been initialized the NORMAL flow decides every packet on the
    bridge: whatever calls follow, those that set up network functions included, no rule of
    a network function ever applies. *)
Theorem nf_flows_shadowed `{!PlainNames W} (dp : mrvldp W) `{!FlowContract W dp} order ip (v0 v v' : mrvlVspServer * W) :
  names_plain v0.1 → returns (Init dp order true) v0 v (Ok ip) → serves dp order v v' →
  ∀ port dst k action, decides (flows Bridge v'.2) port dst k action ↔ k = normal ∧ action = "NORMAL".
Proof.
  intros Hp Hi Hs port dst k a. eapply Init_serving in Hi; [|done]. eapply serves_serving in Hs; [|done]. apply normal_decides, Hs.
Qed.

(** A network function that is created gets exactly its rules: for every VF the way in,
    the way back by its MAC address and the hairpin at the output, and the two ways between
    the output and the interface of the network. *)
Theorem nf_flows_installed `{!PlainNames W} (dp : mrvldp W) `{!FlowContract W dp} i o (v v' : mrvlVspServer * W) :
  names_plain v.1 → bridgeName v.1 = Bridge → returns (CreateNetworkFunction dp i o) v v' (Ok tt) →
  let inp := nf_input v.1 i in let out := nf_input v.1 o in
  ∃ rpm w w', returns (GetNameByDeviceID DpuRpmDeviceID) w w' (Ok rpm) ∧ v'.1 = with_nf inp out v.1 ∧
    flows Bridge v'.2 = foldl add_rule (flows Bridge v.2) (nf_rules inp out rpm (vfPort (network v.1 NfName))).
Proof.
  intros Hp Hb H inp out. destruct (create_nf_ok dp i o v v' Hp Hb H) as (rpm & w & w' & H1 & _ & H2 & H3). by exists rpm, w, w'.
Qed.


(** On the host side every VF is reported as unhealthy, after the initialization and
    after every change of the number of VFs: its health is looked up under its PCI address,
    which is the name of no interface. *)
Theorem host_devices_unhealthy `{!HostNames W} dp order ip n (v v1 v2 v3 : mrvlVspServer * W) devices :
  portType v.1 ≠ "hwlbk" → (∀ m d, d ∈ order m → ∃ k, m !! k = Some d) →
  returns (Init dp order false) v v1 (Ok ip) → returns (ignore (SetNumVfs n)) v1 v2 tt → returns (GetDevices order) v2 v3 (Ok devices) →
  ∀ id d, devices !! id = Some d → PbHealth d = "Unhealthy".
Proof.
  intros Hp Ho Hi Hs Hg. change (returns (Init dp order false) (v.1 <| deviceStore := Some ∅ |>, v.2) v1 (Ok ip)) in Hi.
  assert (unhealthy v1) as H1.
  { refine (proj1 (unhealthy_init dp order _ _ tt _ (proj2 (ignore_returns _ _ _ tt) (ex_intro _ _ Hi)))).
    split; simpl; [done|]. by intros m k d [= <-]; rewrite lookup_empty. }
  destruct (unhealthy_set n _ _ _ H1 Hs) as [[_ H2] _].
  unfold GetDevices in Hg. inv_bind Hg as H3. apply server_returns in H3 as [-> ->]. inv_bind Hg as H3. apply server_returns in H3 as [-> ->].
  destruct (deviceStore v2.1) as [m|] eqn:E; [|inv_ret Hg]. apply ret_returns in Hg as [_ [= ->]].
  intros id d Hd%elem_of_list_to_map_2. apply elem_of_reverse, list_elem_of_fmap in Hd as (x & [= -> ->] & Hx).
  destruct (Ho _ _ Hx) as [k Hk]. by eapply H2.
Qed.

(** C31: a bridge port named by the host stands for the VF after it in the list of the
    DPU's devices, whatever its PF; a VF past the list is an error, and the largest VF
    number wraps around and ends the process. *)
Theorem mapped_vf pf vf w w1 devices : (0 ≤ pf < 2 ^ 63)%Z → (0 ≤ vf < 2 ^ 63)%Z →
  h_PciDevices w = (w1, Ok devices) →
  let vfs := pci_Address <$> List.filter (has_id MrvlDPUSDPPFId) devices in
  getVFDetails (host_port_name pf vf) w =
    if (vf =? 2 ^ 63 - 1)%Z then (w1, Panic) else
    match vfs !! Z.to_nat (vf + 1) with
    | None => (w1, Ret (Err (Text "mapped VF out of bounds")))
    | Some a =>
        let a := hd "" (split_char " " a) in
        if String.eqb a "" then (w1, Ret (Err (Text "mapped VF not found"))) else
        (call name := GetNameByPCI a or (λ e, e) in mret (Ok (name, a))) w1
    end.
Proof.
  intros Hpf Hvf Hd vfs. unfold getVFDetails. rewrite find_host_port by lia. rewrite !Atoi_itoa by lia.
  assert (Mapped_VF NumPFs PFID (int64 (vf + 1)) w = if (vf =? 2 ^ 63 - 1)%Z then (w1, Panic) else
    match vfs !! Z.to_nat (vf + 1) with
    | None => (w1, Ret (Err (Text "mapped VF out of bounds")))
    | Some a => (w1, Ret (Ok (hd "" (split_char " " a)))) end) as E.
  { unfold Mapped_VF. rewrite (call_run _ _ _ _ _ _ (acts_run _ _ _ _ Hd)). fold vfs.
    assert (int64 (int64 (NumPFs * int64 (vf + 1)) + PFID) = if (vf =? 2 ^ 63 - 1)%Z then (- 2 ^ 63)%Z else (vf + 1)%Z) as ->.
    { unfold NumPFs, PFID. rewrite Z.mul_1_l, Z.add_0_r. destruct (Z.eqb_spec vf (2 ^ 63 - 1)) as [->|Hne]; [done|].
      by rewrite !(int64_small (vf + 1)) by lia. }
    destruct (Z.eqb_spec vf (2 ^ 63 - 1)) as [->|Hne].
    - destruct (_ >? _)%Z eqn:Eg; [apply Z.gtb_lt in Eg; pose proof (Nat2Z.is_nonneg (length vfs)); lia|done].
    - destruct (Z.gtb_spec (vf + 1) (Z.of_nat (length vfs) - 1)) as [Eg|Eg].
      + rewrite lookup_ge_None_2 by lia. done.
      + destruct (Z.ltb_spec (vf + 1) 0); [lia|]. destruct (vfs !! Z.to_nat (vf + 1)) eqn:El; [done|].
        apply lookup_ge_None in El. lia. }
  unfold try_bind at 1. unfold mbind at 1, M_bind at 1. rewrite E. destruct (vf =? 2 ^ 63 - 1)%Z; [done|].
  destruct (vfs !! Z.to_nat (vf + 1)) as [a|]; [|done]. by destruct (String.eqb (hd "" (split_char " " a)) "").
Qed.
End Properties.

(** * Two machines *)

Module MarvellDemo.
Import HostDemo OvsDemo.
(** The state after a call, once the result is known. *)
#[export] Instance host_plain : PlainNames host.
Proof.
  split. intros p w. simpl. destruct (m_net w.1 !! p) as [l|]; simpl; [|done].
  apply list.Forall_forall. by intros n [_ ?]%list_elem_of_In%filter_In.
Qed.
#[export] Instance host_names : HostNames host.
Proof.
  split; simpl.
  - intros n w Hn. unfold lift. destruct (Nat.eqb_spec (count_char ":" n) 0) as [E|]; [by destruct Hn|done].
  - intros w l. unfold lift. simpl. intros [= <-]. apply list.Forall_forall.
    intros d [_ ?%negb_true_iff%Nat.eqb_neq]%list_elem_of_In%filter_In. done.
Qed.
Definition pci (address id : string) : PCIDevice := mkPCI address MrvlVendorID "Cavium, Inc." id "" "".
Definition net_of (address : string) : string := "/sys/bus/pci/devices/" +:+ address +:+ "/net".
Definition on_machine (devices : list PCIDevice) (names : list (string * string)) : host :=
  (mkMachine 0 ∅ ∅ ∅ ∅ devices (list_to_map ((λ '(a, n), (net_of a, [n])) <$> names)), ∅).
Definition all_devices (m : gmap string mrvlDeviceInfo) : list mrvlDeviceInfo := (map_to_list m).*2.
Definition dp : mrvldp host := OvsDP.
Abbreviation V := (mrvlVspServer * host)%type.

(** The DPU: a port, a network function and its removal. *)
Definition dpu : host := on_machine
  [pci "0002:0f:00.0" "a0f7"; pci "0002:0f:00.2" "a0f7"; pci "0002:02:00.0" "a063"]
  [("0002:0f:00.0", "sdp0"); ("0002:0f:00.2", "sdp0v0"); ("0002:02:00.0", "rpm0")].
Definition started : V := (NewMarvellVspServer, dpu).
Definition initialized : V := (Init dp all_devices true started).1.
Definition port : CreateBridgePortRequest := host_port_request 0 0 [2; 0; 0; 0; 0; 9]%Z.
Definition plugged : V := (CreateBridgePort dp port initialized).1.
Definition nf_in : string := "02:00:00:00:00:00".
Definition nf_out : string := "02:00:00:00:00:02".
Definition with_function : V := (CreateNetworkFunction dp nf_in nf_out plugged).1.
Definition without_function : V := (DeleteNetworkFunction dp nf_in nf_out with_function).1.
Lemma dpu_init_ran : Init dp all_devices true started = (initialized, Ret (Ok ("[fe80::1%sdp0]", 8085%Z))).
Proof. unfold initialized. apply (ran (Init dp all_devices true)). vm_compute. reflexivity. Qed.
Definition new_port : OpiBridgePort :=
  {| BpName := "bridge_port/host0-0"; BpSpec := match CreateBp port with Some bp => BpSpec bp | None => None end |}.
Lemma port_ran : CreateBridgePort dp port initialized = (plugged, Ret (Ok new_port)).
Proof. unfold plugged. apply (ran (CreateBridgePort dp port)). vm_compute. reflexivity. Qed.
Lemma function_created : CreateNetworkFunction dp nf_in nf_out plugged = (with_function, Ret (Ok tt)).
Proof. unfold with_function. apply (ran (CreateNetworkFunction dp nf_in nf_out)). vm_compute. reflexivity. Qed.
Lemma function_deleted : DeleteNetworkFunction dp nf_in nf_out with_function = (without_function, Ret (Ok tt)).
Proof. unfold without_function. apply (ran (DeleteNetworkFunction dp nf_in nf_out)). vm_compute. reflexivity. Qed.
Lemma port_bytes : bytes_ok port.
Proof. intros bp spec [= <-] [= <-]. by repeat constructor. Qed.
Lemma function_served : serves dp all_devices initialized with_function.
Proof.
  eapply (serves_op _ _ _ (OpCreateNetworkFunction nf_in nf_out)); [|done|by eapply ignore_returns; eexists; exact function_created].
  eapply (serves_op _ _ _ (OpCreateBridgePort port)); [apply serves_start|exact port_bytes|by eapply ignore_returns; eexists; exact port_ran].
Qed.
Lemma plugged_plain : names_plain plugged.1.
Proof.
  apply (serving_plain dp), (serves_serving dp all_devices initialized).
  - exact (Init_serving dp all_devices _ started _ plain_new dpu_init_ran).
  - eapply (serves_op _ _ _ (OpCreateBridgePort port)); [apply serves_start|exact port_bytes|by eapply ignore_returns; eexists; exact port_ran].
Qed.
Lemma plugged_bridge : bridgeName plugged.1 = Bridge.
Proof. vm_compute. reflexivity. Qed.
(** The way in is there, below the NORMAL flow. *)
Example way_in : table Bridge with_function.2 !! mkFlow 10 "sdp0v0" "" = Some "output:dp_interface0".
Proof. vm_compute. reflexivity. Qed.

(** The host: two VFs. *)
Definition hostside : host := on_machine
  [pci "0000:01:00.0" "b900"; pci "0000:01:00.3" "b903"; pci "0000:01:00.4" "b903"] [("0000:01:00.0", "octeon0")].
Definition host_started : V := (NewMarvellVspServer, hostside).
Definition host_initialized : V := (Init dp all_devices false host_started).1.
Definition host_vfs : V := (SetNumVfs 2 host_initialized).1.
Lemma host_init_ran : Init dp all_devices false host_started = (host_initialized, Ret (Ok ("[fe80::1%25octeon0]", 8085%Z))).
Proof. unfold host_initialized. apply (ran (Init dp all_devices false)). vm_compute. reflexivity. Qed.
Lemma host_vfs_ran : SetNumVfs 2 host_initialized = (host_vfs, Ret (Ok 2%Z)).
Proof. unfold host_vfs. apply (ran (SetNumVfs 2)). vm_compute. reflexivity. Qed.
Definition reported : DeviceListResponse := match (GetDevices all_devices host_vfs).2 with Ret (Ok l) => l | _ => ∅ end.
Lemma devices_ran : GetDevices all_devices host_vfs = (host_vfs, Ret (Ok reported)).
Proof. unfold host_vfs. apply (ran (GetDevices all_devices)). vm_compute. reflexivity. Qed.
Definition vf3 : PbDevice := default {| PbID := ""; PbHealth := ""; PbNode := "" |} (reported !! "0000:01:00.3").
Lemma vf3_reported : reported !! "0000:01:00.3" = Some vf3.
Proof. vm_compute. reflexivity. Qed.
Lemma all_devices_in m d : d ∈ all_devices m → ∃ k, m !! k = Some d.
Proof. intros ([k d'] & -> & H%elem_of_map_to_list)%list_elem_of_fmap. by exists k. Qed.
End MarvellDemo.
Import HostDemo OvsDemo MarvellDemo.

Lemma nf_flows_shadowed_witness :
  decides (flows Bridge with_function.2) "sdp0v0" "02:00:00:00:00:07" normal "NORMAL" ∧
  ¬ decides (flows Bridge with_function.2) "sdp0v0" "02:00:00:00:00:07" (mkFlow 10 "sdp0v0" "") "output:dp_interface0".
Proof.
  pose proof (nf_flows_shadowed dp all_devices _ started initialized with_function plain_new dpu_init_ran function_served
    "sdp0v0" "02:00:00:00:00:07") as H. split; [by apply H|]. intros Hd. by apply H in Hd as [? _].
Defined.
Lemma nf_flows_installed_witness : ∃ rpm w w', returns (GetNameByDeviceID DpuRpmDeviceID) w w' (Ok rpm) ∧
  with_function.1 = with_nf (nf_input plugged.1 nf_in) (nf_input plugged.1 nf_out) plugged.1 ∧
  flows Bridge with_function.2 = foldl add_rule (flows Bridge plugged.2)
    (nf_rules (nf_input plugged.1 nf_in) (nf_input plugged.1 nf_out) rpm (vfPort (network plugged.1 NfName))).
Proof. exact (nf_flows_installed dp nf_in nf_out plugged with_function plugged_plain plugged_bridge function_created). Defined.
Lemma host_devices_unhealthy_witness : PbHealth vf3 = "Unhealthy".
Proof.
  exact (host_devices_unhealthy dp all_devices _ 2 host_started host_initialized host_vfs host_vfs reported ltac:(discriminate)
    all_devices_in host_init_ran (proj2 (ignore_returns _ _ _ tt) (ex_intro _ _ host_vfs_ran)) devices_ran _ vf3 vf3_reported).
Defined.
Lemma mapped_vf_witness : getVFDetails (host_port_name 3 (2 ^ 63 - 1)) dpu = (dpu, Panic).
Proof. exact (mapped_vf 3 (2 ^ 63 - 1) dpu dpu _ ltac:(lia) ltac:(lia) eq_refl). Defined.
