(* ===== verification/Serve.v ===== *)
(** How servers are run and stopped: the goroutines behind [Serve] of the side managers
    (internal/daemon/{hostsidemanager,dpusidemanager}.go) and of the mock process
    (vendor-specific-plugins/mock-vsp/mockvsp.go), and behind [Serve] and [Stop] of the
    vendor-specific processes (intel-netsec/main.go, word for word in marvell/main.go).

    A goroutine runs a server, sends its result to the channel [done] and counts down the
    wait group; the main goroutine waits for a result or for the context, then for the
    wait group, and counts down [startedWg], which panics below zero.  The steps of the
    goroutines interleave. *)
From S2P Require Import Prelude Plugin.
#[local] Open Scope stdpp_scope.

(** A goroutine: its server runs, its result waits to be sent, has been sent, and the wait
    group is counted down. *)
Inductive phase := Running | Sending (r : result unit) | Sent | Ended.
Inductive main_phase := Selecting | Waiting (r : result unit) | Returned (r : result unit) | Panicked.
#[export] Instance phase_eq_dec : EqDecision phase.
Proof. solve_decision. Defined.
Definition context_error : result unit := Err (Text "context canceled").
(** [startedWg.Done()], then [return r]. *)
Definition count_down (started : Z) (r : result unit) : main_phase := if (started <? 1)%Z then Panicked else Returned r.

(** * Groups that stop with a context *)

(** What the goroutine that waits for the context does next: stop a server, wait until it
    has stopped, or something that does not concern the servers. *)
Inductive action := StopServer (i : nat) | WaitServer (i : nat) | Other.
Record group := { g_size : nat; g_cap : nat; g_context : list nat; g_actions : list action }.

(** CNI server, device plugin, controller manager, pings; the last two watch the context.
    [stopRequested], for which an error would be dropped, is never set. *)
Definition host_group : group := {| g_size := 4; g_cap := 4; g_context := [2; 3];
  g_actions := [StopServer 0; StopServer 1; WaitServer 1; Other; Other; Other] |}.
(** OPI server, device plugin, CNI server, controller manager. *)
Definition dpu_group : group := {| g_size := 4; g_cap := 4; g_context := [3];
  g_actions := [StopServer 0; StopServer 1; WaitServer 1; Other; StopServer 2; WaitServer 2; Other] |}.
Definition mock_group : group := {| g_size := 1; g_cap := 1; g_context := []; g_actions := [StopServer 0; Other] |}.

Record serving := mkServing {
  cancelled : bool; todo : list action; stopped : list nat; threads : list phase; done : list (result unit);
  main : main_phase; started : Z }.
#[export] Instance serving_eta : Eta serving := λ s,
  mkServing (cancelled s) (todo s) (stopped s) (threads s) (done s) (main s) (started s).
Definition start (g : group) : serving := mkServing false (g_actions g) [] (replicate (g_size g) Running) [] Selecting 1.

Inductive sys_step (g : group) (s : serving) : serving → Prop :=
  | act_stop i l : cancelled s = true → todo s = StopServer i :: l → sys_step g s (s <| todo := l |> <| stopped := i :: stopped s |>)
  | act_wait i l : cancelled s = true → todo s = WaitServer i :: l → threads s !! i ≠ Some Running → sys_step g s (s <| todo := l |>)
  | act_other l : cancelled s = true → todo s = Other :: l → sys_step g s (s <| todo := l |>)
  | server_stops i r : threads s !! i = Some Running → i ∈ stopped s ∨ cancelled s = true ∧ i ∈ g_context g →
      sys_step g s (s <| threads := <[i := Sending r]> (threads s) |>)
  | send i r : threads s !! i = Some (Sending r) → length (done s) < g_cap g →
      sys_step g s (s <| threads := <[i := Sent]> (threads s) |> <| done := done s ++ [r] |>)
  | count i : threads s !! i = Some Sent → sys_step g s (s <| threads := <[i := Ended]> (threads s) |>)
  | receive r l : main s = Selecting → done s = r :: l → sys_step g s (s <| main := Waiting r |> <| done := l |>)
  | see_context : main s = Selecting → cancelled s = true → sys_step g s (s <| main := Waiting context_error |>)
  | finish r : main s = Waiting r → Forall (λ p, p = Ended) (threads s) →
      sys_step g s (s <| main := count_down (started s) r |> <| started := (started s - 1)%Z |>).
(** What comes from outside: the context is cancelled, or a server returns by itself. *)
Inductive env_step (s : serving) : serving → Prop :=
  | cancel : env_step s (s <| cancelled := true |>)
  | server_fails i r : threads s !! i = Some Running → env_step s (s <| threads := <[i := Sending r]> (threads s) |>).
Definition any_step (g : group) (s s' : serving) : Prop := sys_step g s s' ∨ env_step s s'.
Definition reachable (g : group) (s : serving) : Prop := rtc (any_step g) (start g) s.

(** Every server is stopped by an action or watches the context, a server is waited for
    only after it was stopped, and the channel has room for all results. *)
Fixpoint waits_ok (stopped : list nat) (l : list action) : bool :=
  match l with
  | [] => true
  | StopServer i :: l => waits_ok (i :: stopped) l
  | WaitServer i :: l => bool_decide (i ∈ stopped) && waits_ok stopped l
  | Other :: l => waits_ok stopped l
  end.
#[export] Instance action_eq_dec : EqDecision action.
Proof. solve_decision. Defined.
Definition covered (context stopped : list nat) (l : list action) (i : nat) : Prop := i ∈ context ∨ i ∈ stopped ∨ StopServer i ∈ l.
#[export] Instance covered_dec context stopped l i : Decision (covered context stopped l i).
Proof. unfold covered. apply _. Defined.
Definition group_ok (g : group) : bool :=
  (g_size g <=? g_cap g)%nat && waits_ok [] (g_actions g) && forallb (λ i, bool_decide (covered (g_context g) [] (g_actions g) i)) (seq 0 (g_size g)).
Example groups_ok : forallb group_ok [host_group; dpu_group; mock_group] = true.
Proof. reflexivity. Qed.

(** ** Every run of the system is finite *)

Definition phase_weight (p : phase) : nat := match p with Running => 3 | Sending _ => 2 | Sent => 1 | Ended => 0 end.
Definition main_weight (m : main_phase) : nat := match m with Selecting => 2 | Waiting _ => 1 | _ => 0 end.
Definition weight (s : serving) : nat := sum_list_with phase_weight (threads s) + length (todo s) + main_weight (main s).
Lemma sys_step_weight g s s' : sys_step g s s' → weight s' < weight s.
Proof.
  unfold weight. destruct 1 as [i l _ E|i l _ E|l _ E|i r E _|i r E _|i E|r l E _|E _|r E _]; simpl; try (rewrite E; simpl; lia).
  - pose proof (sum_list_insert phase_weight _ _ _ (Sending r) E). simpl in *. lia.
  - pose proof (sum_list_insert phase_weight _ _ _ Sent E). simpl in *. lia.
  - pose proof (sum_list_insert phase_weight _ _ _ Ended E). simpl in *. lia.
  - rewrite E. unfold count_down. case_match; simpl; lia.
Qed.
Lemma sys_step_sn g s : sn (sys_step g) s.
Proof. apply (sn_invariant _ (λ _, True) weight); [|done]. intros a b _ H. split; [done|]. by apply (sys_step_weight g). Qed.

(** ** What every state satisfies *)

Definition results (l : list phase) : nat := length (filter (λ p, p = Sent ∨ p = Ended) l).
Record serving_ok (g : group) (s : serving) : Prop := {
  ok_size : length (threads s) = g_size g;
  ok_done : (length (done s) ≤ results (threads s))%nat;
  ok_waits : waits_ok (stopped s) (todo s) = true;
  ok_covered i : i < g_size g → covered (g_context g) (stopped s) (todo s) i;
  ok_started : main_weight (main s) ≠ 0 → started s = 1%Z;
  ok_main : main s ≠ Panicked;
  ok_returned r : main s = Returned r → Forall (λ p, p = Ended) (threads s) }.
Lemma results_insert l i p q : l !! i = Some p → (p = Running ∨ ∃ r, p = Sending r) →
  results (<[i := q]> l) = results l + (if decide (q = Sent ∨ q = Ended) then 1 else 0).
Proof.
  unfold results. revert i. induction l as [|x l IH]; intros i Hi Hp; [done|]. destruct i as [|i]; simpl in *.
  - injection Hi as ->. rewrite !filter_cons. rewrite (decide_False (P := p = Sent ∨ p = Ended)) by naive_solver.
    destruct (decide _); simpl; lia.
  - rewrite !filter_cons. specialize (IH _ Hi Hp). destruct (decide (x = Sent ∨ x = Ended)); simpl; lia.
Qed.
Lemma results_count l i : l !! i = Some Sent → results (<[i := Ended]> l) = results l.
Proof.
  unfold results. revert i. induction l as [|x l IH]; intros i Hi; [done|]. destruct i as [|i]; simpl in *.
  - injection Hi as ->. by rewrite !filter_cons, !decide_True by auto.
  - rewrite !filter_cons. specialize (IH _ Hi). destruct (decide (x = Sent ∨ x = Ended)); simpl; lia.
Qed.
Lemma results_bound l i r : l !! i = Some (Sending r) → results l < length l.
Proof.
  unfold results. revert i. induction l as [|x l IH]; intros i Hi; [done|]. rewrite filter_cons. destruct i as [|i]; simpl in *.
  - injection Hi as ->. rewrite decide_False by naive_solver. pose proof (length_filter (λ p, p = Sent ∨ p = Ended) l). lia.
  - specialize (IH _ Hi). destruct (decide _); simpl; lia.
Qed.
Lemma start_ok g : group_ok g = true → serving_ok g (start g).
Proof.
  unfold group_ok. intros [[_ Hw]%andb_prop Hc]%andb_prop. split; simpl; try done.
  - apply length_replicate.
  - lia.
  - intros i Hi. rewrite forallb_forall in Hc. apply (proj1 (bool_decide_eq_true (covered _ _ _ i))), Hc, in_seq. lia.
Qed.
Lemma thread_bound g s i p : serving_ok g s → threads s !! i = Some p → i < g_size g.
Proof. intros Hok H%lookup_lt_Some. by rewrite (ok_size _ _ Hok) in H. Qed.
(** Not all goroutines have ended while one is before its end. *)
Lemma not_ended l i p : l !! i = Some p → p ≠ Ended → ¬ Forall (λ p, p = Ended) l.
Proof. intros Hi Hp HF. by apply Hp, (Forall_lookup_1 _ _ _ _ HF Hi). Qed.
Lemma step_returned g s i p q : serving_ok g s → threads s !! i = Some p → p ≠ Ended →
  ∀ r, main s = Returned r → Forall (λ p, p = Ended) (<[i := q]> (threads s)).
Proof. intros Hok Hi Hp r Hr. destruct (not_ended _ _ _ Hi Hp). by eapply ok_returned. Qed.
Lemma sending_ok g s i r : serving_ok g s → threads s !! i = Some Running → serving_ok g (s <| threads := <[i := Sending r]> (threads s) |>).
Proof.
  intros Hok Hi. pose proof (step_returned g s i _ (Sending r) Hok Hi ltac:(done)) as Hret. destruct Hok. split; simpl; try done.
  - by rewrite length_insert.
  - rewrite (results_insert _ _ _ _ Hi) by auto. lia.
Qed.
Lemma sys_step_ok g s s' : serving_ok g s → sys_step g s s' → serving_ok g s'.
Proof.
  intros Hok. destruct 1 as [i l _ E|i l _ E Hi|l _ E|i r E _|i r E _|i E|r l E Ed|E _|r E HF].
  4: by apply sending_ok.
  1-3: destruct Hok; rewrite E in *; split; simpl in *; try done.
  - intros j Hj. destruct (ok_covered0 j Hj) as [?|[?|[[= ->]|?]%elem_of_cons]]; [by left|right; left; by right|right; left; by left|by right; right].
  - by apply andb_prop in ok_waits0 as [_ ?].
  - intros j Hj. destruct (ok_covered0 j Hj) as [?|[?|[[=]|?]%elem_of_cons]]; [by left|by right; left|by right; right].
  - intros j Hj. destruct (ok_covered0 j Hj) as [?|[?|[[=]|?]%elem_of_cons]]; [by left|by right; left|by right; right].
  - pose proof (step_returned g s i _ Sent Hok E ltac:(done)) as Hret. destruct Hok. split; simpl; try done.
    + by rewrite length_insert.
    + rewrite (results_insert _ _ _ _ E) by eauto. rewrite length_app. simpl. lia.
  - pose proof (step_returned g s i _ Ended Hok E ltac:(done)) as Hret. destruct Hok. split; simpl; try done.
    + by rewrite length_insert.
    + by rewrite results_count.
  - destruct Hok. split; simpl in *; try done.
    + rewrite Ed in ok_done0. simpl in *. lia.
    + intros _. apply ok_started0. by rewrite E.
  - destruct Hok. split; simpl in *; try done. intros _. apply ok_started0. by rewrite E.
  - destruct Hok. rewrite E in *. rewrite (ok_started0 ltac:(done)). split; simpl in *; done.
Qed.
Lemma reachable_ok g s : group_ok g = true → reachable g s → serving_ok g s.
Proof.
  intros Hg. apply (rtc_ind_r (serving_ok g) (start g)); [by apply start_ok|]. intros s1 s2 _ [Hs|He] Hok.
  - by eapply sys_step_ok.
  - destruct He as [|i r Hi]; [|by apply sending_ok]. destruct Hok. by split.
Qed.
Lemma cancelled_step g s s' : sys_step g s s' → cancelled s' = cancelled s.
Proof. by destruct 1. Qed.

(** Where no step is left after the context was cancelled, [Serve] has returned. *)
Lemma stuck_returned g s : group_ok g = true → serving_ok g s → cancelled s = true → nf (sys_step g) s → ∃ r, main s = Returned r.
Proof.
  unfold group_ok. intros [[Hcap%Nat.leb_le _]%andb_prop _]%andb_prop Hok Hc Hnf.
  assert (∀ s', ¬ sys_step g s s') as Hno by (intros s' Hs; apply Hnf; by eexists). clear Hnf.
  assert (todo s = []) as Ht.
  { pose proof (ok_waits _ _ Hok) as Hw. destruct (todo s) as [|[i|i|] l] eqn:E; [done|..].
    - by destruct (Hno _ (act_stop _ _ _ _ Hc E)).
    - apply andb_prop in Hw as [Hi%bool_decide_eq_true _]. destruct (decide (threads s !! i = Some Running)) as [Hr|Hr].
      + by destruct (Hno _ (server_stops g s i (Ok tt) Hr (or_introl Hi))).
      + by destruct (Hno _ (act_wait _ _ _ _ Hc E Hr)).
    - by destruct (Hno _ (act_other _ _ _ Hc E)). }
  assert (Forall (λ p, p = Ended) (threads s)) as HF.
  { apply Forall_lookup. intros i p Hi. pose proof (thread_bound _ _ _ _ Hok Hi) as Hb. destruct p as [|r| |]; [..|done].
    - destruct (ok_covered _ _ Hok i Hb) as [Hx|[Hx|Hx]].
      + by destruct (Hno _ (server_stops g s i (Ok tt) Hi (or_intror (conj Hc Hx)))).
      + by destruct (Hno _ (server_stops g s i (Ok tt) Hi (or_introl Hx))).
      + rewrite Ht in Hx. by apply elem_of_nil in Hx.
    - pose proof (results_bound _ _ _ Hi). pose proof (ok_done _ _ Hok). pose proof (ok_size _ _ Hok).
      by destruct (Hno _ (send g s i r Hi ltac:(lia))).
    - by destruct (Hno _ (count g s i Hi)). }
  destruct (main s) as [|r|r|] eqn:E.
  - by destruct (Hno _ (see_context g s E Hc)).
  - by destruct (Hno _ (finish g s r E HF)).
  - by exists r.
  - by destruct (ok_main _ _ Hok E).
Qed.

(** * The vendor-specific processes

    The channel has no room: a send meets the receiver.  [Stop] stops the gRPC server,
    sends nil to [done] and waits for [startedWg], which nothing ever counts up. *)
Inductive stop_phase := StopSending | StopWaiting | StopDone.
Record vsp_state := mkVsp { grpc_stopped : bool; srv : phase; vmain : main_phase; stops : list stop_phase; vstarted : Z }.
#[export] Instance vsp_eta : Eta vsp_state := λ s, mkVsp (grpc_stopped s) (srv s) (vmain s) (stops s) (vstarted s).
Definition vsp_start : vsp_state := mkVsp false Running Selecting [] 0.
Inductive vsp_step (s : vsp_state) : vsp_state → Prop :=
  | vsp_fails r : srv s = Running → vsp_step s (s <| srv := Sending r |>)
  | stop_called : vsp_step s (s <| grpc_stopped := true |> <| stops := stops s ++ [StopSending] |>)
  | vsp_receive r : srv s = Sending r → vmain s = Selecting → vsp_step s (s <| srv := Sent |> <| vmain := Waiting r |> <| grpc_stopped := true |>)
  | vsp_count : srv s = Sent → vsp_step s (s <| srv := Ended |>)
  | stop_sends i : stops s !! i = Some StopSending → vmain s = Selecting →
      vsp_step s (s <| stops := <[i := StopWaiting]> (stops s) |> <| vmain := Waiting (Ok tt) |> <| grpc_stopped := true |>)
  | stop_returns i : stops s !! i = Some StopWaiting → vstarted s = 0%Z → vsp_step s (s <| stops := <[i := StopDone]> (stops s) |>)
  | vsp_finish r : vmain s = Waiting r → srv s = Ended →
      vsp_step s (s <| vmain := count_down (vstarted s) r |> <| vstarted := (vstarted s - 1)%Z |>).
(** The message of a [Stop] was the one received. *)
Definition stopped_by_call (s : vsp_state) : Prop := ∃ i p, stops s !! i = Some p ∧ p ≠ StopSending.
Definition vsp_ok (s : vsp_state) : Prop :=
  (vmain s ≠ Panicked → vstarted s = 0%Z) ∧ (∀ r, vmain s ≠ Returned r) ∧ (vmain s = Selecting → srv s ≠ Sent ∧ srv s ≠ Ended) ∧
  (stopped_by_call s → vmain s = Waiting (Ok tt) ∧ srv s ≠ Sent ∧ srv s ≠ Ended) ∧
  (vmain s = Selecting → ¬ stopped_by_call s).
Lemma vsp_start_ok : vsp_ok vsp_start.
Proof. assert (¬ stopped_by_call vsp_start) as Hn by (by intros (i & p & Hi & _)). unfold vsp_ok. simpl. naive_solver. Qed.
Lemma called_insert s i p q : stops s !! i = Some p → p ≠ StopSending → stopped_by_call (s <| stops := <[i := q]> (stops s) |>) → stopped_by_call s.
Proof. intros Hi Hp _. by exists i, p. Qed.
Lemma called_app s : stopped_by_call (s <| grpc_stopped := true |> <| stops := stops s ++ [StopSending] |>) → stopped_by_call s.
Proof.
  intros (i & p & Hi & Hp). simpl in Hi. apply lookup_app_Some in Hi as [Hi|[_ Hi]]; [by exists i, p|].
  apply list_lookup_singleton_Some in Hi as [_ <-]. done.
Qed.
Lemma vsp_step_ok s s' : vsp_ok s → vsp_step s s' → vsp_ok s'.
Proof.
  intros (Hz & Hr & Hsel & Hcall & Hno). destruct 1 as [r E| |r E Em|E|i E Em|i E _|r E Ee]; unfold vsp_ok; simpl.
  - split; [done|]. split; [done|]. split; [done|]. split; [|done]. intros Hc. split; [by apply Hcall|done].
  - split; [done|]. split; [done|]. split; [done|]. split; [intros Hc%called_app; by apply Hcall|]. intros Hm Hc%called_app. by apply Hno.
  - split; [intros _; apply Hz; by rewrite Em|]. split; [done|]. split; [done|]. split; [|done]. intros Hc. by destruct (Hno Em).
  - split; [done|]. split; [done|]. split; [intros Hm; by destruct (Hsel Hm)|]. split; [|done]. intros Hc. by destruct (Hcall Hc) as (_ & ? & _).
  - split; [intros _; apply Hz; by rewrite Em|]. split; [done|]. split; [done|]. split; [|done]. intros _. by destruct (Hsel Em).
  - split; [done|]. split; [done|]. split; [done|]. split.
    + intros Hc. apply Hcall. by apply (called_insert _ i StopWaiting StopDone).
    + intros Hm Hc. apply Hno; [done|]. by apply (called_insert _ i StopWaiting StopDone).
  - rewrite (Hz ltac:(by rewrite E)). simpl. split; [done|]. split; [done|]. split; [done|]. split; [|done].
    intros Hc. by destruct (Hcall Hc) as (_ & _ & ?).
Qed.
Lemma vsp_steps_ok s s' : vsp_ok s → rtc vsp_step s s' → vsp_ok s'.
Proof. intros Hs. apply (rtc_ind_r vsp_ok s); [done|]. intros s1 s2 _ H Hok. by eapply vsp_step_ok. Qed.
Lemma called_step s s' : stopped_by_call s → vsp_step s s' → stopped_by_call s'.
Proof.
  intros (i & p & Hi & Hp). destruct 1 as [r E| |r E Em|E|j E Em|j E _|r E Ee]; try (by exists i, p); unfold stopped_by_call; simpl.
  - exists i, p. split; [|done]. by apply lookup_app_l_Some.
  - destruct (decide (i = j)) as [->|Hne]; [by rewrite Hi in E; injection E as ->|].
    exists i, p. by rewrite list_lookup_insert_ne.
  - destruct (decide (i = j)) as [->|Hne].
    + exists j, StopDone. by rewrite list_lookup_insert_eq by by eapply lookup_lt_Some.
    + exists i, p. by rewrite list_lookup_insert_ne.
Qed.

(** * Properties *)


(** A server that fails does not end its side manager: while another server runs
    [Serve] does not return, and a failure alone leaves it waiting for ever. *)
Theorem failure_not_reported g e i j : group_ok g = true → i < g_size g → j < g_size g → i ≠ j →
  (∀ s r, reachable g s → threads s !! j = Some Running → main s ≠ Returned r) ∧
  ∃ s, reachable g s ∧ threads s = <[i := Ended]> (replicate (g_size g) Running) ∧ main s = Waiting (Err e) ∧ nf (sys_step g) s.
Proof.
  intros Hg Hi Hj Hij. split.
  { intros s r Hr%reachable_ok Hrun Hret; [|done]. by eapply (not_ended _ _ _ Hrun); [|eapply ok_returned]. }
  assert (0 < g_cap g) as Hcap. { unfold group_ok in Hg. apply andb_prop in Hg as [[Hc%Nat.leb_le _]%andb_prop _]. lia. }
  set (l := replicate (g_size g) Running). assert (length l = g_size g) as Hl by apply length_replicate.
  assert (l !! i = Some Running) as Hli by by apply lookup_replicate_2.
  set (s := mkServing false (g_actions g) [] (<[i := Ended]> l) [] (Waiting (Err e)) 1).
  exists s. split; [|split; [done|split; [done|]]].
  - eapply rtc_l. { right. by apply (server_fails (start g) i (Err e)). }
    eapply rtc_l. { left. apply (send g _ i (Err e)); simpl; [by rewrite list_lookup_insert_eq by (fold l; lia)|done]. }
    eapply rtc_l. { left. apply (count g _ i). simpl. rewrite list_insert_insert_eq, list_lookup_insert_eq by (fold l; lia). done. }
    eapply rtc_l. { left. by apply (receive g _ (Err e) []). }
    unfold s. simpl. rewrite !list_insert_insert_eq. apply rtc_refl.
  - assert (∀ k p, <[i := Ended]> l !! k = Some p → p = Running ∨ p = Ended) as Hp.
    { intros k p [(-> & <- & _)|[_ [-> _]%lookup_replicate_1]]%list_lookup_insert_Some; auto. }
    intros [s' Hs]. destruct Hs as [k l' E _|k l' E _|l' E _|k r E [Hin|[Hc _]]|k r E _|k E|r l' E _|E _|r E HF]; simpl in *; try done.
    + by apply elem_of_nil in Hin.
    + by destruct (Hp _ _ E).
    + by destruct (Hp _ _ E).
    + eapply (not_ended (<[i := Ended]> l) j Running); [|done|done]. rewrite list_lookup_insert_ne by done. by apply lookup_replicate_2.
Qed.

(** [Serve] of a vendor-specific process never returns: where it does not wait for
    ever it panics, and it waits for ever once it has taken the message of a [Stop]. *)
Theorem vsp_never_returns s : rtc vsp_step vsp_start s →
  (∀ r, vmain s ≠ Returned r) ∧ (stopped_by_call s → ∀ s', rtc vsp_step s s' → vmain s' = Waiting (Ok tt)).
Proof.
  intros Hs%vsp_steps_ok; [|exact vsp_start_ok]. split; [apply Hs|]. intros Hc s' Hs'.
  assert (vsp_ok s' ∧ stopped_by_call s') as [(_ & _ & _ & H & _) Hc'].
  { revert Hs'. apply (rtc_ind_r (λ s', vsp_ok s' ∧ stopped_by_call s') s); [done|].
    intros s1 s2 _ Hstep [Hok Hcall]. split; [by eapply vsp_step_ok|by eapply called_step]. }
  by destruct (H Hc').
Qed.

(** * Runs *)

Module ServeDemo.
Definition host_cancelled : serving := start host_group <| cancelled := true |>.
Lemma host_cancelled_reach : reachable host_group host_cancelled.
Proof. apply rtc_once. right. apply cancel. Qed.
Definition stop_taken : vsp_state := mkVsp true Running (Waiting (Ok tt)) [StopWaiting] 0.
Lemma stop_taken_reach : rtc vsp_step vsp_start stop_taken.
Proof.
  eapply rtc_l; [apply stop_called|]. eapply rtc_l; [by apply (stop_sends _ 0)|]. apply rtc_refl.
Qed.
Lemma stop_taken_called : stopped_by_call stop_taken.
Proof. by exists 0, StopWaiting. Qed.
(** The server has stopped too, and the call has returned. *)
Definition stop_hung : vsp_state := mkVsp true (Sending (Ok tt)) (Waiting (Ok tt)) [StopDone] 0.
Lemma stop_hung_reach : rtc vsp_step stop_taken stop_hung.
Proof.
  eapply rtc_l; [by apply (vsp_fails _ (Ok tt))|]. eapply rtc_l; [by apply (stop_returns _ 0)|]. apply rtc_refl.
Qed.
End ServeDemo.
Import ServeDemo.

Lemma failure_not_reported_witness : ∃ s, reachable dpu_group s ∧ threads s = [Running; Running; Ended; Running] ∧
  main s = Waiting (Err (Text "CNI")) ∧ nf (sys_step dpu_group) s.
Proof. exact (proj2 (failure_not_reported dpu_group (Text "CNI") 2 0 eq_refl ltac:(simpl; lia) ltac:(simpl; lia) ltac:(lia))). Defined.
Lemma vsp_never_returns_witness : vmain stop_hung = Waiting (Ok tt).
Proof. exact (proj2 (vsp_never_returns stop_taken stop_taken_reach) stop_taken_called stop_hung stop_hung_reach). Defined.
