(* ===== verification/DaemonServe.v ===== *)
(** How the daemon runs and stops its routines: the goroutines that [Serve] of
    internal/daemon/daemon.go starts, one for the readiness server and one for each managed
    unit, the channel they report an error to, and [shutdown], which waits for all of them.
    What a tick does to the cluster and the units is in Daemon.v; here it removes units,
    waits for their routines, and starts new ones. *)
From S2P Require Import Prelude Plugin.
#[local] Open Scope stdpp_scope.

(** A routine: [StartVsp], [SetupDevices] and [Listen] of a side manager, then its [Serve];
    an error waits to be sent; the end.  The readiness server serves from the start. *)
Inductive rphase := Starting | Serving | Sending (e : error) | Finished.
(** Whether the routine is a unit's, and whether the context of the unit is cancelled. *)
Record routine := mkRoutine { r_unit : bool; r_cancel : bool; r_phase : rphase }.
#[export] Instance routine_eta : Eta routine := λ r, mkRoutine (r_unit r) (r_cancel r) (r_phase r).
(** The main goroutine in its [select], in the three parts of a tick, in [shutdown] before it
    cancels the routines and with those it has not yet waited for, and after [Serve] has
    returned. *)
Inductive dmain :=
  | Selecting | Removing | AwaitGone (i : nat) | Creating
  | Cleaning (e : error) | Stopping (left : list nat) (e : error) | Exited (e : error).
(** [errChan] has room for one error. *)
Record dstate := mkDstate {
  routines : list routine; errChan : option error; ctx_done : bool; routines_cancelled : bool; serve_main : dmain }.
#[export] Instance dstate_eta : Eta dstate := λ s, mkDstate (routines s) (errChan s) (ctx_done s) (routines_cancelled s) (serve_main s).
Definition daemon_start : dstate := mkDstate [mkRoutine false false Serving] None false false Selecting.
Definition context_canceled : error := Text "context canceled".

(** [managerCtx.Err() != nil]. *)
Definition is_cancelled (s : dstate) (r : routine) : bool := ctx_done s || routines_cancelled s || r_cancel r.
Definition set_routine (i : nat) (r : routine) (s : dstate) : dstate := s <| routines := <[i := r]> (routines s) |>.
Definition set_phase (i : nat) (r : routine) (p : rphase) (s : dstate) : dstate := set_routine i (r <| r_phase := p |>) s.
(** [shutdown] after it has removed the resources: the routines are cancelled, and waited for
    in their order. *)
Definition cancel_routines (e : error) (s : dstate) : dstate :=
  s <| routines_cancelled := true |> <| serve_main := Stopping (seq 0 (length (routines s))) e |>.

Inductive daemon_step (s : dstate) : dstate → Prop :=
  (* [runSideManager]: an error before [Serve] is reported whether or not the context is cancelled. *)
  | starts i r : routines s !! i = Some r → r_phase r = Starting → daemon_step s (set_phase i r Serving s)
  | start_fails i r e : routines s !! i = Some r → r_phase r = Starting → daemon_step s (set_phase i r (Sending e) s)
  | serve_returns i r : routines s !! i = Some r → r_phase r = Serving → daemon_step s (set_phase i r Finished s)
  | serve_fails i r e : routines s !! i = Some r → r_phase r = Serving → (r_unit r = true → is_cancelled s r = false) →
      daemon_step s (set_phase i r (Sending e) s)
  | sends i r e : routines s !! i = Some r → r_phase r = Sending e → errChan s = None →
      daemon_step s (set_phase i r Finished s <| errChan := Some e |>)
  (* the ticker *)
  | ticks : serve_main s = Selecting → daemon_step s (s <| serve_main := Removing |>)
  | removes i r : serve_main s = Removing → routines s !! i = Some r → r_unit r = true → r_cancel r = false →
      daemon_step s (set_routine i (r <| r_cancel := true |>) s <| serve_main := AwaitGone i |>)
  | gone i r : serve_main s = AwaitGone i → routines s !! i = Some r → r_phase r = Finished → daemon_step s (s <| serve_main := Removing |>)
  | gone_timeout i : serve_main s = AwaitGone i → daemon_step s (s <| serve_main := Removing |>)
  | removed : serve_main s = Removing → daemon_step s (s <| serve_main := Creating |>)
  | creates : serve_main s = Creating → daemon_step s (s <| routines := routines s ++ [mkRoutine true false Starting] |>)
  | tick_ends : serve_main s = Creating → daemon_step s (s <| serve_main := Selecting |>)
  | tick_fails e : serve_main s = Removing ∨ serve_main s = Creating →
      daemon_step s (s <| routines_cancelled := true |> <| serve_main := Exited e |>)
  (* the other branches, and [shutdown]: the resources first, the error is that of [Serve] *)
  | receives e : serve_main s = Selecting → errChan s = Some e → daemon_step s (s <| errChan := None |> <| serve_main := Cleaning e |>)
  | sees_done : serve_main s = Selecting → ctx_done s = true → daemon_step s (s <| serve_main := Cleaning context_canceled |>)
  | cleans e : serve_main s = Cleaning e → daemon_step s (cancel_routines e s)
  | joins i l e r : serve_main s = Stopping (i :: l) e → routines s !! i = Some r → r_phase r = Finished →
      daemon_step s (s <| serve_main := Stopping l e |>)
  | exits e : serve_main s = Stopping [] e → daemon_step s (s <| serve_main := Exited e |>).
(** From outside: the context is cancelled. *)
Definition with_context (s s' : dstate) : Prop := daemon_step s s' ∨ s' = s <| ctx_done := true |>.

(** * What is left to report

    A routine that can still end with an error once all of them are cancelled: a unit that is
    not serving yet, one whose error waits, and the readiness server. *)
Definition may_fail (r : routine) : bool :=
  match r_phase r with Starting | Sending _ => true | Serving => negb (r_unit r) | Finished => false end.
Fixpoint failing (l : list routine) : nat := match l with [] => 0 | r :: l => (if may_fail r then 1 else 0) + failing l end.
Definition unread (s : dstate) : nat := failing (routines s) + (match errChan s with Some _ => 1 | None => 0 end).
Lemma failing_insert l i r q : l !! i = Some r →
  failing (<[i := q]> l) + (if may_fail r then 1 else 0) = failing l + (if may_fail q then 1 else 0).
Proof.
  revert i. induction l as [|x l IH]; intros i Hi; [done|]. destruct i as [|i]; simpl in *; [injection Hi as ->; lia|].
  specialize (IH _ Hi). lia.
Qed.
Lemma failing_lookup l i r : l !! i = Some r → may_fail r = true → (1 ≤ failing l)%nat.
Proof.
  revert i. induction l as [|x l IH]; intros i Hi Hf; [done|]. destruct i as [|i]; simpl in *; [injection Hi as ->; rewrite Hf; lia|].
  specialize (IH _ Hi Hf). lia.
Qed.

(** ** Runs of a cancelled daemon *)

Definition phase_weight (p : rphase) : nat := match p with Starting => 3 | Serving => 2 | Sending _ => 1 | Finished => 0 end.
Definition main_weight (m : dmain) : nat := match m with Stopping l _ => S (length l) | _ => 0 end.
Definition weight (s : dstate) : nat := sum_list_with (phase_weight ∘ r_phase) (routines s) + main_weight (serve_main s).

(** The daemon is in [shutdown] or has left, every routine is cancelled, those waited for
    exist, and at most [n] errors are left to report. *)
Record stopping_ok (n : nat) (s : dstate) : Prop := {
  st_main : match serve_main s with Stopping l _ => Forall (λ i, i < length (routines s)) l | Exited _ => True | _ => False end;
  st_cancelled : routines_cancelled s = true;
  st_unread : (unread s ≤ n)%nat }.
Definition exit_error (m : dmain) : option error := match m with Stopping _ e | Exited e => Some e | _ => None end.
Lemma stopping_phase n s i r p : stopping_ok n s → routines s !! i = Some r → phase_weight p < phase_weight (r_phase r) →
  (may_fail r = false → may_fail (r <| r_phase := p |>) = false) →
  stopping_ok n (set_phase i r p s) ∧ weight (set_phase i r p s) < weight s.
Proof.
  intros [Hm Hc Hu] Hi Hw Hf. pose proof (failing_insert _ _ _ (r <| r_phase := p |>) Hi) as Hcount. split; [split|].
  - simpl. by rewrite length_insert.
  - done.
  - unfold unread in *. change (routines (set_phase i r p s)) with (<[i := r <| r_phase := p |>]> (routines s)).
    change (errChan (set_phase i r p s)) with (errChan s). destruct (may_fail r) eqn:E; [destruct (may_fail (r <| r_phase := p |>)); lia|]. rewrite Hf in Hcount by done. lia.
  - unfold weight. simpl. pose proof (sum_list_insert (phase_weight ∘ r_phase) _ _ _ (r <| r_phase := p |>) Hi Hw). simpl in *. lia.
Qed.

Lemma stopping_step n s s' : stopping_ok n s → daemon_step s s' →
  (stopping_ok n s' ∧ weight s' < weight s) ∧ exit_error (serve_main s') = exit_error (serve_main s).
Proof.
  intros Hok. pose proof Hok as [Hm Hc Hu].
  destruct 1 as [i r Hi E|i r e Hi E|i r Hi E|i r e Hi E Hcan|i r e Hi E Hch|E|i r E Hi|i r E Hi|i E|E|E|E|e E|e E He|E Hd|e E|i l e r E Hi Ep|e E];
    try (rewrite E in Hm; done); try (destruct E as [E|E]; rewrite E in Hm; done).
  - split; [|done]. apply (stopping_phase _ _ _ _ Serving Hok Hi); rewrite ?E; simpl; [lia|]. unfold may_fail. by rewrite E.
  - split; [|done]. apply (stopping_phase _ _ _ _ (Sending e) Hok Hi); rewrite ?E; simpl; [lia|]. unfold may_fail. by rewrite E.
  - split; [|done]. apply (stopping_phase _ _ _ _ Finished Hok Hi); rewrite ?E; simpl; [lia|done].
  - split; [|done]. apply (stopping_phase _ _ _ _ (Sending e) Hok Hi); rewrite ?E; simpl; [lia|]. unfold may_fail. rewrite E. intros Hr%negb_false_iff.
    specialize (Hcan Hr). unfold is_cancelled in Hcan. rewrite Hc, orb_true_r in Hcan. done.
  - pose proof (failing_insert _ _ _ (r <| r_phase := Finished |>) Hi) as Hcount. unfold may_fail in Hcount. rewrite E in Hcount. simpl in Hcount.
    pose proof (sum_list_insert (phase_weight ∘ r_phase) _ _ _ (r <| r_phase := Finished |>) Hi) as Hw. simpl in Hw. rewrite E in Hw. simpl in Hw. split; [split; [split|]|]; simpl.
    + by rewrite length_insert.
    + done.
    + unfold unread in *. simpl. rewrite Hch in Hu. lia.
    + unfold weight. simpl. specialize (Hw ltac:(lia)). lia.
    + done.
  - rewrite E in Hm. apply Forall_cons in Hm as [_ Hm]. split; [split; [by split|]|by rewrite E]. unfold weight. simpl. rewrite E. simpl. lia.
  - split; [split; [by split|]|by rewrite E]. unfold weight. simpl. rewrite E. simpl. lia.
Qed.
(** Unless two errors are left to report, a daemon in [shutdown] can go on until it has
    left. *)
Lemma stopping_progress s e : stopping_ok 1 s → exit_error (serve_main s) = Some e → serve_main s = Exited e ∨ ∃ s', daemon_step s s'.
Proof.
  intros [Hm Hc Hu] He. destruct (serve_main s) as [| | | |e'|l e'|e'] eqn:E; try done; simpl in He; injection He as ->; [right|by left].
  destruct l as [|i l]; [eexists; by eapply exits|]. apply Forall_cons in Hm as [Hi _]. apply lookup_lt_is_Some in Hi as [r Hi].
  destruct (r_phase r) eqn:Ep; [eexists; by eapply starts|eexists; by eapply serve_returns| |eexists; by eapply joins].
  destruct (errChan s) eqn:Ech; [|eexists; by eapply sends].
  pose proof (failing_lookup _ _ _ Hi) as Hf. unfold may_fail in Hf. rewrite Ep in Hf. specialize (Hf eq_refl). unfold unread in Hu. rewrite Ech in Hu. lia.
Qed.
Lemma stopping_run n s s' : stopping_ok n s → rtc daemon_step s s' → stopping_ok n s' ∧ exit_error (serve_main s') = exit_error (serve_main s).
Proof.
  intros Hok. apply (rtc_ind_r (λ s', stopping_ok n s' ∧ exit_error (serve_main s') = exit_error (serve_main s)) s); [done|].
  intros s1 s2 _ Hs [H1 H2]. destruct (stopping_step _ _ _ H1 Hs) as [[H3 _] H4]. by rewrite H4.
Qed.
Lemma stopping_exits s e : stopping_ok 1 s → exit_error (serve_main s) = Some e → ∃ s', rtc daemon_step s s' ∧ serve_main s' = Exited e.
Proof.
  induction s as [s IH] using (well_founded_induction (well_founded_ltof _ weight)). intros Hok He.
  destruct (stopping_progress s e Hok He) as [Hx|[s1 Hs]]; [by exists s|].
  destruct (stopping_step _ _ _ Hok Hs) as [[H1 Hw] H2]. destruct (IH s1 Hw H1) as (s' & Hr & Hx); [by rewrite H2|].
  exists s'. split; [by eapply rtc_l|done].
Qed.

(** ** What every state satisfies *)

(** In [shutdown] the routines are cancelled and those waited for exist. *)
Definition daemon_ok (s : dstate) : Prop :=
  match serve_main s with
  | Stopping l _ => routines_cancelled s = true ∧ Forall (λ i, i < length (routines s)) l
  | Exited _ => routines_cancelled s = true
  | _ => True
  end.
Lemma seq_bound n : Forall (λ i, i < n) (seq 0 n).
Proof. apply list.Forall_forall. intros i Hi%list_elem_of_In%in_seq. lia. Qed.
Lemma daemon_step_ok s s' : daemon_ok s → with_context s s' → daemon_ok s'.
Proof.
  unfold daemon_ok. intros Hok [Hs| ->]; [|done].
  destruct Hs as [i r Hi E|i r e Hi E|i r Hi E|i r e Hi E Hcan|i r e Hi E Hch|E|i r E Hi|i r E Hi|i E|E|E|E|e E|e E He|E Hd|e E|i l e r E Hi Ep|e E];
    simpl; rewrite ?length_insert; try done; try (by rewrite E).
  - split; [done|apply seq_bound].
  - rewrite E in Hok. destruct Hok as [? [_ ?]%Forall_cons]. done.
  - rewrite E in Hok. by destruct Hok.
Qed.
Lemma daemon_reachable_ok s : rtc with_context daemon_start s → daemon_ok s.
Proof. apply (rtc_ind_r daemon_ok daemon_start); [done|]. intros s1 s2 _ Hs Hok. by eapply daemon_step_ok. Qed.
Lemma reachable_stopping s l e n : rtc with_context daemon_start s → serve_main s = Stopping l e → (unread s ≤ n)%nat → stopping_ok n s.
Proof. intros Hr%daemon_reachable_ok E Hu. unfold daemon_ok in Hr. rewrite E in Hr. destruct Hr. split; [by rewrite E|done|done]. Qed.

(** * Properties *)

(** C14: [shutdown] ends.  Once the daemon has begun to stop, every run of its routines is
    finite, however they interleave, and if at most one error is left to report it can only
    end with [Serve] having returned the error that made it stop. *)
Theorem daemon_stops s l e : rtc with_context daemon_start s → serve_main s = Stopping l e →
  sn daemon_step s ∧ ((unread s ≤ 1)%nat → ∀ s', rtc daemon_step s s' → nf daemon_step s' → serve_main s' = Exited e).
Proof.
  intros Hr E. split.
  - pose proof (reachable_stopping _ _ _ _ Hr E (le_n _)) as Hok. revert Hok. generalize (unread s). clear Hr E. intros n.
    apply (sn_invariant daemon_step (stopping_ok n) weight). intros a b Ha Hab. by apply stopping_step.
  - intros Hu s' Hs Hnf. pose proof (reachable_stopping _ _ _ _ Hr E Hu) as Hok. destruct (stopping_run _ _ _ Hok Hs) as [Hok' He].
    rewrite E in He. destruct (stopping_progress s' e Hok' He) as [H|H]; [done|by destruct Hnf].
Qed.

(** With three units whose processes are not up the failure of one leaves the daemon waiting
    for ever: the routines of the other two end with the error of their cancelled contexts,
    the channel takes the first, nobody reads it any more, and [shutdown] waits for the
    routine that has the second. *)
Theorem daemon_hangs (e1 e2 e3 : error) : ∃ s, rtc with_context daemon_start s ∧ serve_main s = Stopping [3] e1 ∧
  errChan s = Some e2 ∧ ctx_done s = false ∧ nf daemon_step s.
Proof.
  set (hung := mkDstate [mkRoutine false false Finished; mkRoutine true false Finished; mkRoutine true false Finished;
    mkRoutine true false (Sending e3)] (Some e2) false true (Stopping [3] e1)).
  exists hung. split; [|do 3 (split; [done|])].
  - eapply rtc_l; [left; by apply ticks|]. eapply rtc_l; [left; by apply removed|].
    do 3 (eapply rtc_l; [left; by apply creates|]). eapply rtc_l; [left; by apply tick_ends|].
    eapply rtc_l; [left; by eapply (start_fails _ 1 _ e1)|]. eapply rtc_l; [left; by eapply (sends _ 1 _ e1)|].
    eapply rtc_l; [left; by eapply receives|]. eapply rtc_l; [left; by eapply cleans|].
    eapply rtc_l; [left; by eapply (start_fails _ 2 _ e2)|]. eapply rtc_l; [left; by eapply (start_fails _ 3 _ e3)|].
    eapply rtc_l; [left; by eapply (sends _ 2 _ e2)|]. eapply rtc_l; [left; by eapply (serve_returns _ 0)|].
    do 3 (eapply rtc_l; [left; by eapply joins|]). apply rtc_refl.
  - intros [s' Hs].
    destruct Hs as [i r Hi E|i r e Hi E|i r Hi E|i r e Hi E _|i r e Hi E Hch|E|i r E _|i r E _|i E|E|E|E|e [E|E]|e E _|E _|e E|i l e r E Hi Ep|e E];
      try done; try (destruct i as [|[|[|[|]]]]; simplify_eq/=; done).
Qed.

Lemma ctx_done_step s s' : daemon_step s s' → ctx_done s' = ctx_done s.
Proof. by destruct 1. Qed.
Lemma ctx_done_run s s' : rtc daemon_step s s' → ctx_done s' = ctx_done s.
Proof. induction 1 as [|s1 s2 s3 H _ IH]; [done|]. by rewrite IH, (ctx_done_step _ _ H). Qed.

(** A unit that goes away before its process is up can take the daemon down with it: its
    routine is cancelled and reports the error of its context, which the daemon takes for a
    failure and stops, although its own context is not cancelled and every other unit is
    served. *)
Theorem gone_unit_stops_daemon s i r e : rtc with_context daemon_start s → serve_main s = Removing → errChan s = None →
  routines s !! i = Some r → r_unit r = true → r_cancel r = false → r_phase r = Starting → (unread s ≤ 2)%nat →
  ∃ s', rtc daemon_step s s' ∧ serve_main s' = Exited e ∧ ctx_done s' = ctx_done s.
Proof.
  intros Hr Em Ech Hi Hu Hc Hp Hn. pose proof (lookup_lt_Some _ _ _ Hi) as Hlt.
  set (r1 := r <| r_cancel := true |>).
  set (s1 := set_routine i r1 s <| serve_main := AwaitGone i |>).
  set (s2 := set_phase i r1 (Sending e) s1).
  set (s3 := set_phase i (r1 <| r_phase := Sending e |>) Finished s2 <| errChan := Some e |>).
  set (s4 := cancel_routines e (s3 <| errChan := None |> <| serve_main := Cleaning e |>)).
  assert (∀ q, <[i := q]> (routines s) !! i = Some q) as Hl by (intros q; by rewrite list_lookup_insert_eq).
  assert (rtc daemon_step s s4) as H4.
  { eapply rtc_l; [by apply (removes s i r)|]. fold r1. fold s1.
    eapply rtc_l; [apply (start_fails s1 i r1 e); [apply Hl|done]|]. fold s2.
    eapply rtc_l; [apply (sends s2 i (r1 <| r_phase := Sending e |>) e); [simpl; rewrite list_insert_insert_eq; apply Hl|done|done]|]. fold s3.
    eapply rtc_l; [by apply (gone_timeout s3 i)|]. eapply rtc_l; [by apply removed|]. eapply rtc_l; [by apply tick_ends|].
    eapply rtc_l; [by apply (receives _ e)|]. eapply rtc_l; [by apply (cleans _ e)|]. apply rtc_refl. }
  assert (routines s4 = <[i := r1 <| r_phase := Finished |>]> (routines s)) as Hrs.
  { unfold s4, s3, s2, s1. simpl. by rewrite !list_insert_insert_eq. }
  destruct (stopping_exits s4 e) as (s' & H' & Hx); [|done|].
  - split; [apply seq_bound|done|]. unfold unread. rewrite Hrs. simpl. unfold unread in Hn. rewrite Ech in Hn.
    pose proof (failing_insert _ _ _ (r1 <| r_phase := Finished |>) Hi) as Hcount. unfold may_fail in Hcount. rewrite Hp in Hcount. simpl in Hcount. lia.
  - exists s'. split; [by etrans|]. split; [done|]. rewrite (ctx_done_run _ _ H'). by rewrite (ctx_done_run _ _ H4).
Qed.

(** * Runs *)

Module DaemonServeDemo.
(** One unit is served, the context is cancelled. *)
Definition stopping : dstate :=
  mkDstate [mkRoutine false false Serving; mkRoutine true false Serving] None true true (Stopping [0; 1] context_canceled).
Lemma daemon_stopping_reach : rtc with_context daemon_start stopping.
Proof.
  eapply rtc_l; [left; by apply ticks|]. eapply rtc_l; [left; by apply removed|]. eapply rtc_l; [left; by apply creates|].
  eapply rtc_l; [left; by apply tick_ends|]. eapply rtc_l; [left; by eapply (starts _ 1)|]. eapply rtc_l; [by right|].
  eapply rtc_l; [left; by apply sees_done|]. eapply rtc_l; [left; by eapply cleans|]. apply rtc_refl.
Qed.
(** Both have ended and [Serve] has returned. *)
Definition stopped : dstate := mkDstate [mkRoutine false false Finished; mkRoutine true false Finished] None true true (Exited context_canceled).
Lemma stopping_stopped : rtc daemon_step stopping stopped.
Proof.
  eapply rtc_l; [by eapply (serve_returns _ 1)|]. eapply rtc_l; [by eapply (serve_returns _ 0)|].
  do 2 (eapply rtc_l; [by eapply joins|]). eapply rtc_l; [by eapply exits|]. apply rtc_refl.
Qed.
Lemma stopped_nf : nf daemon_step stopped.
Proof.
  intros [s' Hs].
  destruct Hs as [i r Hi E|i r e Hi E|i r Hi E|i r e Hi E _|i r e Hi E Hch|E|i r E _|i r E _|i E|E|E|E|e [E|E]|e E _|E _|e E|i l e r E Hi Ep|e E];
    try done; destruct i as [|[|]]; simplify_eq/=; done.
Qed.
(** One unit is served, the process of another is not up. *)
Definition two_units : dstate :=
  mkDstate [mkRoutine false false Serving; mkRoutine true false Serving; mkRoutine true false Starting] None false false Removing.
Lemma two_units_reach : rtc with_context daemon_start two_units.
Proof.
  eapply rtc_l; [left; by apply ticks|]. eapply rtc_l; [left; by apply removed|]. eapply rtc_l; [left; by apply creates|].
  eapply rtc_l; [left; by apply creates|]. eapply rtc_l; [left; by apply tick_ends|]. eapply rtc_l; [left; by eapply (starts _ 1)|].
  eapply rtc_l; [left; by apply ticks|]. apply rtc_refl.
Qed.
End DaemonServeDemo.
Import DaemonServeDemo.

Lemma daemon_stops_witness : sn daemon_step stopping ∧ rtc daemon_step stopping stopped ∧ serve_main stopped = Exited context_canceled.
Proof.
  pose proof (daemon_stops stopping [0; 1] context_canceled daemon_stopping_reach eq_refl) as [Hsn Hend].
  split; [exact Hsn|]. split; [exact stopping_stopped|]. exact (Hend (le_n 1) stopped stopping_stopped stopped_nf).
Defined.
Lemma gone_unit_stops_daemon_witness : ∃ s', rtc daemon_step two_units s' ∧ serve_main s' = Exited context_canceled ∧ ctx_done s' = false.
Proof.
  exact (gone_unit_stops_daemon two_units 2 (mkRoutine true false Starting) context_canceled two_units_reach eq_refl eq_refl eq_refl
    eq_refl eq_refl eq_refl (le_n 2)).
Defined.
