(* ===== verification/Links.v ===== *)
(** The processes of the system and the calls between them.  A vendor-specific process
    serves the daemon of its side over a unix socket, and the daemon of the DPU serves the
    daemon of the host over the network: internal/daemon/vendor-specific-plugins (the
    [Listen] of each process says which handlers answer which service) and
    internal/daemon/dpusidemanager.go.

    Handlers are taken one call at a time: the requests that change a process, those of the
    host's CNI server, are made under its mutex. *)
From S2P Require Import Prelude Plugin Net OpiClient GrpcPlugin GoMonad SideManagers VspNet Netsec Marvell DataPlane.
#[local] Open Scope stdpp_scope.

(** Whether the process is running, and the state its handlers act on; after a panic the
    memory of the process is lost, what is left of the state is the machine. *)
Definition process (W : Type) : Type := bool * W.
Definition inside {W} (p : process W) : W := p.2.

Section Calls.
(** The transport: its answer when no process listens, and the error the client sees of one
    the handler returned. *)
Context (unavailable : error) (status : error → error) {W : Type}.

(** A panic ends the process, and the call with it. *)
Definition serve {A} (f : M W (result A)) (p : process W) : process W * result A :=
  if p.1 then
    match f p.2 with
    | (w, Ret r) => ((true, w), rerr status r)
    | (w, Panic) => ((false, w), Err unavailable)
    end
  else (p, Err unavailable).
(** A call whose answer holds nothing. *)
Definition serve_err (f : M W (result unit)) (p : process W) : process W * option error :=
  let '(p, r) := serve f p in (p, match r with Ok _ => None | Err e => Some e end).

Lemma serve_ok {A} (f : M W (result A)) p p' a : serve f p = (p', Ok a) →
  p.1 = true ∧ p'.1 = true ∧ returns f (inside p) (inside p') (Ok a).
Proof.
  unfold serve, returns, inside. destruct p as [[] w]; simpl; [|done].
  destruct (f w) as [w' [[b|e]|]] eqn:E; [|done|done]. by intros [= <- <-].
Qed.
Lemma serve_err_ok f p p' : serve_err f p = (p', None) →
  p.1 = true ∧ p'.1 = true ∧ returns f (inside p) (inside p') (Ok tt).
Proof.
  unfold serve_err. destruct (serve f p) as [q [[]|e]] eqn:E; [|done]. intros [= <-]. by eapply serve_ok.
Qed.
End Calls.

(** * The vendor-specific processes *)

Section Processes.
Context (unavailable : error) (status : error → error) {W : Type} `{!HostOps W}.

Definition netsec_process : VSPServer (process (intelNetSecVspServer * W)) := {|
  vsp_Init mode id := serve unavailable status (Netsec.Init mode id);
  vsp_CreateBridgePort req := serve unavailable status (Netsec.CreateBridgePort req);
  vsp_DeleteBridgePort name := serve_err unavailable status (Netsec.DeleteBridgePort name);
  vsp_CreateNetworkFunction i o := serve_err unavailable status (Netsec.CreateNetworkFunction i o);
  vsp_DeleteNetworkFunction i o := serve_err unavailable status (Netsec.DeleteNetworkFunction i o);
  vsp_GetDevices := serve unavailable status Netsec.GetDevices;
  vsp_SetNumVfs n := serve unavailable status (Netsec.SetNumVfs n) |}.

(** The handler of [Init] reads the mode only. *)
Definition marvell_process (dp : mrvldp W) (order : gmap string mrvlDeviceInfo → list mrvlDeviceInfo) :
    VSPServer (process (mrvlVspServer * W)) := {|
  vsp_Init mode _ := serve unavailable status (Marvell.Init dp order mode);
  vsp_CreateBridgePort req := serve unavailable status (Marvell.CreateBridgePort dp req);
  vsp_DeleteBridgePort name := serve_err unavailable status (Marvell.DeleteBridgePort dp name);
  vsp_CreateNetworkFunction i o := serve_err unavailable status (Marvell.CreateNetworkFunction dp i o);
  vsp_DeleteNetworkFunction i o := serve_err unavailable status (Marvell.DeleteNetworkFunction dp i o);
  vsp_GetDevices := serve unavailable status (Marvell.GetDevices order);
  vsp_SetNumVfs n := serve unavailable status (Marvell.SetNumVfs n) |}.
End Processes.

(** The mock process keeps no state.  It has no handler for [SetNumVfs]: the answer is the
    transport's. *)
Section Mock.
Context (unimplemented : error).
Definition mock_device (id : string) : string * PbDevice := (id, {| PbID := id; PbHealth := "Healthy"; PbNode := "" |}).
Definition mock_devices : DeviceListResponse := list_to_map (mock_device <$> ["ens5f0"; "ens5f1"; "ens5f2"; "ens5f3"]).
Definition mock_process : VSPServer unit := {|
  vsp_Init _ _ v := (v, Ok ("127.0.0.1", 50051%Z));
  vsp_CreateBridgePort _ v := (v, Ok {| BpName := ""; BpSpec := None |});
  vsp_DeleteBridgePort _ v := (v, None);
  vsp_CreateNetworkFunction _ _ v := (v, None);
  vsp_DeleteNetworkFunction _ _ v := (v, None);
  vsp_GetDevices v := (v, Ok mock_devices);
  vsp_SetNumVfs _ v := (v, Err unimplemented) |}.
End Mock.

(** * The daemon of the DPU, as the host's daemon reaches it at time [now] *)

Definition dpu_link (unavailable : error) (status : error → error) (now : Z) {N W} `{!VendorOps W} :
    BridgeClient (process (dpu_world N W)) := {|
  bc_CreateBridgePort req := serve unavailable status (DpuCreateBridgePort req);
  bc_DeleteBridgePort name := serve_err unavailable status (DpuDeleteBridgePort name);
  bc_Ping := serve_err unavailable status (DpuPing now) |}.
