(* ===== verification/NetsecPorts.v ===== *)
(** What the Netsec process promises to the daemon about bridge ports, as a specification,
    and that its handlers (Netsec.v) implement it on a machine that works.

    The specification knows which VFs are plugged and under which MAC address: plugging
    succeeds exactly for a known VF that is not plugged, unplugging exactly for a plugged
    one, and the bridge has the interfaces of the plugged VFs. *)
From Stdlib Require Import DecimalString.
From S2P Require Import Prelude Plugin Net OpiClient GrpcPlugin GoMonad CniTypes SriovUtils SideManagers VspNet Netsec.
#[local] Open Scope stdpp_scope.

(** * Specification *)

Inductive port_event := Plug (vf : Z) (mac : HardwareAddr) | Unplug (vf : Z).
Definition port_spec (known : gset Z) (e : port_event) (plugs : gmap Z string) : gmap Z string * bool :=
  match e with
  | Plug vf m =>
      if decide (vf ∈ known ∧ plugs !! vf = None) then (<[vf := mac_string m]> plugs, true) else (plugs, false)
  | Unplug vf => if decide (is_Some (plugs !! vf)) then (delete vf plugs, true) else (plugs, false)
  end.
Fixpoint spec_run (known : gset Z) (es : list port_event) (plugs : gmap Z string) : gmap Z string * list bool :=
  match es with
  | [] => (plugs, [])
  | e :: es => let '(plugs, b) := port_spec known e plugs in let '(plugs, bs) := spec_run known es plugs in (plugs, b :: bs)
  end.
(** The interfaces of the plugged VFs. *)
Definition plugged_names (names plugs : gmap Z string) : gset string :=
  map_img (filter (λ kn, is_Some (plugs !! kn.1)) names).

(** * Implementation *)

Definition port_call {W} `{!HostOps W} (e : port_event) : M (intelNetSecVspServer * W) bool :=
  match e with
  | Plug vf m => r ← CreateBridgePort (host_port_request 0 vf m); mret (is_ok r)
  | Unplug vf => r ← DeleteBridgePort (host_port_name 0 vf); mret (is_ok r)
  end.
Fixpoint port_calls {W} `{!HostOps W} (es : list port_event) : M (intelNetSecVspServer * W) (list bool) :=
  match es with
  | [] => mret []
  | e :: es => b ← port_call e; bs ← port_calls es; mret (b :: bs)
  end.

(** A machine that works: what a device with a name is asked for succeeds, and so does
    every change of the bridge that has something to change. *)
Class WorkingMachine (W : Type) `{!HostOps W, !OvsView W} := {
  healthy : W → Prop;
  work_netdev a w : healthy w → healthy (h_GetNetDevName a w).1 ∧
    ∀ n, netdev a w = Some n → (h_GetNetDevName a w).2 = Ok n;
  work_link a n w : healthy w → healthy (h_LinkByName n w).1 ∧
    (netdev a w = Some n → ∃ l, (h_LinkByName n w).2 = Ok l);
  work_up l w : healthy w → healthy (h_LinkSetUp l w).1 ∧ (h_LinkSetUp l w).2 = None;
  work_down l w : healthy w → healthy (h_LinkSetDown l w).1 ∧ (h_LinkSetDown l w).2 = None;
  work_now w : healthy w → healthy (h_Now w).1;
  work_add_port br p w : healthy w → healthy (h_Run (add_port_cmd br p) w).1 ∧ (h_Run (add_port_cmd br p) w).2 = None;
  work_del_port br p w : healthy w → healthy (h_Run (del_port_cmd br p) w).1 ∧
    (p ∈ bridge_ports br w → (h_Run (del_port_cmd br p) w).2 = None) ∧
    (p ∉ bridge_ports br w → bridge_ports br (h_Run (del_port_cmd br p) w).1 = bridge_ports br w) }.

(** * Names *)

(** A name the host makes is understood, or refused when the index is no VF index. *)
Lemma bridge_port_ids_host vf : bridge_port_ids (host_port_name 0 vf) =
  if decide (0 ≤ vf < 2 ^ 63)%Z then Ok (0%Z, vf) else Err (match bridge_port_ids (host_port_name 0 vf) with Err e => e | Ok _ => Text "" end).
Proof.
  unfold bridge_port_ids. destruct (decide (0 ≤ vf)%Z) as [Hv|Hv].
  - rewrite match_host_port by lia. rewrite (Atoi_itoa 0) by lia. simpl. unfold Atoi. rewrite atoi_itoa_range. unfold fits_int64.
    case_decide; [by rewrite !(proj2 (Z.leb_le _ _)) by lia|]. by rewrite (proj2 (Z.leb_gt vf _)), andb_false_r by lia.
  - rewrite decide_False by lia. assert (match_bridge_port (host_port_name 0 vf) = None) as ->; [|done].
    destruct vf as [|p|p]; [lia..|]. unfold match_bridge_port, host_port_name. rewrite has_prefix_app. change 4%nat with (String.length "host").
    rewrite drop_string_app. change (itoa (Z.neg p)) with (String "-" (NilZero.string_of_uint (Pos.to_uint p))). simpl.
    destruct (split_char_cons "-" (NilZero.string_of_uint (Pos.to_uint p))) as (x & l & ->). done.
Qed.

Lemma elem_of_plugged_names names plugs n :
  n ∈ plugged_names names plugs ↔ ∃ vf, names !! vf = Some n ∧ is_Some (plugs !! vf).
Proof.
  unfold plugged_names. rewrite elem_of_map_img. setoid_rewrite map_lookup_filter_Some. naive_solver.
Qed.

(** * The machine *)

Section Works.
Context {W : Type} `{!HostOps W, !OvsView W, !OvsLaws W, !WorkingMachine W}.

Lemma wp_netdev a n (w : W) : healthy w → netdev a w = Some n →
  wp (acts (h_GetNetDevName a)) (λ r w', r = Ok n ∧ healthy w' ∧ quietly w w') w.
Proof.
  intros Hw Hn. apply wp_acts. destruct (work_netdev a w Hw) as [Hh Hr]. split; [by apply Hr|]. split; [done|apply quiet_netdev].
Qed.
(** The first attempt succeeds. *)
Lemma wp_wait a n t (w : W) : (0 ≤ t)%Z → healthy w → netdev a w = Some n →
  wp (WaitForNetDevReady a t) (λ r w', r = Ok n ∧ healthy w' ∧ quietly w w') w.
Proof.
  intros Ht Hw Hn. unfold WaitForNetDevReady, wait. apply wp_bind, wp_acts.
  pose proof (work_now w Hw) as H1. pose proof (law_now w) as Q1. set (w1 := (h_Now w).1) in *.
  assert (∃ k, wait_fuel t = S k) as [k ->].
  { exists (Z.to_nat (t / retryInterval + 1)). unfold wait_fuel, retryInterval. pose proof (Z.div_pos t 500). lia. }
  cbn [wait_loop]. apply wp_bind. unfold netdev_attempt. apply wp_bind.
  eapply wp_mono; [apply wp_netdev; [done|by apply Q1]|]. intros r w2 (-> & H2 & Q2). apply wp_ret, wp_bind, wp_acts, wp_ret.
  split; [done|]. split; [by apply work_now|]. etrans; [exact Q1|]. etrans; [exact Q2|]. apply law_now.
Qed.
Lemma wp_ifUp a n (w : W) : healthy w → netdev a w = Some n →
  wp (ifUpAndAddToBridge n) (λ r w', r = Ok tt ∧ healthy w' ∧ settles w w' ∧
    bridge_ports OvSBridgeName w' = {[n]} ∪ bridge_ports OvSBridgeName w) w.
Proof.
  intros Hw Hn. assert (wp (ifUpAndAddToBridge n) (λ r w', r = Ok tt ∧ healthy w') w) as (w' & r & H & -> & Hh).
  { unfold ifUpAndAddToBridge. destruct (work_link a n w Hw) as [H1 Hl]. destruct (Hl Hn) as [l El].
    apply wp_call, wp_acts. rewrite El. destruct (work_up l _ H1) as [H2 E2].
    apply wp_call, wp_acts_err. rewrite E2. destruct (work_add_port OvSBridgeName n _ H2) as [H3 E3].
    apply wp_acts_err. unfold add_port_cmd in *. by rewrite E3. }
  exists w', (Ok tt). split; [done|]. apply ifUp_run in H as [??]. done.
Qed.
(** Taking a port off the bridge that is not there is refused and changes nothing. *)
Lemma wp_ifDown a n (w : W) : healthy w → netdev a w = Some n →
  wp (ifDownAndDelFromBridge n) (λ r w', healthy w' ∧ settles w w' ∧
    bridge_ports OvSBridgeName w' = bridge_ports OvSBridgeName w ∖ {[n]} ∧ (n ∈ bridge_ports OvSBridgeName w → r = Ok tt)) w.
Proof.
  intros Hw Hn. unfold ifDownAndDelFromBridge. destruct (work_link a n w Hw) as [H1 Hl]. destruct (Hl Hn) as [l El].
  apply wp_call, wp_acts. rewrite El. destruct (work_down l _ H1) as [H2 E2]. apply wp_call, wp_acts_err. rewrite E2.
  set (w2 := (h_LinkSetDown l _).1) in *. destruct (work_del_port OvSBridgeName n _ H2) as (H3 & E3 & E4).
  assert (quietly w w2) as [S2 Q2]. { subst w2. etrans; [apply law_link|apply law_down]. }
  pose proof (law_del_port OvSBridgeName n w2) as Hd. unfold DeleteInterfaceFromOvSBridge. apply wp_acts_err.
  fold (del_port_cmd OvSBridgeName n). destruct (h_Run (del_port_cmd OvSBridgeName n) w2) as [w3 e] eqn:E. simpl in *. destruct Hd as [S3 Hd].
  rewrite <-Q2. split; [done|]. split; [intros x y ?; by apply S3, S2|]. split.
  - destruct (decide (n ∈ bridge_ports OvSBridgeName w2)) as [Hin|Hin]; [by apply Hd, E3|]. rewrite E4 by done. set_solver.
  - intros Hin. by rewrite E3.
Qed.
End Works.

(** * The server and the specification *)

(** [pf] is the name of the backplane's PF, [names] the interfaces of the VFs by index, and
    [base] what else is on the bridge. *)
Record names_ok (names : gmap Z string) (base : gset string) : Prop := {
  names_range vf n : names !! vf = Some n → (0 ≤ vf < 2 ^ 63)%Z;
  names_inj vf vf' n : names !! vf = Some n → names !! vf' = Some n → vf = vf';
  names_base vf n : names !! vf = Some n → n ∉ base }.
Record ports_rel {W} `{!HostOps W, !OvsView W, !WorkingMachine W} (pf : string) (names : gmap Z string) (base : gset string)
    (plugs : gmap Z string) (v : intelNetSecVspServer * W) : Prop := {
  pr_healthy : healthy v.2;
  pr_pf : netdev IntelNetSecDpuBackplanef2PCIeAddress v.2 = Some pf;
  pr_known vf : vfDevs v.1 !! (pf, vf) = None ↔ names !! vf = None;
  pr_device vf p : vfDevs v.1 !! (pf, vf) = Some p → ∃ d n, heap v.1 !! p = Some d ∧ VfKey d = (pf, vf) ∧
    names !! vf = Some n ∧ netdev (VfPciAddress d) v.2 = Some n ∧ Allocated d = bool_decide (is_Some (plugs !! vf));
  pr_chain : ∃ c, serviceFunctionChains v.1 !! 0%Z = Some c ∧ ∀ vf, match vfRepDevs c !! (pf, vf) with
    | None => plugs !! vf = None
    | Some r => plugs !! vf = Some (hostSideMac r) ∧ vfDevs v.1 !! (pf, vf) = Some (vfRepDev r)
    end;
  pr_ports : bridge_ports OvSBridgeName v.2 = base ∪ plugged_names names plugs }.

Section Refines.
Context {W : Type} `{!HostOps W, !OvsView W, !OvsLaws W, !WorkingMachine W}.
Context (pf : string) (names : gmap Z string) (base : gset string) (Hnames : names_ok names base).
Abbreviation rel := (ports_rel pf names base).
Implicit Type (v : intelNetSecVspServer * W).

(** Only the machine has changed, and nothing that matters of it. *)
Lemma rel_quiet plugs v w' : rel plugs v → healthy w' → quietly v.2 w' → rel plugs (v.1, w').
Proof.
  intros [Hh Hpf Hk Hd Hc Hp] Hw [Hs Hq]. split; simpl; [done|by apply Hs|done| |done|by rewrite Hq].
  intros vf p Hv. destruct (Hd _ _ Hv) as (d & n & ? & ? & ? & Hn & ?). exists d, n. repeat split; try done. by apply Hs.
Qed.
Lemma rel_ptr_inj plugs v vf vf' p : rel plugs v → vfDevs v.1 !! (pf, vf) = Some p → vfDevs v.1 !! (pf, vf') = Some p → vf = vf'.
Proof.
  intros Hr H1 H2. destruct (pr_device _ _ _ _ _ Hr _ _ H1) as (d & n & Hd & Hk & _).
  destruct (pr_device _ _ _ _ _ Hr _ _ H2) as (d' & n' & Hd' & Hk' & _). congruence.
Qed.

Lemma wp_connected plugs v vf : rel plugs v →
  wp (getConnectedVf (host_port_name 0 vf)) (λ r v', rel plugs v' ∧ v'.1 = v.1 ∧
    match r with
    | Ok p => vfDevs v.1 !! (pf, vf) = Some p
    | Err _ => names !! vf = None
    end) v.
Proof.
  intros Hr. unfold getConnectedVf. rewrite bridge_port_ids_host. case_decide as Hvf; simpl.
  - apply wp_call, wp_on_host. eapply wp_mono; [apply wp_netdev; apply Hr|]. intros r w (-> & Hh & Hq).
    pose proof (rel_quiet _ _ _ Hr Hh Hq) as Hr'. apply wp_bind, wp_server. simpl. destruct (vfDevs v.1 !! (pf, vf)) eqn:E; apply wp_ret; [done|].
    split; [done|]. split; [done|]. by apply (pr_known _ _ _ _ _ Hr).
  - apply wp_ret. split; [done|]. split; [done|]. destruct (names !! vf) eqn:E; [|done]. by apply (names_range _ _ Hnames) in E.
Qed.

Lemma wp_deref p d v : heap v.1 !! p = Some d → wp (deref p) (λ d' v', d' = d ∧ v' = v) v.
Proof. intros Hd. unfold deref. apply wp_bind, wp_server. rewrite Hd. by apply wp_ret. Qed.
Lemma plugged_insert vf n x plugs : names !! vf = Some n →
  plugged_names names (<[vf := x]> plugs) = {[n]} ∪ plugged_names names plugs.
Proof.
  intros Hn. apply set_eq. intros y. rewrite elem_of_union, elem_of_singleton, !elem_of_plugged_names. split.
  - intros (i & Hi & [z Hz]). apply lookup_insert_Some in Hz as [[<- _]|[Hne Hz]]; [left; congruence|right; eauto].
  - intros [->|(i & Hi & Hz)].
    + exists vf. rewrite lookup_insert_eq. eauto.
    + exists i. split; [done|]. by apply lookup_insert_is_Some'; right.
Qed.
Lemma plugged_delete vf n plugs : names !! vf = Some n →
  plugged_names names (delete vf plugs) = plugged_names names plugs ∖ {[n]}.
Proof.
  intros Hn. apply set_eq. intros y. rewrite elem_of_difference, elem_of_singleton, !elem_of_plugged_names. split.
  - intros (i & Hi & Hz). apply lookup_delete_is_Some in Hz as [Hne Hz]. split; [eauto|]. intros ->.
    by apply Hne, (names_inj _ _ Hnames _ _ n).
  - intros [(i & Hi & Hz) Hne]. exists i. split; [done|]. apply lookup_delete_is_Some. split; [|done]. intros <-. congruence.
Qed.

Lemma rel_bind plugs v vf p d c n m w' : rel plugs v → vfDevs v.1 !! (pf, vf) = Some p → heap v.1 !! p = Some d →
  serviceFunctionChains v.1 !! 0%Z = Some c → names !! vf = Some n → healthy w' → settles v.2 w' →
  bridge_ports OvSBridgeName w' = {[n]} ∪ bridge_ports OvSBridgeName v.2 →
  rel (<[vf := m]> plugs) (bind_port p (VfKey d) (mkRep p m) c v.1, w').
Proof.
  intros Hr Hp Hd Hc Hn Hh Hs Hb. pose proof Hr as [_ Hpf Hk Hdev (c' & Hc' & Hch) Hports].
  rewrite Hc in Hc'. injection Hc' as <-. destruct (Hdev _ _ Hp) as (d0 & n0 & Hd0 & Hkey & _). rewrite Hd in Hd0. injection Hd0 as <-.
  rewrite Hkey. split; simpl; [done|by apply Hs|done| | |].
  - intros vf' q Hq. destruct (Hdev _ _ Hq) as (d' & n' & Hd' & Hk' & Hn' & Hnd & Ha). destruct (decide (vf' = vf)) as [->|Hne].
    + rewrite Hp in Hq. injection Hq as <-. rewrite Hd in Hd'. injection Hd' as <-. rewrite list_lookup_alter_eq, Hd. eexists _, n'.
      rewrite lookup_insert_eq. split; [done|]. simpl. split_and!; [done|done|by apply Hs|done].
    + exists d', n'. rewrite lookup_insert_ne by done. rewrite list_lookup_alter_ne; [split_and!; try done; by apply Hs|].
      intros <-. by apply Hne, (rel_ptr_inj _ _ vf' vf p Hr).
  - eexists. rewrite lookup_alter_eq, Hc. split; [done|]. intros vf'. simpl. destruct (decide (vf' = vf)) as [->|Hne].
    + by rewrite !lookup_insert_eq.
    + rewrite !lookup_insert_ne by congruence. apply Hch.
  - rewrite Hb, Hports, (plugged_insert vf n) by done. set_solver.
Qed.
Lemma rel_free plugs v vf p d c n w' : rel plugs v → vfDevs v.1 !! (pf, vf) = Some p → heap v.1 !! p = Some d →
  serviceFunctionChains v.1 !! 0%Z = Some c → names !! vf = Some n → healthy w' → settles v.2 w' →
  bridge_ports OvSBridgeName w' = bridge_ports OvSBridgeName v.2 ∖ {[n]} →
  rel (delete vf plugs) (free_port p (VfKey d) c v.1, w').
Proof.
  intros Hr Hp Hd Hc Hn Hh Hs Hb. pose proof Hr as [_ Hpf Hk Hdev (c' & Hc' & Hch) Hports].
  rewrite Hc in Hc'. injection Hc' as <-. destruct (Hdev _ _ Hp) as (d0 & n0 & Hd0 & Hkey & _). rewrite Hd in Hd0. injection Hd0 as <-.
  rewrite Hkey. split; simpl; [done|by apply Hs|done| | |].
  - intros vf' q Hq. destruct (Hdev _ _ Hq) as (d' & n' & Hd' & Hk' & Hn' & Hnd & Ha). destruct (decide (vf' = vf)) as [->|Hne].
    + rewrite Hp in Hq. injection Hq as <-. rewrite Hd in Hd'. injection Hd' as <-. rewrite list_lookup_alter_eq, Hd. eexists _, n'.
      rewrite lookup_delete_eq. split; [done|]. simpl. split_and!; [done|done|by apply Hs|done].
    + exists d', n'. rewrite lookup_delete_ne by done. rewrite list_lookup_alter_ne; [split_and!; try done; by apply Hs|].
      intros <-. by apply Hne, (rel_ptr_inj _ _ vf' vf p Hr).
  - eexists. rewrite lookup_alter_eq, Hc. split; [done|]. intros vf'. simpl. destruct (decide (vf' = vf)) as [->|Hne].
    + by rewrite !lookup_delete_eq.
    + rewrite !lookup_delete_ne by congruence. apply Hch.
  - rewrite Hb, Hports, (plugged_delete vf n) by done. apply (names_base _ _ Hnames) in Hn. set_solver.
Qed.

Definition answers (e : port_event) (plugs : gmap Z string) (b : bool) v : Prop :=
  let '(plugs', b') := port_spec (dom names) e plugs in b = b' ∧ rel plugs' v.
Lemma wp_plug plugs v vf m : rel plugs v →
  wp (CreateBridgePort (host_port_request 0 vf m)) (λ r, answers (Plug vf m) plugs (is_ok r)) v.
Proof.
  intros Hr. unfold CreateBridgePort, answers, port_spec. cbn [CreateBp host_port_request BpName BpSpec MacAddress].
  apply wp_call. eapply wp_mono; [by apply (wp_connected plugs)|]. intros [p|e] v1 (Hr1 & E1 & Hp).
  2:{ rewrite decide_False; [done|]. by intros [[? ?]%elem_of_dom _]; congruence. }
  rewrite <-E1 in Hp. destruct (pr_device _ _ _ _ _ Hr1 _ _ Hp) as (d & n & Hd & Hk & Hn & Hnd & Ha).
  apply wp_bind. eapply wp_mono; [by apply wp_deref|]. intros ? ? [-> ->]. rewrite Ha. case_bool_decide as Hpl.
  { apply wp_ret. rewrite decide_False; [done|]. intros [_ E]. rewrite E in Hpl. by destruct Hpl. }
  apply eq_None_not_Some in Hpl. rewrite decide_True by (rewrite elem_of_dom; eauto).
  apply wp_call, wp_on_host. eapply wp_mono; [apply wp_wait; [done|apply Hr1|done]|]. intros ? w2 (-> & H2 & Q2).
  pose proof (rel_quiet _ _ _ Hr1 H2 Q2) as Hr2.
  apply wp_call, wp_on_host. eapply wp_mono; [apply (wp_ifUp (VfPciAddress d)); [done|by apply Q2]|]. intros ? w3 (-> & H3 & S3 & B3).
  destruct (pr_chain _ _ _ _ _ Hr2) as (c & Hc & Hch). apply wp_bind, wp_server. simpl in *. rewrite Hc.
  specialize (Hch vf) as Hv. rewrite Hk. destruct (vfRepDevs c !! (pf, vf)); [by destruct Hv; congruence|].
  apply wp_bind, wp_modify, wp_bind, wp_modify, wp_ret. split; [done|]. simpl. rewrite <-Hk. by apply (rel_bind plugs (v1.1, w2) vf p d c n).
Qed.
Lemma wp_unplug plugs v vf : rel plugs v →
  wp (DeleteBridgePort (host_port_name 0 vf)) (λ r, answers (Unplug vf) plugs (is_ok r)) v.
Proof.
  intros Hr. unfold DeleteBridgePort, answers, port_spec.
  apply wp_call. eapply wp_mono; [by apply (wp_connected plugs)|]. intros [p|e] v1 (Hr1 & E1 & Hp).
  2:{ rewrite decide_False; [done|]. intros [x Hx]. destruct (pr_chain _ _ _ _ _ Hr) as (c & _ & Hch). specialize (Hch vf).
      destruct (vfRepDevs c !! (pf, vf)); [|congruence]. destruct Hch as [_ Hv]. apply (pr_device _ _ _ _ _ Hr) in Hv as (? & ? & ? & ? & ? & _). congruence. }
  rewrite <-E1 in Hp. destruct (pr_device _ _ _ _ _ Hr1 _ _ Hp) as (d & n & Hd & Hk & Hn & Hnd & Ha).
  apply wp_bind. eapply wp_mono; [by apply wp_deref|]. intros ? ? [-> ->].
  apply wp_call, wp_on_host. eapply wp_mono; [apply wp_wait; [done|apply Hr1|done]|]. intros ? w2 (-> & H2 & Q2).
  pose proof (rel_quiet _ _ _ Hr1 H2 Q2) as Hr2.
  apply wp_call, wp_on_host. eapply wp_mono; [apply (wp_ifDown (VfPciAddress d)); [done|by apply Q2]|]. intros r w3 (H3 & S3 & B3 & Hok).
  destruct (pr_chain _ _ _ _ _ Hr2) as (c & Hc & Hch). pose proof (pr_ports _ _ _ _ _ Hr2) as B2. simpl in *. specialize (Hch vf) as Hv.
  destruct (decide (is_Some (plugs !! vf))) as [Hpl|Hpl].
  - rewrite Hok by (rewrite B2; apply elem_of_union_r, elem_of_plugged_names; eauto).
    apply wp_bind, wp_server. simpl. rewrite Hc, Hk. destruct (vfRepDevs c !! (pf, vf)) as [r'|] eqn:Erep; [|rewrite Hv in Hpl; by destruct Hpl].
    destruct Hv as [_ Hv]. rewrite Hp in Hv. injection Hv as <-.
    apply wp_bind. eapply wp_mono; [by apply wp_deref|]. intros ? ? [-> ->]. rewrite Ha, bool_decide_true by done. simpl.
    apply wp_bind, wp_modify, wp_bind, wp_modify, wp_ret. split; [done|]. simpl. rewrite <-Hk. by apply (rel_free plugs (v1.1, w2) vf p d c n).
  - assert (n ∉ bridge_ports OvSBridgeName w2) as Hnin.
    { rewrite B2, elem_of_union, elem_of_plugged_names. intros [Hb|(i & Hi & Hpi)]; [by eapply (names_base _ _ Hnames)|].
      apply Hpl. by rewrite (names_inj _ _ Hnames _ _ _ Hn Hi). }
    assert (rel plugs (v1.1, w3)) as Hrel.
    { destruct Hr2 as [? ? ? Hdev ? Hb]. split; simpl in *; [done|by apply S3|done| |done|set_solver].
      intros i q Hq. destruct (Hdev i q Hq) as (d' & n' & ? & ? & ? & ? & ?). exists d', n'. split_and!; try done. by apply S3. }
    destruct r as [[]|e]; [|done]. apply wp_bind, wp_server. simpl. rewrite Hc, Hk.
    destruct (vfRepDevs c !! (pf, vf)); [destruct Hv as [E _]; destruct Hpl; by rewrite E|]. by apply wp_ret.
Qed.
End Refines.

(** * Properties *)

(** C4: on a machine that works, the handlers of the Netsec process implement the
    specification of bridge ports: whatever sequence of ports the daemon asks to be created
    and deleted, under the names the host gives them, no call panics, the answers are those
    of the specification, and in the end the bridge has, besides what was there, exactly the
    interfaces of the plugged VFs. *)
Theorem netsec_ports_refine {W} `{!HostOps W, !OvsView W, !OvsLaws W, !WorkingMachine W} pf names base es plugs
    (v : intelNetSecVspServer * W) :
  names_ok names base → ports_rel pf names base plugs v →
  ∃ v', port_calls es v = (v', Ret (spec_run (dom names) es plugs).2) ∧
    ports_rel pf names base (spec_run (dom names) es plugs).1 v' ∧
    bridge_ports OvSBridgeName v'.2 = base ∪ plugged_names names (spec_run (dom names) es plugs).1.
Proof.
  intros Hnames Hr.
  enough (wp (port_calls es) (λ bs v', bs = (spec_run (dom names) es plugs).2 ∧
    ports_rel pf names base (spec_run (dom names) es plugs).1 v') v) as (v' & bs & H & -> & Hr').
  { exists v'. split; [done|]. split; [done|apply Hr']. }
  revert v plugs Hr. induction es as [|e es IH]; intros v plugs Hr; cbn [port_calls spec_run]; [by apply wp_ret|].
  assert (wp (port_call e) (answers pf names base e plugs) v) as He.
  { destruct e as [vf m|vf]; apply wp_bind; (eapply wp_mono; [by apply wp_plug || apply wp_unplug|]); intros r v1 H1; by apply wp_ret. }
  apply wp_bind. eapply wp_mono; [exact He|]. intros b v1 H1. unfold answers in H1.
  destruct (port_spec (dom names) e plugs) as [plugs' b']. destruct H1 as [-> H1].
  apply wp_bind. eapply wp_mono; [by apply IH|]. intros bs v2 [-> H2]. apply wp_ret.
  by destruct (spec_run (dom names) es plugs') as [plugs2 bs2].
Qed.

(** * A machine that works, with one VF *)

Module PortsDemo.
Import HostDemo NetsecDemo.
#[export] Instance working_machine : WorkingMachine machine.
Proof.
  refine {| healthy m := ∀ a n, m_names m !! a = Some n → is_Some (m_links m !! n) |}; intros *.
  - intros Hh. split; [done|]. intros n Hn. simpl in *. by rewrite Hn.
  - intros Hh. split; [done|]. intros Hn. simpl. destruct (Hh _ _ Hn) as [l ->]. by exists l.
  - intros Hh. split; [|done]. intros a n Hn. apply lookup_insert_is_Some'. right. by eapply Hh.
  - done.
  - done.
  - intros Hh. simpl. unfold run, add_port_cmd, ovs_vsctl. simpl. by rewrite decide_True by done.
  - intros Hh. simpl. unfold run, del_port_cmd, ovs_vsctl. simpl. rewrite decide_True by done. by case_decide.
Defined.
Definition names : gmap Z string := {[0%Z := "bp2v0"]}.
Definition base : gset string := {["sfp1v0"]}.
Definition mac : HardwareAddr := [2; 0; 0; 0; 0; 9]%Z.
Definition calls : list port_event := [Plug 0 mac; Plug 0 mac; Plug 7 mac; Unplug 0; Unplug 0].
Lemma demo_names : names_ok names base.
Proof. split; intros *; unfold names, base; rewrite !lookup_singleton_Some; [intros [<- _]; lia|intros [<- _] [<- _]; done|intros [_ <-]; set_solver]. Qed.
Lemma vf_filed : vfDevs with_vf.1 = {[("bp2", 0%Z) := 0%nat]}.
Proof. vm_compute. reflexivity. Qed.
Lemma vf_described : heap with_vf.1 !! 0%nat = Some (mkVfDev ("bp2", 0%Z) "0000:f4:02.0" 2 false).
Proof. vm_compute. reflexivity. Qed.
Lemma vf_named : netdev "0000:f4:02.0" with_vf.2 = Some "bp2v0" ∧ netdev IntelNetSecDpuBackplanef2PCIeAddress with_vf.2 = Some "bp2".
Proof. vm_compute. split; reflexivity. Qed.
Lemma vf_chain : serviceFunctionChains with_vf.1 !! 0%Z = Some (mkChain ∅ (mkVfDev ("sfp1", 0%Z) "0000:f4:11.0" 0 true)).
Proof. vm_compute. reflexivity. Qed.
Lemma vf_bridge : bridge_ports OvSBridgeName with_vf.2 = base ∪ plugged_names names ∅.
Proof. vm_compute. reflexivity. Qed.
Lemma vf_healthy : healthy with_vf.2.
Proof.
  assert (map_Forall (λ _ n, is_Some (m_links with_vf.2 !! n)) (m_names with_vf.2)) as H; [|exact H].
  apply (bool_decide_eq_true_1 (map_Forall _ _)). vm_compute. reflexivity.
Qed.
Lemma demo_rel : ports_rel "bp2" names base ∅ with_vf.
Proof.
  destruct vf_named as [Hn Hpf]. split; [exact vf_healthy|exact Hpf| | | |exact vf_bridge].
  - intros vf. rewrite vf_filed. unfold names. rewrite !lookup_singleton_None.
    split; [intros H E; apply H; congruence|intros H E; apply H; congruence].
  - intros vf p. rewrite vf_filed, lookup_singleton_Some. intros [[= <-] <-]. eexists _, "bp2v0".
    rewrite vf_described. split_and!; [done|done|done|exact Hn|done].
  - eexists. split; [exact vf_chain|]. intros vf. simpl. by rewrite lookup_empty.
Qed.
Lemma demo_answers : (spec_run (dom names) calls ∅).2 = [true; false; false; true; false].
Proof. vm_compute. reflexivity. Qed.
End PortsDemo.
Import HostDemo NetsecDemo PortsDemo.

Lemma netsec_ports_refine_witness : ∃ v', port_calls calls with_vf = (v', Ret [true; false; false; true; false]) ∧
  bridge_ports OvSBridgeName v'.2 = base ∪ plugged_names names (spec_run (dom names) calls ∅).1.
Proof.
  destruct (netsec_ports_refine "bp2" names base calls ∅ with_vf demo_names demo_rel) as (v' & H & _ & Hb).
  rewrite demo_answers in H. exists v'. exact (conj H Hb).
Defined.
