(* ===== verification/EndToEnd.v ===== *)
(** The whole path of a bridge port: a pod of the host gets a virtual function, the daemon of
    the host (SideManagers.v) asks the daemon of the DPU for a port, which passes the request
    through its vendor plugin (GrpcPlugin.v) to the Netsec process (Netsec.v), and the
    interface of the VF is put on the bridge; the deletion of the pod takes the same path. *)
From S2P Require Import Prelude Plugin Scan Net OpiClient VendorPlugin GrpcPlugin GoMonad CniTypes SriovUtils Sriov SideManagers VspNet Netsec NetsecPorts Marvell Links.
#[local] Open Scope stdpp_scope.

(** * The system *)

(** The registry plugin the daemon of the DPU has attached leaves bridge ports to the
    process: none of its answers is a success. *)
Class Declines (P : Type) `{!PluginOps P} := {
  no_CreateBridgePort req p : is_ok (op_CreateBridgePort req p).2 = false;
  no_DeleteBridgePort name p : (op_DeleteBridgePort name p).2 ≠ None }.
#[export] Instance simple_declines {B} `{!OPIServer B} pd dial cs fs now :
  @Declines (plugin_state * world B) (simple_ops pd dial cs fs now).
Proof.
  split; intros *; simpl; unfold VendorPlugin.CreateBridgePort, VendorPlugin.DeleteBridgePort, unimplemented, unimplemented_err;
    destruct (initialized _); done.
Qed.

Section System.
Context {N1 N2 P W : Type} `{!NetOps N1, !NetOps N2, !PluginOps P, !HostOps W}.
Context (conn_state : nat → connectivity) (vsp_dial : option error) (unavailable : error) (status : error → error).

Definition netsec : Type := process (intelNetSecVspServer * W).
Definition dpu_side : Type := process (dpu_world N2 (GrpcPlugin * gworld P netsec)).
Definition system : Type := host_world N1 dpu_side.
(** The server of the Netsec process, as the daemon of the DPU, and the host, hold it. *)
Definition netsec_at (b : dpu_side) : intelNetSecVspServer * W := inside (g_vsp (vendor (inside b)).2).
Definition netsec_of (w : system) : intelNetSecVspServer * W := netsec_at (remote w).

(** The daemon of the DPU at time [now], and the two handlers of the host. *)
Definition vendor_at (now : Z) : VendorOps (GrpcPlugin * gworld P netsec) :=
  @grpc_vendor P netsec _ (netsec_process unavailable status) conn_state vsp_dial now.
Definition dpu_at (now : Z) : BridgeClient dpu_side :=
  @dpu_link unavailable status now N2 (GrpcPlugin * gworld P netsec) (vendor_at now).
Definition pod_add (dial : option error) (now : Z) (req : PodRequest) : M system (result (option CniResult)) :=
  hostCmdAddHandler (BridgeClient0 := dpu_at now) dial req.
Definition pod_del (dial : option error) (now : Z) (req : PodRequest) : M system (result (option CniResult)) :=
  hostCmdDelHandler (BridgeClient0 := dpu_at now) dial req.
End System.
Arguments netsec : clear implicits.
Arguments dpu_side : clear implicits.
Arguments system : clear implicits.

(** * A request on its way *)

Section Path.
Context {S V : Type} `{!PluginOps S, !VSPServer V} (conn_state : nat → connectivity) (vsp_dial : option error).
Lemma via_vsp_ok {A} what (leg : V → V * result A) g (w : gworld S V) g' w' a :
  via_vsp conn_state vsp_dial what leg g w = (g', w', Ok a) → leg (g_vsp w) = (g_vsp w', Ok a).
Proof.
  unfold via_vsp. destruct (ensureConnected conn_state vsp_dial g w) as [[g1 w1] e] eqn:E.
  assert (g_vsp w1 = g_vsp w) as ->. { unfold ensureConnected in E. repeat case_match; simplify_eq/=; done. }
  destruct e; [done|]. destruct (leg (g_vsp w)) as [v r]. by intros [= _ <- ->].
Qed.
(** When the attached plugin does not serve a request, success is the process's. *)
Lemma hybrid_declined {A} now what (try : S → S * result A) (leg : V → V * result A) g (w : gworld S V) g' w' a :
  (∀ p, is_ok (try p).2 = false) →
  hybrid conn_state vsp_dial now what try leg g w = (g', w', Ok a) → leg (g_vsp w) = (g_vsp w', Ok a).
Proof.
  unfold hybrid. intros Hno. destruct (ensureRegistryInitialized now g w) as [[g1 w1] ready] eqn:E.
  apply ensureRegistryInitialized_frame in E as (<- & _). destruct (ready && registryNetworkPlugin g1); [|apply via_vsp_ok].
  specialize (Hno (g_plugin w1)). destruct (try (g_plugin w1)) as [p [b|e]]; [done|].
  destruct (fallback_error e); [|done]. by intros H%via_vsp_ok.
Qed.
End Path.

(** A bridge port the daemon of the DPU is asked for with success is the process's. *)
Section Relay.
Context {N P V : Type} `{!NetOps N, !PluginOps P, !Declines P, !VSPServer V}.
Context (conn_state : nat → connectivity) (vsp_dial : option error) (unavailable : error) (status : error → error).
Abbreviation side := (process (dpu_world N (GrpcPlugin * gworld P V))).
Definition process_at (b : side) : V := g_vsp (vendor (inside b)).2.
Definition relay (now : Z) : BridgeClient side := dpu_link (VendorOps0 := grpc_vendor conn_state vsp_dial now) unavailable status now.
Lemma relay_create now req b b' r : @bc_CreateBridgePort _ (relay now) req b = (b', Ok r) →
  vsp_CreateBridgePort req (process_at b) = (process_at b', Ok r).
Proof.
  intros (_ & _ & H)%serve_ok. unfold DpuCreateBridgePort in H. destruct (CreateBp req); [|done].
  unfold returns, on_vendor in H. simpl in H. unfold GrpcPlugin.CreateBridgePort in H. unfold process_at.
  destruct (hybrid _ _ _ _ _ _ _ _) as [[g' w'] r'] eqn:E. injection H as H ->. rewrite <-H. simpl.
  apply hybrid_declined in E; [done|]. intros p. pose proof (no_CreateBridgePort (bridgePortRequestFromOPI req) p) as Hno.
  by destruct (op_CreateBridgePort _ p) as [p' [port|e]].
Qed.
Lemma relay_delete now name b b' : @bc_DeleteBridgePort _ (relay now) name b = (b', None) →
  vsp_DeleteBridgePort name (process_at b) = (process_at b', None).
Proof.
  intros (_ & _ & H)%serve_err_ok. unfold DpuDeleteBridgePort in H.
  unfold returns, on_vendor in H. simpl in H. unfold GrpcPlugin.DeleteBridgePort in H. unfold process_at.
  destruct (hybrid _ _ _ _ _ _ _ _) as [[g' w'] r'] eqn:E. injection H as H ->. rewrite <-H. simpl.
  apply hybrid_declined in E.
  - unfold of_err in E. by destruct (vsp_DeleteBridgePort name (g_vsp (vendor (inside b)).2)) as [v' [e|]]; simplify_eq/=.
  - intros p. pose proof (no_DeleteBridgePort name p) as Hno. unfold of_err. by destruct (op_DeleteBridgePort _ p) as [p' [e|]].
Qed.
End Relay.

Section Requests.
Context {N1 N2 P W : Type} `{!NetOps N1, !NetOps N2, !PluginOps P, !Declines P, !HostOps W}.
Context (conn_state : nat → connectivity) (vsp_dial : option error) (unavailable : error) (status : error → error).
Abbreviation dpu_at := (dpu_at (N2 := N2) (P := P) (W := W) conn_state vsp_dial unavailable status).
Abbreviation pod_add := (pod_add (N1 := N1) (N2 := N2) (P := P) (W := W) conn_state vsp_dial unavailable status).
Abbreviation pod_del := (pod_del (N1 := N1) (N2 := N2) (P := P) (W := W) conn_state vsp_dial unavailable status).

Lemma dpu_create now req b b' r : @bc_CreateBridgePort _ (dpu_at now) req b = (b', Ok r) →
  returns (Netsec.CreateBridgePort req) (netsec_at b) (netsec_at b') (Ok r).
Proof. intros H%relay_create. by apply serve_ok in H as (_ & _ & H). Qed.
Lemma dpu_delete now name b b' : @bc_DeleteBridgePort _ (dpu_at now) name b = (b', None) →
  returns (Netsec.DeleteBridgePort name) (netsec_at b) (netsec_at b') (Ok tt).
Proof. intros H%relay_delete. by apply serve_err_ok in H as (_ & _ & H). Qed.
End Requests.

(** * What the processes do to each other's ports *)

(** The port of a VF, by its MAC address on the host, in the chain of the Netsec server. *)
Definition port_mac (s : intelNetSecVspServer) (k : VfDeviceKey) : option string :=
  c ← serviceFunctionChains s !! 0%Z; hostSideMac <$> vfRepDevs c !! k.
(** [ifName] has been put on the bridge, and the port of [k] into the chain. *)
Record plugged {W} `{!OvsView W} (k : VfDeviceKey) (mac ifName : string) (v v' : intelNetSecVspServer * W) : Prop := {
  pl_free : port_mac v.1 k = None;
  pl_port j : port_mac v'.1 j = if decide (j = k) then Some mac else port_mac v.1 j;
  pl_device : ∃ p d, vfDevs v.1 !! k = Some p ∧ heap v'.1 !! p = Some d ∧ Allocated d = true ∧ netdev (VfPciAddress d) v'.2 = Some ifName;
  pl_bridge : bridge_ports OvSBridgeName v'.2 = {[ifName]} ∪ bridge_ports OvSBridgeName v.2 }.
Record unplugged {W} `{!OvsView W} (k : VfDeviceKey) (ifName : string) (v v' : intelNetSecVspServer * W) : Prop := {
  un_port j : port_mac v'.1 j = if decide (j = k) then None else port_mac v.1 j;
  un_bridge : bridge_ports OvSBridgeName v'.2 = bridge_ports OvSBridgeName v.2 ∖ {[ifName]} }.

Section Ports.
Context {W : Type} `{!HostOps W, !OvsView W, !OvsLaws W}.
Implicit Type (v : intelNetSecVspServer * W).
Lemma create_plugs vf m v v' r : netsec_inv v.1 →
  returns (Netsec.CreateBridgePort (host_port_request 0 vf m)) v v' (Ok r) →
  ∃ pf ifName, netdev IntelNetSecDpuBackplanef2PCIeAddress v'.2 = Some pf ∧ settles v.2 v'.2 ∧
    plugged (pf, vf) (mac_string m) ifName v v'.
Proof.
  intros Hinv H%CreateBridgePort_returns.
  destruct H as (bp & spec & pf & vf' & p & d & n & c & w2 & w3 & [= <-] & [= <-] & Hids & Hdev & Hd & Ha & Hc & Hk & Hs & Hn & Hw & Hup).
  cbn [BpName] in Hids. rewrite bridge_port_ids_host in Hids. case_decide; [|done]. injection Hids as <-.
  destruct (inv_devices _ Hinv _ _ Hdev) as (d' & Hd' & Ek & _). rewrite Hd in Hd'. injection Hd' as <-. rewrite Ek in *.
  apply GetNetDevName_name in Hn as [N2 Q2]. pose proof (WaitForNetDevReady_quiet _ _ _ _ _ Hw) as Q3.
  apply WaitForNetDevReady_name in Hw. apply ifUp_run in Hup as [S1 B1].
  exists pf, n. split; [by apply S1, Q3|]. split; [eapply settles_trans; [|exact S1]; eapply settles_trans; [apply Q2|apply Q3]|]. split.
  - unfold port_mac. rewrite Hc. simpl. by rewrite Hk.
  - intros j. unfold port_mac. rewrite Hs, Hc. simpl. rewrite lookup_alter_eq, Hc. simpl. case_decide as Ej; [subst j; by rewrite lookup_insert_eq|].
    by rewrite lookup_insert_ne by done.
  - exists p. eexists. rewrite Hs. simpl. rewrite list_lookup_alter_eq, Hd. split; [done|]. split; [done|]. split; [done|]. by apply S1.
  - rewrite B1. destruct Q2 as [_ Q2], Q3 as [_ Q3]. by rewrite Q3, Q2.
Qed.
Lemma delete_unplugs vf v v' : netsec_inv v.1 →
  returns (Netsec.DeleteBridgePort (host_port_name 0 vf)) v v' (Ok tt) →
  ∃ pf ifName, unplugged (pf, vf) ifName v v' ∧ is_Some (port_mac v.1 (pf, vf)).
Proof.
  intros Hinv H%DeleteBridgePort_returns.
  destruct H as (pf & vf' & p & d & rep & d' & n & c & w2 & w3 & Hids & Hdev & Hd & Hc & Hk & Hd' & Ha & Hs & Hn & Hw & Hdown).
  rewrite bridge_port_ids_host in Hids. case_decide; [|done]. injection Hids as <-.
  destruct (inv_devices _ Hinv _ _ Hdev) as (d0 & Hd0 & Ek & _). rewrite Hd in Hd0. injection Hd0 as <-. rewrite Ek in *.
  apply GetNetDevName_name in Hn as [_ Q2]. pose proof (WaitForNetDevReady_quiet _ _ _ _ _ Hw) as Q3. apply ifDown_run in Hdown as [_ B1].
  exists pf, n. split; [split|].
  - intros j. unfold port_mac. rewrite Hs, Hc. simpl. rewrite lookup_alter_eq, Hc. simpl. case_decide as Ej; [subst j; by rewrite lookup_delete_eq|].
    by rewrite lookup_delete_ne by done.
  - rewrite B1. destruct Q2 as [_ Q2], Q3 as [_ Q3]. by rewrite Q3, Q2.
  - unfold port_mac. rewrite Hc. simpl. rewrite Hk. by eexists.
Qed.
End Ports.

(** * The processes survive *)

(** What a Netsec process that was initialized has, and bridge-port requests keep. *)
Definition port_ready (s : intelNetSecVspServer) : Prop := netsec_inv s ∧ is_Some (serviceFunctionChains s !! 0%Z).
Section Survives.
Context {W : Type} `{!HostOps W}.
Implicit Type (v : intelNetSecVspServer * W).
Lemma total_ifUp n : total (ifUpAndAddToBridge n : M W _).
Proof.
  apply total_call; [apply total_acts|]. intros l. apply total_call; [apply total_acts_err|]. intros _. apply total_acts_err.
Qed.
Lemma total_ifDown n : total (ifDownAndDelFromBridge n : M W _).
Proof.
  apply total_call; [apply total_acts|]. intros l. apply total_call; [apply total_acts_err|]. intros _. apply total_acts_err.
Qed.
Lemma wp_getConnectedVf name v : netsec_inv v.1 →
  wp (getConnectedVf name) (λ r v', v'.1 = v.1 ∧ match r with Ok p => is_Some (heap v.1 !! p) | Err _ => True end) v.
Proof.
  intros Hinv. unfold getConnectedVf. destruct (bridge_port_ids name) as [[pf vf]|e]; [|by apply wp_ret].
  destruct (negb _); [by apply wp_ret|]. apply wp_call, wp_on_host_total; [apply total_acts|]. intros [n|e] w; [|done].
  apply wp_bind, wp_server, wp_ret. split; [done|]. simpl. destruct (vfDevs v.1 !! (n, vf)) eqn:E; [|done].
  destruct (inv_devices _ Hinv _ _ E) as (d & -> & _). by eexists.
Qed.
Lemma wp_deref_any p v : is_Some (heap v.1 !! p) → wp (deref p) (λ d v', heap v.1 !! p = Some d ∧ v' = v) v.
Proof. intros [d Hd]. unfold deref. apply wp_bind, wp_server. rewrite Hd. by apply wp_ret. Qed.
Lemma create_survives vf m v : port_ready v.1 →
  wp (Netsec.CreateBridgePort (host_port_request 0 vf m)) (λ _ v', port_ready v'.1) v.
Proof.
  intros [Hinv [c Hc]]. enough (wp (Netsec.CreateBridgePort (host_port_request 0 vf m)) (λ _ v', is_Some (serviceFunctionChains v'.1 !! 0%Z)) v) as (v' & r & H & Hc').
  { exists v', r. split; [done|]. split; [|done]. by apply (keep_create _ _ _ _ H). }
  unfold Netsec.CreateBridgePort. cbn [CreateBp host_port_request BpName BpSpec].
  apply wp_call. eapply wp_mono; [by apply wp_getConnectedVf|]. intros [p|e] v1 [E1 Hp]; [|simpl; rewrite E1; eauto].
  rewrite <-E1 in Hp. apply wp_bind. eapply wp_mono; [by apply wp_deref_any|]. intros d ? [Hd ->].
  destruct (Allocated d); [apply wp_ret; simpl; rewrite E1; eauto|].
  apply wp_call, wp_on_host_total; [apply total_WaitForNetDevReady|]. intros [n|e] w; [|simpl; rewrite E1; eauto].
  apply wp_call, wp_on_host_total; [apply total_ifUp|]. intros [[]|e] w'; [|simpl; rewrite E1; eauto].
  apply wp_bind, wp_server. simpl. rewrite E1, Hc. destruct (vfRepDevs c !! _); [apply wp_ret; simpl; rewrite ?E1; eauto|].
  apply wp_bind, wp_modify, wp_bind, wp_modify, wp_ret. simpl. rewrite ?E1, lookup_alter_eq, Hc. by eexists.
Qed.
Lemma delete_survives name v : port_ready v.1 → wp (Netsec.DeleteBridgePort name) (λ _ v', port_ready v'.1) v.
Proof.
  intros [Hinv [c Hc]]. enough (wp (Netsec.DeleteBridgePort name) (λ _ v', is_Some (serviceFunctionChains v'.1 !! 0%Z)) v) as (v' & r & H & Hc').
  { exists v', r. split; [done|]. split; [|done]. by apply (keep_delete _ _ _ _ H). }
  unfold Netsec.DeleteBridgePort. apply wp_call. eapply wp_mono; [by apply wp_getConnectedVf|]. intros [p|e] v1 [E1 Hp]; [|simpl; rewrite ?E1; eauto].
  rewrite <-E1 in Hp. apply wp_bind. eapply wp_mono; [by apply wp_deref_any|]. intros d ? [Hd ->].
  apply wp_call, wp_on_host_total; [apply total_WaitForNetDevReady|]. intros [n|e] w; [|simpl; rewrite ?E1; eauto].
  apply wp_call, wp_on_host_total; [apply total_ifDown|]. intros [[]|e] w'; [|simpl; rewrite ?E1; eauto].
  apply wp_bind, wp_server. simpl. rewrite E1, Hc. destruct (vfRepDevs c !! _) as [rep|] eqn:Er; [|apply wp_ret; simpl; rewrite ?E1; eauto].
  apply wp_bind. eapply wp_mono; [apply wp_deref_any; simpl; rewrite ?E1; destruct (inv_ports _ Hinv _ _ _ Hc Er) as (d' & -> & _); by eexists|].
  intros d' ? [Hd' ->]. destruct (negb _); [apply wp_ret; simpl; rewrite ?E1; eauto|].
  apply wp_bind, wp_modify, wp_bind, wp_modify, wp_ret. simpl. rewrite ?E1, lookup_alter_eq, Hc. by eexists.
Qed.
End Survives.

Section Running.
Context {N1 N2 P W : Type} `{!NetOps N1, !NetOps N2, !PluginOps P, !HostOps W}.
Context (conn_state : nat → connectivity) (vsp_dial : option error) (unavailable : error) (status : error → error).
Abbreviation dpu_at := (dpu_at (N2 := N2) (P := P) (W := W) conn_state vsp_dial unavailable status).
Abbreviation pod_add := (pod_add (N1 := N1) (N2 := N2) (P := P) (W := W) conn_state vsp_dial unavailable status).
Abbreviation pod_del := (pod_del (N1 := N1) (N2 := N2) (P := P) (W := W) conn_state vsp_dial unavailable status).

(** Both processes of the DPU run, and the Netsec server is initialized. *)
Definition running (b : dpu_side N2 P W) : Prop :=
  b.1 = true ∧ (g_vsp (vendor (inside b)).2).1 = true ∧ port_ready (netsec_at b).1.

Lemma serve_runs {X A} (f : M X (result A)) (Q : X → Prop) p : p.1 = true → wp f (λ _, Q) (inside p) →
  (serve unavailable status f p).1.1 = true ∧ Q (inside (serve unavailable status f p).1).
Proof. unfold serve, inside. intros -> (w & r & H & HQ). unfold returns in H. by rewrite H. Qed.
Lemma serve_err_runs {X} (f : M X (result unit)) (Q : X → Prop) p : p.1 = true → wp f (λ _, Q) (inside p) →
  (serve_err unavailable status f p).1.1 = true ∧ Q (inside (serve_err unavailable status f p).1).
Proof. intros Hp Hf. pose proof (serve_runs f Q p Hp Hf) as H. unfold serve_err. by destruct (serve unavailable status f p). Qed.
Lemma hybrid_vsp {V A} `{!VSPServer V} (I : V → Prop) now what (try : P → P * result A) (leg : V → V * result A) g (w : gworld P V) :
  I (g_vsp w) → I (leg (g_vsp w)).1 → I (g_vsp (hybrid conn_state vsp_dial now what try leg g w).1.2).
Proof.
  intros Hw Hleg. unfold hybrid. destruct (ensureRegistryInitialized now g w) as [[g1 w1] ready] eqn:E.
  apply ensureRegistryInitialized_frame in E as (Hv & _).
  assert (∀ g2 (w2 : gworld P V), g_vsp w2 = g_vsp w → I (g_vsp (via_vsp conn_state vsp_dial what leg g2 w2).1.2)) as Hvia.
  { intros g2 w2 E2. unfold via_vsp. destruct (ensureConnected conn_state vsp_dial g2 w2) as [[g3 w3] e] eqn:E3.
    assert (g_vsp w3 = g_vsp w) as E4. { rewrite <-E2. unfold ensureConnected in E3. repeat case_match; simplify_eq/=; done. }
    destruct e; simpl; rewrite ?E4; [done|]. by destruct (leg (g_vsp w)). }
  destruct (ready && registryNetworkPlugin g1); [|by apply Hvia].
  destruct (try (g_plugin w1)) as [p [b|e]]; simpl; [by rewrite Hv|]. destruct (fallback_error e); [by apply Hvia|]. simpl. by rewrite Hv.
Qed.

Lemma wp_on_vendor {N V A} (f : V → V * A) Q (w : dpu_world N V) :
  Q (f (vendor w)).2 (mkDpuWorld (dpu w) (dpu_cni w) (f (vendor w)).1) → wp (on_vendor f) Q w.
Proof. intros HQ. unfold wp, returns, on_vendor. destruct (f (vendor w)) as [v a]. by eexists _, _. Qed.

(** The state of the vendor plugin in which the Netsec process runs, initialized. *)
Definition vsp_running (p : netsec W) : Prop := p.1 = true ∧ port_ready (inside p).1.
Lemma running_vsp b : running b ↔ b.1 = true ∧ vsp_running (g_vsp (vendor (inside b)).2).
Proof. done. Qed.
Lemma create_running now vf m b : running b → running (@bc_CreateBridgePort _ (dpu_at now) (host_port_request 0 vf m) b).1.
Proof.
  rewrite !running_vsp. intros [Hb Hv]. apply (serve_runs _ (λ w, vsp_running (g_vsp (vendor w).2))); [done|].
  unfold DpuCreateBridgePort. cbn [CreateBp host_port_request]. apply wp_on_vendor. simpl.
  apply (hybrid_vsp (VSPServer0 := netsec_process unavailable status) vsp_running); [done|]. destruct Hv as [Hv Hr]. apply (serve_runs _ (λ v, port_ready v.1)); [done|]. by apply create_survives.
Qed.
Lemma delete_running now name b : running b → running (@bc_DeleteBridgePort _ (dpu_at now) name b).1.
Proof.
  rewrite !running_vsp. intros [Hb Hv]. apply (serve_err_runs _ (λ w, vsp_running (g_vsp (vendor w).2))); [done|].
  unfold DpuDeleteBridgePort. apply wp_on_vendor. simpl.
  apply (hybrid_vsp (VSPServer0 := netsec_process unavailable status) vsp_running); [done|]. destruct Hv as [Hv Hr]. unfold of_err.
  pose proof (serve_err_runs (Netsec.DeleteBridgePort name) (λ v, port_ready v.1) _ Hv (delete_survives name _ Hr)) as H.
  by destruct (serve_err _ _ _ _) as [q [e|]].
Qed.
Lemma ping_running now b : running b → running (@bc_Ping _ (dpu_at now) b).1.
Proof. intros (Hb & Hv). unfold running, dpu_at. simpl. unfold serve_err, serve. rewrite Hb. done. Qed.

End Running.

(** * The host at work *)

(** A pod of the host is added or deleted, whatever the outcome, or the DPU is pinged. *)
Inductive host_step {N1 N2 P W} `{!NetOps N1, !NetOps N2, !PluginOps P, !HostOps W} conn_state vsp_dial unavailable status :
    system N1 N2 P W → system N1 N2 P W → Prop :=
  | host_add dial now req w : host_step conn_state vsp_dial unavailable status w
      (pod_add conn_state vsp_dial unavailable status dial now req w).1
  | host_del dial now req w : host_step conn_state vsp_dial unavailable status w
      (pod_del conn_state vsp_dial unavailable status dial now req w).1
  | host_ping dial now w : host_step conn_state vsp_dial unavailable status w
      (@HostPing N1 _ (dpu_at conn_state vsp_dial unavailable status now) dial now w).1.

(** * Properties *)

(** C1: when a pod of the host is added successfully, the interface of its VF has been put
    on the bridge of the DPU and the chain has the port of that VF, which it did not have,
    with the MAC address of the VF on the host: the request of the host's daemon has come
    through the daemon of the DPU and its vendor plugin to the Netsec process, with the right
    name. *)
Theorem pod_add_plugs {N1 N2 P W} `{!NetOps N1, !NetOps N2, !PluginOps P, !Declines P, !HostOps W, !OvsView W, !OvsLaws W}
    conn_state vsp_dial unavailable status dial now req (w w' : system N1 N2 P W) r :
  netsec_inv (netsec_of w).1 →
  returns (pod_add conn_state vsp_dial unavailable status dial now req) w w' (Ok r) →
  ∃ conf m pf ifName, cache (host_cni w') !! cache_path (ContainerId req) (CniTypes.IfName req) = Some (json_roundtrip conf) ∧
    ParseMAC (EffectiveMAC (OrigVfState conf)) = Ok m ∧
    plugged (pf, VFID conf) (mac_string m) ifName (netsec_of w) (netsec_of w').
Proof.
  intros Hinv H. apply host_add_bridge_port in H as (conf & m & port & Hm & Hc & Hcache).
  apply dpu_create in Hc. apply create_plugs in Hc as (pf & n & _ & _ & Hp); [|done]. by exists conf, m, pf, n.
Qed.


(** C17: no two pods share a VF of the DPU: while the chain has the port of a VF, no pod that
    is given this VF is added successfully.  The host drops the error of a deletion
    ([HostDeleteBridgePort]): a VF whose port was not deleted is free on the host and every
    pod it is given to from then on fails. *)
Theorem plugged_vf_refused {N1 N2 P W} `{!NetOps N1, !NetOps N2, !PluginOps P, !Declines P, !HostOps W, !OvsView W, !OvsLaws W}
    conn_state vsp_dial unavailable status dial now req pf vf mac (w w' : system N1 N2 P W) r :
  netsec_inv (netsec_of w).1 → netdev IntelNetSecDpuBackplanef2PCIeAddress (netsec_of w).2 = Some pf →
  port_mac (netsec_of w).1 (pf, vf) = Some mac →
  returns (pod_add conn_state vsp_dial unavailable status dial now req) w w' (Ok r) →
  ∃ conf, cache (host_cni w') !! cache_path (ContainerId req) (CniTypes.IfName req) = Some conf ∧ VFID conf ≠ vf.
Proof.
  intros Hinv Hpf Hport H. apply host_add_bridge_port in H as (conf & m & port & Hm & Hc & Hcache).
  apply dpu_create in Hc. apply create_plugs in Hc as (pf' & n & Hpf' & Hs & Hp); [|done].
  exists (json_roundtrip conf). split; [done|]. intros E. simpl in E. apply Hs in Hpf.
  pose proof (pl_free _ _ _ _ _ Hp) as Hfree. unfold netsec_of in *. congruence.
Qed.

(** C3: no request of the host's pods takes a process of the DPU down: whatever pods come and
    go, with whatever outcome, the daemon and the initialized Netsec process keep running, and
    the invariant of its devices holds. *)
Theorem pods_never_crash {N1 N2 P W} `{!NetOps N1, !NetOps N2, !PluginOps P, !HostOps W}
    conn_state vsp_dial unavailable status (w w' : system N1 N2 P W) :
  running (remote w) → rtc (host_step conn_state vsp_dial unavailable status) w w' → running (remote w').
Proof.
  intros Hr Hs. induction Hs as [w|w w1 w2 Hstep _ IH]; [done|]. apply IH. clear IH.
  destruct Hstep as [dial now req w|dial now req w|dial now w].
  - destruct (host_add_remote (B := dpu_side N2 P W) (BridgeClient0 := dpu_at conn_state vsp_dial unavailable status now) dial req w) as [E|(vf & m & E)];
      refine (eq_ind_r running _ E); [done|by apply create_running].
  - destruct (host_del_remote (B := dpu_side N2 P W) (BridgeClient0 := dpu_at conn_state vsp_dial unavailable status now) dial req w) as [E|(vf & E)];
      refine (eq_ind_r running _ E); [done|by apply delete_running].
  - destruct (host_ping_remote (B := dpu_side N2 P W) (BridgeClient0 := dpu_at conn_state vsp_dial unavailable status now) dial now w) as [E|E];
      refine (eq_ind_r running _ E); [done|by apply ping_running].
Qed.

(** * A host and its DPU *)

Module EndToEndDemo.
Import VendorDemo GrpcDemo HostDemo.
#[export] Existing Instance SriovDemo.demo_net.
Definition unavailable : error := Text "rpc error: code = Unavailable".
Definition status (e : error) : error := Text ("rpc error: code = Unknown desc = " +:+ Error e).
Abbreviation plugin := (plugin_state * world unit)%type.
Abbreviation sys := (system SriovDemo.machine SriovDemo.machine plugin machine).
#[export] Instance declines : Declines plugin := simple_declines Intel.desc VendorDemo.dial VendorDemo.up (ScanDemo.fs true) 0.
(** The accelerator of NetsecDemo with a second VF. *)
Definition two_vfs : machine := NetsecDemo.dpu
  <| m_names := <["0000:f4:02.1" := "bp2v1"]> (m_names NetsecDemo.dpu) |>
  <| m_symlinks := <["/sys/class/net/bp2/device/virtfn1" := "../0000:f4:02.1"]> (m_symlinks NetsecDemo.dpu) |>
  <| m_links := <["bp2v1" := link_of 9 "bp2v1"]> (m_links NetsecDemo.dpu) |>.
Definition started : intelNetSecVspServer * machine := (NewIntelNetSecVspServer, two_vfs).
Definition initialized := (Netsec.Init true "dpu-1" started).1.
Definition with_vfs := (Netsec.SetNumVfs 2 initialized).1.
Definition daemon : GrpcPlugin * gworld plugin (netsec machine) :=
  (g0, Build_gworld (New, Build_world no_conns tt) (true, with_vfs) no_conns).
Definition w0 : sys :=
  mkHostWorld (mkHost false None) (SriovDemo.w0 false) (true, mkDpuWorld (mkDpu ∅ None) (SriovDemo.w0 false) daemon).
Abbreviation add := (pod_add up None unavailable status None 0).
Abbreviation del := (pod_del up None unavailable status None 60).
Abbreviation step := (host_step up None unavailable status).
Definition w1 : sys := (add SriovDemo.plain w0).1.
Definition w2 : sys := (del SriovDemo.plain w1).1.
Definition w3 : sys := (add SriovDemo.other w1).1.
Definition added (o : outcome (result (option CniResult))) : option CniResult := match o with Ret (Ok r) => r | _ => None end.
Lemma init_worked : (Netsec.Init true "dpu-1" started).2 = Ret (Ok ("[fe80::1%bp2]", 8085%Z)).
Proof. vm_compute. reflexivity. Qed.
Lemma vfs_worked : (Netsec.SetNumVfs 2 initialized).2 = Ret (Ok 2%Z).
Proof. vm_compute. reflexivity. Qed.
Lemma with_vfs_inv : netsec_inv with_vfs.1.
Proof.
  apply reachable_inv. eapply (reach_op (Netsec.OpSetNumVfs 2)); [|eapply ignore_returns; eexists; exact (ran _ _ _ vfs_worked)].
  eapply (reach_op (Netsec.OpInit true "dpu-1")); [apply reach_start|eapply ignore_returns; eexists; exact (ran _ _ _ init_worked)].
Qed.
Lemma add_worked : (add SriovDemo.plain w0).2 = Ret (Ok (added (add SriovDemo.plain w0).2)).
Proof. vm_compute. reflexivity. Qed.
Lemma del_worked : (del SriovDemo.plain w1).2 = Ret (Ok None).
Proof. vm_compute. reflexivity. Qed.
Lemma other_worked : (add SriovDemo.other w1).2 = Ret (Ok (added (add SriovDemo.other w1).2)).
Proof. vm_compute. reflexivity. Qed.
Lemma vf_given_back : released (CmdDel SriovDemo.plain (host_cni w1)) = true.
Proof. vm_compute. reflexivity. Qed.
Definition cached : NetConf := default zero_NetConf (cache (host_cni w1) !! cache_path "c1" "net1").
Lemma vf_cached : cache (host_cni w1) !! cache_path "c1" "net1" = Some cached.
Proof. vm_compute. reflexivity. Qed.
Lemma dpu_agreed : (@bc_DeleteBridgePort _ (dpu_at up None unavailable status 60) (host_port_name 0 (VFID cached)) (remote w1)).2 = None.
Proof. vm_compute. reflexivity. Qed.
Lemma w0_running : running (remote w0).
Proof.
  split; [done|]. split; [done|]. split; [exact with_vfs_inv|].
  assert (bool_decide (is_Some (serviceFunctionChains with_vfs.1 !! 0%Z)) = true) as H by (vm_compute; reflexivity).
  exact (bool_decide_eq_true_1 _ H).
Qed.
Lemma w0_w2 : rtc step w0 w2.
Proof. apply rtc_l with w1; [apply host_add|apply rtc_once, host_del]. Qed.
Lemma w1_inv : netsec_inv (netsec_of w1).1.
Proof.
  assert (running (remote w1)) as (_ & _ & H & _); [|exact H].
  destruct (host_add_remote (B := dpu_side SriovDemo.machine plugin machine) (BridgeClient0 := dpu_at up None unavailable status 0) None SriovDemo.plain w0) as [E|(vf & m & E)];
    (refine (eq_ind_r running _ E); [try exact w0_running; by apply create_running, w0_running]).
Qed.
Lemma w1_named : netdev IntelNetSecDpuBackplanef2PCIeAddress (netsec_of w1).2 = Some "bp2".
Proof. vm_compute. reflexivity. Qed.
Lemma w1_port : port_mac (netsec_of w1).1 ("bp2", 0%Z) = Some "02:00:00:00:00:01".
Proof. vm_compute. reflexivity. Qed.
End EndToEndDemo.
Import VendorDemo GrpcDemo HostDemo EndToEndDemo.

Lemma pod_add_plugs_witness : ∃ conf m pf ifName, ParseMAC (EffectiveMAC (OrigVfState conf)) = Ok m ∧
  plugged (pf, VFID conf) (mac_string m) ifName (netsec_of w0) (netsec_of w1).
Proof.
  destruct (pod_add_plugs up None unavailable status None 0 SriovDemo.plain w0 w1 _ with_vfs_inv (ran _ _ _ add_worked))
    as (conf & m & pf & n & _ & Hm & Hp). exact (ex_intro _ conf (ex_intro _ m (ex_intro _ pf (ex_intro _ n (conj Hm Hp))))).
Defined.
Lemma plugged_vf_refused_witness : ∃ conf, cache (host_cni w3) !! cache_path "c2" "net1" = Some conf ∧ VFID conf ≠ 0%Z.
Proof.
  exact (plugged_vf_refused up None unavailable status None 0 SriovDemo.other "bp2" 0 _ w1 w3 _ w1_inv w1_named w1_port
    (ran _ _ _ other_worked)).
Defined.
Lemma pods_never_crash_witness : running (remote w2).
Proof. exact (pods_never_crash up None unavailable status w0 w2 w0_running w0_w2). Defined.
