(* ===== verification/KubeletServer.v ===== *)
(** How the device plugin server is run and stopped, internal/daemon/device-plugin: [Listen],
    [Serve] with its test connection and its registration with the kubelet, and [Stop].

    [Listen] and [Serve] run in one goroutine, the gRPC server in a second one that [Serve]
    starts, [Stop] in the goroutine that waits for the context; their steps interleave.  The
    host side calls [Listen] before it starts the goroutine of [Serve]
    (hostsidemanager.go), the DPU side in it (dpusidemanager.go), so that there [Stop] may
    come first. *)
From S2P Require Import Prelude Plugin GoMonad Platform Cluster.
#[local] Open Scope stdpp_scope.

(** * The endpoints *)

(** The last element of a path that is not empty. *)
Definition Base (p : string) : string :=
  match list.last (filter (λ s, s ≠ "") (split_char "/" p)) with Some n => n | None => if String.eqb p "" then "." else "/" end.
Definition PluginEndpointFilename (p : PathManager) : string := Base (PluginEndpoint p).
Definition DpuResourceName (env : option string) : string :=
  match env with Some value => if negb (String.eqb value "") then value else "openshift.io/dpu" | None => "openshift.io/dpu" end.
Record RegisterRequest := { Version : string; Endpoint : string; ResourceName : string }.
(** [version] is that of the kubelet's API. *)
Definition register_request (version : string) (p : PathManager) (env : option string) : RegisterRequest :=
  {| Version := version; Endpoint := PluginEndpointFilename p; ResourceName := DpuResourceName env |}.
(** What [Serve] dials: itself, and the kubelet. *)
Definition test_target (p : PathManager) : string := "unix:" +:+ PluginEndpoint p.
Definition kubelet_target (p : PathManager) : string := Join ["unix:"; KubeletEndPoint p].

(** * The goroutines *)

(** [dp.grpcServer]. *)
Inductive server := Fresh | Stopped | Nil.
(** Where [Listen] and [Serve] are: about to remove the old socket, to open the new one, to
    register the service and count [startedWg] up; then about to start the gRPC goroutine, to
    dial themselves, to register with the kubelet, to receive from [done], to wait for the
    goroutine, to run the deferred count-down with the result, and back. *)
Inductive caller :=
  | Cleaning | Opening | Registering | Starting | Dialling | Announcing | Receiving | Joining (r : result unit)
  | Leaving (r : result unit) | Back (r : result unit) | Panicked.
(** The gRPC goroutine: not started, about to call [Serve], serving, with a result to send,
    about to count the wait group down, ended. *)
Inductive worker := Unborn | Ready | Accepting | Sending (r : result unit) | Sent | Ended | WorkerPanicked.
(** [Stop]: not called, the server stopped, [startedWg] waited for, [grpcServer] set to nil,
    returned. *)
Inductive stopper := NotCalled | Waiting | Clearing | Removing | Returned (r : result unit).

Record plugin := mkPlugin {
  obj : server; call_pc : caller; work_pc : worker; stop_pc : stopper; done_chan : option (result unit); started : Z;
  socket : bool; accepted : bool; announced : bool }.
#[export] Instance plugin_eta : Eta plugin := λ s,
  mkPlugin (obj s) (call_pc s) (work_pc s) (stop_pc s) (done_chan s) (started s) (socket s) (accepted s) (announced s).
Definition new_plugin : plugin := mkPlugin Fresh Cleaning Unborn NotCalled None 0 false false false.
(** [Listen] has returned a listener. *)
Definition listened : plugin := mkPlugin Fresh Starting Unborn NotCalled None 1 true false false.

Definition failed (msg : string) (r : result unit) : result unit := rerr (λ e, Text (msg +:+ Error e)) r.

#[global] Arguments failed : simpl never.

(** The steps the goroutines take by themselves.  What the system answers to a call is the
    argument [r] of the step. *)
Inductive go_step (s : plugin) : plugin → Prop :=
  | kp_clean r : call_pc s = Cleaning →
      go_step s (match r with
                 | Ok _ => s <| call_pc := Opening |> <| socket := false |>
                 | Err _ => s <| call_pc := Back (failed "failed to cleanup Device Plugin server endpoint: " r) |>
                 end)
  | kp_open r : call_pc s = Opening →
      go_step s (match r with
                 | Ok _ => s <| call_pc := Registering |> <| socket := true |>
                 | Err _ => s <| call_pc := Back (failed "failed to listen to Device Plugin server: " r) |>
                 end)
  (** Registering a service dereferences the server. *)
  | kp_register : call_pc s = Registering →
      go_step s (match obj s with
                 | Nil => s <| call_pc := Panicked |>
                 | _ => s <| call_pc := Starting |> <| started := (started s + 1)%Z |>
                 end)
  | kp_start_worker : call_pc s = Starting → go_step s (s <| call_pc := Dialling |> <| work_pc := Ready |>)
  (** The dial blocks until the server accepts, for 5 s at most: by then the goroutine has run. *)
  | kp_dial : call_pc s = Dialling → work_pc s = Accepting → go_step s (s <| call_pc := Announcing |> <| accepted := true |>)
  | kp_dial_fails e : call_pc s = Dialling → work_pc s ≠ Ready →
      go_step s (s <| call_pc := Leaving (failed "failed to ensure Device Plugin server started: " (Err e)) |>)
  | kp_announce r : call_pc s = Announcing →
      go_step s (match r with
                 | Ok _ => s <| call_pc := Receiving |> <| announced := true |>
                 | Err _ => s <| call_pc := Leaving (failed "failed to register the Device Plugin server with Kubelet: " r) |>
                 end)
  | kp_receive r : call_pc s = Receiving → done_chan s = Some r → go_step s (s <| call_pc := Joining r |> <| done_chan := None |>)
  | kp_join r : call_pc s = Joining r → work_pc s = Ended →
      go_step s (s <| call_pc := Leaving (failed "serving Device Plugin incoming requests failed: " r) |>)
  | kp_leave r : call_pc s = Leaving r →
      go_step s (s <| call_pc := if (started s <? 1)%Z then Panicked else Back r |> <| started := (started s - 1)%Z |>)
  | kp_work r : work_pc s = Ready →
      go_step s (s <| work_pc := match obj s with Fresh => Accepting | Stopped => Sending (Err r) | Nil => WorkerPanicked end |>)
  | kp_work_stopped : work_pc s = Accepting → obj s ≠ Fresh → go_step s (s <| work_pc := Sending (Ok tt) |>)
  | kp_send r : work_pc s = Sending r → done_chan s = None → go_step s (s <| work_pc := Sent |> <| done_chan := Some r |>)
  | kp_count : work_pc s = Sent → go_step s (s <| work_pc := Ended |>)
  | kp_stop_waited : stop_pc s = Waiting → started s = 0%Z → go_step s (s <| stop_pc := Clearing |>)
  | kp_stop_cleared : stop_pc s = Clearing → go_step s (s <| stop_pc := Removing |> <| obj := Nil |>)
  | kp_stop_removed r : stop_pc s = Removing →
      go_step s (s <| stop_pc := Returned r |> <| socket := match r with Ok _ => false | Err _ => socket s end |>).
(** What comes from outside: [Stop] is called, or the listener fails. *)
Inductive env_step (s : plugin) : plugin → Prop :=
  | kp_call_stop : stop_pc s = NotCalled →
      env_step s (match obj s with
                  | Nil => s <| stop_pc := Returned (Ok tt) |>
                  | _ => s <| stop_pc := Waiting |> <| obj := Stopped |>
                  end)
  | kp_listener_fails e : work_pc s = Accepting → env_step s (s <| work_pc := Sending (Err e) |>).
Definition any_step (s s' : plugin) : Prop := go_step s s' ∨ env_step s s'.

(** * Every run is finite *)

Definition caller_weight (c : caller) : nat :=
  match c with
  | Cleaning => 13 | Opening => 12 | Registering => 11 | Starting => 10 | Dialling => 5 | Announcing => 4 | Receiving => 3
  | Joining _ => 2 | Leaving _ => 1 | Back _ | Panicked => 0
  end.
Definition worker_weight (w : worker) : nat :=
  match w with Unborn | Ready => 4 | Accepting => 3 | Sending _ => 2 | Sent => 1 | Ended | WorkerPanicked => 0 end.
Definition stopper_weight (t : stopper) : nat :=
  match t with NotCalled => 4 | Waiting => 3 | Clearing => 2 | Removing => 1 | Returned _ => 0 end.
Definition weight (s : plugin) : nat := caller_weight (call_pc s) + worker_weight (work_pc s) + stopper_weight (stop_pc s).
Lemma go_step_weight s s' : go_step s s' → weight s' < weight s.
Proof.
  unfold weight. destruct 1 as [r E|r E|E|E|E E'|e E _|r E|r E _|r E _|r E|r E|E _|r E _|E|E _|E|r E];
    simpl; rewrite ?E, ?E'; try destruct r;
    try destruct (obj s); try destruct (started s <? 1)%Z; simpl; rewrite ?E, ?E'; simpl; lia.
Qed.
Lemma go_step_sn s : sn go_step s.
Proof. apply (sn_invariant _ (λ _, True) weight); [|done]. intros a b _ H. split; [done|]. by apply go_step_weight. Qed.

(** * Once [Listen] has returned *)

(** [Listen] and [Serve] have not come so far that [Stop] would go on. *)
Definition serving (c : caller) : bool :=
  match c with Starting | Dialling | Announcing | Receiving | Joining _ | Leaving _ => true | _ => false end.
Definition collected (c : caller) : bool := match c with Joining _ | Leaving _ | Back _ => true | _ => false end.
Definition reported (w : worker) : bool := match w with Sent | Ended => true | _ => false end.
(** Where the two goroutines may be at the same time. *)
Definition compatible (c : caller) (w : worker) : bool :=
  match c, w with
  | Starting, Unborn => true
  | (Starting | Cleaning | Opening | Registering | Panicked), _ | _, (Unborn | WorkerPanicked) => false
  | Dialling, _ => true
  | _, Ready => false
  | Joining _, _ => reported w
  | _, _ => true
  end.
Definition obj_of (t : stopper) : server := match t with NotCalled => Fresh | Waiting | Clearing => Stopped | Removing | Returned _ => Nil end.
Definition may_go_on (c : caller) (t : stopper) : bool := match t with NotCalled | Waiting => true | _ => negb (serving c) end.
Record plugin_ok (s : plugin) : Prop := {
  ok_pcs : compatible (call_pc s) (work_pc s) = true;
  ok_started : started s = if serving (call_pc s) then 1%Z else 0%Z;
  ok_obj : obj s = obj_of (stop_pc s);
  ok_stop : may_go_on (call_pc s) (stop_pc s) = true;
  ok_unsent : reported (work_pc s) = false → done_chan s = None;
  ok_sent : reported (work_pc s) = true → collected (call_pc s) = false → is_Some (done_chan s) }.
Lemma listened_ok : plugin_ok listened.
Proof. by split. Qed.
Lemma go_step_ok s s' : plugin_ok s → go_step s s' → plugin_ok s'.
Proof.
  intros [Hc Hst Ho Hstop Hus Hse] H.
  destruct H as [r E|r E|E|E|E E'|e E E'|r E|r E E'|r E E'|r E|r E|E E'|r E E'|E|E E'|E|r E]; rewrite E in *; try rewrite E' in *; simpl in *; try done;
    try (destruct r as [[]|e]); try (rewrite Hst); split; simpl; rewrite ?E; try rewrite E'; try done.
  all: try solve [intros; auto | destruct (work_pc s); simpl in *; auto; discriminate | destruct (stop_pc s); simpl in *; auto; discriminate
    | destruct (call_pc s); simpl in *; auto; discriminate].
  - by destruct (work_pc s); simpl in *; try (discriminate (Hus eq_refl)).
  - by destruct (work_pc s); simpl in *; try (discriminate (Hus eq_refl)).
  - rewrite Ho. by destruct (call_pc s), (stop_pc s).
  - rewrite Ho. by destruct (call_pc s), (stop_pc s).
Qed.
Lemma any_step_ok s s' : plugin_ok s → any_step s s' → plugin_ok s'.
Proof.
  intros Hok [H|H]; [by eapply go_step_ok|]. destruct Hok as [Hc Hst Ho Hstop Hus Hse].
  destruct H as [E|e E]; rewrite E in *; simpl in *; [rewrite Ho|]; split; simpl; rewrite ?E; auto; try done.
Qed.
Lemma any_steps_ok s s' : plugin_ok s → rtc any_step s s' → plugin_ok s'.
Proof. intros Hs. apply (rtc_ind_r plugin_ok s); [done|]. intros s1 s2 _ H Hok. by eapply any_step_ok. Qed.
(** [Stop] is not taken back. *)
Lemma go_step_called s s' : go_step s s' → stop_pc s ≠ NotCalled → stop_pc s' ≠ NotCalled.
Proof. by destruct 1 as [[]|[]| | | | |[]| | | | | | | | | | ]; simpl; try case_match. Qed.

(** Where no step is left after [Stop] was called, everything has ended. *)
Record all_ended (s : plugin) : Prop := {
  end_caller : ∃ r, call_pc s = Back r;
  end_worker : work_pc s = Ended;
  end_stop : ∃ r, stop_pc s = Returned r;
  end_obj : obj s = Nil;
  end_started : started s = 0%Z }.
Lemma stuck_ended s : plugin_ok s → stop_pc s ≠ NotCalled → nf go_step s → all_ended s.
Proof.
  intros [Hc Hst Ho Hstop Hus Hse] Hcalled Hnf. assert (∀ s', ¬ go_step s s') as Hno by (intros s' H; apply Hnf; by eexists). clear Hnf.
  assert (obj s ≠ Fresh) as Hobj by (rewrite Ho; by destruct (stop_pc s)).
  assert (∀ r, work_pc s ≠ Sending r) as Hsending.
  { intros r E. rewrite E in Hus. by destruct (Hno _ (kp_send s r E (Hus eq_refl))). }
  assert (work_pc s = Ended ∨ call_pc s = Starting) as [Hw|Hw].
  { destruct (work_pc s) eqn:E; auto.
    - right. by destruct (call_pc s).
    - by destruct (Hno _ (kp_work s (Text "") E)).
    - by destruct (Hno _ (kp_work_stopped s E Hobj)).
    - by destruct (Hsending r).
    - by destruct (Hno _ (kp_count s E)).
    - by destruct (call_pc s). }
  2:{ by destruct (Hno _ (kp_start_worker s Hw)). }
  rewrite Hw in Hc, Hse. assert (∃ r, call_pc s = Back r) as [r Hr].
  { destruct (call_pc s) as [| | | | | | |r|r|r|] eqn:E; try done; eauto.
    - by destruct (Hno _ (kp_dial_fails s (Text "") E ltac:(by rewrite Hw))).
    - by destruct (Hno _ (kp_announce s (Ok tt) E)).
    - destruct (Hse eq_refl eq_refl) as [r Hr]. by destruct (Hno _ (kp_receive s r E Hr)).
    - by destruct (Hno _ (kp_join s r E Hw)).
    - by destruct (Hno _ (kp_leave s r E)). }
  rewrite Hr in Hst. simpl in Hst. destruct (stop_pc s) as [| | | |r'] eqn:E; [done|..].
  - by destruct (Hno _ (kp_stop_waited s E Hst)).
  - by destruct (Hno _ (kp_stop_cleared s E)).
  - by destruct (Hno _ (kp_stop_removed s (Ok tt) E)).
  - split; eauto.
Qed.

(** * [Stop] first *)

(** The server is gone and [Listen] has not registered its service. *)
Definition too_late (s : plugin) : Prop :=
  obj s = Nil ∧ work_pc s = Unborn ∧ started s = 0%Z ∧ stop_pc s ≠ NotCalled ∧
  match call_pc s with Cleaning | Opening | Registering | Panicked | Back (Err _) => True | _ => False end.
Lemma too_late_step s s' : too_late s → any_step s s' → too_late s'.
Proof.
  intros (Ho & Hw & Hst & Hp & Hc) [H|H]; unfold too_late.
  - destruct H as [r E|r E|E|E|E E'|e E E'|r E|r E E'|r E E'|r E|r E|E E'|r E E'|E|E E'|E|r E]; rewrite E in *; try done;
      try (destruct r as [[]|e]); simpl; rewrite ?Ho, ?Hw, ?Hst; simpl; try done; by rewrite E in Hw.
  - destruct H as [E|e E]; [done|]. congruence.
Qed.

(** * What the kubelet is told *)

Definition needs_kubelet (c : caller) : bool :=
  match c with Receiving | Joining _ => true | Leaving r | Back r => is_ok r | _ => false end.
Record told (s : plugin) : Prop := {
  told_accepted : announced s = true ∨ call_pc s = Announcing → accepted s = true;
  told_announced : needs_kubelet (call_pc s) = true → announced s = true }.
Lemma is_ok_failed msg r : is_ok (failed msg r) = is_ok r.
Proof. by destruct r. Qed.
Lemma told_step s s' : told s → any_step s s' → told s'.
Proof.
  intros [Ha Hn] [H|H].
  - destruct H as [r E|r E|E|E|E E'|e E E'|r E|r E E'|r E E'|r E|r E|E E'|r E E'|E|E E'|E|r E]; try rewrite E in *; simpl in *;
      try (destruct r as [[]|e]); split; simpl; rewrite ?E; try rewrite is_ok_failed; simpl; auto; try (intros [?|?]; auto; discriminate);
      try (destruct (obj s)); try case_match; simpl; auto; try (intros [?|?]; auto; discriminate); try discriminate.
  - destruct H as [E|e E]; [destruct (obj s)|]; by split.
Qed.

(** * Paths *)

Lemma split_app sep s t : split_char sep (s +:+ String sep t) = split_char sep s ++ split_char sep t.
Proof.
  induction s as [|c s IH]; simpl; [by rewrite Ascii.eqb_refl|]. rewrite IH. destruct (Ascii.eqb c sep); [done|].
  by destruct (split_char_cons sep s) as (w & ws & ->).
Qed.
Lemma join_snoc sep l x : l ≠ [] → join sep (l ++ [x]) = join sep l +:+ sep +:+ x.
Proof.
  induction l as [|y [|z l] IH]; intros Hl; [done|done|]. change ((y :: z :: l) ++ [x]) with (y :: (z :: l) ++ [x]).
  change (join sep (y :: z :: l)) with (y +:+ sep +:+ join sep (z :: l)). rewrite !string_app_assoc, <-IH by done.
  by destruct l.
Qed.
Lemma Base_app d n : count_char "/" n = 0 → n ≠ "" → Base (d +:+ "/" +:+ n) = n.
Proof.
  intros Hn Hne. unfold Base. change ("/" +:+ n) with (String "/" n). rewrite split_app, (split_char_no_sep _ n) by done.
  by rewrite filter_app, (filter_cons_True _ n), list.filter_nil, last_snoc by done.
Qed.
(** A file name: it is neither empty nor special. *)
Definition file_name (n : string) : Prop := count_char "/" n = 0 ∧ n ≠ "" ∧ n ≠ "." ∧ n ≠ "..".
Lemma clean_step_name rooted stack n : file_name n → clean_step rooted stack n = n :: stack.
Proof. intros (_ & H1 & H2 & H3). unfold clean_step. by destruct (String.eqb_spec n ""), (String.eqb_spec n "."), (String.eqb_spec n ".."). Qed.
Lemma Clean_app q n : file_name n → let rooted := has_prefix "/" q in
  foldl (clean_step rooted) [] (split_char "/" q) ≠ [] →
  Clean (q +:+ "/" +:+ n) =
    ((if rooted then "/" else "") +:+ join "/" (reverse (foldl (clean_step rooted) [] (split_char "/" q)))) +:+ "/" +:+ n.
Proof.
  intros Hn rooted Hne. unfold Clean. assert (has_prefix "/" (q +:+ "/" +:+ n) = rooted) as ->.
  { subst rooted. destruct q as [|c q]; [by destruct Hne|]. done. }
  assert (split_char "/" (q +:+ "/" +:+ n) = split_char "/" q ++ [n]) as ->.
  { change ("/" +:+ n) with (String "/" n). by rewrite split_app, (split_char_no_sep _ n) by apply Hn. }
  rewrite foldl_app. simpl. rewrite clean_step_name by done. rewrite reverse_cons, join_snoc.
  2:{ intros Hr. apply Hne. by rewrite <-(reverse_involutive (foldl _ _ _)), Hr. }
  generalize (join "/" (reverse (foldl (clean_step rooted) [] (split_char "/" q)))). by destruct rooted; intros [].
Qed.
Lemma dir_stack q rooted : ∃ l, foldl (clean_step rooted) [] (split_char "/" (q +:+ "/var/lib/kubelet/device-plugins")) = "device-plugins" :: l.
Proof.
  change "/var/lib/kubelet/device-plugins" with (String "/" "var/lib/kubelet/device-plugins"). rewrite split_app, foldl_app. by eexists.
Qed.
(** The socket of the kubelet and that of the device plugin are in one directory. *)
Lemma wrap_dir p : ∃ d, ∀ n, file_name n → wrap p ("/var/lib/kubelet/device-plugins" +:+ "/" +:+ n) = d +:+ "/" +:+ n.
Proof.
  unfold wrap, Join. destruct (decide (rootDir p = "")) as [E|E].
  - eexists. intros n Hn. rewrite E, filter_cons_False, filter_cons_True by (try done; by intros H). simpl.
    apply (Clean_app "/var/lib/kubelet/device-plugins" n Hn). done.
  - exists ((if has_prefix "/" (rootDir p +:+ "/" +:+ "/var/lib/kubelet/device-plugins") then "/" else "") +:+
      join "/" (reverse (foldl (clean_step (has_prefix "/" (rootDir p +:+ "/" +:+ "/var/lib/kubelet/device-plugins"))) []
        (split_char "/" (rootDir p +:+ "/" +:+ "/var/lib/kubelet/device-plugins"))))).
    intros n Hn. rewrite !filter_cons_True by done. cbn [join filter list_filter]. rewrite <-Clean_app.
    + by rewrite !string_app_assoc.
    + done.
    + rewrite <-string_app_assoc. by edestruct dir_stack as [l ->].
Qed.

(** * Properties *)

(** C38: once [Listen] has returned, [Stop] stops: from any state of the goroutines of [Serve],
    the gRPC server and [Stop] every run is finite, however they interleave, none of them
    panics, and where a run ends [Serve] and [Stop] have returned and the server is gone. *)
Theorem stop_stops s : rtc any_step listened s → stop_pc s ≠ NotCalled →
  sn go_step s ∧ ∀ s', rtc go_step s s' →
    call_pc s' ≠ Panicked ∧ work_pc s' ≠ WorkerPanicked ∧ (nf go_step s' → all_ended s').
Proof.
  intros Hs Hcalled. split; [apply go_step_sn|]. intros s' Hs'.
  assert (plugin_ok s' ∧ stop_pc s' ≠ NotCalled) as [Hok Hcalled'].
  { revert Hs'. apply (rtc_ind_r (λ s', plugin_ok s' ∧ stop_pc s' ≠ NotCalled) s).
    - split; [|done]. by apply (any_steps_ok listened); [apply listened_ok|].
    - intros s1 s2 _ H [Hok Hc]. split; [by eapply go_step_ok|by eapply go_step_called]. }
  pose proof (ok_pcs _ Hok) as Hpcs. split; [|split].
  - intros E. by rewrite E in Hpcs.
  - intros E. rewrite E in Hpcs. by destruct (call_pc s').
  - by apply stuck_ended.
Qed.

(** When [Stop] comes before [Listen], as it may on the DPU side, the device plugin never
    serves: whatever happens next, [Listen] fails to make its socket or panics. *)
Theorem early_stop_panics s s' : too_late s → rtc any_step s s' →
  work_pc s' = Unborn ∧ announced s' = announced s ∧
  (nf go_step s' → call_pc s' = Panicked ∨ ∃ e, call_pc s' = Back (Err e)).
Proof.
  intros Hl Hs. assert (too_late s' ∧ announced s' = announced s) as [(_ & Hw & Hst & _ & Hc) Ha].
  { revert Hs. apply (rtc_ind_r (λ s', too_late s' ∧ announced s' = announced s) s); [done|].
    intros s1 s2 _ H [Hl1 E]. split; [by eapply too_late_step|]. rewrite <-E. destruct Hl1 as (Ho & Hw & _ & _ & Hc).
    destruct H as [H|H]; [|by destruct H as [E'|e E']; [destruct (obj s1)|]].
    destruct H as [[]|[]| | | | |r E'| | | | | | | | | | ]; simpl; try done; [by destruct (obj s1)|by rewrite E' in Hc]. }
  split; [done|]. split; [done|]. intros Hnf.
  assert (∀ s'', ¬ go_step s' s'') as Hno by (intros s'' H; apply Hnf; by eexists).
  destruct (call_pc s') as [| | | | | | |r|r|[u|e]|] eqn:E; try done; eauto.
  - by destruct (Hno _ (kp_clean s' (Ok tt) E)).
  - by destruct (Hno _ (kp_open s' (Ok tt) E)).
  - by destruct (Hno _ (kp_register s' E)).
Qed.

(** The kubelet is told of the device plugin only once its server has accepted a
    connection, and [Serve] returns without an error only after it was told. *)
Theorem announced_when_serving s : rtc any_step new_plugin s →
  (announced s = true → accepted s = true) ∧ (∀ r, call_pc s = Back r → is_ok r = true → announced s = true).
Proof.
  intros Hs. assert (told s) as [Ha Hn].
  { revert Hs. apply (rtc_ind_r told new_plugin); [split; [by intros [?|?]|done]|]. intros s1 s2 _ H Ht. by eapply told_step. }
  split; [auto|]. intros r E Hr. apply Hn. by rewrite E.
Qed.

(** The file name the kubelet is given names the socket of the device plugin in the directory
    of the kubelet's own socket, whatever the root directory. *)
Theorem kubelet_finds_plugin version p env : ∃ d,
  KubeletEndPoint p = d +:+ "/" +:+ "kubelet.sock" ∧
  PluginEndpoint p = d +:+ "/" +:+ Endpoint (register_request version p env).
Proof.
  destruct (wrap_dir p) as [d Hd]. assert (PluginEndpoint p = d +:+ "/" +:+ "dpuNet.sock") as E by by apply (Hd "dpuNet.sock").
  exists d. split; [by apply (Hd "kubelet.sock")|]. simpl. unfold PluginEndpointFilename. by rewrite E, Base_app.
Qed.
Example kubelet_target_ex : kubelet_target (NewPathManager "/") = "unix:/var/lib/kubelet/device-plugins/kubelet.sock".
Proof. reflexivity. Qed.

(** * Runs *)

Module KubeletDemo.
(** [Stop] is called while [Serve] waits for the kubelet. *)
Definition announcing : plugin := mkPlugin Fresh Announcing Accepting NotCalled None 1 true true false.
Definition stopping : plugin := mkPlugin Stopped Announcing Accepting Waiting None 1 true true false.
Lemma stopping_reach : rtc any_step listened stopping.
Proof.
  eapply rtc_l; [left; by apply kp_start_worker|]. eapply rtc_l; [left; by apply (kp_work _ (Text ""))|].
  eapply rtc_l; [left; by apply kp_dial|]. eapply rtc_l; [right; by apply kp_call_stop|]. apply rtc_refl.
Qed.
(** The context is cancelled before the goroutine of the device plugin runs. *)
Definition early : plugin := mkPlugin Nil Cleaning Unborn (Returned (Ok tt)) None 0 false false false.
Definition early_end : plugin := mkPlugin Nil Panicked Unborn (Returned (Ok tt)) None 0 true false false.
Lemma early_reach : rtc any_step new_plugin early.
Proof.
  eapply rtc_l; [right; by apply kp_call_stop|]. eapply rtc_l; [left; by apply kp_stop_waited|].
  eapply rtc_l; [left; by apply kp_stop_cleared|]. eapply rtc_l; [left; by apply (kp_stop_removed _ (Ok tt))|]. apply rtc_refl.
Qed.
Lemma early_end_reach : rtc any_step early early_end.
Proof.
  eapply rtc_l; [left; by apply (kp_clean _ (Ok tt))|]. eapply rtc_l; [left; by apply (kp_open _ (Ok tt))|].
  eapply rtc_l; [left; by apply kp_register|]. apply rtc_refl.
Qed.
Definition told_kubelet : plugin := mkPlugin Fresh Receiving Accepting NotCalled None 1 true true true.
Lemma told_reach : rtc any_step new_plugin told_kubelet.
Proof.
  eapply rtc_l; [left; by apply (kp_clean _ (Ok tt))|]. eapply rtc_l; [left; by apply (kp_open _ (Ok tt))|].
  eapply rtc_l; [left; by apply kp_register|]. eapply rtc_l; [left; by apply kp_start_worker|].
  eapply rtc_l; [left; by apply (kp_work _ (Text ""))|]. eapply rtc_l; [left; by apply kp_dial|].
  eapply rtc_l; [left; by apply (kp_announce _ (Ok tt))|]. apply rtc_refl.
Qed.
End KubeletDemo.
Import KubeletDemo.

Lemma stop_stops_witness : sn go_step stopping.
Proof. exact (proj1 (stop_stops stopping stopping_reach ltac:(done))). Defined.
Lemma early_stop_panics_witness : rtc any_step new_plugin early ∧ work_pc early_end = Unborn.
Proof.
  split; [exact early_reach|]. refine (proj1 (early_stop_panics early early_end _ early_end_reach)).
  split; [done|]. split; [done|]. split; [done|]. by split.
Defined.
Lemma announced_when_serving_witness : accepted told_kubelet = true.
Proof. exact (proj1 (announced_when_serving told_kubelet told_reach) eq_refl). Defined.
