(* ===== verification/Metrics.v ===== *)
(** The operator's metrics, pkg/metrics, with the classification of API errors
    (k8s.io/apimachinery/pkg/api/errors) and what the DpuOperatorConfig controller records
    (internal/controller/dpuoperatorconfig_controller.go).

    A vector is a map from its label values to the value of the metric; a histogram is the
    list of its observations.  Counters and gauges hold whole numbers, as Z: a float64 holds
    those below 2^53 exactly. *)
From S2P Require Import Prelude Plugin Registry GoMonad Platform Kube Controller Cluster Render OperatorConfig.
#[local] Open Scope stdpp_scope.

(** * API errors *)

Definition knownReasons : list string := [
  "Unauthorized"; "Forbidden"; "NotFound"; "AlreadyExists"; "Conflict"; "Gone"; "Invalid"; "ServerTimeout"; "StorageReadError";
  "Timeout"; "TooManyRequests"; "BadRequest"; "MethodNotAllowed"; "NotAcceptable"; "RequestEntityTooLarge"; "UnsupportedMediaType";
  "InternalError"; "Expired"; "ServiceUnavailable"].
Definition known (reason : string) : bool := existsb (String.eqb reason) knownReasons.

(** The status an error carries, itself or in what it wraps: reason and code. *)
Class APIStatus := status : error → option (string * Z).
Section Errors.
Context `{!APIStatus}.
Definition reasonAndCodeForError (err : error) : string * Z := default ("", 0%Z) (status err).
(** The reason, or the code when the reason is not one of the list. *)
Definition is_status (reason : string) (code : Z) (err : error) : bool :=
  let '(r, c) := reasonAndCodeForError err in String.eqb r reason || (negb (known r) && (c =? code)%Z).
Definition has_reason (reason : string) (err : error) : bool := String.eqb (reasonAndCodeForError err).1 reason.
Definition IsNotFound : error → bool := is_status "NotFound" 404.
Definition IsAlreadyExists : error → bool := has_reason "AlreadyExists".
Definition IsConflict : error → bool := is_status "Conflict" 409.
Definition IsInvalid : error → bool := is_status "Invalid" 422.
Definition IsTimeout : error → bool := is_status "Timeout" 504.
Definition IsServerTimeout : error → bool := has_reason "ServerTimeout".
Definition IsServiceUnavailable : error → bool := is_status "ServiceUnavailable" 503.
Definition IsTooManyRequests (err : error) : bool :=
  let '(r, c) := reasonAndCodeForError err in String.eqb r "TooManyRequests" || (c =? 429)%Z.
Definition IsUnauthorized : error → bool := is_status "Unauthorized" 401.
Definition IsForbidden : error → bool := is_status "Forbidden" 403.
Definition IsBadRequest : error → bool := is_status "BadRequest" 400.
Definition IsInternalError : error → bool := is_status "InternalError" 500.

Definition classifyError (err : option error) : string :=
  match err with
  | None => "none"
  | Some err =>
      if IsNotFound err then "not_found"
      else if IsAlreadyExists err then "already_exists"
      else if IsConflict err then "conflict"
      else if IsInvalid err then "invalid"
      else if IsTimeout err then "timeout"
      else if IsServerTimeout err then "server_timeout"
      else if IsServiceUnavailable err then "service_unavailable"
      else if IsTooManyRequests err then "rate_limited"
      else if IsUnauthorized err then "unauthorized"
      else if IsForbidden err then "forbidden"
      else if IsBadRequest err then "bad_request"
      else if IsInternalError err then "internal_error"
      else "unknown"
  end.
End Errors.

(** * The metrics *)

(** [F] is the type of a duration in seconds. *)
Record metrics (F : Type) := mkMetrics {
  PluginRegistrations : gmap (string * string) Z;
  DevicesDiscovered : gmap (string * string * string) Z;
  DeviceHealthStatus : gmap (string * string * string * string) Z;
  ReconciliationDuration : gmap string (list F);
  ReconciliationErrors : gmap (string * string) Z;
  ReconciliationTotal : gmap (string * string) Z;
  OPIBridgeLatency : gmap (string * string) (list F);
  OPIBridgeErrors : gmap (string * string * string) Z;
  PluginCapabilities : gmap (string * string) Z;
  DeviceInventoryInfo : gmap (string * string * string * string * string * string) Z;
  NetworkOperations : gmap (string * string * string) Z;
  StorageOperations : gmap (string * string * string) Z }.
Arguments mkMetrics {_}. Arguments PluginRegistrations {_}. Arguments DevicesDiscovered {_}. Arguments DeviceHealthStatus {_}.
Arguments ReconciliationDuration {_}. Arguments ReconciliationErrors {_}. Arguments ReconciliationTotal {_}. Arguments OPIBridgeLatency {_}.
Arguments OPIBridgeErrors {_}. Arguments PluginCapabilities {_}. Arguments DeviceInventoryInfo {_}. Arguments NetworkOperations {_}.
Arguments StorageOperations {_}.
#[export] Instance metrics_eta F : Eta (metrics F) := λ m,
  mkMetrics (PluginRegistrations m) (DevicesDiscovered m) (DeviceHealthStatus m) (ReconciliationDuration m) (ReconciliationErrors m)
    (ReconciliationTotal m) (OPIBridgeLatency m) (OPIBridgeErrors m) (PluginCapabilities m) (DeviceInventoryInfo m) (NetworkOperations m)
    (StorageOperations m).
Definition no_metrics {F} : metrics F := mkMetrics ∅ ∅ ∅ ∅ ∅ ∅ ∅ ∅ ∅ ∅ ∅ ∅.

(** [WithLabelValues(k).Inc()] and [.Observe(x)]. *)
Definition value {K} `{Countable K} (k : K) (m : gmap K Z) : Z := default 0%Z (m !! k).
Definition inc {K} `{Countable K} (k : K) (m : gmap K Z) : gmap K Z := <[k := (value k m + 1)%Z]> m.
Definition observe {K F} `{Countable K} (k : K) (x : F) (m : gmap K (list F)) : gmap K (list F) := <[k := default [] (m !! k) ++ [x]]> m.
Definition flag (b : bool) : Z := if b then 1 else 0.
Definition result_label (ok : bool) : string := if ok then "success" else "error".

Section Record.
Context {F : Type} `{!APIStatus}.
Implicit Type (m : metrics F).
Definition RecordPluginRegistration (vendor plugin : string) m := m <| PluginRegistrations := <[(vendor, plugin) := 1%Z]> (PluginRegistrations m) |>.
Definition RecordDeviceDiscovery (vendor model node : string) (count : Z) m :=
  m <| DevicesDiscovered := <[(vendor, model, node) := count]> (DevicesDiscovered m) |>.
Definition RecordDeviceHealth (vendor model node deviceID : string) (healthy : bool) m :=
  m <| DeviceHealthStatus := <[(vendor, model, node, deviceID) := flag healthy]> (DeviceHealthStatus m) |>.
Definition RecordReconciliation (controller : string) (duration : F) (err : option error) m : metrics F :=
  let m := m <| ReconciliationDuration := observe controller duration (ReconciliationDuration m) |> in
  let m := match err with
           | None => m
           | Some _ => m <| ReconciliationErrors := inc (controller, classifyError err) (ReconciliationErrors m) |>
           end in
  m <| ReconciliationTotal := inc (controller, result_label (bool_decide (err = None))) (ReconciliationTotal m) |>.
Definition RecordOPICall (vendor operation : string) (duration : F) (err : option error) m : metrics F :=
  let m := m <| OPIBridgeLatency := observe (vendor, operation) duration (OPIBridgeLatency m) |> in
  match err with
  | None => m
  | Some _ => m <| OPIBridgeErrors := inc (vendor, operation, "unknown") (OPIBridgeErrors m) |>
  end.
Definition RecordPluginCapability (plugin capability : string) (available : bool) m :=
  m <| PluginCapabilities := <[(plugin, capability) := flag available]> (PluginCapabilities m) |>.
Definition RecordDeviceInventory (vendor model deviceID firmwareVersion serialNumber pciAddress : string) m :=
  m <| DeviceInventoryInfo := <[(vendor, model, deviceID, firmwareVersion, serialNumber, pciAddress) := 1%Z]> (DeviceInventoryInfo m) |>.
Definition RecordNetworkOperation (vendor operation : string) (success : bool) m :=
  m <| NetworkOperations := inc (vendor, operation, result_label success) (NetworkOperations m) |>.
Definition RecordStorageOperation (vendor operation : string) (success : bool) m :=
  m <| StorageOperations := inc (vendor, operation, result_label success) (StorageOperations m) |>.

(** [logDiscoveredPlugins], at every reconciliation; [it] is the order of the registry's map. *)
Definition record_plugin (info : PluginInfo) m : metrics F :=
  foldl (λ m cap, RecordPluginCapability (Name info) cap true m) (RecordPluginRegistration (Vendor info) (Name info) m) (Capabilities info).
Definition logDiscoveredPlugins {P} `{!Plugin P} (it : list (string * P)) m : metrics F :=
  foldl (λ m p, record_plugin (Info p) m) m (Registry.List it).
End Record.

(** * The reconciliation, measured

    [reconcileErr], which the deferred function reports, is assigned where the configuration
    cannot be read and nowhere else. *)
Section Measured.
Context {F K P : Type} `{!APIStatus, !ClusterAPI K, !RenderAPI K, !ConfigAPI K, !Plugin P} (env : operator_env) (it : list (string * P)).
Implicit Type (w : (K * ResourceRenderer) * metrics F).
Definition reconcileErr (got : get_result DpuOperatorConfig) : option error := match got with GetError e => Some e | _ => None end.
Definition log_plugins (got : get_result DpuOperatorConfig) (m : metrics F) : metrics F :=
  match got with GetFound _ => logDiscoveredPlugins it m | _ => m end.
Definition Reconcile (duration : F) (now : Z) (name : string) : M ((K * ResourceRenderer) * metrics F) Reconciled := λ '((k, rr), m),
  let got := (o_GetConfig name k).2 in
  let '(w, outcome) := ReconcileConfig env now name (k, rr) in
  ((w, RecordReconciliation "DpuOperatorConfig" duration (reconcileErr got) (log_plugins got m)), outcome).

(** The reconciliations of a process, each with its duration, its time and its request; what
    happens to the cluster in between is [others]. *)
Fixpoint reconciliations (others : nat → K → K) (l : list (F * Z * string)) w : list (get_result DpuOperatorConfig * outcome Reconciled) * metrics F :=
  match l with
  | [] => ([], w.2)
  | (duration, now, name) :: l =>
      let k := others (length l) w.1.1 in
      let '(w', outcome) := Reconcile duration now name ((k, w.1.2), w.2) in
      let '(rs, m) := reconciliations others l w' in (((o_GetConfig name k).2, outcome) :: rs, m)
  end.
End Measured.

(** * Counting *)

Definition categories : list string := ["not_found"; "already_exists"; "conflict"; "invalid"; "timeout"; "server_timeout"; "service_unavailable";
  "rate_limited"; "unauthorized"; "forbidden"; "bad_request"; "internal_error"; "unknown"].
Definition sum_over {A} (f : A → Z) (l : list A) : Z := foldr (λ a n, (f a + n)%Z) 0%Z l.
Definition count {A} (f : A → bool) (l : list A) : Z := sum_over (λ a, flag (f a)) l.

(** What the three reconciliation metrics agree on. *)
Definition consistent {F} (m : metrics F) : Prop := ∀ c,
  Z.of_nat (length (default [] (ReconciliationDuration m !! c)))
    = (value (c, "success") (ReconciliationTotal m) + value (c, "error") (ReconciliationTotal m))%Z ∧
  value (c, "error") (ReconciliationTotal m) = sum_over (λ k, value (c, k) (ReconciliationErrors m)) categories ∧
  (∀ k, k ∉ categories → (c, k) ∉ dom (ReconciliationErrors m)).

Lemma value_inc {K} `{Countable K} (k k' : K) m : value k' (inc k m) = (value k' m + flag (bool_decide (k = k')))%Z.
Proof. unfold value, inc. destruct (decide (k = k')) as [->|Hne]; [rewrite lookup_insert_eq|rewrite lookup_insert_ne by done]; case_bool_decide; simplify_eq/=; unfold value; lia. Qed.
Lemma observe_lookup {K F} `{Countable K} (k k' : K) (x : F) m :
  default [] (observe k x m !! k') = default [] (m !! k') ++ (if decide (k = k') then [x] else []).
Proof. unfold observe. case_decide as E; [subst; by rewrite lookup_insert_eq|by rewrite lookup_insert_ne, app_nil_r]. Qed.
Lemma sum_over_ext {A} (f g : A → Z) l : (∀ a, f a = g a) → sum_over f l = sum_over g l.
Proof. intros E. induction l as [|a l IH]; [done|]. simpl. by rewrite E, IH. Qed.
Lemma sum_over_plus {A} (f g : A → Z) l : sum_over (λ a, (f a + g a)%Z) l = (sum_over f l + sum_over g l)%Z.
Proof. induction l as [|a l IH]; simpl; lia. Qed.
Lemma sum_over_0 {A} (l : list A) : sum_over (λ _, 0%Z) l = 0%Z.
Proof. by induction l. Qed.
(** One of a list without duplicates counts once, another not at all. *)
Lemma sum_over_one {A} `{EqDecision A} (a : A) l : NoDup l → sum_over (λ b, flag (bool_decide (a = b))) l = flag (bool_decide (a ∈ l)).
Proof.
  induction 1 as [|b l Hb Hl IH]; [done|]. simpl. rewrite IH. destruct (decide (a = b)) as [->|Hne].
  - rewrite (bool_decide_eq_true_2 (b = b)), (bool_decide_eq_false_2 (b ∈ l)), bool_decide_eq_true_2 by (done || apply list_elem_of_here). done.
  - rewrite (bool_decide_eq_false_2 (a = b)) by done. by rewrite (bool_decide_ext (a ∈ b :: l) (a ∈ l)) by set_solver.
Qed.
Lemma categories_NoDup : NoDup categories.
Proof. apply (bool_decide_unpack _). vm_compute. exact I. Qed.

Section Classify.
Context `{!APIStatus}.
Lemma classifyError_category e : classifyError (Some e) ∈ categories.
Proof. unfold classifyError. repeat case_match; apply (bool_decide_unpack _); vm_compute; exact I. Qed.

(** The category of a reason of the list, and of a code. *)
Definition category_of_reason (r : string) : option string := list_to_map (M := gmap string string) [
  ("NotFound", "not_found"); ("AlreadyExists", "already_exists"); ("Conflict", "conflict"); ("Invalid", "invalid"); ("Timeout", "timeout");
  ("ServerTimeout", "server_timeout"); ("ServiceUnavailable", "service_unavailable"); ("TooManyRequests", "rate_limited");
  ("Unauthorized", "unauthorized"); ("Forbidden", "forbidden"); ("BadRequest", "bad_request"); ("InternalError", "internal_error")] !! r.
Definition category_of_code (c : Z) : option string := list_to_map (M := gmap Z string) [
  (404, "not_found"); (409, "conflict"); (422, "invalid"); (504, "timeout"); (503, "service_unavailable"); (429, "rate_limited");
  (401, "unauthorized"); (403, "forbidden"); (400, "bad_request"); (500, "internal_error")]%Z !! c.
(** The reasons that are tested before the code 429. *)
Definition before_429 : list string := ["NotFound"; "AlreadyExists"; "Conflict"; "Invalid"; "Timeout"; "ServerTimeout"; "ServiceUnavailable"].
Definition category (reason : string) (code : Z) : string :=
  default "unknown"
    (if negb (known reason) then category_of_code code
     else if (code =? 429)%Z && negb (existsb (String.eqb reason) before_429) then Some "rate_limited"
     else category_of_reason reason).

Lemma known_cases r : known r = true → r ∈ knownReasons.
Proof. unfold known. rewrite existsb_exists. intros (x & Hx & E). apply String.eqb_eq in E as ->. by apply list_elem_of_In. Qed.
Lemma is_status_unknown reason code err r c : reasonAndCodeForError err = (r, c) → known r = false → known reason = true →
  is_status reason code err = (c =? code)%Z.
Proof.
  intros E Hr Hk. unfold is_status. rewrite E, Hr. destruct (String.eqb r reason) eqn:Er; [|done].
  apply String.eqb_eq in Er as ->. congruence.
Qed.
Lemma has_reason_unknown reason err r c : reasonAndCodeForError err = (r, c) → known r = false → known reason = true →
  has_reason reason err = false.
Proof. intros E Hr Hk. unfold has_reason. rewrite E. simpl. apply String.eqb_neq. congruence. Qed.
Lemma is_status_known reason code err r c : reasonAndCodeForError err = (r, c) → known r = true → is_status reason code err = String.eqb r reason.
Proof. intros E Hr. unfold is_status. rewrite E, Hr. simpl. apply orb_false_r. Qed.
End Classify.

(** * Theorems *)

(** Errors are counted under thirteen labels at most: without an error the class is
    "none"; a reason of API machinery's list gives its own class, whatever the code, except
    that the code 429 turns the reasons tested after it into "rate_limited"; any other reason,
    and an error that carries no status, is classed by its code. *)
Theorem classifyError_table `{!APIStatus} (err : option error) :
  match err with
  | None => classifyError err = "none"
  | Some e => let '(reason, code) := reasonAndCodeForError e in classifyError err = category reason code ∧ category reason code ∈ categories
  end.
Proof.
  destruct err as [e|]; [|done]. destruct (reasonAndCodeForError e) as [r c] eqn:E.
  assert (classifyError (Some e) = category r c) as Heq; [|split; [done|]; rewrite <-Heq; apply classifyError_category].
  unfold category.
  destruct (known r) eqn:Hr; simpl.
  - apply known_cases in Hr. unfold classifyError, IsTooManyRequests, IsNotFound, IsConflict, IsInvalid, IsTimeout, IsServiceUnavailable,
      IsUnauthorized, IsForbidden, IsBadRequest, IsInternalError, IsAlreadyExists, IsServerTimeout, is_status, has_reason. rewrite E.
    unfold knownReasons in Hr. repeat (apply elem_of_cons in Hr as [->|Hr]; [by destruct (c =? 429)%Z|]). by apply not_elem_of_nil in Hr.
  - unfold classifyError, IsNotFound, IsConflict, IsInvalid, IsTimeout, IsServiceUnavailable,
      IsUnauthorized, IsForbidden, IsBadRequest, IsInternalError, IsAlreadyExists, IsServerTimeout, IsTooManyRequests.
    rewrite !(is_status_unknown _ _ e r c E Hr), !(has_reason_unknown _ e r c E Hr), E by done.
    assert (String.eqb r "TooManyRequests" = false) as -> by (apply String.eqb_neq; intros ->; done). simpl.
    repeat (match goal with |- context [(c =? ?n)%Z] => destruct (Z.eqb_spec c n) as [->|]; [done|] end).
    unfold category_of_code. rewrite not_elem_of_list_to_map_1; [done|]. set_solver.
Qed.

Lemma record_duration {F} `{!APIStatus} c (d : F) err (m : metrics F) :
  ReconciliationDuration (RecordReconciliation c d err m) = observe c d (ReconciliationDuration m).
Proof. by destruct err. Qed.
Lemma record_errors {F} `{!APIStatus} c (d : F) err (m : metrics F) :
  ReconciliationErrors (RecordReconciliation c d err m)
    = if err is Some _ then inc (c, classifyError err) (ReconciliationErrors m) else ReconciliationErrors m.
Proof. by destruct err. Qed.
Lemma record_total {F} `{!APIStatus} c (d : F) err (m : metrics F) :
  ReconciliationTotal (RecordReconciliation c d err m) = inc (c, if err is Some _ then "error" else "success") (ReconciliationTotal m).
Proof. by destruct err. Qed.
Lemma errors_inc (c c' k0 : string) (m : gmap (string * string) Z) : k0 ∈ categories →
  sum_over (λ k, value (c', k) (inc (c, k0) m)) categories = (sum_over (λ k, value (c', k) m) categories + flag (bool_decide (c = c')))%Z.
Proof.
  intros Hk. rewrite (sum_over_ext _ (λ k, value (c', k) m + flag (bool_decide (c = c' ∧ k0 = k)))%Z), sum_over_plus.
  2:{ intros k. rewrite value_inc. do 2 f_equal. apply bool_decide_ext. naive_solver. }
  f_equal. destruct (decide (c = c')) as [->|Hne].
  - rewrite (sum_over_ext _ (λ k, flag (bool_decide (k0 = k)))) by (intros; f_equal; apply bool_decide_ext; naive_solver).
    rewrite sum_over_one by apply categories_NoDup. by rewrite !bool_decide_eq_true_2.
  - rewrite (sum_over_ext _ (λ _, 0%Z)), sum_over_0, bool_decide_eq_false_2; [done..|].
    intros. by rewrite bool_decide_eq_false_2 by naive_solver.
Qed.
Lemma consistent_record {F} `{!APIStatus} c (d : F) err (m : metrics F) : consistent m → consistent (RecordReconciliation c d err m).
Proof.
  intros Hm c'. destruct (Hm c') as (Hn & He & Hk). rewrite record_duration, record_errors, record_total.
  rewrite observe_lookup, !value_inc, length_app, Nat2Z.inj_add, Hn. destruct err as [e|]; split_and!.
  1, 4: destruct (decide (c = c')); repeat case_bool_decide; simplify_eq/=; lia.
  - rewrite errors_inc, He by apply classifyError_category. do 2 f_equal. apply bool_decide_ext. naive_solver.
  - intros k Hc. unfold inc. rewrite dom_insert, elem_of_union, elem_of_singleton. intros [[= -> ->]|H']; [|by eapply Hk].
    apply Hc, classifyError_category.
  - rewrite He, bool_decide_eq_false_2 by congruence. simpl. lia.
  - done.
Qed.
Lemma log_consistent {F P} `{!Plugin P} (it : list (string * P)) (m : metrics F) :
  ReconciliationDuration (logDiscoveredPlugins it m) = ReconciliationDuration m ∧
  ReconciliationErrors (logDiscoveredPlugins it m) = ReconciliationErrors m ∧
  ReconciliationTotal (logDiscoveredPlugins it m) = ReconciliationTotal m.
Proof.
  unfold logDiscoveredPlugins. revert m. induction (Registry.List it) as [|p l IH]; intros m; [done|]. simpl.
  destruct (IH (record_plugin (Info p) m)) as (-> & -> & ->). unfold record_plugin.
  generalize (Capabilities (Info p)). intros cs. set (m0 := RecordPluginRegistration _ _ m).
  assert (ReconciliationDuration m0 = ReconciliationDuration m ∧ ReconciliationErrors m0 = ReconciliationErrors m ∧ ReconciliationTotal m0 = ReconciliationTotal m) as H by done.
  clearbody m0. revert m0 H. induction cs as [|c cs IHc]; intros m0 H; [done|]. by apply IHc.
Qed.

(** The three metrics of the reconciliations agree, whatever is recorded, in any order:
    for each controller the number of durations observed is the number of its successes and
    errors, its errors are the sum over the thirteen classes, and no other class has a
    counter. *)
Theorem reconciliation_metrics_agree {F} `{!APIStatus} (l : list (string * F * option error)) :
  consistent (foldl (λ m '(c, d, err), RecordReconciliation c d err m) no_metrics l).
Proof.
  assert (consistent (no_metrics (F := F))) as H0.
  { intros c. by split_and!. }
  revert H0. generalize (no_metrics (F := F)). induction l as [|[[c d] err] l IH]; intros m Hm; [done|].
  apply IH, consistent_record, Hm.
Qed.

(** ** The operator's reconciliations *)

Definition unreadable {A} (got : get_result A) : bool := match got with GetError _ => true | _ => false end.

Section Measured.
Context {F K P : Type} `{!APIStatus, !ClusterAPI K, !RenderAPI K, !ConfigAPI K, !Plugin P} (env : operator_env) (it : list (string * P)).
Lemma Reconcile_total d now n k rr (m : metrics F) :
  let m' := (Reconcile env it d now n ((k, rr), m)).1.2 in let got := (o_GetConfig n k).2 in
  value ("DpuOperatorConfig", "error") (ReconciliationTotal m') = (value ("DpuOperatorConfig", "error") (ReconciliationTotal m) + flag (unreadable got))%Z ∧
  value ("DpuOperatorConfig", "success") (ReconciliationTotal m')
    = (value ("DpuOperatorConfig", "success") (ReconciliationTotal m) + flag (negb (unreadable got)))%Z.
Proof.
  unfold Reconcile. destruct (ReconcileConfig env now n (k, rr)) as [w o]. destruct (o_GetConfig n k) as [k' got]. simpl.
  destruct (log_consistent it m) as (_ & _ & Ht).
  destruct got; simpl; rewrite !value_inc, ?Ht; repeat case_bool_decide; simplify_eq/=; lia.
Qed.

End Measured.

(** ** The plugins *)

Section Gauges.
Context {F P : Type} `{!Plugin P}.
Implicit Type m : metrics F.
Lemma foldl_set {A K} `{Countable K} (key : A → K) (l : list A) (g : gmap K Z) (k : K) :
  foldl (λ g a, <[key a := 1%Z]> g) g l !! k = if decide (k ∈ key <$> l) then Some 1%Z else g !! k.
Proof.
  revert g. induction l as [|a l IH]; intros g; [done|]. cbn [foldl]. rewrite fmap_cons.
  rewrite IH. destruct (decide (k ∈ key <$> l)) as [Hl|Hl]; [by rewrite decide_True by (by right)|].
  destruct (decide (k = key a)) as [->|Hne]; [by rewrite lookup_insert_eq, decide_True by left|].
  rewrite lookup_insert_ne, decide_False by (done || set_solver). done.
Qed.
Definition name_caps (p : P) : list (string * string) := (λ cap, (Name (Info p), cap)) <$> Capabilities (Info p).
Lemma logged_gauges (ps : list P) m :
  let m' := foldl (λ m p, record_plugin (Info p) m) m ps in
  PluginRegistrations m' = foldl (λ g p, <[(Vendor (Info p), Name (Info p)) := 1%Z]> g) (PluginRegistrations m) ps ∧
  PluginCapabilities m' = foldl (λ g k, <[k := 1%Z]> g) (PluginCapabilities m) (ps ≫= name_caps).
Proof.
  revert m. induction ps as [|p ps IH]; intros m; [done|]. simpl. destruct (IH (record_plugin (Info p) m)) as [-> ->].
  rewrite foldl_app. clear IH. unfold record_plugin, name_caps.
  assert (∀ cs m0, PluginRegistrations (foldl (λ m cap, RecordPluginCapability (Name (Info p)) cap true m) m0 cs) = PluginRegistrations m0 ∧
    PluginCapabilities (foldl (λ m cap, RecordPluginCapability (Name (Info p)) cap true m) m0 cs)
      = foldl (λ g k, <[k := 1%Z]> g) (PluginCapabilities m0) ((λ cap, (Name (Info p), cap)) <$> cs)) as H.
  { induction cs as [|cap cs IH]; intros m0; [done|]. simpl. destruct (IH (RecordPluginCapability (Name (Info p)) cap true m0)) as [-> ->]. done. }
  by destruct (H (Capabilities (Info p)) (RecordPluginRegistration (Vendor (Info p)) (Name (Info p)) m)) as [-> ->].
Qed.

(** After the plugins are logged, the registration gauge is 1 for exactly the registered
    plugins and those it already was recorded for, and so is the capability gauge: the order
    of the registry's map does not matter, and nothing takes a gauge back. *)
Theorem plugins_logged (it : list (string * P)) m (vendor name cap : string) :
  let m' := logDiscoveredPlugins it m in
  PluginRegistrations m' !! (vendor, name)
    = (if decide ((vendor, name) ∈ (λ p, (Vendor (Info p), Name (Info p))) <$> it.*2) then Some 1%Z else PluginRegistrations m !! (vendor, name)) ∧
  PluginCapabilities m' !! (name, cap)
    = (if decide ((name, cap) ∈ it.*2 ≫= name_caps) then Some 1%Z else PluginCapabilities m !! (name, cap)).
Proof.
  intros m'. unfold m', logDiscoveredPlugins. destruct (logged_gauges (Registry.List it) m) as [-> ->]. rewrite !foldl_set. unfold Registry.List.
  split; [apply decide_ext; by rewrite (sort_by_perm _ it.*2)|].
  apply decide_ext. rewrite list_fmap_id. by rewrite (sort_by_perm _ it.*2).
Qed.
End Gauges.

(** * Example: a cluster that refuses every object *)
Module MetricsDemo.
Import RenderDemo OperatorDemo.
#[export] Instance statuses : APIStatus := λ e,
  if String.eqb (Error e) "gone" then Some ("", 404%Z) else if String.eqb (Error e) "busy" then Some ("Forbidden", 429%Z) else None.
#[export] Instance no_plugins : Plugin Empty_set := {| Info (p : Empty_set) := match p with end; implements (p : Empty_set) := match p with end |}.
Definition after : metrics unit := (Reconcile env ([] : list (string * Empty_set)) tt 0 "dpu-operator-config" ((start false, new_renderer), no_metrics)).1.2.
(** The reconciliation fails and is counted as a success. *)
Example failure_counted_as_success :
  plain_end.2 = Ret (failed plain_error) ∧ value ("DpuOperatorConfig", "success") (ReconciliationTotal after) = 1%Z ∧
  value ("DpuOperatorConfig", "error") (ReconciliationTotal after) = 0%Z.
Proof. vm_compute. done. Qed.
Example classes : (λ t, classifyError (Some (Text t))) <$> ["gone"; "busy"; "x"] = ["not_found"; "rate_limited"; "unknown"].
Proof. vm_compute. reflexivity. Qed.
End MetricsDemo.
