(* ===== verification/Sockets.v ===== *)
(** How the sides of the daemon start and what they listen on: the [Listen] and
    [setupReconcilers] of internal/daemon/hostsidemanager.go and dpusidemanager.go, [Listen]
    and [ListenAndServe] of dpu-cni/pkgs/cniserver, [Listen] and [cleanup] of
    internal/daemon/device-plugin, the sockets of the vendor-specific processes, and
    [runSideManager] of internal/daemon/daemon.go up to [Serve].

    A daemon that manages several DPUs starts a side manager for each of them, all with the
    same paths. *)
From S2P Require Import Prelude Plugin GoMonad Platform Cluster.
#[local] Open Scope stdpp_scope.

(** * Unix sockets *)

(** package net and package os on sockets; a listener is known by a number. *)
Class SocketOps (W : Type) `{!SocketDirs W} := {
  u_Listen : string → W → W * result nat;
  u_Close : nat → W → W * option error;
  u_Chmod : string → Z → W → W * option error }.

(** What listens: [bound] gives the listener behind each socket file, the one that clients
    reach; [open_paths] the listeners that are open, with the files they made. *)
Class SocketView (W : Type) := { bound : W → gmap string nat; open_paths : W → gmap nat string }.
Definition under (dir p : string) : bool := has_prefix (dir +:+ "/") p.
(** A socket cannot be made where a file is; a listener that is closed removes the file it
    made, if there is one, whosesoever it is by then. *)
Class SocketLaws (W : Type) `{!SocketDirs W, !SocketOps W, !SocketView W} := {
  law_u_Listen p w : match u_Listen p w with
    | (w', Ok n) => bound w !! p = None ∧ open_paths w !! n = None ∧ bound w' = <[p := n]> (bound w) ∧ open_paths w' = <[n := p]> (open_paths w)
    | (w', Err _) => bound w' = bound w ∧ open_paths w' = open_paths w end;
  law_u_Close n w : let w' := (u_Close n w).1 in
    match open_paths w !! n with
    | Some p => bound w' = delete p (bound w) ∧ open_paths w' = delete n (open_paths w)
    | None => bound w' = bound w ∧ open_paths w' = open_paths w end;
  law_u_Chmod p m w : let w' := (u_Chmod p m w).1 in bound w' = bound w ∧ open_paths w' = open_paths w;
  law_f_Remove p w : open_paths (f_Remove p w).1 = open_paths w ∧
    match f_Remove p w with (w', None) => bound w' = delete p (bound w) | (w', Some _) => bound w' = bound w end;
  law_f_RemoveAll d w : open_paths (f_RemoveAll d w).1 = open_paths w ∧
    (∀ p, bound (f_RemoveAll d w).1 !! p = bound w !! p ∨ under d p = true ∧ bound (f_RemoveAll d w).1 !! p = None) ∧
    ((f_RemoveAll d w).2 = None → ∀ p, under d p = true → bound (f_RemoveAll d w).1 !! p = None);
  law_f_MkdirAll d m w : let w' := (f_MkdirAll d m w).1 in bound w' = bound w ∧ open_paths w' = open_paths w }.

(** The paths lie where the code expects them. *)
Class SocketPaths (pm : PathManager) : Prop := {
  cni_under : under (path_dir (CNIServerPath pm)) (CNIServerPath pm) = true;
  plugin_apart : under (path_dir (CNIServerPath pm)) (PluginEndpoint pm) = false }.
#[export] Instance root_paths : SocketPaths (NewPathManager "/").
Proof. by split; vm_compute. Qed.

(** * The servers *)

Section Servers.
Context {W : Type} `{!SocketDirs W, !SocketOps W} (pm : PathManager).

(** cniserver.go. *)
Definition CniListen : M W (result nat) :=
  call _ := EnsureSocketDirExists (CNIServerPath pm) or errorf "failed to create run directory for DPU CNI socket: " in
  call listener := acts (u_Listen (CNIServerPath pm)) or errorf "failed to listen on DPU CNI socket: " in
  r ← acts_err (u_Chmod (CNIServerPath pm) 384);
  match r with
  | Ok _ => mret (Ok listener)
  | Err e => _ ← ignore (acts (u_Close listener)); mret (Err (errorf "failed to set file permissions on DPU CNI socket: " e))
  end.
(** An error of [Listen] is logged; serving on the nil listener panics. *)
Definition CniListenAndServe (serve : nat → M W (result unit)) : M W (result unit) :=
  r ← CniListen;
  match r with Ok listener => serve listener | Err _ => panic end.

(** deviceplugin.go; [resource] is [DpuResourceName]. *)
Definition DpCleanup : M W (result unit) := acts_err (f_Remove (PluginEndpoint pm)).
Definition DpListen (resource : string) : M W (result nat) :=
  call _ := DpCleanup or errorf "failed to cleanup Device Plugin server endpoint: " in
  call lis := acts (u_Listen (PluginEndpoint pm)) or errorf ("resource " +:+ resource +:+ " failed to listen to Device Plugin server: ") in
  mret (Ok lis).

(** The vendor-specific processes, all at one path. *)
Definition VspListen : M W (result nat) :=
  call _ := EnsureSocketDirExists (VendorPluginSocket pm) or errorf "failed to create run directory for vendor plugin socket: " in
  call listener := acts (u_Listen (VendorPluginSocket pm)) or errorf "failed to listen on the vendor plugin socket: " in
  mret (Ok listener).
End Servers.

(** * The side managers *)

(** The vendor plugin, controller-runtime and TCP, as a side manager uses them; [true] for
    [has_manager] says that a manager was given or made. *)
Class SideOps (W : Type) := {
  s_StartVsp : W → W * result (string * Z);
  s_SetupDevices : W → W * option error;
  s_NewManager : W → W * option error;
  s_SetupSfc : W → W * option error;
  s_ListenTcp : string → W → W * result nat }.
Class SideFrame (W : Type) `{!SideOps W, !SocketView W} := {
  law_StartVsp w : bound (s_StartVsp w).1 = bound w ∧ open_paths (s_StartVsp w).1 = open_paths w;
  law_SetupDevices w : bound (s_SetupDevices w).1 = bound w ∧ open_paths (s_SetupDevices w).1 = open_paths w;
  law_NewManager w : bound (s_NewManager w).1 = bound w ∧ open_paths (s_NewManager w).1 = open_paths w;
  law_SetupSfc w : bound (s_SetupSfc w).1 = bound w ∧ open_paths (s_SetupSfc w).1 = open_paths w;
  law_ListenTcp a w : bound (s_ListenTcp a w).1 = bound w ∧ open_paths (s_ListenTcp a w).1 = open_paths w }.

Record side := mkSide { has_manager : bool; side_addr : string; side_port : Z; dpListener : option nat }.
#[export] Instance side_eta : Eta side := λ s, mkSide (has_manager s) (side_addr s) (side_port s) (dpListener s).
Definition new_side : side := mkSide false "" 0 None.

Section Sides.
Context {W : Type} `{!SocketDirs W, !SocketOps W, !SideOps W} (pm : PathManager) (resource : string).
Abbreviation SM := (M (side * W)).
Definition on_sys {A} (f : M W A) : SM A := λ '(s, w), let '(w, r) := f w in ((s, w), r).
Definition update (f : side → side) : SM unit := λ '(s, w), ((f s, w), Ret tt).

Definition StartVsp (name : string) : SM (result unit) :=
  call (a, p) := on_sys (acts s_StartVsp) or errorf ("failed calling VSP Start() from " +:+ name +:+ ": ") in
  _ ← update (λ s, s <| side_addr := a |> <| side_port := p |>); ok.
(** Both managers name the DPU's in the message. *)
Definition SideSetupDevices : SM (result unit) :=
  call _ := on_sys (acts_err s_SetupDevices) or errorf "failed calling SetupDevices from DpuSideManager: " in ok.

(** Host side: the errors are logged, and without a manager [GetClient] dereferences nil. *)
Definition host_setupReconcilers : SM unit :=
  m ← reads (λ '(s, _), has_manager s);
  if m : bool then mret tt else
  r ← on_sys (acts_err s_NewManager);
  match r with
  | Err _ => panic
  | Ok _ => _ ← ignore (on_sys (acts s_SetupSfc)); update (λ s, s <| has_manager := true |>)
  end.
Definition HostListen : SM (result nat) :=
  _ ← host_setupReconcilers;
  call lis := on_sys (DpListen pm resource) or errorf "HostSideManager Failed to Listen while calling device plugin listen: " in
  _ ← update (λ s, s <| dpListener := Some lis |>);
  on_sys (CniListen pm).

Definition dpu_setupReconcilers : SM (result unit) :=
  m ← reads (λ '(s, _), has_manager s);
  if m : bool then ok else
  call _ := on_sys (acts_err s_NewManager) or errorf "failed to create controller manager: " in
  call _ := on_sys (acts_err s_SetupSfc) or errorf "failed to setup ServiceFunctionChain controller: " in
  _ ← update (λ s, s <| has_manager := true |>); ok.
Definition DpuListen : SM (result nat) :=
  call _ := dpu_setupReconcilers or errorf "failed to setup reconcilers: " in
  a ← reads (λ '(s, _), side_addr s +:+ ":" +:+ itoa (side_port s));
  on_sys (
    r ← acts (s_ListenTcp a);
    mret (rerr (errorf ("Failed to start listening on " +:+ a +:+ ": ")) r)).

(** [runSideManager], before [Serve]. *)
Definition startSideManager (dpu : bool) : SM (result nat) :=
  call _ := StartVsp (if dpu then "DpuSideManager" else "HostSideManager") or (λ e, e) in
  call _ := SideSetupDevices or (λ e, e) in
  if dpu then DpuListen else HostListen.

(** What the goroutine that waits for the context does on the host side to the listeners:
    [Shutdown] closes that of the CNI server, the device plugin's [Stop] closes its own
    and removes its socket, and both are closed once more. *)
Definition HostShutdown (lis dp : nat) : M W unit :=
  _ ← ignore (acts (u_Close lis));
  _ ← ignore (acts (u_Close dp));
  _ ← ignore (DpCleanup pm);
  _ ← ignore (acts (u_Close lis));
  ignore (acts (u_Close dp)).
End Sides.

(** * Lemmas *)

Section Lemmas.
Context {W : Type} `{!SocketDirs W, !SocketOps W, !SocketView W, !SocketLaws W} (pm : PathManager).

Definition frame (w w' : W) : Prop := bound w' = bound w ∧ open_paths w' = open_paths w.
Lemma EnsureSocketDirExists_ok path (w w' : W) : returns (EnsureSocketDirExists path) w w' (Ok tt) →
  open_paths w' = open_paths w ∧ (under (path_dir path) path = true → bound w' !! path = None) ∧
  (∀ p, bound w' !! p = bound w !! p ∨ under (path_dir path) p = true ∧ bound w' !! p = None ∨ p = path).
Proof.
  intros (w1 & w2 & r & Hall & Hmk & Hcase)%EnsureSocketDirExists_safe.
  pose proof (law_f_RemoveAll (path_dir path) w) as (Ho1 & Hb1 & Hn1). rewrite Hall in Ho1, Hb1, Hn1. simpl in *.
  pose proof (law_f_MkdirAll (path_dir path) 448 w2) as [Hb3 Ho3]. rewrite Hmk in Hb3, Ho3. simpl in *. rewrite Hb3, Ho3.
  destruct Hcase as [(-> & ->)|(Hrm & _)].
  - split; [done|]. split; [intros Hu; by apply Hn1|]. intros p. destruct (Hb1 p); auto.
  - pose proof (law_f_Remove path w1) as [Ho2 Hb2]. rewrite Hrm in Ho2, Hb2. simpl in *. rewrite Ho2, Hb2, Ho1.
    split; [done|]. split; [intros _; by apply lookup_delete_eq|]. intros p.
    destruct (decide (p = path)) as [->|Hne]; [auto|]. rewrite lookup_delete_ne by done. destruct (Hb1 p); auto.
Qed.
Lemma Ensure_open path : preserves open_paths (EnsureSocketDirExists path : M W _).
Proof.
  unfold EnsureSocketDirExists. preserve; try (apply preserves_acts || apply preserves_acts_err); intros;
    [apply law_f_RemoveAll|apply law_f_Remove|apply law_f_MkdirAll].
Qed.
Lemma EnsureSocketDirExists_total path : total (EnsureSocketDirExists path : M W _).
Proof.
  unfold EnsureSocketDirExists. apply total_bind; [apply total_acts|]. intros r. apply total_call.
  - destruct r; [|apply total_ret]. apply total_call; [by intros w; eexists _, _|]. intros [[uid|] mode]; [|apply total_ret].
    repeat case_match; try apply total_ret. apply total_call; [apply total_acts_err|intros; apply total_ret].
  - intros _. apply total_call; [apply total_acts_err|intros; apply total_ret].
Qed.
Lemma chmod_frame p m (w w' : W) r : returns (acts_err (u_Chmod p m)) w w' r → bound w' = bound w ∧ open_paths w' = open_paths w.
Proof.
  intros H. split; (eapply preserves_returns; [|exact H]); apply preserves_acts_err; intros v; apply (law_u_Chmod p m v).
Qed.
Lemma listen_inv p (w w' : W) r : returns (acts (u_Listen p)) w w' r →
  match r with
  | Ok n => bound w !! p = None ∧ open_paths w !! n = None ∧ bound w' = <[p := n]> (bound w) ∧ open_paths w' = <[n := p]> (open_paths w)
  | Err _ => bound w' = bound w ∧ open_paths w' = open_paths w
  end.
Proof. intros H%acts_run_inv. pose proof (law_u_Listen p w) as L. by rewrite H in L. Qed.
Lemma close_inv n (w w' : W) u : returns (ignore (acts (u_Close n))) w w' u →
  match open_paths w !! n with
  | Some p => bound w' = delete p (bound w) ∧ open_paths w' = delete n (open_paths w)
  | None => bound w' = bound w ∧ open_paths w' = open_paths w
  end.
Proof. intros [a H%acts_run_inv]%ignore_returns. pose proof (law_u_Close n w) as L. by rewrite H in L. Qed.

(** A listener made at a path: clients reach it, and it is the only new one. *)
Record listens (path : string) (n : nat) (w w' : W) : Prop := {
  ls_bound : bound w' !! path = Some n;
  ls_fresh : open_paths w !! n = None;
  ls_open : open_paths w' = <[n := path]> (open_paths w) }.

Lemma CniListen_ok (w w' : W) l : returns (CniListen pm) w w' (Ok l) →
  listens (CNIServerPath pm) l w w' ∧
  (∀ p, p ≠ CNIServerPath pm → under (path_dir (CNIServerPath pm)) p = false → bound w' !! p = bound w !! p).
Proof.
  unfold CniListen. intros [(w1 & [] & H1 & H)|(e & _ & [=])]%call_returns.
  apply EnsureSocketDirExists_ok in H1 as (Ho & _ & Hb).
  apply call_returns in H as [(w2 & n & H2 & H)|(e & _ & [=])]. apply listen_inv in H2 as (Hf & Hn & Hb2 & Ho2).
  apply bind_returns in H as (w3 & r & H3 & H). apply chmod_frame in H3 as [Hb3 Ho3].
  destruct r as [[]|e]; [|apply bind_returns in H as (w4 & [] & _ & H); by apply ret_returns in H as [_ [=]]].
  apply ret_returns in H as [-> [= ->]]. split; [split|]; rewrite ?Hb3, ?Ho3, ?Hb2, ?Ho2, ?lookup_insert_eq, <-?Ho; try done.
  intros p Hp Hu. rewrite lookup_insert_ne by done. destruct (Hb p) as [?|[[? _]|?]]; congruence.
Qed.
(** A failing [Listen] leaves nothing open. *)
Lemma CniListen_err (w w' : W) e : returns (CniListen pm) w w' (Err e) → open_paths w' = open_paths w.
Proof.
  unfold CniListen. intros [(w1 & [] & H1 & H)|(e' & H & _)]%call_returns; [|by apply (preserves_returns _ _ _ _ _ (Ensure_open _)) in H].
  apply (preserves_returns _ _ _ _ _ (Ensure_open _)) in H1. rewrite <-H1.
  apply call_returns in H as [(w2 & n & H2 & H)|(e' & H & _)]; apply listen_inv in H2 || apply listen_inv in H; [|apply H].
  destruct H2 as (_ & Hn & _ & Ho). apply bind_returns in H as (w3 & r & H3 & H). apply chmod_frame in H3 as [_ Ho3].
  destruct r as [[]|e2]; [by apply ret_returns in H as [_ [=]]|].
  apply bind_returns in H as (w4 & [] & H4 & H). apply ret_returns in H as [-> _]. apply close_inv in H4.
  rewrite Ho3, Ho, lookup_insert_eq in H4. destruct H4 as [_ ->]. by apply delete_insert_id.
Qed.
Lemma DpCleanup_inv (w w' : W) r : returns (DpCleanup pm) w w' r →
  open_paths w' = open_paths w ∧ bound w' = match r with Ok _ => delete (PluginEndpoint pm) (bound w) | Err _ => bound w end.
Proof.
  unfold DpCleanup, acts_err. intros (w1 & o & H%acts_run_inv & H1)%bind_returns. apply ret_returns in H1 as [-> ->].
  pose proof (law_f_Remove (PluginEndpoint pm) w) as [Ho Hb]. rewrite H in Ho, Hb. by destruct o.
Qed.
Lemma DpListen_ok resource (w w' : W) l : returns (DpListen pm resource) w w' (Ok l) →
  listens (PluginEndpoint pm) l w w' ∧ (∀ p, p ≠ PluginEndpoint pm → bound w' !! p = bound w !! p).
Proof.
  unfold DpListen. intros [(w1 & [] & H1 & H)|(e & _ & [=])]%call_returns. apply DpCleanup_inv in H1 as [Ho Hb].
  apply call_returns in H as [(w2 & n & H2 & H)|(e & _ & [=])]. apply ret_returns in H as [-> [= ->]].
  apply listen_inv in H2 as (Hf & Hn & Hb2 & Ho2). rewrite Ho in Hn. split; [split|]; rewrite ?Hb2, ?Ho2, ?Ho, ?lookup_insert_eq; try done.
  intros p Hp. by rewrite lookup_insert_ne, Hb, lookup_delete_ne by done.
Qed.
Lemma DpListen_err resource (w w' : W) e : returns (DpListen pm resource) w w' (Err e) → open_paths w' = open_paths w.
Proof.
  unfold DpListen. intros [(w1 & [] & H1 & H)|(e' & H & _)]%call_returns; [|by apply DpCleanup_inv in H as [? _]].
  apply DpCleanup_inv in H1 as [Ho _]. apply call_returns in H as [(w2 & n & _ & H)|(e' & H & _)]; [by apply ret_returns in H as [_ [=]]|].
  apply listen_inv in H as [_ ->]. done.
Qed.
Lemma HostShutdown_run l d (w : W) :
  open_paths w !! l = Some (CNIServerPath pm) → open_paths w !! d = Some (PluginEndpoint pm) → l ≠ d →
  ∃ w', returns (HostShutdown pm l d) w w' tt ∧ bound w' = delete (PluginEndpoint pm) (delete (CNIServerPath pm) (bound w)) ∧
    open_paths w' = delete d (delete l (open_paths w)).
Proof.
  intros Hl Hd Hne. destruct (HostShutdown pm l d w) as [w' [[]|]] eqn:E.
  2:{ assert (total (HostShutdown (W := W) pm l d)) as Ht; [|destruct (Ht w) as (? & ? & H); unfold returns in H; congruence].
      assert (∀ f : M W (result unit), total f → total (ignore f)) as Hi by (intros; apply total_bind; [done|intros; apply total_ret]).
      assert (∀ n, total (ignore (acts (u_Close (W := W) n)))) as Hc by (intros; apply total_bind; [apply total_acts|intros; apply total_ret]).
      unfold HostShutdown. repeat (apply total_bind; [first [apply Hc|apply Hi, total_acts_err]|intros _]). apply Hc. }
  exists w'. split; [done|]. unfold HostShutdown in E. change (returns (HostShutdown pm l d) w w' tt) in E. unfold HostShutdown in E.
  apply bind_returns in E as (w1 & u1 & H1 & E). apply close_inv in H1. rewrite Hl in H1. destruct H1 as [Hb1 Ho1].
  apply bind_returns in E as (w2 & u2 & H2 & E). apply close_inv in H2. rewrite Ho1, lookup_delete_ne, Hd in H2 by done. destruct H2 as [Hb2 Ho2].
  apply bind_returns in E as (w3 & u3 & H3 & E). apply ignore_returns in H3 as [r H3]. apply DpCleanup_inv in H3 as [Ho3 Hb3].
  apply bind_returns in E as (w4 & u4 & H4 & E). apply close_inv in H4. rewrite Ho3, Ho2, lookup_delete_ne, lookup_delete_eq in H4 by done.
  destruct H4 as [Hb4 Ho4]. apply close_inv in E. rewrite Ho4, lookup_delete_eq in E. destruct E as [-> ->].
  rewrite Hb4. split; [|done]. rewrite Hb3. destruct r; rewrite Hb2, Hb1; [by rewrite delete_delete_eq|done].
Qed.
End Lemmas.

Section SideLemmas.
Context {W : Type} `{!SocketDirs W, !SocketOps W, !SideOps W, !SocketView W, !SocketLaws W, !SideFrame W} (pm : PathManager) `{!SocketPaths pm}
  (resource : string).
Implicit Types (w : W) (s : side).

Lemma on_sys_returns {A} (f : M W A) s s' w w' a : returns (on_sys f) (s, w) (s', w') a ↔ s' = s ∧ returns f w w' a.
Proof. unfold returns, on_sys. destruct (f w) as [v r]. naive_solver. Qed.
Lemma update_returns f s s' w w' u : returns (update f) (s, w) (s', w') u ↔ s' = f s ∧ w' = w.
Proof. unfold returns, update. destruct u. naive_solver. Qed.
Lemma frame_acts {A} (f : W → W * A) w w' a : frame w (f w).1 → returns (acts f) w w' a → frame w w'.
Proof. intros Hf H%acts_run_inv. by rewrite H in Hf. Qed.
Lemma frame_acts_err (f : W → W * option error) w w' r : frame w (f w).1 → returns (acts_err f) w w' r → frame w w'.
Proof.
  unfold acts_err. intros Hf (w1 & o & H & H1)%bind_returns. apply ret_returns in H1 as [-> _]. by apply (frame_acts f) in H.
Qed.
Lemma frame_trans w1 w2 w3 : frame w1 w2 → frame w2 w3 → frame w1 w3.
Proof. unfold frame. intros [-> ->] [-> ->]. done. Qed.
Lemma plugin_ne_cni : PluginEndpoint pm ≠ CNIServerPath pm.
Proof. intros E. pose proof (cni_under (pm := pm)) as H1. rewrite <-E in H1 at 2. by rewrite plugin_apart in H1. Qed.

Lemma host_setup_inv s s' w w' u : returns host_setupReconcilers (s, w) (s', w') u →
  frame w w' ∧ dpListener s' = dpListener s.
Proof.
  unfold host_setupReconcilers. intros ([s1 w1] & m & H & H1)%bind_returns. unfold returns, reads in H. injection H as -> -> <-.
  destruct (has_manager s1); [by apply ret_returns in H1 as [[= -> ->] _]|].
  apply bind_returns in H1 as ([s2 w2] & r & H2 & H1). apply on_sys_returns in H2 as [-> H2]. apply frame_acts_err in H2; [|apply law_NewManager].
  destruct r as [[]|e]; [|done]. apply bind_returns in H1 as ([s3 w3] & [] & H3 & H1).
  apply ignore_returns in H3 as [a H3]. apply on_sys_returns in H3 as [-> H3]. apply frame_acts in H3; [|apply law_SetupSfc].
  apply update_returns in H1 as [-> ->]. split; [by eapply frame_trans|done].
Qed.

(** Both sockets of the host side. *)
Record up (l d : nat) (w w' : W) : Prop := {
  up_cni : bound w' !! CNIServerPath pm = Some l;
  up_plugin : bound w' !! PluginEndpoint pm = Some d;
  up_fresh_l : open_paths w !! l = None;
  up_fresh_d : open_paths w !! d = None;
  up_ne : l ≠ d;
  up_open : open_paths w' = <[l := CNIServerPath pm]> (<[d := PluginEndpoint pm]> (open_paths w)) }.
Lemma HostListen_ok s s' w w' l : returns (HostListen pm resource) (s, w) (s', w') (Ok l) →
  ∃ d, dpListener s' = Some d ∧ up l d w w' ∧
    (∀ p, p ≠ PluginEndpoint pm → p ≠ CNIServerPath pm → under (path_dir (CNIServerPath pm)) p = false → bound w' !! p = bound w !! p).
Proof.
  unfold HostListen. intros ([s1 w1] & [] & H1 & H)%bind_returns. apply host_setup_inv in H1 as [[Hb1 Ho1] Hd1].
  apply call_returns in H as [([s2 w2] & d & H2 & H)|(e & _ & [=])]. apply on_sys_returns in H2 as [-> H2].
  apply DpListen_ok in H2 as [[Hb2 Hf2 Ho2] Hp2]. apply bind_returns in H as ([s3 w3] & [] & H3 & H).
  apply update_returns in H3 as [-> ->]. apply on_sys_returns in H as [-> H]. apply CniListen_ok in H as [[Hb3 Hf3 Ho3] Hp3].
  exists d. split; [done|]. rewrite Ho2, Ho1 in Hf3, Ho3. rewrite Ho1 in Hf2. split; [split|].
  - done.
  - rewrite Hp3; [done|apply plugin_ne_cni|apply plugin_apart].
  - destruct (decide (l = d)) as [->|]; [by rewrite lookup_insert_eq in Hf3|by rewrite lookup_insert_ne in Hf3 by done].
  - done.
  - intros ->. by rewrite lookup_insert_eq in Hf3.
  - done.
  - intros p Hp Hc Hu. by rewrite Hp3, Hp2, Hb1.
Qed.
Lemma HostListen_err s s' w w' e : returns (HostListen pm resource) (s, w) (s', w') (Err e) →
  open_paths w' = open_paths w ∨
  ∃ d, dpListener s' = Some d ∧ open_paths w !! d = None ∧ open_paths w' = <[d := PluginEndpoint pm]> (open_paths w).
Proof.
  unfold HostListen. intros ([s1 w1] & [] & H1 & H)%bind_returns. apply host_setup_inv in H1 as [[Hb1 Ho1] Hd1].
  apply call_returns in H as [([s2 w2] & d & H2 & H)|(e' & H & _)]; [|left; apply on_sys_returns in H as [_ H]; apply DpListen_err in H; congruence].
  apply on_sys_returns in H2 as [-> H2]. apply DpListen_ok in H2 as [[_ Hf2 Ho2] _]. apply bind_returns in H as ([s3 w3] & [] & H3 & H).
  apply update_returns in H3 as [-> ->]. apply on_sys_returns in H as [-> H]. apply CniListen_err in H.
  right. exists d. split; [done|]. split; congruence.
Qed.
Lemma start_inv dpu s s' w w' l : returns (startSideManager pm resource dpu) (s, w) (s', w') (Ok l) →
  ∃ s1 w1, frame w w1 ∧ returns (if dpu then DpuListen else HostListen pm resource) (s1, w1) (s', w') (Ok l).
Proof.
  unfold startSideManager, StartVsp, SideSetupDevices. intros [([s1 w1] & [] & H1 & H)|(e & _ & [=])]%call_returns.
  apply call_returns in H1 as [([s2 w2] & [a p] & H2 & H1)|(e & _ & [=])]. apply on_sys_returns in H2 as [-> H2].
  apply frame_acts in H2; [|apply law_StartVsp]. apply bind_returns in H1 as ([s3 w3] & [] & H3 & H1). apply update_returns in H3 as [-> ->].
  apply ret_returns in H1 as [[= -> ->] _]. apply call_returns in H as [([s4 w4] & [] & H4 & H)|(e & _ & [=])].
  apply call_returns in H4 as [([s5 w5] & [] & H5 & H4)|(e & _ & [=])]. apply on_sys_returns in H5 as [-> H5].
  apply frame_acts_err in H5; [|apply law_SetupDevices]. apply ret_returns in H4 as [[= -> ->] _].
  eexists _, w5. split; [by eapply frame_trans|exact H].
Qed.
End SideLemmas.

(** * Properties *)

Section Theorems.
Context {W : Type} `{!SocketDirs W, !SocketOps W, !SideOps W, !SocketView W, !SocketLaws W, !SideFrame W}.

(** What [Listen] of the host side ends in.  With a listener: both of its sockets lead to
    its own new listeners, whatever was at the two paths before, and nothing outside the
    directory of the CNI server changed.  With an error: nothing was left open, or the
    listener of the device plugin, which nothing closes.  With a panic: there was no manager
    and one could not be made. *)
Theorem host_listens pm `{!SocketPaths pm} resource (s : side) (w : W) :
  match HostListen pm resource (s, w) with
  | ((s', w'), Ret (Ok l)) => ∃ d, dpListener s' = Some d ∧ up pm l d w w' ∧
      (∀ p, p ≠ PluginEndpoint pm → p ≠ CNIServerPath pm → under (path_dir (CNIServerPath pm)) p = false → bound w' !! p = bound w !! p)
  | ((s', w'), Ret (Err _)) => open_paths w' = open_paths w ∨
      ∃ d, dpListener s' = Some d ∧ open_paths w !! d = None ∧ open_paths w' = <[d := PluginEndpoint pm]> (open_paths w)
  | (_, Panic) => has_manager s = false ∧ (s_NewManager w).2 ≠ None
  end.
Proof.
  destruct (HostListen pm resource (s, w)) as [[s' w'] [[l|e]|]] eqn:E; [by eapply HostListen_ok|by eapply HostListen_err|].
  assert (∀ f : M W (result nat), total f → total (on_sys f)) as Hsys.
  { intros f Hf [s1 w1]. destruct (Hf w1) as (w2 & a & H). exists (s1, w2), a. unfold returns, on_sys in *. by rewrite H. }
  assert (total (call lis := on_sys (DpListen pm resource) or errorf "HostSideManager Failed to Listen while calling device plugin listen: " in
    _ ← update (λ s, s <| dpListener := Some lis |>); on_sys (CniListen (W := W) pm))) as Ht.
  { apply total_call; [apply Hsys|intros lis; apply total_bind; [by intros [s1 w1]; eexists _, _|intros _; apply Hsys]].
    - apply total_call; [apply total_acts_err|intros _; apply total_call; [apply total_acts|intros; apply total_ret]].
    - apply total_call; [apply EnsureSocketDirExists_total|]. intros _. apply total_call; [apply total_acts|]. intros n.
      apply total_bind; [apply total_acts_err|]. intros [[]|e]; [apply total_ret|]. apply total_bind; [|intros; apply total_ret].
      apply total_bind; [apply total_acts|intros; apply total_ret]. }
  unfold HostListen, mbind, M_bind in E. destruct (host_setupReconcilers (s, w)) as [w1 [[]|]] eqn:E1.
  - destruct (Ht w1) as (w2 & a & H). unfold returns, mbind, M_bind in H. rewrite H in E. done.
  - unfold host_setupReconcilers, mbind, M_bind, reads in E1. destruct (has_manager s); [done|]. split; [done|]. intros Hn.
    unfold on_sys, acts_err, ignore, acts, mbind, M_bind, mret, M_ret, update in E1. destruct (s_NewManager w) as [w3 o]. simpl in Hn. subst o.
    by destruct (s_SetupSfc w3).
Qed.

(** C16: a daemon with two DPUs whose host sides use the same paths: when the second has
    started, both sockets are its own, and the first, whose listeners are still open, is
    reached by nobody; when the first is then stopped, because its DPU is gone, it removes
    the sockets of the second, whose listeners stay open, unreachable. *)
Theorem second_side_cut_off pm `{!SocketPaths pm} resource (s1 s1' s2 s2' : side) (w w1 w2 : W) l1 l2 :
  returns (startSideManager pm resource false) (s1, w) (s1', w1) (Ok l1) →
  returns (startSideManager pm resource false) (s2, w1) (s2', w2) (Ok l2) →
  ∃ d1 d2, dpListener s1' = Some d1 ∧ dpListener s2' = Some d2 ∧
    bound w2 !! CNIServerPath pm = Some l2 ∧ bound w2 !! PluginEndpoint pm = Some d2 ∧ l1 ≠ l2 ∧ d1 ≠ d2 ∧
    open_paths w2 !! l1 = Some (CNIServerPath pm) ∧ open_paths w2 !! d1 = Some (PluginEndpoint pm) ∧
    ∃ w3, returns (HostShutdown pm l1 d1) w2 w3 tt ∧
      bound w3 !! CNIServerPath pm = None ∧ bound w3 !! PluginEndpoint pm = None ∧
      open_paths w3 !! l2 = Some (CNIServerPath pm) ∧ open_paths w3 !! d2 = Some (PluginEndpoint pm).
Proof.
  intros (s3 & w1' & Hf1 & H1)%start_inv (s4 & w2' & Hf2 & H2)%start_inv.
  apply (HostListen_ok pm resource) in H1 as (d1 & Hd1 & [_ _ _ _ Hne1 Ho1] & _). apply (HostListen_ok pm resource) in H2 as (d2 & Hd2 & [Hc2 Hp2 Hfl2 Hfd2 Hne2 Ho2] & _).
  rewrite (proj2 Hf2) in Hfl2, Hfd2, Ho2. rewrite (proj2 Hf1) in Ho1.
  assert (l1 ≠ l2 ∧ d1 ≠ d2 ∧ l1 ≠ d2 ∧ d1 ≠ l2) as (Hll & Hdd & Hld & Hdl).
  { rewrite Ho1, !lookup_insert_None in Hfl2, Hfd2. naive_solver. }
  exists d1, d2. split_and!; try done.
  - by rewrite Ho2, !lookup_insert_ne, Ho1, lookup_insert_eq.
  - by rewrite Ho2, !lookup_insert_ne, Ho1, lookup_insert_ne, lookup_insert_eq.
  - destruct (HostShutdown_run pm l1 d1 w2) as (w3 & H3 & Hb & Ho).
    + by rewrite Ho2, !lookup_insert_ne, Ho1, lookup_insert_eq.
    + by rewrite Ho2, !lookup_insert_ne, Ho1, lookup_insert_ne, lookup_insert_eq.
    + done.
    + pose proof (plugin_ne_cni pm) as Hpc.
      exists w3. rewrite Hb, Ho, Ho2, lookup_delete_eq, (lookup_delete_ne _ (PluginEndpoint pm)), lookup_delete_eq by done.
      split_and!; try done.
      * by rewrite !lookup_delete_ne, lookup_insert_eq.
      * by rewrite !lookup_delete_ne, lookup_insert_ne, lookup_insert_eq.
Qed.

(** On the DPU side the CNI server is started by [ListenAndServe]: when it cannot listen the
    daemon panics, where the host side reports the error. *)
Theorem dpu_cni_not_listening_panics pm serve (w w' : W) e : returns (CniListen pm) w w' (Err e) → CniListenAndServe pm serve w = (w', Panic).
Proof. unfold CniListenAndServe, returns, mbind, M_bind. by intros ->. Qed.
End Theorems.

(** * A machine with two DPUs *)

Module SocketsDemo.
Record sys := mkSys { files : gmap string nat; opened : gmap nat string }.
#[export] Instance sys_dirs : SocketDirs sys := {|
  f_RemoveAll d w := (mkSys (filter (λ '(p, _), under d p = false) (files w)) (opened w), None);
  f_Stat _ _ := Err (Text "no such file or directory");
  f_Remove p w := (mkSys (delete p (files w)) (opened w), None);
  f_MkdirAll _ _ w := (w, None) |}.
#[export] Instance sys_sockets : SocketOps sys := {|
  u_Listen p w :=
    match files w !! p with
    | Some _ => (w, Err (Text "bind: address already in use"))
    | None => let n := fresh (dom (opened w)) in (mkSys (<[p := n]> (files w)) (<[n := p]> (opened w)), Ok n)
    end;
  u_Close n w :=
    match opened w !! n with
    | Some p => (mkSys (delete p (files w)) (delete n (opened w)), None)
    | None => (w, Some (Text "use of closed network connection"))
    end;
  u_Chmod _ _ w := (w, None) |}.
#[export] Instance sys_view : SocketView sys := {| bound := files; open_paths := opened |}.
#[export] Instance sys_laws : SocketLaws sys.
Proof.
  split; simpl; try done.
  - intros p w. destruct (files w !! p) as [m|] eqn:E; simpl; [done|]. split_and!; try done. apply not_elem_of_dom, is_fresh.
  - intros n w. by destruct (opened w !! n).
  - intros d w. split; [done|]. split.
    + intros p. destruct (under d p) eqn:E; [right; split; [done|]; apply map_lookup_filter_None; right; intros n _; congruence|left].
      apply option_eq. intros n. rewrite map_lookup_filter_Some. naive_solver.
    + intros _ p Hu. apply map_lookup_filter_None. right. intros n _. congruence.
Qed.
#[export] Instance sys_side : SideOps sys := {|
  s_StartVsp w := (w, Ok ("192.168.1.2", 50151%Z)); s_SetupDevices w := (w, None); s_NewManager w := (w, None); s_SetupSfc w := (w, None);
  s_ListenTcp _ w := (w, Ok 99%nat) |}.
#[export] Instance sys_frame : SideFrame sys.
Proof. by split. Qed.

Definition pm : PathManager := NewPathManager "/".
(** The sockets a daemon that was killed left behind. *)
Definition stale : sys := mkSys {[CNIServerPath pm := 7%nat; PluginEndpoint pm := 8%nat]} ∅.
Definition start (w : sys) : sys * side * nat :=
  match startSideManager pm "openshift.io/dpu" false (new_side, w) with ((s, w), Ret (Ok l)) => (w, s, l) | ((s, w), _) => (w, s, 0%nat) end.
Definition one := start stale.
Definition two := start one.1.1.
Lemma ran_one : returns (startSideManager pm "openshift.io/dpu" false) (new_side, stale) (one.1.2, one.1.1) (Ok one.2).
Proof. vm_compute. reflexivity. Qed.
Lemma ran_two : returns (startSideManager pm "openshift.io/dpu" false) (new_side, one.1.1) (two.1.2, two.1.1) (Ok two.2).
Proof. vm_compute. reflexivity. Qed.
Example dpu_listens :
  (startSideManager pm "openshift.io/dpu" true (new_side, stale)).2 = Ret (Ok 99%nat).
Proof. vm_compute. reflexivity. Qed.
End SocketsDemo.
Import SocketsDemo.
Lemma second_side_cut_off_witness : bound two.1.1 !! CNIServerPath pm = Some two.2 ∧ open_paths two.1.1 !! one.2 = Some (CNIServerPath pm).
Proof.
  destruct (second_side_cut_off pm "openshift.io/dpu" new_side one.1.2 new_side two.1.2 stale one.1.1 two.1.1 one.2 two.2 ran_one ran_two)
    as (d1 & d2 & _ & _ & H1 & _ & _ & _ & H2 & _).
  split; [exact H1|exact H2].
Defined.
