(* ===== verification/Injector.v ===== *)
(** The network-resources injector, cmd/nri/networkresourcesinjector.go: the validation of
    its flags, the route of its webhook, the loop that watches the certificate and polls the
    control switches, with those switches
    (k8snetworkplumbingwg/network-resources-injector/pkg/controlswitches).

    The admission of pods itself ([webhook.MutateHandler]) is third-party code; so are the
    user-defined injections, fsnotify and TLS. *)
From S2P Require Import Prelude Plugin GoMonad Kube.
#[local] Open Scope stdpp_scope.

(** * Flags *)

Record flags := mkFlags {
  f_port : Z; f_address : string; f_cert : string; f_key : string; f_insecure : bool; f_clientCAs : list string;
  f_healthCheckPort : Z; f_enableHTTP2 : bool; f_injectHugepageDownAPI : bool; f_resourceNameKeys : string; f_resourcesHonor : bool }.
#[export] Instance flags_eta : Eta flags := λ f,
  mkFlags (f_port f) (f_address f) (f_cert f) (f_key f) (f_insecure f) (f_clientCAs f) (f_healthCheckPort f) (f_enableHTTP2 f)
    (f_injectHugepageDownAPI f) (f_resourceNameKeys f) (f_resourcesHonor f).
Definition default_flags : flags :=
  mkFlags 8443 "0.0.0.0" "cert.pem" "key.pem" false [] 8444 false false "k8s.v1.cni.cncf.io/resourceName" false.
Definition defaultClientCa : string := "/var/run/secrets/kubernetes.io/serviceaccount/ca.crt".
Definition controlSwitchesConfigMap : string := "nri-control-switches".

Definition isValidPort (port : Z) : bool := if (port <? 1024)%Z || (65535 <? port)%Z then false else true.
Definition IsResourcesNameEnabled (f : flags) : bool := (0 <? String.length (f_resourceNameKeys f))%nat.

(** What is served, and where; [verify_clients] is [GetClientAuth]. *)
Record settings := mkSettings {
  serve_addr : string; health_addr : string; client_cas : list string; verify_clients : bool; http2 : bool; namespace : string }.
(** [fatalf] ends the process with its message. *)
Definition configure (f : flags) (namespace_env : string) : string + settings :=
  if negb (isValidPort (f_port f)) then inl "invalid port number. Choose between 1024 and 65535" else
  if negb (IsResourcesNameEnabled f) then inl "Input argument for resourceName cannot be empty." else
  if String.eqb (f_address f) "" || String.eqb (f_cert f) "" || String.eqb (f_key f) "" then inl "input argument(s) not defined correctly" else
  let cas := match f_clientCAs f with [] => [defaultClientCa] | l => l end in
  let ns := if String.eqb namespace_env "" then "kube-system" else namespace_env in
  if negb (isValidPort (f_healthCheckPort f)) then inl "Invalid health check port number. Choose between 1024 and 65535" else
  if (f_healthCheckPort f =? f_port f)%Z then inl "Health check port should be different from port" else
  inr (mkSettings (f_address f +:+ ":" +:+ itoa (f_port f)) (f_address f +:+ ":" +:+ itoa (f_healthCheckPort f))
         cas (negb (f_insecure f)) (f_enableHTTP2 f) ns).

(** The handler of "/mutate": a status, or the request goes to [MutateHandler]. *)
Definition mutate_route (path method : string) : option Z :=
  if negb (String.eqb path "/mutate") then Some 404%Z
  else if negb (String.eqb method "POST") then Some 405%Z
  else None.

(** * The control switches *)

Record feature := mkFeature { active : bool; initial : bool }.
Definition enableHugePageDownAPIKey : string := "enableHugePageDownApi".
Definition enableHonorExistingResourcesKey : string := "enableHonorExistingResources".
Abbreviation configuration := (gmap string feature).
Definition InitControlSwitches (f : flags) : configuration :=
  <[enableHonorExistingResourcesKey := mkFeature (f_resourcesHonor f) (f_resourcesHonor f)]>
    {[enableHugePageDownAPIKey := mkFeature (f_injectHugepageDownAPI f) (f_injectHugepageDownAPI f)]}.
Definition state_of (c : configuration) (name : string) : feature := default (mkFeature false false) (c !! name).
Definition reset (name : string) (c : configuration) : configuration :=
  <[name := mkFeature (initial (state_of c name)) (initial (state_of c name))]> c.
Definition setAllFeaturesToInitialState (c : configuration) : configuration :=
  reset enableHonorExistingResourcesKey (reset enableHugePageDownAPIKey c).
Definition setFeatureToState (name : string) (switchObj : gmap string bool) (c : configuration) : configuration :=
  match switchObj !! name with
  | Some v => <[name := mkFeature v (initial (state_of c name))]> c
  | None => reset name c
  end.

Abbreviation configmap := (gmap string string).
(** encoding/json on the configuration file: its members unparsed, and a member that maps
    names to booleans. *)
Class SwitchJSON := { json_members : string → result (gmap string string); json_bools : string → result (gmap string bool) }.
Definition ProcessControlSwitchesConfigMap `{!SwitchJSON} (cm : configmap) (c : configuration) : configuration :=
  match cm !! "config.json" with
  | None => c
  | Some v =>
      match json_members v with
      | Err _ => setAllFeaturesToInitialState c
      | Ok obj =>
          match obj !! "features" with
          | None => c
          | Some m =>
              match json_bools m with
              | Err _ => setAllFeaturesToInitialState c
              | Ok switchObj => setFeatureToState enableHonorExistingResourcesKey switchObj (setFeatureToState enableHugePageDownAPIKey switchObj c)
              end
          end
      end
  end.

(** * The loop *)

(** The key pair, the API server and the user-defined injections. *)
Class InjectorOps (W : Type) := {
  n_Reload : W → W * option error;
  n_GetConfigMap : string → string → W → W * get_result configmap;
  n_SetUserDefinedInjections : configmap → W → W }.

(** What a [select] can receive. *)
Inductive message := FileEvent (name : string) (op : Z) | EventsClosed | WatcherError (e : error) | ErrorsClosed | HalfMinute.
Definition op_mask : Z := Z.lor 1 (Z.lor 8 (Z.lor 4 (Z.lor 2 16))).
Record watching := mkWatching { certUpdated : bool; keyUpdated : bool; switches : configuration }.
#[export] Instance watching_eta : Eta watching := λ s, mkWatching (certUpdated s) (keyUpdated s) (switches s).

Section Loop.
Context {W : Type} `{!InjectorOps W, !SwitchJSON} (cert key ns : string).
Abbreviation NM := (M (watching * W)).
Definition mark (name : string) (s : watching) : watching :=
  let s := if String.eqb name cert then s <| certUpdated := true |> else s in
  if String.eqb name key then s <| keyUpdated := true |> else s.
Definition modify_watch (f : watching → watching) : NM unit := λ '(s, w), ((f s, w), Ret tt).
Definition on_injector {A} (f : W → W * A) : NM A := λ '(s, w), let '(w, a) := f w in ((s, w), Ret a).

(** One turn; an error ends the process. *)
Definition turn (m : message) : NM (result unit) :=
  match m with
  | FileEvent name op =>
      if (Z.land op op_mask =? 0)%Z then ok else
      _ ← modify_watch (mark name);
      both ← reads (λ '(s, _), keyUpdated s && certUpdated s);
      if negb both then ok else
      r ← on_injector n_Reload;
      match r with
      | Some e => mret (Err (errorf "Failed to reload certificate: " e))
      | None => _ ← modify_watch (λ s, s <| certUpdated := false |> <| keyUpdated := false |>); ok
      end
  | EventsClosed | ErrorsClosed | WatcherError _ => ok
  | HalfMinute =>
      got ← on_injector (n_GetConfigMap ns controlSwitchesConfigMap);
      match got with
      | GetError _ => ok
      | GetNotFound _ | GetFound _ =>
          (** The client answers an empty map when there is none. *)
          let cm := match got with GetFound cm => cm | _ => ∅ end in
          _ ← modify_watch (λ s, s <| switches := ProcessControlSwitchesConfigMap cm (switches s) |>);
          _ ← on_injector (λ w, (n_SetUserDefinedInjections cm w, tt));
          ok
      end
  end.
Fixpoint watch_loop (ms : list message) : NM (result unit) :=
  match ms with
  | [] => ok
  | m :: ms => call _ := turn m or (λ e, e) in watch_loop ms
  end.
Definition started (c : configuration) : watching := mkWatching false false c.
End Loop.

(** * Lemmas *)

Definition changes (file : string) (m : message) : bool :=
  match m with FileEvent name op => String.eqb name file && negb (Z.land op op_mask =? 0)%Z | _ => false end.
Definition count_changes (file : string) (ms : list message) : nat := length (filter (λ m, changes file m = true) ms).
Definition pending (b : bool) : nat := if b then 1 else 0.
Lemma count_changes_cons file m ms : count_changes file (m :: ms) = pending (changes file m) + count_changes file ms.
Proof. unfold count_changes. rewrite filter_cons. by destruct (changes file m). Qed.

(** Reloading is counted, nothing else reloads. *)
Class CountsReloads (W : Type) `{!InjectorOps W} := {
  reloads : W → nat;
  law_Reload w : reloads (n_Reload w).1 = S (reloads w);
  law_GetMap ns name w : reloads (n_GetConfigMap ns name w).1 = reloads w;
  law_Injections cm w : reloads (n_SetUserDefinedInjections cm w) = reloads w }.

Section Lemmas.
Context {W : Type} `{!InjectorOps W, !SwitchJSON, !CountsReloads W} (cert key ns : string).
Implicit Types (s : watching) (w : W).

Lemma mark_flags name s :
  certUpdated (mark cert key name s) = String.eqb name cert || certUpdated s ∧
  keyUpdated (mark cert key name s) = String.eqb name key || keyUpdated s ∧ switches (mark cert key name s) = switches s.
Proof. unfold mark. by destruct (String.eqb name cert), (String.eqb name key). Qed.

(** A turn that goes on takes the marks over, or finds both set, loads the pair and clears
    them. *)
Lemma turn_marks m s s' w w' : returns (turn cert key ns m) (s, w) (s', w') (Ok tt) →
  let c := certUpdated s || changes cert m in let k := keyUpdated s || changes key m in
  certUpdated s && keyUpdated s = false →
  if c && k then certUpdated s' = false ∧ keyUpdated s' = false ∧ reloads w' = S (reloads w)
  else certUpdated s' = c ∧ keyUpdated s' = k ∧ reloads w' = reloads w.
Proof.
  destruct m as [name op| | | |]; unfold turn; simpl; rewrite ?orb_false_r.
  2,3,4,5: intros Hrun Hn; rewrite Hn.
  2,3,4: by apply ret_returns in Hrun as [[= -> ->] _].
  2:{ unfold on_injector, returns, mbind, M_bind in Hrun. pose proof (law_GetMap ns controlSwitchesConfigMap w) as Hg.
      destruct (n_GetConfigMap ns controlSwitchesConfigMap w) as [w1 [cm|e|e]]; simpl in *; injection Hrun as <- <-; simpl; rewrite ?law_Injections; done. }
  intros Hrun Hn. destruct (Z.land op op_mask =? 0)%Z; simpl; [rewrite !andb_false_r, !orb_false_r, Hn; by apply ret_returns in Hrun as [[= -> ->] _]|].
  rewrite !andb_true_r. unfold modify_watch, reads, on_injector, returns, mbind, M_bind in Hrun. simpl in Hrun.
  destruct (mark_flags name s) as (Ec & Ek & _). rewrite Ec, Ek in Hrun. rewrite (orb_comm (certUpdated s)), (orb_comm (keyUpdated s)).
  rewrite (andb_comm (_ || keyUpdated s)) in Hrun. pose proof (law_Reload w) as Hr.
  destruct ((String.eqb name cert || certUpdated s) && (String.eqb name key || keyUpdated s)); simpl in Hrun.
  - destruct (n_Reload w) as [w1 [e|]]; simpl in *; by injection Hrun as <- <-.
  - injection Hrun as <- <-. by rewrite Ec, Ek.
Qed.
Lemma turn_inv m s s' w w' : certUpdated s && keyUpdated s = false → returns (turn cert key ns m) (s, w) (s', w') (Ok tt) →
  certUpdated s' && keyUpdated s' = false.
Proof. intros Hn Hrun. pose proof (turn_marks m s s' w w' Hrun Hn) as T. destruct (_ && _) eqn:E in T; destruct T as (-> & -> & _); done. Qed.
Lemma loop_monotone ms s s' w w' : certUpdated s && keyUpdated s = false →
  returns (watch_loop cert key ns ms) (s, w) (s', w') (Ok tt) → (reloads w ≤ reloads w')%nat.
Proof.
  revert s w. induction ms as [|m ms IH]; intros s w Hn Hrun; [by apply ret_returns in Hrun as [[= -> ->] _]|].
  cbn [watch_loop] in Hrun. apply call_returns in Hrun as [([s1 w1] & [] & H1 & Hrun)|(e & _ & [=])].
  pose proof (turn_marks m s s1 w w1 H1 Hn) as Hm. apply turn_inv in H1; [|done]. specialize (IH s1 w1 H1 Hrun).
  destruct (_ && _) in Hm; destruct Hm as (_ & _ & Hr); lia.
Qed.
End Lemmas.

(** * Properties *)

Definition valid_flags (f : flags) : Prop :=
  (1024 ≤ f_port f ≤ 65535)%Z ∧ (1024 ≤ f_healthCheckPort f ≤ 65535)%Z ∧ f_healthCheckPort f ≠ f_port f ∧
  f_resourceNameKeys f ≠ "" ∧ f_address f ≠ "" ∧ f_cert f ≠ "" ∧ f_key f ≠ "".
Lemma isValidPort_spec p : isValidPort p = true ↔ (1024 ≤ p ≤ 65535)%Z.
Proof. unfold isValidPort. destruct (Z.ltb_spec p 1024), (Z.ltb_spec 65535 p); simpl; split; (done || lia). Qed.

(** The injector starts exactly with flags that make sense: both ports in range and
    different, and no empty address, file or resource name; what it then serves has a
    certificate authority to go by, a namespace to look into and two different addresses. *)
Theorem configure_checks (f : flags) (namespace_env : string) :
  match configure f namespace_env with
  | inr c => valid_flags f ∧ serve_addr c ≠ health_addr c ∧ client_cas c ≠ [] ∧ namespace c ≠ "" ∧ verify_clients c = negb (f_insecure f)
  | inl _ => ¬ valid_flags f
  end.
Proof.
  unfold configure, valid_flags, IsResourcesNameEnabled. destruct (isValidPort_spec (f_port f)) as [Ho1 Hp1].
  destruct (isValidPort_spec (f_healthCheckPort f)) as [Ho2 Hp2].
  destruct (isValidPort (f_port f)); simpl; [specialize (Ho1 eq_refl); clear Hp1|intros (H & _); by apply Hp1 in H].
  destruct (f_resourceNameKeys f); simpl; [by intros (_ & _ & _ & ? & _)|].
  destruct (String.eqb_spec (f_address f) ""); simpl; [by intros (_ & _ & _ & _ & ? & _)|].
  destruct (String.eqb_spec (f_cert f) ""); simpl; [by intros (_ & _ & _ & _ & _ & ? & _)|].
  destruct (String.eqb_spec (f_key f) ""); simpl; [by intros (_ & _ & _ & _ & _ & _ & ?)|].
  destruct (isValidPort (f_healthCheckPort f)); simpl; [specialize (Ho2 eq_refl); clear Hp2|intros (_ & H & _); by apply Hp2 in H].
  destruct (Z.eqb_spec (f_healthCheckPort f) (f_port f)) as [|Hne]; [by intros (_ & _ & ? & _)|]. simpl. split_and!; try done; try lia.
  - intros E. apply string_app_inj_l in E. injection E as E. apply Hne. apply (f_equal atoi) in E.
    rewrite !atoi_itoa in E by (unfold fits_int64; lia). by injection E.
  - by destruct (f_clientCAs f).
  - by destruct (String.eqb_spec namespace_env "").
Qed.

Section Watching.
Context {W : Type} `{!InjectorOps W, !SwitchJSON, !CountsReloads W}.

(** While the loop runs, a certificate and a key that have both changed are always
    loaded, and nothing is loaded before: among any messages in which each of the two files
    changes, or had changed since the pair was last loaded, there is a reload; otherwise there
    is none; and there are never more reloads than changes of either file. *)
Theorem certificate_reloaded cert key ns (ms : list message) (s s' : watching) (w w' : W) :
  certUpdated s && keyUpdated s = false →
  returns (watch_loop cert key ns ms) (s, w) (s', w') (Ok tt) →
  ((reloads w < reloads w')%nat ↔
    (certUpdated s = true ∨ (0 < count_changes cert ms)%nat) ∧ (keyUpdated s = true ∨ (0 < count_changes key ms)%nat)) ∧
  (reloads w' ≤ reloads w + pending (certUpdated s) + count_changes cert ms)%nat ∧
  (reloads w' ≤ reloads w + pending (keyUpdated s) + count_changes key ms)%nat.
Proof.
  revert s w. induction ms as [|m ms IH]; intros s w Hn Hrun.
  { apply ret_returns in Hrun as [[= -> ->] _]. unfold count_changes. simpl. split; [|lia]. split; [lia|].
    intros [[Hc|?] [Hk|?]]; try lia. by rewrite Hc, Hk in Hn. }
  cbn [watch_loop] in Hrun. apply call_returns in Hrun as [([s1 w1] & [] & H1 & Hrun)|(e & _ & [=])].
  pose proof (turn_marks cert key ns m s s1 w w1 H1 Hn) as Hm. apply turn_inv in H1; [|done].
  pose proof (loop_monotone cert key ns ms s1 s' w1 w' H1 Hrun). specialize (IH s1 w1 H1 Hrun). rewrite !count_changes_cons.
  destruct (certUpdated s), (keyUpdated s), (changes cert m), (changes key m); simpl in Hm; try discriminate;
    destruct Hm as (Hc & Hk & Hr); rewrite Hc, Hk, Hr in IH; simpl in *; intuition lia.
Qed.

(** A poll that finds no configuration map changes nothing, although it means to restore
    the defaults: switches that were set by a map stay set after the map is deleted. *)
Theorem removed_map_keeps_switches cert key ns (s : watching) (w : W) e :
  (n_GetConfigMap ns controlSwitchesConfigMap w).2 = GetNotFound e →
  ∃ w', returns (turn cert key ns HalfMinute) (s, w) (s, w') (Ok tt).
Proof.
  intros Hg. unfold turn, on_injector, returns, mbind, M_bind. destruct (n_GetConfigMap ns controlSwitchesConfigMap w) as [w1 g]. simpl in Hg. subst g.
  simpl. eexists. by destruct s.
Qed.
End Watching.

(** A map that can be read sets the switches it names and resets the others; one that cannot
    be read resets them all. *)
Theorem switches_processed `{!SwitchJSON} (cm : configmap) (c : configuration) v obj m :
  cm !! "config.json" = Some v → json_members v = Ok obj → obj !! "features" = Some m →
  ∀ name, name = enableHugePageDownAPIKey ∨ name = enableHonorExistingResourcesKey →
  let f := state_of (ProcessControlSwitchesConfigMap cm c) name in
  initial f = initial (state_of c name) ∧
  active f = match json_bools m with Ok o => default (initial (state_of c name)) (o !! name) | Err _ => initial (state_of c name) end.
Proof.
  intros Hv Ho Hm name Hname. unfold ProcessControlSwitchesConfigMap. rewrite Hv, Ho, Hm.
  assert (∀ n n' f c', n ≠ n' → state_of (<[n := f]> c') n' = state_of c' n') as Hne.
  { intros n n' f c' Hnn. unfold state_of. by rewrite lookup_insert_ne. }
  assert (∀ n f c', state_of (<[n := f]> c') n = f) as Heq by (intros n f c'; unfold state_of; by rewrite lookup_insert_eq).
  destruct (json_bools m) as [o|e]; simpl; unfold setAllFeaturesToInitialState, setFeatureToState, reset;
    destruct Hname as [-> | ->]; repeat case_match; by rewrite ?Heq, ?(Hne enableHugePageDownAPIKey), ?(Hne enableHonorExistingResourcesKey), ?Heq.
Qed.

(** * Example *)

Module InjectorDemo.
(** The machine: the map, if there is one, and the number of reloads. *)
Definition injector : Type := option configmap * nat.
#[export] Instance injector_ops : InjectorOps injector := {|
  n_Reload '(cm, n) := ((cm, S n), None); n_GetConfigMap _ _ w := (w, found w.1); n_SetUserDefinedInjections _ w := w |}.
#[export] Instance injector_counts : CountsReloads injector.
Proof. by refine {| reloads := snd |}; try done; intros []. Defined.
(** A toy syntax: the file is the member, a member lists the names that are on. *)
#[export] Instance toy_json : SwitchJSON := {|
  json_members v := Ok {["features" := v]};
  json_bools m := Ok (list_to_map ((λ n, (n, true)) <$> split_char "," m)) |}.
Definition both_events : list message := [FileEvent "/etc/tls/tls.crt" 4; HalfMinute; FileEvent "/etc/tls/tls.key" 2].
Definition w0 : injector := (Some {["config.json" := "enableHonorExistingResources"]}, 0).
Definition s0 : watching := started (InitControlSwitches default_flags).
Definition after := (watch_loop "/etc/tls/tls.crt" "/etc/tls/tls.key" "dpu" both_events (s0, w0)).1.
Lemma loop_ran : returns (watch_loop "/etc/tls/tls.crt" "/etc/tls/tls.key" "dpu" both_events) (s0, w0) (after.1, after.2) (Ok tt).
Proof. vm_compute. reflexivity. Qed.
(** The map turned the feature on; once the map is gone it stays on. *)
Example stays_on :
  active (state_of (switches after.1) enableHonorExistingResourcesKey) = true ∧
  active (state_of (switches (turn "c" "k" "dpu" HalfMinute (after.1, (None, 1))).1.1) enableHonorExistingResourcesKey) = true ∧
  initial (state_of (switches after.1) enableHonorExistingResourcesKey) = false.
Proof. vm_compute. done. Qed.
Example starts :
  configure (default_flags <| f_clientCAs := ["ca"] |>) "" = inr (mkSettings "0.0.0.0:8443" "0.0.0.0:8444" ["ca"] true false "kube-system") ∧
  configure (default_flags <| f_healthCheckPort := 8443%Z |>) "" = inl "Health check port should be different from port".
Proof. vm_compute. done. Qed.
End InjectorDemo.
Import InjectorDemo.
Lemma certificate_reloaded_witness : (reloads w0 < reloads after.2)%nat.
Proof.
  apply (proj2 (proj1 (certificate_reloaded "/etc/tls/tls.crt" "/etc/tls/tls.key" "dpu" both_events s0 after.1 w0 after.2 eq_refl loop_ran))).
  split; right; vm_compute; lia.
Defined.
Lemma removed_map_keeps_switches_witness :
  ∃ w', returns (turn "c" "k" "dpu" HalfMinute) (after.1, ((None, 1) : injector)) (after.1, w') (Ok tt).
Proof. exact (removed_map_keeps_switches "c" "k" "dpu" after.1 ((None, 1) : injector) (Text "not found") eq_refl). Defined.
