(* ===== verification/EntryPoints.v ===== *)
(** The programs as they start: cmd/daemon/daemon.go with the preparation of the daemon
    (internal/daemon/daemon.go), and cmd/main.go, the operator.  The flags and the loggers are
    left out; what a library answers is an argument. *)
From S2P Require Import Prelude Plugin GoMonad Cluster CniTypes VspNet.
#[local] Open Scope stdpp_scope.

(** * The log level of the daemon *)

(** zap's levels; [ParseLevel] is zap's. *)
Definition InfoLevel : Z := 0.
Definition DebugLevel : Z := -1.
Definition logLevelFromEnv (ParseLevel : string → option Z) (getenv : string → string) : option Z :=
  let raw := trim_space (getenv "DPU_DAEMON_LOG_LEVEL") in
  if String.eqb raw "" then None else
  match ParseLevel (to_lower raw) with
  | Some parsed => Some parsed
  | None =>
      match atoi raw with
      | None => None
      | Some verbosity => Some (if (verbosity <=? 0)%Z then InfoLevel else DebugLevel)
      end
  end.
(** The level of the daemon's logger. *)
Definition daemon_level ParseLevel getenv : Z := default DebugLevel (logLevelFromEnv ParseLevel getenv).

(** * The daemon *)

(** What the file system answers while the CNI plugin is copied and made executable. *)
Record copy_faults := { create_fault : option error; copy_fault : option (string * error); chmod_fault : option error; file_mode : Z }.
Abbreviation files := (gmap string file).
Definition prepareCni (faults : copy_faults) (pm : PathManager) (fs : files) : files * result unit :=
  let cniPath := CniPath pm in
  let '(fs, r) := CopyFile (create_fault faults) (copy_fault faults) (file_mode faults) "/dpu-cni" cniPath fs in
  match r with
  | Err _ => (fs, Err (Text ("Failed to prepare CNI binary from /dpu-cni to " +:+ cniPath)))
  | Ok _ => MakeExecutable (chmod_fault faults) cniPath fs
  end.
(** [new_client] is what the client library answers. *)
Definition Prepare (new_client : option error) (faults : copy_faults) (pm : PathManager) (fs : files) : files * result unit :=
  match new_client with
  | Some e => (fs, Err (errorf "Failed to create client: " e))
  | None => prepareCni faults pm fs
  end.
(** [Serve] only ever returns with an error, and the program gives it a context that is never
    cancelled. *)
Definition PrepareAndServe {W} (prepare : M W (result unit)) (serve : M W error) : M W error :=
  r ← prepare;
  match r with Err e => mret e | Ok _ => serve end.
(** The exit code of the program, when it ends. *)
Definition daemon_main {W} (prepare : M W (result unit)) (serve : M W error) : M W Z := _ ← PrepareAndServe prepare serve; mret 1%Z.

(** The kind of side manager a unit gets; [None] is the error of its constructor. *)
Inductive side_manager := DpuSide | HostSide.
Definition createSideManager (new_dpu new_host : option error) (IsDpuSide : bool) : result side_manager :=
  if IsDpuSide then
    match new_dpu with Some e => Err (errorf "failed to create DpuSideManager: " e) | None => Ok DpuSide end
  else
    match new_host with Some e => Err (errorf "failed to create HostSideManager: " e) | None => Ok HostSide end.

(** * The operator *)

(** What is set up before the manager is started. *)
Inductive setup := SetConfig (policy : string) | SetChains | SetDpus (policy : string) | SetWebhook | SetDpuConfigs | SetHealthz | SetReadyz (webhooks : bool).
#[export] Instance setup_eq_dec : EqDecision setup.
Proof. solve_decision. Defined.
Class ControllerRuntime (W : Type) := {
  cr_NewManager : W → W * option error;
  cr_Setup : setup → W → W * option error;
  cr_Start : W → W * option error }.
(** [os.LookupEnv] of the pull policy: a variable that is set to nothing counts. *)
Definition pull_policy (env : gmap string string) (dflt : string) : string := default dflt (env !! "IMAGE_PULL_POLICIES").
Definition webhooks_enabled (env : gmap string string) : bool := negb (String.eqb (default "" (env !! "ENABLE_WEBHOOKS")) "false").
Definition setups (env : gmap string string) : list setup :=
  [SetConfig (pull_policy env "IfNotPresent"); SetChains; SetDpus (pull_policy env "Always")]
  ++ (if webhooks_enabled env then [SetWebhook] else [])
  ++ [SetDpuConfigs; SetHealthz; SetReadyz (webhooks_enabled env)].
Section Operator.
Context {W : Type} `{!ControllerRuntime W}.
Fixpoint set_up (l : list setup) : M W (result unit) :=
  match l with
  | [] => ok
  | s :: l => call _ := acts_err (cr_Setup s) or (λ e, e) in set_up l
  end.
(** Every failure ends the program with the code 1. *)
Definition operator_main (env : gmap string string) : M W Z :=
  r ← (call _ := acts_err cr_NewManager or (λ e, e) in
       call _ := set_up (setups env) or (λ e, e) in
       acts_err cr_Start);
  mret (match r with Ok _ => 0%Z | Err _ => 1%Z end).
End Operator.
(** The readiness probe of the operator; [dial] is what a TLS connection to the webhook's own
    port answers. *)
Definition webhookReadinessCheck (dial : Z → option error) (enabled : bool) (port : Z) : option error :=
  if negb enabled then None else
  match dial port with Some e => Some (errorf "webhook TLS server not ready: " e) | None => None end.

(** * Lemmas *)

Lemma itoa_neg p : itoa (Z.neg p) = String "-" (itoa (Z.pos p)).
Proof. done. Qed.
Lemma itoa_no_space z : all_char (λ c, negb (is_space c)) (itoa z) = true.
Proof.
  assert (∀ p, all_char (λ c, negb (is_space c)) (itoa (Z.pos p)) = true) as Hp.
  { intros p. pose proof (digits_itoa (Z.pos p) ltac:(lia)) as [_ H]%andb_prop. revert H. apply all_char_impl. intros c.
    unfold is_digit, is_space. intros [H1%Nat.leb_le H2%Nat.leb_le]%andb_prop.
    apply negb_true_iff, orb_false_intro; [|apply Nat.eqb_neq; lia]. apply andb_false_intro2, Nat.leb_gt. lia. }
  destruct z as [|p|p]; [done|apply Hp|]. rewrite itoa_neg. simpl. apply Hp.
Qed.
Lemma trim_itoa z : trim_space (itoa z) = itoa z.
Proof. apply trim_func_id. pose proof (itoa_no_space z) as H. revert H. by apply all_char_impl. Qed.

(** * Theorems *)

(** The daemon's level is that of the configuration, of which the operator passes the number
    on: a number that is not positive asks for information, any other for everything there
    is. *)
Theorem level_of_config ParseLevel getenv n : getenv "DPU_DAEMON_LOG_LEVEL" = itoa n → fits_int64 n = true →
  ParseLevel (to_lower (itoa n)) = None → daemon_level ParseLevel getenv = if (n <=? 0)%Z then InfoLevel else DebugLevel.
Proof.
  intros Hg Hf Hp. unfold daemon_level, logLevelFromEnv. rewrite Hg, trim_itoa, Hp, (atoi_itoa _ Hf).
  destruct (String.eqb_spec (itoa n) "") as [E|_]; [|done]. by destruct (itoa_nonempty n).
Qed.

(** The preparation of the daemon touches no file but the CNI plugin on the host; when it
    succeeds the plugin is that of the image, and everybody may execute it. *)
Theorem Prepare_copies new_client faults pm (fs fs' : files) r : Prepare new_client faults pm fs = (fs', r) →
  (∀ p, p ≠ CniPath pm → fs' !! p = fs !! p) ∧
  (r = Ok tt → ∃ plugin installed, fs !! "/dpu-cni" = Some plugin ∧ fs' !! CniPath pm = Some installed ∧
    contents installed = contents plugin ∧ Z.land (mode installed) 73 = 73%Z).
Proof.
  unfold Prepare, prepareCni, CopyFile, MakeExecutable. destruct new_client; [by intros [= <- <-]|].
  destruct (fs !! "/dpu-cni") as [plugin|] eqn:E; [|by intros [= <- <-]]. destruct (create_fault faults); [by intros [= <- <-]|].
  assert (∀ f, (∀ p, p ≠ CniPath pm → <[CniPath pm := f]> fs !! p = fs !! p)) as Hne by (intros f p Hp; by rewrite lookup_insert_ne).
  destruct (copy_fault faults) as [[written e]|].
  { intros [= <- <-]. split; [apply Hne|done]. }
  rewrite lookup_insert_eq. destruct (chmod_fault faults); intros [= <- <-]; [by split; [apply Hne|]|].
  rewrite insert_insert_eq. split; [apply Hne|]. intros _. eexists _, _. split; [done|]. split; [apply lookup_insert_eq|]. split; [done|].
  simpl. apply Z.bits_inj. intros i. rewrite Z.land_spec, Z.lor_spec. by destruct (Z.testbit _ i), (Z.testbit 73 i).
Qed.

(** The operator runs only when everything has been set up, in this order, and the webhook
    unless it was switched off. *)
Inductive all_set_up {W} `{!ControllerRuntime W} : list setup → W → W → Prop :=
  | set_up_none w : all_set_up [] w w
  | set_up_one s l w w1 w2 : cr_Setup s w = (w1, None) → all_set_up l w1 w2 → all_set_up (s :: l) w w2.
Theorem operator_set_up {W} `{!ControllerRuntime W} env (w w' : W) : returns (operator_main env) w w' 0%Z →
  ∃ w1 w2, cr_NewManager w = (w1, None) ∧ all_set_up (setups env) w1 w2 ∧ cr_Start w2 = (w', None) ∧
    (SetWebhook ∈ setups env ↔ env !! "ENABLE_WEBHOOKS" ≠ Some "false").
Proof.
  assert (∀ (f : W → W * option error) v v', returns (acts_err f) v v' (Ok tt) → f v = (v', None)) as Hrun.
  { intros f v v'. unfold returns, acts_err, mbind, M_bind, mret, M_ret, acts. destruct (f v) as [v1 [e|]]; by intros [= <-]. }
  assert (∀ l v v', returns (set_up l) v v' (Ok tt) → all_set_up l v v') as Hset.
  { induction l as [|s l IH]; intros v v' H; [inv_ret H; constructor|]. cbn [set_up] in H. inv_call H as H1. destruct a.
    econstructor; [by apply Hrun|by apply IH]. }
  unfold operator_main. intros H. inv_bind H as H1. destruct a as [[]|e]; apply ret_returns in H as [-> H]; [|done].
  inv_call H1 as H2. inv_call H1 as H3. destruct a, a0. apply Hrun in H2, H1. apply Hset in H3.
  eexists _, _. split; [done|]. split; [done|]. split; [done|].
  unfold setups, webhooks_enabled. destruct (env !! "ENABLE_WEBHOOKS") as [v|]; simpl.
  - destruct (String.eqb_spec v "false") as [->|Hne]; simpl; [set_solver|]. split; [by intros _ [= ->]|intros _; set_solver].
  - split; [done|intros _; set_solver].
Qed.
