(* ===== verification/Helpers.v ===== *)
(** Two small packages: the logging of the CNI, dpu-cni/pkgs/cnilogging, and what the device
    handlers can ask about a PCI device, internal/daemon/device-handler/utils.go. *)
From S2P Require Import Prelude Plugin GoMonad Platform Cluster KubeletServer.
#[local] Open Scope stdpp_scope.

(** * cnilogging.go

    The levels are those of the log library, [string_to_level] its parser ([None]: the
    invalid level). *)
Section Logging.
Context {Level : Type} (InfoLevel : Level) (string_to_level : string → option Level).
(** The package's variables, and the library's. *)
Record logging := mkLogging {
  containerID : string; netNS : string; ifName : string; log_level : Level; log_file : string; log_stderr : bool }.
#[local] Instance logging_eta : Eta logging := λ s,
  mkLogging (containerID s) (netNS s) (ifName s) (log_level s) (log_file s) (log_stderr s).
Definition setLogLevel (l : string) (s : logging) : logging := s <| log_level := default InfoLevel (string_to_level l) |>.
Definition setLogFile (fileName : string) (s : logging) : logging :=
  if String.eqb fileName "" then s <| log_stderr := true |> <| log_file := "" |>
  else s <| log_file := fileName |> <| log_stderr := false |>.
Definition Init (logLevel logFile containerIdentification networkNamespace interfaceName : string) (s : logging) : logging :=
  setLogFile logFile (setLogLevel logLevel s)
    <| containerID := containerIdentification |> <| netNS := networkNamespace |> <| ifName := interfaceName |>.
(** Labels and values, alternating. *)
Definition label (key value : string) (args : list string) : list string := if String.eqb value "" then args else [key; value] ++ args.
Definition prependArgs (s : logging) (args : list string) : list string :=
  ["cniName"; "dpu-sriov-cni"] ++ label "containerID" (containerID s) (label "netns" (netNS s) (label "ifname" (ifName s) args)).
End Logging.
Arguments logging : clear implicits.

(** * device-handler/utils.go

    [Readlink] and [ReadFile] are what the file system answers. *)
Definition sysBusPciDevices : string := "/sys/bus/pci/devices".
Definition GetDriverName (Readlink : string → result string) (pciAddr : string) : result string :=
  match Readlink (Join [sysBusPciDevices; pciAddr; "driver"]) with
  | Err e => Err (Text ("error getting driver info for device " +:+ pciAddr +:+ " " +:+ Error e))
  | Ok driverInfo => Ok (Base driverInfo)
  end.
Definition GetNumaNode (ReadFile : string → result string) (pciAddr : string) : Z :=
  match ReadFile (Join [sysBusPciDevices; pciAddr; "numa_node"]) with
  | Err _ => (-1)%Z
  | Ok node => default (-1)%Z (atoi (trim_space node))
  end.
Example driver_name : GetDriverName (λ p, Ok ("../../../../bus/pci/drivers/" +:+ "vfio-pci")) "0000:06:00.1" = Ok "vfio-pci".
Proof. vm_compute. reflexivity. Qed.
Example numa_node : GetNumaNode (λ p, Ok ("1" +:+ String (Ascii.ascii_of_nat 10) "")) "0000:06:00.1" = 1%Z.
Proof. vm_compute. reflexivity. Qed.

(** * Theorems *)

(** A pair of labels and values says of every message which CNI wrote it, and for which
    container, namespace and interface where these are known: the request sets them anew. *)
Theorem labels_of_request {L} (info : L) (parse : string → option L) level file c n i (s : logging L) args :
  c ≠ "" → n ≠ "" → i ≠ "" →
  prependArgs (Init info parse level file c n i s) args =
    ["cniName"; "dpu-sriov-cni"; "containerID"; c; "netns"; n; "ifname"; i] ++ args.
Proof.
  intros Hc Hn Hi. unfold prependArgs, Init, label. simpl. apply String.eqb_neq in Hc, Hn, Hi. by rewrite Hc, Hn, Hi.
Qed.
