(* ===== verification/NfEndToEnd.v ===== *)
(** The whole path of a network function: a pod of the DPU gets two interfaces, the daemon
    of the DPU (SideManagers.v) asks its vendor plugin (GrpcPlugin.v) for a network function
    between them, and the Netsec process (Netsec.v) puts the other ends of the two veth pairs
    on the bridge; the deletion of the pod takes the same path. *)
From S2P Require Import Prelude Plugin Scan Net OpiClient VendorPlugin GrpcPlugin GoMonad CniTypes SriovUtils Sriov NetworkFn SideManagers VspNet Netsec Marvell Links EndToEnd.
#[local] Open Scope stdpp_scope.

(** * The handlers *)

(** The request the handler goes on with names the same pod. *)
Lemma NfCmdAdd_netns {N} `{!NetOps N} req (w w' : cni_world N) res req' :
  returns (NfCmdAdd req) w w' (Ok (res, req')) → Netns req' = Netns req.
Proof.
  unfold NfCmdAdd. intros H. do 4 (inv_call H as H1; clear H1).
  destruct (String.eqb _ ""); [by apply ret_returns in H as [_ [= _ ->]]|]. inv_call H as H1.
  destruct (ipam_NewResultFromResult _) as [new|e]; [|by inv_bind H as H2; apply ret_returns in H as [_ [=]]].
  destruct (_ =? 0)%nat; [by apply ret_returns in H as [_ [=]]|]. inv_bind H as H2.
  match goal with H : returns (match ?r with _ => _ end) _ _ _ |- _ => destruct r as [u|e] end.
  - by apply ret_returns in H as [_ [= _ ->]].
  - by inv_bind H as H3; apply ret_returns in H as [_ [=]].
Qed.

Section Handlers.
Context {N W : Type} `{!NetOps N, !VendorOps W}.
Implicit Type w : dpu_world N W.
(** An interface that is added is the pod's last, and a pod's second one asks for a network
    function; nothing becomes of the answer. *)
Lemma nf_add_step req w w' r : returns (cniCmdNfAddHandler req) w w' (Ok r) →
  ∃ mac, macs_of (Netns req) w' = macs_of (Netns req) w ++ [mac] ∧
    vendor w' = match macs_of (Netns req) w with [m0] => (vp_CreateNetworkFunction m0 mac (vendor w)).1 | _ => vendor w end.
Proof.
  unfold returns, cniCmdNfAddHandler, try_bind, ignore, on_dpu_cni, on_vendor, set_macs, writes, reads, mbind, M_bind, mret, M_ret.
  destruct (NfCmdAdd req (dpu_cni w)) as [c [[[res req']|e]|]] eqn:E; [|done..].
  pose proof (NfCmdAdd_netns _ _ _ _ _ E) as En. rewrite En. simpl. unfold macs_of. simpl. intros H. exists (MAC (CNIConf req')).
  destruct (default [] (macStore (dpu w) !! Netns req)) as [|m0 [|m1 [|m2 macs]]]; simpl in H;
    try (destruct (vp_CreateNetworkFunction _ _ (vendor w))); simpl in H; injection H as <- _; simpl; by rewrite lookup_insert_eq.
Qed.
(** A deletion drops the pod's last interface; the first of two takes the network function
    with it. *)
Lemma nf_del_step req w w' r : returns (cniCmdNfDelHandler req) w w' (Ok r) →
  macs_of (Netns req) w' = removelast (macs_of (Netns req) w) ∧
  vendor w' = match macs_of (Netns req) w with [m0; m1] => (vp_DeleteNetworkFunction m0 m1 (vendor w)).1 | _ => vendor w end.
Proof.
  unfold returns, cniCmdNfDelHandler, try_bind, ignore, on_dpu_cni, on_vendor, set_macs, writes, reads, panic, mbind, M_bind, mret, M_ret.
  destruct (NfCmdDel req (dpu_cni w)) as [c [[u|e]|]]; [|done..]. simpl. unfold macs_of. simpl. intros H.
  destruct (default [] (macStore (dpu w) !! Netns req)) as [|m0 [|m1 [|m2 macs]]]; simpl in H; try done;
    try (destruct (vp_DeleteNetworkFunction _ _ (vendor w))); simpl in H; injection H as <- _; simpl; by rewrite lookup_insert_eq.
Qed.
End Handlers.

(** * The vendor plugin *)

(** The registry plugin leaves network functions to the process too. *)
Class DeclinesNf (P : Type) `{!PluginOps P} := {
  no_CreateNetworkFunction i o p : (op_CreateNetworkFunction i o p).2 ≠ None;
  no_DeleteNetworkFunction i o p : (op_DeleteNetworkFunction i o p).2 ≠ None }.
#[export] Instance simple_declines_nf {B} `{!OPIServer B} pd dial cs fs now :
  @DeclinesNf (plugin_state * world B) (simple_ops pd dial cs fs now).
Proof.
  split; intros *; simpl; unfold VendorPlugin.CreateNetworkFunction, VendorPlugin.DeleteNetworkFunction, unimplemented_err;
    destruct (initialized _); done.
Qed.

Section Vendor.
Context {P S : Type} `{!PluginOps P, !DeclinesNf P} (conn_state : nat → connectivity) (vsp_dial : option error).
Lemma vendor_creates `{!VSPServer (process S)} now i o (s s' : GrpcPlugin * gworld P (process S)) :
  @vp_CreateNetworkFunction _ (grpc_vendor conn_state vsp_dial now) i o s = (s', Ok tt) →
  vsp_CreateNetworkFunction i o (g_vsp s.2) = (g_vsp s'.2, None).
Proof.
  simpl. unfold GrpcPlugin.CreateNetworkFunction. destruct (hybrid _ _ _ _ _ _ _ _) as [[g w] r] eqn:E. intros [= <- ->].
  apply hybrid_declined in E; [|intros p; unfold of_err; pose proof (no_CreateNetworkFunction i o p); by destruct (op_CreateNetworkFunction i o p) as [q []]].
  unfold of_err in E. by destruct (vsp_CreateNetworkFunction i o (g_vsp s.2)) as [v [e|]]; simplify_eq/=.
Qed.
Lemma vendor_deletes `{!VSPServer (process S)} now i o (s s' : GrpcPlugin * gworld P (process S)) :
  @vp_DeleteNetworkFunction _ (grpc_vendor conn_state vsp_dial now) i o s = (s', Ok tt) →
  vsp_DeleteNetworkFunction i o (g_vsp s.2) = (g_vsp s'.2, None).
Proof.
  simpl. unfold GrpcPlugin.DeleteNetworkFunction. destruct (hybrid _ _ _ _ _ _ _ _) as [[g w] r] eqn:E. intros [= <- ->].
  apply hybrid_declined in E; [|intros p; unfold of_err; pose proof (no_DeleteNetworkFunction i o p); by destruct (op_DeleteNetworkFunction i o p) as [q []]].
  unfold of_err in E. by destruct (vsp_DeleteNetworkFunction i o (g_vsp s.2)) as [v [e|]]; simplify_eq/=.
Qed.
End Vendor.

(** * The Netsec server *)

(** Both veth pairs have their other ends on the bridge, and one more network function is
    counted. *)
Record connected {W} `{!OvsView W} (i o : string) (vi vo : VEthPairDeviceInfo) (v v' : intelNetSecVspServer * W) : Prop := {
  cn_input : vethTunnelPairDevs v.1 !! i = Some vi;
  cn_output : vethTunnelPairDevs v.1 !! o = Some vo;
  cn_server : v'.1 = v.1 <| numNfs := (numNfs v.1 + 1)%Z |>;
  cn_bridge : bridge_ports OvSBridgeName v'.2 = {[PeerName vi; PeerName vo]} ∪ bridge_ports OvSBridgeName v.2 }.
Section Functions.
Context {W : Type} `{!HostOps W, !OvsView W, !OvsLaws W}.
Implicit Type (v : intelNetSecVspServer * W).
Lemma find_veth_ok mac what v v' d : returns (find_veth mac what) v v' (Ok d) → v' = v ∧ vethTunnelPairDevs v.1 !! mac = Some d.
Proof.
  unfold find_veth. intros H. inv_bind H as H1. apply server_returns in H1 as [-> ->]. apply ret_returns in H as [-> H].
  by destruct (vethTunnelPairDevs v.1 !! mac); simplify_eq.
Qed.
Lemma create_nf_connects i o v v' : returns (Netsec.CreateNetworkFunction i o) v v' (Ok tt) → ∃ vi vo, connected i o vi vo v v'.
Proof.
  unfold Netsec.CreateNetworkFunction. intros H. inv_call H as H1. apply find_veth_ok in H1 as [-> Hi]. inv_call H as H1. apply find_veth_ok in H1 as [-> Ho].
  inv_call H as H1. destruct a1. apply on_host_returns in H1 as [E1 H1]. apply ifUp_run in H1 as [_ B1].
  inv_call H as H2. destruct a1. apply on_host_returns in H2 as [E2 H2]. apply ifUp_run in H2 as [_ B2].
  inv_bind H as H3. apply modify_returns in H3 as ->. apply ret_returns in H as [-> _].
  eexists _, _. split; [done|done|simpl; congruence|]. simpl. rewrite B2, B1. set_solver.
Qed.
Lemma delete_nf_disconnects i o v v' : returns (Netsec.DeleteNetworkFunction i o) v v' (Ok tt) →
  ∃ vi vo, vethTunnelPairDevs v.1 !! i = Some vi ∧ vethTunnelPairDevs v.1 !! o = Some vo ∧
    v'.1 = v.1 <| numNfs := (numNfs v.1 - 1)%Z |> ∧
    bridge_ports OvSBridgeName v'.2 = bridge_ports OvSBridgeName v.2 ∖ {[PeerName vi; PeerName vo]}.
Proof.
  unfold Netsec.DeleteNetworkFunction. intros H. inv_bind H as H3. apply modify_returns in H3 as ->.
  inv_call H as H1. apply find_veth_ok in H1 as [-> Hi]. inv_call H as H1. apply find_veth_ok in H1 as [-> Ho].
  inv_call H as H1. destruct a2. apply on_host_returns in H1 as [E1 H1]. apply ifDown_run in H1 as [_ B1].
  apply on_host_returns in H as [E2 H]. apply ifDown_run in H as [_ B2].
  eexists _, _. split; [exact Hi|]. split; [exact Ho|]. split; [by rewrite E2, E1|]. rewrite B2, B1. simpl. set_solver.
Qed.
End Functions.

(** * Properties *)

Section System.
Context {N P W : Type} `{!NetOps N, !PluginOps P, !HostOps W}.
Context (conn_state : nat → connectivity) (vsp_dial : option error) (unavailable : error) (status : error → error).
(** The daemon of the DPU with its Netsec process, and its two handlers at time [now]. *)
Definition dpu_daemon : Type := dpu_world N (GrpcPlugin * gworld P (netsec W)).
Definition netsec_under (w : dpu_daemon) : intelNetSecVspServer * W := inside (g_vsp (vendor w).2).
Definition vendor_now (now : Z) : VendorOps (GrpcPlugin * gworld P (netsec W)) := vendor_at conn_state vsp_dial unavailable status now.
Definition nf_add (now : Z) (req : PodRequest) : M dpu_daemon (result (option CniResult)) :=
  cniCmdNfAddHandler (VendorOps0 := vendor_now now) req.
Definition nf_del (now : Z) (req : PodRequest) : M dpu_daemon (result (option CniResult)) :=
  cniCmdNfDelHandler (VendorOps0 := vendor_now now) req.
End System.
Arguments dpu_daemon : clear implicits.


(** * A DPU with two veth pairs *)

Module NfDemo.
Import VendorDemo GrpcDemo HostDemo EndToEndDemo.
#[export] Existing Instance NetworkFnDemo.netns_eq_dec.
(** The interfaces of the machine by their indices; the index is the last byte of the
    address. *)
Abbreviation ifaces := (gmap Z ifstate).
Definition link_at (i : Z) (n : ifstate) : Link :=
  {| lk_index := i; lk_name := if_name n; lk_mac := [2; 0; 0; 0; 0; i]%Z; lk_up := if_up n; lk_alias := if_alias n; lk_vfs := [] |}.
Definition edit (ns : netns) (l : Link) (f : ifstate → ifstate) (m : ifaces) : ifaces * option error :=
  match m !! lk_index l with
  | Some n => if bool_decide (if_ns n = ns) then (<[lk_index l := f n]> m, None) else (m, Some (Text "no such device"))
  | None => (m, Some (Text "no such device"))
  end.
#[export] Instance many_links : NetOps ifaces :=
  {| os_fault _ _ n := (n, None); the_fs _ := NetworkFnDemo.no_fs;
     ns_GetNS _ n := (n, NsFound); ns_GetCurrentNS n := (n, None); ns_enter _ n := (n, None);
     nl_LinkByName ns name m :=
       (m, match List.find (λ p, bool_decide (if_ns p.2 = ns ∧ if_name p.2 = name)) (map_to_list m) with
           | Some (i, n) => Ok (link_at i n) | None => Err (Text "Link not found") end);
     nl_LinkSetUp ns l := edit ns l (λ s, s <| if_up := true |>);
     nl_LinkSetDown ns l := edit ns l (λ s, s <| if_up := false |>);
     nl_LinkSetName ns l name := edit ns l (λ s, s <| if_name := name |>);
     nl_LinkSetAlias ns l a := edit ns l (λ s, s <| if_alias := a |>);
     nl_LinkSetNsFd ns l to := edit ns l (λ s, s <| if_ns := to |>);
     nl_LinkSetHardwareAddr _ _ _ n := (n, None); nl_LinkSetVfHardwareAddr _ _ _ n := (n, None);
     nl_LinkSetVfVlanQosProto _ _ _ _ _ n := (n, None); nl_LinkSetVfRate _ _ _ _ n := (n, None);
     nl_LinkSetVfSpoofchk _ _ _ n := (n, None); nl_LinkSetVfTrust _ _ _ n := (n, None);
     nl_LinkSetVfState _ _ _ n := (n, None); send_raw _ _ n := (n, None);
     ipam_ExecAdd _ _ n := (n, Ok ""); ipam_NewResultFromResult _ := Err (Text "");
     ipam_ExecDel _ _ n := (n, None); ipam_ConfigureIface _ _ _ n := (n, None) |}.
Definition pair_of_links : ifaces := {[5%Z := mkIf HostNS "nf_if0" true ""; 7%Z := mkIf HostNS "nf_if1" true ""]}.
Definition pod (device ifName : string) : PodRequest :=
  mkPodRequest CNIAdd "default" "nf" "" "c1" "/proc/1/ns/net" ifName "/opt/cni/bin"
    (zero_NetConf <| ConfDeviceID := device |> <| DeviceIDType := DeviceIDTypeNetdev |>) {| Env := ∅; Config := "" |} "net".
Definition q1 := pod "nf_if0" "net1".
Definition q2 := pod "nf_if1" "net2".
Abbreviation sysd := (dpu_daemon ifaces plugin machine).
Abbreviation nf_add := (nf_add (N := ifaces) (P := plugin) (W := machine) up None unavailable status).
Abbreviation nf_del := (nf_del (N := ifaces) (P := plugin) (W := machine) up None unavailable status).
Definition x0 : sysd := mkDpuWorld (mkDpu ∅ None) (mkWorld ∅ ∅ pair_of_links) EndToEndDemo.daemon.
Definition x1 : sysd := (nf_add 0 q1 x0).1.
Definition x2 : sysd := (nf_add 1 q2 x1).1.
Definition x3 : sysd := (nf_del 2 q2 x2).1.
Definition x4 : sysd := (nf_del 3 q1 x3).1.
Definition answered (o : outcome (result (option CniResult))) : option CniResult := match o with Ret (Ok r) => r | _ => None end.
Lemma first_added : (nf_add 0 q1 x0).2 = Ret (Ok (answered (nf_add 0 q1 x0).2)).
Proof. vm_compute. reflexivity. Qed.
Lemma second_added : (nf_add 1 q2 x1).2 = Ret (Ok (answered (nf_add 1 q2 x1).2)).
Proof. vm_compute. reflexivity. Qed.
Lemma first_deleted : (nf_del 2 q2 x2).2 = Ret (Ok None).
Proof. vm_compute. reflexivity. Qed.
Lemma second_deleted : (nf_del 3 q1 x3).2 = Ret (Ok None).
Proof. vm_compute. reflexivity. Qed.
Example function_connected : bridge_ports OvSBridgeName (netsec_under x2).2 = {["dp_if0"; "dp_if1"]} ∪ bridge_ports OvSBridgeName (netsec_under x0).2.
Proof. apply leibniz_equiv, (bool_decide_unpack _). vm_compute. exact I. Qed.
End NfDemo.
Import VendorDemo GrpcDemo HostDemo EndToEndDemo NfDemo.
