(* ===== verification/MarvellEndToEnd.v ===== *)
(** The whole path of a bridge port on a Marvell accelerator: the host (SideManagers.v) asks
    the daemon of the DPU, whose vendor plugin (GrpcPlugin.v) passes the request on to the
    Marvell process (Marvell.v), which keeps the ports of all VFs in one list and connects
    each to the network function by three rules on the bridge. *)
From S2P Require Import Prelude Plugin Scan Net OpiClient VendorPlugin GrpcPlugin GoMonad CniTypes SriovUtils Sriov SideManagers VspNet MrvlUtils DataPlane Marvell Links EndToEnd.
#[local] Open Scope stdpp_scope.

(** * The system *)

Section System.
Context {N1 N2 P W : Type} `{!NetOps N1, !NetOps N2, !PluginOps P, !HostOps W}.
Context (dp : mrvldp W) (order : gmap string mrvlDeviceInfo → list mrvlDeviceInfo).
Context (conn_state : nat → connectivity) (vsp_dial : option error) (unavailable : error) (status : error → error).

Definition marvell : Type := process (mrvlVspServer * W).
Definition marvell_side : Type := process (dpu_world N2 (GrpcPlugin * gworld P marvell)).
Definition marvell_system : Type := host_world N1 marvell_side.
(** The server of the Marvell process as the host holds it. *)
Definition marvell_of (w : marvell_system) : mrvlVspServer * W := inside (process_at (remote w)).
Definition marvell_at (now : Z) : BridgeClient marvell_side :=
  relay (VSPServer0 := marvell_process unavailable status dp order) conn_state vsp_dial unavailable status now.
Definition marvell_add (dial : option error) (now : Z) (req : PodRequest) : M marvell_system (result (option CniResult)) :=
  hostCmdAddHandler (BridgeClient0 := marvell_at now) dial req.
Definition marvell_del (dial : option error) (now : Z) (req : PodRequest) : M marvell_system (result (option CniResult)) :=
  hostCmdDelHandler (BridgeClient0 := marvell_at now) dial req.
End System.
Arguments marvell : clear implicits.
Arguments marvell_side : clear implicits.
Arguments marvell_system : clear implicits.

(** * The ports of the server *)

Definition ports (s : mrvlVspServer) : list vfInfo := vfPort (network s NfName).
Definition with_ports (l : list vfInfo) (s : mrvlVspServer) : mrvlVspServer :=
  s <| networkStore := <[NfName := network s NfName <| vfPort := l |>]> (networkStore s) |>.
(** The servers differ in nothing that is ever read. *)
Definition same_server (s s' : mrvlVspServer) : Prop :=
  (∀ k, network s' k = network s k) ∧ s' <| networkStore := networkStore s |> = s.
Lemma ports_with_ports l s : ports (with_ports l s) = l.
Proof. unfold ports, with_ports, network at 1. simpl. by rewrite lookup_insert_eq. Qed.
Lemma with_ports_twice l l' s : with_ports l (with_ports l' s) = with_ports l s.
Proof. unfold with_ports, network. simpl. rewrite lookup_insert_eq, insert_insert_eq. done. Qed.
Lemma with_own_ports s : same_server s (with_ports (ports s) s).
Proof.
  split; [|by destruct s]. intros k. unfold with_ports, network, ports. simpl.
  destruct (decide (k = NfName)) as [->|Hne]; [rewrite lookup_insert_eq|by rewrite lookup_insert_ne].
  simpl. unfold network. by destruct (default (mkNf [] "" "") (networkStore s !! NfName)).
Qed.
Lemma remove_vf_new name m l : name ∉ vfName <$> l → remove_vf name (l ++ [mkVfInfo name m]) = l.
Proof.
  induction l as [|vf l IH]; intros Hn; simpl; [by rewrite String.eqb_refl|]. rewrite fmap_cons in Hn.
  destruct (String.eqb_spec (vfName vf) name) as [E|_]; [set_solver|]. rewrite IH; [done|set_solver].
Qed.
Lemma vf_mac_new name m l : name ∉ vfName <$> l → vf_mac name (l ++ [mkVfInfo name m]) = m.
Proof.
  unfold vf_mac. induction l as [|vf l IH]; intros Hn; simpl; [by rewrite String.eqb_refl|]. rewrite fmap_cons in Hn.
  destruct (String.eqb_spec (vfName vf) name) as [E|_]; [set_solver|]. apply IH. set_solver.
Qed.
Lemma remove_vf_listed name x l : name ∈ vfName <$> l → remove_vf name (l ++ [x]) = remove_vf name l ++ [x].
Proof.
  induction l as [|vf l IH]; intros Hn; [by apply elem_of_nil in Hn|]. simpl.
  destruct (String.eqb_spec (vfName vf) name) as [_|E]; [done|]. rewrite fmap_cons in Hn. simpl. rewrite IH; [done|set_solver].
Qed.
Lemma vf_mac_listed name x l : name ∈ vfName <$> l → vf_mac name (l ++ [x]) = vf_mac name l.
Proof.
  unfold vf_mac. induction l as [|vf l IH]; intros Hn; [by apply elem_of_nil in Hn|]. simpl.
  destruct (String.eqb_spec (vfName vf) name) as [_|E]; [done|]. rewrite fmap_cons in Hn. apply IH. set_solver.
Qed.
(** What the deletion of the port of a listed VF does to the server. *)
Lemma dropped_port name l s s2 : let s1 := with_ports l s in
  networkStore s2 = alter (λ n, n <| vfPort := remove_vf name (vfPort n) |>) NfName (networkStore s1) →
  s2 <| networkStore := networkStore s1 |> = s1 → s2 = with_ports (remove_vf name l) s.
Proof.
  intros s1 Hs Hr. unfold s1 in *. destruct s, s2. unfold with_ports in *. simpl in *. rewrite alter_insert_eq in Hs. simpl in Hs.
  injection Hr as -> -> -> -> ->. by rewrite Hs.
Qed.

(** The VF that a host's VF number stands for, as the machine names it at some time. *)
Definition names_vf {W} `{!HostOps W} (vf : Z) (name : string) : Prop :=
  ∃ pci (w w' : W), returns (getVFDetails (host_port_name 0 vf)) w w' (Ok (name, pci)).

Section Ports.
Context {W : Type} `{!HostOps W, !PlainNames W} (dp : mrvldp W) `{!FlowContract W dp}.
Abbreviation table v := (flows Bridge v.2).
Implicit Type (v : mrvlVspServer * W).

(** The rules of a port while there is a network function. *)
Definition port_rules (s : mrvlVspServer) (name m : string) : list (string * string * string) :=
  if isNF s then vf_rules (inpPort (network s NfName)) (outPort (network s NfName)) (mkVfInfo name m) else [].
(** A port is put behind the others, and its rules on the bridge. *)
Record attached (name m : string) v v' : Prop := {
  at_server : v'.1 = with_ports (ports v.1 ++ [mkVfInfo name m]) v.1;
  at_flows : table v' = foldl add_rule (table v) (port_rules v.1 name m) }.
(** The rules that go with a port whose address is [m]. *)
Definition without_rules (s : mrvlVspServer) (name m : string) (t : flow_table) : flow_table :=
  if isNF s then
    remove_flows (inpPort (network s NfName)) m (remove_flows (outPort (network s NfName)) m (remove_flows name "" t))
  else t.
(** The first port of the name is gone, and the rules that go with its address. *)
Record detached (name : string) v v' : Prop := {
  de_server : networkStore v'.1 = alter (λ n, n <| vfPort := remove_vf name (vfPort n) |>) NfName (networkStore v.1);
  de_rest : v'.1 <| networkStore := networkStore v.1 |> = v.1;
  de_flows : port_gone name (without_rules v.1 name (vf_mac name (ports v.1)) (table v)) (table v') }.

Lemma getVF_ok n v v' x : returns (on_host (getVFDetails n)) v v' (Ok x) →
  v'.1 = v.1 ∧ table v' = table v ∧ Plain x.1 ∧ returns (getVFDetails n) v.2 v'.2 (Ok x).
Proof.
  intros [E H]%on_host_returns. split; [done|]. split; [|split; [|done]].
  - apply (preserves_returns (flows Bridge)) in H; [done|by eapply quiet_getVF].
  - by eapply plain_getVF.
Qed.
Lemma create_attaches vf m v v' r : names_plain v.1 → bridgeName v.1 = Bridge → Forall is_byte m →
  returns (Marvell.CreateBridgePort dp (host_port_request 0 vf m)) v v' (Ok r) →
  ∃ name, names_vf (W := W) vf name ∧ Plain name ∧ attached name (mac_string m) v v'.
Proof.
  intros Hp Hb Hm%plain_mac H. unfold Marvell.CreateBridgePort in H. cbn [CreateBp host_port_request BpName BpSpec MacAddress] in H.
  inv_call H as H1. destruct a as [name pci]. apply getVF_ok in H1 as (E1 & T1 & Hn & H1). simpl in Hn.
  inv_call H as H2. apply (add_port_ok dp) in H2 as [E2 T2]. inv_bind H as H3. apply server_returns in H3 as [-> ->].
  inv_bind H as H3. apply modify_returns in H3 as ->. inv_bind H as H3. apply server_returns in H3 as [-> ->]. simpl in H.
  exists name. split; [by do 3 eexists|]. split; [done|]. rewrite E2, E1 in *. rewrite T1 in T2.
  pose proof (plain_network _ NfName Hp) as (Hi & Ho & _). inv_call H as H4. apply ret_returns in H as [-> _].
  destruct (isNF v.1) eqn:Enf; [destruct a1; apply (vf_flows_ok dp) in H4 as [E4 T4]; [|done..]|inv_ret H4].
  - split; [unfold with_ports; simpl; by rewrite Enf|]. unfold port_rules. rewrite Enf, T4. simpl. by rewrite T2.
  - split; [unfold with_ports; simpl; by rewrite Enf|]. unfold port_rules. by rewrite Enf.
Qed.
(** A deletion that is answered without an error has done its work, or has given up on the
    rules of the network function and left the port. *)
Lemma delete_detaches vf v v' : names_plain v.1 → bridgeName v.1 = Bridge →
  returns (Marvell.DeleteBridgePort dp (host_port_name 0 vf)) v v' (Ok tt) →
  ∃ name, names_vf (W := W) vf name ∧ (detached name v v' ∨ isNF v.1 = true ∧ v'.1 = v.1).
Proof.
  intros Hp Hb H. unfold Marvell.DeleteBridgePort in H. inv_call H as H1. destruct a as [name pci].
  apply getVF_ok in H1 as (E1 & T1 & Hn & H1). simpl in Hn. exists name. split; [by do 3 eexists|].
  inv_bind H as H3. apply server_returns in H3 as [-> ->]. rewrite E1 in H.
  pose proof (plain_network _ NfName Hp) as (Hi & Ho & Hl). pose proof (plain_vf_mac name _ Hl) as Hm.
  inv_call H as H2. assert (a = true → w0.1 = v.1 ∧ table w0 = without_rules v.1 name (vf_mac name (ports v.1)) (table v)) as Hd.
  { intros ->. unfold without_rules. destruct (isNF v.1); [|apply ret_returns in H2 as [-> _]; by rewrite E1].
    unfold delete_vf_flows in H2. inv_bind H2 as H4. apply server_returns in H4 as [-> ->]. rewrite E1 in H2.
    inv_call H2 as H4. destruct a. apply (delete_flow_ok dp) in H4 as [E4 T4]; [|by rewrite ?E1|done..]. inv_bind H2 as H5.
    destruct a as [[]|]; [|by apply ret_returns in H2 as [_ [=]]]. apply (delete_flow_ok dp) in H5 as [E5 T5]; [|by rewrite E4, E1|done..].
    inv_bind H2 as H6. destruct a as [[]|]; [|by apply ret_returns in H2 as [_ [=]]].
    apply (delete_flow_ok dp) in H6 as [E6 T6]; [|by rewrite E5, E4, E1|done..]. apply ret_returns in H2 as [-> _].
    split; [congruence|]. by rewrite T6, T5, T4, T1. }
  destruct a; simpl in H.
  - left. destruct (Hd eq_refl) as [E2 T2]. inv_call H as H5. apply (delete_port_ok dp) in H5 as [E5 T5]. inv_bind H as H6.
    apply modify_returns in H6 as ->. apply ret_returns in H as [-> _]. rewrite E2 in E5. rewrite T2 in T5.
    split; simpl; rewrite ?E5; [done|by destruct v.1|done].
  - right. apply ret_returns in H as [-> _]. destruct (isNF v.1); [|by apply ret_returns in H2 as [_ [=]]]. split; [done|].
    unfold delete_vf_flows in H2. inv_bind H2 as H4. apply server_returns in H4 as [-> ->].
    inv_call H2 as H4. apply (delete_flow_server dp) in H4 as E4. inv_bind H2 as H5. apply (delete_flow_server dp) in H5 as E5.
    destruct a0; [inv_bind H2 as H6; apply (delete_flow_server dp) in H6 as E6|]; apply ret_returns in H2 as [-> _]; congruence.
Qed.
End Ports.

(** ** The rules of a port *)

Lemma rule_dst src dst m : m ≠ "" → dl_dst (rule src dst m).1 = m.
Proof. intros Hm. unfold rule. destruct (String.eqb_spec m ""); [done|]. simpl. by case_match. Qed.
Lemma without_rules_lookup s name m t k a : m ≠ "" → isNF s = true →
  without_rules s name m t !! k = Some a ↔
  t !! k = Some a ∧ in_port k ≠ name ∧ (dl_dst k = m → in_port k ≠ inpPort (network s NfName) ∧ in_port k ≠ outPort (network s NfName)).
Proof.
  intros Hm Hnf. unfold without_rules, remove_flows, matched_by. rewrite Hnf, !map_lookup_filter_Some. simpl.
  destruct (String.eqb_spec m ""); [done|]. simpl.
  destruct (String.eqb_spec (in_port k) name), (String.eqb_spec (in_port k) (inpPort (network s NfName))),
    (String.eqb_spec (in_port k) (outPort (network s NfName))), (String.eqb_spec (dl_dst k) m); simpl; naive_solver.
Qed.
Lemma port_rules_other s name m t k : m ≠ "" → in_port k ≠ name → dl_dst k ≠ m → foldl add_rule t (port_rules s name m) !! k = t !! k.
Proof.
  intros Hm Hn Hd. unfold port_rules, add_rule. destruct (isNF s); [|done]. simpl. rewrite !lookup_insert_ne; [done|..]; intros <-.
  - by apply Hn.
  - by rewrite rule_dst in Hd.
  - by rewrite rule_dst in Hd.
Qed.
Lemma without_rules_with_ports l s name m t : without_rules (with_ports l s) name m t = without_rules s name m t.
Proof.
  unfold without_rules, with_ports. change (network (_ <| networkStore := ?x |>)) with (λ k, default (mkNf [] "" "") (x !! k)).
  simpl. by rewrite lookup_insert_eq.
Qed.
(** Taking the rules of a port away after adding them leaves a part of the flows there were:
    all of other ports and other addresses. *)
Lemma rules_restored s name m t t' : m ≠ "" →
  port_gone name (without_rules s name m (foldl add_rule t (port_rules s name m))) t' →
  t' ⊆ t ∧ ∀ k, in_port k ≠ name → dl_dst k ≠ m → t' !! k = t !! k.
Proof.
  intros Hm [Hsub Hk]. destruct (isNF s) eqn:Hnf; cycle 1.
  { unfold without_rules, port_rules in *. rewrite Hnf in *. split; [done|]. intros k Hn _. apply Hk. by left. }
  split.
  - apply map_subseteq_spec. intros k a Ha. eapply lookup_weaken in Ha; [|exact Hsub].
    apply without_rules_lookup in Ha as (Ha & Hn & Hd); [|done..]. revert Ha. unfold port_rules, add_rule. rewrite Hnf. simpl.
    rewrite !lookup_insert_ne; [done|..]; intros <-; rewrite ?rule_in_port, ?rule_dst in *; naive_solver.
  - intros k Hn Hd. rewrite Hk by by left. apply option_eq. intros a. rewrite without_rules_lookup, port_rules_other; naive_solver.
Qed.
(** The rules that go with another address stay. *)
Lemma rules_kept s name m m0 t t' : isNF s = true → m ≠ "" → m0 ≠ "" → m ≠ m0 →
  inpPort (network s NfName) ≠ name → outPort (network s NfName) ≠ name →
  port_gone name (without_rules s name m0 (foldl add_rule t (port_rules s name m))) t' →
  t' !! (rule (inpPort (network s NfName)) name m).1 = Some (rule (inpPort (network s NfName)) name m).2 ∧
  t' !! (rule (outPort (network s NfName)) (outPort (network s NfName)) m).1 = Some "in_port".
Proof.
  intros Hnf Hm Hm0 Hne Hi Ho [_ Hk]. rewrite !Hk, !without_rules_lookup by (rewrite ?rule_in_port; tauto).
  unfold port_rules. rewrite Hnf. cbn [vf_rules foldl vfName mac]. unfold add_rule. cbn [fst snd].
  rewrite !rule_in_port, !rule_dst by done. unfold rule. destruct (String.eqb_spec m ""); [done|]. simpl.
  rewrite String.eqb_refl. destruct (String.eqb_spec (inpPort (network s NfName)) name); [done|]. simpl.
  rewrite lookup_insert_ne, !lookup_insert_eq by done. naive_solver.
Qed.

(** * A pod on its way *)

Section Pods.
Context {N1 N2 P W : Type} `{!NetOps N1, !NetOps N2, !PluginOps P, !Declines P, !HostOps W, !PlainNames W}.
Context (dp : mrvldp W) `{!FlowContract W dp} (order : gmap string mrvlDeviceInfo → list mrvlDeviceInfo).
Context (conn_state : nat → connectivity) (vsp_dial : option error) (unavailable : error) (status : error → error).
Abbreviation sys := (marvell_system N1 N2 P W).
Abbreviation add := (marvell_add (N1 := N1) (N2 := N2) (P := P) dp order conn_state vsp_dial unavailable status).
Abbreviation del := (marvell_del (N1 := N1) (N2 := N2) (P := P) dp order conn_state vsp_dial unavailable status).
Definition asked (now : Z) (vf : Z) (w : sys) : marvell_side N2 P W * option error :=
  @bc_DeleteBridgePort _ (marvell_at dp order conn_state vsp_dial unavailable status now) (host_port_name 0 vf) (remote w).

Lemma add_attaches dial now req (w w' : sys) r : names_plain (marvell_of w).1 → bridgeName (marvell_of w).1 = Bridge →
  returns (add dial now req) w w' (Ok r) →
  ∃ conf m name, cache (host_cni w') !! cache_path (ContainerId req) (CniTypes.IfName req) = Some (json_roundtrip conf) ∧
    ParseMAC (EffectiveMAC (OrigVfState conf)) = Ok m ∧ names_vf (W := W) (VFID conf) name ∧
    attached dp name (mac_string m) (marvell_of w) (marvell_of w') ∧ names_plain (marvell_of w').1.
Proof.
  intros Hp Hb H. apply host_add_bridge_port in H as (conf & m & port & Hm & Hc & Hcache).
  apply relay_create in Hc. apply serve_ok in Hc as (_ & _ & Hc). pose proof (plain_mac _ (ParseMAC_bytes _ _ Hm)) as Hpm.
  apply (create_attaches dp) in Hc as (name & Hn & Hpn & Ha); [|done..|by eapply ParseMAC_bytes].
  exists conf, m, name. do 4 (split; [done|]). destruct Ha as [Hs _]. change (inside (process_at (remote w'))) with (marvell_of w') in Hs.
  rewrite Hs. destruct (plain_network _ NfName Hp) as (Hi & Ho & Hl). pose proof Hp as [Hd Hk]. split; simpl; [done|].
  intros k n [[<- <-]|[_ ?]]%lookup_insert_Some; [|by eapply Hk]. split; [done|]. split; [done|]. simpl. apply Forall_app. by auto.
Qed.
Lemma del_detaches dial now req (w w' : sys) r conf : names_plain (marvell_of w).1 → bridgeName (marvell_of w).1 = Bridge →
  cache (host_cni w) !! cache_path (ContainerId req) (CniTypes.IfName req) = Some conf →
  returns (del dial now req) w w' (Ok r) →
  if released (CmdDel req (host_cni w)) then
    remote w' = (asked now (VFID conf) w).1 ∧ ((asked now (VFID conf) w).2 = None →
      ∃ name, names_vf (W := W) (VFID conf) name ∧
        (detached dp name (marvell_of w) (marvell_of w') ∨ isNF (marvell_of w).1 = true ∧ (marvell_of w').1 = (marvell_of w).1))
  else remote w' = remote w.
Proof.
  intros Hp Hb Hc H. apply host_del_asks in H. rewrite Hc in H. destruct (released _); [|done]. destruct H as (c & [= <-] & Hr).
  split; [done|]. intros Ha. unfold asked in Ha. destruct (bc_DeleteBridgePort _ (remote w)) as [b e] eqn:E. simpl in Ha, Hr. subst e.
  apply relay_delete in E. apply serve_err_ok in E as (_ & _ & E). apply (delete_detaches dp) in E as (name & Hn & Hd); [|done..].
  exists name. split; [done|]. unfold marvell_of. rewrite Hr. exact Hd.
Qed.
End Pods.

(** * Properties *)


(** A port that was left behind, by a deletion that failed or gave up, takes the place of the
    next one of its VF: the host drops the error of a deletion, and the DPU does not refuse a
    second port of a VF.  When the pod that has the VF next is deleted, the entry of the dead
    pod goes and its own stays, and so do its rules on the bridge, which keep sending frames
    for its address to the VF. *)
Theorem marvell_stale_port {N1 N2 P W} `{!NetOps N1, !NetOps N2, !PluginOps P, !Declines P, !HostOps W, !PlainNames W}
    dp `{!FlowContract W dp} order conn_state vsp_dial unavailable status dial now now' req dreq (w w1 w2 : marvell_system N1 N2 P W) r r' :
  names_plain (marvell_of w).1 → bridgeName (marvell_of w).1 = Bridge → isNF (marvell_of w).1 = true →
  returns (marvell_add dp order conn_state vsp_dial unavailable status dial now req) w w1 (Ok r) →
  ContainerId dreq = ContainerId req → CniTypes.IfName dreq = CniTypes.IfName req →
  returns (marvell_del dp order conn_state vsp_dial unavailable status dial now' dreq) w1 w2 (Ok r') →
  released (CmdDel dreq (host_cni w1)) = true → ports (marvell_of w2).1 ≠ ports (marvell_of w1).1 →
  ∃ vf m name name', names_vf (W := W) vf name ∧ names_vf (W := W) vf name' ∧
    let answer := asked dp order conn_state vsp_dial unavailable status now' vf w1 in
    (answer.2 = None → name' = name → name ∈ vfName <$> ports (marvell_of w).1 →
      ports (marvell_of w2).1 = remove_vf name (ports (marvell_of w).1) ++ [mkVfInfo name (mac_string m)] ∧
      let inp := inpPort (network (marvell_of w).1 NfName) in let out := outPort (network (marvell_of w).1 NfName) in
      let old := vf_mac name (ports (marvell_of w).1) in
      (inp ≠ name → out ≠ name → old ≠ "" → old ≠ mac_string m →
        flows Bridge (marvell_of w2).2 !! (rule inp name (mac_string m)).1 = Some (rule inp name (mac_string m)).2 ∧
        flows Bridge (marvell_of w2).2 !! (rule out out (mac_string m)).1 = Some "in_port")).
Proof.
  intros Hp Hb Hnf Hadd Ec Ei Hdel Hrel Hch. apply (add_attaches dp) in Hadd as (conf & m & name & Hcache & Hm & Hn & [As Af] & Hp1); [|done..].
  assert (bridgeName (marvell_of w1).1 = Bridge) as Hb1 by by rewrite As. rewrite <-Ec, <-Ei in Hcache.
  eapply (del_detaches dp) in Hdel; [|done..]. rewrite Hrel in Hdel. destruct Hdel as [_ Hd].
  exists (VFID conf), m, name.
  destruct (asked dp order conn_state vsp_dial unavailable status now' (VFID conf) w1).2 eqn:Hans.
  { exists name. do 2 (split; [done|]). intros answer Ha. unfold answer in Ha. congruence. }
  destruct (Hd Hans) as (name' & Hn' & [[Ds Dr Df]|[_ Hsame]]); [|by destruct Hch; rewrite Hsame].
  exists name'. split; [done|]. split; [done|]. intros answer _ -> Hin.
  rewrite As, ports_with_ports, vf_mac_listed, without_rules_with_ports, Af in Df by done.
  rewrite As in Ds, Dr. apply dropped_port in Ds; [|exact Dr]. rewrite Ds, ports_with_ports, remove_vf_listed by done.
  split; [done|]. intros inp out old Hi Ho Hold Hne. pose proof (ParseMAC_text _ _ Hm).
  by eapply rules_kept in Df.
Qed.

(** * A host and a Marvell DPU *)

Module MarvellPodDemo.
Import VendorDemo GrpcDemo HostDemo OvsDemo MarvellDemo EndToEndDemo.
#[export] Existing Instance SriovDemo.demo_net.
Abbreviation sys := (marvell_system SriovDemo.machine SriovDemo.machine plugin host).
Abbreviation add := (marvell_add (N1 := SriovDemo.machine) (N2 := SriovDemo.machine) (P := plugin) dp all_devices up None unavailable status None).
Abbreviation del := (marvell_del (N1 := SriovDemo.machine) (N2 := SriovDemo.machine) (P := plugin) dp all_devices up None unavailable status None).
Definition around (v : V) : sys :=
  mkHostWorld (mkHost false None) (SriovDemo.w0 false)
    (true, mkDpuWorld (mkDpu ∅ None) (SriovDemo.w0 false) (g0, Build_gworld (New, Build_world no_conns tt) (true, v) no_conns)).
(** A network function, and no port yet. *)
Definition function_only : V := (CreateNetworkFunction dp nf_in nf_out MarvellDemo.initialized).1.
Lemma only_function_created : CreateNetworkFunction dp nf_in nf_out MarvellDemo.initialized = (function_only, Ret (Ok tt)).
Proof. unfold function_only. apply (ran (CreateNetworkFunction dp nf_in nf_out)). vm_compute. reflexivity. Qed.
Lemma function_only_plain : names_plain function_only.1.
Proof.
  apply (serving_plain dp), (serves_serving dp all_devices MarvellDemo.initialized).
  - exact (Init_serving dp all_devices _ MarvellDemo.started _ plain_new dpu_init_ran).
  - eapply (serves_op _ _ _ (OpCreateNetworkFunction nf_in nf_out)); [apply serves_start|done|by eapply ignore_returns; eexists; exact only_function_created].
Qed.
Lemma function_only_bridge : bridgeName function_only.1 = Bridge.
Proof. vm_compute. reflexivity. Qed.
Definition w0 : sys := around function_only.
Definition w1 : sys := (add 0 SriovDemo.plain w0).1.
Definition w2 : sys := (del 60 SriovDemo.plain w1).1.
Lemma pod_added : (add 0 SriovDemo.plain w0).2 = Ret (Ok (added (add 0 SriovDemo.plain w0).2)).
Proof. vm_compute. reflexivity. Qed.
Lemma pod_deleted : (del 60 SriovDemo.plain w1).2 = Ret (Ok None).
Proof. vm_compute. reflexivity. Qed.
(** The port and its way in are there while the pod is. *)
Example port_there : vfName <$> ports (marvell_of w1).1 = ["sdp0v0"] ∧ ports (marvell_of w2).1 = [].
Proof. split; vm_compute; reflexivity. Qed.
Example way_in_there : table Bridge (marvell_of w1).2 !! mkFlow 10 "sdp0v0" "" = Some "output:dp_interface0".
Proof. vm_compute. reflexivity. Qed.
Example way_in_gone : table Bridge (marvell_of w2).2 !! mkFlow 10 "sdp0v0" "" = None.
Proof. vm_compute. reflexivity. Qed.

(** The port of a pod that is gone. *)
Definition x0 : sys := around with_function.
Definition x1 : sys := (add 0 SriovDemo.plain x0).1.
Definition x2 : sys := (del 60 SriovDemo.plain x1).1.
Lemma next_added : (add 0 SriovDemo.plain x0).2 = Ret (Ok (added (add 0 SriovDemo.plain x0).2)).
Proof. vm_compute. reflexivity. Qed.
Lemma next_deleted : (del 60 SriovDemo.plain x1).2 = Ret (Ok None).
Proof. vm_compute. reflexivity. Qed.
Lemma with_function_plain : names_plain with_function.1.
Proof.
  apply (serving_plain dp), (serves_serving dp all_devices MarvellDemo.initialized); [|exact function_served].
  exact (Init_serving dp all_devices _ MarvellDemo.started _ plain_new dpu_init_ran).
Qed.
Lemma with_function_bridge : bridgeName with_function.1 = Bridge.
Proof. vm_compute. reflexivity. Qed.
Lemma with_function_nf : isNF with_function.1 = true.
Proof. vm_compute. reflexivity. Qed.
Lemma next_given_back : released (CmdDel SriovDemo.plain (host_cni x1)) = true.
Proof. vm_compute. reflexivity. Qed.
Lemma port_dropped : ports (marvell_of x2).1 ≠ ports (marvell_of x1).1.
Proof. vm_compute. discriminate. Qed.
Example hairpin_left : table Bridge (marvell_of x2).2 !! mkFlow 100 "dp_interface1" "02:00:00:00:00:01" = Some "in_port".
Proof. vm_compute. reflexivity. Qed.
Example port_left : vfName <$> ports (marvell_of x2).1 = ["sdp0v0"].
Proof. vm_compute. reflexivity. Qed.
End MarvellPodDemo.
Import VendorDemo GrpcDemo HostDemo OvsDemo MarvellDemo EndToEndDemo MarvellPodDemo.

Lemma marvell_stale_port_witness : ∃ vf name, names_vf (W := host) vf name.
Proof.
  destruct (marvell_stale_port dp all_devices up None EndToEndDemo.unavailable EndToEndDemo.status None 0 60 SriovDemo.plain SriovDemo.plain
    x0 x1 x2 _ _ with_function_plain with_function_bridge with_function_nf (ran _ _ _ next_added) eq_refl eq_refl
    (ran _ _ _ next_deleted) next_given_back port_dropped) as (vf & m & name & name' & H & _). by exists vf, name.
Defined.
